(* ===== verification/_CoqProject ===== *)
-Q . S2P
Prelude.v
Text.v
MwSocket.v
MessageTypes.v
MwErrno.v
Translate.v
WorkQueue.v
MwDebugfs.v
InsState.v
InsFacts.v
Pollset.v
Networking.v
NetworkingFacts.v
Dispatcher.v
DispatcherInv.v
DispatcherFacts.v
Ins.v
Samples.v
InsTheorems.v
SocketLife.v
Streams.v
Reports.v
ErrorPaths.v
XenRing.v
InsDriver.v
PvmXen.v
Handshake.v
RingChannel.v
Wakeup.v
InsTable.v
DeviceFacts.v
Threads.v
PvmCalls.v
MwsState.v
MwsRequest.v
MwsResponse.v
MwsFile.v
MwsTables.v
MwsWalk.v
MwsWorld.v
MwsInvariant.v
MwsThreads.v
MwsSamples.v
MwsSafety.v
MwsDelivery.v
MwsRoundTrip.v
MwsWrite.v
MwsReports.v
MwsErrors.v
MwsDeath.v
MwNetflow.v
MwNetflowServer.v
MwNetflowSamples.v
MwNetflowFacts.v
MwNetflowThreads.v
MwBase.v
MwBaseFacts.v
Shim.v
ShimCalls.v
ShimRequest.v
ShimWalk.v
ShimNative.v
ShimSafety.v
ShimFacts.v
ShimStack.v
ShimEndToEnd.v
InsLink.v
InsServe.v
InsRecv.v
WholeCall.v
WholeRecv.v
