(* ===== verification/Prelude.v ===== *)
(** * MagicWand communications backbone

    A protected VM (PVM) runs applications whose TCP/IP calls are carried
    over a ring in shared memory to isolated network stacks (INS), each a
    unikernel that makes the real socket calls. This development models
    the INS side of that path, the formats both sides share, the ring
    between them with its drivers on both sides, the kernel module of the
    protected VM that multiplexes the sockets of its processes over the
    rings and reports their traffic to monitors, and the library in the
    applications that turns their socket calls into requests.

    ** The program's parts and the files that model them

    - The shared formats, src/common: [MwSocket] (mwsocket.h: the 64-bit
      descriptor), [MessageTypes] (message_types.h with
      exports/imports/mw_netflow_iface.h and common_config.h.template: requests and
      responses), [MwErrno] (mwerrno.h and the translation table of
      xenevent.c), [Translate] (translate.h, and the message flags of
      networking.c).
    - The INS application, src/ins/ins-rump/apps/ins-app: [WorkQueue]
      (workqueue.c: the ring of buffer indices of a worker), [InsState]
      (threadpool.h, bufferpool.h, xenevent_app_common.h, config.h: the
      state, and the system it runs on), [Pollset] (pollset.c),
      [Networking] (networking.c: one function per request handler) and
      [Dispatcher] (xenevent.c: buffer items, worker threads, responses,
      the processing and assignment of requests, start and end).

    The dispatcher thread reads a request from the device into a free
    buffer item, finds the worker thread its socket belongs to (a new one
    for a new socket) and either runs the handler itself or queues the
    buffer's index for the worker, whose semaphore counts its queue.
    Whoever runs the handler writes the response and frees the item.

    ** How state and operations correspond to the code

    One record per struct with one field per member that the code uses
    ([thread_item], [buffer_item], [xenevent_globals], [workqueue],
    [mt_response]), one function per C function with its name. A pointer
    to a thread or a buffer item is its index in the array. Integers are
    [Z] and every conversion to a C type is written out ([u16], [s32],
    ...). Functions that touch the state are in the monad [ins_m], with
    four outcomes: done, an access C leaves undefined ([Undef]), a wait on
    a semaphore nobody has posted ([Block]) and spent fuel
    ([Fuel]). The socket calls, the device and the packet filter are
    not part of the repository's own code: they are the class [NetOS], one
    function from a call and a world to a result, and [NetOSLaws] states
    what their manual pages promise (no call reports more bytes than it
    was given room for). Every theorem holds for every instance;
    [ScriptOS], which answers from a list, is the one of the witnesses.

    Threads interleave by whole iterations of their loops ([ins_step] in
    [Ins]); the two places where an interleaving inside an iteration
    matters ([worker_take] and the second release of a buffer item) are
    separate functions, which [ErrorPaths] interleaves. Loops that repeat
    a system call take fuel; [Streams] shows how much is enough: one round
    per interruption for the receive calls, one per byte for the send
    loop. [recv_loop] has two passes, as many as the flag [polled] allows.

    ** What the theorems show

    - [InsTheorems]: in every state reachable from start-up the
      bookkeeping is consistent, no access is undefined, every request is
      answered or queued, a worker serves its oldest request and answers
      it, a queue never overflows and a semaphore counts its queue.
      [InsFacts], [NetworkingFacts], [DispatcherInv], [DispatcherFacts]
      and [Ins] hold the rules behind them, one per operation.
    - [SocketLife]: which thread serves which descriptor, and what
      creating and closing a socket changes.
    - [Streams]: the receive handler against a reference, and the send
      loop delivers a prefix of the payload.
    - [Reports]: the texts and the pollset reports the INS publishes.
    - [WorkQueue]: the ring refines a bounded FIFO.
    - The round trips of the formats, in the files of the formats.
    - [ErrorPaths]: exits and interleavings that go wrong, with concrete
      runs from start-up.

    [Samples] holds the concrete runs of the witnesses.

    ** The ring between the two domains

    - [Text]: the numbers both sides exchange as text, and the INS's own
      strtoul (lib/libbmk_core/strtoul.c) with every base.
    - [XenRing]: the interface of Xen's ring macros, which are not in the
      repository. The class [XenRing] has one operation per macro,
      [XenRingLaws] states what ring.h documents: free-running 32-bit
      counters, a power-of-two size, one slot shared by a request and its
      response. [chan] is the abstract channel (requests on the way, how
      many are unanswered, responses on the way) and [ring_repr] says
      which shared memory and private counters hold it.
      [SimpleRing] is an instance for the concrete runs.
    - [InsDriver]: the driver inside the INS,
      src-netbsd/sys/rump/dev/lib/libxenevent (xenevent_comms.c,
      xenevent_device.c, xenevent_minios.c, xenevent_netbsd.c), in the
      monad [xe_m] over the class [XenOS] (XenStore, event channels,
      memory, the node of the device).
    - [PvmXen]: the protected VM's side,
      protvm/kernel/mwcomms/mwcomms-xen-iface.c, in the monad [pvm_m] over
      the class [PvmOS], with the few lines of mwsocket_send_request()
      (mwcomms-socket.c) that put a request into its slot.
    - [Handshake]: the grant references written by one side are those the
      other side maps. [RingChannel]: the two drivers together refine
      [chan]; what an answer too many and a failed send do. [Wakeup]: the
      reader of the ring against the sender and the event channel, step by
      step. [InsTable]: round robin, heartbeats and the reaper.
      [DeviceFacts]: the way of a heartbeat from the device to the table,
      and error paths of the device.

    Each operation of the two drivers is one step: the protected VM holds
    the lock of a request slot from taking it to giving it back, and the
    INS allows one reader and one writer. Where the finer order matters,
    between the reader's look at the ring and its wait, [Wakeup] has one
    step per access. The shared memory is read as the other domain left
    it; a domain that changes a slot while it is read is not modelled.
    Every operation of the drivers records its calls in a trace
    ([xs_trace], [pv_trace]), from which [Handshake] takes the contents of
    the XenStore. Waiting loops take fuel: the wait for a request needs
    one round per signal of its semaphore, the wait for the number of
    chunks one look when the other side has written it.

    ** The socket driver of the protected VM

    protvm/kernel/mwcomms/mwcomms-socket.c, with the structures of
    mwcomms-ioctls.h and mw_netflow_iface.h. A process writes a request to
    the file of a socket and reads the response; one thread takes
    responses off the rings, another polls the INS domains for events and
    cleans up after dead ones; a listening socket has a sibling on every
    INS.

    - [Threads]: a thread is a program ([prog]) of atomic steps, each a
      function in the state monad; [pool_step] takes a step of any thread
      of a pool, or lets the outside change the state; a blocked step is
      not taken. [pool_invariant] is the rule for invariants, [returns_all]
      speaks of the results of a thread in every interleaving, and [alone]
      runs one thread.
    - [MwsState]: socket instances, active requests, globals, and the
      kernel as the class [MwsOS]. [MwsRequest]: the life of both, and the
      way of a request to the ring. [MwsResponse]: responses, the two
      threads, the reaper. [MwsFile]: the operations of the file,
      listeners, start and end. Same names as the C functions.
    - [MwsTables], [MwsWalk]: what a function may do to the lists and the
      reference counts, as a few kinds of effect, and that every function
      of the driver does nothing else. [MwsInvariant]: two invariants and
      that they survive these effects. [MwsThreads]: the threads of the
      driver, as a pool. [MwsSamples]: concrete states for the witnesses.
    - [MwsSafety]: the tables are consistent and sockets in use stay, in
      every interleaving. [MwsDelivery], [MwsRoundTrip]: identifiers are
      fresh, a response changes its own request only and reaches the
      process that waits for it. [MwsWrite]: a written request reaches the
      ring. [MwsReports]: totals of batches and
      events. [MwsDeath]: what a dead INS leaves behind. [MwsErrors]:
      error paths, and what users see of them.

    A step goes from one wait to the next, or is a part of that: the
    mutexes of the driver are held within a step, the semaphores, the
    completions and the close lock, which are waited for, are counters of
    the state. The wait for room on a ring, which the code does with the
    lock of the slot held, is one step with [ring_fuel] looks at the ring;
    no theorem depends on their number. The loops of the two threads take
    a number of passes; the theorems about interleavings hold for every
    number. An interrupted or expired wait is an answer of [MwsOS]. The
    search for an identifier has one look more than there are requests,
    which [MwsDelivery] shows to be enough.

    [PvmCalls] says which calls each function of the Xen interface makes,
    and [MwsWorld] that a property of the kernel's side that every call
    keeps is kept by every step of the socket driver.

    ** The rest of the kernel module

    - [MwNetflow], [MwNetflowServer]: protvm/kernel/mwcomms/
      mwcomms-netflow.c. Monitors connect to a port of the protected VM;
      each connection is a channel, to which the socket driver sends a
      record for every response about traffic, and from which feature
      requests are read, that ask for or change an option of a socket. The
      two components call each other: the world of the socket driver is
      [nf_world], whose calls that concern the channel run the channel's
      functions ([LinkedMws], [LinkedPvm]). The kernel is the class
      [ModuleOS]; its calls are kept in a trace.
    - [MwBase]: mwcomms-base.c, load and unload of the module, the external
      address, and the device by whose ioctl a socket is created.
    - [MwNetflowSamples]: concrete channels. [MwNetflowFacts]: the format
      of a record and its way to the monitors, and that the descriptor in
      it names no socket. [MwNetflowThreads]: the list of channels under
      every interleaving with the socket driver. [MwBaseFacts]: the
      external address against a reference, and errors of start and end.

    ** The shim of the applications

    protvm/user/wrapper/tcp_ip_wrapper.c, a library whose functions stand
    in front of libc's.

    - [Shim]: one function for each of them, in [sh], which passes errno
      along; libc and the kernel are the class [ShimSys], a program for
      each call. What a function stores through pointers is part of its
      result. [ShimCalls]: the calls of an application as data, and
      [TracedSys], an instance that records the calls to a system that is a
      function. [ShimWalk]: a property closed under the ways the shim
      builds its programs ([ShimWalk]) holds of all of them.
    - [ShimRequest]: the INS reads what the shim writes. [ShimNative]: calls
      on other descriptors. [ShimSafety]: every sequence of calls ends, and
      keeps the protocol of the driver's files. [ShimFacts]: what a send
      writes and returns, what a receive gives, and what a failed read of a
      response is taken for. [ShimStack]: the instance that runs the file
      operations of the driver, with applications and the threads of the
      module in one pool. [ShimEndToEnd]: the request of a socket call comes
      to the ring, and the response to it becomes the result of the call;
      [idle_socket] and [awaiting] (MwsWrite) are the states between which
      the call goes.

    The loops that repeat an interrupted call take fuel: as many rounds as
    the system asks for, and one, are enough ([ShimSafety]). A send takes
    one round per byte and one more.

    ** A whole call, through both domains

    - [InsLink]: the INS application on its own driver. Its calls on the
      ring device are the entry points of [InsDriver], all others those of
      the network stack ([LinkedNet]); [response_image] is the response in
      memory, of which the write takes as many bytes as its size says.
    - [InsServe]: the steps of the dispatcher around a handler, for one
      buffer item and one worker thread ([serving]), and a request to
      listen from the ring to the ring. [InsRecv]: a receive, which the
      dispatcher queues and the worker serves.
    - [WholeCall], [WholeRecv]: the request of an application comes to the
      ring ([ShimEndToEnd]), the INS runs on the memory this leaves, and
      the protected VM on the memory the INS leaves: listen() returns what
      the stack's listen() returned, and recv() gives exactly the bytes the
      stack's recv() gave. Each of these is one run of the functions of all
      components on the two ends of one ring. A handler that is not queued
      goes the way of listen, a queued one that of a receive; a handler
      enters by what it does to the response ([process_answered]). The ring
      has no other message on the way, and the stack answers the receive
      at its first call; the other answers are in [Streams].

    ** The debug counters

    [MwDebugfs]: protvm/kernel/mwcomms/mwcomms-debugfs.c, the counters of
    messages and the texts that show them and the latest requests. The
    module as it is built by default makes no file that switches them on,
    so the two calls in mwcomms-xen-iface.c do nothing
    ([not_tracing_no_effect]) and [PvmXen] leaves them out. An increment of
    two counters is one step.

    ** What is not modelled

    Third-party code (rumprun, the NetBSD sources, npfctl), scripts and
    test drivers, traces and logs, and assertions, which the default build
    leaves out; of the netflow channel the text of the peer's address,
    which is only printed, and the dump of its state; the log of the shim,
    which is never opened in the default build, but whose arguments it
    evaluates. The traffic builder and the message dumps of the INS
    application use members and enumerators that message_types.h does not
    have any more and are not built; what mwcomms-socket.c does with
    MW_DEBUGFS is not built either, and does not compile.

    Not covered by a theorem about both domains: a send, whose last
    response the driver changes to the total of its batch ([MwsRoundTrip]
    asks for any other response), and an accept, whose response goes to a
    socket of its own. Their halves are in [Streams], [SocketLife],
    [ShimFacts], [MwsReports] and [MwsDelivery].

    ** Conventions of this file

    The prelude has the machine integers, byte lists, bit lemmas, the
    outcome type and the tactics that the other files share. *)

From stdpp Require Import base numbers list tactics.
From Stdlib Require Import ZArith Lia.

Declare Scope c_scope.
Delimit Scope c_scope with c.
#[global] Open Scope Z_scope.

(** ** Machine integers

    A C integer is a [Z]; a conversion to a type of [w] bits is written
    out: [wrapu] for the unsigned types, [wraps] for the signed ones. *)

Definition wrapu (w x : Z) : Z := x mod 2 ^ w.
Definition wraps (w x : Z) : Z := (x + 2 ^ (w - 1)) mod 2 ^ w - 2 ^ (w - 1).

Abbreviation u8 := (wrapu 8).
Abbreviation u16 := (wrapu 16).
Abbreviation u32 := (wrapu 32).
Abbreviation u64 := (wrapu 64).
Abbreviation s16 := (wraps 16).
Abbreviation s32 := (wraps 32).
Abbreviation s64 := (wraps 64).

Definition in_u (w x : Z) : Prop := 0 <= x < 2 ^ w.
Definition in_s (w x : Z) : Prop := - 2 ^ (w - 1) <= x < 2 ^ (w - 1).

#[global] Instance in_u_dec w x : Decision (in_u w x).
Proof. unfold in_u. apply _. Defined.
#[global] Instance in_s_dec w x : Decision (in_s w x).
Proof. unfold in_s. apply _. Defined.

(** C's truth value of an integer. *)
Definition truth (x : Z) : bool := negb (x =? 0).

(** [x & mask] used as a condition. *)
Definition has_flag (x mask : Z) : bool := truth (Z.land x mask).

Lemma wrapu_range w x : 0 <= w -> in_u w (wrapu w x).
Proof.
  intros Hw. unfold in_u, wrapu. apply Z.mod_pos_bound.
  apply Z.pow_pos_nonneg; lia.
Qed.

Lemma wrapu_small w x : in_u w x -> wrapu w x = x.
Proof. apply Z.mod_small. Qed.

Lemma wraps_range w x : 0 < w -> in_s w (wraps w x).
Proof.
  intros Hw. unfold in_s, wraps.
  assert (2 ^ w = 2 * 2 ^ (w - 1)) as Hp
    by (rewrite <- Z.pow_succ_r by lia; f_equal; lia).
  pose proof (Z.mod_pos_bound (x + 2 ^ (w - 1)) (2 ^ w)
                ltac:(apply Z.pow_pos_nonneg; lia)).
  lia.
Qed.

Lemma wraps_small w x : 0 < w -> in_s w x -> wraps w x = x.
Proof.
  intros Hw Hx. unfold wraps, in_s in *.
  assert (2 ^ w = 2 * 2 ^ (w - 1)) as Hp
    by (rewrite <- Z.pow_succ_r by lia; f_equal; lia).
  rewrite Z.mod_small by lia. lia.
Qed.

(** A signed reading of the low [w] bits gives back the signed value. *)
Lemma wraps_wrapu w x : 0 < w -> wraps w (wrapu w x) = wraps w x.
Proof.
  intros Hw. unfold wraps, wrapu.
  rewrite Zplus_mod_idemp_l. reflexivity.
Qed.

Lemma has_flag_zero mask : has_flag 0 mask = false.
Proof. reflexivity. Qed.

Lemma truth_lor x y : truth (Z.lor x y) = truth x || truth y.
Proof.
  unfold truth. destruct (Z.eqb_spec (Z.lor x y) 0) as [H|H].
  - apply Z.lor_eq_0_iff in H as [-> ->]. reflexivity.
  - destruct (Z.eqb_spec x 0) as [->|], (Z.eqb_spec y 0) as [->|]; easy.
Qed.

Lemma has_flag_lor x y m :
  has_flag (Z.lor x y) m = has_flag x m || has_flag y m.
Proof. unfold has_flag. rewrite Z.land_lor_distr_l. apply truth_lor. Qed.

(** Disjoint bit fields: [|] is [+]. *)
Lemma land_shifted_low a b n :
  0 <= n -> in_u n b -> Z.land (a * 2 ^ n) b = 0.
Proof.
  intros Hn Hb. apply Z.bits_inj'. intros m Hm.
  rewrite Z.land_spec, Z.bits_0.
  destruct (Z.lt_ge_cases m n) as [Hlt|Hge].
  - rewrite Z.mul_pow2_bits_low by lia. reflexivity.
  - rewrite <- (wrapu_small n b Hb). unfold wrapu.
    rewrite Z.mod_pow2_bits_high by lia. apply andb_false_r.
Qed.

Lemma lor_shifted_low a b n :
  0 <= n -> in_u n b -> Z.lor (a * 2 ^ n) b = a * 2 ^ n + b.
Proof.
  intros Hn Hb. pose proof (Z.add_lor_land (a * 2 ^ n) b) as H.
  rewrite land_shifted_low in H by done. lia.
Qed.

(** ** Little-endian bytes

    The structures of message_types.h are packed, so that a field lies
    right behind its predecessor; both ends are x86_64. *)

Fixpoint le_bytes (n : nat) (x : Z) : list Z :=
  match n with
  | O => []
  | S k => x mod 256 :: le_bytes k (x / 256)
  end.

Fixpoint le_value (bs : list Z) : Z :=
  match bs with
  | [] => 0
  | b :: rest => u8 b + 256 * le_value rest
  end.

(** The fields of the widths [ws] of a packed structure. A read past
    the end of the region sees no bytes. *)
Fixpoint read_fields (ws : list nat) (bs : list Z) : list Z :=
  match ws with
  | [] => []
  | w :: rest => le_value (take w bs) :: read_fields rest (drop w bs)
  end.

Fixpoint write_fields (ws : list nat) (vs : list Z) : list Z :=
  match ws, vs with
  | w :: ws', v :: vs' => le_bytes w v ++ write_fields ws' vs'
  | _, _ => []
  end.

Lemma length_le_bytes n x : length (le_bytes n x) = n.
Proof. revert x. induction n; intros x; simpl; congruence. Qed.

Lemma le_value_bytes n x : le_value (le_bytes n x) = wrapu (8 * Z.of_nat n) x.
Proof.
  revert x. induction n as [|n IH]; intros x; cbn [le_bytes le_value].
  - unfold wrapu. rewrite Z.mod_1_r. reflexivity.
  - rewrite IH. unfold wrapu.
    replace (8 * Z.of_nat (S n)) with (8 + 8 * Z.of_nat n) by lia.
    rewrite Z.pow_add_r by lia. change (2 ^ 8) with 256.
    rewrite Z.mod_mod by lia. rewrite Z.rem_mul_r; [reflexivity|lia|].
    apply Z.pow_pos_nonneg; lia.
Qed.

Lemma le_value_range bs : 0 <= le_value bs < 256 ^ Z.of_nat (length bs).
Proof.
  induction bs as [|b bs IH]; [simpl; lia|]. cbn [le_value length].
  pose proof (wrapu_range 8 b ltac:(lia)) as Hb. unfold in_u in Hb.
  rewrite Nat2Z.inj_succ, Z.pow_succ_r by lia. lia.
Qed.

Lemma read_fields_nonneg ws bs i : 0 <= nth i (read_fields ws bs) 0.
Proof.
  revert ws bs. induction i as [|i IH]; intros [|w ws] bs; simpl; try lia; auto.
  apply le_value_range.
Qed.

Lemma le_value_take_range w bs : in_u (8 * Z.of_nat w) (le_value (take w bs)).
Proof.
  unfold in_u. pose proof (le_value_range (take w bs)) as H.
  rewrite Z.pow_mul_r by lia. change (2 ^ 8) with 256.
  assert (256 ^ Z.of_nat (length (take w bs)) <= 256 ^ Z.of_nat w).
  { apply Z.pow_le_mono_r; [lia|]. rewrite length_take. lia. }
  lia.
Qed.

(** A field holds what its width can. *)
Lemma read_fields_range ws bs i w :
  ws !! i = Some w -> in_u (8 * Z.of_nat w) (nth i (read_fields ws bs) 0).
Proof.
  revert ws bs. induction i as [|i IH]; intros [|w' ws] bs Hw; simpl in *; try discriminate.
  - injection Hw as ->. apply le_value_take_range.
  - by apply IH.
Qed.

(** What was written is read back, each field at its width, whatever
    follows the structure. *)
Lemma read_write_fields ws vs tail :
  length ws = length vs ->
  read_fields ws (write_fields ws vs ++ tail)
  = zip_with (fun w v => wrapu (8 * Z.of_nat w) v) ws vs.
Proof.
  revert vs. induction ws as [|w ws IH]; intros [|v vs] Hl; simpl in *;
    try discriminate; [reflexivity|].
  injection Hl as Hl. rewrite <- app_assoc.
  rewrite take_app_length' by (rewrite length_le_bytes; reflexivity).
  rewrite drop_app_length' by (rewrite length_le_bytes; reflexivity).
  rewrite le_value_bytes, IH by done. reflexivity.
Qed.

Lemma length_write_fields ws vs :
  length ws = length vs -> length (write_fields ws vs) = sum_list ws.
Proof.
  revert vs. induction ws as [|w ws IH]; intros [|v vs] Hl; simpl in *;
    try discriminate; [reflexivity|].
  rewrite length_app, length_le_bytes, IH by lia. reflexivity.
Qed.

(** ** Layout of C structures (System V x86_64) *)

Inductive cty : Type :=
| CInt (bytes : nat)
| CArr (elt : cty) (n : nat)
| CStruct (packed : bool) (fields : list cty)
| CUnion (packed : bool) (members : list cty).

Fixpoint alignof (t : cty) : nat :=
  match t with
  | CInt b => b
  | CArr e _ => alignof e
  | CStruct p fs | CUnion p fs =>
      if p then 1%nat else fold_right (fun f m => Nat.max (alignof f) m) 1%nat fs
  end.

Definition round_up (x al : nat) : nat := (x + al - 1) / al * al.

Fixpoint sizeof (t : cty) : nat :=
  match t with
  | CInt b => b
  | CArr e n => sizeof e * n
  | CStruct true fs => fold_right (fun f acc => sizeof f + acc)%nat 0%nat fs
  | CStruct false fs =>
      let al := fold_right (fun f m => Nat.max (alignof f) m) 1%nat fs in
      round_up (fold_left (fun off f => round_up off (alignof f) + sizeof f)%nat fs 0%nat) al
  | CUnion p fs =>
      let al := if p then 1%nat
                else fold_right (fun f m => Nat.max (alignof f) m) 1%nat fs in
      round_up (fold_right (fun f m => Nat.max (sizeof f) m) 0%nat fs) al
  end.

(** ** Record updates

    [eta x] is the record [x] written out field by field; the update of
    the field [proj] puts [v] in its place. *)

Ltac set_field eta proj v x :=
  let e := eval cbv beta delta [eta] in (eta x) in
  lazymatch eval pattern (proj x) in e with
  | ?f _ => let r := eval cbv beta in (f v) in exact r
  end.

(** ** Outcomes and the state monad

    [Block] is a call that waits (a semaphore at zero), [Undef] an access
    the C standard leaves undefined (an index outside its array), [Fuel]
    a loop that was not given enough iterations. *)

Inductive outcome (A : Type) : Type :=
| Done (a : A)
| Block
| Undef
| Fuel.
Arguments Done {A} a.
Arguments Block {A}.
Arguments Undef {A}.
Arguments Fuel {A}.

Definition obind {A B} (m : outcome A) (k : A -> outcome B) : outcome B :=
  match m with
  | Done a => k a
  | Block => Block
  | Undef => Undef
  | Fuel => Fuel
  end.

Definition M (S A : Type) : Type := S -> outcome (A * S).

Definition ret {S A} (a : A) : M S A := fun s => Done (a, s).
Definition bind {S A B} (m : M S A) (k : A -> M S B) : M S B :=
  fun s => obind (m s) (fun '(a, s') => k a s').
Definition gets {S A} (f : S -> A) : M S A := fun s => Done (f s, s).
Definition modify {S} (f : S -> S) : M S unit := fun s => Done (tt, f s).
Definition undef {S A} : M S A := fun _ => Undef.
Definition block {S A} : M S A := fun _ => Block.
Definition out_of_fuel {S A} : M S A := fun _ => Fuel.
Definition when {S} (b : bool) (m : M S unit) : M S unit := if b then m else ret tt.

Notation "'let*' x ':=' m 'in' k" := (bind m (fun x => k))
  (at level 10, x pattern, m at level 100, k at level 200) : c_scope.
Notation "m ';;;' k" := (bind m (fun _ => k))
  (at level 199, right associativity) : c_scope.
#[global] Open Scope c_scope.

(** ** Hoare triples for the monad: partial on [Block] and [Fuel], total
    on [Undef] (no undefined access is made). *)

Definition hoare {S A} (P : S -> Prop) (m : M S A) (Q : A -> S -> Prop) : Prop :=
  forall s, P s ->
  match m s with
  | Done (a, s') => Q a s'
  | Undef => False
  | Block | Fuel => True
  end.

Lemma hoare_ret {S A} (P : S -> Prop) (a : A) (Q : A -> S -> Prop) :
  (forall s, P s -> Q a s) -> hoare P (ret a) Q.
Proof. intros H s Hs. simpl. auto. Qed.

Lemma hoare_bind {S A B} (P : S -> Prop) (m : M S A) (k : A -> M S B) R Q :
  hoare P m R -> (forall a, hoare (R a) (k a) Q) -> hoare P (bind m k) Q.
Proof.
  intros Hm Hk s Hs. specialize (Hm s Hs). unfold bind, obind.
  destruct (m s) as [[a s']| | |]; auto. apply (Hk a s' Hm).
Qed.

Lemma hoare_conseq {S A} (P P' : S -> Prop) (m : M S A) (Q Q' : A -> S -> Prop) :
  hoare P' m Q' -> (forall s, P s -> P' s) -> (forall a s, Q' a s -> Q a s) ->
  hoare P m Q.
Proof.
  intros H HP HQ s Hs. specialize (H s (HP s Hs)).
  destruct (m s) as [[a s']| | |]; auto.
Qed.

Lemma hoare_gets {S A} (P : S -> Prop) (f : S -> A) (Q : A -> S -> Prop) :
  (forall s, P s -> Q (f s) s) -> hoare P (gets f) Q.
Proof. intros H s Hs. simpl. auto. Qed.

Lemma hoare_modify {S} (P : S -> Prop) (f : S -> S) (Q : unit -> S -> Prop) :
  (forall s, P s -> Q tt (f s)) -> hoare P (modify f) Q.
Proof. intros H s Hs. simpl. auto. Qed.

Lemma hoare_when {S} (P : S -> Prop) (b : bool) (m : M S unit) (Q : unit -> S -> Prop) :
  (b = true -> hoare P m Q) -> (b = false -> forall s, P s -> Q tt s) ->
  hoare P (when b m) Q.
Proof. intros Ht Hf. destruct b; [auto|]. intros s Hs. simpl. auto. Qed.

Lemma bind_done {S A B} (m : M S A) (k : A -> M S B) s a s' :
  m s = Done (a, s') -> bind m k s = k a s'.
Proof. intros H. unfold bind. rewrite H. reflexivity. Qed.

Lemma bind_inv {S A B} (m : M S A) (k : A -> M S B) s r :
  bind m k s = Done r -> exists a s1, m s = Done (a, s1) /\ k a s1 = Done r.
Proof. unfold bind, obind. destruct (m s) as [[a s1]| | |]; try discriminate. eauto. Qed.

(** ** Evaluated runs *)

(** The state of a run that returns, and its result. *)
Definition out_state {S A} (o : outcome (A * S)) (d : S) : S :=
  match o with Done (_, s) => s | _ => d end.

Definition returns {S A} (o : outcome (A * S)) (test : A -> bool) : bool :=
  match o with Done (a, _) => test a | _ => false end.

Lemma returns_done {S A} (o : outcome (A * S)) (test : A -> bool) d :
  returns o test = true -> exists a, o = Done (a, out_state o d) /\ test a = true.
Proof. destruct o as [[a s]| | |]; simpl; try discriminate. eauto. Qed.

Lemma returns_eq {S A} `{EqDecision A} (o : outcome (A * S)) (a : A) d :
  returns o (fun x => bool_decide (x = a)) = true -> o = Done (a, out_state o d).
Proof. intros H. destruct (returns_done _ _ d H) as (x & E & Hx). by apply bool_decide_eq_true in Hx as ->. Qed.

(** ** Lists used as arrays *)

Lemma lookup_insert_cases {A} (l : list A) i j x y :
  <[i := x]> l !! j = Some y ->
  (i = j /\ (i < length l)%nat /\ y = x) \/ (i <> j /\ l !! j = Some y).
Proof.
  destruct (decide (i = j)) as [->|Hne].
  - intros H. pose proof (lookup_lt_Some _ _ _ H) as Hl.
    rewrite length_insert in Hl.
    rewrite list_lookup_insert_eq in H by done. left. naive_solver.
  - rewrite list_lookup_insert_ne by done. auto.
Qed.

Lemma Forall_insert_mono {A} (P : A -> Prop) (l : list A) i x :
  Forall P l -> P x -> Forall P (<[i := x]> l).
Proof. intros. apply Forall_insert; auto. Qed.

(** ** Automation *)

Create HintDb mw.
#[export] Hint Resolve wrapu_range wraps_range : mw.
#[export] Hint Resolve Forall_insert_mono : mw.

(** Split a goal into its boolean tests, turned into arithmetic facts. *)
Ltac zbool :=
  repeat match goal with
  | H : (_ =? _) = true |- _ => apply Z.eqb_eq in H
  | H : (_ =? _) = false |- _ => apply Z.eqb_neq in H
  | H : (_ <? _) = true |- _ => apply Z.ltb_lt in H
  | H : (_ <? _) = false |- _ => apply Z.ltb_ge in H
  | H : (_ <=? _) = true |- _ => apply Z.leb_le in H
  | H : (_ <=? _) = false |- _ => apply Z.leb_gt in H
  | H : negb _ = true |- _ => apply negb_true_iff in H
  | H : negb _ = false |- _ => apply negb_false_iff in H
  | H : andb _ _ = true |- _ => apply andb_true_iff in H as [? ?]
  | H : orb _ _ = false |- _ => apply orb_false_iff in H as [? ?]
  end.

(** The first step of a run that returned. *)
Ltac run_step H a s E := apply bind_inv in H as (a & s & E & H); cbn beta iota in H.

(** Case analysis on the condition of a conditional in the goal. *)
Ltac cond :=
  match goal with
  | |- context [if ?b then _ else _] => destruct b eqn:?
  | H : context [if ?b then _ else _] |- _ => destruct b eqn:?
  end.
