(* ===== verification/Text.v ===== *)
(** * Text: the numbers the two sides write as text

    The parts of printf() the code uses (%x, %u, %d), a bounded
    snprintf(), and bmk_strtoul() (lib/libbmk_core/strtoul.c), with which
    the INS reads numbers back. A text is a list of bytes without its
    terminating NUL; reading past its end sees the NUL. *)

From Stdlib Require Import String Ascii.
From stdpp Require Import base numbers list.
From Stdlib Require Import ZArith Lia.
From S2P Require Import Prelude.

#[local] Arguments Z.eqb : simpl never.
#[local] Arguments Z.ltb : simpl never.
#[local] Arguments Z.leb : simpl never.
#[local] Arguments Z.div : simpl never.
#[local] Arguments Z.modulo : simpl never.

(** A string constant of the source. *)
Definition text (s : string) : list Z :=
  map (fun a => Z.of_N (N_of_ascii a)) (list_ascii_of_string s).

(** ** Writing numbers *)

(** One digit, in lower case. *)
Definition hex_digit (d : Z) : Z := if d <? 10 then 48 + d else 87 + d.

Fixpoint digits_fuel (base : Z) (n : nat) (x : Z) : list Z :=
  match n with
  | O => []
  | S n' => (if x / base =? 0 then [] else digits_fuel base n' (x / base)) ++ [hex_digit (x mod base)]
  end.

(** %x: sixteen digits are enough for 64 bits. *)
Definition hex_text (x : Z) : list Z := digits_fuel 16 16 x.

(** %u: twenty digits are enough for 64 bits. *)
Definition dec_text (x : Z) : list Z := digits_fuel 10 20 x.

(** %d *)
Definition int_text (x : Z) : list Z := if x <? 0 then 45 :: dec_text (- x) else dec_text x.

(** snprintf() into a buffer of [n] bytes keeps [n - 1] characters. *)
Definition snprintf (n : Z) (text : list Z) : list Z := take (Z.to_nat (n - 1)) text.

(** ** Reading numbers: bmk_strtoul() *)

Definition ULONG_MAX : Z := 2 ^ 64 - 1.

Definition is_space (c : Z) : bool := (c =? 32) || ((9 <=? c) && (c <=? 13)).

(** The value of a character, of any base. *)
Definition char_value (c : Z) : option Z :=
  if (48 <=? c) && (c <=? 57) then Some (c - 48)
  else if (97 <=? c) && (c <=? 122) then Some (c - 97 + 10)
  else if (65 <=? c) && (c <=? 90) then Some (c - 65 + 10)
  else None.

Fixpoint skip_space (s : list Z) : list Z :=
  match s with
  | c :: rest => if is_space c then skip_space rest else s
  | [] => []
  end.

(** The loop over the digits: the value, whether it ended by an overflow
    or without a digit ([any] is 0), and the text it stopped at. *)
Fixpoint strtoul_loop (base : Z) (s : list Z) (acc : Z) (any : bool) : Z * bool * list Z :=
  match s with
  | [] => (acc, any, [])
  | c :: rest =>
      match char_value c with
      | None => (acc, any, s)
      | Some i =>
          if base <=? i then (acc, any, s)
          else if (ULONG_MAX / base <? acc)
                  || ((acc =? ULONG_MAX / base) && (ULONG_MAX mod base <? i))
          then (ULONG_MAX, false, s)
          else strtoul_loop base rest (acc * base + i) true
      end
  end.

(** The base, and the text behind a prefix 0x: with base 0 the text
    itself tells the base. *)
Definition strtoul_base (base : Z) (s : list Z) : Z * list Z :=
  let (base, s) := match s with
                   | 48 :: c :: rest =>
                       if ((base =? 0) || (base =? 16)) && ((c =? 120) || (c =? 88)) then (16, rest) else (base, s)
                   | _ => (base, s)
                   end in
  (if base =? 0 then match s with 48 :: _ => 8 | _ => 10 end else base, s).

(** The function behind its check of the base. *)
Definition bmk_strtoul (nptr : list Z) (base : Z) : Z * list Z :=
  let s := skip_space nptr in
  let (neg, s) := match s with
                  | 45 :: rest => (true, rest)
                  | 43 :: rest => (false, rest)
                  | _ => (false, s)
                  end in
  let (base, s) := strtoul_base base s in
  let '(acc, any, rest) := strtoul_loop base s 0 false in
  (if neg && any then u64 (- acc) else acc, if any then rest else nptr).

(** bmk_strtoul() with the check: [None] is a halt of the platform. Every
    caller in the driver passes 10 or 16. *)
Definition strtoul_valid_base (base : Z) : bool := (base =? 0) || ((2 <=? base) && (base <=? 36)).
Definition bmk_strtoul_checked (nptr : list Z) (base : Z) : option (Z * list Z) :=
  if strtoul_valid_base base then Some (bmk_strtoul nptr base) else None.

(** ** Facts *)

Lemma digit_char d : 0 <= d < 16 -> char_value (hex_digit d) = Some d.
Proof.
  intros Hd. unfold hex_digit. destruct (Z.ltb_spec d 10); unfold char_value.
  - rewrite (proj2 (Z.leb_le _ _)), (proj2 (Z.leb_le _ _)) by lia. simpl. f_equal. lia.
  - rewrite (proj2 (Z.leb_le 48 _)) by lia. rewrite (proj2 (Z.leb_gt _ 57)) by lia. simpl.
    rewrite (proj2 (Z.leb_le 97 _)), (proj2 (Z.leb_le _ 122)) by lia. simpl. f_equal. lia.
Qed.

(** What separates a digit from the other characters the code writes. *)
Definition is_digit (c : Z) : Prop := exists d, 0 <= d < 16 /\ c = hex_digit d.

Lemma digits_are_digits base n x :
  0 < base <= 16 -> Forall is_digit (digits_fuel base n x).
Proof.
  intros Hb. revert x. induction n as [|n IH]; intros x; simpl; [constructor|].
  apply Forall_app. split; [destruct (_ =? _); [constructor|apply IH]|].
  constructor; [|constructor]. exists (x mod base). split; [|done].
  pose proof (Z.mod_pos_bound x base). lia.
Qed.

Lemma digits_nonempty base n x : (0 < n)%nat -> digits_fuel base n x <> [].
Proof. destruct n; [lia|]. intros _. simpl. destruct (_ =? _); [done|].
  intros H. apply app_eq_nil in H as [_ H]. discriminate.
Qed.

Lemma length_digits base n m x :
  1 < base -> 0 <= x < base ^ Z.of_nat m -> (0 < m)%nat -> (length (digits_fuel base n x) <= m)%nat.
Proof.
  intros Hb. revert m x. induction n as [|n IH]; intros m x Hx Hm; [simpl; lia|].
  cbn [digits_fuel]. rewrite length_app. simpl length.
  destruct (Z.eqb_spec (x / base) 0) as [E|E]; [simpl; lia|].
  destruct m as [|[|m]]; [lia| |].
  - exfalso. apply E. apply Z.div_small. rewrite Z.pow_1_r in Hx. lia.
  - rewrite Nat2Z.inj_succ, Z.pow_succ_r in Hx by lia.
    assert (0 <= x / base < base ^ Z.of_nat (S m))
      by (split; [apply Z.div_pos; lia|apply Z.div_lt_upper_bound; lia]).
    pose proof (IH (S m) (x / base)). lia.
Qed.

Lemma length_hex_text m x : in_u (4 * Z.of_nat m) x -> (0 < m)%nat -> (length (hex_text x) <= m)%nat.
Proof.
  intros Hx Hm. apply length_digits; [lia| |done]. unfold in_u in Hx.
  rewrite Z.pow_mul_r in Hx by lia. exact Hx.
Qed.

(** The loop of strtoul() over the digits of [x] has the value [x]. *)
Lemma strtoul_loop_digits base n x rest any :
  1 < base <= 16 -> (0 < n)%nat -> 0 <= x < base ^ Z.of_nat n -> x <= ULONG_MAX ->
  strtoul_loop base (digits_fuel base n x ++ rest) 0 any = strtoul_loop base rest x true.
Proof.
  intros Hb Hn Hx Hm. revert x rest any Hx Hm. induction n as [|n IH]; [lia|].
  intros x rest any Hx Hm. cbn [digits_fuel].
  pose proof (Z.mod_pos_bound x base ltac:(lia)) as Hd. pose proof (Z.div_mod x base ltac:(lia)) as E.
  assert (forall acc b, acc = x / base ->
    strtoul_loop base ([hex_digit (x mod base)] ++ rest) acc b = strtoul_loop base rest x true) as Hstep.
  { intros acc b ->. cbn [app strtoul_loop]. rewrite digit_char by lia.
    rewrite (proj2 (Z.leb_gt _ _)) by lia.
    assert (x / base <= ULONG_MAX / base) by (apply Z.div_le_mono; lia).
    rewrite (proj2 (Z.ltb_ge _ _)) by lia. cbn [orb].
    destruct (Z.eqb_spec (x / base) (ULONG_MAX / base)) as [Eq|]; cbn [andb].
    - pose proof (Z.div_mod ULONG_MAX base ltac:(lia)).
      rewrite (proj2 (Z.ltb_ge _ _)) by (rewrite <- Eq in *; lia).
      f_equal. lia.
    - f_equal. lia. }
  destruct (Z.eqb_spec (x / base) 0) as [E0|E0].
  - apply Hstep. lia.
  - rewrite <- app_assoc. assert (0 < n)%nat.
    { destruct n; [|lia]. exfalso. apply E0. apply Z.div_small.
      change (Z.of_nat 1) with 1 in Hx. rewrite Z.pow_1_r in Hx. lia. }
    rewrite IH; [by apply Hstep|done| |].
    + rewrite Nat2Z.inj_succ, Z.pow_succ_r in Hx by lia.
      split; [apply Z.div_pos; lia|apply Z.div_lt_upper_bound; lia].
    + transitivity x; [|done]. apply Z.div_le_upper_bound; [lia|]. nia.
Qed.

(** What may follow a number. *)
Definition ends_number (rest : list Z) : Prop :=
  match rest with [] => True | c :: _ => char_value c = None end.

Lemma strtoul_loop_end base rest acc any :
  ends_number rest -> strtoul_loop base rest acc any = (acc, any, rest).
Proof. destruct rest as [|c rest]; [done|]. simpl. by intros ->. Qed.

Lemma is_digit_range c : is_digit c -> 48 <= c <= 57 \/ 97 <= c <= 102.
Proof. intros (d & Hd & ->). unfold hex_digit. destruct (Z.ltb_spec d 10); lia. Qed.

Lemma skip_space_digit c s : is_digit c -> skip_space (c :: s) = c :: s.
Proof.
  intros Hc. apply is_digit_range in Hc. cbn [skip_space].
  replace (is_space c) with false; [done|]. symmetry. unfold is_space.
  apply orb_false_iff. split; [apply Z.eqb_neq; lia|].
  apply andb_false_iff. right. apply Z.leb_gt. lia.
Qed.

Lemma skip_space_32 k s : skip_space (replicate k 32 ++ s) = skip_space s.
Proof. induction k as [|k IH]; [done|]. simpl. exact IH. Qed.

Lemma not_prefix c :
  is_digit c \/ char_value c = None -> (c =? 120) || (c =? 88) = false.
Proof.
  intros [Hc%is_digit_range|Hc].
  - apply orb_false_iff. split; apply Z.eqb_neq; lia.
  - apply orb_false_iff. split; apply Z.eqb_neq; intros ->; discriminate.
Qed.

(** The sign and the 0x prefix are absent from a written number. *)
Lemma no_sign {A} (c : Z) (a b d : A) :
  is_digit c -> match c with 45 => a | 43 => b | _ => d end = d.
Proof.
  intros (x & Hx & ->). assert (x = 0 \/ x = 1 \/ x = 2 \/ x = 3 \/ x = 4 \/ x = 5 \/ x = 6 \/ x = 7
    \/ x = 8 \/ x = 9 \/ x = 10 \/ x = 11 \/ x = 12 \/ x = 13 \/ x = 14 \/ x = 15) as Hc by lia.
  repeat destruct Hc as [->|Hc]; [reflexivity..|]. by subst.
Qed.

(** A given base is kept, unless a prefix 0x follows. *)
Lemma strtoul_base_given base c s :
  0 < base -> match s with [] => False | d :: _ => is_digit d end \/ (s = [] \/ match s with [] => False | d :: _ => char_value d = None end) ->
  strtoul_base base (c :: s) = (base, c :: s).
Proof.
  intros Hb Hs. unfold strtoul_base.
  assert (match c :: s with
          | 48 :: c0 :: rest => if ((base =? 0) || (base =? 16)) && ((c0 =? 120) || (c0 =? 88)) then (16, rest) else (base, c :: s)
          | _ => (base, c :: s) end = (base, c :: s)) as ->.
  { destruct s as [|d s]; [by destruct c as [|p|p]; try done; repeat (destruct p as [p|p|]; try done)|].
    rewrite (not_prefix d), andb_false_r by (destruct Hs as [?|[?|?]]; [by left|done|by right]).
    destruct c as [|p|p]; try done. by repeat (destruct p as [p|p|]; try done). }
  by rewrite (proj2 (Z.eqb_neq base 0)) by lia.
Qed.

(** With base 0 the prefix decides. *)
Lemma strtoul_base_found s :
  strtoul_base 0 (48 :: 120 :: s) = (16, s) /\ strtoul_base 0 (48 :: 88 :: s) = (16, s)
  /\ (forall d, 48 <= d <= 57 -> strtoul_base 0 (48 :: d :: s) = (8, 48 :: d :: s))
  /\ (forall d, 49 <= d <= 57 -> strtoul_base 0 (d :: s) = (10, d :: s)).
Proof.
  split; [done|]. split; [done|]. split; intros d Hd; unfold strtoul_base.
  - by rewrite (proj2 (Z.eqb_neq d 120)), (proj2 (Z.eqb_neq d 88)) by lia.
  - assert (d = 49 \/ d = 50 \/ d = 51 \/ d = 52 \/ d = 53 \/ d = 54 \/ d = 55 \/ d = 56 \/ d = 57) as Hc by lia.
    by repeat destruct Hc as [->|Hc]; [..|subst d].
Qed.

(** A number written in base 10 or 16 after any number of spaces is read
    back, and reading stops right behind it. *)
Lemma bmk_strtoul_number base n x k rest :
  1 < base <= 16 -> (0 < n)%nat -> 0 <= x < base ^ Z.of_nat n -> x <= ULONG_MAX ->
  ends_number rest ->
  bmk_strtoul (replicate k 32 ++ digits_fuel base n x ++ rest) base = (x, rest).
Proof.
  intros Hb Hn Hx Hm Hr.
  pose proof (strtoul_loop_digits base n x rest false Hb Hn Hx Hm) as Hl.
  rewrite (strtoul_loop_end _ _ _ _ Hr) in Hl.
  pose proof (digits_are_digits base n x ltac:(lia)) as HF.
  pose proof (digits_nonempty base n x Hn) as Hne.
  unfold bmk_strtoul. rewrite skip_space_32.
  destruct (digits_fuel base n x) as [|c ds]; [done|].
  apply Forall_cons in HF as [Hc HF]. rewrite <- app_comm_cons in *.
  rewrite (skip_space_digit _ _ Hc).
  rewrite (no_sign c (true, ds ++ rest) (false, ds ++ rest) (false, c :: ds ++ rest) Hc).
  assert (strtoul_base base (c :: ds ++ rest) = (base, c :: ds ++ rest)) as ->.
  { apply strtoul_base_given; [lia|]. destruct ds as [|d ds]; simpl.
    - right. destruct rest; [by left|by right].
    - left. by apply Forall_cons in HF as [? _]. }
  rewrite Hl. reflexivity.
Qed.

(** The two uses: a decimal number on its own, and a hexadecimal one. *)
Lemma bmk_strtoul_dec x : in_u 64 x -> bmk_strtoul (dec_text x) 10 = (x, []).
Proof.
  intros Hx. unfold in_u in Hx.
  pose proof (bmk_strtoul_number 10 20 x 0 [] ltac:(lia) ltac:(lia)) as H.
  rewrite app_nil_r in H. apply H; [|unfold ULONG_MAX; lia|done].
  split; [lia|]. transitivity (2 ^ 64); [lia|by vm_compute].
Qed.

Lemma bmk_strtoul_hex x k rest :
  in_u 64 x -> ends_number rest ->
  bmk_strtoul (replicate k 32 ++ hex_text x ++ rest) 16 = (x, rest).
Proof.
  intros Hx Hr. unfold in_u in Hx. apply bmk_strtoul_number; [lia|lia| |unfold ULONG_MAX; lia|done].
  change (16 ^ Z.of_nat 16) with (2 ^ 64). lia.
Qed.
