(* ===== verification/MwSocket.v ===== *)
(** * MwSocket: the file descriptor of a MagicWand socket

    common/mwsocket.h. An mwsocket is a 64-bit value: the byte 'S' on
    top, the 16-bit domain id of the INS below it, and a 32-bit socket
    id, which on the INS is the index of the worker thread that serves
    the socket. The macros are modelled with their conversions; the
    theorems show that the two fields survive a round trip, that the
    value is positive as the signed 64-bit type it is stored in, and
    what a truncation to the 32-bit status field leaves of it. *)

From stdpp Require Import base numbers.
From Stdlib Require Import ZArith Lia.
From S2P Require Import Prelude.

Definition MW_SOCKET_PREFIX_MASK : Z := 0x7f00000000000000.
Definition MW_SOCKET_PREFIX_SHIFT : Z := 56.
Definition MW_SOCKET_PREFIX : Z := 0x53. (* 'S' *)
Definition MW_SOCKET_PREFIX_VAL : Z :=
  u64 (Z.shiftl MW_SOCKET_PREFIX MW_SOCKET_PREFIX_SHIFT).

Definition MW_SOCKET_CLIENT_SHIFT : Z := 40.
Definition MW_SOCKET_CLIENT_MASK : Z := 0x00ffff0000000000.
Definition MW_SOCKET_LOCAL_ID_MASK : Z := 0x00000000ffffffff.

Definition MW_SOCKET_IS_FD (x : Z) : bool :=
  Z.shiftr (u64 x) MW_SOCKET_PREFIX_SHIFT =? MW_SOCKET_PREFIX.

(** The value is a [uint64_t]; its users store it in an [mw_socket_fd_t],
    which is signed. *)
Definition MW_SOCKET_CREATE (clientid sockfd : Z) : Z :=
  u64 (Z.lor (Z.lor MW_SOCKET_PREFIX_VAL
                    (u64 (Z.shiftl (u64 clientid) MW_SOCKET_CLIENT_SHIFT)))
             (Z.land sockfd MW_SOCKET_LOCAL_ID_MASK)).

Definition MW_SOCKET_GET_ID (x : Z) : Z := Z.land x MW_SOCKET_LOCAL_ID_MASK.

Definition MW_SOCKET_CLIENT_ID (x : Z) : Z :=
  u16 (Z.shiftr (Z.land x MW_SOCKET_CLIENT_MASK) MW_SOCKET_CLIENT_SHIFT).

(** ** The value as a sum of its fields *)

Lemma local_id_mask_ones x : Z.land x MW_SOCKET_LOCAL_ID_MASK = u32 x.
Proof. change MW_SOCKET_LOCAL_ID_MASK with (Z.ones 32). apply Z.land_ones. lia. Qed.

Lemma mw_socket_create_sum c i :
  in_u 16 c -> in_u 32 i ->
  MW_SOCKET_CREATE c i = (MW_SOCKET_PREFIX * 2 ^ 16 + c) * 2 ^ 40 + i.
Proof.
  intros Hc Hi. unfold MW_SOCKET_CREATE.
  rewrite local_id_mask_ones, (wrapu_small 32 i Hi).
  unfold in_u in Hc, Hi.
  rewrite (wrapu_small 64 c) by (unfold in_u; lia).
  unfold MW_SOCKET_CLIENT_SHIFT. rewrite Z.shiftl_mul_pow2 by lia.
  rewrite (wrapu_small 64 (c * 2 ^ 40)) by (unfold in_u; lia).
  replace MW_SOCKET_PREFIX_VAL with (MW_SOCKET_PREFIX * 2 ^ 16 * 2 ^ 40) by reflexivity.
  rewrite <- (Z.shiftl_mul_pow2 (MW_SOCKET_PREFIX * 2 ^ 16)), <- (Z.shiftl_mul_pow2 c) by lia.
  rewrite <- Z.shiftl_lor, lor_shifted_low by (unfold in_u; lia).
  rewrite Z.shiftl_mul_pow2 by lia.
  rewrite lor_shifted_low by (unfold in_u; lia).
  apply wrapu_small. unfold in_u, MW_SOCKET_PREFIX. lia.
Qed.

Lemma client_mask_field x :
  Z.shiftr (Z.land x MW_SOCKET_CLIENT_MASK) MW_SOCKET_CLIENT_SHIFT = u16 (x / 2 ^ 40).
Proof.
  rewrite Z.shiftr_land. unfold MW_SOCKET_CLIENT_SHIFT.
  rewrite Z.shiftr_div_pow2 by lia.
  change (Z.shiftr MW_SOCKET_CLIENT_MASK 40) with (Z.ones 16).
  apply Z.land_ones. lia.
Qed.

Lemma mw_socket_get_id c i :
  in_u 16 c -> in_u 32 i -> MW_SOCKET_GET_ID (MW_SOCKET_CREATE c i) = i.
Proof.
  intros Hc Hi. unfold MW_SOCKET_GET_ID.
  rewrite local_id_mask_ones, mw_socket_create_sum by done. unfold wrapu, in_u in *.
  replace ((MW_SOCKET_PREFIX * 2 ^ 16 + c) * 2 ^ 40 + i)
    with (i + (MW_SOCKET_PREFIX * 2 ^ 16 + c) * 2 ^ 8 * 2 ^ 32) by lia.
  rewrite Z.mod_add by lia. apply Z.mod_small. lia.
Qed.

Lemma mw_socket_client_id c i :
  in_u 16 c -> in_u 32 i -> MW_SOCKET_CLIENT_ID (MW_SOCKET_CREATE c i) = c.
Proof.
  intros Hc Hi. unfold MW_SOCKET_CLIENT_ID.
  rewrite client_mask_field, mw_socket_create_sum by done. unfold wrapu, in_u in *.
  rewrite Z.div_add_l by lia. rewrite (Z.div_small i) by lia.
  rewrite Z.add_0_r, Z.add_comm, Z.mod_add by lia.
  rewrite Z.mod_mod by lia. apply Z.mod_small. lia.
Qed.

Lemma mw_socket_is_fd c i :
  in_u 16 c -> in_u 32 i -> MW_SOCKET_IS_FD (MW_SOCKET_CREATE c i) = true.
Proof.
  intros Hc Hi. unfold MW_SOCKET_IS_FD, MW_SOCKET_PREFIX_SHIFT.
  rewrite mw_socket_create_sum by done. unfold in_u, MW_SOCKET_PREFIX in *.
  rewrite wrapu_small by (unfold in_u; lia).
  rewrite Z.shiftr_div_pow2 by lia. apply Z.eqb_eq.
  symmetry. apply Z.div_unique with (r := c * 2 ^ 40 + i); lia.
Qed.

Lemma mw_socket_create_range c i :
  in_u 16 c -> in_u 32 i -> 0 < MW_SOCKET_CREATE c i < 2 ^ 63.
Proof.
  intros Hc Hi. rewrite mw_socket_create_sum by done.
  unfold in_u, MW_SOCKET_PREFIX in *. lia.
Qed.

Lemma mw_socket_signed c i :
  in_u 16 c -> in_u 32 i -> s64 (MW_SOCKET_CREATE c i) = MW_SOCKET_CREATE c i.
Proof.
  intros Hc Hi. pose proof (mw_socket_create_range c i Hc Hi).
  apply wraps_small; unfold in_s; lia.
Qed.

(** The low 32 bits, read as the signed status field, are the socket id. *)
Lemma mw_socket_truncates c i :
  in_u 16 c -> in_u 31 i -> s32 (MW_SOCKET_CREATE c i) = i.
Proof.
  intros Hc Hi. assert (in_u 32 i) as Hi' by (unfold in_u in *; lia).
  rewrite <- wraps_wrapu by lia.
  replace (u32 (MW_SOCKET_CREATE c i)) with i.
  - apply wraps_small; unfold in_u, in_s in *; lia.
  - rewrite <- local_id_mask_ones. symmetry. by apply mw_socket_get_id.
Qed.

(** An mwsocket built from a 16-bit domain id and a 32-bit socket id
    is recognised as an mwsocket, gives both fields back and is a
    positive [int64_t], so that storing it in an [mw_socket_fd_t] changes
    nothing and it never collides with the invalid descriptor -1. *)
Theorem mw_socket_roundtrip c i :
  in_u 16 c -> in_u 32 i ->
  let fd := s64 (MW_SOCKET_CREATE c i) in
  MW_SOCKET_IS_FD fd = true /\ MW_SOCKET_CLIENT_ID fd = c
  /\ MW_SOCKET_GET_ID fd = i /\ 0 < fd /\ fd <> -1.
Proof.
  intros Hc Hi. cbv zeta. rewrite mw_socket_signed by done.
  pose proof (mw_socket_create_range c i Hc Hi).
  rewrite mw_socket_is_fd, mw_socket_client_id, mw_socket_get_id by done.
  repeat split; lia.
Qed.

Lemma mw_socket_roundtrip_witness :
  MW_SOCKET_CLIENT_ID (s64 (MW_SOCKET_CREATE 20 7)) = 20.
Proof. apply (mw_socket_roundtrip 20 7); unfold in_u; lia. Defined.
