(* ===== verification/MessageTypes.v ===== *)
(** * MessageTypes: the messages between the protected VM and an INS

    common/message_types.h, with the socket attributes of
    exports/imports/mw_netflow_iface.h and the sizes of
    common/common_config.h.template. A request lies in a byte region and
    is read through the union view its type selects ([get_*] below, one
    per view); a response is a record, of which the base is also given
    its wire format. The theorems are the round trips of both preambles
    and of the message types, and the size of the largest message. *)

From stdpp Require Import base numbers list.
From Stdlib Require Import ZArith Lia.
From S2P Require Import Prelude MwSocket.

(** ** Sizes (common_config.h.template) *)

Definition MESSAGE_TARGET_MAX_SIZE : Z := 0x800.
Definition MESSAGE_TYPE_MAX_PAYLOAD_LEN : Z := MESSAGE_TARGET_MAX_SIZE - 0x3e - 1.
Definition payload_len : nat := Z.to_nat MESSAGE_TYPE_MAX_PAYLOAD_LEN.

(** ** Signatures and types *)

Definition MT_SIGNATURE_REQUEST : Z := 0xff11.
Definition MT_SIGNATURE_RESPONSE : Z := 0xff33.
Definition MT_RESPONSE_MASK : Z := 0x8000.
Definition MT_TYPE_MASK : Z := 0x7fff.
Definition MT_REQUEST (x : Z) : Z := x.
Definition MT_RESPONSE (x : Z) : Z := Z.lor MT_RESPONSE_MASK x.
Definition MT_GET_REQUEST_TYPE (t : Z) : Z := Z.land t MT_TYPE_MASK.

Definition MT_TYPE_MASK_ALLOC_FD : Z := 0x0100.
Definition MT_TYPE_MASK_DEALLOC_FD : Z := 0x0200.
Definition MT_TYPE_MASK_CLOSE_WAITS : Z := 0x0400.
Definition MT_ALLOCATES_FD (x : Z) : bool := has_flag x MT_TYPE_MASK_ALLOC_FD.
Definition MT_DEALLOCATES_FD (x : Z) : bool := has_flag x MT_TYPE_MASK_DEALLOC_FD.
Definition MT_CLOSE_WAITS (x : Z) : bool := has_flag x MT_TYPE_MASK_CLOSE_WAITS.

Inductive mt_request_type : Type :=
| MtRequestInvalid
| MtRequestSocketCreate
| MtRequestSocketShutdown
| MtRequestSocketClose
| MtRequestSocketConnect
| MtRequestSocketBind
| MtRequestSocketListen
| MtRequestSocketAccept
| MtRequestSocketSend
| MtRequestSocketRecv
| MtRequestSocketRecvFrom
| MtRequestSocketGetName
| MtRequestSocketGetPeer
| MtRequestSocketAttrib
| MtRequestPollsetQuery
| MtRequestAddrBlock.

#[global] Instance mt_request_type_eq_dec : EqDecision mt_request_type.
Proof. solve_decision. Defined.

(** The enumerators' values. *)
Definition request_type_code (t : mt_request_type) : Z :=
  match t with
  | MtRequestInvalid => MT_REQUEST 0x00
  | MtRequestSocketCreate => MT_REQUEST (Z.lor 0x01 MT_TYPE_MASK_ALLOC_FD)
  | MtRequestSocketShutdown => MT_REQUEST 0x02
  | MtRequestSocketClose => MT_REQUEST (Z.lor 0x03 MT_TYPE_MASK_DEALLOC_FD)
  | MtRequestSocketConnect => MT_REQUEST 0x10
  | MtRequestSocketBind => MT_REQUEST 0x11
  | MtRequestSocketListen => MT_REQUEST 0x12
  | MtRequestSocketAccept => MT_REQUEST (Z.lor 0x13 MT_TYPE_MASK_ALLOC_FD)
  | MtRequestSocketSend => MT_REQUEST (Z.lor 0x20 MT_TYPE_MASK_CLOSE_WAITS)
  | MtRequestSocketRecv => MT_REQUEST 0x21
  | MtRequestSocketRecvFrom => MT_REQUEST 0x22
  | MtRequestSocketGetName => MT_REQUEST (Z.lor 0x30 MT_TYPE_MASK_CLOSE_WAITS)
  | MtRequestSocketGetPeer => MT_REQUEST (Z.lor 0x31 MT_TYPE_MASK_CLOSE_WAITS)
  | MtRequestSocketAttrib => MT_REQUEST 0x32
  | MtRequestPollsetQuery => MT_REQUEST 0x33
  | MtRequestAddrBlock => MT_REQUEST 0x34
  end.

Definition all_request_types : list mt_request_type :=
  [MtRequestInvalid; MtRequestSocketCreate; MtRequestSocketShutdown;
   MtRequestSocketClose; MtRequestSocketConnect; MtRequestSocketBind;
   MtRequestSocketListen; MtRequestSocketAccept; MtRequestSocketSend;
   MtRequestSocketRecv; MtRequestSocketRecvFrom; MtRequestSocketGetName;
   MtRequestSocketGetPeer; MtRequestSocketAttrib; MtRequestPollsetQuery;
   MtRequestAddrBlock].

(** Which enumerator a type field holds, if any: the case labels of a
    [switch] on it. *)
Definition request_type_of (code : Z) : option mt_request_type :=
  head (filter (fun t => request_type_code t = code) all_request_types).

Definition response_type_code (t : mt_request_type) : Z :=
  MT_RESPONSE (request_type_code t).
Definition MtResponseInvalid : Z := response_type_code MtRequestInvalid.

Definition MT_INVALID_SOCKET_FD : Z := -1.

(** ** Status values *)

Definition CRITICAL_ERROR_PREFIX : Z := 0xc0.
Definition CRITICAL_ERROR_PREFIX_SHIFT : Z := 24.
(** An [int] expression: the shifted prefix has the sign bit set. *)
Definition CRITICAL_ERROR_MASK : Z :=
  s32 (Z.shiftl CRITICAL_ERROR_PREFIX CRITICAL_ERROR_PREFIX_SHIFT).
Definition CRITICAL_ERROR (x : Z) : Z := Z.lor CRITICAL_ERROR_MASK x.
(** Applied to an [mt_status_t], which is signed: the shift is arithmetic. *)
Definition IS_CRITICAL_ERROR (x : Z) : bool :=
  Z.shiftr x CRITICAL_ERROR_PREFIX_SHIFT =? CRITICAL_ERROR_PREFIX.
Definition MT_STATUS_INTERNAL_ERROR : Z := CRITICAL_ERROR 1.

(** ** Families, flags *)

Definition MT_PF_UNSET : Z := 0.
Definition MT_PF_INET : Z := 1.
Definition MT_PF_INET6 : Z := 2.
Definition MT_ST_UNSET : Z := 0.
Definition MT_ST_DGRAM : Z := 1.
Definition MT_ST_STREAM : Z := 2.

Definition MT_FLAGS_PVM_CALLER_AWAITS_RESPONSE : Z := 0x00000001.
Definition MT_FLAGS_REMOTE_CLOSED : Z := 0x80000000.
Definition MT_FLAGS_BATCH_SEND_INIT : Z := 0x40000000.
Definition MT_FLAGS_BATCH_SEND : Z := 0x20000000.
Definition MT_FLAGS_BATCH_SEND_FINI : Z := 0x10000000.

Definition MW_SOCK_NONBLOCK : Z := 2048. (* octal 4000 *)

Definition MW_MSG_OOB : Z := 0x01.
Definition MW_MSG_PEEK : Z := 0x02.
Definition MW_MSG_DONTROUTE : Z := 0x04.
Definition MW_MSG_CTRUNC : Z := 0x08.
Definition MW_MSG_TRUNC : Z := 0x20.
Definition MW_MSG_DONTWAIT : Z := 0x40.
Definition MW_MSG_EOR : Z := 0x80.
Definition MW_MSG_WAITALL : Z := 0x100.
Definition MW_MSG_NOSIGNAL : Z := 0x4000.
Definition MW_MSG_WAITFORONE : Z := 0x10000.
Definition MW_MSG_CMSG_CLOEXEC : Z := 0x40000000.

Definition MW_POLLIN : Z := 0x001.
Definition MW_POLLPRI : Z := 0x002.
Definition MW_POLLOUT : Z := 0x004.
Definition MW_POLLERR : Z := 0x008.
Definition MW_POLLHUP : Z := 0x010.
Definition MW_POLLNVAL : Z := 0x020.
Definition MW_POLLRDNORM : Z := 0x040.
Definition MW_POLLRDBAND : Z := 0x080.
Definition MW_POLLWRNORM : Z := 0x100.
Definition MW_POLLWRBAND : Z := 0x200.

(** ** Socket attributes (mw_netflow_iface.h) *)

Inductive mt_sockfeat_name : Type :=
| MtSockAttribNone
| MtChannelTrafficMonitorOn
| MtChannelTrafficMonitorOff
| MtSockAttribIsOpen
| MtSockAttribOwnerRunning
| MtSockAttribNonblock
| MtSockAttribReuseaddr
| MtSockAttribReuseport
| MtSockAttribKeepalive
| MtSockAttribDeferAccept
| MtSockAttribNodelay
| MtSockAttribSndBuf
| MtSockAttribRcvBuf
| MtSockAttribSndTimeo
| MtSockAttribRcvTimeo
| MtSockAttribSndLoWat
| MtSockAttribRcvLoWat
| MtSockAttribError
| MtSockAttribGlobalCongctl
| MtSockAttribGlobalDelackTicks
| MtSockAttribAddrBlock.

#[global] Instance mt_sockfeat_name_eq_dec : EqDecision mt_sockfeat_name.
Proof. solve_decision. Defined.

Definition sockfeat_code (n : mt_sockfeat_name) : Z :=
  match n with
  | MtSockAttribNone => 0x0000
  | MtChannelTrafficMonitorOn => 0x0001
  | MtChannelTrafficMonitorOff => 0x0002
  | MtSockAttribIsOpen => 0x0101
  | MtSockAttribOwnerRunning => 0x0102
  | MtSockAttribNonblock => 0x0003
  | MtSockAttribReuseaddr => 0x0004
  | MtSockAttribReuseport => 0x0005
  | MtSockAttribKeepalive => 0x0006
  | MtSockAttribDeferAccept => 0x0007
  | MtSockAttribNodelay => 0x0008
  | MtSockAttribSndBuf => 0x0109
  | MtSockAttribRcvBuf => 0x010a
  | MtSockAttribSndTimeo => 0x010b
  | MtSockAttribRcvTimeo => 0x010c
  | MtSockAttribSndLoWat => 0x010d
  | MtSockAttribRcvLoWat => 0x010e
  | MtSockAttribError => 0x010f
  | MtSockAttribGlobalCongctl => 0x1101
  | MtSockAttribGlobalDelackTicks => 0x1102
  | MtSockAttribAddrBlock => 0x1103
  end.

Definition all_sockfeats : list mt_sockfeat_name :=
  [MtSockAttribNone; MtChannelTrafficMonitorOn; MtChannelTrafficMonitorOff;
   MtSockAttribIsOpen; MtSockAttribOwnerRunning; MtSockAttribNonblock;
   MtSockAttribReuseaddr; MtSockAttribReuseport; MtSockAttribKeepalive;
   MtSockAttribDeferAccept; MtSockAttribNodelay; MtSockAttribSndBuf;
   MtSockAttribRcvBuf; MtSockAttribSndTimeo; MtSockAttribRcvTimeo;
   MtSockAttribSndLoWat; MtSockAttribRcvLoWat; MtSockAttribError;
   MtSockAttribGlobalCongctl; MtSockAttribGlobalDelackTicks; MtSockAttribAddrBlock].

Definition sockfeat_of (code : Z) : option mt_sockfeat_name :=
  head (filter (fun n => sockfeat_code n = code) all_sockfeats).

Definition MT_SOCK_ATTR_MITIGATES (x : Z) : bool := has_flag x 0x0100.
Definition MT_SOCK_ATTR_PER_INS (x : Z) : bool := has_flag x 0x1000.

(** ** Layouts *)

Definition ct_u16 : cty := CInt 2.
Definition ct_u32 : cty := CInt 4.
Definition ct_u64 : cty := CInt 8.

Definition ct_request_base : cty :=
  CStruct true [ct_u16; ct_u32; ct_u16; ct_u64; ct_u64; ct_u32].
Definition ct_response_base : cty :=
  CStruct true [ct_u16; ct_u32; ct_u16; ct_u64; ct_u64; ct_u32; ct_u32; ct_u64].
(** Not packed: two bytes of padding follow the port. *)
Definition ct_sockaddr_in : cty :=
  CStruct false [ct_u32; ct_u16; CStruct false [ct_u64]; CArr (CInt 1) 8].
Definition ct_sockfeat_arg : cty :=
  CUnion true [ct_u32; ct_u64; CStruct true [ct_u64; ct_u64]].
Definition ct_payload : cty := CArr (CInt 1) payload_len.

Definition ct_request_socket_create : cty := CStruct true [ct_request_base; ct_u32; ct_u32; ct_u32].
Definition ct_request_socket_bind : cty := CStruct true [ct_request_base; ct_sockaddr_in].
Definition ct_request_socket_connect : cty := CStruct true [ct_request_base; ct_sockaddr_in].
Definition ct_request_socket_listen : cty := CStruct true [ct_request_base; ct_u32].
Definition ct_request_socket_accept : cty := CStruct true [ct_request_base; ct_u32].
Definition ct_request_socket_recv : cty := CStruct true [ct_request_base; ct_u32; ct_u16].
Definition ct_request_socket_shutdown : cty := CStruct true [ct_request_base; ct_u32].
Definition ct_request_socket_send : cty := CStruct true [ct_request_base; ct_u32; ct_payload].
Definition ct_request_socket_getname : cty := CStruct true [ct_request_base; ct_u16].
Definition ct_request_socket_attrib : cty :=
  CStruct true [ct_request_base; ct_u32; ct_u16; ct_sockfeat_arg].
Definition ct_request_addr_block : cty :=
  CStruct true [ct_request_base; ct_u32; CArr (CInt 1) 16].
Definition ct_request_generic : cty :=
  CUnion false [ct_request_base; ct_request_socket_create; ct_request_socket_connect;
    ct_request_socket_shutdown; ct_request_socket_send; ct_request_socket_bind;
    ct_request_socket_listen; ct_request_socket_accept; ct_request_socket_recv;
    ct_request_socket_getname; ct_request_addr_block; ct_request_socket_attrib].

Definition ct_response_socket_accept : cty := CStruct true [ct_response_base; ct_u32; ct_sockaddr_in].
Definition ct_response_socket_recv : cty := CStruct true [ct_response_base; ct_u16; ct_payload].
Definition ct_response_socket_recvfrom : cty :=
  CStruct true [ct_response_base; ct_sockaddr_in; ct_u32; ct_u16; ct_payload].
Definition ct_response_socket_send : cty := CStruct true [ct_response_base; ct_u32; ct_u16].
Definition ct_response_socket_getname : cty := CStruct true [ct_response_base; ct_u16; ct_sockaddr_in].
Definition ct_response_socket_attrib : cty := CStruct true [ct_response_base; ct_u16; ct_sockfeat_arg].
Definition ct_pollset_query_item : cty := CStruct true [ct_u64; ct_u32].
Definition ct_response_pollset_query : cty :=
  CStruct true [ct_response_base; ct_u32; CArr ct_pollset_query_item 1].
Definition ct_response_generic : cty :=
  CUnion false [ct_response_base; ct_response_socket_send; ct_response_socket_accept;
    ct_response_socket_recv; ct_response_socket_recvfrom; ct_response_socket_getname;
    ct_response_socket_attrib; ct_response_pollset_query].

Definition size_of (t : cty) : Z := Z.of_nat (sizeof t).

Definition MT_REQUEST_BASE_SIZE : Z := size_of ct_request_base.
Definition MT_RESPONSE_BASE_SIZE : Z := size_of ct_response_base.
Definition MT_REQUEST_SOCKET_SEND_SIZE : Z := size_of ct_request_base + size_of ct_u32.
Definition MT_RESPONSE_SOCKET_ACCEPT_SIZE : Z := size_of ct_response_socket_accept.
Definition MT_RESPONSE_SOCKET_RECV_SIZE : Z := size_of ct_response_base + size_of ct_u16.
Definition MT_RESPONSE_SOCKET_RECVFROM_SIZE : Z :=
  size_of ct_response_base + size_of ct_sockaddr_in + size_of ct_u16 + size_of ct_u32.
Definition MT_RESPONSE_SOCKET_SEND_SIZE : Z := size_of ct_response_socket_send.
Definition MT_RESPONSE_SOCKET_GETNAME_SIZE : Z := size_of ct_response_socket_getname.
Definition MT_RESPONSE_SOCKET_ATTRIB_SIZE : Z := size_of ct_response_socket_attrib.
Definition MT_RESPONSE_POLLSET_QUERY_ITEM_SIZE : Z := size_of ct_pollset_query_item.
Definition MT_RESPONSE_POLLSET_QUERY_SIZE : Z := size_of ct_response_base + size_of ct_u32.
Definition MT_POLLSET_QUERY_MAX_ITEMS : Z :=
  MESSAGE_TYPE_MAX_PAYLOAD_LEN / MT_RESPONSE_POLLSET_QUERY_ITEM_SIZE.
Definition ONE_REQUEST_REGION_SIZE : Z := size_of ct_request_generic.
Definition RESPONSE_REGION_SIZE : Z := size_of ct_response_generic.

(** ** Requests, read from their region *)

Record mt_request_base := {
  rq_sig : Z; rq_type : Z; rq_size : Z; rq_id : Z; rq_sockfd : Z; rq_flags : Z
}.

Definition request_base_ws : list nat := [2; 4; 2; 8; 8; 4]%nat.

(** Field [i] of the structure of the widths [ws] at the region's start. *)
Definition fld (ws : list nat) (i : nat) (bs : list Z) : Z :=
  nth i (read_fields ws bs) 0.

Definition get_request_base (bs : list Z) : mt_request_base := {|
  rq_sig := fld request_base_ws 0 bs;
  rq_type := fld request_base_ws 1 bs;
  rq_size := fld request_base_ws 2 bs;
  rq_id := fld request_base_ws 3 bs;
  rq_sockfd := s64 (fld request_base_ws 4 bs);
  rq_flags := fld request_base_ws 5 bs |}.

Definition put_request_base (r : mt_request_base) : list Z :=
  write_fields request_base_ws
    [rq_sig r; rq_type r; rq_size r; rq_id r; rq_sockfd r; rq_flags r].

(** Field [i] behind the request preamble. *)
Definition body_fld (ws : list nat) (i : nat) (bs : list Z) : Z :=
  fld ws i (drop (sizeof ct_request_base) bs).

Record mt_sockaddr_in := {
  mt_sin_family : Z; mt_sin_port : Z; mt_sin_addr : Z; mt_sin_zero : list Z
}.

Definition sockaddr_in_ws : list nat := [4; 2; 2; 8]%nat.

Definition get_sockaddr_in (bs : list Z) : mt_sockaddr_in := {|
  mt_sin_family := fld sockaddr_in_ws 0 bs;
  mt_sin_port := fld sockaddr_in_ws 1 bs;
  mt_sin_addr := fld sockaddr_in_ws 3 bs;
  mt_sin_zero := take 8 (drop 16 bs) |}.

Record mt_request_socket_create := { cr_sock_fam : Z; cr_sock_type : Z; cr_sock_protocol : Z }.
Definition get_socket_create (bs : list Z) : mt_request_socket_create := {|
  cr_sock_fam := body_fld [4; 4; 4]%nat 0 bs;
  cr_sock_type := body_fld [4; 4; 4]%nat 1 bs;
  cr_sock_protocol := body_fld [4; 4; 4]%nat 2 bs |}.

(** Bind and connect carry one address. *)
Definition get_bind_sockaddr (bs : list Z) : mt_sockaddr_in :=
  get_sockaddr_in (drop (sizeof ct_request_base) bs).

Definition get_listen_backlog (bs : list Z) : Z := s32 (body_fld [4]%nat 0 bs).
Definition get_accept_flags (bs : list Z) : Z := body_fld [4]%nat 0 bs.
Definition get_shutdown_how (bs : list Z) : Z := body_fld [4]%nat 0 bs.
Definition get_getname_maxlen (bs : list Z) : Z := body_fld [2]%nat 0 bs.

Record mt_request_socket_recv := { rv_flags : Z; rv_requested : Z }.
Definition get_socket_recv (bs : list Z) : mt_request_socket_recv := {|
  rv_flags := body_fld [4; 2]%nat 0 bs;
  rv_requested := body_fld [4; 2]%nat 1 bs |}.

Record mt_request_socket_send := { sn_flags : Z; sn_bytes : list Z }.
Definition get_socket_send (bs : list Z) : mt_request_socket_send := {|
  sn_flags := body_fld [4]%nat 0 bs;
  sn_bytes := take payload_len (drop (sizeof ct_request_base + 4) bs) |}.

(** The three members of the attribute's union. *)
Record mt_sockfeat_arg := { sf_v32 : Z; sf_time_s : Z; sf_time_us : Z }.
Record mt_request_socket_attrib := { at_modify : Z; at_name : Z; at_val : mt_sockfeat_arg }.
Definition get_socket_attrib (bs : list Z) : mt_request_socket_attrib := {|
  at_modify := body_fld [4; 2]%nat 0 bs;
  at_name := body_fld [4; 2]%nat 1 bs;
  at_val := {| sf_v32 := body_fld [4; 2; 4]%nat 2 bs;
               sf_time_s := body_fld [4; 2; 8; 8]%nat 2 bs;
               sf_time_us := body_fld [4; 2; 8; 8]%nat 3 bs |} |}.

Record mt_request_addr_block := { ab_block : Z; ab_addr : list Z }.
Definition get_addr_block (bs : list Z) : mt_request_addr_block := {|
  ab_block := body_fld [4]%nat 0 bs;
  ab_addr := take 16 (drop (sizeof ct_request_base + 4) bs) |}.

Definition MT_IS_REQUEST (r : mt_request_base) : bool :=
  (MT_SIGNATURE_REQUEST =? rq_sig r)
  && (0 =? Z.land MT_RESPONSE_MASK (rq_type r))
  && (MT_REQUEST_BASE_SIZE <=? rq_size r).

(** ** Responses *)

Record mt_pollset_query_item := { qi_sockfd : Z; qi_events : Z }.

(** The member of the attribute's value that was written. *)
Inductive mt_sockfeat_val : Type :=
| ValV32 (v : Z)
| ValTime (s us : Z).

(** The union member a handler has written. The members not written stay
    as the stack left them ([BodyUnset]). *)
Inductive mt_response_body : Type :=
| BodyUnset
| BodyAccept (flags : Z) (sockaddr : option mt_sockaddr_in)
| BodyRecv (count : Z) (bytes : list Z)
| BodyRecvFrom (src_addr : option mt_sockaddr_in) (addrlen count : Z) (bytes : list Z)
| BodySend (flags count : Z)
| BodyGetName (reslen : Z) (sockaddr : option mt_sockaddr_in)
| BodyAttrib (val : mt_sockfeat_val)
| BodyPollset (count : Z) (items : list mt_pollset_query_item).

Record mt_response := {
  rs_sig : Z; rs_type : Z; rs_size : Z; rs_id : Z; rs_sockfd : Z;
  rs_status : Z; rs_flags : Z; rs_ts_ins : Z;
  rs_body : mt_response_body
}.

(** [bzero( &response.base, ... )]. *)
Definition response_zero : mt_response :=
  {| rs_sig := 0; rs_type := 0; rs_size := 0; rs_id := 0; rs_sockfd := 0;
     rs_status := 0; rs_flags := 0; rs_ts_ins := 0; rs_body := BodyUnset |}.

Definition set_rs_status (v : Z) (r : mt_response) : mt_response :=
  {| rs_sig := rs_sig r; rs_type := rs_type r; rs_size := rs_size r; rs_id := rs_id r;
     rs_sockfd := rs_sockfd r; rs_status := s32 v; rs_flags := rs_flags r;
     rs_ts_ins := rs_ts_ins r; rs_body := rs_body r |}.
Definition set_rs_sockfd (v : Z) (r : mt_response) : mt_response :=
  {| rs_sig := rs_sig r; rs_type := rs_type r; rs_size := rs_size r; rs_id := rs_id r;
     rs_sockfd := s64 v; rs_status := rs_status r; rs_flags := rs_flags r;
     rs_ts_ins := rs_ts_ins r; rs_body := rs_body r |}.
Definition set_rs_flags (v : Z) (r : mt_response) : mt_response :=
  {| rs_sig := rs_sig r; rs_type := rs_type r; rs_size := rs_size r; rs_id := rs_id r;
     rs_sockfd := rs_sockfd r; rs_status := rs_status r; rs_flags := u32 v;
     rs_ts_ins := rs_ts_ins r; rs_body := rs_body r |}.
Definition set_rs_type (v : Z) (r : mt_response) : mt_response :=
  {| rs_sig := rs_sig r; rs_type := u32 v; rs_size := rs_size r; rs_id := rs_id r;
     rs_sockfd := rs_sockfd r; rs_status := rs_status r; rs_flags := rs_flags r;
     rs_ts_ins := rs_ts_ins r; rs_body := rs_body r |}.
Definition set_rs_body (b : mt_response_body) (r : mt_response) : mt_response :=
  {| rs_sig := rs_sig r; rs_type := rs_type r; rs_size := rs_size r; rs_id := rs_id r;
     rs_sockfd := rs_sockfd r; rs_status := rs_status r; rs_flags := rs_flags r;
     rs_ts_ins := rs_ts_ins r; rs_body := b |}.

Definition MT_IS_RESPONSE (r : mt_response) : bool :=
  (MT_SIGNATURE_RESPONSE =? rs_sig r)
  && (MT_RESPONSE_MASK =? Z.land MT_RESPONSE_MASK (rs_type r))
  && (MT_RESPONSE_BASE_SIZE <=? rs_size r).

Definition response_base_ws : list nat := [2; 4; 2; 8; 8; 4; 4; 8]%nat.

Definition put_response_base (r : mt_response) : list Z :=
  write_fields response_base_ws
    [rs_sig r; rs_type r; rs_size r; rs_id r; rs_sockfd r; rs_status r; rs_flags r; rs_ts_ins r].

Definition get_response_base (bs : list Z) : mt_response := {|
  rs_sig := fld response_base_ws 0 bs;
  rs_type := fld response_base_ws 1 bs;
  rs_size := fld response_base_ws 2 bs;
  rs_id := fld response_base_ws 3 bs;
  rs_sockfd := s64 (fld response_base_ws 4 bs);
  rs_status := s32 (fld response_base_ws 5 bs);
  rs_flags := fld response_base_ws 6 bs;
  rs_ts_ins := fld response_base_ws 7 bs;
  rs_body := BodyUnset |}.

(** ** Message types *)

Lemma request_type_of_code t : request_type_of (request_type_code t) = Some t.
Proof. destruct t; vm_compute; reflexivity. Qed.

Lemma request_type_of_inv c t : request_type_of c = Some t -> request_type_code t = c.
Proof.
  unfold request_type_of. intros H.
  apply head_Some_elem_of, list_elem_of_filter in H. tauto.
Qed.

Lemma sockfeat_of_code n : sockfeat_of (sockfeat_code n) = Some n.
Proof. destruct n; vm_compute; reflexivity. Qed.

(** The request types are distinct codes that a switch can tell
    apart, their codes are below the response bit, and the response type
    a handler derives with [MT_RESPONSE] leads back to the request type
    with [MT_GET_REQUEST_TYPE], as the two ends of the ring rely on. *)
Theorem message_types_pair t :
  request_type_of (request_type_code t) = Some t
  /\ (forall c, request_type_of c = Some t -> c = request_type_code t)
  /\ Z.land MT_RESPONSE_MASK (request_type_code t) = 0
  /\ Z.land MT_RESPONSE_MASK (response_type_code t) = MT_RESPONSE_MASK
  /\ request_type_of (MT_GET_REQUEST_TYPE (response_type_code t)) = Some t.
Proof.
  split; [apply request_type_of_code|].
  split; [intros c H; symmetry; by apply request_type_of_inv|].
  destruct t; vm_compute; auto.
Qed.

(** ** Preambles *)

Definition request_base_wf (r : mt_request_base) : Prop :=
  in_u 16 (rq_sig r) /\ in_u 32 (rq_type r) /\ in_u 16 (rq_size r)
  /\ in_u 64 (rq_id r) /\ in_s 64 (rq_sockfd r) /\ in_u 32 (rq_flags r).

Definition response_base_wf (r : mt_response) : Prop :=
  in_u 16 (rs_sig r) /\ in_u 32 (rs_type r) /\ in_u 16 (rs_size r)
  /\ in_u 64 (rs_id r) /\ in_s 64 (rs_sockfd r) /\ in_s 32 (rs_status r)
  /\ in_u 32 (rs_flags r) /\ in_u 64 (rs_ts_ins r).

#[global] Instance request_base_wf_dec r : Decision (request_base_wf r).
Proof. unfold request_base_wf. apply _. Defined.
#[global] Instance response_base_wf_dec r : Decision (response_base_wf r).
Proof. unfold response_base_wf. apply _. Defined.

Ltac read_back :=
  unfold fld; rewrite read_write_fields by reflexivity;
  cbn [zip_with nth request_base_ws response_base_ws]; change (8 * Z.of_nat 8) with 64; change (8 * Z.of_nat 4) with 32;
  change (8 * Z.of_nat 2) with 16; rewrite ?wraps_wrapu by lia.

Lemma get_put_request_base r tail :
  request_base_wf r -> get_request_base (put_request_base r ++ tail) = r.
Proof.
  destruct r as [sg ty sz id fd fl]. intros (H1 & H2 & H3 & H4 & H5 & H6).
  unfold get_request_base, put_request_base.
  cbn [rq_sig rq_type rq_size rq_id rq_sockfd rq_flags] in *.
  read_back. by rewrite wraps_small, !wrapu_small.
Qed.

Lemma get_put_response_base r tail :
  response_base_wf r ->
  get_response_base (put_response_base r ++ tail) = set_rs_body BodyUnset r.
Proof.
  destruct r as [sg ty sz id fd st fl ts bd].
  intros (H1 & H2 & H3 & H4 & H5 & H6 & H7 & H8).
  unfold get_response_base, put_response_base, set_rs_body.
  cbn [rs_sig rs_type rs_size rs_id rs_sockfd rs_status rs_flags rs_ts_ins rs_body] in *.
  read_back. by rewrite !wraps_small, !wrapu_small.
Qed.

Lemma length_put_request_base b : length (put_request_base b) = 28%nat.
Proof. unfold put_request_base. by rewrite length_write_fields. Qed.

Lemma length_put_response_base r : Z.of_nat (length (put_response_base r)) = MT_RESPONSE_BASE_SIZE.
Proof. unfold put_response_base. rewrite length_write_fields; reflexivity. Qed.

(** Encode and decode of the two message preambles: every field of a
    request or response preamble whose fields fit their C types is read
    back from the packed bytes exactly, signed fields included, whatever
    payload follows. *)
Theorem preamble_roundtrip rq rs tail :
  request_base_wf rq -> response_base_wf rs ->
  get_request_base (put_request_base rq ++ tail) = rq
  /\ get_response_base (put_response_base rs ++ tail) = set_rs_body BodyUnset rs
  /\ Z.of_nat (length (put_request_base rq)) = MT_REQUEST_BASE_SIZE
  /\ Z.of_nat (length (put_response_base rs)) = MT_RESPONSE_BASE_SIZE.
Proof.
  intros Hq Hs. split; [by apply get_put_request_base|].
  split; [by apply get_put_response_base|].
  split; [|apply length_put_response_base].
  unfold put_request_base. rewrite length_write_fields; reflexivity.
Qed.

Definition sample_request_base : mt_request_base :=
  {| rq_sig := MT_SIGNATURE_REQUEST; rq_type := request_type_code MtRequestSocketSend;
     rq_size := 40; rq_id := 17; rq_sockfd := -1; rq_flags := 1 |}.
Definition sample_response_base : mt_response :=
  {| rs_sig := MT_SIGNATURE_RESPONSE; rs_type := response_type_code MtRequestSocketSend;
     rs_size := 46; rs_id := 17; rs_sockfd := -1; rs_status := -32;
     rs_flags := MT_FLAGS_REMOTE_CLOSED; rs_ts_ins := 0; rs_body := BodyUnset |}.

Lemma preamble_roundtrip_witness :
  rq_sockfd (get_request_base (put_request_base sample_request_base ++ [7; 7])) = -1.
Proof.
  destruct (preamble_roundtrip sample_request_base sample_response_base [7; 7]) as [-> _].
  - apply (bool_decide_eq_true_1 (request_base_wf _)). vm_compute. reflexivity.
  - apply (bool_decide_eq_true_1 (response_base_wf _)). vm_compute. reflexivity.
  - reflexivity.
Defined.

(** ** Status values *)

Lemma internal_error_negative : MT_STATUS_INTERNAL_ERROR < 0 /\ in_s 32 MT_STATUS_INTERNAL_ERROR.
Proof. vm_compute. repeat split; congruence. Qed.

(** [IS_CRITICAL_ERROR] rejects every value an [mt_status_t] can
    hold: the status is a signed 32-bit integer, so that the arithmetic
    shift by 24 gives at most 127 and never the unsigned prefix 0xc0 - not
    even for the internal error the INS sends, which is negative. *)
Theorem is_critical_error_never status :
  in_s 32 status ->
  IS_CRITICAL_ERROR status = false
  /\ IS_CRITICAL_ERROR MT_STATUS_INTERNAL_ERROR = false
  /\ MT_STATUS_INTERNAL_ERROR < 0.
Proof.
  intros H. split; [|split; vm_compute; reflexivity].
  unfold IS_CRITICAL_ERROR, CRITICAL_ERROR_PREFIX_SHIFT, CRITICAL_ERROR_PREFIX.
  rewrite Z.shiftr_div_pow2 by lia. apply Z.eqb_neq. unfold in_s in H.
  assert (status / 2 ^ 24 < 128); [|lia].
  apply Z.div_lt_upper_bound; lia.
Qed.

Lemma is_critical_error_never_witness : IS_CRITICAL_ERROR (-1073741823) = false.
Proof. apply (is_critical_error_never (-1073741823)). unfold in_s. lia. Defined.

(** ** Sizes *)

(** The size of the largest message: the response to recvfrom() is
    2055 bytes, seven more than the 2048-byte target that
    [MESSAGE_TYPE_MAX_PAYLOAD_LEN] was computed for, because its
    fixed part is 0x46 bytes long and the configuration assumes 0x3e. Every
    request fits the target. *)
Theorem message_sizes :
  RESPONSE_REGION_SIZE = MT_RESPONSE_SOCKET_RECVFROM_SIZE + MESSAGE_TYPE_MAX_PAYLOAD_LEN
  /\ MT_RESPONSE_SOCKET_RECVFROM_SIZE = 0x46
  /\ RESPONSE_REGION_SIZE = MESSAGE_TARGET_MAX_SIZE + 7
  /\ ONE_REQUEST_REGION_SIZE = MT_REQUEST_SOCKET_SEND_SIZE + MESSAGE_TYPE_MAX_PAYLOAD_LEN
  /\ ONE_REQUEST_REGION_SIZE < MESSAGE_TARGET_MAX_SIZE
  /\ MT_RESPONSE_POLLSET_QUERY_SIZE
     + MT_RESPONSE_POLLSET_QUERY_ITEM_SIZE * MT_POLLSET_QUERY_MAX_ITEMS <= RESPONSE_REGION_SIZE.
Proof. vm_compute. repeat split; congruence. Qed.
