(* ===== verification/MwErrno.v ===== *)
(** * MwErrno: error numbers on the wire

    common/mwerrno.h fixes the error numbers of the protocol (Linux
    values); the INS runs on NetBSD and translates its own with the table
    of xe_get_mwerrno() (xenevent.c). The native numbers are those of
    src-netbsd/sys/sys/errno.h. *)

From stdpp Require Import base numbers list.
From Stdlib Require Import ZArith Lia.
From S2P Require Import Prelude.

(** ** Native (NetBSD) numbers the INS code names *)

Definition EINTR : Z := 4.
Definition EIO : Z := 5.
Definition EBUSY : Z := 16.
Definition EINVAL : Z := 22.
Definition ENOMEM : Z := 12.
Definition ENOSPC : Z := 28.
Definition EPIPE : Z := 32.
Definition EAGAIN : Z := 35.
Definition EWOULDBLOCK : Z := EAGAIN.
Definition ENOBUFS : Z := 55.
Definition EOVERFLOW : Z := 84.

Definition MW_EPERM : Z := 1.
Definition MW_EAGAIN : Z := 11.
Definition MW_EPIPE : Z := 32.

(** The table, [(native, mwerr)] in the order of the source. The value of
    [MW_EWOULDBLOCK] is [EAGAIN], the native one where the table is
    compiled. *)
Definition errmap : list (Z * Z) :=
  [ (1, 1) (* EPERM *); (2, 2) (* ENOENT *); (3, 3) (* ESRCH *); (4, 4) (* EINTR *);
    (5, 5) (* EIO *); (6, 6) (* ENXIO *); (7, 7) (* E2BIG *); (8, 8) (* ENOEXEC *);
    (9, 9) (* EBADF *); (10, 10) (* ECHILD *); (35, 11) (* EAGAIN *); (12, 12) (* ENOMEM *);
    (13, 13) (* EACCES *); (14, 14) (* EFAULT *); (15, 15) (* ENOTBLK *); (16, 16) (* EBUSY *);
    (17, 17) (* EEXIST *); (18, 18) (* EXDEV *); (19, 19) (* ENODEV *); (20, 20) (* ENOTDIR *);
    (21, 21) (* EISDIR *); (22, 22) (* EINVAL *); (23, 23) (* ENFILE *); (24, 24) (* EMFILE *);
    (25, 25) (* ENOTTY *); (26, 26) (* ETXTBSY *); (27, 27) (* EFBIG *); (28, 28) (* ENOSPC *);
    (29, 29) (* ESPIPE *); (30, 30) (* EROFS *); (31, 31) (* EMLINK *); (32, 32) (* EPIPE *);
    (33, 33) (* EDOM *); (34, 34) (* ERANGE *); (11, 35) (* EDEADLK *);
    (63, 36) (* ENAMETOOLONG *); (77, 37) (* ENOLCK *); (78, 38) (* ENOSYS *);
    (66, 39) (* ENOTEMPTY *); (62, 40) (* ELOOP *); (35, 35) (* EWOULDBLOCK *);
    (83, 42) (* ENOMSG *); (82, 43) (* EIDRM *); (91, 60) (* ENOSTR *); (89, 61) (* ENODATA *);
    (92, 62) (* ETIME *); (90, 63) (* ENOSR *); (71, 66) (* EREMOTE *); (95, 67) (* ENOLINK *);
    (96, 71) (* EPROTO *); (94, 72) (* EMULTIHOP *); (88, 74) (* EBADMSG *);
    (84, 75) (* EOVERFLOW *); (68, 87) (* EUSERS *); (38, 88) (* ENOTSOCK *);
    (39, 89) (* EDESTADDRREQ *); (40, 90) (* EMSGSIZE *); (41, 91) (* EPROTOTYPE *);
    (42, 92) (* ENOPROTOOPT *); (43, 93) (* EPROTONOSUPPORT *); (44, 94) (* ESOCKTNOSUPPORT *);
    (45, 95) (* EOPNOTSUPP *); (46, 96) (* EPFNOSUPPORT *); (47, 97) (* EAFNOSUPPORT *);
    (48, 98) (* EADDRINUSE *); (49, 99) (* EADDRNOTAVAIL *); (50, 100) (* ENETDOWN *);
    (51, 101) (* ENETUNREACH *); (52, 102) (* ENETRESET *); (53, 103) (* ECONNABORTED *);
    (54, 104) (* ECONNRESET *); (55, 105) (* ENOBUFS *); (56, 106) (* EISCONN *);
    (57, 107) (* ENOTCONN *); (58, 108) (* ESHUTDOWN *); (59, 109) (* ETOOMANYREFS *);
    (60, 110) (* ETIMEDOUT *); (61, 111) (* ECONNREFUSED *); (64, 112) (* EHOSTDOWN *);
    (65, 113) (* EHOSTUNREACH *); (37, 114) (* EALREADY *); (36, 115) (* EINPROGRESS *);
    (70, 116) (* ESTALE *) ].

(** The loop over the table: the first match decides. *)
Fixpoint errmap_lookup (tbl : list (Z * Z)) (native : Z) : Z :=
  match tbl with
  | [] => MW_EPERM
  | (n, m) :: rest => if n =? native then m else errmap_lookup rest native
  end.

Definition xe_get_mwerrno (NativeErrno : Z) : Z :=
  if NativeErrno =? 0 then 0 else errmap_lookup errmap NativeErrno.

(** XE_GET_NEG_ERRNO_VAL *)
Definition XE_GET_NEG_ERRNO_VAL (err : Z) : Z :=
  if 0 <? err then s32 (- xe_get_mwerrno err) else -1.

(** ** Properties *)

Lemma errmap_lookup_range tbl e :
  Forall (fun '(_, m) => 1 <= m <= 133) tbl -> 1 <= errmap_lookup tbl e <= 133.
Proof.
  induction 1 as [|[n m] tbl Hm _ IH]; simpl.
  - unfold MW_EPERM. lia.
  - destruct (n =? e); lia.
Qed.

Lemma errmap_ok : Forall (fun '(_, m) => 1 <= m <= 133) errmap.
Proof. repeat (constructor; [lia|]). constructor. Qed.

Lemma xe_get_mwerrno_range e : e <> 0 -> 1 <= xe_get_mwerrno e <= 133.
Proof.
  intros He. unfold xe_get_mwerrno. rewrite (proj2 (Z.eqb_neq e 0) He).
  apply errmap_lookup_range, errmap_ok.
Qed.

(** A handler's error status is a negative [mt_status_t], whatever errno. *)
Lemma neg_errno_range e : -133 <= XE_GET_NEG_ERRNO_VAL e <= -1.
Proof.
  unfold XE_GET_NEG_ERRNO_VAL. destruct (Z.ltb_spec 0 e); [|lia].
  pose proof (xe_get_mwerrno_range e ltac:(lia)).
  rewrite wraps_small; unfold in_s; lia.
Qed.

Lemma errmap_lookup_unlisted tbl e :
  ~ In e (map fst tbl) -> errmap_lookup tbl e = MW_EPERM.
Proof.
  induction tbl as [|[n m] tbl IH]; simpl; intros Hn; [reflexivity|].
  destruct (Z.eqb_spec n e); [tauto|]. apply IH. tauto.
Qed.

(** The native numbers of the table, in order. *)
Definition errmap_natives : list Z := map fst errmap.

(** Translation of errno values: 0 stays 0; a native number outside
    the table becomes EPERM; for every other number the status the
    handlers build from it lies between -133 and -1, so that a failure is
    never reported as success; and EAGAIN, EPIPE and EINTR, which the
    send and receive paths test for, become the protocol's values although
    the table lists EAGAIN (as EWOULDBLOCK) a second time with a native
    value. *)
Theorem errno_translation e :
  xe_get_mwerrno 0 = 0
  /\ (e <> 0 -> ~ In e errmap_natives -> xe_get_mwerrno e = MW_EPERM)
  /\ -133 <= XE_GET_NEG_ERRNO_VAL e <= -1
  /\ xe_get_mwerrno EAGAIN = MW_EAGAIN /\ xe_get_mwerrno EPIPE = MW_EPIPE
  /\ xe_get_mwerrno EINTR = 4.
Proof.
  split; [reflexivity|]. split.
  - intros He Hn. unfold xe_get_mwerrno. rewrite (proj2 (Z.eqb_neq e 0) He).
    by apply errmap_lookup_unlisted.
  - split; [apply neg_errno_range|]. repeat split; reflexivity.
Qed.

(** The error a native number stands for is not lost: apart from the
    generic EPERM, two native numbers never share a translation. *)
Lemma errmap_injective_check :
  forallb (fun a => forallb (fun b => negb (xe_get_mwerrno a =? xe_get_mwerrno b) || (a =? b))
    errmap_natives) errmap_natives = true.
Proof. vm_compute. reflexivity. Qed.

(** No two native error numbers of the table are reported to the
    protected VM as the same error. *)
Theorem errno_translation_injective a b :
  In a errmap_natives -> In b errmap_natives ->
  xe_get_mwerrno a = xe_get_mwerrno b -> a = b.
Proof.
  intros Ha Hb Hab. pose proof errmap_injective_check as H.
  rewrite List.forallb_forall in H. specialize (H a Ha).
  rewrite List.forallb_forall in H. specialize (H b Hb).
  rewrite Hab, Z.eqb_refl in H. simpl in H. by apply Z.eqb_eq.
Qed.

Lemma errno_translation_injective_witness : EAGAIN = EWOULDBLOCK.
Proof. apply errno_translation_injective; vm_compute; tauto. Defined.
