(* ===== verification/Translate.v ===== *)
(** * Translate: addresses and socket kinds across the two systems

    common/translate.h as the INS compiles it (NetBSD: [sa_family_t] is
    one byte, [AF_INET6] is 24), and the flag translation of
    networking.c. The native constants are those of src-netbsd/sys. *)

From stdpp Require Import base numbers list.
From Stdlib Require Import ZArith Lia.
From S2P Require Import Prelude MessageTypes.

(** ** Native constants *)

Definition AF_INET : Z := 2.
Definition AF_INET6 : Z := 24.
Definition SOCK_STREAM : Z := 1.
Definition SOCK_DGRAM : Z := 2.

Definition MSG_OOB : Z := 0x0001.
Definition MSG_PEEK : Z := 0x0002.
Definition MSG_DONTROUTE : Z := 0x0004.
Definition MSG_EOR : Z := 0x0008.
Definition MSG_TRUNC : Z := 0x0010.
Definition MSG_CTRUNC : Z := 0x0020.
Definition MSG_WAITALL : Z := 0x0040.
Definition MSG_DONTWAIT : Z := 0x0080.
Definition MSG_NOSIGNAL : Z := 0x0400.
Definition MSG_CMSG_CLOEXEC : Z := 0x0800.
Definition MSG_WAITFORONE : Z := 0x2000.

(** [struct sockaddr_in] of NetBSD. *)
Record sockaddr_in := {
  sin_len : Z; sin_family : Z; sin_port : Z; sin_addr : Z; sin_zero : list Z
}.

Definition sockaddr_in_zero : sockaddr_in :=
  {| sin_len := 0; sin_family := 0; sin_port := 0; sin_addr := 0; sin_zero := replicate 8 0 |}.

(** ** Translations *)

(** The result is an enumeration, stored as an unsigned 32-bit value. *)
Definition xe_net_get_mt_protocol_family (Fam : Z) : Z :=
  if Fam =? AF_INET then MT_PF_INET
  else if Fam =? AF_INET6 then MT_PF_INET6
  else u32 (-1).

Definition xe_net_get_native_protocol_family (Fam : Z) : Z :=
  if Fam =? MT_PF_INET then AF_INET
  else if Fam =? MT_PF_INET6 then AF_INET6
  else u8 (-1).

Definition xe_net_get_native_sock_type (Type_ : Z) : Z :=
  if Type_ =? MT_ST_DGRAM then SOCK_DGRAM
  else if Type_ =? MT_ST_STREAM then SOCK_STREAM
  else -1.

Definition populate_sockaddr_in (sockaddr : sockaddr_in) (m : mt_sockaddr_in) : sockaddr_in :=
  {| sin_len := sin_len sockaddr;
     sin_family := xe_net_get_native_protocol_family (mt_sin_family m);
     sin_port := u16 (mt_sin_port m);
     sin_addr := u32 (mt_sin_addr m);
     sin_zero := mt_sin_zero m |}.

Definition populate_mt_sockaddr_in (s : sockaddr_in) : mt_sockaddr_in :=
  {| mt_sin_family := xe_net_get_mt_protocol_family (sin_family s);
     mt_sin_port := u16 (sin_port s);
     mt_sin_addr := u64 (sin_addr s);
     mt_sin_zero := sin_zero s |}.

(** The flags that are translated, [(protocol, native)], in the source's order. *)
Definition msg_flag_table : list (Z * Z) :=
  [ (MW_MSG_OOB, MSG_OOB); (MW_MSG_PEEK, MSG_PEEK); (MW_MSG_DONTROUTE, MSG_DONTROUTE);
    (MW_MSG_CTRUNC, MSG_CTRUNC); (MW_MSG_TRUNC, MSG_TRUNC); (MW_MSG_DONTWAIT, MSG_DONTWAIT);
    (MW_MSG_EOR, MSG_EOR); (MW_MSG_WAITALL, MSG_WAITALL); (MW_MSG_NOSIGNAL, MSG_NOSIGNAL);
    (MW_MSG_WAITFORONE, MSG_WAITFORONE); (MW_MSG_CMSG_CLOEXEC, MSG_CMSG_CLOEXEC) ].

(** [if ( f & a ) acc |= b], for each row. *)
Definition or_flags (tbl : list (Z * Z)) (f : Z) : Z :=
  fold_left (fun acc '(a, b) => if has_flag f a then Z.lor acc b else acc) tbl 0.

Definition xe_net_translate_msg_flags (MsgFlags : Z) : Z := or_flags msg_flag_table MsgFlags.

(** ** Properties *)

Definition mt_sockaddr_wf (m : mt_sockaddr_in) : Prop :=
  (mt_sin_family m = MT_PF_INET \/ mt_sin_family m = MT_PF_INET6)
  /\ in_u 16 (mt_sin_port m) /\ in_u 32 (mt_sin_addr m).

Definition sockaddr_wf (s : sockaddr_in) : Prop :=
  (sin_family s = AF_INET \/ sin_family s = AF_INET6)
  /\ in_u 16 (sin_port s) /\ in_u 32 (sin_addr s).

Lemma mt_family_roundtrip f :
  f = MT_PF_INET \/ f = MT_PF_INET6 ->
  xe_net_get_mt_protocol_family (xe_net_get_native_protocol_family f) = f.
Proof. intros [-> | ->]; reflexivity. Qed.

Lemma native_family_roundtrip f :
  f = AF_INET \/ f = AF_INET6 ->
  xe_net_get_native_protocol_family (xe_net_get_mt_protocol_family f) = f.
Proof. intros [-> | ->]; reflexivity. Qed.

(** An internet address survives the translation to the native
    structure and back, in both directions: family, port (kept in network
    order) and address; the family of an unknown address comes out as
    an invalid value, never as another family. *)
Theorem sockaddr_translation_roundtrip s m :
  sockaddr_wf s -> mt_sockaddr_wf m ->
  populate_mt_sockaddr_in (populate_sockaddr_in s m) = m
  /\ populate_sockaddr_in s (populate_mt_sockaddr_in s) = s
  /\ (forall f, f <> AF_INET -> f <> AF_INET6 ->
      xe_net_get_native_protocol_family (xe_net_get_mt_protocol_family f) = 255).
Proof.
  intros (Hf & Hp & Ha) (Hmf & Hmp & Hma).
  assert (forall x, in_u 32 x -> u64 (u32 x) = x) as H64.
  { intros x Hx. rewrite (wrapu_small 32) by done. apply wrapu_small.
    unfold in_u in *. lia. }
  assert (forall x, in_u 32 x -> u32 (u64 x) = x) as H32.
  { intros x Hx. rewrite (wrapu_small 64) by (unfold in_u in *; lia). by apply wrapu_small. }
  split; [|split].
  - destruct m. unfold populate_mt_sockaddr_in, populate_sockaddr_in; simpl in *.
    rewrite mt_family_roundtrip, H64 by done. by rewrite !(wrapu_small 16 _ Hmp).
  - destruct s. unfold populate_mt_sockaddr_in, populate_sockaddr_in; simpl in *.
    rewrite native_family_roundtrip, H32 by done. by rewrite !(wrapu_small 16 _ Hp).
  - intros f H2 H24. unfold xe_net_get_mt_protocol_family.
    rewrite (proj2 (Z.eqb_neq f AF_INET) H2), (proj2 (Z.eqb_neq f AF_INET6) H24). reflexivity.
Qed.

Lemma sockaddr_translation_roundtrip_witness :
  populate_mt_sockaddr_in (populate_sockaddr_in
     {| sin_len := 16; sin_family := 2; sin_port := 80; sin_addr := 1; sin_zero := [] |}
     {| mt_sin_family := 2; mt_sin_port := 443; mt_sin_addr := 0x7f000001; mt_sin_zero := [] |})
  = {| mt_sin_family := 2; mt_sin_port := 443; mt_sin_addr := 0x7f000001; mt_sin_zero := [] |}.
Proof.
  apply sockaddr_translation_roundtrip; (split; [|split]); simpl; unfold in_u; auto; lia.
Defined.

(** A fold over a flag table: a native flag is set exactly when one of its
    rows has its protocol flag set. *)
Lemma or_flags_spec tbl f acc m :
  has_flag (fold_left (fun acc '(a, b) => if has_flag f a then Z.lor acc b else acc) tbl acc) m
  = has_flag acc m || existsb (fun '(a, b) => has_flag f a && has_flag b m) tbl.
Proof.
  revert acc. induction tbl as [|[a b] tbl IH]; intros acc; simpl.
  - by rewrite orb_false_r.
  - rewrite IH. destruct (has_flag f a); simpl; [|done].
    rewrite has_flag_lor. by rewrite orb_assoc.
Qed.

(** Translation of the send and receive flags: each native flag of
    the table is passed to the socket call exactly when the protected VM
    set the flag of the same meaning, and nothing outside the table is
    ever passed. *)
Theorem msg_flags_translation f :
  (forall a b, In (a, b) msg_flag_table ->
     has_flag (xe_net_translate_msg_flags f) b = has_flag f a)
  /\ (forall m, (forall a b, In (a, b) msg_flag_table -> has_flag b m = false) ->
     has_flag (xe_net_translate_msg_flags f) m = false).
Proof.
  unfold xe_net_translate_msg_flags, or_flags. split.
  - intros a b Hin. rewrite or_flags_spec, has_flag_zero, orb_false_l.
    simpl in Hin. decompose [or] Hin; try contradiction;
      match goal with H : _ = (_, _) |- _ => injection H as <- <- end;
      simpl; rewrite ?andb_false_r, ?andb_true_r, ?orb_false_r, ?orb_false_l; reflexivity.
  - intros m Hm. rewrite or_flags_spec, has_flag_zero, orb_false_l.
    apply not_true_is_false. intros H. apply existsb_exists in H as ([a b] & Hin & H).
    rewrite (Hm a b Hin), andb_false_r in H. discriminate.
Qed.
