(* ===== verification/WorkQueue.v ===== *)
(** * WorkQueue: the bounded queue of buffer indices of a worker thread

    ins/ins-rump/apps/ins-app/workqueue.c. The queue is a ring over an
    array that follows the structure in memory; every operation runs
    under the queue's mutex and is one function here. [wq_abs] is the
    abstract queue, [BoundedFifo] the promise the dispatcher relies on,
    and the theorems show that the ring refines it. *)

From stdpp Require Import base numbers list.
From Stdlib Require Import ZArith Lia.
From S2P Require Import Prelude MwErrno.

Definition WORK_QUEUE_UNASSIGNED_IDX : Z := -1.

(** [items] has one element more than [item_ct]: the one declared inside
    the structure. Only that one is zeroed when the queue is allocated. *)
Record workqueue := {
  wq_id : Z;
  wq_item_ct : nat;
  wq_available_slots : nat;
  wq_read_idx : nat;
  wq_write_idx : nat;
  wq_items : list Z
}.

Definition workqueue_alloc (id : Z) (item_count : nat) (memory : list Z)
    (malloc_ok mutex_ok : bool) : option workqueue :=
  if negb malloc_ok then None
  else if negb mutex_ok then None
  else Some {| wq_id := id; wq_item_ct := item_count; wq_available_slots := item_count;
               wq_read_idx := 0; wq_write_idx := 0;
               wq_items := 0 :: take item_count memory |}.

(** The return code and the new queue. An item is stored as an [int16_t]. *)
Definition workqueue_enqueue (wq : workqueue) (item : Z) : outcome (Z * workqueue) :=
  if (wq_available_slots wq =? 0)%nat then Done (EBUSY, wq)
  else if (wq_write_idx wq <? length (wq_items wq))%nat then
    Done (0, {| wq_id := wq_id wq; wq_item_ct := wq_item_ct wq;
                wq_available_slots := wq_available_slots wq - 1;
                wq_read_idx := wq_read_idx wq;
                wq_write_idx := (wq_write_idx wq + 1) mod wq_item_ct wq;
                wq_items := <[wq_write_idx wq := s16 item]> (wq_items wq) |})
  else Undef.

Definition workqueue_dequeue (wq : workqueue) : outcome (Z * workqueue) :=
  if (wq_item_ct wq =? wq_available_slots wq)%nat then Done (WORK_QUEUE_UNASSIGNED_IDX, wq)
  else match wq_items wq !! wq_read_idx wq with
  | Some item =>
      Done (item, {| wq_id := wq_id wq; wq_item_ct := wq_item_ct wq;
                     wq_available_slots := wq_available_slots wq + 1;
                     wq_read_idx := (wq_read_idx wq + 1) mod wq_item_ct wq;
                     wq_write_idx := wq_write_idx wq;
                     wq_items := wq_items wq |})
  | None => Undef
  end.

Definition workqueue_is_empty (wq : workqueue) : bool :=
  (wq_item_ct wq =? wq_available_slots wq)%nat.

(** The copying loop. Its destination index is not advanced. *)
Fixpoint get_contents_loop (wq : workqueue) (ct idx i : nat) (items : list Z) : list Z :=
  match ct with
  | O => items
  | S ct' =>
      get_contents_loop wq ct' ((idx + 1) mod wq_item_ct wq) i
        (<[i := wq_items wq !!! idx]> items)
  end.

Definition workqueue_get_contents (wq : workqueue) (size : nat) : Z * list Z :=
  let items := replicate size WORK_QUEUE_UNASSIGNED_IDX in
  if (size <? wq_item_ct wq)%nat then (ENOSPC, items)
  else (0, get_contents_loop wq (wq_item_ct wq - wq_available_slots wq) (wq_read_idx wq) 0 items).

(** ** Abstraction *)

Definition wq_count (wq : workqueue) : nat := wq_item_ct wq - wq_available_slots wq.

(** [n] slots of the ring from [r] on. *)
Fixpoint ring_slice (items : list Z) (ct r n : nat) : list Z :=
  match n with
  | O => []
  | S k => (items !!! r) :: ring_slice items ct ((r + 1) mod ct) k
  end.

Definition wq_abs (wq : workqueue) : list Z :=
  ring_slice (wq_items wq) (wq_item_ct wq) (wq_read_idx wq) (wq_count wq).

Record wq_inv (wq : workqueue) : Prop := {
  wqi_ct : (0 < wq_item_ct wq)%nat;
  wqi_len : length (wq_items wq) = S (wq_item_ct wq);
  wqi_avail : (wq_available_slots wq <= wq_item_ct wq)%nat;
  wqi_read : (wq_read_idx wq < wq_item_ct wq)%nat;
  wqi_write : wq_write_idx wq = ((wq_read_idx wq + wq_count wq) mod wq_item_ct wq)%nat
}.

(** ** The ring arithmetic *)

Lemma ring_slice_length items ct r n : length (ring_slice items ct r n) = n.
Proof. revert r. induction n; simpl; auto. Qed.

Lemma ring_slice_snoc items ct r n :
  (0 < ct)%nat -> (r < ct)%nat ->
  ring_slice items ct r (S n) = ring_slice items ct r n ++ [items !!! ((r + n) mod ct)%nat].
Proof.
  intros Hct. revert r. induction n as [|n IH]; intros r Hr.
  - simpl. rewrite Nat.add_0_r, Nat.mod_small by done. reflexivity.
  - change (ring_slice items ct r (S (S n)))
      with (items !!! r :: ring_slice items ct ((r + 1) mod ct) (S n)).
    rewrite IH by (apply Nat.mod_upper_bound; lia).
    rewrite Nat.Div0.add_mod_idemp_l.
    replace (r + 1 + n)%nat with (r + S n)%nat by lia. reflexivity.
Qed.

(** Slots that the slice does not reach may change. *)
Lemma ring_slice_insert items ct r n k v :
  (0 < ct)%nat -> (r < ct)%nat -> (n < ct)%nat ->
  (forall j, (j < n)%nat -> ((r + j) mod ct)%nat <> k) ->
  ring_slice (<[k := v]> items) ct r n = ring_slice items ct r n.
Proof.
  intros Hct. revert r. induction n as [|n IH]; intros r Hr Hn Hk; [reflexivity|].
  simpl. f_equal.
  - apply list_lookup_total_insert_ne. intros ->.
    apply (Hk 0%nat); [lia|]. rewrite Nat.add_0_r. by apply Nat.mod_small.
  - apply IH; [apply Nat.mod_upper_bound; lia|lia|]. intros j Hj.
    rewrite Nat.Div0.add_mod_idemp_l.
    replace (r + 1 + j)%nat with (r + S j)%nat by lia. apply Hk. lia.
Qed.

Lemma ring_no_overlap ct r n j :
  (r < ct)%nat -> (j < n)%nat -> (n < ct)%nat -> ((r + j) mod ct <> (r + n) mod ct)%nat.
Proof.
  intros Hr Hj Hn.
  destruct (Nat.lt_ge_cases (r + j) ct) as [H1|H1], (Nat.lt_ge_cases (r + n) ct) as [H2|H2].
  - rewrite !Nat.mod_small by lia. lia.
  - rewrite (Nat.mod_small (r + j)) by lia.
    replace (r + n)%nat with (r + n - ct + 1 * ct)%nat by lia.
    rewrite Nat.Div0.mod_add, Nat.mod_small by lia. lia.
  - lia.
  - replace (r + j)%nat with (r + j - ct + 1 * ct)%nat by lia.
    replace (r + n)%nat with (r + n - ct + 1 * ct)%nat by lia.
    rewrite !Nat.Div0.mod_add, !Nat.mod_small by lia. lia.
Qed.

(** ** Refinement lemmas *)

Lemma length_wq_abs wq : length (wq_abs wq) = wq_count wq.
Proof. apply ring_slice_length. Qed.

Lemma wq_alloc_inv id n memory wq m :
  (0 < n)%nat -> (n <= length memory)%nat ->
  workqueue_alloc id n memory true m = Some wq -> wq_inv wq /\ wq_abs wq = [] /\ wq_item_ct wq = n.
Proof.
  intros Hn Hl. unfold workqueue_alloc. destruct m; simpl; [|discriminate].
  intros [= <-]. split; [|split; [|reflexivity]].
  - constructor; unfold wq_count; simpl; rewrite ?length_take; try lia.
    rewrite Nat.sub_diag. symmetry. apply Nat.Div0.mod_0_l.
  - unfold wq_abs, wq_count; simpl. rewrite Nat.sub_diag. reflexivity.
Qed.

Lemma wq_enqueue_full wq item :
  wq_available_slots wq = 0%nat -> workqueue_enqueue wq item = Done (EBUSY, wq).
Proof. intros H. unfold workqueue_enqueue. rewrite H. reflexivity. Qed.

Lemma wq_enqueue_space wq item :
  wq_inv wq -> (0 < wq_available_slots wq)%nat ->
  exists wq', workqueue_enqueue wq item = Done (0, wq')
    /\ wq_inv wq' /\ wq_abs wq' = wq_abs wq ++ [s16 item]
    /\ wq_item_ct wq' = wq_item_ct wq
    /\ wq_available_slots wq' = (wq_available_slots wq - 1)%nat.
Proof.
  intros [Hct Hlen Hav Hr Hw] Hsp. unfold workqueue_enqueue.
  rewrite (proj2 (Nat.eqb_neq _ _)) by lia.
  assert (wq_write_idx wq < wq_item_ct wq)%nat as Hwlt
    by (rewrite Hw; apply Nat.mod_upper_bound; lia).
  rewrite (proj2 (Nat.ltb_lt _ _)) by lia.
  eexists. split; [reflexivity|].
  assert (wq_item_ct wq - (wq_available_slots wq - 1) = S (wq_count wq))%nat as Hcnt
    by (unfold wq_count; lia).
  split; [|split; [|split; reflexivity]].
  - constructor; unfold wq_count; simpl; rewrite ?length_insert; try lia.
    rewrite Hcnt, Hw, Nat.Div0.add_mod_idemp_l. f_equal. lia.
  - unfold wq_abs at 1. unfold wq_count at 1. simpl. rewrite Hcnt.
    rewrite ring_slice_snoc by lia. rewrite <- Hw. f_equal.
    + unfold wq_abs. apply ring_slice_insert; unfold wq_count; try lia.
      intros j Hj. rewrite Hw. unfold wq_count. apply ring_no_overlap; lia.
    + f_equal. apply list_lookup_total_insert_eq. lia.
Qed.

Lemma wq_dequeue_empty wq :
  wq_inv wq -> wq_abs wq = [] -> workqueue_dequeue wq = Done (WORK_QUEUE_UNASSIGNED_IDX, wq).
Proof.
  intros [Hct Hlen Hav Hr Hw] He. apply (f_equal length) in He.
  rewrite length_wq_abs in He. unfold wq_count in He; simpl in He.
  unfold workqueue_dequeue. rewrite (proj2 (Nat.eqb_eq _ _)) by lia. reflexivity.
Qed.

Lemma wq_dequeue_item wq x q :
  wq_inv wq -> wq_abs wq = x :: q ->
  exists wq', workqueue_dequeue wq = Done (x, wq')
    /\ wq_inv wq' /\ wq_abs wq' = q
    /\ wq_item_ct wq' = wq_item_ct wq
    /\ wq_available_slots wq' = (wq_available_slots wq + 1)%nat.
Proof.
  intros [Hct Hlen Hav Hr Hw] He. pose proof (f_equal length He) as Hl.
  rewrite length_wq_abs in Hl. unfold wq_count in Hl; simpl in Hl.
  unfold workqueue_dequeue. rewrite (proj2 (Nat.eqb_neq _ _)) by lia.
  unfold wq_abs, wq_count in He.
  replace (wq_item_ct wq - wq_available_slots wq)%nat with (S (length q)) in He by lia.
  simpl in He. injection He as Hx Hq.
  destruct (lookup_lt_is_Some_2 (wq_items wq) (wq_read_idx wq)) as [y Hy]; [lia|].
  rewrite Hy. rewrite (list_lookup_total_correct _ _ _ Hy) in Hx. subst y.
  eexists. split; [reflexivity|].
  assert (wq_item_ct wq - (wq_available_slots wq + 1) = length q)%nat as Hcnt by lia.
  split; [|split; [|split; reflexivity]].
  - constructor; unfold wq_count; simpl; try lia.
    + apply Nat.mod_upper_bound; lia.
    + rewrite Hcnt, Hw, Nat.Div0.add_mod_idemp_l. f_equal. unfold wq_count. lia.
  - unfold wq_abs, wq_count; simpl. by rewrite Hcnt.
Qed.

Lemma wq_is_empty_spec wq : wq_inv wq -> workqueue_is_empty wq = true <-> wq_abs wq = [].
Proof.
  intros [Hct Hlen Hav Hr Hw]. unfold workqueue_is_empty. rewrite Nat.eqb_eq.
  rewrite <- length_zero_iff_nil, length_wq_abs. unfold wq_count. lia.
Qed.

(** ** The interface *)

(** What the dispatcher and the workers rely on: a queue of at most
    [bf_cap] buffer indices, first in first out, where an enqueue on a
    full queue is refused and a dequeue on an empty one gives the
    unassigned index. *)
Class BoundedFifo (Q : Type) := {
  bf_ok : Q -> Prop;
  bf_abs : Q -> list Z;
  bf_cap : Q -> nat;
  bf_enq : Q -> Z -> outcome (Z * Q);
  bf_deq : Q -> outcome (Z * Q);
  bf_enq_spec : forall q x, bf_ok q -> in_s 16 x ->
    exists rc q', bf_enq q x = Done (rc, q') /\ bf_ok q' /\ bf_cap q' = bf_cap q
      /\ if decide (length (bf_abs q) = bf_cap q)
         then rc = EBUSY /\ bf_abs q' = bf_abs q
         else rc = 0 /\ bf_abs q' = bf_abs q ++ [x];
  bf_deq_spec : forall q, bf_ok q ->
    exists x q', bf_deq q = Done (x, q') /\ bf_ok q' /\ bf_cap q' = bf_cap q
      /\ match bf_abs q with
         | [] => x = WORK_QUEUE_UNASSIGNED_IDX /\ bf_abs q' = []
         | y :: rest => x = y /\ bf_abs q' = rest
         end
}.

Lemma workqueue_enq_spec q x : wq_inv q -> in_s 16 x ->
  exists rc q', workqueue_enqueue q x = Done (rc, q') /\ wq_inv q'
    /\ wq_item_ct q' = wq_item_ct q
    /\ if decide (length (wq_abs q) = wq_item_ct q)
       then rc = EBUSY /\ wq_abs q' = wq_abs q
       else rc = 0 /\ wq_abs q' = wq_abs q ++ [x].
Proof.
  intros Hq Hx. rewrite length_wq_abs. unfold wq_count.
  pose proof (wqi_avail _ Hq). pose proof (wqi_ct _ Hq).
  destruct (decide (wq_available_slots q = 0)%nat) as [Hz|Hnz].
  - exists EBUSY, q. rewrite wq_enqueue_full by done.
    destruct (decide _); [auto|lia].
  - destruct (wq_enqueue_space q x Hq) as (q' & He & Hi & Ha & Hc & _); [lia|].
    exists 0, q'. destruct (decide _); [lia|].
    rewrite wraps_small in Ha by (done || lia). auto.
Qed.

Lemma workqueue_deq_spec q : wq_inv q ->
  exists x q', workqueue_dequeue q = Done (x, q') /\ wq_inv q'
    /\ wq_item_ct q' = wq_item_ct q
    /\ match wq_abs q with
       | [] => x = WORK_QUEUE_UNASSIGNED_IDX /\ wq_abs q' = []
       | y :: rest => x = y /\ wq_abs q' = rest
       end.
Proof.
  intros Hq. destruct (wq_abs q) as [|y rest] eqn:E.
  - exists WORK_QUEUE_UNASSIGNED_IDX, q. rewrite wq_dequeue_empty by done. auto.
  - destruct (wq_dequeue_item q y rest Hq E) as (q' & Hd & Hi & Ha & Hc & _).
    exists y, q'. auto.
Qed.

#[export] Instance workqueue_fifo : BoundedFifo workqueue := {
  bf_ok := wq_inv; bf_abs := wq_abs; bf_cap := wq_item_ct;
  bf_enq := workqueue_enqueue; bf_deq := workqueue_dequeue;
  bf_enq_spec := workqueue_enq_spec; bf_deq_spec := workqueue_deq_spec
}.

(** ** Sequences of operations *)

Inductive wq_op : Type := OpEnqueue (item : Z) | OpDequeue.

(** The results of a sequence of operations on any bounded queue. *)
Fixpoint bf_run `{BoundedFifo Q} (q : Q) (ops : list wq_op) : outcome (list Z * Q) :=
  match ops with
  | [] => Done ([], q)
  | op :: rest =>
      obind (match op with OpEnqueue x => bf_enq q x | OpDequeue => bf_deq q end)
        (fun '(r, q1) => obind (bf_run q1 rest) (fun '(rs, q2) => Done (r :: rs, q2)))
  end.

(** The same sequence on the specification: a list and its capacity. *)
Fixpoint spec_run (cap : nat) (l : list Z) (ops : list wq_op) : list Z * list Z :=
  match ops with
  | [] => ([], l)
  | OpEnqueue x :: rest =>
      if decide (length l = cap)
      then let '(rs, l') := spec_run cap l rest in (EBUSY :: rs, l')
      else let '(rs, l') := spec_run cap (l ++ [x]) rest in (0 :: rs, l')
  | OpDequeue :: rest =>
      match l with
      | [] => let '(rs, l') := spec_run cap [] rest in (WORK_QUEUE_UNASSIGNED_IDX :: rs, l')
      | y :: l1 => let '(rs, l') := spec_run cap l1 rest in (y :: rs, l')
      end
  end.

Definition wq_op_ok (op : wq_op) : Prop :=
  match op with OpEnqueue x => in_s 16 x | OpDequeue => True end.

Section Client.

Context {Q : Type} {BF : BoundedFifo Q}.

(** Any implementation of the interface runs as the specification. *)
Lemma bf_run_refines q ops :
  bf_ok q -> Forall wq_op_ok ops ->
  exists q', bf_run q ops = Done (fst (spec_run (bf_cap q) (bf_abs q) ops), q')
    /\ bf_ok q' /\ bf_cap q' = bf_cap q
    /\ bf_abs q' = snd (spec_run (bf_cap q) (bf_abs q) ops).
Proof.
  intros Hq Hops. revert q Hq. induction Hops as [|op ops Hop _ IH]; intros q Hq.
  - exists q. auto.
  - destruct op as [x|]; simpl.
    + destruct (bf_enq_spec q x Hq Hop) as (rc & q1 & -> & Hq1 & Hc & Hs).
      destruct (IH q1 Hq1) as (q' & Hr & Hq' & Hc' & Ha'). simpl. rewrite Hr. simpl.
      rewrite Hc in *. destruct (decide _); destruct Hs as [-> Hs]; rewrite Hs in *;
        destruct (spec_run _ _ _); simpl in *; eauto 6.
    + destruct (bf_deq_spec q Hq) as (x & q1 & -> & Hq1 & Hc & Hs).
      destruct (IH q1 Hq1) as (q' & Hr & Hq' & Hc' & Ha'). simpl. rewrite Hr. simpl.
      rewrite Hc in *. destruct (bf_abs q); destruct Hs as [-> Hs]; rewrite Hs in *;
        destruct (spec_run _ _ _); simpl in *; eauto 6.
Qed.

(** Enqueueing [xs] into an empty queue that has the room. *)
Lemma spec_run_enqueue_all cap l xs :
  (length l + length xs <= cap)%nat ->
  spec_run cap l (map OpEnqueue xs) = (replicate (length xs) 0, l ++ xs).
Proof.
  revert l. induction xs as [|x xs IH]; intros l Hl; simpl in *.
  - by rewrite app_nil_r.
  - destruct (decide _); [lia|]. rewrite IH by (rewrite length_app; simpl; lia).
    by rewrite <- app_assoc.
Qed.

Lemma spec_run_dequeue_all cap l :
  spec_run cap l (replicate (length l) OpDequeue) = (l, []).
Proof. induction l as [|y l IH]; simpl; [reflexivity|]. by rewrite IH. Qed.
End Client.

Definition sample_wq : workqueue :=
  {| wq_id := 0; wq_item_ct := 3; wq_available_slots := 2; wq_read_idx := 2;
     wq_write_idx := 0; wq_items := [0; 9; 5; 9] |}.

Lemma sample_wq_inv : wq_inv sample_wq.
Proof. constructor; vm_compute; lia. Qed.

(** (C33) The ring of workqueue.c is a bounded FIFO of buffer indices: on a
    queue whose invariant holds, every sequence of enqueues and dequeues
    runs without touching memory outside the array, keeps the invariant,
    and returns exactly what a list of at most [item_ct] elements would
    return, EBUSY when it is full and the unassigned index when it is
    empty included. *)
Theorem workqueue_refines_fifo (wq : workqueue) (ops : list wq_op) :
  wq_inv wq -> Forall wq_op_ok ops ->
  exists wq', bf_run wq ops = Done (fst (spec_run (wq_item_ct wq) (wq_abs wq) ops), wq')
    /\ wq_inv wq' /\ wq_abs wq' = snd (spec_run (wq_item_ct wq) (wq_abs wq) ops).
Proof.
  intros Hq Hops. destruct (bf_run_refines (BF := workqueue_fifo) wq ops Hq Hops) as (wq' & Hr & Hi & _ & Ha).
  by exists wq'.
Qed.

Lemma workqueue_refines_fifo_witness :
  exists wq', bf_run sample_wq [OpEnqueue 7; OpEnqueue 8; OpEnqueue 1; OpDequeue; OpDequeue]
              = Done ([0; 0; EBUSY; 5; 7], wq').
Proof.
  destruct (workqueue_refines_fifo sample_wq
    [OpEnqueue 7; OpEnqueue 8; OpEnqueue 1; OpDequeue; OpDequeue]) as (wq' & H & _).
  - apply sample_wq_inv.
  - repeat constructor; simpl; unfold in_s; lia.
  - exists wq'. exact H.
Defined.

(** A freshly allocated queue of [n] slots is empty whatever the
    allocator's memory holds, takes [n] indices and hands them back in
    order; the enqueue after that is refused with EBUSY. *)
Theorem workqueue_fifo_order id n memory xs extra :
  (0 < n)%nat -> (n <= length memory)%nat -> length xs = n -> Forall (in_s 16) xs -> in_s 16 extra ->
  exists wq wq1 wq2, workqueue_alloc id n memory true true = Some wq
    /\ bf_run wq (map OpEnqueue xs) = Done (replicate n 0, wq1)
    /\ workqueue_enqueue wq1 extra = Done (EBUSY, wq1)
    /\ wq_abs wq1 = xs
    /\ bf_run wq1 (replicate n OpDequeue) = Done (xs, wq2)
    /\ workqueue_is_empty wq2 = true.
Proof.
  intros Hn Hm Hl Hxs Hex.
  destruct (workqueue_alloc id n memory true true) as [wq|] eqn:Ha; [|discriminate].
  destruct (wq_alloc_inv id n memory wq true Hn Hm Ha) as (Hi & He & Hc).
  destruct (bf_run_refines (BF := workqueue_fifo) wq (map OpEnqueue xs) Hi) as (wq1 & Hr1 & Hi1 & Hc1 & Ha1).
  { apply Forall_map. by eapply Forall_impl; [exact Hxs|]. }
  simpl in *. rewrite He, Hc, spec_run_enqueue_all in Hr1, Ha1 by (simpl; lia). simpl in Hr1, Ha1.
  destruct (bf_run_refines (BF := workqueue_fifo) wq1 (replicate n OpDequeue) Hi1) as (wq2 & Hr2 & Hi2 & _ & Ha2).
  { by apply Forall_replicate. }
  simpl in *. rewrite Hc in Hc1.
  rewrite Ha1, <- Hl, spec_run_dequeue_all in Hr2, Ha2.
  exists wq, wq1, wq2. split; [reflexivity|]. split; [by rewrite <- Hl|].
  split; [|split; [done|split; [by rewrite <- Hl|by apply wq_is_empty_spec]]].
  destruct (workqueue_enq_spec wq1 extra Hi1 Hex) as (rc & q' & Hq & _ & _ & Hs).
  rewrite Ha1, Hc1, decide_True in Hs by done. destruct Hs as [-> Hs].
  apply wq_enqueue_full. apply (f_equal length) in Ha1. rewrite length_wq_abs in Ha1.
  unfold wq_count in Ha1. pose proof (wqi_avail _ Hi1). lia.
Qed.

Lemma workqueue_fifo_order_witness :
  exists wq wq1, workqueue_alloc 4 2 [77; 78; 79] true true = Some wq
    /\ bf_run wq [OpEnqueue 11; OpEnqueue 12] = Done ([0; 0], wq1)
    /\ workqueue_enqueue wq1 13 = Done (EBUSY, wq1).
Proof.
  destruct (workqueue_fifo_order 4 2 [77; 78; 79] [11; 12] 13) as (wq & wq1 & wq2 & H1 & H2 & H3 & _).
  - lia.
  - simpl. lia.
  - reflexivity.
  - repeat constructor; unfold in_s; lia.
  - unfold in_s. lia.
  - exists wq, wq1. auto.
Defined.

(** ** workqueue_get_contents() *)

Lemma get_contents_loop_spec wq ct idx i items d :
  (i < length items)%nat ->
  get_contents_loop wq ct idx i items
  = match ring_slice (wq_items wq) (wq_item_ct wq) idx ct with
    | [] => items
    | l => <[i := List.last l d]> items
    end.
Proof.
  revert idx items. induction ct as [|ct IH]; intros idx items Hi; [reflexivity|].
  cbn [get_contents_loop ring_slice]. rewrite IH by (by rewrite length_insert).
  destruct ct as [|ct]; [reflexivity|].
  cbn [ring_slice]. rewrite list_insert_insert_eq. reflexivity.
Qed.

(** workqueue_get_contents() reports at most one index: the newest
    item lands in the first slot, overwriting the older ones, because the
    copying loop does not advance its destination; all other slots stay
    unassigned. With too small a destination it fails with ENOSPC. *)
Theorem workqueue_get_contents_newest wq size :
  wq_inv wq ->
  workqueue_get_contents wq size =
    if (size <? wq_item_ct wq)%nat
    then (ENOSPC, replicate size WORK_QUEUE_UNASSIGNED_IDX)
    else match wq_abs wq with
         | [] => (0, replicate size WORK_QUEUE_UNASSIGNED_IDX)
         | l => (0, List.last l 0 :: replicate (size - 1) WORK_QUEUE_UNASSIGNED_IDX)
         end.
Proof.
  intros Hi. unfold workqueue_get_contents. pose proof (wqi_ct _ Hi).
  destruct (Nat.ltb_spec size (wq_item_ct wq)) as [Hlt|Hge]; [reflexivity|].
  rewrite get_contents_loop_spec with (d := 0) by (rewrite length_replicate; lia).
  unfold wq_abs, wq_count. destruct size as [|size]; [lia|].
  destruct (ring_slice _ _ _ _); [reflexivity|].
  simpl. rewrite Nat.sub_0_r. reflexivity.
Qed.

Lemma workqueue_get_contents_newest_witness :
  exists wq, wq_abs wq = [5; 7]
    /\ workqueue_get_contents wq 4 = (0, [7; -1; -1; -1]).
Proof.
  exists {| wq_id := 0; wq_item_ct := 3; wq_available_slots := 1; wq_read_idx := 2;
            wq_write_idx := 1; wq_items := [7; 9; 5; 9] |}.
  split; [reflexivity|].
  rewrite workqueue_get_contents_newest; [reflexivity|].
  constructor; vm_compute; lia.
Defined.
