(* ===== verification/MwDebugfs.v ===== *)
(** * MwDebugfs: the debug counters of the kernel module

    protvm/kernel/mwcomms/mwcomms-debugfs.c: messages counted by their
    kind while tracing is on, the two files that show the counters and the
    trace of the latest requests as text, and the directory they are in.
    Each function is one step. The counters' calls in mwcomms-xen-iface.c
    have no effect in the default build, in which nothing creates the file
    that switches the tracing on. *)

From Stdlib Require Import String.
From stdpp Require Import base numbers list.
From Stdlib Require Import ZArith Lia.
From S2P Require Import Prelude Text MessageTypes.

#[local] Arguments Z.eqb : simpl never.
#[local] Arguments Z.to_nat : simpl never.
#[local] Arguments dec_text : simpl never.

Definition MW_DEBUGFS_BUFF_SIZE : Z := 2048.
Definition MW_DEBUGFS_LINE_SIZE : Z := 256.
Definition MW_DEBUGFS_RT_LINE_SIZE : Z := 256.
Definition MW_DEBUGFS_TRACE_BUF_MAX : Z := 500.
Definition MW_DEBUGFS_RT_BUFF_SIZE : Z := MW_DEBUGFS_RT_LINE_SIZE * MW_DEBUGFS_TRACE_BUF_MAX.

(** ** The data *)

(** Each counter is an [atomic64_t]. *)
Record mt_dbg_count := {
  dc_invalid : Z; dc_create : Z; dc_shutdown : Z; dc_close : Z; dc_connect : Z; dc_bind : Z;
  dc_listen : Z; dc_accept : Z; dc_send : Z; dc_recv : Z; dc_recvfrom : Z; dc_getname : Z;
  dc_getpeer : Z; dc_attrib : Z; dc_pollsetquery : Z; dc_unknown : Z; dc_total : Z
}.

Definition eta_dc (x : mt_dbg_count) : mt_dbg_count :=
  {| dc_invalid := dc_invalid x; dc_create := dc_create x; dc_shutdown := dc_shutdown x; dc_close := dc_close x;
     dc_connect := dc_connect x; dc_bind := dc_bind x; dc_listen := dc_listen x; dc_accept := dc_accept x;
     dc_send := dc_send x; dc_recv := dc_recv x; dc_recvfrom := dc_recvfrom x; dc_getname := dc_getname x;
     dc_getpeer := dc_getpeer x; dc_attrib := dc_attrib x; dc_pollsetquery := dc_pollsetquery x;
     dc_unknown := dc_unknown x; dc_total := dc_total x |}.

(** atomic64_inc() on one counter. *)
Definition inc_invalid (x : mt_dbg_count) : mt_dbg_count := ltac:(set_field (eta_dc) (dc_invalid) (s64 (dc_invalid x + 1)) x).
Definition inc_create (x : mt_dbg_count) : mt_dbg_count := ltac:(set_field (eta_dc) (dc_create) (s64 (dc_create x + 1)) x).
Definition inc_shutdown (x : mt_dbg_count) : mt_dbg_count := ltac:(set_field (eta_dc) (dc_shutdown) (s64 (dc_shutdown x + 1)) x).
Definition inc_close (x : mt_dbg_count) : mt_dbg_count := ltac:(set_field (eta_dc) (dc_close) (s64 (dc_close x + 1)) x).
Definition inc_connect (x : mt_dbg_count) : mt_dbg_count := ltac:(set_field (eta_dc) (dc_connect) (s64 (dc_connect x + 1)) x).
Definition inc_bind (x : mt_dbg_count) : mt_dbg_count := ltac:(set_field (eta_dc) (dc_bind) (s64 (dc_bind x + 1)) x).
Definition inc_listen (x : mt_dbg_count) : mt_dbg_count := ltac:(set_field (eta_dc) (dc_listen) (s64 (dc_listen x + 1)) x).
Definition inc_accept (x : mt_dbg_count) : mt_dbg_count := ltac:(set_field (eta_dc) (dc_accept) (s64 (dc_accept x + 1)) x).
Definition inc_send (x : mt_dbg_count) : mt_dbg_count := ltac:(set_field (eta_dc) (dc_send) (s64 (dc_send x + 1)) x).
Definition inc_recv (x : mt_dbg_count) : mt_dbg_count := ltac:(set_field (eta_dc) (dc_recv) (s64 (dc_recv x + 1)) x).
Definition inc_recvfrom (x : mt_dbg_count) : mt_dbg_count := ltac:(set_field (eta_dc) (dc_recvfrom) (s64 (dc_recvfrom x + 1)) x).
Definition inc_getname (x : mt_dbg_count) : mt_dbg_count := ltac:(set_field (eta_dc) (dc_getname) (s64 (dc_getname x + 1)) x).
Definition inc_getpeer (x : mt_dbg_count) : mt_dbg_count := ltac:(set_field (eta_dc) (dc_getpeer) (s64 (dc_getpeer x + 1)) x).
Definition inc_attrib (x : mt_dbg_count) : mt_dbg_count := ltac:(set_field (eta_dc) (dc_attrib) (s64 (dc_attrib x + 1)) x).
Definition inc_pollsetquery (x : mt_dbg_count) : mt_dbg_count := ltac:(set_field (eta_dc) (dc_pollsetquery) (s64 (dc_pollsetquery x + 1)) x).
Definition inc_unknown (x : mt_dbg_count) : mt_dbg_count := ltac:(set_field (eta_dc) (dc_unknown) (s64 (dc_unknown x + 1)) x).
Definition inc_total (x : mt_dbg_count) : mt_dbg_count := ltac:(set_field (eta_dc) (dc_total) (s64 (dc_total x + 1)) x).

Definition zero_counts : mt_dbg_count :=
  {| dc_invalid := 0; dc_create := 0; dc_shutdown := 0; dc_close := 0; dc_connect := 0; dc_bind := 0;
     dc_listen := 0; dc_accept := 0; dc_send := 0; dc_recv := 0; dc_recvfrom := 0; dc_getname := 0;
     dc_getpeer := 0; dc_attrib := 0; dc_pollsetquery := 0; dc_unknown := 0; dc_total := 0 |}.

Record mwsocket_trace_buffer := {
  tb_index : Z; tb_pid : Z; tb_fops : Z; tb_type : Z; tb_t_mw1 : Z; tb_t_mw2 : Z; tb_t_mw3 : Z;
  tb_t_mw4 : Z; tb_t_mw5 : Z; tb_t_mw6 : Z; tb_t_ins : Z
}.

Definition zero_trace : mwsocket_trace_buffer :=
  {| tb_index := 0; tb_pid := 0; tb_fops := 0; tb_type := 0; tb_t_mw1 := 0; tb_t_mw2 := 0; tb_t_mw3 := 0;
     tb_t_mw4 := 0; tb_t_mw5 := 0; tb_t_mw6 := 0; tb_t_ins := 0 |}.

(** The global variables; a buffer is all of its bytes. *)
Record mw_debugfs := {
  df_tracing_on : Z;
  df_buffer : list Z;
  df_req_count : mt_dbg_count;
  df_resp_count : mt_dbg_count;
  df_rt_buffer : list Z;
  df_trace_cur : Z;
  df_trace_buf : list mwsocket_trace_buffer
}.

Definition eta_df (x : mw_debugfs) : mw_debugfs :=
  {| df_tracing_on := df_tracing_on x; df_buffer := df_buffer x; df_req_count := df_req_count x;
     df_resp_count := df_resp_count x; df_rt_buffer := df_rt_buffer x; df_trace_cur := df_trace_cur x;
     df_trace_buf := df_trace_buf x |}.
Definition set_df_tracing_on (v : Z) (x : mw_debugfs) : mw_debugfs := ltac:(set_field (eta_df) (df_tracing_on) v x).
Definition set_df_buffer (v : list Z) (x : mw_debugfs) : mw_debugfs := ltac:(set_field (eta_df) (df_buffer) v x).
Definition set_df_req_count (v : mt_dbg_count) (x : mw_debugfs) : mw_debugfs := ltac:(set_field (eta_df) (df_req_count) v x).
Definition set_df_resp_count (v : mt_dbg_count) (x : mw_debugfs) : mw_debugfs := ltac:(set_field (eta_df) (df_resp_count) v x).
Definition set_df_rt_buffer (v : list Z) (x : mw_debugfs) : mw_debugfs := ltac:(set_field (eta_df) (df_rt_buffer) v x).

Definition zero_bytes (n : Z) : list Z := replicate (Z.to_nat n) 0.

Definition debugfs_zero : mw_debugfs :=
  {| df_tracing_on := 0; df_buffer := zero_bytes MW_DEBUGFS_BUFF_SIZE; df_req_count := zero_counts;
     df_resp_count := zero_counts; df_rt_buffer := zero_bytes MW_DEBUGFS_RT_BUFF_SIZE; df_trace_cur := 0;
     df_trace_buf := replicate (Z.to_nat MW_DEBUGFS_TRACE_BUF_MAX) zero_trace |}.

(** ** Counting *)

(** The switch on the type of a message, which is one of the enumerators
    or not. *)
Definition count_message (kind : option mt_request_type) (c : mt_dbg_count) : mt_dbg_count :=
  match kind with
  | Some MtRequestInvalid => inc_total (inc_invalid c)
  | Some MtRequestSocketCreate => inc_total (inc_create c)
  | Some MtRequestSocketShutdown => inc_total (inc_shutdown c)
  | Some MtRequestSocketClose => inc_total (inc_close c)
  | Some MtRequestSocketConnect => inc_total (inc_connect c)
  | Some MtRequestSocketBind => inc_total (inc_bind c)
  | Some MtRequestSocketListen => inc_total (inc_listen c)
  | Some MtRequestSocketAccept => inc_total (inc_accept c)
  | Some MtRequestSocketSend => inc_total (inc_send c)
  | Some MtRequestSocketRecv => inc_total (inc_recv c)
  | Some MtRequestSocketRecvFrom => inc_total (inc_recvfrom c)
  | Some MtRequestSocketGetName => inc_total (inc_getname c)
  | Some MtRequestSocketGetPeer => inc_total (inc_getpeer c)
  | Some MtRequestSocketAttrib => inc_total (inc_attrib c)
  | Some MtRequestPollsetQuery => inc_total (inc_pollsetquery c)
  | Some MtRequestAddrBlock | None => inc_unknown (inc_total c)
  end.

(** The enumerator of a response. *)
Definition response_type_of (code : Z) : option mt_request_type :=
  head (filter (fun t => response_type_code t = code) all_request_types).

Definition mw_debugfs_request_count (type : Z) (d : mw_debugfs) : mw_debugfs :=
  if df_tracing_on d =? 0 then d
  else set_df_req_count (count_message (request_type_of type) (df_req_count d)) d.

Definition mw_debugfs_response_count (type : Z) (d : mw_debugfs) : mw_debugfs :=
  if df_tracing_on d =? 0 then d
  else set_df_resp_count (count_message (response_type_of type) (df_resp_count d)) d.

Definition mw_debugfs_reset_stats (d : mw_debugfs) : mw_debugfs :=
  set_df_resp_count zero_counts (set_df_req_count zero_counts d).

(** The write to the file reset: any bytes will do. *)
Definition mw_debugfs_reset (count : Z) (d : mw_debugfs) : Z * mw_debugfs := (count, mw_debugfs_reset_stats d).

(** ** Texts in a buffer *)

(** The bytes before the first NUL. *)
Fixpoint cstr (bs : list Z) : list Z :=
  match bs with
  | [] => []
  | b :: rest => if b =? 0 then [] else b :: cstr rest
  end.

Definition strnlen (bs : list Z) (n : Z) : Z := Z.of_nat (length (cstr (take (Z.to_nat n) bs))).

(** At most [n] bytes of [src] and a NUL, behind the text in [dst]. *)
Definition strncat (dst src : list Z) (n : Z) : list Z :=
  let k := length (cstr dst) in
  let added := take (Z.to_nat n) (cstr src) ++ [0] in
  take k dst ++ added ++ drop (k + length added) dst.

(** Both functions that append a line: [size] is that of the buffer,
    [line_size] that of the line, of which vsnprintf() gets all but one. *)
Definition buff_append (size line_size : Z) (formatted buf : list Z) : list Z :=
  let line := snprintf (line_size - 1) formatted in
  let remain := size - strnlen buf size - 1 in
  strncat buf line remain.

Definition mw_debugfs_buff_append : list Z -> list Z -> list Z := buff_append MW_DEBUGFS_BUFF_SIZE MW_DEBUGFS_LINE_SIZE.
Definition mw_debugfs_rt_buff_append : list Z -> list Z -> list Z :=
  buff_append MW_DEBUGFS_RT_BUFF_SIZE MW_DEBUGFS_RT_LINE_SIZE.

(** %-15lu *)
Definition lu15 (v : Z) : list Z := let t := dec_text (u64 v) in t ++ replicate (15 - length t) 32.

Definition count_row (name : list Z) (req resp : Z) : list Z := name ++ lu15 req ++ lu15 resp ++ [10].

(** The lines of the file message_counts, in order. *)
Definition count_lines (req resp : mt_dbg_count) : list (list Z) :=
  let rule := text "--------------------------------------------------" ++ [10] in
  [ [10; 10];
    text "Message Type                   Request        Response" ++ [10];
    count_row (text "MtRequestSocketInvalid         ") (dc_invalid req) (dc_invalid resp);
    count_row (text "MtRequestSocketCreate          ") (dc_create req) (dc_create resp);
    count_row (text "MtRequestSocketShutdown        ") (dc_shutdown req) (dc_shutdown resp);
    count_row (text "MtRequestSocketClose           ") (dc_close req) (dc_close resp);
    count_row (text "MtRequestSocketConnect         ") (dc_connect req) (dc_connect resp);
    count_row (text "MtRequestSocketBind            ") (dc_bind req) (dc_bind resp);
    count_row (text "MtRequestSocketListen          ") (dc_listen req) (dc_listen resp);
    count_row (text "MtRequestSocketAccept          ") (dc_accept req) (dc_accept resp);
    count_row (text "MtRequestSocketSend            ") (dc_send req) (dc_accept resp);
    count_row (text "MtRequestSocketRecv            ") (dc_recv req) (dc_recv resp);
    count_row (text "MtRequestSocketRecvFrom        ") (dc_recvfrom req) (dc_recvfrom resp);
    count_row (text "MtRequestSocketGetName         ") (dc_getname req) (dc_getname resp);
    count_row (text "MtRequestSocketGetPeer         ") (dc_getpeer req) (dc_getpeer resp);
    count_row (text "MtRequestSocketAttrib          ") (dc_attrib req) (dc_attrib resp);
    count_row (text "MtRequestSocketPollSetQuery    ") (dc_pollsetquery req) (dc_pollsetquery resp);
    count_row (text "Unknown                        ") (dc_unknown req) (dc_unknown resp);
    rule;
    count_row (text "Total                          ") (dc_total req) (dc_total resp);
    rule;
    rule;
    text "Cumulative total:     " ++ dec_text (u64 (dc_total req + dc_total req)) ++ [10];
    [10; 10] ].

Definition mw_debugfs_make_count_buffer (d : mw_debugfs) : mw_debugfs :=
  set_df_buffer (fold_left (fun buf line => mw_debugfs_buff_append line buf)
    (count_lines (df_req_count d) (df_resp_count d)) (zero_bytes MW_DEBUGFS_BUFF_SIZE)) d.

(** ** The trace of requests *)

Definition lu (v : Z) : list Z := dec_text (u64 v).
Definition pu (v : Z) : list Z := dec_text (u32 v).

Definition trace_line (tb : mwsocket_trace_buffer) : list Z :=
  lu (tb_index tb) ++ [58] ++ pu (tb_pid tb) ++ [58] ++ pu (tb_fops tb) ++ [58] ++ pu (tb_type tb) ++ [58]
  ++ lu (tb_t_mw1 tb) ++ [58] ++ lu (tb_t_mw2 tb) ++ [58] ++ lu (tb_t_mw3 tb) ++ [58] ++ lu (tb_t_mw4 tb) ++ [58]
  ++ lu (tb_t_mw5 tb) ++ [58] ++ lu (tb_t_mw6 tb) ++ [58] ++ lu (tb_t_ins tb) ++ [10].

(** The loop: [n] entries from [cur] backwards. An index outside of the
    array is undefined. *)
Fixpoint rt_loop (n : nat) (cur : Z) (tbs : list mwsocket_trace_buffer) (buf : list Z) : outcome (list Z) :=
  match n with
  | O => Done buf
  | S n' =>
      if cur <? 0 then Undef
      else match tbs !! Z.to_nat cur with
           | None => Undef
           | Some tb =>
               rt_loop n' (if cur =? 0 then MW_DEBUGFS_TRACE_BUF_MAX - 1 else cur - 1) tbs
                 (mw_debugfs_rt_buff_append (trace_line tb) buf)
           end
  end.

Definition mw_debugfs_make_rt_buffer (d : mw_debugfs) : outcome mw_debugfs :=
  let cur := s32 (Z.rem (df_trace_cur d) MW_DEBUGFS_TRACE_BUF_MAX) in
  obind (rt_loop (Z.to_nat MW_DEBUGFS_TRACE_BUF_MAX) cur (df_trace_buf d) (zero_bytes MW_DEBUGFS_RT_BUFF_SIZE))
    (fun buf => Done (set_df_rt_buffer buf d)).

(** ** The files *)

Section Files.

(** simple_read_from_buffer() of the kernel: the part of [available] that
    a read of [count] bytes at [position] gives. *)
Context {A : Type} (simple_read_from_buffer : Z -> Z -> list Z -> Z -> A).

Definition mw_debugfs_buffer_reader (count position : Z) (d : mw_debugfs) : A * mw_debugfs :=
  let d := mw_debugfs_make_count_buffer d in
  (simple_read_from_buffer count position (df_buffer d) MW_DEBUGFS_BUFF_SIZE, d).

Definition mw_debugfs_rt_reader (count position : Z) (d : mw_debugfs) : outcome (A * mw_debugfs) :=
  obind (mw_debugfs_make_rt_buffer d) (fun d =>
    Done (simple_read_from_buffer count position (df_rt_buffer d) (strnlen (df_rt_buffer d) MW_DEBUGFS_RT_BUFF_SIZE), d)).

End Files.

(** ** The directory *)

Inductive debugfs_call :=
| DebugfsCreateDir
| DebugfsCreateFile (name : string) (mode : Z)
| DebugfsCreateU64 (name : string) (mode : Z)
| DebugfsRemoveRecursive (dir : bool).

(** Whether a call gave an entry, for any kernel. *)
Class DebugfsOS (W : Type) := debugfs_os_call : debugfs_call -> W -> bool * W.

Section Directory.

Context {W : Type} {OS : DebugfsOS W}.

(** [mw_debugfs_dir] is set or NULL; the calls made are recorded. *)
Record debugfs_dir := { dd_dir : bool; dd_world : W; dd_calls : list debugfs_call }.

Definition dcall (c : debugfs_call) : M debugfs_dir bool := fun d =>
  let (r, w) := debugfs_os_call c (dd_world d) in
  Done (r, {| dd_dir := dd_dir d; dd_world := w; dd_calls := dd_calls d ++ [c] |}).

Definition set_dir (v : bool) : M debugfs_dir unit :=
  modify (fun d => {| dd_dir := v; dd_world := dd_world d; dd_calls := dd_calls d |}).

Definition mw_debugfs_init : M debugfs_dir unit :=
  let* dir := dcall DebugfsCreateDir in
  set_dir dir ;;;
  if negb dir then ret tt
  else
    let* f := dcall (DebugfsCreateFile "message_counts" (* 0644 *) 420) in
    if negb f then ret tt
    else
      let* f := dcall (DebugfsCreateFile "reset" (* 0244 *) 164) in
      if negb f then ret tt
      else
        let* f := dcall (DebugfsCreateU64 "tracing_on" (* 0644 *) 420) in
        if negb f then ret tt
        else
          let* _ := dcall (DebugfsCreateFile "request_trace" (* 0444 *) 292) in ret tt.

Definition mw_debugfs_fini : M debugfs_dir unit :=
  let* dir := gets dd_dir in
  let* _ := dcall (DebugfsRemoveRecursive dir) in ret tt.

End Directory.

(** ** Specification: what the counters should show

    A log of the messages that were counted: those since the last reset,
    while tracing was on. *)

Inductive dbg_op :=
| CountRequest (type : Z)
| CountResponse (type : Z)
| ResetStats
| SetTracing (v : Z)
| ReadCounts.

Definition dbg_step (d : mw_debugfs) (op : dbg_op) : mw_debugfs :=
  match op with
  | CountRequest t => mw_debugfs_request_count t d
  | CountResponse t => mw_debugfs_response_count t d
  | ResetStats => mw_debugfs_reset_stats d
  | SetTracing v => set_df_tracing_on (u64 v) d
  | ReadCounts => mw_debugfs_make_count_buffer d
  end.

Record dbg_log := { lg_on : bool; lg_requests : list Z; lg_responses : list Z }.

Definition log_step (l : dbg_log) (op : dbg_op) : dbg_log :=
  match op with
  | CountRequest t => if lg_on l then {| lg_on := true; lg_requests := t :: lg_requests l; lg_responses := lg_responses l |} else l
  | CountResponse t => if lg_on l then {| lg_on := true; lg_requests := lg_requests l; lg_responses := t :: lg_responses l |} else l
  | ResetStats => {| lg_on := lg_on l; lg_requests := []; lg_responses := [] |}
  | SetTracing v => {| lg_on := truth (u64 v); lg_requests := lg_requests l; lg_responses := lg_responses l |}
  | ReadCounts => l
  end.

(** How many messages of a kind a log has; those of no kind; all. *)
Definition tally (code : mt_request_type -> Z) (t : mt_request_type) (log : list Z) : Z :=
  Z.of_nat (length (filter (fun c => c = code t) log)).
Definition counted_kinds : list mt_request_type := filter (fun t => t <> MtRequestAddrBlock) all_request_types.
Definition tally_unknown (code : mt_request_type -> Z) (log : list Z) : Z :=
  Z.of_nat (length (filter (fun c => Forall (fun t => c <> code t) counted_kinds) log)).

(** The counters that belong to a log. *)
Definition tallies (code : mt_request_type -> Z) (log : list Z) : mt_dbg_count :=
  let n t := s64 (tally code t log) in
  {| dc_invalid := n MtRequestInvalid; dc_create := n MtRequestSocketCreate; dc_shutdown := n MtRequestSocketShutdown;
     dc_close := n MtRequestSocketClose; dc_connect := n MtRequestSocketConnect; dc_bind := n MtRequestSocketBind;
     dc_listen := n MtRequestSocketListen; dc_accept := n MtRequestSocketAccept; dc_send := n MtRequestSocketSend;
     dc_recv := n MtRequestSocketRecv; dc_recvfrom := n MtRequestSocketRecvFrom; dc_getname := n MtRequestSocketGetName;
     dc_getpeer := n MtRequestSocketGetPeer; dc_attrib := n MtRequestSocketAttrib;
     dc_pollsetquery := n MtRequestPollsetQuery; dc_unknown := s64 (tally_unknown code log);
     dc_total := s64 (Z.of_nat (length log)) |}.

(** The rows of the file: the label, and the kinds whose numbers of
    requests and of responses it shows. *)
Definition count_rows : list (string * mt_request_type * mt_request_type) :=
  [ ("MtRequestSocketInvalid", MtRequestInvalid, MtRequestInvalid);
    ("MtRequestSocketCreate", MtRequestSocketCreate, MtRequestSocketCreate);
    ("MtRequestSocketShutdown", MtRequestSocketShutdown, MtRequestSocketShutdown);
    ("MtRequestSocketClose", MtRequestSocketClose, MtRequestSocketClose);
    ("MtRequestSocketConnect", MtRequestSocketConnect, MtRequestSocketConnect);
    ("MtRequestSocketBind", MtRequestSocketBind, MtRequestSocketBind);
    ("MtRequestSocketListen", MtRequestSocketListen, MtRequestSocketListen);
    ("MtRequestSocketAccept", MtRequestSocketAccept, MtRequestSocketAccept);
    ("MtRequestSocketSend", MtRequestSocketSend, MtRequestSocketAccept);
    ("MtRequestSocketRecv", MtRequestSocketRecv, MtRequestSocketRecv);
    ("MtRequestSocketRecvFrom", MtRequestSocketRecvFrom, MtRequestSocketRecvFrom);
    ("MtRequestSocketGetName", MtRequestSocketGetName, MtRequestSocketGetName);
    ("MtRequestSocketGetPeer", MtRequestSocketGetPeer, MtRequestSocketGetPeer);
    ("MtRequestSocketAttrib", MtRequestSocketAttrib, MtRequestSocketAttrib);
    ("MtRequestSocketPollSetQuery", MtRequestPollsetQuery, MtRequestPollsetQuery) ]%string.

Definition column (n : nat) (t : list Z) : list Z := t ++ replicate (n - length t) 32.
Definition shown_row (name : string) (req resp : Z) : list Z :=
  column 31 (text name) ++ column 15 (dec_text (u64 req)) ++ column 15 (dec_text (u64 resp)) ++ [10].

Definition shown_counts (l : dbg_log) : list Z :=
  let rule := replicate 50 45 ++ [10] in
  [10; 10] ++ column 31 (text "Message Type") ++ text "Request        Response" ++ [10]
  ++ concat (map (fun '(name, t, t') =>
       shown_row name (tally request_type_code t (lg_requests l)) (tally response_type_code t' (lg_responses l))) count_rows)
  ++ shown_row "Unknown" (tally_unknown request_type_code (lg_requests l)) (tally_unknown response_type_code (lg_responses l))
  ++ rule
  ++ shown_row "Total" (Z.of_nat (length (lg_requests l))) (Z.of_nat (length (lg_responses l)))
  ++ rule ++ rule
  ++ text "Cumulative total:     " ++ dec_text (u64 (2 * Z.of_nat (length (lg_requests l)))) ++ [10; 10; 10].

(** ** Counters against the log *)

Lemma u64_s64 x : u64 (s64 x) = u64 x.
Proof.
  unfold wrapu, wraps. rewrite Zminus_mod_idemp_l. f_equal. lia.
Qed.

Lemma s64_succ x : s64 (s64 x + 1) = s64 (x + 1).
Proof.
  rewrite <- (wraps_wrapu 64 (s64 x + 1)), <- (wraps_wrapu 64 (x + 1)) by lia. f_equal.
  unfold wrapu. rewrite <- Zplus_mod_idemp_l. change (s64 x mod 2 ^ 64) with (u64 (s64 x)). rewrite u64_s64.
  unfold wrapu. by rewrite Zplus_mod_idemp_l.
Qed.

Section Tallies.

Context (code : mt_request_type -> Z) (type_of : Z -> option mt_request_type).
Context (type_of_code : forall t, type_of (code t) = Some t)
        (type_of_inv : forall c t, type_of c = Some t -> code t = c).

Lemma type_of_iff c t : c = code t <-> type_of c = Some t.
Proof using type_of_code type_of_inv. split; [intros ->; apply type_of_code|intros H; symmetry; by apply type_of_inv]. Qed.

Lemma tally_cons c log t :
  s64 (tally code t (c :: log)) = if decide (type_of c = Some t) then s64 (s64 (tally code t log) + 1) else s64 (tally code t log).
Proof using type_of_code type_of_inv.
  unfold tally. rewrite filter_cons.
  destruct (decide (c = code t)) as [E|E]; destruct (decide (type_of c = Some t)) as [E'|E'];
    rewrite type_of_iff in E; try done.
  rewrite s64_succ. cbn [length]. f_equal. lia.
Qed.

Lemma tally_unknown_cons c log :
  s64 (tally_unknown code (c :: log))
  = match type_of c with
    | None | Some MtRequestAddrBlock => s64 (s64 (tally_unknown code log) + 1)
    | Some _ => s64 (tally_unknown code log)
    end.
Proof using type_of_code type_of_inv.
  unfold tally_unknown. rewrite filter_cons.
  destruct (decide (Forall (fun t => c <> code t) counted_kinds)) as [E|E].
  - assert (match type_of c with None | Some MtRequestAddrBlock => True | Some _ => False end) as Hc.
    { destruct (type_of c) as [t|] eqn:Et; [|done]. apply type_of_inv in Et. subst c. rewrite Forall_forall in E.
      destruct t; try done; (eapply E; [|reflexivity]; apply (bool_decide_unpack _); by vm_compute). }
    destruct (type_of c) as [[]|]; try done; rewrite s64_succ; cbn [length]; f_equal; lia.
  - assert (exists t, type_of c = Some t /\ t <> MtRequestAddrBlock) as (t & -> & Ht).
    { apply not_Forall_Exists in E; [|intros t; apply _]. apply Exists_exists in E as (t & Hin & Hn).
      exists t. split; [apply type_of_iff; by apply dec_stable|]. by apply list_elem_of_filter in Hin as [? _]. }
    by destruct t.
Qed.

Lemma count_tallies c log : count_message (type_of c) (tallies code log) = tallies code (c :: log).
Proof using type_of_code type_of_inv.
  unfold tallies. cbv zeta. rewrite !tally_cons, tally_unknown_cons. cbn [length].
  replace (s64 (Z.of_nat (S (length log)))) with (s64 (s64 (Z.of_nat (length log)) + 1)) by (rewrite s64_succ; f_equal; lia).
  by destruct (type_of c) as [[]|].
Qed.

End Tallies.

Lemma response_type_of_code t : response_type_of (response_type_code t) = Some t.
Proof. destruct t; by vm_compute. Qed.

Lemma response_type_of_inv c t : response_type_of c = Some t -> response_type_code t = c.
Proof. unfold response_type_of. intros H. apply head_Some_elem_of, list_elem_of_filter in H. tauto. Qed.

(** The state that belongs to a log. *)
Definition shows (l : dbg_log) (d : mw_debugfs) : Prop :=
  lg_on l = truth (df_tracing_on d) /\ df_req_count d = tallies request_type_code (lg_requests l)
  /\ df_resp_count d = tallies response_type_code (lg_responses l).

Lemma shows_step l d op : shows l d -> shows (log_step l op) (dbg_step d op).
Proof.
  intros (H1 & H2 & H3). destruct op as [t|t| |v|]; simpl.
  - unfold mw_debugfs_request_count. rewrite H1. unfold truth. destruct (df_tracing_on d =? 0) eqn:E; simpl; [by split_and!|].
    unfold shows. cbn [df_tracing_on df_req_count df_resp_count set_df_req_count lg_on lg_requests lg_responses].
    rewrite H2, (count_tallies _ _ request_type_of_code request_type_of_inv). unfold truth. by rewrite E.
  - unfold mw_debugfs_response_count. rewrite H1. unfold truth. destruct (df_tracing_on d =? 0) eqn:E; simpl; [by split_and!|].
    unfold shows. cbn [df_tracing_on df_req_count df_resp_count set_df_resp_count lg_on lg_requests lg_responses].
    rewrite H3, (count_tallies _ _ response_type_of_code response_type_of_inv). unfold truth. by rewrite E.
  - by split_and!.
  - by split_and!.
  - by split_and!.
Qed.

Definition run_ops (ops : list dbg_op) : mw_debugfs := fold_left dbg_step ops debugfs_zero.
Definition log_of (ops : list dbg_op) : dbg_log :=
  fold_left log_step ops {| lg_on := false; lg_requests := []; lg_responses := [] |}.

Lemma shows_run ops : shows (log_of ops) (run_ops ops).
Proof.
  unfold log_of, run_ops. generalize (conj eq_refl (conj eq_refl eq_refl) :
    shows {| lg_on := false; lg_requests := []; lg_responses := [] |} debugfs_zero).
  generalize debugfs_zero. generalize {| lg_on := false; lg_requests := []; lg_responses := [] |}.
  induction ops as [|op ops IH]; intros l d H; [done|]. simpl. apply IH, shows_step, H.
Qed.

(** ** Texts are not cut *)

Definition no_nul (t : list Z) : Prop := Forall (fun b => b <> 0) t.

(** The buffer holds the text [t], and zeros behind it. *)
Definition holds_text (size : Z) (t buf : list Z) : Prop :=
  no_nul t /\ Z.of_nat (length t) < size /\ buf = t ++ replicate (Z.to_nat size - length t) 0.

Lemma cstr_no_nul t : no_nul t -> cstr t = t.
Proof. induction 1 as [|b t Hb _ IH]; [done|]. simpl. by rewrite (proj2 (Z.eqb_neq b 0)), IH. Qed.

Lemma cstr_text t n : no_nul t -> cstr (t ++ replicate n 0) = t.
Proof.
  induction 1 as [|b t Hb _ IH]; [by destruct n|]. simpl. by rewrite (proj2 (Z.eqb_neq b 0)), IH.
Qed.

Lemma holds_nothing size : 0 < size -> holds_text size [] (zero_bytes size).
Proof. intros H. split; [constructor|]. split; [simpl; lia|]. unfold zero_bytes. simpl. by rewrite Nat.sub_0_r. Qed.

Lemma holds_reads size t buf : holds_text size t buf -> take (Z.to_nat (strnlen buf size)) buf = t.
Proof.
  intros (Hno & Hlen & ->). unfold strnlen.
  rewrite (take_ge (_ ++ _) (Z.to_nat size)) by (rewrite length_app, length_replicate; lia).
  rewrite cstr_text, Nat2Z.id by done. apply take_app_length.
Qed.

(** A line that fits both its own buffer and what is left of the file's
    is appended whole. *)
Lemma append_whole size line_size t line buf :
  holds_text size t buf -> no_nul line -> Z.of_nat (length line) <= line_size - 2 ->
  Z.of_nat (length (t ++ line)) < size -> holds_text size (t ++ line) (buff_append size line_size line buf).
Proof.
  intros (Ht & Hs & ->) Hl Hn Hfit. rewrite length_app in Hfit.
  split; [by apply Forall_app|]. split; [rewrite length_app; lia|].
  unfold buff_append, snprintf. rewrite (take_ge line) by lia. unfold strnlen.
  rewrite take_ge by (rewrite length_app, length_replicate; lia).
  unfold strncat. cbv zeta. rewrite !cstr_text, (cstr_no_nul line), (take_ge line) by (done || lia).
  rewrite take_app_length, <- !app_assoc. f_equal. f_equal.
  rewrite drop_app_ge, drop_replicate by (rewrite length_app; simpl; lia).
  rewrite !length_app. cbn [length].
  replace (Z.to_nat size - (length t + length line))%nat
    with (S (Z.to_nat size - length t - (length t + (length line + 1) - length t)))%nat by lia.
  reflexivity.
Qed.

Lemma append_lines size line_size lines t buf :
  holds_text size t buf -> Forall (fun l => no_nul l /\ Z.of_nat (length l) <= line_size - 2) lines ->
  Z.of_nat (length t + length (concat lines)) < size ->
  holds_text size (t ++ concat lines) (fold_left (fun b l => buff_append size line_size l b) lines buf).
Proof.
  intros H HF. revert t buf H. induction HF as [|l lines [Hl Hn] _ IH]; intros t buf H Hs.
  - by rewrite app_nil_r.
  - simpl in *. rewrite length_app in Hs. rewrite app_assoc. apply IH.
    + apply append_whole; try done. rewrite length_app. lia.
    + rewrite length_app. lia.
Qed.

(** Bounds of concatenations, line by line. *)
Lemma length_concat_le (lines : list (list Z)) (bounds : list nat) :
  Forall2 (fun l n => (length l <= n)%nat) lines bounds -> (length (concat lines) <= sum_list bounds)%nat.
Proof. induction 1; simpl; [lia|]. rewrite length_app. lia. Qed.

Lemma dec_no_nul x : no_nul (dec_text x).
Proof.
  eapply Forall_impl; [apply (digits_are_digits 10 20 x); lia|]. intros b Hb. apply is_digit_range in Hb. lia.
Qed.

Lemma length_dec_u64 x : (length (dec_text (u64 x)) <= 20)%nat.
Proof.
  apply length_digits; [lia| |lia]. pose proof (wrapu_range 64 x ltac:(lia)) as H. unfold in_u in H.
  split; [lia|]. transitivity (2 ^ 64); [lia|by vm_compute].
Qed.

Lemma length_dec_u32 x : (length (dec_text (u32 x)) <= 10)%nat.
Proof.
  apply length_digits; [lia| |lia]. pose proof (wrapu_range 32 x ltac:(lia)) as H. unfold in_u in H.
  split; [lia|]. transitivity (2 ^ 32); [lia|by vm_compute].
Qed.

(** ** The file message_counts *)

Lemma lu15_fits v : no_nul (lu15 v) /\ (length (lu15 v) <= 20)%nat.
Proof.
  unfold lu15. pose proof (length_dec_u64 v). split.
  - apply Forall_app. split; [apply dec_no_nul|]. by apply Forall_replicate.
  - rewrite length_app, length_replicate. lia.
Qed.

Lemma count_row_fits name req resp :
  no_nul name -> length name = 31%nat -> no_nul (count_row name req resp) /\ (length (count_row name req resp) <= 72)%nat.
Proof.
  intros Hn Hl. destruct (lu15_fits req), (lu15_fits resp). unfold count_row, no_nul in *. split.
  - rewrite !Forall_app. split_and!; try done. by repeat constructor.
  - rewrite !length_app. simpl. lia.
Qed.

Definition count_bounds : list nat := [2; 55]%nat ++ replicate 16 72%nat ++ [51; 72; 51; 51; 43; 2]%nat.

Lemma count_lines_fit req resp :
  Forall2 (fun l n => no_nul l /\ (length l <= n)%nat) (count_lines req resp) count_bounds.
Proof.
  assert (forall s, forallb (fun b => negb (b =? 0)) s = true -> no_nul s) as Hno.
  { intros s H. apply Is_true_eq_left, forallb_True in H. eapply Forall_impl; [exact H|]. intros b Hb. cbn in Hb.
    apply Is_true_true, negb_true_iff, Z.eqb_neq in Hb. done. }
  unfold count_lines, count_bounds. cbn [replicate app].
  assert (forall s n, forallb (fun b => negb (b =? 0)) s = true -> (length s <=? n)%nat = true ->
            no_nul s /\ (length s <= n)%nat) as Hconst by (intros s n H1 H2; split; [by apply Hno|by apply Nat.leb_le]).
  do 2 (apply Forall2_cons; split; [apply Hconst; by vm_compute|]).
  do 16 (apply Forall2_cons; split; [apply count_row_fits; [apply Hno|]; by vm_compute|]).
  apply Forall2_cons; split; [apply Hconst; by vm_compute|].
  apply Forall2_cons; split; [apply count_row_fits; [apply Hno|]; by vm_compute|].
  do 2 (apply Forall2_cons; split; [apply Hconst; by vm_compute|]).
  apply Forall2_cons; split; [|apply Forall2_cons; split; [apply Hconst; by vm_compute|apply Forall2_nil; done]].
  split.
  - apply Forall_app. split; [apply Hno; by vm_compute|]. apply Forall_app. split; [apply dec_no_nul|by repeat constructor].
  - rewrite !length_app. pose proof (length_dec_u64 (dc_total req + dc_total req)). simpl. lia.
Qed.

Lemma fold_appends req resp :
  holds_text MW_DEBUGFS_BUFF_SIZE (concat (count_lines req resp))
    (fold_left (fun buf line => mw_debugfs_buff_append line buf) (count_lines req resp) (zero_bytes MW_DEBUGFS_BUFF_SIZE)).
Proof.
  pose proof (count_lines_fit req resp) as HF.
  apply (append_lines MW_DEBUGFS_BUFF_SIZE MW_DEBUGFS_LINE_SIZE _ []).
  - by apply holds_nothing.
  - apply Forall_forall. intros l Hl. apply list_elem_of_lookup in Hl as [k Hk].
    destruct (Forall2_lookup_l _ _ _ _ _ HF Hk) as (n & Hn & Hno & Hlen). split; [done|].
    assert (Forall (fun n => (n <= 72)%nat) count_bounds) as Hb by (unfold count_bounds; repeat constructor; lia).
    assert (n <= 72)%nat by exact (Forall_lookup_1 _ _ _ _ Hb Hn). unfold MW_DEBUGFS_LINE_SIZE. lia.
  - assert (length (concat (count_lines req resp)) <= sum_list count_bounds)%nat as H.
    { apply length_concat_le. eapply Forall2_impl; [exact HF|]. by intros l n [_ ?]. }
    change (sum_list count_bounds) with 1479%nat in H. unfold MW_DEBUGFS_BUFF_SIZE. cbn [length]. lia.
Qed.

Lemma shown_lines l :
  concat (count_lines (tallies request_type_code (lg_requests l)) (tallies response_type_code (lg_responses l)))
  = shown_counts l.
Proof.
  assert (forall v, lu15 (s64 v) = column 15 (dec_text (u64 v))) as Hlu by (intros v; unfold lu15; by rewrite u64_s64).
  assert (forall n, u64 (s64 n + s64 n) = u64 (2 * n)) as Hd.
  { intros n. replace (2 * n) with (n + n) by lia. unfold wrapu. rewrite (Zplus_mod (s64 n)), (Zplus_mod n).
    change (s64 n mod 2 ^ 64) with (u64 (s64 n)). by rewrite u64_s64. }
  unfold count_lines, shown_counts, shown_row, count_row, tallies. cbv zeta.
  cbn [dc_invalid dc_create dc_shutdown dc_close dc_connect dc_bind dc_listen dc_accept dc_send dc_recv dc_recvfrom
       dc_getname dc_getpeer dc_attrib dc_pollsetquery dc_unknown dc_total].
  rewrite !Hlu, Hd. unfold count_rows. cbn [map concat]. rewrite <- !app_assoc, !app_nil_r. reflexivity.
Qed.

(** (C28) The file message_counts shows the true numbers, whole: whatever
    messages are counted, and however often the counters are reset, the
    tracing is switched and the file is read in between, the file holds
    one line for each kind of message with the number of requests and of
    responses of that kind that passed since the last reset while tracing
    was on, modulo 2^64, then those of no kind that has a line and all of
    them; no line is cut at the end of the buffer. But the line of the
    sends shows the responses to accepts instead of those to sends, and
    the cumulative total is twice the number of requests. *)
Theorem message_counts_shown ops :
  holds_text MW_DEBUGFS_BUFF_SIZE (shown_counts (log_of ops)) (df_buffer (mw_debugfs_make_count_buffer (run_ops ops))).
Proof.
  destruct (shows_run ops) as (_ & Hq & Hr). unfold mw_debugfs_make_count_buffer. cbn [df_buffer set_df_buffer].
  rewrite <- shown_lines, Hq, Hr. apply fold_appends.
Qed.

(** While tracing is off, as it is in a module that has no file to switch
    it on, counting has no effect. *)
Lemma not_tracing_no_effect d type :
  df_tracing_on d = 0 -> mw_debugfs_request_count type d = d /\ mw_debugfs_response_count type d = d.
Proof. intros H. unfold mw_debugfs_request_count, mw_debugfs_response_count. by rewrite H. Qed.

(** ** The file request_trace *)

Lemma lu_fits v : no_nul (lu v) /\ (length (lu v) <= 20)%nat.
Proof. split; [apply dec_no_nul|apply length_dec_u64]. Qed.
Lemma pu_fits v : no_nul (pu v) /\ (length (pu v) <= 10)%nat.
Proof. split; [apply dec_no_nul|apply length_dec_u32]. Qed.

Lemma trace_line_fits tb : no_nul (trace_line tb) /\ (length (trace_line tb) <= 201)%nat.
Proof.
  assert (forall c, c <> 0 -> no_nul [c]) as H1 by (intros c Hc; by repeat constructor).
  unfold trace_line. split.
  - unfold no_nul. rewrite !Forall_app. split_and!; first [apply lu_fits|apply pu_fits|by apply H1].
  - rewrite !length_app. cbn [length].
    pose proof (proj2 (lu_fits (tb_index tb))). pose proof (proj2 (pu_fits (tb_pid tb))).
    pose proof (proj2 (pu_fits (tb_fops tb))). pose proof (proj2 (pu_fits (tb_type tb))).
    pose proof (proj2 (lu_fits (tb_t_mw1 tb))). pose proof (proj2 (lu_fits (tb_t_mw2 tb))).
    pose proof (proj2 (lu_fits (tb_t_mw3 tb))). pose proof (proj2 (lu_fits (tb_t_mw4 tb))).
    pose proof (proj2 (lu_fits (tb_t_mw5 tb))). pose proof (proj2 (lu_fits (tb_t_mw6 tb))).
    pose proof (proj2 (lu_fits (tb_t_ins tb))). lia.
Qed.

(** The line [k] steps back from the entry [cur]. *)
Definition slot_back (cur : Z) (k : nat) : Z := (cur - Z.of_nat k) mod MW_DEBUGFS_TRACE_BUF_MAX.
Definition line_back (tbs : list mwsocket_trace_buffer) (cur : Z) (k : nat) : list Z :=
  trace_line (default zero_trace (tbs !! Z.to_nat (slot_back cur k))).

Lemma rt_loop_lines n cur tbs t buf :
  Z.of_nat (length tbs) = MW_DEBUGFS_TRACE_BUF_MAX -> 0 <= cur < MW_DEBUGFS_TRACE_BUF_MAX ->
  holds_text MW_DEBUGFS_RT_BUFF_SIZE t buf -> Z.of_nat (length t) + 201 * Z.of_nat n < MW_DEBUGFS_RT_BUFF_SIZE ->
  exists buf', rt_loop n cur tbs buf = Done buf'
  /\ holds_text MW_DEBUGFS_RT_BUFF_SIZE (t ++ concat (map (line_back tbs cur) (seq 0 n))) buf'.
Proof.
  unfold MW_DEBUGFS_TRACE_BUF_MAX. revert cur t buf. induction n as [|n IH]; intros cur t buf Hl Hc Hh Hs.
  { exists buf. split; [done|]. simpl. by rewrite app_nil_r. }
  cbn [rt_loop]. rewrite (proj2 (Z.ltb_ge _ _)) by lia.
  destruct (tbs !! Z.to_nat cur) as [tb|] eqn:E; [|apply lookup_ge_None in E; lia].
  destruct (trace_line_fits tb) as [Hno Hlen].
  assert (line_back tbs cur 0 = trace_line tb) as H0.
  { unfold line_back, slot_back, MW_DEBUGFS_TRACE_BUF_MAX. rewrite Z.sub_0_r, Z.mod_small by lia. by rewrite E. }
  set (cur' := if cur =? 0 then MW_DEBUGFS_TRACE_BUF_MAX - 1 else cur - 1).
  assert (0 <= cur' < 500 /\ cur' = (cur - 1) mod 500) as [Hc' Hmod].
  { unfold cur', MW_DEBUGFS_TRACE_BUF_MAX. destruct (Z.eqb_spec cur 0) as [->|]; [done|].
    rewrite Z.mod_small by lia. lia. }
  destruct (IH cur' (t ++ trace_line tb) (mw_debugfs_rt_buff_append (trace_line tb) buf)) as (buf' & E' & H').
  - done.
  - done.
  - apply append_whole; try done; [unfold MW_DEBUGFS_RT_LINE_SIZE; lia|rewrite length_app; lia].
  - rewrite length_app. lia.
  - exists buf'. split; [exact E'|]. cbn [seq map concat]. rewrite H0, app_assoc.
    rewrite <- seq_shift, map_map. erewrite map_ext; [exact H'|]. intros k. unfold line_back, slot_back.
    do 4 f_equal. rewrite Hmod. unfold MW_DEBUGFS_TRACE_BUF_MAX. rewrite Zminus_mod_idemp_l. f_equal. lia.
Qed.

Lemma slots_back_distinct cur : NoDup (map (slot_back cur) (seq 0 (Z.to_nat MW_DEBUGFS_TRACE_BUF_MAX))).
Proof.
  apply NoDup_fmap_2_strong; [|apply NoDup_seq]. intros x y Hx Hy E.
  apply elem_of_seq in Hx, Hy. unfold slot_back, MW_DEBUGFS_TRACE_BUF_MAX in *.
  assert (Z.of_nat x = (cur - (cur - Z.of_nat x) mod 500) mod 500) as H1.
  { rewrite Zminus_mod_idemp_r. replace (cur - (cur - Z.of_nat x)) with (Z.of_nat x) by lia. rewrite Z.mod_small; lia. }
  assert (Z.of_nat y = (cur - (cur - Z.of_nat y) mod 500) mod 500) as H2.
  { rewrite Zminus_mod_idemp_r. replace (cur - (cur - Z.of_nat y)) with (Z.of_nat y) by lia. rewrite Z.mod_small; lia. }
  rewrite E in H1. lia.
Qed.

(** The file request_trace shows every entry of the trace buffer exactly
    once and whole, the one that was begun last first, then each the one
    that was begun before it, around the end of the array; a read is
    offered exactly this text. *)
Theorem request_trace_newest_first (d : mw_debugfs) :
  Z.of_nat (length (df_trace_buf d)) = MW_DEBUGFS_TRACE_BUF_MAX -> 0 <= df_trace_cur d < 2 ^ 63 ->
  let slots := map (slot_back (df_trace_cur d)) (seq 0 (Z.to_nat MW_DEBUGFS_TRACE_BUF_MAX)) in
  let shown := concat (map (line_back (df_trace_buf d) (df_trace_cur d)) (seq 0 (Z.to_nat MW_DEBUGFS_TRACE_BUF_MAX))) in
  NoDup slots /\ exists d', mw_debugfs_make_rt_buffer d = Done d'
  /\ holds_text MW_DEBUGFS_RT_BUFF_SIZE shown (df_rt_buffer d')
  /\ take (Z.to_nat (strnlen (df_rt_buffer d') MW_DEBUGFS_RT_BUFF_SIZE)) (df_rt_buffer d') = shown.
Proof.
  intros Hl Hc slots shown. split; [apply slots_back_distinct|].
  pose proof (Z.mod_pos_bound (df_trace_cur d) 500 ltac:(lia)) as Hm.
  assert (s32 (Z.rem (df_trace_cur d) MW_DEBUGFS_TRACE_BUF_MAX) = df_trace_cur d mod 500) as E.
  { unfold MW_DEBUGFS_TRACE_BUF_MAX. rewrite Z.rem_mod_nonneg by lia. apply wraps_small; [lia|].
    unfold in_s. simpl. lia. }
  destruct (rt_loop_lines (Z.to_nat MW_DEBUGFS_TRACE_BUF_MAX) (df_trace_cur d mod 500) (df_trace_buf d) []
    (zero_bytes MW_DEBUGFS_RT_BUFF_SIZE) Hl Hm) as (buf & Eb & Hb).
  - by apply holds_nothing.
  - by vm_compute.
  - assert (map (line_back (df_trace_buf d) (df_trace_cur d mod 500)) (seq 0 (Z.to_nat MW_DEBUGFS_TRACE_BUF_MAX))
            = map (line_back (df_trace_buf d) (df_trace_cur d)) (seq 0 (Z.to_nat MW_DEBUGFS_TRACE_BUF_MAX))) as Em.
    { apply map_ext. intros k. unfold line_back, slot_back, MW_DEBUGFS_TRACE_BUF_MAX. by rewrite Zminus_mod_idemp_l. }
    rewrite Em, app_nil_l in Hb. fold shown in Hb. clearbody shown. exists (set_df_rt_buffer buf d). unfold mw_debugfs_make_rt_buffer. rewrite E, Eb.
    split; [done|]. cbn [df_rt_buffer set_df_rt_buffer]. split; [exact Hb|].
    exact (holds_reads _ _ _ Hb).
Qed.

Lemma request_trace_newest_first_witness :
  exists d', mw_debugfs_make_rt_buffer debugfs_zero = Done d'.
Proof.
  destruct (request_trace_newest_first debugfs_zero) as (_ & d' & E & _).
  - unfold debugfs_zero. cbn [df_trace_buf]. rewrite length_replicate, Z2Nat.id; [reflexivity|by vm_compute].
  - cbn [debugfs_zero df_trace_cur]. lia.
  - by exists d'.
Defined.

(** ** The directory *)

Definition first_refused {W} {OS : DebugfsOS W} (calls : list debugfs_call) (w : W) : list debugfs_call :=
  (fix go l w := match l with
     | [] => []
     | c :: rest => let (r, w') := debugfs_os_call c w in if r then c :: go rest w' else [c]
     end) calls w.

(** Loading makes the calls in order up to the first that is refused, and
    says nothing of it; the file that switches the tracing on is the third. *)
Lemma init_calls {W} {OS : DebugfsOS W} (d : debugfs_dir) :
  exists d', mw_debugfs_init d = Done (tt, d')
  /\ dd_calls d' = dd_calls d ++ first_refused
       [DebugfsCreateDir; DebugfsCreateFile "message_counts" 420; DebugfsCreateFile "reset" 164;
        DebugfsCreateU64 "tracing_on" 420; DebugfsCreateFile "request_trace" 292] (dd_world d)
  /\ dd_dir d' = fst (debugfs_os_call DebugfsCreateDir (dd_world d)).
Proof.
  unfold mw_debugfs_init, first_refused, dcall, set_dir, bind, modify, ret.
  repeat (match goal with |- context [debugfs_os_call ?c ?w] => destruct (debugfs_os_call c w) as [[] ?] end;
    cbn [obind dd_world dd_dir dd_calls negb fst]; [|eexists; split; [reflexivity|]; by rewrite <- ?app_assoc]).
  eexists. split; [reflexivity|]. by rewrite <- ?app_assoc.
Qed.
