(* ===== verification/InsState.v ===== *)
(** * InsState: the state of the INS application and the calls it makes

    The data of threadpool.h, bufferpool.h, xenevent_app_common.h and
    config.h (ins/ins-rump/apps/ins-app), and the interface to the
    system underneath: the NetBSD socket calls, the /dev/xe device and
    the packet filter are not modelled, they are the class [NetOS], one
    function from a call and a world to a result and a new world. Every
    theorem holds for every instance; [ScriptOS] at the end is a concrete
    one, which answers from a script, for the witnesses.

    A pointer to a worker thread or to a buffer item is its index. The
    assertions (MYASSERT) and the log are compiled out of the default
    build and are not modelled. errno is a field of the state, set by a
    call that returns a negative value. *)

From stdpp Require Import base numbers list.
From Stdlib Require Import ZArith Lia.
From S2P Require Import Prelude MwSocket MessageTypes MwErrno Translate WorkQueue.

(** ** config.h *)

Definition MAX_THREAD_COUNT : nat := 50.
Definition BUFFER_ITEM_COUNT : nat := MAX_THREAD_COUNT + 50.

(** ** struct pollfd *)

Record pollfd := { pf_fd : Z; pf_events : Z; pf_revents : Z }.

(** ** thread_item_t

    [self], the thread handle, is only joined and has no field; a
    semaphore is its count. *)

Record thread_item := {
  ti_in_use : Z;
  ti_idx : Z;
  ti_awaiting_work_sem : Z;
  ti_oplock : Z;
  ti_oplock_acquired : bool;
  ti_work_queue : workqueue;
  ti_public_fd : Z;
  ti_poll_events : Z;
  ti_state_flags : Z;
  ti_local_fd : Z;
  ti_sock_domain : Z;
  ti_sock_type : Z;
  ti_sock_protocol : Z;
  ti_bound_port_num : Z;
  ti_remote_host : list Z
}.

Definition set_ti_in_use (v : Z) (x : thread_item) : thread_item :=
  {| ti_in_use := v; ti_idx := ti_idx x; ti_awaiting_work_sem := ti_awaiting_work_sem x;
     ti_oplock := ti_oplock x; ti_oplock_acquired := ti_oplock_acquired x; ti_work_queue :=
     ti_work_queue x; ti_public_fd := ti_public_fd x; ti_poll_events := ti_poll_events x;
     ti_state_flags := ti_state_flags x; ti_local_fd := ti_local_fd x; ti_sock_domain :=
     ti_sock_domain x; ti_sock_type := ti_sock_type x; ti_sock_protocol := ti_sock_protocol x;
     ti_bound_port_num := ti_bound_port_num x; ti_remote_host := ti_remote_host x |}.
Definition set_ti_awaiting_work_sem (v : Z) (x : thread_item) : thread_item :=
  {| ti_in_use := ti_in_use x; ti_idx := ti_idx x; ti_awaiting_work_sem := v; ti_oplock :=
     ti_oplock x; ti_oplock_acquired := ti_oplock_acquired x; ti_work_queue := ti_work_queue x;
     ti_public_fd := ti_public_fd x; ti_poll_events := ti_poll_events x; ti_state_flags :=
     ti_state_flags x; ti_local_fd := ti_local_fd x; ti_sock_domain := ti_sock_domain x;
     ti_sock_type := ti_sock_type x; ti_sock_protocol := ti_sock_protocol x; ti_bound_port_num
     := ti_bound_port_num x; ti_remote_host := ti_remote_host x |}.
Definition set_ti_oplock (v : Z) (x : thread_item) : thread_item :=
  {| ti_in_use := ti_in_use x; ti_idx := ti_idx x; ti_awaiting_work_sem := ti_awaiting_work_sem
     x; ti_oplock := v; ti_oplock_acquired := ti_oplock_acquired x; ti_work_queue :=
     ti_work_queue x; ti_public_fd := ti_public_fd x; ti_poll_events := ti_poll_events x;
     ti_state_flags := ti_state_flags x; ti_local_fd := ti_local_fd x; ti_sock_domain :=
     ti_sock_domain x; ti_sock_type := ti_sock_type x; ti_sock_protocol := ti_sock_protocol x;
     ti_bound_port_num := ti_bound_port_num x; ti_remote_host := ti_remote_host x |}.
Definition set_ti_oplock_acquired (v : bool) (x : thread_item) : thread_item :=
  {| ti_in_use := ti_in_use x; ti_idx := ti_idx x; ti_awaiting_work_sem := ti_awaiting_work_sem
     x; ti_oplock := ti_oplock x; ti_oplock_acquired := v; ti_work_queue := ti_work_queue x;
     ti_public_fd := ti_public_fd x; ti_poll_events := ti_poll_events x; ti_state_flags :=
     ti_state_flags x; ti_local_fd := ti_local_fd x; ti_sock_domain := ti_sock_domain x;
     ti_sock_type := ti_sock_type x; ti_sock_protocol := ti_sock_protocol x; ti_bound_port_num
     := ti_bound_port_num x; ti_remote_host := ti_remote_host x |}.
Definition set_ti_work_queue (v : workqueue) (x : thread_item) : thread_item :=
  {| ti_in_use := ti_in_use x; ti_idx := ti_idx x; ti_awaiting_work_sem := ti_awaiting_work_sem
     x; ti_oplock := ti_oplock x; ti_oplock_acquired := ti_oplock_acquired x; ti_work_queue :=
     v; ti_public_fd := ti_public_fd x; ti_poll_events := ti_poll_events x; ti_state_flags :=
     ti_state_flags x; ti_local_fd := ti_local_fd x; ti_sock_domain := ti_sock_domain x;
     ti_sock_type := ti_sock_type x; ti_sock_protocol := ti_sock_protocol x; ti_bound_port_num
     := ti_bound_port_num x; ti_remote_host := ti_remote_host x |}.
Definition set_ti_public_fd (v : Z) (x : thread_item) : thread_item :=
  {| ti_in_use := ti_in_use x; ti_idx := ti_idx x; ti_awaiting_work_sem := ti_awaiting_work_sem
     x; ti_oplock := ti_oplock x; ti_oplock_acquired := ti_oplock_acquired x; ti_work_queue :=
     ti_work_queue x; ti_public_fd := v; ti_poll_events := ti_poll_events x; ti_state_flags :=
     ti_state_flags x; ti_local_fd := ti_local_fd x; ti_sock_domain := ti_sock_domain x;
     ti_sock_type := ti_sock_type x; ti_sock_protocol := ti_sock_protocol x; ti_bound_port_num
     := ti_bound_port_num x; ti_remote_host := ti_remote_host x |}.
Definition set_ti_poll_events (v : Z) (x : thread_item) : thread_item :=
  {| ti_in_use := ti_in_use x; ti_idx := ti_idx x; ti_awaiting_work_sem := ti_awaiting_work_sem
     x; ti_oplock := ti_oplock x; ti_oplock_acquired := ti_oplock_acquired x; ti_work_queue :=
     ti_work_queue x; ti_public_fd := ti_public_fd x; ti_poll_events := v; ti_state_flags :=
     ti_state_flags x; ti_local_fd := ti_local_fd x; ti_sock_domain := ti_sock_domain x;
     ti_sock_type := ti_sock_type x; ti_sock_protocol := ti_sock_protocol x; ti_bound_port_num
     := ti_bound_port_num x; ti_remote_host := ti_remote_host x |}.
Definition set_ti_state_flags (v : Z) (x : thread_item) : thread_item :=
  {| ti_in_use := ti_in_use x; ti_idx := ti_idx x; ti_awaiting_work_sem := ti_awaiting_work_sem
     x; ti_oplock := ti_oplock x; ti_oplock_acquired := ti_oplock_acquired x; ti_work_queue :=
     ti_work_queue x; ti_public_fd := ti_public_fd x; ti_poll_events := ti_poll_events x;
     ti_state_flags := v; ti_local_fd := ti_local_fd x; ti_sock_domain := ti_sock_domain x;
     ti_sock_type := ti_sock_type x; ti_sock_protocol := ti_sock_protocol x; ti_bound_port_num
     := ti_bound_port_num x; ti_remote_host := ti_remote_host x |}.
Definition set_ti_local_fd (v : Z) (x : thread_item) : thread_item :=
  {| ti_in_use := ti_in_use x; ti_idx := ti_idx x; ti_awaiting_work_sem := ti_awaiting_work_sem
     x; ti_oplock := ti_oplock x; ti_oplock_acquired := ti_oplock_acquired x; ti_work_queue :=
     ti_work_queue x; ti_public_fd := ti_public_fd x; ti_poll_events := ti_poll_events x;
     ti_state_flags := ti_state_flags x; ti_local_fd := v; ti_sock_domain := ti_sock_domain x;
     ti_sock_type := ti_sock_type x; ti_sock_protocol := ti_sock_protocol x; ti_bound_port_num
     := ti_bound_port_num x; ti_remote_host := ti_remote_host x |}.
Definition set_ti_sock_domain (v : Z) (x : thread_item) : thread_item :=
  {| ti_in_use := ti_in_use x; ti_idx := ti_idx x; ti_awaiting_work_sem := ti_awaiting_work_sem
     x; ti_oplock := ti_oplock x; ti_oplock_acquired := ti_oplock_acquired x; ti_work_queue :=
     ti_work_queue x; ti_public_fd := ti_public_fd x; ti_poll_events := ti_poll_events x;
     ti_state_flags := ti_state_flags x; ti_local_fd := ti_local_fd x; ti_sock_domain := v;
     ti_sock_type := ti_sock_type x; ti_sock_protocol := ti_sock_protocol x; ti_bound_port_num
     := ti_bound_port_num x; ti_remote_host := ti_remote_host x |}.
Definition set_ti_sock_type (v : Z) (x : thread_item) : thread_item :=
  {| ti_in_use := ti_in_use x; ti_idx := ti_idx x; ti_awaiting_work_sem := ti_awaiting_work_sem
     x; ti_oplock := ti_oplock x; ti_oplock_acquired := ti_oplock_acquired x; ti_work_queue :=
     ti_work_queue x; ti_public_fd := ti_public_fd x; ti_poll_events := ti_poll_events x;
     ti_state_flags := ti_state_flags x; ti_local_fd := ti_local_fd x; ti_sock_domain :=
     ti_sock_domain x; ti_sock_type := v; ti_sock_protocol := ti_sock_protocol x;
     ti_bound_port_num := ti_bound_port_num x; ti_remote_host := ti_remote_host x |}.
Definition set_ti_sock_protocol (v : Z) (x : thread_item) : thread_item :=
  {| ti_in_use := ti_in_use x; ti_idx := ti_idx x; ti_awaiting_work_sem := ti_awaiting_work_sem
     x; ti_oplock := ti_oplock x; ti_oplock_acquired := ti_oplock_acquired x; ti_work_queue :=
     ti_work_queue x; ti_public_fd := ti_public_fd x; ti_poll_events := ti_poll_events x;
     ti_state_flags := ti_state_flags x; ti_local_fd := ti_local_fd x; ti_sock_domain :=
     ti_sock_domain x; ti_sock_type := ti_sock_type x; ti_sock_protocol := v; ti_bound_port_num
     := ti_bound_port_num x; ti_remote_host := ti_remote_host x |}.
Definition set_ti_bound_port_num (v : Z) (x : thread_item) : thread_item :=
  {| ti_in_use := ti_in_use x; ti_idx := ti_idx x; ti_awaiting_work_sem := ti_awaiting_work_sem
     x; ti_oplock := ti_oplock x; ti_oplock_acquired := ti_oplock_acquired x; ti_work_queue :=
     ti_work_queue x; ti_public_fd := ti_public_fd x; ti_poll_events := ti_poll_events x;
     ti_state_flags := ti_state_flags x; ti_local_fd := ti_local_fd x; ti_sock_domain :=
     ti_sock_domain x; ti_sock_type := ti_sock_type x; ti_sock_protocol := ti_sock_protocol x;
     ti_bound_port_num := v; ti_remote_host := ti_remote_host x |}.
Definition set_ti_remote_host (v : list Z) (x : thread_item) : thread_item :=
  {| ti_in_use := ti_in_use x; ti_idx := ti_idx x; ti_awaiting_work_sem := ti_awaiting_work_sem
     x; ti_oplock := ti_oplock x; ti_oplock_acquired := ti_oplock_acquired x; ti_work_queue :=
     ti_work_queue x; ti_public_fd := ti_public_fd x; ti_poll_events := ti_poll_events x;
     ti_state_flags := ti_state_flags x; ti_local_fd := ti_local_fd x; ti_sock_domain :=
     ti_sock_domain x; ti_sock_type := ti_sock_type x; ti_sock_protocol := ti_sock_protocol x;
     ti_bound_port_num := ti_bound_port_num x; ti_remote_host := v |}.

(** ** buffer_item_t

    [region] is the content of the item's slice of in_request_buf. *)

Record buffer_item := {
  bi_in_use : Z;
  bi_assigned_thread : option nat;
  bi_offset : Z;
  bi_region : list Z;
  bi_idx : Z
}.

Definition set_bi_in_use (v : Z) (x : buffer_item) : buffer_item :=
  {| bi_in_use := v; bi_assigned_thread := bi_assigned_thread x; bi_offset := bi_offset x;
     bi_region := bi_region x; bi_idx := bi_idx x |}.
Definition set_bi_assigned_thread (v : option nat) (x : buffer_item) : buffer_item :=
  {| bi_in_use := bi_in_use x; bi_assigned_thread := v; bi_offset := bi_offset x; bi_region :=
     bi_region x; bi_idx := bi_idx x |}.
Definition set_bi_region (v : list Z) (x : buffer_item) : buffer_item :=
  {| bi_in_use := bi_in_use x; bi_assigned_thread := bi_assigned_thread x; bi_offset :=
     bi_offset x; bi_region := v; bi_idx := bi_idx x |}.

(** ** xenevent_globals_t *)

Record xenevent_globals := {
  g_curr_buffer_idx : Z;
  g_buffer_items : list buffer_item;
  g_worker_threads : list thread_item;
  g_shutdown_pending : bool;
  g_input_fd : Z;
  g_output_fd : Z;
  g_client_id : Z;
  g_stats_socket_ct : Z;
  g_stats_bytes_recv : Z;
  g_stats_bytes_sent : Z;
  g_pending_port_change : bool;
  g_so_sndbuf : Z;
  g_so_rcvbuf : Z;
  g_so_sndtimeo : Z * Z;
  g_so_rcvtimeo : Z * Z
}.

Definition set_g_buffer_items (v : list buffer_item) (x : xenevent_globals) : xenevent_globals :=
  {| g_curr_buffer_idx := g_curr_buffer_idx x; g_buffer_items := v; g_worker_threads :=
     g_worker_threads x; g_shutdown_pending := g_shutdown_pending x; g_input_fd := g_input_fd x;
     g_output_fd := g_output_fd x; g_client_id := g_client_id x; g_stats_socket_ct :=
     g_stats_socket_ct x; g_stats_bytes_recv := g_stats_bytes_recv x; g_stats_bytes_sent :=
     g_stats_bytes_sent x; g_pending_port_change := g_pending_port_change x; g_so_sndbuf :=
     g_so_sndbuf x; g_so_rcvbuf := g_so_rcvbuf x; g_so_sndtimeo := g_so_sndtimeo x;
     g_so_rcvtimeo := g_so_rcvtimeo x |}.
Definition set_g_worker_threads (v : list thread_item) (x : xenevent_globals) : xenevent_globals
     :=
  {| g_curr_buffer_idx := g_curr_buffer_idx x; g_buffer_items := g_buffer_items x;
     g_worker_threads := v; g_shutdown_pending := g_shutdown_pending x; g_input_fd := g_input_fd
     x; g_output_fd := g_output_fd x; g_client_id := g_client_id x; g_stats_socket_ct :=
     g_stats_socket_ct x; g_stats_bytes_recv := g_stats_bytes_recv x; g_stats_bytes_sent :=
     g_stats_bytes_sent x; g_pending_port_change := g_pending_port_change x; g_so_sndbuf :=
     g_so_sndbuf x; g_so_rcvbuf := g_so_rcvbuf x; g_so_sndtimeo := g_so_sndtimeo x;
     g_so_rcvtimeo := g_so_rcvtimeo x |}.
Definition set_g_shutdown_pending (v : bool) (x : xenevent_globals) : xenevent_globals :=
  {| g_curr_buffer_idx := g_curr_buffer_idx x; g_buffer_items := g_buffer_items x;
     g_worker_threads := g_worker_threads x; g_shutdown_pending := v; g_input_fd := g_input_fd
     x; g_output_fd := g_output_fd x; g_client_id := g_client_id x; g_stats_socket_ct :=
     g_stats_socket_ct x; g_stats_bytes_recv := g_stats_bytes_recv x; g_stats_bytes_sent :=
     g_stats_bytes_sent x; g_pending_port_change := g_pending_port_change x; g_so_sndbuf :=
     g_so_sndbuf x; g_so_rcvbuf := g_so_rcvbuf x; g_so_sndtimeo := g_so_sndtimeo x;
     g_so_rcvtimeo := g_so_rcvtimeo x |}.
Definition set_g_input_fd (v : Z) (x : xenevent_globals) : xenevent_globals :=
  {| g_curr_buffer_idx := g_curr_buffer_idx x; g_buffer_items := g_buffer_items x;
     g_worker_threads := g_worker_threads x; g_shutdown_pending := g_shutdown_pending x;
     g_input_fd := v; g_output_fd := g_output_fd x; g_client_id := g_client_id x;
     g_stats_socket_ct := g_stats_socket_ct x; g_stats_bytes_recv := g_stats_bytes_recv x;
     g_stats_bytes_sent := g_stats_bytes_sent x; g_pending_port_change := g_pending_port_change
     x; g_so_sndbuf := g_so_sndbuf x; g_so_rcvbuf := g_so_rcvbuf x; g_so_sndtimeo :=
     g_so_sndtimeo x; g_so_rcvtimeo := g_so_rcvtimeo x |}.
Definition set_g_output_fd (v : Z) (x : xenevent_globals) : xenevent_globals :=
  {| g_curr_buffer_idx := g_curr_buffer_idx x; g_buffer_items := g_buffer_items x;
     g_worker_threads := g_worker_threads x; g_shutdown_pending := g_shutdown_pending x;
     g_input_fd := g_input_fd x; g_output_fd := v; g_client_id := g_client_id x;
     g_stats_socket_ct := g_stats_socket_ct x; g_stats_bytes_recv := g_stats_bytes_recv x;
     g_stats_bytes_sent := g_stats_bytes_sent x; g_pending_port_change := g_pending_port_change
     x; g_so_sndbuf := g_so_sndbuf x; g_so_rcvbuf := g_so_rcvbuf x; g_so_sndtimeo :=
     g_so_sndtimeo x; g_so_rcvtimeo := g_so_rcvtimeo x |}.
Definition set_g_client_id (v : Z) (x : xenevent_globals) : xenevent_globals :=
  {| g_curr_buffer_idx := g_curr_buffer_idx x; g_buffer_items := g_buffer_items x;
     g_worker_threads := g_worker_threads x; g_shutdown_pending := g_shutdown_pending x;
     g_input_fd := g_input_fd x; g_output_fd := g_output_fd x; g_client_id := v;
     g_stats_socket_ct := g_stats_socket_ct x; g_stats_bytes_recv := g_stats_bytes_recv x;
     g_stats_bytes_sent := g_stats_bytes_sent x; g_pending_port_change := g_pending_port_change
     x; g_so_sndbuf := g_so_sndbuf x; g_so_rcvbuf := g_so_rcvbuf x; g_so_sndtimeo :=
     g_so_sndtimeo x; g_so_rcvtimeo := g_so_rcvtimeo x |}.
Definition set_g_stats_socket_ct (v : Z) (x : xenevent_globals) : xenevent_globals :=
  {| g_curr_buffer_idx := g_curr_buffer_idx x; g_buffer_items := g_buffer_items x;
     g_worker_threads := g_worker_threads x; g_shutdown_pending := g_shutdown_pending x;
     g_input_fd := g_input_fd x; g_output_fd := g_output_fd x; g_client_id := g_client_id x;
     g_stats_socket_ct := v; g_stats_bytes_recv := g_stats_bytes_recv x; g_stats_bytes_sent :=
     g_stats_bytes_sent x; g_pending_port_change := g_pending_port_change x; g_so_sndbuf :=
     g_so_sndbuf x; g_so_rcvbuf := g_so_rcvbuf x; g_so_sndtimeo := g_so_sndtimeo x;
     g_so_rcvtimeo := g_so_rcvtimeo x |}.
Definition set_g_stats_bytes_recv (v : Z) (x : xenevent_globals) : xenevent_globals :=
  {| g_curr_buffer_idx := g_curr_buffer_idx x; g_buffer_items := g_buffer_items x;
     g_worker_threads := g_worker_threads x; g_shutdown_pending := g_shutdown_pending x;
     g_input_fd := g_input_fd x; g_output_fd := g_output_fd x; g_client_id := g_client_id x;
     g_stats_socket_ct := g_stats_socket_ct x; g_stats_bytes_recv := v; g_stats_bytes_sent :=
     g_stats_bytes_sent x; g_pending_port_change := g_pending_port_change x; g_so_sndbuf :=
     g_so_sndbuf x; g_so_rcvbuf := g_so_rcvbuf x; g_so_sndtimeo := g_so_sndtimeo x;
     g_so_rcvtimeo := g_so_rcvtimeo x |}.
Definition set_g_stats_bytes_sent (v : Z) (x : xenevent_globals) : xenevent_globals :=
  {| g_curr_buffer_idx := g_curr_buffer_idx x; g_buffer_items := g_buffer_items x;
     g_worker_threads := g_worker_threads x; g_shutdown_pending := g_shutdown_pending x;
     g_input_fd := g_input_fd x; g_output_fd := g_output_fd x; g_client_id := g_client_id x;
     g_stats_socket_ct := g_stats_socket_ct x; g_stats_bytes_recv := g_stats_bytes_recv x;
     g_stats_bytes_sent := v; g_pending_port_change := g_pending_port_change x; g_so_sndbuf :=
     g_so_sndbuf x; g_so_rcvbuf := g_so_rcvbuf x; g_so_sndtimeo := g_so_sndtimeo x;
     g_so_rcvtimeo := g_so_rcvtimeo x |}.
Definition set_g_pending_port_change (v : bool) (x : xenevent_globals) : xenevent_globals :=
  {| g_curr_buffer_idx := g_curr_buffer_idx x; g_buffer_items := g_buffer_items x;
     g_worker_threads := g_worker_threads x; g_shutdown_pending := g_shutdown_pending x;
     g_input_fd := g_input_fd x; g_output_fd := g_output_fd x; g_client_id := g_client_id x;
     g_stats_socket_ct := g_stats_socket_ct x; g_stats_bytes_recv := g_stats_bytes_recv x;
     g_stats_bytes_sent := g_stats_bytes_sent x; g_pending_port_change := v; g_so_sndbuf :=
     g_so_sndbuf x; g_so_rcvbuf := g_so_rcvbuf x; g_so_sndtimeo := g_so_sndtimeo x;
     g_so_rcvtimeo := g_so_rcvtimeo x |}.

(** ** The static variables of xe_pollset_query() *)

Record pollset_static := {
  ps_init : bool;
  ps_fds : list pollfd;
  ps_cur_pos : Z
}.

Definition set_ps_init (v : bool) (x : pollset_static) : pollset_static :=
  {| ps_init := v; ps_fds := ps_fds x; ps_cur_pos := ps_cur_pos x |}.
Definition set_ps_fds (v : list pollfd) (x : pollset_static) : pollset_static :=
  {| ps_init := ps_init x; ps_fds := v; ps_cur_pos := ps_cur_pos x |}.
Definition set_ps_cur_pos (v : Z) (x : pollset_static) : pollset_static :=
  {| ps_init := ps_init x; ps_fds := ps_fds x; ps_cur_pos := v |}.

(** ** Calls to the system *)

(** The value of a socket option, as the buffer handed over holds it. *)
Inductive optval : Type :=
| OptInt (v : Z)
| OptTimeval (sec usec : Z)
| OptFilter (name : list Z).

Inductive syscall : Type :=
| SysSocket (fam type proto : Z)
| SysSetsockopt (fd level name : Z) (val : optval)
| SysGetsockopt (fd level name len : Z)
| SysFcntlGetFl (fd : Z)
| SysFcntlSetFl (fd flags : Z)
| SysConnect (fd : Z) (addr : sockaddr_in)
| SysBind (fd : Z) (addr : sockaddr_in)
| SysListen (fd backlog : Z)
| SysAccept (fd : Z)
| SysRecv (fd len flags : Z)
| SysRecvFrom (fd len flags addrlen : Z)
| SysSend (fd : Z) (bytes : list Z) (flags : Z)
| SysPoll (fds : list pollfd) (timeout : Z)
| SysShutdown (fd how : Z)
| SysClose (fd : Z)
| SysGetpeername (fd len : Z)
| SysGetsockname (fd len : Z)
| SysRead (fd len : Z)
| SysWrite (fd : Z) (response : mt_response) (len : Z)
| SysIoctlPublishListeners (fd : Z) (text : list Z)
| SysIoctlHeartbeat (fd : Z) (text : list Z)
| SysIoctlDomid (fd : Z)
| SysOpenDevice
| SysNpfctl (args : list (list Z))
| SysThreadCreate (thread : nat)
| SysThreadJoin (thread : nat).

(** Return value and errno, and the output arguments: bytes written to a
    buffer, an address and its length, the revents of a pollset. *)
Record sysres := {
  r_ret : Z; r_err : Z; r_bytes : list Z; r_addr : sockaddr_in; r_alen : Z; r_revents : list Z
}.

Class NetOS (W : Type) := os_call : syscall -> W -> sysres * W.

Record ins_state (W : Type) := {
  st_g : xenevent_globals; st_ps : pollset_static; st_errno : Z; st_world : W;
  st_trace : list syscall
}.
Arguments st_g {W}. Arguments st_ps {W}. Arguments st_errno {W}.
Arguments st_world {W}. Arguments st_trace {W}.

Definition set_st_g {W} (v : xenevent_globals) (s : ins_state W) : ins_state W :=
  {| st_g := v; st_ps := st_ps s; st_errno := st_errno s; st_world := st_world s;
     st_trace := st_trace s |}.
Definition set_st_ps {W} (v : pollset_static) (s : ins_state W) : ins_state W :=
  {| st_g := st_g s; st_ps := v; st_errno := st_errno s; st_world := st_world s;
     st_trace := st_trace s |}.
Definition set_st_errno {W} (v : Z) (s : ins_state W) : ins_state W :=
  {| st_g := st_g s; st_ps := st_ps s; st_errno := v; st_world := st_world s;
     st_trace := st_trace s |}.

Section Operations.

Context {W : Type} {OS : NetOS W}.

Definition ins_m (A : Type) : Type := M (ins_state W) A.

(** One call: the world moves, the call is recorded, errno is set on failure. *)
Definition sys (c : syscall) : ins_m sysres := fun s =>
  let '(r, w) := os_call c (st_world s) in
  Done (r, {| st_g := st_g s; st_ps := st_ps s;
              st_errno := if r_ret r <? 0 then r_err r else st_errno s;
              st_world := w; st_trace := st_trace s ++ [c] |}).

Definition get_g {A} (f : xenevent_globals -> A) : ins_m A := gets (fun s => f (st_g s)).
Definition upd_g (f : xenevent_globals -> xenevent_globals) : ins_m unit :=
  modify (fun s => set_st_g (f (st_g s)) s).

Definition get_errno : ins_m Z := gets st_errno.
Definition set_errno (e : Z) : ins_m unit := modify (set_st_errno e).

(** XE_GET_NEG_ERRNO() *)
Definition XE_GET_NEG_ERRNO : ins_m Z :=
  gets (fun s => XE_GET_NEG_ERRNO_VAL (st_errno s)).

(** [g_state.worker_threads[ i ]]. *)
Definition get_ti (i : nat) : ins_m thread_item := fun s =>
  match g_worker_threads (st_g s) !! i with
  | Some t => Done (t, s)
  | None => Undef
  end.

Definition upd_ti (i : nat) (f : thread_item -> thread_item) : ins_m unit := fun s =>
  match g_worker_threads (st_g s) !! i with
  | Some t => Done (tt, set_st_g (set_g_worker_threads
                          (<[i := f t]> (g_worker_threads (st_g s))) (st_g s)) s)
  | None => Undef
  end.

(** [g_state.buffer_items[ i ]]. *)
Definition get_bi (i : nat) : ins_m buffer_item := fun s =>
  match g_buffer_items (st_g s) !! i with
  | Some b => Done (b, s)
  | None => Undef
  end.

Definition upd_bi (i : nat) (f : buffer_item -> buffer_item) : ins_m unit := fun s =>
  match g_buffer_items (st_g s) !! i with
  | Some b => Done (tt, set_st_g (set_g_buffer_items
                          (<[i := f b]> (g_buffer_items (st_g s))) (st_g s)) s)
  | None => Undef
  end.

(** sem_wait() and sem_post() on a count. *)
Definition sem_wait_oplock (i : nat) : ins_m unit :=
  let* t := get_ti i in
  if ti_oplock t <=? 0 then block
  else upd_ti i (set_ti_oplock (ti_oplock t - 1)).

Definition sem_post_oplock (i : nat) : ins_m unit :=
  upd_ti i (fun t => set_ti_oplock (ti_oplock t + 1) t).

End Operations.

Arguments ins_m W A : clear implicits.

(** ** xe_net_set_base_response() (networking.c) *)

Definition xe_net_set_base_response (Request : mt_request_base) (PayloadLen : Z)
    (Response : mt_response) : mt_response :=
  {| rs_sig := MT_SIGNATURE_RESPONSE;
     rs_type := u32 (MT_RESPONSE (rq_type Request));
     rs_size := u16 PayloadLen;
     rs_id := rq_id Request;
     rs_sockfd := rq_sockfd Request;
     rs_status := rs_status Response; rs_flags := rs_flags Response;
     rs_ts_ins := rs_ts_ins Response; rs_body := rs_body Response |}.

(** ** What a trace shows *)

(** The responses written to the device, with the length written. *)
Definition responses_of (tr : list syscall) : list (mt_response * Z) :=
  omap (fun c => match c with SysWrite _ r n => Some (r, n) | _ => None end) tr.

(** The descriptors closed. *)
Definition closes_of (tr : list syscall) : list Z :=
  omap (fun c => match c with SysClose fd => Some fd | _ => None end) tr.

(** ** A system that answers from a script *)

Definition res_ok (ret : Z) : sysres :=
  {| r_ret := ret; r_err := 0; r_bytes := []; r_addr := sockaddr_in_zero; r_alen := 0;
     r_revents := [] |}.
Definition res_err (err : Z) : sysres :=
  {| r_ret := -1; r_err := err; r_bytes := []; r_addr := sockaddr_in_zero; r_alen := 0;
     r_revents := [] |}.
Definition res_bytes (bs : list Z) : sysres :=
  {| r_ret := Z.of_nat (length bs); r_err := 0; r_bytes := bs; r_addr := sockaddr_in_zero;
     r_alen := 0; r_revents := [] |}.

(** An answer cut to the length of the buffer it is for. *)
Definition clamp (len : Z) (r : sysres) : sysres :=
  {| r_ret := Z.min (r_ret r) (Z.max 0 len); r_err := r_err r;
     r_bytes := take (Z.to_nat len) (r_bytes r); r_addr := r_addr r; r_alen := r_alen r;
     r_revents := r_revents r |}.

(** A write succeeds and returns its length; other calls take the next
    answer of the script, and succeed with 0 when it is exhausted. *)
Definition script_call (c : syscall) (w : list sysres) : sysres * list sysres :=
  let '(r, rest) := match w with [] => (res_ok 0, []) | r :: rest => (r, rest) end in
  match c with
  | SysWrite _ _ len => (res_ok len, w)
  | SysRecv _ len _ | SysRecvFrom _ len _ _ | SysGetsockopt _ _ _ len | SysRead _ len =>
      (clamp len r, rest)
  | _ => (r, rest)
  end.

#[export] Instance ScriptOS : NetOS (list sysres) := script_call.

(** ** What is assumed of the system, where a theorem says so

    A call that fills a buffer does not report or store more than the
    length it was given (recv(2), recvfrom(2), getsockopt(2), read(2)). *)
Class NetOSLaws (W : Type) {OS : NetOS W} : Prop := {
  law_recv : forall fd len flags w,
    r_ret (fst (os_call (SysRecv fd len flags) w)) <= Z.max 0 len;
  law_recvfrom : forall fd len flags al w,
    r_ret (fst (os_call (SysRecvFrom fd len flags al) w)) <= Z.max 0 len;
  law_getsockopt : forall fd level name len w,
    Z.of_nat (length (r_bytes (fst (os_call (SysGetsockopt fd level name len) w)))) <= Z.max 0 len;
  law_read : forall fd len w,
    Z.of_nat (length (r_bytes (fst (os_call (SysRead fd len) w)))) <= Z.max 0 len
}.

#[export] Instance ScriptOSLaws : NetOSLaws (list sysres).
Proof.
  split; intros; unfold os_call, ScriptOS, script_call; destruct w; simpl;
    rewrite ?length_take; try lia.
Qed.
