(* ===== verification/InsFacts.v ===== *)
(** * InsFacts: what the handlers may change, and rules to prove it

    [handler_frame] is the part of the state a request handler leaves
    alone: the bookkeeping of every thread, the buffer items, the
    device configuration and the responses written so far. [keeps] is a
    triple for a fixed state predicate with a condition on the result,
    and the lemmas here are its rules, one per primitive of InsState. *)

From stdpp Require Import base numbers list.
From Stdlib Require Import ZArith Lia.
From S2P Require Import Prelude MwSocket MessageTypes MwErrno Translate WorkQueue InsState.

(** ** Triples *)

Definition keeps {S A} (P : S -> Prop) (m : M S A) (Phi : A -> Prop) : Prop :=
  hoare P m (fun a s => P s /\ Phi a).

Lemma keeps_ret {S A} (P : S -> Prop) (a : A) (Phi : A -> Prop) :
  Phi a -> keeps P (ret a) Phi.
Proof. intros H. apply hoare_ret. auto. Qed.

Lemma keeps_bind {S A B} (P : S -> Prop) (m : M S A) (k : A -> M S B) (Psi : A -> Prop) Phi :
  keeps P m Psi -> (forall a, Psi a -> keeps P (k a) Phi) -> keeps P (bind m k) Phi.
Proof.
  intros Hm Hk. eapply hoare_bind; [exact Hm|].
  intros a s [Hs Ha]. exact (Hk a Ha s Hs).
Qed.

Lemma keeps_weaken {S A} (P : S -> Prop) (m : M S A) (Psi Phi : A -> Prop) :
  keeps P m Psi -> (forall a, Psi a -> Phi a) -> keeps P m Phi.
Proof. intros H HP. eapply hoare_conseq; [exact H|auto|]. intros a s [? ?]. auto. Qed.

Lemma keeps_any {S A} (P : S -> Prop) (m : M S A) (Phi : A -> Prop) :
  keeps P m Phi -> keeps P m (fun _ => True).
Proof. intros H. eapply keeps_weaken; eauto. Qed.

Lemma keeps_gets {S A} (P : S -> Prop) (f : S -> A) (Phi : A -> Prop) :
  (forall s, P s -> Phi (f s)) -> keeps P (gets f) Phi.
Proof. intros H. apply hoare_gets. auto. Qed.

Lemma keeps_modify {S} (P : S -> Prop) (f : S -> S) :
  (forall s, P s -> P (f s)) -> keeps P (modify f) (fun _ => True).
Proof. intros H. apply hoare_modify. auto. Qed.

Lemma keeps_when {S} (P : S -> Prop) b (m : M S unit) :
  (b = true -> keeps P m (fun _ => True)) -> keeps P (when b m) (fun _ => True).
Proof. intros H. destruct b; simpl; [auto|by apply keeps_ret]. Qed.

Lemma keeps_fuel {S A} (P : S -> Prop) (Phi : A -> Prop) : keeps P out_of_fuel Phi.
Proof. intros s Hs. exact I. Qed.

Lemma keeps_block {S A} (P : S -> Prop) (Phi : A -> Prop) : keeps P block Phi.
Proof. intros s Hs. exact I. Qed.

(** What a run that returns gives. *)
Lemma keeps_done {S A} (P : S -> Prop) (m : M S A) (Phi : A -> Prop) s a s' :
  keeps P m Phi -> P s -> m s = Done (a, s') -> P s' /\ Phi a.
Proof. intros H Hs Hm. specialize (H s Hs). by rewrite Hm in H. Qed.

Lemma keeps_safe {S A} (P : S -> Prop) (m : M S A) (Phi : A -> Prop) s :
  keeps P m Phi -> P s -> m s <> Undef.
Proof. intros H Hs Hm. specialize (H s Hs). by rewrite Hm in H. Qed.

(** ** The frame of the handlers *)

(** The fields of a thread item that only the dispatcher changes. *)
Definition thread_core (t : thread_item) :=
  (ti_in_use t, ti_idx t, ti_awaiting_work_sem t, ti_oplock t, ti_oplock_acquired t,
   ti_work_queue t).

Definition g_config (g : xenevent_globals) :=
  (g_client_id g, g_input_fd g, g_output_fd g, g_shutdown_pending g).

Record handler_frame {W} (s0 s : ins_state W) : Prop := {
  hf_core : map thread_core (g_worker_threads (st_g s)) = map thread_core (g_worker_threads (st_g s0));
  hf_buffers : g_buffer_items (st_g s) = g_buffer_items (st_g s0);
  hf_config : g_config (st_g s) = g_config (st_g s0);
  hf_responses : responses_of (st_trace s) = responses_of (st_trace s0)
}.

Lemma handler_frame_refl {W} (s : ins_state W) : handler_frame s s.
Proof. by split. Qed.

Lemma handler_frame_trans {W} (s1 s2 s3 : ins_state W) :
  handler_frame s1 s2 -> handler_frame s2 s3 -> handler_frame s1 s3.
Proof. intros [? ? ? ?] [? ? ? ?]. split; congruence. Qed.

#[export] Instance handler_frame_preorder {W} : PreOrder (@handler_frame W).
Proof. split; [exact handler_frame_refl|intros x y z; apply handler_frame_trans]. Qed.

Lemma handler_frame_length {W} (s0 s : ins_state W) :
  handler_frame s0 s -> length (g_worker_threads (st_g s)) = length (g_worker_threads (st_g s0)).
Proof. intros [H _ _ _]. apply (f_equal length) in H. by rewrite !length_map in H. Qed.

Lemma handler_frame_thread {W} (s0 s : ins_state W) i t :
  handler_frame s0 s -> g_worker_threads (st_g s) !! i = Some t ->
  exists t0, g_worker_threads (st_g s0) !! i = Some t0 /\ thread_core t = thread_core t0.
Proof.
  intros [H _ _ _] Ht. apply (f_equal (fun l => l !! i)) in H.
  rewrite !list_lookup_fmap, Ht in H. simpl in H.
  destruct (g_worker_threads (st_g s0) !! i) as [t0|]; simpl in H; [|discriminate].
  exists t0. split; congruence.
Qed.

(** Does a call write a response? *)
Definition is_write (c : syscall) : bool :=
  match c with SysWrite _ _ _ => true | _ => false end.

Lemma responses_of_app tr1 tr2 : responses_of (tr1 ++ tr2) = responses_of tr1 ++ responses_of tr2.
Proof. apply omap_app. Qed.

Lemma responses_of_snoc tr c :
  is_write c = false -> responses_of (tr ++ [c]) = responses_of tr.
Proof. intros H. rewrite responses_of_app. destruct c; simpl in *; try discriminate; apply app_nil_r. Qed.

Lemma map_insert_same {A B} (f : A -> B) (l : list A) i x y :
  l !! i = Some x -> f y = f x -> map f (<[i := y]> l) = map f l.
Proof.
  intros Hx Hf. change (f <$> <[i := y]> l = f <$> l).
  rewrite list_fmap_insert, Hf. apply list_insert_id. by rewrite list_lookup_fmap, Hx.
Qed.

Section Rules.

Context {W : Type} {OS : NetOS W} (s0 : ins_state W).

Abbreviation frame := (handler_frame s0).

(** A call other than a write, with what the world answered. *)
Lemma keeps_sys c :
  is_write c = false ->
  keeps frame (sys c) (fun r => exists w, r = fst (os_call c w)).
Proof.
  intros Hc s [H1 H2 H3 H4]. unfold sys.
  destruct (os_call c (st_world s)) as [r w] eqn:E. split; [split; simpl; auto|].
  - by rewrite responses_of_snoc.
  - exists (st_world s). by rewrite E.
Qed.

Lemma keeps_sys_any c : is_write c = false -> keeps frame (sys c) (fun _ => True).
Proof. intros H. eapply keeps_any, keeps_sys, H. Qed.

Lemma keeps_get_g {A} (f : xenevent_globals -> A) : keeps frame (get_g f) (fun _ => True).
Proof. by apply keeps_gets. Qed.

Lemma keeps_get_errno : keeps frame get_errno (fun _ => True).
Proof. by apply keeps_gets. Qed.

Lemma keeps_set_errno e : keeps frame (set_errno e) (fun _ => True).
Proof. apply keeps_modify. by intros s [H1 H2 H3 H4]. Qed.

Lemma keeps_neg_errno : keeps frame XE_GET_NEG_ERRNO (fun e => -133 <= e <= -1).
Proof. apply keeps_gets. intros s _. apply neg_errno_range. Qed.

(** Statistics and pending flags are outside the frame. *)
Lemma keeps_upd_g f :
  (forall g, g_worker_threads (f g) = g_worker_threads g /\ g_buffer_items (f g) = g_buffer_items g
     /\ g_config (f g) = g_config g) ->
  keeps frame (upd_g f) (fun _ => True).
Proof.
  intros Hf. apply keeps_modify. intros s [H1 H2 H3 H4].
  destruct (Hf (st_g s)) as (Ht & Hb & Hc). split; simpl; congruence.
Qed.

Lemma keeps_ps f : keeps frame (modify (fun s => set_st_ps (f s) s)) (fun _ => True).
Proof. apply keeps_modify. by intros s [H1 H2 H3 H4]. Qed.

Lemma keeps_get_ti i :
  (i < length (g_worker_threads (st_g s0)))%nat ->
  keeps frame (get_ti i) (fun t => exists t0,
    g_worker_threads (st_g s0) !! i = Some t0 /\ thread_core t = thread_core t0).
Proof.
  intros Hi s Hs. unfold get_ti. pose proof (handler_frame_length _ _ Hs) as Hl.
  destruct (lookup_lt_is_Some_2 (g_worker_threads (st_g s)) i) as [t Ht]; [lia|].
  rewrite Ht. split; [done|]. by eapply handler_frame_thread.
Qed.

Lemma keeps_upd_ti i f :
  (i < length (g_worker_threads (st_g s0)))%nat ->
  (forall t, thread_core (f t) = thread_core t) ->
  keeps frame (upd_ti i f) (fun _ => True).
Proof.
  intros Hi Hf s Hs. unfold upd_ti. pose proof (handler_frame_length _ _ Hs) as Hl.
  destruct (lookup_lt_is_Some_2 (g_worker_threads (st_g s)) i) as [t Ht]; [lia|].
  rewrite Ht. split; [|done]. destruct Hs as [H1 H2 H3 H4].
  split; simpl; auto. by rewrite (map_insert_same _ _ _ _ _ Ht).
Qed.

End Rules.

#[export] Hint Resolve keeps_fuel keeps_block keeps_get_g keeps_get_errno keeps_set_errno
  keeps_ps keeps_upd_ti : mw.
#[export] Hint Extern 1 (keeps _ (sys _) (fun _ => True)) =>
  apply keeps_sys_any; reflexivity : mw.
#[export] Hint Extern 1 (keeps _ (upd_g _) (fun _ => True)) =>
  apply keeps_upd_g; intros; repeat split : mw.
#[export] Hint Extern 1 (keeps _ (get_ti _) (fun _ => True)) =>
  eapply keeps_any, keeps_get_ti : mw.
#[export] Hint Extern 1 (keeps _ XE_GET_NEG_ERRNO (fun _ => True)) =>
  eapply keeps_any, keeps_neg_errno : mw.

(** One step of a [keeps] goal: the result of a bound computation is
    forgotten unless a rule for it is applied by hand first. *)
Ltac keeps_step :=
  lazymatch goal with
  | |- keeps _ (bind _ _) _ =>
      eapply keeps_bind with (Psi := fun _ => True); [|intros; cbn beta iota]
  | |- keeps _ (ret _) _ => apply keeps_ret; try exact I
  | |- keeps _ (when _ _) _ => apply keeps_when; intros
  | |- keeps _ (if ?b then _ else _) _ => destruct b eqn:?
  | |- keeps _ (let (_, _) := ?p in _) _ => destruct p
  | |- keeps _ (match ?x with _ => _ end) _ => destruct x eqn:?
  | |- keeps _ _ (fun _ => True) => solve [eauto with mw]
  | |- keeps _ out_of_fuel _ => apply keeps_fuel
  end.

Ltac keeps_solve := repeat keeps_step.

(** ** Sizes as numbers *)

Lemma sizes_base : MT_RESPONSE_BASE_SIZE = 40 /\ RESPONSE_REGION_SIZE = 2055
  /\ MESSAGE_TYPE_MAX_PAYLOAD_LEN = 1985.
Proof. vm_compute. auto. Qed.

Lemma sizes_response : MT_RESPONSE_SOCKET_RECV_SIZE = 42 /\ MT_RESPONSE_SOCKET_RECVFROM_SIZE = 70
  /\ MT_RESPONSE_POLLSET_QUERY_SIZE = 44 /\ MT_RESPONSE_POLLSET_QUERY_ITEM_SIZE = 12
  /\ MT_POLLSET_QUERY_MAX_ITEMS = 165.
Proof. vm_compute. auto 10. Qed.

(** Arithmetic on the sizes. *)
Ltac sizes :=
  pose proof sizes_base; pose proof sizes_response;
  repeat match goal with H : _ /\ _ |- _ => destruct H end; cbn beta in *; lia.

(** ** Responses that answer a request *)

(** The preamble of a response that the protected VM can match to its
    request: signature, type and id, and a size that covers the preamble
    and stays inside the response structure. *)
Definition response_for (base : mt_request_base) (resp : mt_response) : Prop :=
  rs_sig resp = MT_SIGNATURE_RESPONSE
  /\ rs_type resp = u32 (MT_RESPONSE (rq_type base))
  /\ rs_id resp = rq_id base
  /\ MT_RESPONSE_BASE_SIZE <= rs_size resp <= RESPONSE_REGION_SIZE.

(** The requests whose handler can fail before it has prepared a response:
    accept() when the new socket cannot be set up, the receive calls and
    the pollset query when poll() fails. *)
Definition unanswered_type (t : Z) : bool :=
  match request_type_of t with
  | Some MtRequestSocketAccept | Some MtRequestSocketRecv | Some MtRequestSocketRecvFrom
  | Some MtRequestPollsetQuery => true
  | _ => false
  end.

(** What a handler promises: the response answers the request, unless the
    handler of one of those requests failed. *)
Definition handler_post (base : mt_request_base) (p : Z * mt_response) : Prop :=
  response_for base (snd p) \/ (fst p <> 0 /\ unanswered_type (rq_type base) = true).

Lemma handler_post_error base rc resp :
  rc <> 0 -> unanswered_type (rq_type base) = true -> handler_post base (rc, resp).
Proof. by right. Qed.

Lemma truth_nonzero x : truth x = true -> x <> 0.
Proof. unfold truth. intros H ->. discriminate. Qed.

Lemma handler_post_truth base rc resp :
  unanswered_type (rq_type base) = true -> truth rc = true -> handler_post base (rc, resp).
Proof. intros Hu H. by apply handler_post_error; [apply truth_nonzero|]. Qed.

Lemma handler_post_answer base rc resp : response_for base resp -> handler_post base (rc, resp).
Proof. intros H. by left. Qed.

Lemma response_for_base base n resp :
  MT_RESPONSE_BASE_SIZE <= n <= RESPONSE_REGION_SIZE ->
  response_for base (xe_net_set_base_response base n resp).
Proof.
  intros Hn. unfold response_for, xe_net_set_base_response; simpl.
  rewrite (wrapu_small 16 n); [auto|]. unfold in_u. sizes.
Qed.

Lemma response_for_status base v resp :
  response_for base resp -> response_for base (set_rs_status v resp).
Proof. auto. Qed.

Lemma response_for_sockfd base v resp :
  response_for base resp -> response_for base (set_rs_sockfd v resp).
Proof. auto. Qed.

Lemma response_for_flags base v resp :
  response_for base resp -> response_for base (set_rs_flags v resp).
Proof. auto. Qed.

Lemma response_for_body base v resp :
  response_for base resp -> response_for base (set_rs_body v resp).
Proof. auto. Qed.

(** A response that answers a request is one for MT_IS_RESPONSE. *)
Lemma response_for_is_response base resp :
  response_for base resp -> MT_IS_RESPONSE resp = true.
Proof.
  intros (H1 & H2 & H3 & H4 & H5). unfold MT_IS_RESPONSE. rewrite H1, H2.
  rewrite Z.eqb_refl. apply andb_true_intro. split; [|by apply Z.leb_le].
  apply Z.eqb_eq. symmetry. unfold MT_RESPONSE, wrapu. rewrite <- Z.land_ones by lia.
  apply Z.bits_inj'. intros n Hn. rewrite !Z.land_spec, Z.lor_spec.
  change (Z.testbit MT_RESPONSE_MASK n) with (Z.testbit (2 ^ 15) n).
  rewrite Z.pow2_bits_eqb by lia. by destruct (Z.eqb_spec 15 n) as [<-|].
Qed.

#[export] Hint Resolve response_for_status response_for_sockfd response_for_flags
  response_for_body handler_post_answer handler_post_truth : mw.
#[export] Hint Extern 2 (response_for _ (xe_net_set_base_response _ _ _)) =>
  apply response_for_base; vm_compute; split; discriminate : mw.
