(* ===== verification/Pollset.v ===== *)
(** * Pollset: poll support of the INS

    ins/ins-rump/apps/ins-app/pollset.c: the poll of one socket, used by
    the receive path, and the query the protected VM sends periodically,
    which polls every open socket and reports those with events. *)

From stdpp Require Import base numbers list.
From Stdlib Require Import ZArith Lia.
From S2P Require Import Prelude MwSocket MessageTypes MwErrno Translate WorkQueue InsState InsFacts.

(** ** Native flags (src-netbsd/sys/sys/poll.h) *)

Definition POLLIN : Z := 0x0001.
Definition POLLPRI : Z := 0x0002.
Definition POLLOUT : Z := 0x0004.
Definition POLLERR : Z := 0x0008.
Definition POLLHUP : Z := 0x0010.
Definition POLLNVAL : Z := 0x0020.
Definition POLLRDNORM : Z := 0x0040.
Definition POLLWRNORM : Z := POLLOUT.
Definition INFTIM : Z := -1.

(** The events asked for, by the mix of names the source uses. *)
Definition pollset_events : Z :=
  Z.lor (Z.lor (Z.lor POLLIN MW_POLLRDNORM) POLLOUT) MW_POLLWRNORM.

Definition poll_flag_table : list (Z * Z) :=
  [ (POLLIN, MW_POLLIN); (POLLRDNORM, MW_POLLRDNORM); (POLLHUP, MW_POLLHUP);
    (POLLOUT, MW_POLLOUT); (POLLWRNORM, MW_POLLWRNORM); (POLLERR, MW_POLLERR);
    (POLLPRI, MW_POLLPRI); (POLLNVAL, MW_POLLNVAL) ].

Definition translate_revents (revents : Z) : Z := or_flags poll_flag_table revents.

Section Pollset.

Context {W : Type} {OS : NetOS W}.

(** Return code, and the events when they were stored. *)
Definition xe_pollset_query_one (Fd : Z) (Events : Z) : ins_m W (Z * Z) :=
  let* r := sys (SysPoll [{| pf_fd := Fd; pf_events := pollset_events; pf_revents := 0 |}] INFTIM) in
  if r_ret r <? 0 then
    let* e := XE_GET_NEG_ERRNO in ret (e, Events)
  else if r_ret r =? 0 then ret (0, Events)
  else ret (0, match r_revents r with x :: _ => x | [] => 0 end).


(** The reporting loop: at most [n] threads are looked at, from the
    position where the last query stopped. *)
Fixpoint pollset_scan (n : nat) (pollct : Z) (revents : list Z)
    (items : list mt_pollset_query_item) : ins_m W (list mt_pollset_query_item) :=
  match n with
  | O => ret items
  | S n' =>
      if (Z.of_nat (length items) <? pollct)
         && (Z.of_nat (length items) <? MT_POLLSET_QUERY_MAX_ITEMS) then
        let* cur := gets (fun s => ps_cur_pos (st_ps s) mod Z.of_nat MAX_THREAD_COUNT) in
        modify (fun s => set_st_ps (set_ps_cur_pos cur (st_ps s)) s) ;;;
        upd_ti (Z.to_nat cur) (set_ti_poll_events 0) ;;;
        let rev := nth (Z.to_nat cur) revents 0 in
        let next := modify (fun s => set_st_ps (set_ps_cur_pos (u32 (cur + 1)) (st_ps s)) s) in
        if rev =? 0 then
          next ;;; pollset_scan n' pollct revents items
        else
          let* t := get_ti (Z.to_nat cur) in
          let ev := translate_revents rev in
          upd_ti (Z.to_nat cur) (set_ti_poll_events ev) ;;;
          next ;;;
          pollset_scan n' pollct revents
            (items ++ [{| qi_sockfd := ti_public_fd t; qi_events := ev |}])
      else ret items
  end.

Definition xe_pollset_query (Request : mt_request_base) (Response : mt_response)
    : ins_m W (Z * mt_response) :=
  (* input flags, set once *)
  let* inited := gets (fun s => ps_init (st_ps s)) in
  when (negb inited)
    (modify (fun s => set_st_ps (set_ps_init true (set_ps_fds
       (map (fun f => {| pf_fd := pf_fd f; pf_events := pollset_events; pf_revents := pf_revents f |})
          (ps_fds (st_ps s))) (st_ps s))) s)) ;;;
  (* descriptors *)
  let* threads := get_g g_worker_threads in
  modify (fun s => set_st_ps (set_ps_fds
    (zip_with (fun f t => {| pf_fd := if ti_in_use t =? 0 then -1 else ti_local_fd t;
                             pf_events := pf_events f; pf_revents := pf_revents f |})
       (ps_fds (st_ps s)) threads) (st_ps s)) s) ;;;
  let* fds := gets (fun s => ps_fds (st_ps s)) in
  let* r := sys (SysPoll fds 0) in
  if r_ret r <? 0 then
    let* e := XE_GET_NEG_ERRNO in ret (e, Response)
  else
    modify (fun s => set_st_ps (set_ps_fds
      (imap (fun i f => {| pf_fd := pf_fd f; pf_events := pf_events f;
                           pf_revents := nth i (r_revents r) 0 |}) (ps_fds (st_ps s)))
      (st_ps s)) s) ;;;
    let* items := pollset_scan MAX_THREAD_COUNT (r_ret r) (r_revents r) [] in
    let n := Z.of_nat (length items) in
    ret (0, xe_net_set_base_response Request
              (MT_RESPONSE_POLLSET_QUERY_SIZE + MT_RESPONSE_POLLSET_QUERY_ITEM_SIZE * n)
              (set_rs_body (BodyPollset n items) Response)).

End Pollset.

(** ** Frame of the two operations *)

Section PollsetFacts.

Context {W : Type} {OS : NetOS W} (s0 : ins_state W).

Hypothesis threads_len : length (g_worker_threads (st_g s0)) = MAX_THREAD_COUNT.

Lemma keeps_query_one fd ev :
  keeps (handler_frame s0) (xe_pollset_query_one fd ev) (fun _ => True).
Proof. unfold xe_pollset_query_one. keeps_solve. Qed.

(** The reporting loop stays inside the thread array and the item array. *)
Lemma keeps_pollset_scan n pollct revents items :
  Z.of_nat (length items) <= MT_POLLSET_QUERY_MAX_ITEMS ->
  keeps (handler_frame s0) (pollset_scan n pollct revents items)
    (fun l => Z.of_nat (length l) <= MT_POLLSET_QUERY_MAX_ITEMS).
Proof.
  revert items. induction n as [|n IH]; intros items Hl; simpl; [by apply keeps_ret|].
  destruct (_ && _) eqn:Hc; [|by apply keeps_ret]. zbool.
  eapply keeps_bind with (Psi := fun cur => 0 <= cur < Z.of_nat MAX_THREAD_COUNT).
  { apply keeps_gets. intros s _. by apply Z.mod_pos_bound. }
  intros cur Hcur.
  assert (Z.to_nat cur < length (g_worker_threads (st_g s0)))%nat by (rewrite threads_len; lia).
  do 2 (keeps_step; [by eauto with mw|]). cond.
  - keeps_step; [by eauto with mw|]. by apply IH.
  - do 3 (keeps_step; [by eauto with mw|]).
    apply IH. rewrite length_app. simpl. lia.
Qed.

#[local] Arguments pollset_scan : simpl never.

Lemma keeps_pollset_query base resp :
  unanswered_type (rq_type base) = true ->
  keeps (handler_frame s0) (xe_pollset_query base resp) (handler_post base).
Proof.
  intros Hu. unfold xe_pollset_query.
  keeps_step; [by apply keeps_gets|].
  keeps_step; [apply keeps_when; intros _; apply keeps_ps|].
  keeps_step; [apply keeps_get_g|].
  keeps_step; [apply keeps_ps|].
  keeps_step; [by apply keeps_gets|].
  eapply keeps_bind; [by apply keeps_sys|]. intros r _. cond.
  - eapply keeps_bind; [apply keeps_neg_errno|]. intros e He. apply keeps_ret.
    apply handler_post_error; [cbn in He; lia|done].
  - keeps_step; [by eauto with mw|].
    eapply keeps_bind; [apply keeps_pollset_scan; by vm_compute|].
    intros items Hl. apply keeps_ret, handler_post_answer, response_for_base. sizes.
Qed.

End PollsetFacts.

#[export] Hint Resolve keeps_query_one keeps_pollset_query : mw.
