(* ===== verification/Networking.v ===== *)
(** * Networking: the request handlers of the INS

    ins/ins-rump/apps/ins-app/networking.c, one function per handler. A
    handler takes the request's region, the response as the dispatcher
    prepared it and the index of its worker thread, and returns its
    return code with the response. The loops that repeat a system call
    take fuel; the theorems say how much is enough. *)

From stdpp Require Import base numbers list.
From Stdlib Require Import ZArith Lia.
From S2P Require Import Prelude MwSocket MessageTypes MwErrno Translate WorkQueue InsState InsFacts Pollset.

(** ** Native constants *)

Definition SOL_SOCKET : Z := 0xffff.
Definition IPPROTO_TCP : Z := 6.
Definition TCP_NODELAY : Z := 1.
Definition SO_REUSEADDR : Z := 0x0004.
Definition SO_KEEPALIVE : Z := 0x0008.
Definition SO_REUSEPORT : Z := 0x0200.
Definition SO_ACCEPTFILTER : Z := 0x1000.
Definition SO_SNDBUF : Z := 0x1001.
Definition SO_RCVBUF : Z := 0x1002.
Definition SO_SNDLOWAT : Z := 0x1003.
Definition SO_RCVLOWAT : Z := 0x1004.
Definition SO_ERROR : Z := 0x1007.
Definition SO_SNDTIMEO : Z := 0x100b.
Definition SO_RCVTIMEO : Z := 0x100c.
Definition O_NONBLOCK : Z := 0x00000004.

(** [sizeof(struct timeval)], [sizeof(struct accept_filter_arg)],
    [sizeof(struct sockaddr)]. *)
Definition SIZEOF_TIMEVAL : Z := 16.
Definition SIZEOF_ACCEPT_FILTER : Z := 256.
Definition SIZEOF_SOCKADDR : Z := 16.

(** The text dataready. *)
Definition dataready : list Z := [100; 97; 116; 97; 114; 101; 97; 100; 121].

(** ntohs() on a little-endian host. *)
Definition ntohs (x : Z) : Z := Z.lor (Z.shiftl (Z.land x 0xff) 8) (Z.shiftr (u16 x) 8).

(** The bytes of a C string in a buffer, if the buffer holds a terminator. *)
Fixpoint cstring (buf : list Z) : option (list Z) :=
  match buf with
  | [] => None
  | b :: rest => if b =? 0 then Some [] else (fun l => b :: l) <$> cstring rest
  end.

(** The arguments of the two npfctl commands. *)
Definition npf_args (verb : list Z) (addr : list Z) : list (list Z) :=
  [ [110; 112; 102; 99; 116; 108] (* npfctl *); [116; 97; 98; 108; 101] (* table *);
    [98; 108; 97; 99; 107; 108; 105; 115; 116] (* blacklist *); verb; addr ].
Definition npf_add : list Z := [97; 100; 100].
Definition npf_rem : list Z := [114; 101; 109].

Section Networking.

Context {W : Type} {OS : NetOS W}.

(** ** Initialising a socket from the global configuration *)

(** [if ( cond ) { rc = setsockopt( ... ); if ( rc ) goto ErrorExit; }] *)
Definition setsockopt_if (cond : bool) (fd name : Z) (val : optval) (k : ins_m W Z) : ins_m W Z :=
  if cond then
    let* r := sys (SysSetsockopt fd SOL_SOCKET name val) in
    if truth (r_ret r) then ret (r_ret r) else k
  else k.

Definition xe_net_init_socket (SockFd : Z) : ins_m W Z :=
  let* g := get_g id in
  setsockopt_if (truth (g_so_sndbuf g)) SockFd SO_SNDBUF (OptInt (g_so_sndbuf g)) (
  setsockopt_if (truth (g_so_rcvbuf g)) SockFd SO_RCVBUF (OptInt (g_so_rcvbuf g)) (
  setsockopt_if (truth (fst (g_so_sndtimeo g)) || truth (snd (g_so_sndtimeo g))) SockFd SO_SNDTIMEO
    (OptTimeval (fst (g_so_sndtimeo g)) (snd (g_so_sndtimeo g))) (
  setsockopt_if (truth (fst (g_so_rcvtimeo g)) || truth (snd (g_so_rcvtimeo g))) SockFd SO_RCVTIMEO
    (OptTimeval (fst (g_so_rcvtimeo g)) (snd (g_so_rcvtimeo g))) (ret 0)))).

(** ** socket() *)

Fixpoint socket_retry (fuel : nat) (fam type_ proto : Z) : ins_m W Z :=
  match fuel with
  | O => out_of_fuel
  | S fuel' =>
      let* r := sys (SysSocket fam type_ proto) in
      let* e := get_errno in
      if (r_ret r <? 0) && (ENOBUFS =? e) then socket_retry fuel' fam type_ proto
      else ret (r_ret r)
  end.

Definition xe_net_create_socket (fuel : nat) (region : list Z) (Response : mt_response)
    (worker : nat) : ins_m W (Z * mt_response) :=
  let base := get_request_base region in
  let rq := get_socket_create region in
  let native_fam := xe_net_get_native_protocol_family (cr_sock_fam rq) in
  let native_type := xe_net_get_native_sock_type (cr_sock_type rq) in
  let native_proto := s32 (cr_sock_protocol rq) in
  let resp := set_rs_status 0 Response in
  let* sockfd := socket_retry fuel native_fam native_type native_proto in
  let* (resp, extsock) :=
    (if sockfd <? 0 then
       let* e := XE_GET_NEG_ERRNO in ret (set_rs_status e resp, 0)
     else
       let* cid := get_g g_client_id in
       let* t := get_ti worker in
       ret (resp, s64 (MW_SOCKET_CREATE cid (ti_idx t)))) in
  let resp := xe_net_set_base_response base MT_RESPONSE_BASE_SIZE resp in
  let* rc := xe_net_init_socket sockfd in
  if truth rc then ret (rc, resp)
  else
    upd_ti worker (fun t => set_ti_public_fd extsock (set_ti_local_fd sockfd
      (set_ti_sock_domain native_fam (set_ti_sock_type native_type
      (set_ti_sock_protocol native_proto t))))) ;;;
    upd_g (fun g => set_g_stats_socket_ct (s32 (g_stats_socket_ct g + 1)) g) ;;;
    ret (0, set_rs_sockfd extsock resp).

(** ** Socket attributes *)

Definition xe_net_sock_fcntl (region : list Z) (Response : mt_response) (worker : nat)
    : ins_m W (Z * mt_response) :=
  let rq := get_socket_attrib region in
  let* t := get_ti worker in
  let* fr := sys (SysFcntlGetFl (ti_local_fd t)) in
  let flags := r_ret fr in
  if truth (at_modify rq) then
    let flags := if truth (sf_v32 (at_val rq)) then Z.lor flags O_NONBLOCK
                 else Z.land flags (Z.lnot O_NONBLOCK) in
    let* r := sys (SysFcntlSetFl (ti_local_fd t) flags) in
    let rc := r_ret r in
    let* err := (if rc =? -1 then get_errno else ret 0) in
    set_errno err ;;;
    ret (rc, set_rs_status (if truth rc then XE_GET_NEG_ERRNO_VAL err else 0) Response)
  else
    set_errno 0 ;;;
    ret (0, set_rs_status 0
              (set_rs_body (BodyAttrib (ValV32 (u32 (Z.land flags O_NONBLOCK)))) Response)).

(** The end of xe_net_sock_attrib(), from its label ErrorExit on. *)
Definition attrib_finish (base : mt_request_base) (rc err : Z) (resp : mt_response)
    : ins_m W (Z * mt_response) :=
  let resp := xe_net_set_base_response base MT_RESPONSE_SOCKET_ATTRIB_SIZE resp in
  ret (0, set_rs_status (if truth rc then XE_GET_NEG_ERRNO_VAL err else 0) resp).

(** The 16 bytes of the local [struct timeval t]. *)
Definition attrib_t (is_timeval : bool) (val : mt_sockfeat_arg) : list Z :=
  if is_timeval then le_bytes 8 (sf_time_s val) ++ le_bytes 4 (sf_time_us val) ++ [0; 0; 0; 0]
  else le_bytes 4 (sf_v32 val) ++ replicate 12 0.

(** The call to setsockopt() or getsockopt() and what follows it. The
    value read goes to the 16 bytes of [t], whatever length was offered. *)
Definition attrib_call (base : mt_request_base) (rq : mt_request_socket_attrib) (fd level name : Z)
    (is_timeval is_filter : bool) (resp : mt_response) : ins_m W (Z * mt_response) :=
  let t := attrib_t is_timeval (at_val rq) in
  let len := if is_filter then SIZEOF_ACCEPT_FILTER
             else if is_timeval then SIZEOF_TIMEVAL else 4 in
  let val := if is_filter then OptFilter dataready
             else if is_timeval
             then OptTimeval (s64 (sf_time_s (at_val rq))) (s32 (sf_time_us (at_val rq)))
             else OptInt (sf_v32 (at_val rq)) in
  let* (rc, resp) :=
    (if truth (at_modify rq) then
       let* r := sys (SysSetsockopt fd level name val) in ret (r_ret r, resp)
     else
       let* r := sys (SysGetsockopt fd level name len) in
       if SIZEOF_TIMEVAL <? Z.of_nat (length (r_bytes r)) then undef
       else
         let t := r_bytes r ++ drop (length (r_bytes r)) t in
         ret (r_ret r, set_rs_body (BodyAttrib
                (if is_timeval
                 then ValTime (u64 (s64 (le_value (take 8 t)))) (u64 (s32 (le_value (take 4 (drop 8 t)))))
                 else ValV32 (le_value (take 4 t)))) resp)) in
  let* err := (if truth rc then get_errno else ret 0) in
  attrib_finish base rc err resp.

Definition xe_net_sock_attrib (region : list Z) (Response : mt_response) (worker : nat)
    : ins_m W (Z * mt_response) :=
  let base := get_request_base region in
  let rq := get_socket_attrib region in
  let* t := get_ti worker in
  let fd := ti_local_fd t in
  let opt name := attrib_call base rq fd SOL_SOCKET name false false Response in
  let timeo name := attrib_call base rq fd SOL_SOCKET name true false Response in
  match sockfeat_of (at_name rq) with
  | Some MtSockAttribNonblock =>
      let* (rc, resp) := xe_net_sock_fcntl region Response worker in
      attrib_finish base rc 0 resp
  | Some MtSockAttribReuseaddr => opt SO_REUSEADDR
  | Some MtSockAttribReuseport => opt SO_REUSEPORT
  | Some MtSockAttribKeepalive => opt SO_KEEPALIVE
  | Some MtSockAttribNodelay => attrib_call base rq fd IPPROTO_TCP TCP_NODELAY false false Response
  | Some MtSockAttribSndBuf => opt SO_SNDBUF
  | Some MtSockAttribRcvBuf => opt SO_RCVBUF
  | Some MtSockAttribSndTimeo => timeo SO_SNDTIMEO
  | Some MtSockAttribRcvTimeo => timeo SO_RCVTIMEO
  | Some MtSockAttribSndLoWat => opt SO_SNDLOWAT
  | Some MtSockAttribRcvLoWat => opt SO_RCVLOWAT
  | Some MtSockAttribGlobalCongctl
  | Some MtSockAttribGlobalDelackTicks => attrib_finish base 0 0 Response
  | Some MtSockAttribDeferAccept =>
      let set_it := attrib_call base rq fd SOL_SOCKET SO_ACCEPTFILTER false true Response in
      if truth (at_modify rq) then
        (* already set: nothing to do *)
        let* r := sys (SysGetsockopt fd SOL_SOCKET SO_ACCEPTFILTER 0) in
        if r_ret r =? 0 then attrib_finish base 0 0 Response else set_it
      else set_it
  | Some MtSockAttribError => opt SO_ERROR
  | _ => attrib_finish base (- EINVAL) 0 Response
  end.

(** ** Address filter *)

Definition xe_net_addr_block (region : list Z) (Response : mt_response) (worker : nat)
    : ins_m W (Z * mt_response) :=
  let base := get_request_base region in
  let rq := get_addr_block region in
  (* 16 bytes are copied into buf[16], which strncpy() may leave without a terminator *)
  let run verb :=
    match cstring (ab_addr rq) with
    | Some addr => let* r := sys (SysNpfctl (npf_args verb addr)) in ret (r_ret r)
    | None => undef
    end in
  let* rc := (if ab_block rq =? 1 then run npf_add
              else if ab_block rq =? 0 then run npf_rem
              else ret (-1)) in
  ret (rc, set_rs_status rc (xe_net_set_base_response base MT_RESPONSE_BASE_SIZE Response)).

(** ** connect(), bind(), listen() *)

Definition xe_net_connect_socket (region : list Z) (Response : mt_response) (worker : nat)
    : ins_m W (Z * mt_response) :=
  let base := get_request_base region in
  let resp := set_rs_status 0 Response in
  let sockaddr := populate_sockaddr_in sockaddr_in_zero (get_bind_sockaddr region) in
  let* t := get_ti worker in
  let* r := sys (SysConnect (ti_local_fd t) sockaddr) in
  let* resp := (if r_ret r <? 0 then
                  let* e := XE_GET_NEG_ERRNO in ret (set_rs_status e resp)
                else ret resp) in
  ret (0, xe_net_set_base_response base MT_RESPONSE_BASE_SIZE resp).

(** The length byte of the local address is not written before the call. *)
Definition xe_net_bind_socket (region : list Z) (Response : mt_response) (worker : nat)
    : ins_m W (Z * mt_response) :=
  let base := get_request_base region in
  let sockaddr := populate_sockaddr_in sockaddr_in_zero (get_bind_sockaddr region) in
  let* t := get_ti worker in
  let* r := sys (SysBind (ti_local_fd t) sockaddr) in
  let resp := set_rs_status (r_ret r) Response in
  let* resp :=
    (if rs_status resp <? 0 then
       let* e := XE_GET_NEG_ERRNO in ret (set_rs_status e resp)
     else
       upd_ti worker (set_ti_bound_port_num (ntohs (sin_port sockaddr))) ;;;
       upd_g (set_g_pending_port_change true) ;;;
       ret resp) in
  ret (0, xe_net_set_base_response base MT_RESPONSE_BASE_SIZE resp).

Definition xe_net_listen_socket (region : list Z) (Response : mt_response) (worker : nat)
    : ins_m W (Z * mt_response) :=
  let base := get_request_base region in
  let* t := get_ti worker in
  let* r := sys (SysListen (ti_local_fd t) (get_listen_backlog region)) in
  let resp := set_rs_status (r_ret r) Response in
  let* resp := (if rs_status resp <? 0 then
                  let* e := XE_GET_NEG_ERRNO in ret (set_rs_status e resp)
                else ret resp) in
  ret (0, xe_net_set_base_response base MT_RESPONSE_BASE_SIZE resp).

(** ** accept() *)

Definition xe_net_set_sock_nonblock (SockFd : Z) (NonBlock : bool) : ins_m W Z :=
  let* r := sys (SysFcntlGetFl SockFd) in
  let flags := r_ret r in
  if flags =? -1 then
    let* err := get_errno in
    set_errno err ;;; ret (- EIO)
  else
    let flags := if NonBlock then Z.lor flags O_NONBLOCK
                 else Z.land flags (Z.lnot O_NONBLOCK) in
    let* r := sys (SysFcntlSetFl SockFd flags) in
    if r_ret r =? -1 then
      let* err := get_errno in
      set_errno err ;;; ret (- EIO)
    else set_errno 0 ;;; ret (r_ret r).

Definition xe_net_accept_socket (region : list Z) (Response : mt_response) (worker : nat)
    : ins_m W (Z * mt_response) :=
  let base := get_request_base region in
  let flags := get_accept_flags region in
  let resp := set_rs_body (BodyAccept (if truth flags then flags else 0) None) Response in
  let* t := get_ti worker in
  let* r := sys (SysAccept (ti_local_fd t)) in
  let sockfd := r_ret r in
  if sockfd <? 0 then
    let* e := XE_GET_NEG_ERRNO in
    ret (0, xe_net_set_base_response base MT_RESPONSE_SOCKET_ACCEPT_SIZE (set_rs_status e resp))
  else
    let* rc := (if has_flag flags MW_SOCK_NONBLOCK
                then xe_net_set_sock_nonblock sockfd true else ret 0) in
    if truth rc then
      let* e := XE_GET_NEG_ERRNO in
      sys (SysClose sockfd) ;;;
      ret (rc, set_rs_sockfd (-1) (set_rs_status e resp))
    else
      let* rc := xe_net_init_socket sockfd in
      if truth rc then ret (rc, resp)
      else
        upd_g (fun g => set_g_stats_socket_ct (s32 (g_stats_socket_ct g + 1)) g) ;;;
        let resp := set_rs_body (BodyAccept (if truth flags then flags else 0)
                      (Some (populate_mt_sockaddr_in (r_addr r)))) (set_rs_status sockfd resp) in
        ret (0, xe_net_set_base_response base MT_RESPONSE_SOCKET_ACCEPT_SIZE resp).

(** ** recv() *)

(** The inner loop: repeat while the call is interrupted. *)
Fixpoint recv_retry (fuel : nat) (fd len flags : Z) : ins_m W sysres :=
  match fuel with
  | O => out_of_fuel
  | S fuel' =>
      set_errno 0 ;;;
      let* r := sys (SysRecv fd len flags) in
      let* e := get_errno in
      if (r_ret r <? 0) && (EINTR =? e) then recv_retry fuel' fd len flags
      else ret r
  end.

(** The outer loop. [passes] bounds its iterations: the second one always
    leaves. The bytes go to a buffer of [MESSAGE_TYPE_MAX_PAYLOAD_LEN]. The
    result is [Some] return code of the internal error exit, or [None]
    when the loop was left by a break. *)
Fixpoint recv_loop (passes fuel : nat) (worker : nat) (fd requested flags : Z)
    (polled : bool) (events : Z) (resp : mt_response) : ins_m W (option Z * mt_response) :=
  match passes with
  | O => out_of_fuel
  | S passes' =>
      let* r := recv_retry fuel fd requested flags in
      if MESSAGE_TYPE_MAX_PAYLOAD_LEN <? r_ret r then undef
      else if r_ret r <? 0 then
        let* e := XE_GET_NEG_ERRNO in
        ret (None, set_rs_body (BodyRecv 0 []) (set_rs_status e resp))
      else
        let count := u16 (r_ret r) in
        let resp := set_rs_body (BodyRecv count (r_bytes r)) (set_rs_status 0 resp) in
        if 0 <? count then ret (None, resp)
        else if has_flag events (Z.lor POLLIN POLLRDNORM) then
          upd_ti worker (fun t => set_ti_state_flags
            (Z.lor (ti_state_flags t) MT_FLAGS_REMOTE_CLOSED) t) ;;;
          ret (None, resp)
        else if polled then
          upd_ti worker (set_ti_state_flags 0) ;;;
          ret (None, resp)
        else
          let* (rc, events) := xe_pollset_query_one fd events in
          if truth rc then ret (Some rc, resp)
          else recv_loop passes' fuel worker fd requested flags true events resp
  end.

(** The count field of the response under construction. *)
Definition body_count (r : mt_response) : Z :=
  match rs_body r with
  | BodyRecv c _ | BodyRecvFrom _ _ c _ | BodySend _ c => c
  | _ => 0
  end.

Definition xe_net_recv_socket (fuel : nat) (region : list Z) (Response : mt_response)
    (worker : nat) : ins_m W (Z * mt_response) :=
  let base := get_request_base region in
  let rq := get_socket_recv region in
  let flags := xe_net_translate_msg_flags (rv_flags rq) in
  let resp := set_rs_status 0 (set_rs_body (BodyRecv 0 []) Response) in
  let* t := get_ti worker in
  let* (err, resp) :=
    recv_loop 2 fuel worker (ti_local_fd t) (rv_requested rq) flags false 0 resp in
  match err with
  | Some rc => ret (rc, resp)
  | None =>
      upd_g (fun g => set_g_stats_bytes_recv (u64 (g_stats_bytes_recv g + body_count resp)) g) ;;;
      ret (0, xe_net_set_base_response base (MT_RESPONSE_SOCKET_RECV_SIZE + body_count resp) resp)
  end.

(** ** recvfrom() *)

Fixpoint recvfrom_retry (fuel : nat) (fd len flags addrlen : Z) : ins_m W sysres :=
  match fuel with
  | O => out_of_fuel
  | S fuel' =>
      let* r := sys (SysRecvFrom fd len flags addrlen) in
      let* e := get_errno in
      if (r_ret r <? 0) && (EINTR =? e) then recvfrom_retry fuel' fd len flags addrlen
      else ret r
  end.

(** As [recv_loop], with the local address and its length, which starts
    at 0: the system stores as much of the address as the length allows,
    and the address is only initialised when all of it was stored. *)
Fixpoint recvfrom_loop (passes fuel : nat) (worker : nat) (fd requested flags : Z)
    (polled : bool) (events : Z) (src : option sockaddr_in) (addrlen : Z) (resp : mt_response)
    : ins_m W (option Z * (option sockaddr_in * Z) * mt_response) :=
  match passes with
  | O => out_of_fuel
  | S passes' =>
      let* r := recvfrom_retry fuel fd requested flags addrlen in
      if MESSAGE_TYPE_MAX_PAYLOAD_LEN <? r_ret r then undef
      else if r_ret r <? 0 then
        let* e := XE_GET_NEG_ERRNO in
        ret (None, (src, addrlen),
             set_rs_body (BodyRecvFrom None 0 0 []) (set_rs_status e resp))
      else
        let src := if SIZEOF_SOCKADDR <=? addrlen then Some (r_addr r) else src in
        let addrlen := r_alen r in
        let count := u16 (r_ret r) in
        let resp := set_rs_body (BodyRecvFrom None 0 count (r_bytes r)) (set_rs_status 0 resp) in
        if 0 <? count then ret (None, (src, addrlen), resp)
        else if has_flag events (Z.lor POLLIN POLLRDNORM) then
          upd_ti worker (fun t => set_ti_state_flags
            (Z.lor (ti_state_flags t) MT_FLAGS_REMOTE_CLOSED) t) ;;;
          ret (None, (src, addrlen), resp)
        else if polled then
          upd_ti worker (set_ti_state_flags 0) ;;;
          ret (None, (src, addrlen), resp)
        else
          let* (rc, events) := xe_pollset_query_one fd events in
          if truth rc then ret (Some rc, (src, addrlen), resp)
          else recvfrom_loop passes' fuel worker fd requested flags true events src addrlen resp
  end.

Definition body_bytes (r : mt_response) : list Z :=
  match rs_body r with
  | BodyRecv _ bs | BodyRecvFrom _ _ _ bs => bs
  | _ => []
  end.

Definition xe_net_recvfrom_socket (fuel : nat) (region : list Z) (Response : mt_response)
    (worker : nat) : ins_m W (Z * mt_response) :=
  let base := get_request_base region in
  let rq := get_socket_recv region in
  let flags := xe_net_translate_msg_flags (rv_flags rq) in
  let resp := set_rs_status 0 (set_rs_body (BodyRecvFrom None 0 0 []) Response) in
  let* t := get_ti worker in
  let* (err, (src, addrlen), resp) :=
    recvfrom_loop 2 fuel worker (ti_local_fd t) (rv_requested rq) flags false 0 None 0 resp in
  match err with
  | Some rc => ret (rc, resp)
  | None =>
      let resp := set_rs_body (BodyRecvFrom (populate_mt_sockaddr_in <$> src) (u32 addrlen)
                    (body_count resp) (body_bytes resp)) resp in
      upd_g (fun g => set_g_stats_bytes_recv (u64 (g_stats_bytes_recv g + body_count resp)) g) ;;;
      ret (0, xe_net_set_base_response base
                (MT_RESPONSE_SOCKET_RECVFROM_SIZE + body_count resp) resp)
  end.

(** ** shutdown(), close() *)

Definition xe_net_shutdown_socket (region : list Z) (Response : mt_response) (worker : nat)
    : ins_m W (Z * mt_response) :=
  let base := get_request_base region in
  let* t := get_ti worker in
  let* r := sys (SysShutdown (ti_local_fd t) (s32 (get_shutdown_how region))) in
  let* st := (if r_ret r =? 0 then ret 0 else XE_GET_NEG_ERRNO) in
  ret (0, xe_net_set_base_response base MT_RESPONSE_BASE_SIZE (set_rs_status st Response)).

Definition xe_net_internal_close_socket (worker : nat) : ins_m W Z :=
  let* t := get_ti worker in
  let* rc :=
    (if negb (MT_INVALID_SOCKET_FD =? ti_local_fd t) then
       upd_g (fun g => set_g_stats_socket_ct (s32 (g_stats_socket_ct g - 1)) g) ;;;
       let* r := sys (SysClose (ti_local_fd t)) in
       if truth (r_ret r) then XE_GET_NEG_ERRNO else ret 0
     else ret 0) in
  upd_ti worker (fun t => set_ti_local_fd MT_INVALID_SOCKET_FD
                            (set_ti_public_fd MT_INVALID_SOCKET_FD t)) ;;;
  when (negb (0 =? ti_bound_port_num t))
    (upd_ti worker (set_ti_bound_port_num 0) ;;;
     upd_g (set_g_pending_port_change true)) ;;;
  ret rc.

Definition xe_net_close_socket (region : list Z) (Response : mt_response) (worker : nat)
    : ins_m W (Z * mt_response) :=
  let base := get_request_base region in
  let* st := xe_net_internal_close_socket worker in
  ret (0, xe_net_set_base_response base MT_RESPONSE_BASE_SIZE (set_rs_status st Response)).

(** ** send() *)

(** The loop with its count. [maxExpected] may be negative. *)
Fixpoint send_loop (fuel : nat) (worker : nat) (fd flags maxExpected : Z) (bytes : list Z)
    (count : Z) (resp : mt_response) : ins_m W (Z * mt_response) :=
  if count <? maxExpected then
    match fuel with
    | O => out_of_fuel
    | S fuel' =>
        let chunk := take (Z.to_nat (maxExpected - count)) (drop (Z.to_nat count) bytes) in
        let* r := sys (SysSend fd chunk flags) in
        if r_ret r <? 0 then
          let* err := get_errno in
          if (EAGAIN =? err) || (EWOULDBLOCK =? err) then
            sys (SysPoll [{| pf_fd := fd; pf_events := POLLOUT; pf_revents := 0 |}] (-1)) ;;;
            send_loop fuel' worker fd flags maxExpected bytes count resp
          else
            let st := XE_GET_NEG_ERRNO_VAL err in
            upd_ti worker (set_ti_state_flags
              (if - MW_EPIPE =? st then MT_FLAGS_REMOTE_CLOSED else 0)) ;;;
            ret (count, set_rs_status st resp)
        else
          send_loop fuel' worker fd flags maxExpected bytes (u16 (count + r_ret r)) resp
    end
  else ret (count, resp).

(** The payload declared by the request's size. *)
Definition send_max_expected (base : mt_request_base) : Z :=
  s64 (rq_size base - MT_REQUEST_SOCKET_SEND_SIZE).

Definition xe_net_send_socket (fuel : nat) (region : list Z) (Response : mt_response)
    (worker : nat) : ins_m W (Z * mt_response) :=
  let base := get_request_base region in
  let rq := get_socket_send region in
  let flags := xe_net_translate_msg_flags (sn_flags rq) in
  let maxExpected := send_max_expected base in
  if MESSAGE_TYPE_MAX_PAYLOAD_LEN <? maxExpected then undef
  else
  let resp := set_rs_status 0 Response in
  let* t := get_ti worker in
  let* (count, resp) :=
    send_loop fuel worker (ti_local_fd t) flags maxExpected (sn_bytes rq) 0 resp in
  upd_g (fun g => set_g_stats_bytes_sent (u64 (g_stats_bytes_sent g + count)) g) ;;;
  ret (0, xe_net_set_base_response base MT_RESPONSE_SOCKET_SEND_SIZE
            (set_rs_body (BodySend (sn_flags rq) count) resp)).

(** ** getsockname(), getpeername() *)

Definition xe_net_get_name (region : list Z) (Response : mt_response) (worker : nat)
    : ins_m W (Z * mt_response) :=
  let base := get_request_base region in
  let maxlen := get_getname_maxlen region in
  let* t := get_ti worker in
  let finish (r : sysres) :=
    (* the address is copied into a struct sockaddr *)
    if (0 <=? r_ret r) && (SIZEOF_SOCKADDR <? Z.min maxlen (r_alen r)) then undef
    else
      let addrlen := if 0 <=? r_ret r then r_alen r else maxlen in
      let addr := if (0 <=? r_ret r) && (SIZEOF_SOCKADDR <=? Z.min maxlen (r_alen r))
                  then Some (populate_mt_sockaddr_in (r_addr r)) else None in
      ret (r_ret r, xe_net_set_base_response base MT_RESPONSE_SOCKET_GETNAME_SIZE
                      (set_rs_body (BodyGetName (u16 addrlen) addr)
                         (set_rs_status (r_ret r) Response))) in
  match request_type_of (rq_type base) with
  | Some MtRequestSocketGetPeer => let* r := sys (SysGetpeername (ti_local_fd t) maxlen) in finish r
  | Some MtRequestSocketGetName => let* r := sys (SysGetsockname (ti_local_fd t) maxlen) in finish r
  | _ => ret (-1, Response)
  end.

End Networking.
