(* ===== verification/NetworkingFacts.v ===== *)
(** * NetworkingFacts: safety of the request handlers

    Every handler of networking.c, run for a worker thread of the array
    on a request whose lengths its buffers can hold ([request_safe]),
    makes no access outside an array, leaves the bookkeeping of the
    threads, the buffer items and the configuration as they were, writes
    no response itself, and with return code 0 has prepared a response
    that answers its request. *)

From stdpp Require Import base numbers list.
From Stdlib Require Import ZArith Lia.
From S2P Require Import Prelude MwSocket MessageTypes MwErrno Translate WorkQueue InsState InsFacts Pollset Networking.

(** ** Requests the handlers' buffers can hold

    The conditions the code does not check itself, one per handler that
    needs one. *)
Definition request_safe (region : list Z) : bool :=
  let base := get_request_base region in
  match request_type_of (rq_type base) with
  | Some MtRequestSocketRecv | Some MtRequestSocketRecvFrom =>
      rv_requested (get_socket_recv region) <=? MESSAGE_TYPE_MAX_PAYLOAD_LEN
  | Some MtRequestSocketGetName | Some MtRequestSocketGetPeer =>
      get_getname_maxlen region <=? SIZEOF_SOCKADDR
  | Some MtRequestAddrBlock =>
      match cstring (ab_addr (get_addr_block region)) with Some _ => true | None => false end
  | Some MtRequestSocketAttrib =>
      let rq := get_socket_attrib region in
      truth (at_modify rq)
      || match sockfeat_of (at_name rq) with Some MtSockAttribDeferAccept => false | _ => true end
  | _ => true
  end.

(** The size check of the dispatcher bounds the payload of a send. *)
Lemma send_max_expected_value region :
  send_max_expected (get_request_base region)
  = rq_size (get_request_base region) - MT_REQUEST_SOCKET_SEND_SIZE.
Proof.
  unfold send_max_expected. apply wraps_small; [lia|].
  pose proof (read_fields_range request_base_ws region 2 2 eq_refl) as H.
  change (nth 2 (read_fields request_base_ws region) 0)
    with (rq_size (get_request_base region)) in H.
  unfold in_u in H. unfold in_s. change MT_REQUEST_SOCKET_SEND_SIZE with 32. simpl in *. lia.
Qed.

Section Handlers.

Context {W : Type} {OS : NetOS W} {Laws : NetOSLaws W} (s0 : ins_state W) (worker : nat).

Hypothesis worker_ok : (worker < length (g_worker_threads (st_g s0)))%nat.

Abbreviation frame := (handler_frame s0).

Lemma keeps_setsockopt_if c fd name val k :
  keeps frame k (fun _ => True) -> keeps frame (setsockopt_if c fd name val k) (fun _ => True).
Proof. intros Hk. unfold setsockopt_if. keeps_solve; auto. Qed.

Lemma keeps_init_socket fd : keeps frame (xe_net_init_socket fd) (fun _ => True).
Proof. unfold xe_net_init_socket. keeps_step; [auto with mw|]. repeat apply keeps_setsockopt_if. by apply keeps_ret. Qed.

Lemma keeps_socket_retry fuel fam ty proto :
  keeps frame (socket_retry fuel fam ty proto) (fun _ => True).
Proof. induction fuel; simpl; keeps_solve; auto. Qed.

Hint Resolve keeps_init_socket keeps_socket_retry : mw.

Lemma keeps_create fuel region resp :
  keeps frame (xe_net_create_socket fuel region resp worker) (handler_post (get_request_base region)).
Proof. unfold xe_net_create_socket. keeps_solve; eauto with mw. Qed.

Lemma keeps_fcntl region resp :
  keeps frame (xe_net_sock_fcntl region resp worker) (fun _ => True).
Proof. unfold xe_net_sock_fcntl. keeps_solve. Qed.

Lemma keeps_attrib_finish base rc err resp :
  keeps frame (attrib_finish base rc err resp) (handler_post base).
Proof. unfold attrib_finish. keeps_solve; eauto with mw. Qed.

Hint Resolve keeps_fcntl keeps_attrib_finish : mw.

(** Reading an option is safe when its value is not the accept filter. *)
Lemma keeps_attrib_call base rq fd level name is_tv is_filter resp :
  truth (at_modify rq) = true \/ is_filter = false ->
  keeps frame (attrib_call base rq fd level name is_tv is_filter resp) (handler_post base).
Proof.
  intros Hsafe. unfold attrib_call.
  eapply keeps_bind with (Psi := fun _ => True).
  - destruct (truth (at_modify rq)); [keeps_solve|].
    destruct Hsafe as [?| ->]; [discriminate|].
    eapply keeps_bind; [by apply keeps_sys|]. intros r [w ->]. cbn zeta.
    destruct (_ <? _) eqn:E; [|keeps_solve]. exfalso. zbool.
    pose proof (law_getsockopt fd level name (if is_tv then SIZEOF_TIMEVAL else 4) w) as HL.
    unfold SIZEOF_TIMEVAL in *. destruct is_tv; lia.
  - intros [rc resp'] _. keeps_solve; eauto with mw.
Qed.

Lemma keeps_attrib region resp :
  request_type_of (rq_type (get_request_base region)) = Some MtRequestSocketAttrib ->
  request_safe region = true ->
  keeps frame (xe_net_sock_attrib region resp worker) (handler_post (get_request_base region)).
Proof.
  intros Ht. unfold request_safe. rewrite Ht. intros Hs. unfold xe_net_sock_attrib.
  keeps_step; [auto with mw|].
  destruct (sockfeat_of _) as [[]|] eqn:Hn; try (apply keeps_attrib_call; by right);
    try apply keeps_attrib_finish.
  - keeps_step; [auto with mw|]. keeps_solve. auto with mw.
  - apply orb_true_iff in Hs as [Hs|Hs]; [|discriminate]. rewrite Hs.
    keeps_solve; [auto with mw|]. apply keeps_attrib_call. auto.
Qed.

Lemma keeps_addr_block region resp :
  request_type_of (rq_type (get_request_base region)) = Some MtRequestAddrBlock ->
  request_safe region = true ->
  keeps frame (xe_net_addr_block region resp worker) (handler_post (get_request_base region)).
Proof.
  intros Ht. unfold request_safe. rewrite Ht. unfold xe_net_addr_block.
  destruct (cstring _); [|discriminate]. intros _. keeps_solve; eauto with mw.
Qed.

Lemma keeps_connect region resp :
  keeps frame (xe_net_connect_socket region resp worker) (handler_post (get_request_base region)).
Proof. unfold xe_net_connect_socket. keeps_solve; eauto with mw. Qed.

Lemma keeps_bind_socket region resp :
  keeps frame (xe_net_bind_socket region resp worker) (handler_post (get_request_base region)).
Proof. unfold xe_net_bind_socket. keeps_solve; eauto with mw. Qed.

Lemma keeps_listen region resp :
  keeps frame (xe_net_listen_socket region resp worker) (handler_post (get_request_base region)).
Proof. unfold xe_net_listen_socket. keeps_solve; eauto with mw. Qed.

Lemma keeps_set_sock_nonblock fd b :
  keeps frame (xe_net_set_sock_nonblock fd b) (fun _ => True).
Proof. unfold xe_net_set_sock_nonblock. keeps_solve. Qed.

Hint Resolve keeps_set_sock_nonblock : mw.

Lemma keeps_accept region resp :
  request_type_of (rq_type (get_request_base region)) = Some MtRequestSocketAccept ->
  keeps frame (xe_net_accept_socket region resp worker) (handler_post (get_request_base region)).
Proof.
  intros Ht. assert (unanswered_type (rq_type (get_request_base region)) = true)
    by (unfold unanswered_type; by rewrite Ht).
  unfold xe_net_accept_socket. keeps_solve; eauto with mw.
Qed.

Lemma keeps_shutdown region resp :
  keeps frame (xe_net_shutdown_socket region resp worker) (handler_post (get_request_base region)).
Proof. unfold xe_net_shutdown_socket. keeps_solve; eauto with mw. Qed.

Lemma keeps_internal_close : keeps frame (xe_net_internal_close_socket worker) (fun _ => True).
Proof. unfold xe_net_internal_close_socket. keeps_solve. Qed.

Hint Resolve keeps_internal_close : mw.

Lemma keeps_close region resp :
  keeps frame (xe_net_close_socket region resp worker) (handler_post (get_request_base region)).
Proof. unfold xe_net_close_socket. keeps_solve; eauto with mw. Qed.

Lemma keeps_send_loop fuel fd flags mx bytes count resp :
  keeps frame (send_loop fuel worker fd flags mx bytes count resp) (fun _ => True).
Proof.
  revert count. induction fuel as [|fuel IH]; intros count; simpl; keeps_solve; auto.
Qed.

Hint Resolve keeps_send_loop : mw.

Lemma keeps_send fuel region resp :
  rq_size (get_request_base region) <= ONE_REQUEST_REGION_SIZE ->
  keeps frame (xe_net_send_socket fuel region resp worker) (handler_post (get_request_base region)).
Proof.
  intros Hs. unfold xe_net_send_socket. rewrite send_max_expected_value.
  destruct (_ <? _) eqn:E; zbool.
  { change ONE_REQUEST_REGION_SIZE with 2017 in Hs. change MESSAGE_TYPE_MAX_PAYLOAD_LEN with 1985 in E.
    change MT_REQUEST_SOCKET_SEND_SIZE with 32 in E. lia. } keeps_solve; eauto with mw.
Qed.

Lemma keeps_get_name region resp :
  request_type_of (rq_type (get_request_base region)) = Some MtRequestSocketGetName
  \/ request_type_of (rq_type (get_request_base region)) = Some MtRequestSocketGetPeer ->
  request_safe region = true ->
  keeps frame (xe_net_get_name region resp worker) (handler_post (get_request_base region)).
Proof.
  intros Ht Hs. assert (get_getname_maxlen region <= SIZEOF_SOCKADDR) as Hm.
  { unfold request_safe in Hs. destruct Ht as [Ht|Ht]; rewrite Ht in Hs; by zbool. }
  unfold xe_net_get_name. keeps_step; [auto with mw|]. cbn zeta.
  destruct Ht as [Ht|Ht]; rewrite Ht; (keeps_step; [auto with mw|]);
    (destruct (_ && _) eqn:E; [zbool; lia|]); keeps_solve; eauto with mw.
Qed.

(** *** Receiving *)

Lemma keeps_recv_retry fuel fd len flags :
  keeps frame (recv_retry fuel fd len flags) (fun r => r_ret r <= Z.max 0 len).
Proof.
  induction fuel as [|fuel IH]; simpl; [apply keeps_fuel|].
  keeps_step; [auto with mw|]. eapply keeps_bind; [by apply keeps_sys|]. intros r [w ->].
  keeps_step; [auto with mw|]. cond; [done|]. apply keeps_ret, law_recv.
Qed.

Lemma keeps_recvfrom_retry fuel fd len flags al :
  keeps frame (recvfrom_retry fuel fd len flags al) (fun r => r_ret r <= Z.max 0 len).
Proof.
  induction fuel as [|fuel IH]; simpl; [apply keeps_fuel|].
  eapply keeps_bind; [by apply keeps_sys|]. intros r [w ->].
  keeps_step; [auto with mw|]. cond; [done|]. apply keeps_ret, law_recvfrom.
Qed.

(** What the loops leave behind: the error exit has a non-zero code, and
    the count in the response is one the payload array can hold. *)
Definition recv_result (err : option Z) (resp : mt_response) : Prop :=
  (forall rc, err = Some rc -> rc <> 0)
  /\ 0 <= body_count resp <= MESSAGE_TYPE_MAX_PAYLOAD_LEN.

Lemma recv_result_none resp :
  0 <= body_count resp <= MESSAGE_TYPE_MAX_PAYLOAD_LEN -> recv_result None resp.
Proof. by split. Qed.

Lemma recv_result_some rc resp :
  truth rc = true -> 0 <= body_count resp <= MESSAGE_TYPE_MAX_PAYLOAD_LEN ->
  recv_result (Some rc) resp.
Proof. intros Hrc Hc. split; [|done]. intros ? [= <-]. by apply truth_nonzero. Qed.

Lemma recv_count_range n : 0 <= n <= MESSAGE_TYPE_MAX_PAYLOAD_LEN ->
  0 <= u16 n <= MESSAGE_TYPE_MAX_PAYLOAD_LEN.
Proof. intros H. rewrite wrapu_small; [done|]. unfold in_u. sizes. Qed.

Hint Resolve recv_result_none recv_result_some recv_count_range : mw.

Lemma keeps_recv_loop passes fuel fd requested flags polled events resp :
  requested <= MESSAGE_TYPE_MAX_PAYLOAD_LEN ->
  keeps frame (recv_loop passes fuel worker fd requested flags polled events resp)
    (fun p => recv_result (fst p) (snd p)).
Proof.
  intros Hreq. revert polled events resp.
  induction passes as [|passes IH]; intros polled events resp; [apply keeps_fuel|].
  cbn [recv_loop]. eapply keeps_bind; [apply keeps_recv_retry|]. intros r Hr. cbn beta in Hr.
  destruct (_ <? r_ret r) eqn:E1; zbool; [sizes|].
  destruct (r_ret r <? 0) eqn:E2; zbool.
  - keeps_step; [auto with mw|]. apply keeps_ret. apply recv_result_none. by vm_compute.
  - assert (0 <= u16 (r_ret r) <= MESSAGE_TYPE_MAX_PAYLOAD_LEN) by auto with mw.
    cbn zeta. keeps_solve; simpl; auto with mw.
Qed.

Lemma keeps_recv fuel region resp :
  request_type_of (rq_type (get_request_base region)) = Some MtRequestSocketRecv ->
  request_safe region = true ->
  keeps frame (xe_net_recv_socket fuel region resp worker) (handler_post (get_request_base region)).
Proof.
  intros Ht. unfold request_safe. rewrite Ht. intros Hs. zbool. unfold xe_net_recv_socket.
  keeps_step; [auto with mw|]. eapply keeps_bind; [by apply keeps_recv_loop|].
  intros [[rc|] resp'] [Hrc Hc]; cbn [fst snd] in *.
  - apply keeps_ret, handler_post_error; [by auto|]. unfold unanswered_type. by rewrite Ht.
  - keeps_solve. apply handler_post_answer, response_for_base. sizes.
Qed.

Lemma keeps_recvfrom_loop passes fuel fd requested flags polled events src al resp :
  requested <= MESSAGE_TYPE_MAX_PAYLOAD_LEN ->
  keeps frame (recvfrom_loop passes fuel worker fd requested flags polled events src al resp)
    (fun p => recv_result (fst (fst p)) (snd p)).
Proof.
  intros Hreq. revert polled events src al resp.
  induction passes as [|passes IH]; intros polled events src al resp; [apply keeps_fuel|].
  cbn [recvfrom_loop]. eapply keeps_bind; [apply keeps_recvfrom_retry|]. intros r Hr.
  cbn beta in Hr.
  destruct (_ <? r_ret r) eqn:E1; zbool; [sizes|].
  destruct (r_ret r <? 0) eqn:E2; zbool.
  - keeps_step; [auto with mw|]. apply keeps_ret. apply recv_result_none. by vm_compute.
  - assert (0 <= u16 (r_ret r) <= MESSAGE_TYPE_MAX_PAYLOAD_LEN) by auto with mw.
    cbn zeta. keeps_solve; simpl; auto with mw.
Qed.

Lemma keeps_recvfrom fuel region resp :
  request_type_of (rq_type (get_request_base region)) = Some MtRequestSocketRecvFrom ->
  request_safe region = true ->
  keeps frame (xe_net_recvfrom_socket fuel region resp worker)
    (handler_post (get_request_base region)).
Proof.
  intros Ht. unfold request_safe. rewrite Ht. intros Hs. zbool. unfold xe_net_recvfrom_socket.
  keeps_step; [auto with mw|]. eapply keeps_bind; [by apply keeps_recvfrom_loop|].
  intros [[[rc|] [src al]] resp'] [Hrc Hc]; cbn [fst snd] in *.
  - apply keeps_ret, handler_post_error; [by auto|]. unfold unanswered_type. by rewrite Ht.
  - cbn zeta. keeps_solve. apply handler_post_answer, response_for_base. cbn [body_count rs_body set_rs_body]. sizes.
Qed.

End Handlers.
