(* ===== verification/Dispatcher.v ===== *)
(** * Dispatcher: the request dispatcher of the INS

    ins/ins-rump/apps/ins-app/xenevent.c. The dispatcher thread reads
    requests from the ring device into buffer items and either processes
    them itself or queues them for the worker thread of their socket;
    the workers process their queues. One function per C function; the
    endless loops are given one iteration at a time ([dispatch_one],
    [worker_iteration]) and, for the dispatcher, with fuel. *)

From stdpp Require Import base numbers list.
From Stdlib Require Import ZArith Lia.
From S2P Require Import Prelude Text MwSocket MessageTypes MwErrno Translate WorkQueue InsState InsFacts Pollset Networking.

Definition INS_LISTENING_PORTS_MAX_LEN : Z := 1024.
Definition INS_NETWORK_STATS_MAX_LEN : Z := 64.

(** REQUEST_REQUIRES_OPLOCK *)
Definition REQUEST_REQUIRES_OPLOCK (type_ : Z) : bool :=
  (request_type_code MtRequestSocketSend =? type_)
  || (request_type_code MtRequestSocketShutdown =? type_)
  || (request_type_code MtRequestSocketClose =? type_).

(** ** Texts the INS publishes *)

(** The text of the heartbeat. *)
Definition heartbeat_text (g : xenevent_globals) : list Z :=
  hex_text (Z.of_nat MAX_THREAD_COUNT) ++ [58] ++ hex_text (u64 (g_stats_socket_ct g)) ++ [58]
  ++ hex_text (g_stats_bytes_recv g) ++ [58] ++ hex_text (g_stats_bytes_sent g).

(** The scan of update_listening_ports(): the text so far and the return
    code; [strlen] of the text is its length. *)
Fixpoint listening_ports_scan (threads : list thread_item) (text : list Z) : Z * list Z :=
  match threads with
  | [] => (0, text)
  | t :: rest =>
      if ti_in_use t =? 0 then listening_ports_scan rest text
      else if ti_bound_port_num t =? 0 then listening_ports_scan rest text
      else
        let port := snprintf 6 (hex_text (ti_bound_port_num t) ++ [32]) in
        if INS_LISTENING_PORTS_MAX_LEN - Z.of_nat (length port) - 1 <? Z.of_nat (length text)
        then (- EOVERFLOW, text)
        else listening_ports_scan rest (text ++
               take (Z.to_nat (INS_LISTENING_PORTS_MAX_LEN - Z.of_nat (length text) - 1)) port)
  end.

(** set_response_to_internal_error() *)
Definition set_response_to_internal_error (Request : mt_request_base) (Response : mt_response)
    : mt_response :=
  {| rs_sig := MT_SIGNATURE_RESPONSE;
     rs_type := u32 (MT_RESPONSE (rq_type Request));
     rs_size := u16 MT_RESPONSE_BASE_SIZE;
     rs_id := rq_id Request;
     rs_sockfd := rq_sockfd Request;
     rs_status := MT_STATUS_INTERNAL_ERROR;
     rs_flags := rs_flags Response; rs_ts_ins := rs_ts_ins Response;
     rs_body := rs_body Response |}.

Section Dispatcher.

Context {W : Type} {OS : NetOS W}.

(** ** Buffer items *)

(** atomic_cas_32( &buffer_items[i].in_use, old, new ) *)
Definition cas_buffer_in_use (i : nat) (old new : Z) : ins_m W Z :=
  let* b := get_bi i in
  if bi_in_use b =? old then upd_bi i (set_bi_in_use new) ;;; ret old
  else ret (bi_in_use b).

(** The scan from item [i] on, [n] items left. *)
Fixpoint reserve_scan (n i : nat) : ins_m W (Z * option nat) :=
  match n with
  | O => ret (EBUSY, None)
  | S n' =>
      let* prev := cas_buffer_in_use i 0 1 in
      if prev =? 0 then ret (0, Some i) else reserve_scan n' (S i)
  end.

Definition reserve_available_buffer_item : ins_m W (Z * option nat) :=
  reserve_scan BUFFER_ITEM_COUNT 0.

Definition release_buffer_item (BufferItem : nat) : ins_m W unit :=
  let* prev := cas_buffer_in_use BufferItem 1 0 in
  when (truth prev) (upd_bi BufferItem (set_bi_assigned_thread None)).

(** ** Worker threads *)

Definition cas_thread_in_use (i : nat) (old new : Z) : ins_m W Z :=
  let* t := get_ti i in
  if ti_in_use t =? old then upd_ti i (set_ti_in_use new) ;;; ret old
  else ret (ti_in_use t).

Fixpoint free_thread_scan (n i : nat) : ins_m W (Z * option nat) :=
  match n with
  | O => ret (EBUSY, None)
  | S n' =>
      let* prev := cas_thread_in_use i 0 1 in
      if prev =? 0 then ret (0, Some i) else free_thread_scan n' (S i)
  end.

(** The index is an [int]; a negative one is not rejected and is used on
    the array. *)
Definition get_worker_thread_for_fd (Fd : Z) : ins_m W (Z * option nat) :=
  if MT_INVALID_SOCKET_FD =? Fd then free_thread_scan MAX_THREAD_COUNT 0
  else
    let idx := s32 (MW_SOCKET_GET_ID Fd) in
    if Z.of_nat MAX_THREAD_COUNT <=? idx then ret (EINVAL, None)
    else if idx <? 0 then undef
    else
      let* curr := get_ti (Z.to_nat idx) in
      if ti_in_use curr =? 0 then ret (EINVAL, None)
      else if negb (Fd =? ti_public_fd curr) then ret (EINVAL, None)
      else ret (0, Some (Z.to_nat idx)).

Definition release_worker_thread (ThreadItem : nat) : ins_m W unit :=
  xe_net_internal_close_socket ThreadItem ;;;
  upd_ti ThreadItem (fun t =>
    set_ti_remote_host (map (fun _ => 0) (ti_remote_host t))
      (set_ti_bound_port_num 0 (set_ti_sock_protocol 0 (set_ti_sock_type 0
      (set_ti_sock_domain 0 (set_ti_state_flags 0 (set_ti_poll_events 0 t))))))) ;;;
  cas_thread_in_use ThreadItem 1 0 ;;;
  ret tt.

(** ** Responses *)

(** write( g_state.output_fd, &response, response.base.size ) and the
    comparison of its result: 0, or errno. *)
Definition write_response (response : mt_response) : ins_m W Z :=
  let* fd := get_g g_output_fd in
  let* r := sys (SysWrite fd response (rs_size response)) in
  if negb (r_ret r =? rs_size response) then get_errno else ret 0.

Definition send_dispatch_error_response (Request : mt_request_base) : ins_m W Z :=
  write_response (set_response_to_internal_error Request response_zero).

Definition update_listening_ports : ins_m W Z :=
  let* pending := get_g g_pending_port_change in
  if negb pending then ret 0
  else
    upd_g (set_g_pending_port_change false) ;;;
    let* threads := get_g g_worker_threads in
    let (rc, text) := listening_ports_scan threads [] in
    if truth rc then ret rc
    else
      let* fd := get_g g_input_fd in
      let* r := sys (SysIoctlPublishListeners fd text) in
      ret (r_ret r).

Definition post_process_response (Request : mt_request_base) (Response : mt_response)
    (Worker : option nat) : ins_m W (Z * mt_response) :=
  let resp := set_rs_flags (Z.lor (rs_flags Response) (rq_flags Request)) Response in
  let* resp :=
    (match Worker with
     | Some i => let* t := get_ti i in
                 ret (set_rs_flags (Z.lor (rs_flags resp) (ti_state_flags t)) resp)
     | None => ret resp
     end) in
  let* resp :=
    (if (request_type_code MtRequestSocketAccept =? rq_type Request) && (0 <=? rs_status resp) then
       let* (rc, accept_thread) := get_worker_thread_for_fd MT_INVALID_SOCKET_FD in
       match accept_thread with
       | Some a =>
           let* cid := get_g g_client_id in
           let* t := get_ti a in
           let fd := s64 (MW_SOCKET_CREATE cid (ti_idx t)) in
           upd_ti a (fun t => set_ti_local_fd (rs_status resp) (set_ti_public_fd fd t)) ;;;
           ret (set_rs_sockfd fd (set_rs_status fd resp))
       | None =>
           sys (SysClose (rs_status resp)) ;;;
           ret (set_rs_status MT_STATUS_INTERNAL_ERROR resp)
       end
     else ret resp) in
  let* rc := update_listening_ports in
  ret (rc, resp).

(** ** Processing one request *)

(** A handler that is given the worker dereferences it. *)
Definition with_worker {A} (worker : option nat) (k : nat -> ins_m W A) : ins_m W A :=
  match worker with Some i => k i | None => undef end.

(** The switch of process_buffer_item(). *)
Definition run_handler (fuel : nat) (region : list Z) (worker : option nat) (response : mt_response)
    : ins_m W (Z * mt_response) :=
  let request := get_request_base region in
  let wk := with_worker worker in
  match request_type_of (rq_type request) with
  | Some MtRequestSocketCreate => wk (xe_net_create_socket fuel region response)
  | Some MtRequestSocketShutdown => wk (xe_net_shutdown_socket region response)
  | Some MtRequestSocketClose => wk (xe_net_close_socket region response)
  | Some MtRequestSocketConnect => wk (xe_net_connect_socket region response)
  | Some MtRequestSocketSend => wk (xe_net_send_socket fuel region response)
  | Some MtRequestSocketBind => wk (xe_net_bind_socket region response)
  | Some MtRequestSocketListen => wk (xe_net_listen_socket region response)
  | Some MtRequestSocketAccept => wk (xe_net_accept_socket region response)
  | Some MtRequestSocketRecv => wk (xe_net_recv_socket fuel region response)
  | Some MtRequestSocketRecvFrom => wk (xe_net_recvfrom_socket fuel region response)
  | Some MtRequestSocketGetName
  | Some MtRequestSocketGetPeer => wk (xe_net_get_name region response)
  | Some MtRequestSocketAttrib => wk (xe_net_sock_attrib region response)
  | Some MtRequestAddrBlock => wk (xe_net_addr_block region response)
  | Some MtRequestPollsetQuery => xe_pollset_query request response
  | Some MtRequestInvalid | None =>
      ret (0, set_rs_type MtResponseInvalid (set_response_to_internal_error request response))
  end.

(** [if ( worker && worker->oplock_acquired ) ...] *)
Definition release_oplock (worker : option nat) : ins_m W unit :=
  match worker with
  | Some i =>
      let* t := get_ti i in
      when (ti_oplock_acquired t)
        (upd_ti i (set_ti_oplock_acquired false) ;;; sem_post_oplock i)
  | None => ret tt
  end.

(** Is the worker released after the response? *)
Definition releases_worker (reqtype status : Z) : bool :=
  MT_DEALLOCATES_FD reqtype
  || ((request_type_code MtRequestSocketCreate =? reqtype) && (status <? 0)).

Definition process_buffer_item (fuel : nat) (BufferItem : nat) : ins_m W Z :=
  let* b := get_bi BufferItem in
  let request := get_request_base (bi_region b) in
  let worker := bi_assigned_thread b in
  let reqtype := rq_type request in
  let* (rc, response) := run_handler fuel (bi_region b) worker response_zero in
  release_oplock worker ;;;
  let* (_, response) := post_process_response request response worker in
  let* werr := write_response response in
  let rc := if truth werr then werr else rc in
  release_buffer_item BufferItem ;;;
  when (releases_worker reqtype (rs_status response))
    (with_worker worker release_worker_thread) ;;;
  ret rc.

(** ** Assigning a request *)

(** The switch of assign_work_to_thread(): return code, thread, and
    whether the request is processed by the dispatcher thread. *)
Definition select_thread (request : mt_request_base) : ins_m W (Z * option nat * bool) :=
  match request_type_of (rq_type request) with
  | Some MtRequestPollsetQuery => ret (0, None, true)
  | Some MtRequestSocketShutdown | Some MtRequestSocketClose | Some MtRequestSocketBind
  | Some MtRequestSocketListen | Some MtRequestSocketAttrib =>
      let* (rc, t) := get_worker_thread_for_fd (rq_sockfd request) in ret (rc, t, true)
  | Some MtRequestSocketCreate | Some MtRequestAddrBlock =>
      let* (rc, t) := get_worker_thread_for_fd MT_INVALID_SOCKET_FD in ret (rc, t, true)
  | Some MtRequestSocketConnect | Some MtRequestSocketSend | Some MtRequestSocketAccept
  | Some MtRequestSocketRecv | Some MtRequestSocketRecvFrom | Some MtRequestSocketGetName
  | Some MtRequestSocketGetPeer =>
      let* (rc, t) := get_worker_thread_for_fd (rq_sockfd request) in ret (rc, t, false)
  | Some MtRequestInvalid | None => ret (EINVAL, None, false)
  end.

(** workqueue_enqueue() on the thread's queue. *)
Definition thread_enqueue (i : nat) (item : Z) : ins_m W Z :=
  let* t := get_ti i in
  match workqueue_enqueue (ti_work_queue t) item with
  | Done (rc, wq) => upd_ti i (set_ti_work_queue wq) ;;; ret rc
  | _ => undef
  end.

(** Acquire the oplock in the dispatcher thread. *)
Definition acquire_oplock (i : nat) : ins_m W unit :=
  sem_wait_oplock i ;;; upd_ti i (set_ti_oplock_acquired true).

(** From the oplock on: the request is processed or queued. *)
Definition start_work (fuel : nat) (BufferItem : nat) (request : mt_request_base)
    (thread : option nat) (process_now : bool) : ins_m W (Z * bool) :=
  upd_bi BufferItem (set_bi_assigned_thread thread) ;;;
  when (REQUEST_REQUIRES_OPLOCK (rq_type request)) (with_worker thread acquire_oplock) ;;;
  if process_now then
    let* rc := process_buffer_item fuel BufferItem in ret (rc, false)
  else
    with_worker thread (fun i =>
      let* b := get_bi BufferItem in
      let* rc := thread_enqueue i (bi_idx b) in
      when (truth rc) (release_oplock (Some i)) ;;;
      ret (rc, true)).

Definition assign_work_to_thread (fuel : nat) (BufferItem : nat)
    : ins_m W (Z * option nat * bool) :=
  let* b := get_bi BufferItem in
  let request := get_request_base (bi_region b) in
  let* (rc, thread, process_now) := select_thread request in
  let* (rc, further) :=
    (if truth rc then ret (rc, true)
     else start_work fuel BufferItem request thread process_now) in
  let* further :=
    (if truth rc then send_dispatch_error_response request ;;; ret false else ret further) in
  when (negb further) (release_buffer_item BufferItem) ;;;
  ret (rc, thread, further).

(** ** The loops *)

(** worker_thread_func(): wait for the semaphore and take an index. *)
Definition worker_take (i : nat) : ins_m W Z :=
  let* t := get_ti i in
  if ti_awaiting_work_sem t <=? 0 then block
  else
    upd_ti i (set_ti_awaiting_work_sem (ti_awaiting_work_sem t - 1)) ;;;
    match workqueue_dequeue (ti_work_queue t) with
    | Done (buf_idx, wq) => upd_ti i (set_ti_work_queue wq) ;;; ret buf_idx
    | _ => undef
    end.

(** One iteration of worker_thread_func(): does the thread exit? *)
Definition worker_iteration (fuel : nat) (i : nat) : ins_m W bool :=
  let* buf_idx := worker_take i in
  let empty := WORK_QUEUE_UNASSIGNED_IDX =? buf_idx in
  (if empty then ret tt
   else if buf_idx <? 0 then undef
   else
     process_buffer_item fuel (Z.to_nat buf_idx) ;;;
     release_buffer_item (Z.to_nat buf_idx)) ;;;
  let* down := get_g g_shutdown_pending in
  ret (down && empty).

(** One iteration of message_dispatcher(): [Some rc] leaves the loop. *)
Definition dispatch_one (fuel : nat) : ins_m W (option Z) :=
  let* (rc, item) := reserve_available_buffer_item in
  match item with
  | None => ret None
  | Some i =>
      let* fd := get_g g_input_fd in
      let* r := sys (SysRead fd ONE_REQUEST_REGION_SIZE) in
      upd_bi i (fun b => set_bi_region
        (r_bytes r ++ drop (length (r_bytes r)) (bi_region b)) b) ;;;
      let* b := get_bi i in
      if (r_ret r <? MT_REQUEST_BASE_SIZE)
         || (ONE_REQUEST_REGION_SIZE <? rq_size (get_request_base (bi_region b))) then
        if r_ret r =? 0 then ret (Some rc) else ret (Some EINVAL)
      else
        let* (rc, thread, more) := assign_work_to_thread fuel i in
        if truth rc then ret None
        else
          when more (with_worker thread (fun k =>
            upd_ti k (fun t => set_ti_awaiting_work_sem (ti_awaiting_work_sem t + 1) t))) ;;;
          ret None
  end.

Fixpoint message_dispatcher (iterations fuel : nat) : ins_m W Z :=
  match iterations with
  | O => out_of_fuel
  | S n =>
      let* res := dispatch_one fuel in
      match res with
      | Some rc => ret rc
      | None => message_dispatcher n fuel
      end
  end.

(** One iteration of heartbeat_thread_func(): [true] while it runs. *)
Definition heartbeat_iteration : ins_m W bool :=
  let* g := get_g id in
  if g_shutdown_pending g then ret false
  else
    sys (SysIoctlHeartbeat (g_input_fd g) (snprintf INS_NETWORK_STATS_MAX_LEN (heartbeat_text g))) ;;;
    ret true.

(** ** Start and end *)

Definition zero_thread (i : nat) (wq : workqueue) : thread_item :=
  {| ti_in_use := 0; ti_idx := Z.of_nat i; ti_awaiting_work_sem := 0; ti_oplock := 1;
     ti_oplock_acquired := false; ti_work_queue := wq; ti_public_fd := 0; ti_poll_events := 0;
     ti_state_flags := 0; ti_local_fd := 0; ti_sock_domain := 0; ti_sock_type := 0;
     ti_sock_protocol := 0; ti_bound_port_num := 0; ti_remote_host := replicate payload_len 0 |}.

Definition zero_buffer (i : nat) : buffer_item :=
  {| bi_in_use := 0; bi_assigned_thread := None;
     bi_offset := ONE_REQUEST_REGION_SIZE * Z.of_nat i;
     bi_region := replicate (Z.to_nat ONE_REQUEST_REGION_SIZE) 0; bi_idx := Z.of_nat i |}.

(** The thread array, when every queue could be allocated; [memory] is
    what the allocator returns for a queue. *)
Fixpoint init_threads (n i : nat) (memory : nat -> list Z) (alloc_ok : nat -> bool)
    : option (list thread_item) :=
  match n with
  | O => Some []
  | S n' =>
      match workqueue_alloc (Z.of_nat i) BUFFER_ITEM_COUNT (memory i) (alloc_ok i) true,
            init_threads n' (S i) memory alloc_ok with
      | Some wq, Some ts => Some (zero_thread i wq :: ts)
      | _, _ => None
      end
  end.

Definition zero_globals (threads : list thread_item) : xenevent_globals :=
  {| g_curr_buffer_idx := 0; g_buffer_items := map zero_buffer (seq 0 BUFFER_ITEM_COUNT);
     g_worker_threads := threads; g_shutdown_pending := false; g_input_fd := 0; g_output_fd := 0;
     g_client_id := 0; g_stats_socket_ct := 0; g_stats_bytes_recv := 0; g_stats_bytes_sent := 0;
     g_pending_port_change := false; g_so_sndbuf := 0; g_so_rcvbuf := 0; g_so_sndtimeo := (0, 0);
     g_so_rcvtimeo := (0, 0) |}.

Definition open_device : ins_m W Z :=
  let* r := sys SysOpenDevice in
  upd_g (set_g_input_fd (r_ret r)) ;;;
  if r_ret r <? 0 then get_errno
  else upd_g (set_g_output_fd (r_ret r)) ;;; ret 0.

(** Thread creation: stops at the first failure. *)
Fixpoint start_threads (n i : nat) : ins_m W Z :=
  match n with
  | O => ret 0
  | S n' =>
      let* r := sys (SysThreadCreate i) in
      if truth (r_ret r) then ret (r_ret r) else start_threads n' (S i)
  end.

(** The heartbeat thread is created last, as number [MAX_THREAD_COUNT].
    xe_net_init() returns 0 in the default build. *)
Definition init_state (memory : nat -> list Z) (alloc_ok : nat -> bool) : ins_m W Z :=
  match init_threads MAX_THREAD_COUNT 0 memory alloc_ok with
  | None => ret ENOMEM
  | Some threads =>
      upd_g (fun _ => zero_globals threads) ;;;
      let* rc := open_device in
      if truth rc then ret rc
      else
        let* fd := get_g g_input_fd in
        let* r := sys (SysIoctlDomid fd) in
        upd_g (set_g_client_id (u16 (le_value (take 2 (r_bytes r))))) ;;;
        if truth (r_ret r) then ret (r_ret r)
        else start_threads (MAX_THREAD_COUNT + 1) 0
  end.

Fixpoint stop_threads (n i : nat) : ins_m W unit :=
  match n with
  | O => ret tt
  | S n' =>
      upd_ti i (fun t => set_ti_awaiting_work_sem (ti_awaiting_work_sem t + 1) t) ;;;
      sys (SysThreadJoin i) ;;;
      stop_threads n' (S i)
  end.

Definition fini_state : ins_m W Z :=
  upd_g (set_g_shutdown_pending true) ;;;
  stop_threads MAX_THREAD_COUNT 0 ;;;
  sys (SysThreadJoin MAX_THREAD_COUNT) ;;;
  let* fd := get_g g_input_fd in
  when (0 <? fd) (sys (SysClose fd) ;;; ret tt) ;;;
  ret 0.

End Dispatcher.
