(* ===== verification/DispatcherInv.v ===== *)
(** * DispatcherInv: the invariant of the INS dispatcher

    What holds between two iterations of the dispatcher and of the
    workers: array sizes and positions, the flags of threads and buffers,
    the lock and the semaphore of a thread against its queue, and the
    buffers named in the queues. [disp] adds the queues and the
    responses written so far, so that the rules here, one per operation
    of xenevent.c, compose with [keeps]. *)

From stdpp Require Import base numbers list.
From Stdlib Require Import ZArith Lia.
From S2P Require Import Prelude MwSocket MessageTypes MwErrno Translate WorkQueue InsState InsFacts Pollset Networking NetworkingFacts Dispatcher.

(** ** The invariant *)

(** A request that process_buffer_item() can run for this worker. *)
Definition proc_ok (region : list Z) (worker : option nat) : Prop :=
  request_safe region = true
  /\ rq_size (get_request_base region) <= ONE_REQUEST_REGION_SIZE
  /\ exists ty, request_type_of (rq_type (get_request_base region)) = Some ty
     /\ match ty with
        | MtRequestInvalid => False
        | MtRequestPollsetQuery => True
        | _ => exists k, worker = Some k /\ (k < MAX_THREAD_COUNT)%nat
        end.

(** [pending] is 1 between the enqueue of an item and the post of the
    semaphore. A shutdown posts every semaphore once more. *)
Record thread_wf (down : bool) (pending : Z) (i : nat) (t : thread_item) : Prop := {
  tw_idx : ti_idx t = Z.of_nat i;
  tw_in_use : ti_in_use t = 0 \/ ti_in_use t = 1;
  tw_lock : ti_oplock t = if ti_oplock_acquired t then 0 else 1;
  tw_queue : wq_inv (ti_work_queue t);
  tw_cap : wq_item_ct (ti_work_queue t) = BUFFER_ITEM_COUNT;
  tw_nodup : NoDup (wq_abs (ti_work_queue t));
  tw_sem : down = false ->
    ti_awaiting_work_sem t + pending = Z.of_nat (length (wq_abs (ti_work_queue t)))
}.

Record buffer_wf (i : nat) (b : buffer_item) : Prop := {
  bw_idx : bi_idx b = Z.of_nat i;
  bw_in_use : bi_in_use b = 0 \/ bi_in_use b = 1;
  bw_region : Z.of_nat (length (bi_region b)) = ONE_REQUEST_REGION_SIZE;
  bw_thread : forall k, bi_assigned_thread b = Some k -> (k < MAX_THREAD_COUNT)%nat
}.

(** A buffer that waits in the queue of thread [k]. *)
Definition queued_for (k : nat) (b : buffer_item) : Prop :=
  bi_in_use b = 1 /\ bi_assigned_thread b = Some k /\ proc_ok (bi_region b) (Some k).

Definition pending_at (p : option nat) (i : nat) : Z :=
  if decide (p = Some i) then 1 else 0.

Abbreviation threads_of s := (g_worker_threads (st_g s)).
Abbreviation buffers_of s := (g_buffer_items (st_g s)).

Record ins_inv {W} (p : option nat) (s : ins_state W) : Prop := {
  iv_threads : length (threads_of s) = MAX_THREAD_COUNT;
  iv_buffers : length (buffers_of s) = BUFFER_ITEM_COUNT;
  iv_client : in_u 16 (g_client_id (st_g s));
  iv_thread : forall i t, threads_of s !! i = Some t ->
    thread_wf (g_shutdown_pending (st_g s)) (pending_at p i) i t;
  iv_buffer : forall i b, buffers_of s !! i = Some b -> buffer_wf i b;
  iv_queued : forall k t x, threads_of s !! k = Some t -> x ∈ wq_abs (ti_work_queue t) ->
    exists i b, x = Z.of_nat i /\ buffers_of s !! i = Some b /\ queued_for k b
}.

Definition queues_of {W} (s : ins_state W) : list workqueue := ti_work_queue <$> threads_of s.

(** Buffer [i] is in no queue. *)
Definition unqueued (qs : list workqueue) (i : nat) : Prop :=
  forall k q, qs !! k = Some q -> Z.of_nat i ∉ wq_abs q.

Record disp {W} (p : option nat) (qs : list workqueue) (rs : list (mt_response * Z))
    (s : ins_state W) : Prop := {
  dp_inv : ins_inv p s;
  dp_queues : queues_of s = qs;
  dp_responses : responses_of (st_trace s) = rs
}.

(** ** Closure under the handlers' frame *)

Lemma thread_core_eq t t0 :
  thread_core t = thread_core t0 ->
  ti_in_use t = ti_in_use t0 /\ ti_idx t = ti_idx t0
  /\ ti_awaiting_work_sem t = ti_awaiting_work_sem t0 /\ ti_oplock t = ti_oplock t0
  /\ ti_oplock_acquired t = ti_oplock_acquired t0 /\ ti_work_queue t = ti_work_queue t0.
Proof. unfold thread_core. intros [=]. auto 10. Qed.

Lemma thread_wf_core down p i t t0 :
  thread_core t = thread_core t0 -> thread_wf down p i t0 -> thread_wf down p i t.
Proof.
  intros (E1 & E2 & E3 & E4 & E5 & E6)%thread_core_eq [? ? ? ? ? ? ?].
  split; rewrite ?E1, ?E2, ?E3, ?E4, ?E5, ?E6; auto.
Qed.

Lemma handler_frame_queues {W} (s0 s : ins_state W) :
  handler_frame s0 s -> queues_of s = queues_of s0.
Proof.
  intros [H _ _ _]. unfold queues_of.
  assert (forall l : list thread_item, ti_work_queue <$> l = snd <$> map thread_core l) as E.
  { induction l; simpl; [done|]. by f_equal. }
  by rewrite !E, H.
Qed.

Lemma ins_inv_frame {W} p (s0 s : ins_state W) :
  handler_frame s0 s -> ins_inv p s0 -> ins_inv p s.
Proof.
  intros HF [H1 H2 H3 H4 H5 H6].
  pose proof (handler_frame_length _ _ HF) as Hlen.
  pose proof HF as [_ Hb Hcfg _]. unfold g_config in Hcfg. injection Hcfg as Hc _ _ Hd.
  split; rewrite ?Hb, ?Hc, ?Hd; try congruence; auto.
  - intros i t Ht. destruct (handler_frame_thread _ _ _ _ HF Ht) as (t0 & Ht0 & Ec).
    eapply thread_wf_core; eauto.
  - intros k t x Ht Hx. destruct (handler_frame_thread _ _ _ _ HF Ht) as (t0 & Ht0 & Ec).
    apply thread_core_eq in Ec as (_ & _ & _ & _ & _ & E). rewrite E in Hx. eauto.
Qed.

Lemma disp_frame {W} p qs rs (s0 s : ins_state W) :
  handler_frame s0 s -> disp p qs rs s0 -> disp p qs rs s.
Proof.
  intros HF [Hi Hq Hr]. split.
  - by eapply ins_inv_frame.
  - by rewrite (handler_frame_queues _ _ HF).
  - destruct HF as [_ _ _ ->]. done.
Qed.

Lemma keeps_disp_frame {W A} p qs rs (m : ins_m W A) Phi :
  (forall s0, disp p qs rs s0 -> keeps (handler_frame s0) m Phi) -> keeps (disp p qs rs) m Phi.
Proof.
  intros H s Hs. specialize (H s Hs s (handler_frame_refl s)).
  destruct (m s) as [[a s']| | |]; auto. destruct H as [HF HP].
  split; [by eapply disp_frame|done].
Qed.

(** ** Updates of one element *)

Definition put_buffer {W} (i : nat) (b : buffer_item) (s : ins_state W) : ins_state W :=
  set_st_g (set_g_buffer_items (<[i := b]> (buffers_of s)) (st_g s)) s.

Definition put_thread {W} (i : nat) (t : thread_item) (s : ins_state W) : ins_state W :=
  set_st_g (set_g_worker_threads (<[i := t]> (threads_of s)) (st_g s)) s.

Lemma unqueued_thread {W} (s : ins_state W) i k t :
  unqueued (queues_of s) i -> threads_of s !! k = Some t -> Z.of_nat i ∉ wq_abs (ti_work_queue t).
Proof. intros H Ht. apply (H k). unfold queues_of. by rewrite list_lookup_fmap, Ht. Qed.

Lemma ins_inv_put_buffer {W} p (s : ins_state W) i b :
  ins_inv p s -> buffer_wf i b -> unqueued (queues_of s) i -> ins_inv p (put_buffer i b s).
Proof.
  intros [H1 H2 H3 H4 H5 H6] Hb Hu. split; simpl; auto.
  - by rewrite length_insert.
  - intros j c Hc. apply lookup_insert_cases in Hc as [(<- & _ & ->)|(Hne & Hc)]; auto.
  - intros k t x Ht Hx. destruct (H6 k t x Ht Hx) as (j & c & -> & Hc & Hq).
    exists j, c. split; [done|]. rewrite list_lookup_insert_ne; [done|].
    intros <-. by eapply unqueued_thread.
Qed.

Lemma disp_put_buffer {W} p qs rs (s : ins_state W) i b :
  disp p qs rs s -> buffer_wf i b -> unqueued qs i -> disp p qs rs (put_buffer i b s).
Proof.
  intros [Hi Hq Hr] Hb Hu. split; auto. apply ins_inv_put_buffer; auto. by rewrite Hq.
Qed.

(** A thread whose queue names buffers queued for it. *)
Definition queue_good {W} (s : ins_state W) (k : nat) (q : workqueue) : Prop :=
  forall x, x ∈ wq_abs q ->
  exists i b, x = Z.of_nat i /\ buffers_of s !! i = Some b /\ queued_for k b.

Lemma ins_inv_put_thread {W} p p' (s : ins_state W) k t :
  ins_inv p s -> thread_wf (g_shutdown_pending (st_g s)) (pending_at p' k) k t ->
  (forall j, j <> k -> pending_at p' j = pending_at p j) ->
  queue_good s k (ti_work_queue t) ->
  ins_inv p' (put_thread k t s).
Proof.
  intros [H1 H2 H3 H4 H5 H6] Ht Hp Hq. split; simpl; auto.
  - by rewrite length_insert.
  - intros j c Hc. apply lookup_insert_cases in Hc as [(<- & _ & ->)|(Hne & Hc)]; auto.
    rewrite Hp by auto. auto.
  - intros j c x Hc Hx. apply lookup_insert_cases in Hc as [(<- & _ & ->)|(Hne & Hc)]; eauto.
Qed.

Lemma ins_inv_queue_good {W} p (s : ins_state W) k t :
  ins_inv p s -> threads_of s !! k = Some t -> queue_good s k (ti_work_queue t).
Proof. intros H Ht x Hx. eapply iv_queued; eauto. Qed.

Lemma disp_put_thread {W} p qs rs (s : ins_state W) k t0 t :
  disp p qs rs s -> threads_of s !! k = Some t0 ->
  thread_wf (g_shutdown_pending (st_g s)) (pending_at p k) k t ->
  ti_work_queue t = ti_work_queue t0 ->
  disp p qs rs (put_thread k t s).
Proof.
  intros [Hi Hq Hr] Ht0 Ht E. split; auto.
  - eapply ins_inv_put_thread; eauto. rewrite E. by eapply ins_inv_queue_good.
  - rewrite <- Hq. unfold queues_of, put_thread; simpl. rewrite list_fmap_insert, E.
    apply list_insert_id. by rewrite list_lookup_fmap, Ht0.
Qed.

(** ** Rules *)

Section DispRules.

Context {W : Type} {OS : NetOS W} (p : option nat) (qs : list workqueue)
  (rs : list (mt_response * Z)).

Abbreviation P := (@disp W p qs rs).

Lemma disp_thread (s : ins_state W) k :
  P s -> (k < MAX_THREAD_COUNT)%nat -> exists t, threads_of s !! k = Some t
    /\ thread_wf (g_shutdown_pending (st_g s)) (pending_at p k) k t.
Proof.
  intros [Hi _ _] Hk. destruct (lookup_lt_is_Some_2 (threads_of s) k) as [t Ht].
  - by rewrite (iv_threads _ _ Hi).
  - exists t. split; [done|]. by apply (iv_thread _ _ Hi).
Qed.

Lemma disp_buffer (s : ins_state W) i :
  P s -> (i < BUFFER_ITEM_COUNT)%nat -> exists b, buffers_of s !! i = Some b /\ buffer_wf i b.
Proof.
  intros [Hi _ _] Hk. destruct (lookup_lt_is_Some_2 (buffers_of s) i) as [b Hb].
  - by rewrite (iv_buffers _ _ Hi).
  - exists b. split; [done|]. by apply (iv_buffer _ _ Hi).
Qed.

Lemma disp_get_ti k :
  (k < MAX_THREAD_COUNT)%nat ->
  keeps P (get_ti k) (fun t => ti_idx t = Z.of_nat k /\ (ti_in_use t = 0 \/ ti_in_use t = 1)).
Proof.
  intros Hk s Hs. destruct (disp_thread s k Hs Hk) as (t & Ht & [? ? _ _ _ _ _]).
  unfold get_ti. rewrite Ht. auto.
Qed.

Lemma disp_upd_ti k f :
  (k < MAX_THREAD_COUNT)%nat ->
  (forall down t, thread_wf down (pending_at p k) k t ->
     thread_wf down (pending_at p k) k (f t) /\ ti_work_queue (f t) = ti_work_queue t) ->
  keeps P (upd_ti k f) (fun _ => True).
Proof.
  intros Hk Hf s Hs. destruct (disp_thread s k Hs Hk) as (t & Ht & Hw).
  unfold upd_ti. rewrite Ht. destruct (Hf _ _ Hw). split; [|done].
  eapply (disp_put_thread p qs rs s k t (f t)); eauto.
Qed.

Lemma disp_get_bi i :
  (i < BUFFER_ITEM_COUNT)%nat -> keeps P (get_bi i) (buffer_wf i).
Proof.
  intros Hk s Hs. destruct (disp_buffer s i Hs Hk) as (b & Hb & Hw).
  unfold get_bi. rewrite Hb. auto.
Qed.

Lemma disp_upd_bi i f :
  (i < BUFFER_ITEM_COUNT)%nat -> unqueued qs i ->
  (forall b, buffer_wf i b -> buffer_wf i (f b)) -> keeps P (upd_bi i f) (fun _ => True).
Proof.
  intros Hk Hu Hf s Hs. destruct (disp_buffer s i Hs Hk) as (b & Hb & Hw).
  unfold upd_bi. rewrite Hb. split; [|done].
  apply (disp_put_buffer p qs rs s i (f b)); auto.
Qed.

(** An item that is not in use is in no queue. *)
Lemma disp_free_unqueued (s : ins_state W) i b :
  P s -> buffers_of s !! i = Some b -> bi_in_use b = 0 -> unqueued qs i.
Proof.
  intros [Hi Hq _] Hb H0 k q Hk Hin. rewrite <- Hq in Hk. unfold queues_of in Hk.
  rewrite list_lookup_fmap in Hk. destruct (threads_of s !! k) as [t|] eqn:Ht; [|discriminate].
  injection Hk as <-. destruct (iv_queued _ _ Hi k t _ Ht Hin) as (j & c & Hj & Hc & Hu & _).
  apply Nat2Z.inj in Hj as <-. congruence.
Qed.

Lemma disp_sys c : is_write c = false -> keeps P (sys c) (fun r => exists w, r = fst (os_call c w)).
Proof. intros H. apply keeps_disp_frame. intros s0 _. by apply keeps_sys. Qed.

Lemma disp_get_g {A} (f : xenevent_globals -> A) : keeps P (get_g f) (fun _ => True).
Proof. by apply keeps_gets. Qed.

Lemma disp_upd_g f :
  (forall g, g_worker_threads (f g) = g_worker_threads g /\ g_buffer_items (f g) = g_buffer_items g
     /\ g_config (f g) = g_config g) ->
  keeps P (upd_g f) (fun _ => True).
Proof. intros H. apply keeps_disp_frame. intros s0 _. by apply keeps_upd_g. Qed.

End DispRules.
