(* ===== verification/DispatcherFacts.v ===== *)
(** * DispatcherFacts: the operations of xenevent.c against the invariant

    One rule per operation, from the reservation of a buffer item to the
    processing of a request: no access outside an array, the invariant
    kept, the queues unchanged, and for process_buffer_item() exactly one
    response written, which answers its request when the return code is 0. *)

From stdpp Require Import base numbers list.
From Stdlib Require Import ZArith Lia.
From S2P Require Import Prelude MwSocket MessageTypes MwErrno Translate WorkQueue InsState InsFacts Pollset Networking NetworkingFacts Dispatcher DispatcherInv.

(** A change outside the bookkeeping of a thread. *)
Lemma thread_wf_upd f p k :
  (forall t, thread_core (f t) = thread_core t) ->
  forall down t, thread_wf down p k t ->
    thread_wf down p k (f t) /\ ti_work_queue (f t) = ti_work_queue t.
Proof.
  intros Hf down t Hw. split; [apply (thread_wf_core _ _ _ _ t); auto|].
  pose proof (thread_core_eq _ _ (Hf t)). tauto.
Qed.

Section Ops.

Context {W : Type} {OS : NetOS W} {Laws : NetOSLaws W} (p : option nat) (qs : list workqueue)
  (rs : list (mt_response * Z)).

Abbreviation P := (@disp W p qs rs).

(** ** Buffer items *)

Lemma disp_cas_buffer i new :
  (i < BUFFER_ITEM_COUNT)%nat -> new = 0 \/ new = 1 ->
  keeps P (cas_buffer_in_use i 0 new) (fun prev => prev = 0 -> unqueued qs i).
Proof.
  intros Hi Hn s Hs. destruct (disp_buffer _ _ _ s i Hs Hi) as (b & Hb & Hw).
  unfold cas_buffer_in_use, get_bi, upd_bi, bind, obind, ret. rewrite Hb.
  destruct (Z.eqb_spec (bi_in_use b) 0) as [E|E].
  - rewrite Hb. pose proof (disp_free_unqueued _ _ _ s i b Hs Hb E) as Hu. split; [|done].
    apply (disp_put_buffer p qs rs s i _ Hs); [|done]. by destruct Hw.
  - done.
Qed.

Lemma disp_reserve_scan n i :
  (i + n <= BUFFER_ITEM_COUNT)%nat ->
  keeps P (reserve_scan n i) (fun r => r = (EBUSY, None) \/ exists j, r = (0, Some j)
    /\ (j < BUFFER_ITEM_COUNT)%nat /\ unqueued qs j).
Proof.
  revert i. induction n as [|n IH]; intros i Hi; simpl; [by apply keeps_ret; left|].
  eapply keeps_bind; [apply disp_cas_buffer; [lia|auto]|]. intros prev Hprev. cbn beta in Hprev.
  cond; zbool.
  - apply keeps_ret. right. exists i. split; [done|]. split; [lia|auto].
  - apply IH. lia.
Qed.

Lemma disp_release_buffer i :
  (i < BUFFER_ITEM_COUNT)%nat -> unqueued qs i -> keeps P (release_buffer_item i) (fun _ => True).
Proof.
  intros Hi Hu. unfold release_buffer_item, cas_buffer_in_use.
  eapply keeps_bind with (Psi := fun _ => True).
  - eapply keeps_bind; [by apply disp_get_bi|]. intros b [_ Hb _ _]. cond; [|by apply keeps_ret].
    keeps_step; [|by apply keeps_ret]. apply disp_upd_bi; [done..|].
    intros c []. split; simpl; auto.
  - intros prev _. apply keeps_when. intros _. apply disp_upd_bi; [done..|].
    intros c []. split; simpl; auto. discriminate.
Qed.

(** ** Worker threads *)

Lemma disp_cas_thread k old new :
  (k < MAX_THREAD_COUNT)%nat -> new = 0 \/ new = 1 ->
  keeps P (cas_thread_in_use k old new) (fun _ => True).
Proof.
  intros Hk Hn. unfold cas_thread_in_use. eapply keeps_bind; [by apply disp_get_ti|].
  intros t _. cond; [|by apply keeps_ret]. keeps_step; [|by apply keeps_ret].
  apply disp_upd_ti; [done|]. intros down c []. split; [|done]. by split.
Qed.

Lemma disp_free_thread_scan n i :
  (i + n <= MAX_THREAD_COUNT)%nat ->
  keeps P (free_thread_scan n i) (fun r => r = (EBUSY, None) \/ exists j, r = (0, Some j)
    /\ (j < MAX_THREAD_COUNT)%nat).
Proof.
  revert i. induction n as [|n IH]; intros i Hi; simpl; [by apply keeps_ret; left|].
  eapply keeps_bind; [apply disp_cas_thread; [lia|auto]|]. intros prev _. cond; zbool.
  - apply keeps_ret. right. exists i. split; [done|lia].
  - apply IH. lia.
Qed.

(** The descriptors the lookup is safe for. *)
Definition fd_sane (fd : Z) : Prop :=
  fd = MT_INVALID_SOCKET_FD \/ 0 <= s32 (MW_SOCKET_GET_ID fd).

Definition lookup_result (r : Z * option nat) : Prop :=
  (fst r <> 0 /\ snd r = None)
  \/ (fst r = 0 /\ exists k, snd r = Some k /\ (k < MAX_THREAD_COUNT)%nat).

#[local] Arguments free_thread_scan : simpl never.

Lemma disp_get_worker fd :
  fd_sane fd -> keeps P (get_worker_thread_for_fd fd) lookup_result.
Proof.
  intros Hfd. unfold get_worker_thread_for_fd, lookup_result.
  destruct (Z.eqb_spec MT_INVALID_SOCKET_FD fd) as [<-|Hne].
  - eapply keeps_weaken; [by apply disp_free_thread_scan|].
    intros r [->|(j & -> & Hj)]; simpl; [by left|right; eauto].
  - cond; zbool; [by apply keeps_ret; left|]. destruct (_ <? 0) eqn:E; zbool.
    { destruct Hfd; [congruence|lia]. }
    assert (Z.to_nat (s32 (MW_SOCKET_GET_ID fd)) < MAX_THREAD_COUNT)%nat by lia.
    eapply keeps_bind; [by apply disp_get_ti|]. intros t _.
    repeat (cond; [by apply keeps_ret; left|]). apply keeps_ret. right. eauto.
Qed.

Lemma disp_release_thread k :
  (k < MAX_THREAD_COUNT)%nat -> keeps P (release_worker_thread k) (fun _ => True).
Proof.
  intros Hk. unfold release_worker_thread. keeps_step.
  { apply keeps_disp_frame. intros s0 H0. apply keeps_internal_close.
    by rewrite (iv_threads _ _ (dp_inv _ _ _ _ H0)). }
  keeps_step; [by apply disp_upd_ti, thread_wf_upd|].
  keeps_step; [by apply disp_cas_thread; auto|]. by apply keeps_ret.
Qed.

(** ** Responses *)

Lemma write_response_spec resp :
  hoare P (write_response resp) (fun _ s => disp p qs (rs ++ [(resp, rs_size resp)]) s).
Proof.
  intros s [Hi Hq Hr]. unfold write_response, get_g, gets, bind, obind, sys.
  destruct (os_call _ _) as [r w]. cbn beta iota.
  assert (forall e, disp p qs (rs ++ [(resp, rs_size resp)])
    {| st_g := st_g s; st_ps := st_ps s; st_errno := e; st_world := w;
       st_trace := st_trace s ++ [SysWrite (g_output_fd (st_g s)) resp (rs_size resp)] |}) as Hd.
  { intros e. split; simpl; [|done|by rewrite responses_of_app, Hr].
    destruct Hi. by split. }
  destruct (negb _); apply Hd.
Qed.

Lemma disp_update_listening_ports : keeps P update_listening_ports (fun _ => True).
Proof.
  apply keeps_disp_frame. intros s0 H0. unfold update_listening_ports. keeps_solve.
Qed.

(** The part of a response that post_process_response() keeps. *)
Definition response_head (r : mt_response) :=
  (rs_sig r, rs_type r, rs_size r, rs_id r, rs_body r).

Lemma response_for_head base r r' :
  response_head r' = response_head r -> response_for base r -> response_for base r'.
Proof. unfold response_head, response_for. intros [= -> -> -> -> _]. auto. Qed.

Definition worker_ok (worker : option nat) : Prop :=
  forall k, worker = Some k -> (k < MAX_THREAD_COUNT)%nat.

Lemma disp_post_process base resp worker :
  worker_ok worker ->
  keeps P (post_process_response base resp worker)
    (fun r => response_head (snd r) = response_head resp).
Proof.
  intros Hk. unfold post_process_response.
  eapply keeps_bind with (Psi := fun r => response_head r = response_head resp).
  { destruct worker as [k|]; [|by apply keeps_ret].
    eapply keeps_bind; [by apply disp_get_ti, Hk|]. intros t _. by apply keeps_ret. }
  intros resp1 H1. eapply keeps_bind with (Psi := fun r => response_head r = response_head resp).
  { cond; [|by apply keeps_ret].
    eapply keeps_bind; [by apply disp_get_worker; left|].
    intros [rc [a|]] Ha.
    - destruct Ha as [[_ ?]|[_ (k & [= ->] & Hka)]]; [discriminate|].
      keeps_step; [apply disp_get_g|].
      eapply keeps_bind; [by apply disp_get_ti|]. intros t _. cbn zeta.
      keeps_step; [by apply disp_upd_ti, thread_wf_upd|]. by apply keeps_ret.
    - eapply keeps_bind; [by apply disp_sys|]. intros r _. by apply keeps_ret. }
  intros resp2 H2. keeps_step; [apply disp_update_listening_ports|]. by apply keeps_ret.
Qed.

(** ** Processing *)

Lemma disp_run_handler fuel region worker resp :
  proc_ok region worker ->
  keeps P (run_handler fuel region worker resp) (handler_post (get_request_base region)).
Proof.
  intros (Hs & Hz & ty & Ht & Hk). apply keeps_disp_frame. intros s0 H0.
  pose proof (iv_threads _ _ (dp_inv _ _ _ _ H0)) as Hl.
  unfold run_handler. rewrite Ht.
  destruct ty; try contradiction; try (destruct Hk as (k & -> & Hk); rewrite <- Hl in Hk; cbn [with_worker]).
  all: first [ by apply keeps_create | by apply keeps_shutdown | by apply keeps_close
    | by apply keeps_connect | by apply keeps_send | by apply keeps_bind_socket
    | by apply keeps_listen | by apply keeps_accept | by apply keeps_recv
    | by apply keeps_recvfrom | by apply keeps_get_name; auto | by apply keeps_attrib
    | by apply keeps_addr_block
    | apply keeps_pollset_query; [done|]; unfold unanswered_type; by rewrite Ht ].
Qed.

Lemma disp_release_oplock worker :
  worker_ok worker -> keeps P (release_oplock worker) (fun _ => True).
Proof.
  intros Hk. destruct worker as [k|]; [|by apply keeps_ret]. specialize (Hk k eq_refl).
  intros s Hs. destruct (disp_thread _ _ _ s k Hs Hk) as (t & Ht & Hw).
  unfold release_oplock, sem_post_oplock, get_ti, bind, obind, when. rewrite Ht.
  destruct (ti_oplock_acquired t) eqn:Ha; [|done].
  unfold upd_ti. rewrite Ht. simpl. rewrite list_lookup_insert_eq by (by eapply lookup_lt_Some).
  rewrite list_insert_insert_eq. split; [|done].
  apply (disp_put_thread p qs rs s k t _ Hs Ht); [|done].
  destruct Hw as [? ? Hl ? ? ? ?]. rewrite Ha in Hl. split; simpl; auto. lia.
Qed.

(** A request that frees its worker has one. *)
Lemma proc_ok_releases region worker status :
  proc_ok region worker ->
  releases_worker (rq_type (get_request_base region)) status = true ->
  exists k, worker = Some k /\ (k < MAX_THREAD_COUNT)%nat.
Proof.
  intros (_ & _ & ty & Ht & Hk) Hr. apply request_type_of_inv in Ht. rewrite <- Ht in Hr.
  by destruct ty.
Qed.

End Ops.

#[export] Hint Resolve disp_get_g disp_release_buffer disp_release_thread : mw.

Section Process.

Context {W : Type} {OS : NetOS W} {Laws : NetOSLaws W} (p : option nat) (qs : list workqueue)
  (rs : list (mt_response * Z)).

(** What the processing of a request leaves: one response more, and it
    answers the request unless the handler failed early. *)
Definition answered (base : mt_request_base) (rc : Z) (s : ins_state W) : Prop :=
  exists resp, disp p qs (rs ++ [(resp, rs_size resp)]) s /\ handler_post base (rc, resp).

(** After the response: the buffer and perhaps the worker are released. *)
Lemma disp_process_tail i region worker status rs' (rc : Z) :
  (i < BUFFER_ITEM_COUNT)%nat -> unqueued qs i -> proc_ok region worker ->
  keeps (@disp W p qs rs')
    (release_buffer_item i ;;;
     when (releases_worker (rq_type (get_request_base region)) status)
       (with_worker worker release_worker_thread) ;;;
     ret rc) (fun r => r = rc).
Proof.
  intros Hi Hu Hp. keeps_step; [auto with mw|]. keeps_step; [|by apply keeps_ret].
  apply keeps_when. intros Hr. destruct (proc_ok_releases _ _ _ Hp Hr) as (k & -> & Hk).
  by apply disp_release_thread.
Qed.

Lemma process_spec fuel i region worker :
  (i < BUFFER_ITEM_COUNT)%nat -> unqueued qs i -> proc_ok region worker -> worker_ok worker ->
  hoare (fun s => disp p qs rs s /\ exists b, buffers_of s !! i = Some b
           /\ bi_region b = region /\ bi_assigned_thread b = worker)
    (process_buffer_item fuel i) (answered (get_request_base region)).
Proof.
  intros Hi Hu Hp Hk. unfold process_buffer_item.
  eapply hoare_bind with (R := fun b s => disp p qs rs s /\ bi_region b = region
    /\ bi_assigned_thread b = worker).
  { intros s (Hs & b & Hb & Hr & Hw). unfold get_bi. by rewrite Hb. }
  intros b s (Hs & Hr & Hw). rewrite Hr, Hw. cbn zeta. revert s Hs.
  eapply hoare_bind; [by apply disp_run_handler|]. intros [rc0 resp0].
  eapply hoare_bind with (R := fun _ s => disp p qs rs s
    /\ handler_post (get_request_base region) (rc0, resp0)).
  { intros s [Hs H0]. pose proof (disp_release_oplock p qs rs worker Hk s Hs) as HR.
    destruct (release_oplock worker s) as [[]| | |]; simpl in *; try tauto. }
  intros _ s [Hs Hpost]. revert s Hs.
  eapply hoare_bind; [by apply disp_post_process|]. intros [rc1 resp1] s [Hs Hhd]. revert s Hs.
  eapply hoare_bind; [apply write_response_spec|]. intros werr.
  eapply hoare_conseq; [by apply (disp_process_tail i region worker)|intros s Hs; exact Hs|].
  intros rc s [Hs ->]. exists resp1. split; [done|]. simpl in Hhd.
  destruct Hpost as [Hpost|[Hrc Hu']]; [left; by apply (response_for_head _ resp0)|right].
  split; [|done]. simpl. destruct (truth werr) eqn:E; [by apply truth_nonzero|done].
Qed.

End Process.
