(* ===== verification/Ins.v ===== *)
(** * Ins: the INS application as a system of threads

    The dispatcher thread and the worker threads interleave by whole
    iterations ([ins_step]). The invariant of DispatcherInv holds in
    every state reachable from start-up, no step makes an undefined
    access, and a request read from the ring is answered or queued. *)

From stdpp Require Import base numbers list relations.
From Stdlib Require Import ZArith Lia.
From S2P Require Import Prelude MwSocket MessageTypes MwErrno Translate WorkQueue InsState InsFacts Pollset Networking NetworkingFacts Dispatcher DispatcherInv DispatcherFacts.

(** ** Operations that leave the buffer items alone *)

Definition bufs_fixed {W A} (m : ins_m W A) : Prop :=
  forall s a s', m s = Done (a, s') -> buffers_of s' = buffers_of s.

Section BufsFixed.

Context {W : Type} {OS : NetOS W}.

Lemma bufs_ret {A} (a : A) : bufs_fixed (ret a : ins_m W A).
Proof. by intros s b s' [= <- <-]. Qed.

Lemma bufs_bind {A B} (m : ins_m W A) (k : A -> ins_m W B) :
  bufs_fixed m -> (forall a, bufs_fixed (k a)) -> bufs_fixed (bind m k).
Proof.
  intros Hm Hk s b s'. unfold bind, obind. destruct (m s) as [[a s1]| | |] eqn:E; try discriminate.
  intros H. rewrite (Hk a _ _ _ H). eauto.
Qed.

Lemma bufs_get_ti k : bufs_fixed (get_ti k : ins_m W _).
Proof. intros s a s'. unfold get_ti. destruct (_ !! _); [|discriminate]. by intros [= <- <-]. Qed.

Lemma bufs_upd_ti k f : bufs_fixed (upd_ti k f : ins_m W _).
Proof. intros s a s'. unfold upd_ti. destruct (_ !! _); [|discriminate]. by intros [= <- <-]. Qed.

Lemma bufs_undef {A} : bufs_fixed (undef : ins_m W A).
Proof. by intros s a s'. Qed.

Lemma bufs_block {A} : bufs_fixed (block : ins_m W A).
Proof. by intros s a s'. Qed.

Ltac bufs := repeat first
  [ apply bufs_ret | apply bufs_get_ti | apply bufs_upd_ti | apply bufs_undef | apply bufs_block
  | apply bufs_bind; [|intros] | progress cbn zeta
  | match goal with
    | |- bufs_fixed (if ?b then _ else _) => destruct b
    | |- bufs_fixed (let (_, _) := ?x in _) => destruct x
    end ].

Lemma bufs_cas_thread k old new : bufs_fixed (cas_thread_in_use k old new : ins_m W _).
Proof. unfold cas_thread_in_use. bufs. Qed.

Lemma bufs_free_thread_scan n i : bufs_fixed (free_thread_scan n i : ins_m W _).
Proof.
  revert i. induction n as [|n IH]; intros i; simpl; [bufs|].
  apply bufs_bind; [apply bufs_cas_thread|]. intros prev. destruct (_ =? _); [bufs|apply IH].
Qed.

Lemma bufs_get_worker fd : bufs_fixed (get_worker_thread_for_fd fd : ins_m W _).
Proof.
  unfold get_worker_thread_for_fd. destruct (_ =? _); [apply bufs_free_thread_scan|bufs].
Qed.

Lemma bufs_select base : bufs_fixed (select_thread base : ins_m W _).
Proof.
  unfold select_thread. destruct (request_type_of _) as [[]|]; bufs; apply bufs_get_worker.
Qed.

Lemma bufs_acquire_oplock k : bufs_fixed (acquire_oplock k : ins_m W _).
Proof. unfold acquire_oplock, sem_wait_oplock. bufs. Qed.

(** A rule of the invariant with the buffers remembered. *)
Lemma keeps_bufs {A} (P : ins_state W -> Prop) (m : ins_m W A) Phi bs :
  bufs_fixed m -> keeps P m Phi -> keeps (fun s => P s /\ buffers_of s = bs) m Phi.
Proof.
  intros Hb H s [Hs <-]. specialize (H s Hs). specialize (Hb s).
  destruct (m s) as [[a s']| | |]; auto. destruct H. specialize (Hb a s' eq_refl). auto.
Qed.

End BufsFixed.

(** ** Selecting a thread *)

(** What the switch of assign_work_to_thread() leaves to be done. *)
Definition selected (base : mt_request_base) (r : Z * option nat * bool) : Prop :=
  let '(rc, th, now) := r in
  (rc <> 0 /\ th = None)
  \/ (rc = 0 /\ worker_ok th /\ exists ty, request_type_of (rq_type base) = Some ty
      /\ match ty with
         | MtRequestInvalid => False
         | MtRequestPollsetQuery => th = None /\ now = true
         | _ => exists k, th = Some k
         end).

Section Assign.

Context {W : Type} {OS : NetOS W} {Laws : NetOSLaws W}.

Section Rules.

Context (p : option nat) (qs : list workqueue) (rs : list (mt_response * Z)).

Abbreviation P := (@disp W p qs rs).

Lemma disp_lookup_selected base fd ty now :
  fd_sane fd -> request_type_of (rq_type base) = Some ty ->
  ty <> MtRequestInvalid -> ty <> MtRequestPollsetQuery ->
  keeps P (let* (rc, t) := get_worker_thread_for_fd fd in ret (rc, t, now)) (selected base).
Proof.
  intros Hfd Ht H1 H2. eapply keeps_bind; [by apply disp_get_worker|].
  intros [rc t] Hr. apply keeps_ret. unfold lookup_result, selected in *; simpl in *.
  destruct Hr as [?|[-> (k & -> & Hk)]]; [by left|]. right. split; [done|].
  split; [by intros j [= <-]|]. exists ty. split; [done|]. destruct ty; eauto; congruence.
Qed.

Lemma disp_select base : fd_sane (rq_sockfd base) -> keeps P (select_thread base) (selected base).
Proof.
  intros Hfd. unfold select_thread.
  assert (fd_sane MT_INVALID_SOCKET_FD) as Hinv by (by left).
  destruct (request_type_of (rq_type base)) as [[]|] eqn:Ht;
    try (eapply disp_lookup_selected; eauto; discriminate).
  all: apply keeps_ret; unfold selected.
  - left. by split.
  - right. split; [done|]. split; [by intros j|]. by exists MtRequestPollsetQuery.
  - left. by split.
Qed.

Lemma disp_acquire_oplock k :
  (k < MAX_THREAD_COUNT)%nat -> keeps P (acquire_oplock k) (fun _ => True).
Proof.
  intros Hk s Hs. destruct (disp_thread _ _ _ s k Hs Hk) as (t & Ht & Hw).
  unfold acquire_oplock, sem_wait_oplock, get_ti, bind, obind. rewrite Ht.
  destruct (ti_oplock t <=? 0) eqn:E; [done|]. zbool.
  unfold upd_ti. rewrite Ht. simpl. rewrite list_lookup_insert_eq by (by eapply lookup_lt_Some).
  rewrite list_insert_insert_eq. split; [|done].
  apply (disp_put_thread p qs rs s k t _ Hs Ht); [|done].
  destruct Hw as [? ? Hl ? ? ? ?]. split; simpl; auto.
  destruct (ti_oplock_acquired t); lia.
Qed.

End Rules.

(** ** Queueing *)

(** The indices in a queue are distinct buffers, so that a buffer outside
    of it always finds room. *)
Lemma queue_has_room (s : ins_state W) p qs rs k t i :
  disp p qs rs s -> threads_of s !! k = Some t -> (i < BUFFER_ITEM_COUNT)%nat -> unqueued qs i ->
  (length (wq_abs (ti_work_queue t)) < BUFFER_ITEM_COUNT)%nat.
Proof.
  intros [Hi Hq _] Ht Hlt Hu. pose proof (iv_thread _ _ Hi k t Ht) as Hw.
  assert (Z.of_nat i ∉ wq_abs (ti_work_queue t)) as Hni.
  { eapply (unqueued_thread s); [by rewrite Hq|done]. }
  assert (Z.of_nat i :: wq_abs (ti_work_queue t) ⊆+ Z.of_nat <$> seq 0 BUFFER_ITEM_COUNT) as Hsub.
  { apply NoDup_submseteq.
    - constructor; [done|]. apply (tw_nodup _ _ _ _ Hw).
    - intros x Hx. apply list_elem_of_fmap. apply elem_of_cons in Hx as [->|Hx].
      + exists i. split; [done|]. apply elem_of_seq. lia.
      + destruct (iv_queued _ _ Hi k t x Ht Hx) as (j & b & -> & Hb & _).
        exists j. split; [done|]. apply lookup_lt_Some in Hb. rewrite (iv_buffers _ _ Hi) in Hb.
        apply elem_of_seq. lia. }
  apply submseteq_length in Hsub. rewrite length_fmap, length_seq in Hsub.
  simpl in Hsub. lia.
Qed.

(** An item queued for thread [k]: the queue is longer by it, and the
    post of the semaphore is pending. *)
Definition queued_state (k i : nat) (region : list Z) (qs : list workqueue) rs (s : ins_state W)
    : Prop :=
  (exists b, buffers_of s !! i = Some b /\ bi_region b = region)
  /\ exists q q', qs !! k = Some q /\ wq_abs q' = wq_abs q ++ [Z.of_nat i]
     /\ disp (Some k) (<[k := q']> qs) rs s.

Lemma enqueue_spec k i b qs rs :
  (k < MAX_THREAD_COUNT)%nat -> (i < BUFFER_ITEM_COUNT)%nat -> unqueued qs i -> queued_for k b ->
  hoare (fun s => disp None qs rs s /\ buffers_of s !! i = Some b)
    (thread_enqueue k (Z.of_nat i))
    (fun rc s' => rc = 0 /\ queued_state k i (bi_region b) qs rs s').
Proof.
  intros Hk Hi Hu Hb s [Hs Hbi]. destruct (disp_thread _ _ _ s k Hs Hk) as (t & Ht & Hw).
  pose proof (queue_has_room s _ _ _ _ _ _ Hs Ht Hi Hu) as Hroom.
  pose proof (tw_queue _ _ _ _ Hw) as Hq. pose proof (tw_cap _ _ _ _ Hw) as Hcap.
  unfold thread_enqueue, get_ti, upd_ti, bind, obind. rewrite Ht.
  assert (in_s 16 (Z.of_nat i)) as Hr by (unfold in_s; change BUFFER_ITEM_COUNT with 100%nat in Hi; lia).
  destruct (workqueue_enq_spec (ti_work_queue t) (Z.of_nat i) Hq Hr) as (rc & q' & -> & Hq' & Hc' & Hs').
  rewrite decide_False in Hs' by lia. destruct Hs' as [-> Ha].
  rewrite Ht. split; [done|]. split; [by exists b|]. exists (ti_work_queue t), q'.
  pose proof Hs as [Hinv HQ HR]. split; [|split; [done|split; [|rewrite <- HQ|done]]].
  - rewrite <- HQ. unfold queues_of. by rewrite list_lookup_fmap, Ht.
  - apply (ins_inv_put_thread None (Some k) s k (set_ti_work_queue q' t)); [done| | |].
    + unfold pending_at. rewrite decide_True by done. destruct Hw as [? ? ? ? ? Hnd Hsem].
      split; simpl; auto; [congruence| |].
      * rewrite Ha. apply NoDup_app. split; [done|]. split; [|apply NoDup_singleton].
        intros x Hx ->%list_elem_of_singleton. revert Hx. eapply (unqueued_thread s); [by rewrite HQ|done].
      * intros Hd. specialize (Hsem Hd). rewrite Ha, length_app. unfold pending_at in Hsem.
        rewrite decide_False in Hsem by done. simpl. lia.
    + intros j Hj. unfold pending_at. rewrite !decide_False; congruence.
    + simpl. intros x. rewrite Ha. intros [Hx| ->%list_elem_of_singleton]%elem_of_app; [|eauto].
      by eapply iv_queued.
  - unfold queues_of; simpl. by rewrite list_fmap_insert.
Qed.

(** ** assign_work_to_thread() *)

(** A request the dispatcher can handle: its lengths fit and its
    descriptor is one the lookup is safe for. *)
Definition incoming_ok (region : list Z) : Prop :=
  request_safe region = true
  /\ rq_size (get_request_base region) <= ONE_REQUEST_REGION_SIZE
  /\ fd_sane (rq_sockfd (get_request_base region)).

Lemma selected_proc_ok region th now :
  incoming_ok region -> selected (get_request_base region) (0, th, now) -> proc_ok region th.
Proof.
  intros (Hs & Hz & _) [[? _]|(_ & Hk & ty & Ht & Hty)]; [done|].
  split; [done|]. split; [done|]. exists ty. split; [done|].
  destruct ty; try done; destruct Hty as [k ->]; eauto.
Qed.

Lemma selected_worker base th now : selected base (0, th, now) -> worker_ok th.
Proof. intros [[? _]|(_ & Hk & _)]; done. Qed.

(** The worker exists when the request is queued or needs the oplock. *)
Lemma selected_thread base th now :
  selected base (0, th, now) -> now = false \/ REQUEST_REQUIRES_OPLOCK (rq_type base) = true ->
  exists k, th = Some k /\ (k < MAX_THREAD_COUNT)%nat.
Proof.
  intros [[? _]|(_ & Hk & ty & Ht & Hty)] Hc; [done|].
  assert (exists k, th = Some k) as [k ->].
  { destruct ty; try done. destruct Hty as [_ ->]. destruct Hc as [?|Hc]; [done|].
    apply request_type_of_inv in Ht. by rewrite <- Ht in Hc. }
  eauto.
Qed.

(** What assign_work_to_thread() leaves: the item queued for its thread,
    or the request answered. *)
Definition work_state (i : nat) region qs rs (th : option nat) (further : bool)
    (ans : ins_state W -> Prop) (rc : Z) (s : ins_state W) : Prop :=
  if further then rc = 0 /\ exists k, th = Some k /\ (k < MAX_THREAD_COUNT)%nat
                                      /\ queued_state k i region qs rs s
  else ans s.

Lemma disp_start_oplock p qs rs base th now :
  selected base (0, th, now) ->
  keeps (@disp W p qs rs)
    (when (REQUEST_REQUIRES_OPLOCK (rq_type base)) (with_worker th acquire_oplock)) (fun _ => True).
Proof.
  intros Hsel. apply keeps_when. intros Ho.
  destruct (selected_thread _ _ _ Hsel (or_intror Ho)) as (k & -> & Hk). by apply disp_acquire_oplock.
Qed.

Lemma bufs_start_oplock (base : mt_request_base) (th : option nat) :
  bufs_fixed (when (REQUEST_REQUIRES_OPLOCK (rq_type base)) (with_worker th acquire_oplock)
              : ins_m W unit).
Proof.
  unfold when. destruct (REQUEST_REQUIRES_OPLOCK _); [|apply bufs_ret].
  destruct th; [apply bufs_acquire_oplock|apply bufs_undef].
Qed.

Lemma start_work_spec fuel i b th now qs rs :
  (i < BUFFER_ITEM_COUNT)%nat -> unqueued qs i -> bi_in_use b = 1 ->
  incoming_ok (bi_region b) -> selected (get_request_base (bi_region b)) (0, th, now) ->
  hoare (fun s => disp None qs rs s /\ buffers_of s !! i = Some b)
    (start_work fuel i (get_request_base (bi_region b)) th now)
    (fun r => work_state i (bi_region b) qs rs th (snd r)
       (answered None qs rs (get_request_base (bi_region b)) (fst r)) (fst r)).
Proof.
  intros Hi Hu Hb1 Hin Hsel. set (base := get_request_base (bi_region b)).
  pose proof (selected_proc_ok _ _ _ Hin Hsel) as Hp.
  pose proof (selected_worker _ _ _ Hsel) as Hw.
  set (b' := set_bi_assigned_thread th b). unfold start_work.
  eapply hoare_bind with (R := fun _ s => disp None qs rs s /\ buffers_of s !! i = Some b').
  { intros s [Hs Hb]. unfold upd_bi. rewrite Hb. split.
    - apply (disp_put_buffer None qs rs s i b'); [done| |done].
      pose proof (iv_buffer _ _ (dp_inv _ _ _ _ Hs) i b Hb) as []. by split.
    - simpl. apply list_lookup_insert_eq. by eapply lookup_lt_Some. }
  intros _. eapply hoare_bind with (R := fun _ s => disp None qs rs s /\ buffers_of s !! i = Some b').
  { intros s [Hs Hb].
    pose proof (keeps_bufs (disp None qs rs) _ _ (buffers_of s) (bufs_start_oplock base th)
      (disp_start_oplock None qs rs base th now Hsel) s (conj Hs eq_refl)) as H.
    destruct (when _ _ s) as [[a s']| | |]; auto. destruct H as [[Hs' HE] _]. rewrite HE. auto. }
  intros _. destruct now.
  - eapply hoare_bind with (R := answered None qs rs base); [|intros rc; by apply hoare_ret].
    eapply hoare_conseq; [by apply (process_spec None qs rs fuel i (bi_region b) th)| |].
    + intros s [Hs Hb]. eauto 6.
    + auto.
  - destruct (selected_thread _ _ _ Hsel (or_introl eq_refl)) as (k & -> & Hk). cbn [with_worker].
    eapply hoare_bind with (R := fun c s => c = b' /\ disp None qs rs s /\ buffers_of s !! i = Some b').
    { intros s [Hs Hb]. unfold get_bi. by rewrite Hb. }
    intros c s (-> & Hs & Hb).
    pose proof (bw_idx _ _ (iv_buffer _ _ (dp_inv _ _ _ _ Hs) i b' Hb)) as ->.
    assert (queued_for k b') as Hq by done.
    pose proof (enqueue_spec k i b' qs rs Hk Hi Hu Hq s (conj Hs Hb)) as H.
    unfold bind at 1. destruct (thread_enqueue _ _ s) as [[rc s']| | |]; simpl in *; auto.
    destruct H as [-> H]. simpl. eauto.
Qed.

(** The responses that answer one request of the dispatcher thread: with
    return code 0 the handler's; otherwise the error response, perhaps
    after the handler's. *)
Definition answers (base : mt_request_base) (rc : Z) (l : list (mt_response * Z)) : Prop :=
  (rc = 0 /\ exists r, l = [(r, rs_size r)] /\ response_for base r)
  \/ (rc <> 0 /\ exists l0 e, (length l0 <= 1)%nat /\ l = l0 ++ [(e, rs_size e)]
      /\ response_for base e /\ rs_status e = MT_STATUS_INTERNAL_ERROR).

Lemma response_for_internal_error base resp :
  response_for base (set_response_to_internal_error base resp).
Proof.
  unfold response_for; simpl. split; [done|]. split; [done|]. split; [done|].
  change (u16 MT_RESPONSE_BASE_SIZE) with 40. sizes.
Qed.

(** A request that was selected for and is not queued. *)
Definition finished (base : mt_request_base) qs rs (rc : Z) (s : ins_state W) : Prop :=
  exists l, answers base rc l /\ disp None qs (rs ++ l) s.

(** The error response of the dispatcher, behind at most one other. *)
Lemma error_response_spec base rc qs rs l0 :
  rc <> 0 -> (length l0 <= 1)%nat ->
  hoare (@disp W None qs (rs ++ l0)) (send_dispatch_error_response base)
    (fun _ s => finished base qs rs rc s).
Proof.
  intros Hrc Hl. set (e := set_response_to_internal_error base response_zero).
  eapply hoare_conseq; [apply write_response_spec|intros s Hs; exact Hs|].
  intros ? s Hs. exists (l0 ++ [(e, rs_size e)]). split.
  - right. split; [done|]. exists l0, e. split; [done|]. split; [done|].
    split; [apply response_for_internal_error|done].
  - by rewrite app_assoc.
Qed.

Lemma finished_release i base qs rs rc :
  (i < BUFFER_ITEM_COUNT)%nat -> unqueued qs i ->
  hoare (finished base qs rs rc) (release_buffer_item i) (fun _ => finished base qs rs rc).
Proof.
  intros Hi Hu s (l & Ha & Hs). pose proof (disp_release_buffer None qs (rs ++ l) i Hi Hu s Hs) as H.
  destruct (release_buffer_item i s) as [[a s']| | |]; auto. exists l. split; [done|apply H].
Qed.

Lemma assign_spec fuel i b qs rs :
  (i < BUFFER_ITEM_COUNT)%nat -> unqueued qs i -> bi_in_use b = 1 -> incoming_ok (bi_region b) ->
  hoare (fun s => disp None qs rs s /\ buffers_of s !! i = Some b)
    (assign_work_to_thread fuel i)
    (fun r => let '(rc, th, further) := r in
       work_state i (bi_region b) qs rs th further (finished (get_request_base (bi_region b)) qs rs rc) rc).
Proof.
  intros Hi Hu Hb1 Hin. set (base := get_request_base (bi_region b)). unfold assign_work_to_thread.
  eapply hoare_bind with (R := fun c s => c = b /\ disp None qs rs s /\ buffers_of s !! i = Some b).
  { intros s [Hs Hb]. unfold get_bi. by rewrite Hb. }
  intros c s (-> & Hs & Hb). fold base. cbn zeta. revert s Hs Hb.
  enough (hoare (fun s => disp None qs rs s /\ buffers_of s !! i = Some b)
    (let* (rc, thread, process_now) := select_thread base in
     let* (rc0, further) :=
       (if truth rc then ret (rc, true) else start_work fuel i base thread process_now) in
     let* further0 :=
       (if truth rc0 then send_dispatch_error_response base ;;; ret false else ret further) in
     when (negb further0) (release_buffer_item i) ;;; ret (rc0, thread, further0))
    (fun r => let '(rc, th, further) := r in
       work_state i (bi_region b) qs rs th further (finished base qs rs rc) rc)) as H by (intros s ? ?; by apply H).
  eapply hoare_bind with (R := fun r s => selected base r /\ disp None qs rs s /\ buffers_of s !! i = Some b).
  { intros s [Hs Hb]. destruct Hin as (_ & _ & Hfd).
    pose proof (keeps_bufs (disp None qs rs) _ _ (buffers_of s) (bufs_select base)
      (disp_select None qs rs base Hfd) s (conj Hs eq_refl)) as H.
    destruct (select_thread base s) as [[a s']| | |]; auto. destruct H as [[Hs' HE] ?]. by rewrite HE. }
  intros [[rc th] now].
  eapply hoare_bind with (R := fun r s =>
    (snd r = true /\ fst r <> 0 /\ disp None qs rs s)
    \/ work_state i (bi_region b) qs rs th (snd r) (answered None qs rs base (fst r)) (fst r) s).
  { intros s (Hsel & Hs & Hb). destruct (truth rc) eqn:E.
    - left. simpl. split; [done|]. split; [by apply truth_nonzero|done].
    - assert (rc = 0) as -> by (unfold truth in E; by zbool).
      pose proof (start_work_spec fuel i b th now qs rs Hi Hu Hb1 Hin Hsel s (conj Hs Hb)) as H.
      fold base in H. destruct (start_work _ _ _ _ _ s) as [[r s']| | |]; auto. }
  intros [rc1 further1].
  eapply hoare_bind with (R := fun f s => work_state i (bi_region b) qs rs th f (finished base qs rs rc1) rc1 s).
  { intros s H. destruct (truth rc1) eqn:E.
    - apply truth_nonzero in E.
      assert (exists l0, (length l0 <= 1)%nat /\ disp None qs (rs ++ l0) s) as (l0 & Hl0 & Hs).
      { destruct H as [(_ & _ & Hs)|H].
        - exists []. rewrite app_nil_r. auto.
        - destruct further1; simpl in H; [by destruct H|]. destruct H as (r & Hs & _).
          exists [(r, rs_size r)]. split; [simpl; lia|done]. }
      pose proof (error_response_spec base rc1 qs rs l0 E Hl0 s Hs) as He. unfold bind.
      destruct (send_dispatch_error_response _ s) as [[a s']| | |]; auto.
    - assert (rc1 = 0) as -> by (unfold truth in E; by zbool). simpl.
      destruct H as [(_ & ? & _)|H]; [done|]. destruct further1; simpl in *; [done|].
      destruct H as (r & Hs & [Hr|[? _]]); [|done]. eexists. split; [|exact Hs]. left. eauto. }
  intros [].
  - simpl. by apply hoare_ret.
  - eapply hoare_bind; [by apply finished_release|]. intros ?. by apply hoare_ret.
Qed.

(** ** The dispatcher's iteration *)

Lemma reserve_in_use n i (s s' : ins_state W) rc j :
  reserve_scan n i s = Done ((rc, Some j), s') ->
  exists b, buffers_of s' !! j = Some b /\ bi_in_use b = 1.
Proof.
  revert i s. induction n as [|n IH]; intros i s; [done|]. simpl.
  unfold cas_buffer_in_use, get_bi, upd_bi, bind, obind, ret.
  destruct (buffers_of s !! i) as [b|] eqn:Hb; [|done].
  destruct (Z.eqb_spec (bi_in_use b) 0) as [E|E].
  - rewrite Hb. simpl. intros [= <- <- <-]. exists (set_bi_in_use 1 b). split; [|done]. simpl.
    apply list_lookup_insert_eq. by eapply lookup_lt_Some.
  - rewrite (proj2 (Z.eqb_neq _ _) E). apply IH.
Qed.

(** The region of the request that the next iteration reads, if it has a
    buffer item for it. *)
Definition incoming_region (s : ins_state W) : option (list Z) :=
  match reserve_available_buffer_item s with
  | Done ((_, Some i), s1) =>
      let r := fst (os_call (SysRead (g_input_fd (st_g s1)) ONE_REQUEST_REGION_SIZE) (st_world s1)) in
      (fun b => r_bytes r ++ drop (length (r_bytes r)) (bi_region b)) <$> buffers_of s1 !! i
  | _ => None
  end.

(** The request read is one whose lengths the handlers can hold. *)
Definition incoming_safe (region : list Z) : bool :=
  let fd := rq_sockfd (get_request_base region) in
  request_safe region && ((fd =? MT_INVALID_SOCKET_FD) || (0 <=? s32 (MW_SOCKET_GET_ID fd))).

Definition peer_safe (s : ins_state W) : bool :=
  match incoming_region s with Some region => incoming_safe region | None => true end.

Lemma incoming_safe_ok region :
  incoming_safe region = true ->
  rq_size (get_request_base region) <= ONE_REQUEST_REGION_SIZE -> incoming_ok region.
Proof.
  unfold incoming_safe. intros H Hz. apply andb_true_iff in H as [H1 H2].
  split; [done|]. split; [done|]. apply orb_true_iff in H2 as [H2|H2]; zbool; [by left|by right].
Qed.

(** The post of the semaphore behind an enqueue. *)
Lemma post_sem_spec k qs rs :
  (k < MAX_THREAD_COUNT)%nat ->
  hoare (@disp W (Some k) qs rs)
    (upd_ti k (fun t => set_ti_awaiting_work_sem (ti_awaiting_work_sem t + 1) t))
    (fun _ => disp None qs rs).
Proof.
  intros Hk s Hs. destruct (disp_thread _ _ _ s k Hs Hk) as (t & Ht & Hw).
  unfold upd_ti. rewrite Ht. pose proof Hs as [Hi Hq Hr].
  set (t' := set_ti_awaiting_work_sem (ti_awaiting_work_sem t + 1) t).
  split; [|rewrite <- Hq|done].
  - apply (ins_inv_put_thread (Some k) None s k t'); [done| | |].
    + unfold pending_at in *. rewrite decide_True in Hw by done. rewrite decide_False by done.
      destruct Hw as [? ? ? ? ? ? Hsem]. split; simpl; auto. intros Hd. specialize (Hsem Hd). lia.
    + intros j Hj. unfold pending_at. rewrite !decide_False; congruence.
    + change (ti_work_queue t') with (ti_work_queue t). by eapply ins_inv_queue_good.
  - unfold queues_of; simpl. rewrite list_fmap_insert. apply list_insert_id.
    by rewrite list_lookup_fmap, Ht.
Qed.

(** What one iteration does with what it read. *)
Inductive dispatch_result (s : ins_state W) : option Z -> ins_state W -> Prop :=
| dispatch_no_buffer s' :
    incoming_region s = None ->
    queues_of s' = queues_of s -> responses_of (st_trace s') = responses_of (st_trace s) ->
    dispatch_result s None s'
| dispatch_refused region rc s' :
    incoming_region s = Some region ->
    queues_of s' = queues_of s -> responses_of (st_trace s') = responses_of (st_trace s) ->
    dispatch_result s (Some rc) s'
| dispatch_answered region rc l s' :
    incoming_region s = Some region -> answers (get_request_base region) rc l ->
    queues_of s' = queues_of s -> responses_of (st_trace s') = responses_of (st_trace s) ++ l ->
    dispatch_result s None s'
| dispatch_queued region k i b q q' s' :
    incoming_region s = Some region -> buffers_of s' !! i = Some b -> bi_region b = region ->
    queues_of s !! k = Some q -> wq_abs q' = wq_abs q ++ [Z.of_nat i] ->
    queues_of s' = <[k := q']> (queues_of s) ->
    responses_of (st_trace s') = responses_of (st_trace s) ->
    dispatch_result s None s'.

(** The read fills the buffer item and stays inside its region. *)
Definition read_into (i : nat) : ins_m W (sysres * buffer_item) :=
  let* fd := get_g g_input_fd in
  let* r := sys (SysRead fd ONE_REQUEST_REGION_SIZE) in
  upd_bi i (fun b => set_bi_region (r_bytes r ++ drop (length (r_bytes r)) (bi_region b)) b) ;;;
  let* b := get_bi i in ret (r, b).

Lemma read_into_spec i s b qs rs :
  unqueued qs i -> disp None qs rs s -> buffers_of s !! i = Some b ->
  let r := fst (os_call (SysRead (g_input_fd (st_g s)) ONE_REQUEST_REGION_SIZE) (st_world s)) in
  let b' := set_bi_region (r_bytes r ++ drop (length (r_bytes r)) (bi_region b)) b in
  exists s', read_into i s = Done ((r, b'), s')
    /\ disp None qs rs s' /\ buffers_of s' !! i = Some b'.
Proof.
  intros Hu Hs Hb r b'. unfold read_into, get_g, gets, bind, obind, ret.
  pose proof (disp_sys None qs rs (SysRead (g_input_fd (st_g s)) ONE_REQUEST_REGION_SIZE) eq_refl s Hs) as Hd.
  unfold sys in *. destruct (os_call _ _) as [r0 w] eqn:Eos. destruct Hd as [Hd _].
  unfold upd_bi, get_bi. simpl. rewrite Hb. simpl.
  rewrite list_lookup_insert_eq by (by eapply lookup_lt_Some). unfold b', r. simpl.
  eexists. split; [reflexivity|]. split.
  - apply (disp_put_buffer None qs rs _ i _ Hd); [|done].
    pose proof (law_read (g_input_fd (st_g s)) ONE_REQUEST_REGION_SIZE (st_world s)) as Hlaw.
    rewrite Eos in Hlaw. simpl in Hlaw.
    destruct (iv_buffer _ _ (dp_inv _ _ _ _ Hs) i b Hb) as [? ? Hlen ?]. split; simpl; auto.
    rewrite length_app, length_drop. lia.
  - simpl. apply list_lookup_insert_eq. by eapply lookup_lt_Some.
Qed.

(** The iteration behind the read. *)
Definition dispatch_rest (fuel : nat) (rc : Z) (i : nat) (rb : sysres * buffer_item)
    : ins_m W (option Z) :=
  let '(r, b) := rb in
  if (r_ret r <? MT_REQUEST_BASE_SIZE)
     || (ONE_REQUEST_REGION_SIZE <? rq_size (get_request_base (bi_region b))) then
    if r_ret r =? 0 then ret (Some rc) else ret (Some EINVAL)
  else
    let* (rc, thread, more) := assign_work_to_thread fuel i in
    if truth rc then ret None
    else
      when more (with_worker thread (fun k =>
        upd_ti k (fun t => set_ti_awaiting_work_sem (ti_awaiting_work_sem t + 1) t))) ;;;
      ret None.

Lemma dispatch_one_read fuel s :
  dispatch_one fuel s =
  bind reserve_available_buffer_item (fun '(rc, item) =>
    match item with
    | None => ret None
    | Some i => bind (read_into i) (dispatch_rest fuel rc i)
    end) s.
Proof.
  unfold dispatch_one, bind, obind.
  destruct (reserve_available_buffer_item s) as [[[rc [i|]] s1]| | |]; try reflexivity.
  unfold read_into, bind, obind, ret. unfold get_g, gets, sys.
  destruct (os_call _ _) as [r w]. destruct (upd_bi _ _ _) as [[u s2]| | |]; try reflexivity.
  destruct (get_bi i s2) as [[b s3]| | |]; reflexivity.
Qed.

Lemma dispatch_rest_spec fuel rc i r b s0 :
  (i < BUFFER_ITEM_COUNT)%nat -> unqueued (queues_of s0) i -> bi_in_use b = 1 ->
  incoming_region s0 = Some (bi_region b) -> incoming_safe (bi_region b) = true ->
  hoare (fun s => disp None (queues_of s0) (responses_of (st_trace s0)) s /\ buffers_of s !! i = Some b)
    (dispatch_rest fuel rc i (r, b))
    (fun res s' => ins_inv None s' /\ dispatch_result s0 res s').
Proof.
  intros Hi Hu Hb1 Hreg Hsafe. unfold dispatch_rest.
  destruct (_ || _) eqn:Ec.
  { destruct (r_ret r =? 0); apply hoare_ret; intros s [[Hinv Hq Hr] _];
      (split; [done|by eapply dispatch_refused]). }
  zbool. assert (incoming_ok (bi_region b)) as Hin by (by apply incoming_safe_ok).
  eapply hoare_bind; [by apply assign_spec|]. intros [[rc1 th] further]. destruct further.
  - intros s [-> (k & -> & Hk & (b' & Hb' & Hreg') & q & q' & Hq & Ha & Hs)]. simpl.
    pose proof (post_sem_spec k _ _ Hk s Hs) as Hpost. unfold bind, obind.
    unfold upd_ti in *. destruct (threads_of s !! k) as [t|]; [|done].
    destruct Hpost as [Hinv' Hq' Hr']. split; [done|].
    eapply dispatch_queued; eauto.
  - intros s (l & Hl & [Hinv Hq Hr]). destruct (truth rc1); simpl;
      (split; [done|by eapply dispatch_answered]).
Qed.

Lemma dispatch_one_spec fuel s :
  ins_inv None s -> peer_safe s = true ->
  match dispatch_one fuel s with
  | Done (res, s') => ins_inv None s' /\ dispatch_result s res s'
  | Undef => False
  | _ => True
  end.
Proof.
  intros Hinv Hpeer. rewrite dispatch_one_read.
  set (qs := queues_of s). set (rs := responses_of (st_trace s)).
  assert (disp None qs rs s) as Hs by done.
  pose proof (disp_reserve_scan None qs rs BUFFER_ITEM_COUNT 0 (le_n _) s Hs) as HR.
  change (reserve_scan BUFFER_ITEM_COUNT 0 s) with (reserve_available_buffer_item s) in HR. unfold bind at 1.
  unfold peer_safe in Hpeer. assert (incoming_region s = incoming_region s) as Hreg by done.
  unfold incoming_region at 2 in Hreg.
  destruct (reserve_available_buffer_item s) as [[[rc item] s1]| | |] eqn:E; try done.
  destruct HR as [Hs1 [[= -> ->]|(i & [= -> ->] & Hi & Hu)]]; cbn [obind].
  - destruct Hs1 as [? ? ?]. split; [done|by apply dispatch_no_buffer].
  - apply reserve_in_use in E as (b & Hb & Hb1). rewrite Hb in Hreg. cbn [fmap option_fmap option_map] in Hreg.
    destruct (read_into_spec i s1 b qs rs Hu Hs1 Hb) as (s2 & Hr & Hs2 & Hb2).
    unfold bind. rewrite Hr. cbn [obind].
    eapply (dispatch_rest_spec fuel 0 i _ _ s Hi Hu); [done|exact Hreg| |by split].
    rewrite Hreg in Hpeer. exact Hpeer.
Qed.

(** ** The worker's iteration *)

Inductive worker_result (s : ins_state W) (k : nat) : bool -> ins_state W -> Prop :=
| worker_exits q (s' : ins_state W) :
    queues_of s !! k = Some q -> wq_abs q = [] -> g_shutdown_pending (st_g s) = true ->
    queues_of s' = queues_of s -> responses_of (st_trace s') = responses_of (st_trace s) ->
    worker_result s k true s'
| worker_answers i b q q' rc resp (s' : ins_state W) :
    queues_of s !! k = Some q -> wq_abs q = Z.of_nat i :: wq_abs q' ->
    buffers_of s !! i = Some b -> bi_assigned_thread b = Some k ->
    queues_of s' = <[k := q']> (queues_of s) ->
    responses_of (st_trace s') = responses_of (st_trace s) ++ [(resp, rs_size resp)] ->
    handler_post (get_request_base (bi_region b)) (rc, resp) ->
    worker_result s k false s'.

(** The thread after it has taken an item. *)
Definition after_dequeue (q : workqueue) (t : thread_item) : thread_item :=
  set_ti_work_queue q (set_ti_awaiting_work_sem (ti_awaiting_work_sem t - 1) t).

(** Taking the first item keeps the invariant, and frees the item. *)
Lemma dequeue_disp (s : ins_state W) k t q' i :
  ins_inv None s -> threads_of s !! k = Some t ->
  wq_inv q' -> wq_item_ct q' = wq_item_ct (ti_work_queue t) ->
  wq_abs (ti_work_queue t) = Z.of_nat i :: wq_abs q' ->
  disp None (<[k := q']> (queues_of s)) (responses_of (st_trace s)) (put_thread k (after_dequeue q' t) s)
  /\ unqueued (<[k := q']> (queues_of s)) i.
Proof.
  intros Hi Ht Hq' Hc Ha. pose proof (iv_thread _ _ Hi k t Ht) as [? ? ? ? Hcap Hnd Hsem].
  rewrite Ha in Hnd. apply NoDup_cons in Hnd as [Hni Hnd].
  split; [split; [| |done]|].
  - apply (ins_inv_put_thread None None s k (after_dequeue q' t)); [done| |done|].
    + split; simpl; auto; [congruence|]. intros Hd. specialize (Hsem Hd).
      rewrite Ha in Hsem. simpl in Hsem. lia.
    + intros x Hx. eapply iv_queued; [done|done|]. rewrite Ha. by right.
  - unfold queues_of; simpl. by rewrite list_fmap_insert.
  - intros j q Hj Hx. apply lookup_insert_cases in Hj as [(<- & _ & ->)|(Hne & Hj)]; [done|].
    unfold queues_of in Hj. rewrite list_lookup_fmap in Hj.
    destruct (threads_of s !! j) as [tj|] eqn:Htj; [|discriminate]. injection Hj as <-.
    destruct (iv_queued _ _ Hi j tj _ Htj Hx) as (m & b & Em & Hb & _ & Hbj & _).
    apply Nat2Z.inj in Em as <-.
    destruct (iv_queued _ _ Hi k t (Z.of_nat i) Ht) as (m & b' & Em & Hb' & _ & Hbk & _).
    { rewrite Ha. by left. }
    apply Nat2Z.inj in Em as <-. congruence.
Qed.

(** The part of the iteration behind the dequeue of item [i]. *)
Lemma worker_process_spec fuel k i b q' (s0 s : ins_state W) :
  (i < BUFFER_ITEM_COUNT)%nat -> (k < MAX_THREAD_COUNT)%nat -> queued_for k b ->
  unqueued q' i -> disp None q' (responses_of (st_trace s0)) s -> buffers_of s !! i = Some b ->
  match (process_buffer_item fuel i ;;; release_buffer_item i) s with
  | Done (_, s') => exists rc resp, ins_inv None s' /\ queues_of s' = q'
      /\ responses_of (st_trace s') = responses_of (st_trace s0) ++ [(resp, rs_size resp)]
      /\ handler_post (get_request_base (bi_region b)) (rc, resp)
  | Undef => False
  | _ => True
  end.
Proof.
  intros Hi Hk (_ & Hbk & Hp) Hu Hs Hb.
  assert (worker_ok (Some k)) as Hw by (by intros j [= <-]).
  pose proof (process_spec None q' (responses_of (st_trace s0)) fuel i (bi_region b) (Some k) Hi Hu Hp Hw s) as H.
  unfold bind. destruct (process_buffer_item fuel i s) as [[rc s1]| | |]; simpl; auto;
    try (apply H; split; [done|by exists b]).
  destruct H as (resp & Hs1 & Hpost); [split; [done|by exists b]|].
  pose proof (disp_release_buffer None q' _ i Hi Hu s1 Hs1) as H2.
  destruct (release_buffer_item i s1) as [[u s2]| | |]; auto.
  destruct H2 as [[Hi2 Hq2 Hr2] _]. by exists rc, resp.
Qed.

(** A worker that shuts down takes the last post of its semaphore. *)
Lemma shutdown_disp (s : ins_state W) k t :
  ins_inv None s -> threads_of s !! k = Some t -> g_shutdown_pending (st_g s) = true ->
  disp None (queues_of s) (responses_of (st_trace s))
    (put_thread k (after_dequeue (ti_work_queue t) t) s).
Proof.
  intros Hi Ht Hd. eapply disp_put_thread; [done|done| |done].
  destruct (iv_thread _ _ Hi k t Ht) as []. split; simpl; auto. congruence.
Qed.

(** The first steps of the iteration. *)
Lemma worker_iteration_start fuel k t x q' (s : ins_state W) :
  threads_of s !! k = Some t -> 0 < ti_awaiting_work_sem t ->
  workqueue_dequeue (ti_work_queue t) = Done (x, q') ->
  worker_iteration fuel k s =
    (let empty := WORK_QUEUE_UNASSIGNED_IDX =? x in
     (if empty then ret tt
      else if x <? 0 then undef
      else process_buffer_item fuel (Z.to_nat x) ;;; release_buffer_item (Z.to_nat x)) ;;;
     let* down := get_g g_shutdown_pending in
     ret (down && empty)) (put_thread k (after_dequeue q' t) s).
Proof.
  intros Ht Ha Hdq. assert (worker_take k s = Done (x, put_thread k (after_dequeue q' t) s)) as E.
  { unfold worker_take, get_ti, upd_ti, bind, obind, ret. rewrite Ht.
    rewrite (proj2 (Z.leb_gt _ _) Ha), Hdq, Ht. simpl.
    rewrite list_lookup_insert_eq by (by eapply lookup_lt_Some). by rewrite list_insert_insert_eq. }
  unfold worker_iteration, bind at 1. rewrite E. reflexivity.
Qed.

Lemma worker_iteration_spec fuel k s :
  ins_inv None s -> (k < MAX_THREAD_COUNT)%nat ->
  match worker_iteration fuel k s with
  | Done (exit, s') => ins_inv None s' /\ worker_result s k exit s'
  | Undef => False
  | _ => True
  end.
Proof.
  intros Hinv Hk. assert (disp None (queues_of s) (responses_of (st_trace s)) s) as Hs by done.
  destruct (disp_thread _ _ _ s k Hs Hk) as (t & Ht & Hw).
  assert (queues_of s !! k = Some (ti_work_queue t)) as Hqk
    by (unfold queues_of; by rewrite list_lookup_fmap, Ht).
  destruct (Z.le_gt_cases (ti_awaiting_work_sem t) 0) as [Hle|Hgt].
  { unfold worker_iteration, worker_take, get_ti, bind, obind. rewrite Ht.
    by rewrite (proj2 (Z.leb_le _ _) Hle). }
  pose proof (tw_queue _ _ _ _ Hw) as Hq. destruct (wq_abs (ti_work_queue t)) as [|y rest] eqn:Eq.
  - rewrite (worker_iteration_start _ _ _ _ _ _ Ht Hgt (wq_dequeue_empty _ Hq Eq)).
    pose proof (tw_sem _ _ _ _ Hw) as Hsem. rewrite Eq in Hsem. simpl in Hsem.
    unfold pending_at in Hsem. rewrite decide_False in Hsem by done.
    assert (g_shutdown_pending (st_g s) = true) as Hd
      by (destruct (g_shutdown_pending (st_g s)); [done|lia]).
    destruct (shutdown_disp s k t Hinv Ht Hd) as [? HQ ?].
    unfold bind, obind, ret, get_g, gets. simpl. rewrite Hd. simpl.
    split; [done|by eapply worker_exits].
  - destruct (wq_dequeue_item _ y rest Hq Eq) as (q' & Hdq & Hq' & Ha & Hc & _).
    destruct (iv_queued _ _ Hinv k t y Ht) as (i & b & -> & Hb & Hqb); [rewrite Eq; by left|].
    rewrite <- Ha in Eq. destruct (dequeue_disp s k t q' i Hinv Ht Hq' Hc Eq) as [Hd Hu].
    assert (i < BUFFER_ITEM_COUNT)%nat as Hi.
    { apply lookup_lt_Some in Hb. by rewrite (iv_buffers _ _ Hinv) in Hb. }
    rewrite (worker_iteration_start _ _ _ _ _ _ Ht Hgt Hdq). cbn zeta.
    assert (WORK_QUEUE_UNASSIGNED_IDX =? Z.of_nat i = false) as ->
      by (apply Z.eqb_neq; unfold WORK_QUEUE_UNASSIGNED_IDX; lia).
    assert (Z.of_nat i <? 0 = false) as -> by (apply Z.ltb_ge; lia). rewrite Nat2Z.id.
    pose proof (worker_process_spec fuel k i b _ s _ Hi Hk Hqb Hu Hd Hb) as HP.
    unfold bind at 1. destruct (bind _ _ _) as [[u s']| | |]; simpl; auto.
    destruct HP as (rc & resp & Hi' & HQ & HR & HH). rewrite andb_false_r.
    split; [done|]. eapply worker_answers; eauto. apply Hqb.
Qed.

(** ** Start-up *)

Definition zero_wf (memory : nat -> list Z) : Prop :=
  forall i, (BUFFER_ITEM_COUNT <= length (memory i))%nat.

Lemma init_threads_spec n i memory alloc_ok ts :
  zero_wf memory -> init_threads n i memory alloc_ok = Some ts ->
  length ts = n /\ forall j t, ts !! j = Some t ->
    thread_wf false 0 (i + j)%nat t /\ wq_abs (ti_work_queue t) = [].
Proof.
  intros Hm. revert i ts. induction n as [|n IH]; intros i ts; cbn [init_threads].
  - intros [= <-]. by split.
  - destruct (workqueue_alloc _ _ _ _ _) as [wq|] eqn:Ea; [|done].
    destruct (init_threads n (S i) memory alloc_ok) as [ts'|] eqn:Et; [|done].
    intros [= <-]. destruct (IH _ _ Et) as [Hl Hw].
    destruct (alloc_ok i); [|done].
    assert (0 < BUFFER_ITEM_COUNT)%nat as Hpos by (vm_compute; lia).
    destruct (wq_alloc_inv _ _ _ _ _ Hpos (Hm i) Ea) as (Hq & Ha & Hc).
    split; [simpl; lia|]. intros [|j] t Ht.
    + simpl in Ht. injection Ht as <-. rewrite Nat.add_0_r. split; [|done].
      split; simpl; auto; rewrite Ha; [constructor|done].
    + rewrite Nat.add_succ_r. apply (Hw j t Ht).
Qed.

#[local] Arguments seq : simpl never.
#[local] Arguments replicate : simpl never.

Lemma zero_globals_inv (s : ins_state W) memory alloc_ok ts :
  zero_wf memory -> init_threads MAX_THREAD_COUNT 0 memory alloc_ok = Some ts ->
  ins_inv None (set_st_g (zero_globals ts) s).
Proof.
  intros Hm Hts. destruct (init_threads_spec _ _ _ _ _ Hm Hts) as [Hl Hw].
  split; simpl; auto.
  - unfold in_u. lia.
  - intros i t Ht. unfold pending_at. rewrite decide_False by done. apply (Hw i t Ht).
  - intros i b Hb. change ((zero_buffer <$> seq 0 BUFFER_ITEM_COUNT) !! i = Some b) in Hb.
    apply list_lookup_fmap_Some in Hb as (j & -> & Hj). apply lookup_seq in Hj as [-> _].
    split; simpl; auto; try discriminate; by rewrite ?length_replicate.
  - intros k t x Ht Hx. destruct (Hw k t Ht) as [_ E]. rewrite E in Hx. by apply elem_of_nil in Hx.
Qed.

Abbreviation I := (@ins_inv W None).

Lemma inv_sys c : keeps I (sys c) (fun _ => True).
Proof.
  intros s [H1 H2 H3 H4 H5 H6]. unfold sys. destruct (os_call c (st_world s)) as [r w].
  split; [by split|done].
Qed.

Lemma inv_upd_g f :
  (forall g, g_worker_threads (f g) = g_worker_threads g /\ g_buffer_items (f g) = g_buffer_items g
     /\ g_shutdown_pending (f g) = g_shutdown_pending g
     /\ (in_u 16 (g_client_id g) -> in_u 16 (g_client_id (f g)))) ->
  keeps I (upd_g f) (fun _ => True).
Proof.
  intros Hf s [H1 H2 H3 H4 H5 H6]. split; [|done].
  destruct (Hf (st_g s)) as (E1 & E2 & E3 & E4).
  split; simpl; rewrite ?E1, ?E2, ?E3; auto.
Qed.

Lemma inv_start_threads n i : keeps I (start_threads n i) (fun _ => True).
Proof.
  revert i. induction n as [|n IH]; intros i; simpl; [by apply keeps_ret|].
  keeps_step; [apply inv_sys|]. cond; [by apply keeps_ret|apply IH].
Qed.

Lemma inv_open_device : keeps I open_device (fun _ => True).
Proof.
  unfold open_device. keeps_step; [apply inv_sys|]. keeps_step; [by apply inv_upd_g|].
  cond; [by apply keeps_gets|]. keeps_step; [by apply inv_upd_g|by apply keeps_ret].
Qed.

#[local] Arguments start_threads : simpl never.

Lemma init_state_spec memory alloc_ok (s s' : ins_state W) :
  zero_wf memory -> init_state memory alloc_ok s = Done (0, s') -> ins_inv None s'.
Proof.
  intros Hm. unfold init_state.
  destruct (init_threads _ _ _ _) as [ts|] eqn:Hts; [|done].
  pose proof (zero_globals_inv s memory alloc_ok ts Hm Hts) as Hz.
  unfold bind at 1, upd_g at 1, modify, obind at 1. intros Hrun.
  eapply (keeps_done I) in Hrun as [H _]; [exact H| |exact Hz].
  instantiate (1 := fun _ => True).
  keeps_step; [apply inv_open_device|]. cond; [by apply keeps_ret|].
  keeps_step; [by apply keeps_gets|]. keeps_step; [apply inv_sys|].
  keeps_step.
  { apply inv_upd_g. intros g. repeat split. simpl. apply wrapu_range; lia.
    simpl. pose proof (wrapu_range 16 (le_value (take 2 (r_bytes a1)))). unfold in_u in *. lia. }
  cond; [by apply keeps_ret|apply inv_start_threads].
Qed.

(** ** The system *)

(** Whole iterations of the threads, in any order, and the two parts of
    fini_state(): the shutdown flag, and one post per worker. *)
Inductive ins_step : ins_state W -> ins_state W -> Prop :=
| step_dispatcher fuel s s' :
    peer_safe s = true -> dispatch_one fuel s = Done (None, s') -> ins_step s s'
| step_worker fuel k exit s s' :
    (k < MAX_THREAD_COUNT)%nat -> worker_iteration fuel k s = Done (exit, s') -> ins_step s s'
| step_heartbeat s s' : heartbeat_iteration s = Done (true, s') -> ins_step s s'
| step_shutdown s s' : upd_g (set_g_shutdown_pending true) s = Done (tt, s') -> ins_step s s'
| step_shutdown_post k s s' :
    (k < MAX_THREAD_COUNT)%nat -> g_shutdown_pending (st_g s) = true ->
    upd_ti k (fun t => set_ti_awaiting_work_sem (ti_awaiting_work_sem t + 1) t) s = Done (tt, s') ->
    ins_step s s'.

Definition booted (s : ins_state W) : Prop :=
  exists memory alloc_ok s0, zero_wf memory /\ init_state memory alloc_ok s0 = Done (0, s).

Definition reachable (s : ins_state W) : Prop := exists s0, booted s0 /\ rtc ins_step s0 s.

Lemma heartbeat_inv (s : ins_state W) b s' : ins_inv None s -> heartbeat_iteration s = Done (b, s') -> ins_inv None s'.
Proof.
  intros Hi Hrun. eapply (keeps_done I _ (fun _ => True)) in Hrun as [H _]; [exact H| |exact Hi].
  unfold heartbeat_iteration. keeps_step; [by apply keeps_gets|]. cond; [by apply keeps_ret|].
  keeps_step; [apply inv_sys|by apply keeps_ret].
Qed.

Lemma shutdown_inv (s s' : ins_state W) :
  ins_inv None s -> upd_g (set_g_shutdown_pending true) s = Done (tt, s') -> ins_inv None s'.
Proof.
  intros [H1 H2 H3 H4 H5 H6] [= <-]. split; simpl; auto.
  intros i t Ht. destruct (H4 i t Ht). split; auto. discriminate.
Qed.

Lemma shutdown_post_inv k (s s' : ins_state W) :
  ins_inv None s -> (k < MAX_THREAD_COUNT)%nat -> g_shutdown_pending (st_g s) = true ->
  upd_ti k (fun t => set_ti_awaiting_work_sem (ti_awaiting_work_sem t + 1) t) s = Done (tt, s') ->
  ins_inv None s'.
Proof.
  intros Hi Hk Hd. unfold upd_ti. destruct (threads_of s !! k) as [t|] eqn:Ht; [|done].
  intros [= <-].
  apply (ins_inv_put_thread None None s k (set_ti_awaiting_work_sem (ti_awaiting_work_sem t + 1) t));
    [done| |done|].
  - rewrite Hd. destruct (iv_thread _ _ Hi k t Ht). split; simpl; auto. discriminate.
  - by apply (ins_inv_queue_good None s k t).
Qed.

Lemma ins_step_inv s s' : ins_step s s' -> ins_inv None s -> ins_inv None s'.
Proof.
  intros [fuel s1 s2 Hp Hd|fuel k e s1 s2 Hk Hw|s1 s2 Hh|s1 s2 Hd|k s1 s2 Hk Hd Hu] Hi.
  - pose proof (dispatch_one_spec fuel s1 Hi Hp) as H. rewrite Hd in H. apply H.
  - pose proof (worker_iteration_spec fuel k s1 Hi Hk) as H. rewrite Hw in H. apply H.
  - by eapply heartbeat_inv.
  - by eapply shutdown_inv.
  - by eapply shutdown_post_inv.
Qed.

Lemma reachable_inv s : reachable s -> ins_inv None s.
Proof.
  intros (s0 & (memory & alloc_ok & s00 & Hm & Hb) & Hrun).
  pose proof (init_state_spec _ _ _ _ Hm Hb) as Hi. clear Hb.
  induction Hrun as [|s1 s2 s3 Hs _ IH]; [done|]. apply IH. by eapply ins_step_inv.
Qed.

End Assign.
