(* ===== verification/Samples.v ===== *)
(** * Samples: concrete runs for the witnesses

    An INS booted on the scripted system of InsState, request builders,
    and lemmas that turn an evaluated run into the equations that the
    theorems ask for. *)

From stdpp Require Import base numbers list relations.
From Stdlib Require Import ZArith Lia.
From S2P Require Import Prelude MwSocket MessageTypes MwErrno Translate WorkQueue InsState InsFacts Pollset Networking NetworkingFacts Dispatcher DispatcherInv DispatcherFacts Ins.

Abbreviation sample_state := (ins_state (list sysres)).

(** ** Evaluated runs *)

Definition is_none {A} (o : option A) : bool := match o with None => true | Some _ => false end.

Lemma returns_none {S A} (o : outcome (option A * S)) d :
  returns o is_none = true -> o = Done (None, out_state o d).
Proof. intros H. destruct (returns_done _ _ d H) as ([a|] & E & Ha); [discriminate|exact E]. Qed.

(** ** Requests *)

Definition request (t : mt_request_type) (id fd : Z) (body : list Z) : list Z :=
  put_request_base {| rq_sig := MT_SIGNATURE_REQUEST; rq_type := request_type_code t;
    rq_size := MT_REQUEST_BASE_SIZE + Z.of_nat (length body); rq_id := id; rq_sockfd := fd;
    rq_flags := 0 |} ++ body.

Definition create_request (id : Z) : list Z :=
  request MtRequestSocketCreate id (-1) (write_fields [4; 4; 4]%nat [MT_PF_INET; MT_ST_STREAM; 6]).

Definition sample_client : Z := 20.
Definition sample_fd (k : Z) : Z := MW_SOCKET_CREATE sample_client k.

Definition recv_request (id k n : Z) : list Z :=
  request MtRequestSocketRecv id (sample_fd k) (write_fields [4; 2]%nat [0; n]).

Definition send_request (id k : Z) (payload : list Z) : list Z :=
  request MtRequestSocketSend id (sample_fd k) (write_fields [4]%nat [0] ++ payload).

Definition close_request (id k : Z) : list Z := request MtRequestSocketClose id (sample_fd k) [].

Definition block_request (id block : Z) : list Z :=
  request MtRequestAddrBlock id (-1)
    (write_fields [4]%nat [block] ++ [49; 46; 50; 46; 51; 46; 52; 0]).

(** ** Boot *)

(** What the state held before start-up does not matter. *)
Definition before_boot (script : list sysres) : sample_state :=
  {| st_g := zero_globals [];
     st_ps := {| ps_init := false;
                 ps_fds := replicate MAX_THREAD_COUNT {| pf_fd := 0; pf_events := 0; pf_revents := 0 |};
                 ps_cur_pos := 0 |};
     st_errno := 0; st_world := script; st_trace := [] |}.

(** The device opens as descriptor 3, the domain id is 20, and the
    threads start. *)
Definition boot_script : list sysres :=
  [res_ok 3; {| r_ret := 0; r_err := 0; r_bytes := [sample_client; 0]; r_addr := sockaddr_in_zero;
               r_alen := 0; r_revents := [] |}] ++ replicate (MAX_THREAD_COUNT + 1) (res_ok 0).

Definition memory0 (i : nat) : list Z := replicate BUFFER_ITEM_COUNT 7.

Definition boot (script : list sysres) : sample_state :=
  out_state (init_state memory0 (fun _ => true) (before_boot (boot_script ++ script)))
    (before_boot []).

Lemma memory0_wf : zero_wf memory0.
Proof. intros i. unfold memory0. by rewrite length_replicate. Qed.

Lemma boot_booted script :
  returns (init_state memory0 (fun _ => true) (before_boot (boot_script ++ script))) (Z.eqb 0) = true ->
  booted (boot script).
Proof.
  intros H. exists memory0, (fun _ => true), (before_boot (boot_script ++ script)).
  split; [apply memory0_wf|].
  destruct (returns_done _ _ (before_boot []) H) as (a & E & Ha). apply Z.eqb_eq in Ha. subst a.
  exact E.
Qed.

(** ** Steps *)

(** Fuel of the retry loops in the samples. *)
Definition sample_fuel : nat := 4.

Definition after_dispatch (s : sample_state) : sample_state := out_state (dispatch_one sample_fuel s) s.
Definition after_worker (k : nat) (s : sample_state) : sample_state :=
  out_state (worker_iteration sample_fuel k s) s.

Lemma after_dispatch_step (s : sample_state) :
  peer_safe s = true -> returns (dispatch_one sample_fuel s) is_none = true ->
  ins_step s (after_dispatch s).
Proof. intros Hp H. apply (step_dispatcher sample_fuel); [done|]. by apply returns_none. Qed.

Lemma after_worker_step k (s : sample_state) :
  (k < MAX_THREAD_COUNT)%nat -> returns (worker_iteration sample_fuel k s) (fun _ => true) = true ->
  ins_step s (after_worker k s).
Proof.
  intros Hk H. destruct (returns_done _ _ s H) as (e & E & _). by apply (step_worker sample_fuel k e).
Qed.

Lemma reachable_step {W} `{NetOSLaws W} (s s' : ins_state W) :
  reachable s -> ins_step s s' -> reachable s'.
Proof. intros (s0 & Hb & Hr) Hs. exists s0. split; [done|]. eapply rtc_r; eauto. Qed.

(** One socket is created, and a send is queued for it. *)
Definition sample0 : sample_state :=
  boot [res_bytes (create_request 1); res_ok 9; res_bytes (send_request 2 0 [104; 105]); res_ok 2].
Definition sample1 : sample_state := after_dispatch sample0.
Definition sample2 : sample_state := after_dispatch sample1.

Lemma sample0_reachable : reachable sample0.
Proof. exists sample0. split; [apply boot_booted; vm_compute; reflexivity|apply rtc_refl]. Qed.

Lemma sample1_reachable : reachable sample1.
Proof.
  eapply reachable_step; [apply sample0_reachable|].
  apply after_dispatch_step; vm_compute; reflexivity.
Qed.

Lemma sample2_reachable : reachable sample2.
Proof.
  eapply reachable_step; [apply sample1_reachable|].
  apply after_dispatch_step; vm_compute; reflexivity.
Qed.

(** ** Tests of one element *)

Definition some_and {A} (o : option A) (test : A -> bool) : bool :=
  match o with Some a => test a | None => false end.

Lemma some_and_spec {A} (o : option A) (test : A -> bool) :
  some_and o test = true -> exists a, o = Some a /\ test a = true.
Proof. destruct o as [a|]; simpl; [eauto|discriminate]. Qed.

Lemma forallb_Forall {A} (P : A -> Prop) `{forall x, Decision (P x)} (l : list A) :
  forallb (fun x => bool_decide (P x)) l = true -> Forall P l.
Proof.
  induction l as [|x l IH]; simpl; [constructor|].
  intros H2. apply andb_true_iff in H2 as [Hx Hl]. constructor; [by apply bool_decide_eq_true in Hx|auto].
Qed.

Lemma free_buffer_unqueued {W} `{NetOSLaws W} (s : ins_state W) i :
  reachable s -> some_and (buffers_of s !! i) (fun b => bi_in_use b =? 0) = true ->
  unqueued (queues_of s) i.
Proof.
  intros Hr Hb. apply some_and_spec in Hb as (b & Hb & E). zbool.
  apply (disp_free_unqueued None (queues_of s) (responses_of (st_trace s)) s i b); [|done|done].
  split; [by apply reachable_inv|done|done].
Qed.
