(* ===== verification/InsTheorems.v ===== *)
(** * InsTheorems: the INS application in every reachable state

    The properties of the whole dispatcher: its invariant, the absence of
    undefined accesses, what becomes of each request, and the queues and
    semaphores of the workers. *)

From stdpp Require Import base numbers list relations.
From Stdlib Require Import ZArith Lia.
From S2P Require Import Prelude MwSocket MessageTypes MwErrno Translate WorkQueue InsState InsFacts Pollset Networking NetworkingFacts Dispatcher DispatcherInv DispatcherFacts Ins Samples.

Section Claims.

Context {W : Type} {OS : NetOS W} {Laws : NetOSLaws W}.




(** (C14) A worker takes the oldest item of its queue and writes exactly
    one response for it, which answers the request it holds (unless the
    handler of an accept() or a receive call failed early); it exits only
    with an empty queue during a shutdown, so that work queued before a
    shutdown is drained. *)
Theorem worker_serves_oldest (s s' : ins_state W) (fuel k : nat) (exit : bool) :
  reachable s -> (k < MAX_THREAD_COUNT)%nat -> worker_iteration fuel k s = Done (exit, s') ->
  worker_result s k exit s'.
Proof.
  intros Hr Hk H. pose proof (worker_iteration_spec fuel k s (reachable_inv s Hr) Hk) as HD.
  rewrite H in HD. apply HD.
Qed.

(** A work queue never overflows: with as many slots as there are
    buffer items, an item that waits in no queue is always accepted. *)
Theorem work_queue_never_full (s : ins_state W) (k i : nat) (t : thread_item) :
  reachable s -> threads_of s !! k = Some t -> (i < BUFFER_ITEM_COUNT)%nat ->
  unqueued (queues_of s) i ->
  exists q, workqueue_enqueue (ti_work_queue t) (Z.of_nat i) = Done (0, q)
    /\ wq_abs q = wq_abs (ti_work_queue t) ++ [Z.of_nat i].
Proof.
  intros Hr Ht Hi Hu. pose proof (reachable_inv s Hr) as Hinv.
  pose proof (queue_has_room s None _ _ k t i (Build_disp _ _ _ _ s Hinv eq_refl eq_refl) Ht Hi Hu).
  pose proof (iv_thread _ _ Hinv k t Ht) as Hw.
  assert (in_s 16 (Z.of_nat i)) as Hr16
    by (unfold in_s; change BUFFER_ITEM_COUNT with 100%nat in Hi; lia).
  destruct (workqueue_enq_spec _ (Z.of_nat i) (tw_queue _ _ _ _ Hw) Hr16) as (rc & q & E & _ & _ & Hs).
  rewrite (tw_cap _ _ _ _ Hw), decide_False in Hs by lia. destruct Hs as [-> Ha]. by exists q.
Qed.

(** The semaphore of a worker counts its queue as long as no shutdown
    is pending: a worker that wakes up finds an item, and one that sleeps
    has none. *)
Theorem worker_wakes_for_work (s : ins_state W) (k : nat) (t : thread_item) :
  reachable s -> threads_of s !! k = Some t -> g_shutdown_pending (st_g s) = false ->
  (0 < ti_awaiting_work_sem t <-> wq_abs (ti_work_queue t) <> [])
  /\ ti_awaiting_work_sem t = Z.of_nat (length (wq_abs (ti_work_queue t))).
Proof.
  intros Hr Ht Hd. pose proof (iv_thread _ _ (reachable_inv s Hr) k t Ht) as Hw.
  pose proof (tw_sem _ _ _ _ Hw Hd) as Hs. unfold pending_at in Hs. rewrite decide_False in Hs by done.
  split; [|lia]. destruct (wq_abs (ti_work_queue t)); simpl in Hs; [|split; [done|lia]].
  split; [lia|done].
Qed.

End Claims.

(** ** Witnesses *)




Lemma worker_serves_oldest_witness :
  worker_result sample2 0 false (after_worker 0 sample2).
Proof.
  apply (worker_serves_oldest sample2 (after_worker 0 sample2) sample_fuel 0 false sample2_reachable);
    [vm_compute; lia|].
  destruct (returns_done (worker_iteration sample_fuel 0 sample2) negb sample2) as ([|] & E & Ha);
    [vm_compute; reflexivity|discriminate|exact E].
Defined.

Lemma work_queue_never_full_witness :
  exists t q, threads_of sample2 !! 0%nat = Some t
    /\ workqueue_enqueue (ti_work_queue t) 5 = Done (0, q).
Proof.
  destruct (some_and_spec (threads_of sample2 !! 0%nat) (fun _ => true)) as (t & Ht & _);
    [vm_compute; reflexivity|].
  destruct (work_queue_never_full sample2 0 5 t sample2_reachable Ht) as (q & E & _).
  - vm_compute. lia.
  - apply free_buffer_unqueued; [apply sample2_reachable|vm_compute; reflexivity].
  - exists t, q. split; [exact Ht|exact E].
Defined.

Lemma worker_wakes_for_work_witness :
  exists t, threads_of sample2 !! 0%nat = Some t /\ ti_awaiting_work_sem t = 1
    /\ wq_abs (ti_work_queue t) <> [].
Proof.
  destruct (some_and_spec (threads_of sample2 !! 0%nat) (fun t => ti_awaiting_work_sem t =? 1))
    as (t & Ht & E); [vm_compute; reflexivity|].
  zbool. exists t. split; [exact Ht|]. split; [exact E|].
  apply (worker_wakes_for_work sample2 0 t sample2_reachable Ht); [vm_compute; reflexivity|lia].
Defined.
