(* ===== verification/SocketLife.v ===== *)
(** * SocketLife: a socket from its creation to its release

    Which thread serves which descriptor: the lookup, the reservation of
    a free thread and of a free buffer item, and what creating and
    releasing a socket changes. *)

From stdpp Require Import base numbers list relations.
From Stdlib Require Import ZArith Lia.
From S2P Require Import Prelude MwSocket MessageTypes MwErrno Translate WorkQueue InsState InsFacts Pollset Networking NetworkingFacts Dispatcher DispatcherInv DispatcherFacts Ins Samples.

(** The descriptor of thread [k] of the INS with domain id [c]. *)
Definition ins_fd (c : Z) (k : nat) : Z := s64 (MW_SOCKET_CREATE c (Z.of_nat k)).

Lemma ins_fd_id c k :
  in_u 16 c -> (k < MAX_THREAD_COUNT)%nat ->
  s32 (MW_SOCKET_GET_ID (ins_fd c k)) = Z.of_nat k /\ 0 < ins_fd c k /\ in_s 64 (ins_fd c k).
Proof.
  intros Hc Hk. change MAX_THREAD_COUNT with 50%nat in Hk.
  assert (in_u 32 (Z.of_nat k)) as Hi by (unfold in_u; lia).
  unfold ins_fd. rewrite mw_socket_signed by done. rewrite mw_socket_get_id by done.
  pose proof (mw_socket_create_range c (Z.of_nat k) Hc Hi).
  split; [apply wraps_small; unfold in_s; lia|unfold in_s; lia].
Qed.

Section Lookup.

Context {W : Type} {OS : NetOS W}.

(** ** Scans *)

Lemma drop_lookup_cons {A} (l : list A) i x : l !! i = Some x -> drop i l = x :: drop (S i) l.
Proof. intros H. by rewrite <- (drop_S l x i H). Qed.

(** The first free thread from [i] on. *)
Lemma free_thread_scan_spec n i (s : ins_state W) :
  (i + n = length (threads_of s))%nat ->
  free_thread_scan n i s =
    match list_find (fun t => ti_in_use t = 0) (drop i (threads_of s)) with
    | Some (j, t) => Done ((0, Some (i + j)%nat), put_thread (i + j) (set_ti_in_use 1 t) s)
    | None => Done ((EBUSY, None), s)
    end.
Proof.
  revert i. induction n as [|n IH]; intros i Hi.
  - rewrite drop_ge by lia. reflexivity.
  - destruct (lookup_lt_is_Some_2 (threads_of s) i) as [t Ht]; [lia|].
    rewrite (drop_lookup_cons _ _ _ Ht). cbn [free_thread_scan list_find].
    unfold cas_thread_in_use, get_ti, upd_ti, bind, obind, ret. rewrite Ht.
    destruct (decide (ti_in_use t = 0)) as [E|E].
    + rewrite (proj2 (Z.eqb_eq _ _) E), Ht, Nat.add_0_r. reflexivity.
    + rewrite (proj2 (Z.eqb_neq _ _) E). cbn beta iota. rewrite (proj2 (Z.eqb_neq _ _) E).
      rewrite IH by lia. destruct (list_find _ (drop (S i) _)) as [[j t']|]; [|reflexivity].
      simpl. by rewrite Nat.add_succ_r.
Qed.

Lemma reserve_scan_spec n i (s : ins_state W) :
  (i + n = length (buffers_of s))%nat ->
  reserve_scan n i s =
    match list_find (fun b => bi_in_use b = 0) (drop i (buffers_of s)) with
    | Some (j, b) => Done ((0, Some (i + j)%nat), put_buffer (i + j) (set_bi_in_use 1 b) s)
    | None => Done ((EBUSY, None), s)
    end.
Proof.
  revert i. induction n as [|n IH]; intros i Hi.
  - rewrite drop_ge by lia. reflexivity.
  - destruct (lookup_lt_is_Some_2 (buffers_of s) i) as [t Ht]; [lia|].
    rewrite (drop_lookup_cons _ _ _ Ht). cbn [reserve_scan list_find].
    unfold cas_buffer_in_use, get_bi, upd_bi, bind, obind, ret. rewrite Ht.
    destruct (decide (bi_in_use t = 0)) as [E|E].
    + rewrite (proj2 (Z.eqb_eq _ _) E), Ht, Nat.add_0_r. reflexivity.
    + rewrite (proj2 (Z.eqb_neq _ _) E). cbn beta iota. rewrite (proj2 (Z.eqb_neq _ _) E).
      rewrite IH by lia. destruct (list_find _ (drop (S i) _)) as [[j t']|]; [|reflexivity].
      simpl. by rewrite Nat.add_succ_r.
Qed.

(** Reservation: reserve_available_buffer_item() hands out the
    buffer item of the lowest index that is free, and the request for the
    invalid descriptor the free worker thread of the lowest index; each
    is marked in use and nothing else changes. When all are in use the
    result is EBUSY and the state is untouched. *)
Theorem reservation_takes_lowest_free (s : ins_state W) :
  length (threads_of s) = MAX_THREAD_COUNT -> length (buffers_of s) = BUFFER_ITEM_COUNT ->
  reserve_available_buffer_item s =
    match list_find (fun b => bi_in_use b = 0) (buffers_of s) with
    | Some (j, b) => Done ((0, Some j), put_buffer j (set_bi_in_use 1 b) s)
    | None => Done ((EBUSY, None), s)
    end
  /\ get_worker_thread_for_fd MT_INVALID_SOCKET_FD s =
    match list_find (fun t => ti_in_use t = 0) (threads_of s) with
    | Some (j, t) => Done ((0, Some j), put_thread j (set_ti_in_use 1 t) s)
    | None => Done ((EBUSY, None), s)
    end.
Proof.
  intros Ht Hb. split.
  - unfold reserve_available_buffer_item. rewrite reserve_scan_spec by (by rewrite Hb). reflexivity.
  - unfold get_worker_thread_for_fd. rewrite Z.eqb_refl.
    rewrite free_thread_scan_spec by (by rewrite Ht). reflexivity.
Qed.

(** ** Lookup *)

(** Thread [k] is in use and known under [fd]. *)
Definition serves (s : ins_state W) (fd : Z) (k : nat) : bool :=
  match threads_of s !! k with
  | Some t => negb (ti_in_use t =? 0) && (fd =? ti_public_fd t)
  | None => false
  end.

Lemma lookup_fd c k (s : ins_state W) :
  in_u 16 c -> (k < MAX_THREAD_COUNT)%nat -> length (threads_of s) = MAX_THREAD_COUNT ->
  get_worker_thread_for_fd (ins_fd c k) s =
    Done (if serves s (ins_fd c k) k then (0, Some k) else (EINVAL, None), s).
Proof.
  intros Hc Hk Hl. destruct (ins_fd_id c k Hc Hk) as (Hid & Hpos & _).
  unfold get_worker_thread_for_fd, serves. rewrite Hid.
  rewrite (proj2 (Z.eqb_neq _ _)) by (unfold MT_INVALID_SOCKET_FD; lia). cbn zeta.
  rewrite (proj2 (Z.leb_gt _ _)) by lia. rewrite (proj2 (Z.ltb_ge _ _)) by lia.
  rewrite Nat2Z.id. destruct (lookup_lt_is_Some_2 (threads_of s) k) as [t Ht]; [lia|].
  unfold get_ti, bind, obind. rewrite Ht.
  destruct (ti_in_use t =? 0); [reflexivity|]. destruct (_ =? ti_public_fd t); reflexivity.
Qed.

(** Lookup: a descriptor made for socket id [k] finds thread [k]
    exactly when that thread is in use under this very descriptor, else
    the result is EINVAL; an id beyond the thread array is EINVAL; and an
    id whose 32 bits are negative as an [int] is not rejected, but used
    as an index in front of the array. The state never changes. *)
Theorem worker_lookup (s : ins_state W) (c fd : Z) (k : nat) :
  in_u 16 c -> length (threads_of s) = MAX_THREAD_COUNT ->
  ((k < MAX_THREAD_COUNT)%nat ->
   get_worker_thread_for_fd (ins_fd c k) s =
     Done (if serves s (ins_fd c k) k then (0, Some k) else (EINVAL, None), s))
  /\ (fd <> MT_INVALID_SOCKET_FD -> Z.of_nat MAX_THREAD_COUNT <= s32 (MW_SOCKET_GET_ID fd) ->
      get_worker_thread_for_fd fd s = Done ((EINVAL, None), s))
  /\ (fd <> MT_INVALID_SOCKET_FD -> s32 (MW_SOCKET_GET_ID fd) < 0 ->
      get_worker_thread_for_fd fd s = Undef).
Proof.
  intros Hc Hl. split; [intros Hk; by apply lookup_fd|].
  assert (0 <= Z.of_nat MAX_THREAD_COUNT) by lia.
  unfold get_worker_thread_for_fd. split; intros Hne Hid;
    rewrite (proj2 (Z.eqb_neq _ _)) by congruence; cbn zeta.
  - by rewrite (proj2 (Z.leb_le _ _) Hid).
  - rewrite (proj2 (Z.leb_gt _ _)) by lia. by rewrite (proj2 (Z.ltb_lt _ _) Hid).
Qed.

End Lookup.

Lemma sample2_lengths :
  length (threads_of sample2) = MAX_THREAD_COUNT /\ length (buffers_of sample2) = BUFFER_ITEM_COUNT.
Proof.
  pose proof (reachable_inv sample2 sample2_reachable) as Hi.
  split; [apply (iv_threads _ _ Hi)|apply (iv_buffers _ _ Hi)].
Qed.

(** Thread 0 and buffer item 0 are taken. *)
Lemma reservation_takes_lowest_free_witness :
  returns (reserve_available_buffer_item sample2)
    (fun r => bool_decide (r = (0, Some 1%nat))) = true
  /\ returns (get_worker_thread_for_fd MT_INVALID_SOCKET_FD sample2)
       (fun r => bool_decide (r = (0, Some 1%nat))) = true.
Proof.
  destruct sample2_lengths as [Ht Hb].
  destruct (reservation_takes_lowest_free sample2 Ht Hb) as [-> ->].
  split; vm_compute; reflexivity.
Defined.

Lemma worker_lookup_witness :
  get_worker_thread_for_fd (ins_fd sample_client 0) sample2 = Done ((0, Some 0%nat), sample2)
  /\ get_worker_thread_for_fd (ins_fd sample_client 1) sample2 = Done ((EINVAL, None), sample2)
  /\ get_worker_thread_for_fd (2 ^ 31) sample2 = Undef.
Proof.
  destruct sample2_lengths as [Ht _].
  assert (in_u 16 sample_client) as Hc by (unfold in_u, sample_client; lia).
  destruct (worker_lookup sample2 sample_client (2 ^ 31) 0 Hc Ht) as (H0 & _ & H2).
  destruct (worker_lookup sample2 sample_client (2 ^ 31) 1 Hc Ht) as (H1 & _ & _).
  split; [|split].
  - rewrite H0 by (vm_compute; lia).
    replace (serves sample2 (ins_fd sample_client 0) 0) with true; [reflexivity|].
    vm_compute. reflexivity.
  - rewrite H1 by (vm_compute; lia).
    replace (serves sample2 (ins_fd sample_client 1) 1) with false; [reflexivity|].
    vm_compute. reflexivity.
  - apply H2; [discriminate|vm_compute; reflexivity].
Defined.

(** ** Creating a socket *)

Section Create.

Context {W : Type} {OS : NetOS W} {Laws : NetOSLaws W}.

Lemma frame_run {A} (s : ins_state W) (m : ins_m W A) a s' :
  keeps (handler_frame s) m (fun _ => True) -> m s = Done (a, s') -> handler_frame s s'.
Proof. intros H Hm. by destruct (keeps_done _ _ _ _ _ _ H (handler_frame_refl s) Hm). Qed.

(** Initialising the descriptor leaves the threads alone. *)
Definition threads_fixed {A} (m : ins_m W A) : Prop :=
  forall s a s', m s = Done (a, s') ->
    g_worker_threads (st_g s') = g_worker_threads (st_g s)
    /\ g_client_id (st_g s') = g_client_id (st_g s)
    /\ g_stats_socket_ct (st_g s') = g_stats_socket_ct (st_g s).

Lemma tfix_sys c : threads_fixed (sys c).
Proof. intros s a s'. unfold sys. destruct (os_call _ _). by intros [= <- <-]. Qed.

Lemma tfix_gets {A} (f : ins_state W -> A) : threads_fixed (gets f).
Proof. intros s a s'. by intros [= <- <-]. Qed.

Lemma tfix_ret {A} (a : A) : threads_fixed (ret a : ins_m W A).
Proof. intros s b s'. by intros [= <- <-]. Qed.

Lemma tfix_bind {A B} (m : ins_m W A) (k : A -> ins_m W B) :
  threads_fixed m -> (forall a, threads_fixed (k a)) -> threads_fixed (bind m k).
Proof.
  intros Hm Hk s b s' H. run_step H a s1 E.
  destruct (Hm _ _ _ E) as (E1 & E2 & E3). destruct (Hk a _ _ _ H) as (F1 & F2 & F3).
  repeat split; congruence.
Qed.

Lemma tfix_setsockopt_if c fd name val k :
  threads_fixed k -> threads_fixed (setsockopt_if c fd name val k).
Proof.
  intros Hk. unfold setsockopt_if. destruct c; [|done].
  apply tfix_bind; [apply tfix_sys|]. intros r. destruct (truth _); [apply tfix_ret|done].
Qed.

Lemma tfix_init_socket fd : threads_fixed (xe_net_init_socket fd).
Proof.
  unfold xe_net_init_socket. apply tfix_bind; [apply tfix_gets|]. intros g.
  repeat apply tfix_setsockopt_if. apply tfix_ret.
Qed.

Lemma tfix_socket_retry fuel fam ty proto : threads_fixed (socket_retry fuel fam ty proto).
Proof.
  induction fuel as [|fuel IH]; simpl; [by intros s a s'|].
  apply tfix_bind; [apply tfix_sys|]. intros r. apply tfix_bind; [apply tfix_gets|]. intros e.
  destruct (_ && _); [done|apply tfix_ret].
Qed.

(** The thread that a successful creation leaves. *)
Definition created_thread (fam ty proto fd lfd : Z) (t : thread_item) : thread_item :=
  set_ti_public_fd fd (set_ti_local_fd lfd
    (set_ti_sock_domain fam (set_ti_sock_type ty (set_ti_sock_protocol proto t)))).

Lemma create_run fuel region resp k (s s' : ins_state W) t r :
  threads_of s !! k = Some t -> ti_idx t = Z.of_nat k ->
  in_u 16 (g_client_id (st_g s)) -> (k < MAX_THREAD_COUNT)%nat ->
  xe_net_create_socket fuel region resp k s = Done ((0, r), s') -> rs_status r = 0 ->
  exists lfd, 0 <= lfd /\ rs_sockfd r = ins_fd (g_client_id (st_g s)) k
    /\ threads_of s' = <[k := created_thread
         (xe_net_get_native_protocol_family (cr_sock_fam (get_socket_create region)))
         (xe_net_get_native_sock_type (cr_sock_type (get_socket_create region)))
         (s32 (cr_sock_protocol (get_socket_create region)))
         (ins_fd (g_client_id (st_g s)) k) lfd t]> (threads_of s)
    /\ g_stats_socket_ct (st_g s') = s32 (g_stats_socket_ct (st_g s) + 1).
Proof.
  intros Ht Hidx Hc Hk H Hst. unfold xe_net_create_socket in H. cbn zeta in H.
  run_step H lfd s1 E1. destruct (tfix_socket_retry _ _ _ _ _ _ _ E1) as (T1 & C1 & N1).
  destruct (lfd <? 0) eqn:El.
  - exfalso. run_step H p s2 E2. unfold XE_GET_NEG_ERRNO, gets, bind, obind, ret in E2.
    injection E2 as <- <-. cbn beta iota in H.
    run_step H rc s3 E3. destruct (truth rc) eqn:Erc.
    { injection H as -> _ _. discriminate. }
    run_step H u s4 E4. run_step H u' s5 E5. injection H as <- <-.
    unfold set_rs_sockfd, xe_net_set_base_response, set_rs_status in Hst. simpl in Hst.
    pose proof (neg_errno_range (st_errno s1)).
    rewrite wraps_small in Hst by (unfold in_s; lia). lia.
  - zbool. run_step H p s2 E2. unfold get_g, gets, get_ti, bind, obind, ret in E2.
    rewrite T1, Ht, C1, Hidx in E2. injection E2 as <- <-. cbn beta iota in H.
    run_step H rc s3 E3. destruct (tfix_init_socket _ _ _ _ E3) as (T3 & C3 & N3).
    destruct (truth rc) eqn:Erc; [injection H as -> _ _; discriminate|].
    run_step H u s4 E4. unfold upd_ti in E4. rewrite T3, T1, Ht in E4. injection E4 as _ <-.
    run_step H u' s5 E5. injection E5 as _ <-. injection H as <- <-.
    exists lfd. split; [done|]. split; [|split].
    + simpl. fold (ins_fd (g_client_id (st_g s)) k). apply wraps_small; [lia|].
      by apply ins_fd_id.
    + reflexivity.
    + simpl. by rewrite N3, N1.
Qed.

(** A socket that was created can be found: when the creation on a
    reserved thread succeeds, the response carries an mwsocket with the
    INS's domain id and the thread's index, the lookup of exactly that
    descriptor gives the thread back, it holds the descriptor that
    socket() returned, the other threads are as before, and the number
    of sockets has grown by one. *)
Theorem created_socket_is_found fuel region resp k (s s' : ins_state W) t r :
  ins_inv None s -> threads_of s !! k = Some t -> ti_in_use t = 1 ->
  xe_net_create_socket fuel region resp k s = Done ((0, r), s') -> rs_status r = 0 ->
  MW_SOCKET_IS_FD (rs_sockfd r) = true
  /\ MW_SOCKET_CLIENT_ID (rs_sockfd r) = g_client_id (st_g s)
  /\ MW_SOCKET_GET_ID (rs_sockfd r) = Z.of_nat k
  /\ get_worker_thread_for_fd (rs_sockfd r) s' = Done ((0, Some k), s')
  /\ (exists t', threads_of s' !! k = Some t' /\ 0 <= ti_local_fd t')
  /\ (forall j, j <> k -> threads_of s' !! j = threads_of s !! j)
  /\ g_stats_socket_ct (st_g s') = s32 (g_stats_socket_ct (st_g s) + 1).
Proof.
  intros Hinv Ht Hu H Hst.
  assert (k < MAX_THREAD_COUNT)%nat as Hk
    by (apply lookup_lt_Some in Ht; by rewrite (iv_threads _ _ Hinv) in Ht).
  pose proof (iv_client _ _ Hinv) as Hc.
  destruct (create_run _ _ _ _ _ _ _ _ Ht (tw_idx _ _ _ _ (iv_thread _ _ Hinv k t Ht)) Hc Hk H Hst)
    as (lfd & Hl & Hfd & HT & Hn).
  assert (in_u 32 (Z.of_nat k)) as Hi
    by (change MAX_THREAD_COUNT with 50%nat in Hk; unfold in_u; lia).
  pose proof (lookup_lt_Some _ _ _ Ht) as Hlt.
  rewrite Hfd. unfold ins_fd at 1 2 3. rewrite mw_socket_signed by done.
  split; [by apply mw_socket_is_fd|]. split; [by apply mw_socket_client_id|].
  split; [by apply mw_socket_get_id|]. split; [|split; [|split; [|done]]].
  - rewrite lookup_fd; [|done|done|rewrite HT, length_insert; apply (iv_threads _ _ Hinv)].
    unfold serves. rewrite HT, list_lookup_insert_eq by done. simpl. rewrite Hu, Z.eqb_refl. reflexivity.
  - eexists. rewrite HT, list_lookup_insert_eq by done. split; [reflexivity|done].
  - intros j Hj. rewrite HT. by apply list_lookup_insert_ne.
Qed.

End Create.

(** The witness creates a socket on the thread that was reserved for it. *)
Definition sample_reserved : sample_state :=
  out_state (get_worker_thread_for_fd MT_INVALID_SOCKET_FD (boot [res_ok 9])) (before_boot []).

Lemma lookup_inv {W} `{NetOSLaws W} (s s' : ins_state W) fd a :
  ins_inv None s -> fd_sane fd -> get_worker_thread_for_fd fd s = Done (a, s') -> ins_inv None s'.
Proof.
  intros Hi Hfd E. assert (disp None (queues_of s) (responses_of (st_trace s)) s) as Hd by done.
  pose proof (disp_get_worker None _ _ fd Hfd s Hd) as HK. rewrite E in HK. apply HK.
Qed.

Lemma sample_reserved_inv : ins_inv None sample_reserved.
Proof.
  assert (ins_inv None (boot [res_ok 9])) as Hb.
  { apply reachable_inv. eexists. split; [apply boot_booted; vm_compute; reflexivity|apply rtc_refl]. }
  assert (returns (get_worker_thread_for_fd MT_INVALID_SOCKET_FD (boot [res_ok 9])) (fun _ => true) = true)
    as E by (vm_compute; reflexivity).
  destruct (returns_done _ _ (before_boot []) E) as (a & Ea & _).
  exact (lookup_inv _ _ _ _ Hb (or_introl eq_refl) Ea).
Qed.

Lemma created_socket_is_found_witness :
  exists r s', xe_net_create_socket 2 (create_request 1) response_zero 0 sample_reserved = Done ((0, r), s')
    /\ get_worker_thread_for_fd (rs_sockfd r) s' = Done ((0, Some 0%nat), s').
Proof.
  assert (returns (xe_net_create_socket 2 (create_request 1) response_zero 0 sample_reserved)
    (fun p => (fst p =? 0) && (rs_status (snd p) =? 0)) = true) as E by (vm_compute; reflexivity).
  destruct (returns_done _ _ sample_reserved E) as ([rc r] & Ea & Hp).
  cbn [fst snd] in Hp. apply andb_true_iff in Hp as [Hrc Hst]. zbool. subst rc.
  destruct (some_and_spec (threads_of sample_reserved !! 0%nat) (fun t => ti_in_use t =? 1))
    as (t & Ht & Hu); [vm_compute; reflexivity|]. zbool.
  eexists r, _. split; [exact Ea|].
  apply (created_socket_is_found 2 (create_request 1) response_zero 0 sample_reserved _ t r
           sample_reserved_inv Ht Hu Ea). exact Hst.
Defined.

(** ** Closing a socket *)

Section Close.

Context {W : Type} {OS : NetOS W}.

(** A thread whose socket was closed. *)
Definition closed_thread (t : thread_item) : thread_item :=
  let t1 := set_ti_local_fd MT_INVALID_SOCKET_FD (set_ti_public_fd MT_INVALID_SOCKET_FD t) in
  if 0 =? ti_bound_port_num t then t1 else set_ti_bound_port_num 0 t1.

(** What closing the socket of [t] changes outside of its thread. *)
Definition closing (t : thread_item) (s s' : ins_state W) : Prop :=
  let open := negb (MT_INVALID_SOCKET_FD =? ti_local_fd t) in
  closes_of (st_trace s') = closes_of (st_trace s) ++ (if open then [ti_local_fd t] else [])
  /\ g_stats_socket_ct (st_g s') =
       (if open then s32 (g_stats_socket_ct (st_g s) - 1) else g_stats_socket_ct (st_g s))
  /\ g_pending_port_change (st_g s') =
       (if 0 =? ti_bound_port_num t then g_pending_port_change (st_g s) else true).

Lemma closes_of_snoc tr fd : closes_of (tr ++ [SysClose fd]) = closes_of tr ++ [fd].
Proof. unfold closes_of. by rewrite omap_app. Qed.

Lemma internal_close_run k (s : ins_state W) t :
  threads_of s !! k = Some t ->
  exists rc s', xe_net_internal_close_socket k s = Done (rc, s')
    /\ threads_of s' = <[k := closed_thread t]> (threads_of s) /\ closing t s s'.
Proof.
  intros Ht. pose proof (lookup_lt_Some _ _ _ Ht) as Hlt.
  unfold xe_net_internal_close_socket, closing, closed_thread, get_ti, upd_ti, upd_g, modify, when,
    XE_GET_NEG_ERRNO, gets, sys, bind, obind, ret. rewrite Ht.
  destruct (0 =? ti_bound_port_num t), (MT_INVALID_SOCKET_FD =? ti_local_fd t); simpl;
    try (destruct (os_call _ _) as [r w]; destruct (truth (r_ret r)); simpl);
    rewrite ?Ht; simpl; rewrite ?list_lookup_insert_eq, ?list_insert_insert_eq by done;
    eexists _, _; (split; [reflexivity|]); simpl;
    rewrite ?closes_of_snoc, ?app_nil_r; auto.
Qed.

(** A released thread: free, without socket, port or flags. *)
Definition released_thread (t : thread_item) : thread_item :=
  let t1 := closed_thread t in
  set_ti_in_use (if ti_in_use t =? 1 then 0 else ti_in_use t)
    (set_ti_remote_host (map (fun _ => 0) (ti_remote_host t1))
      (set_ti_bound_port_num 0 (set_ti_sock_protocol 0 (set_ti_sock_type 0
      (set_ti_sock_domain 0 (set_ti_state_flags 0 (set_ti_poll_events 0 t1))))))).

Lemma release_run k (s : ins_state W) t :
  threads_of s !! k = Some t ->
  exists s', release_worker_thread k s = Done (tt, s')
    /\ threads_of s' = <[k := released_thread t]> (threads_of s) /\ closing t s s'.
Proof.
  intros Ht. pose proof (lookup_lt_Some _ _ _ Ht) as Hlt.
  destruct (internal_close_run k s t Ht) as (rc & s1 & E & HT & Hc).
  unfold release_worker_thread, bind at 1. rewrite E. cbn [obind].
  unfold upd_ti, cas_thread_in_use, get_ti, bind, obind, ret. rewrite HT.
  rewrite list_lookup_insert_eq by done. simpl.
  rewrite list_insert_insert_eq, list_lookup_insert_eq by done.
  assert (ti_in_use (closed_thread t) = ti_in_use t) as Eu
    by (unfold closed_thread; by destruct (0 =? _)).
  simpl. rewrite Eu. unfold upd_ti, released_thread. simpl.
  destruct (ti_in_use t =? 1) eqn:E1; simpl.
  - rewrite list_lookup_insert_eq by done. eexists. split; [reflexivity|]. simpl.
    rewrite list_insert_insert_eq. split; [reflexivity|exact Hc].
  - eexists. split; [reflexivity|]. split; [|exact Hc]. simpl. do 2 f_equal.
    unfold set_ti_in_use. simpl. by rewrite <- Eu.
Qed.

(** (C34) A close request closes the socket once: xe_net_close_socket()
    followed by the release of the worker thread, as for a close request,
    issues close() for the thread's descriptor exactly once, counts one
    socket less, asks for a new list of listening ports exactly when the
    socket had a bound port, leaves the other threads alone, and frees
    the thread, so that no descriptor of this INS finds it any more. *)
Theorem close_request_closes_once region resp k (s : ins_state W) t c :
  threads_of s !! k = Some t -> ti_in_use t = 1 -> ti_local_fd t <> MT_INVALID_SOCKET_FD ->
  length (threads_of s) = MAX_THREAD_COUNT -> in_u 16 c ->
  exists r s', (let* p := xe_net_close_socket region resp k in
                release_worker_thread k ;;; ret p) s = Done ((0, r), s')
    /\ closes_of (st_trace s') = closes_of (st_trace s) ++ [ti_local_fd t]
    /\ g_stats_socket_ct (st_g s') = s32 (g_stats_socket_ct (st_g s) - 1)
    /\ g_pending_port_change (st_g s') =
         (if 0 =? ti_bound_port_num t then g_pending_port_change (st_g s) else true)
    /\ (forall j, j <> k -> threads_of s' !! j = threads_of s !! j)
    /\ get_worker_thread_for_fd (ins_fd c k) s' = Done ((EINVAL, None), s').
Proof.
  intros Ht Hu Hfd Hl Hc. pose proof (lookup_lt_Some _ _ _ Ht) as Hlt.
  destruct (internal_close_run k s t Ht) as (rc & s1 & E1 & HT1 & Hc1).
  assert (threads_of s1 !! k = Some (closed_thread t)) as Ht1
    by (rewrite HT1; by apply list_lookup_insert_eq).
  destruct (release_run k s1 _ Ht1) as (s2 & E2 & HT2 & Hc2).
  assert (ti_local_fd (closed_thread t) = -1 /\ ti_bound_port_num (closed_thread t) = 0
    /\ ti_in_use (closed_thread t) = 1) as (El & Eb & Eu).
  { unfold closed_thread. destruct (Z.eqb_spec 0 (ti_bound_port_num t)); simpl; auto. }
  unfold closing in Hc1, Hc2. rewrite (proj2 (Z.eqb_neq _ _)) in Hc1 by congruence.
  rewrite El, Eb in Hc2. simpl in Hc1, Hc2.
  destruct Hc1 as (A1 & A2 & A3), Hc2 as (B1 & B2 & B3).
  unfold xe_net_close_socket, bind. rewrite E1. simpl. rewrite E2. simpl.
  eexists _, _. split; [reflexivity|]. rewrite B1, B2, B3, A1, A2, A3, app_nil_r.
  do 3 (split; [reflexivity|]). split.
  - intros j Hj. by rewrite HT2, HT1, !list_lookup_insert_ne.
  - rewrite lookup_fd; [|done|lia|by rewrite HT2, HT1, !length_insert].
    unfold serves. rewrite HT2, HT1, list_lookup_insert_eq by (by rewrite length_insert).
    unfold released_thread. simpl. by rewrite Eu.
Qed.

End Close.

Lemma close_request_closes_once_witness :
  exists r s', (let* p := xe_net_close_socket (close_request 3 0) response_zero 0 in
                release_worker_thread 0 ;;; ret p) sample2 = Done ((0, r), s')
    /\ closes_of (st_trace s') = [9].
Proof.
  destruct sample2_lengths as [Hl _].
  destruct (some_and_spec (threads_of sample2 !! 0%nat)
    (fun t => (ti_in_use t =? 1) && (ti_local_fd t =? 9))) as (t & Ht & Hu); [vm_compute; reflexivity|].
  zbool. assert (in_u 16 sample_client) as Hc by (unfold in_u, sample_client; lia).
  assert (ti_local_fd t <> MT_INVALID_SOCKET_FD) as Hne by (unfold MT_INVALID_SOCKET_FD; lia).
  destruct (close_request_closes_once (close_request 3 0) response_zero 0 sample2 t sample_client
    Ht ltac:(assumption) Hne Hl Hc) as (r & s' & E & Hcl & _).
  exists r, s'. split; [exact E|]. rewrite Hcl.
  replace (ti_local_fd t) with 9 by lia.
  replace (closes_of (st_trace sample2)) with (@nil Z) by (vm_compute; reflexivity). reflexivity.
Defined.
