(* ===== verification/Streams.v ===== *)
(** * Streams: receiving and sending

    The receive handler against a reference on the answers of the system
    calls it makes, the retry loops, and the send loop against a sink
    that collects what send() accepted. *)

From stdpp Require Import base numbers list.
From Stdlib Require Import ZArith Lia.
From S2P Require Import Prelude MwSocket MessageTypes MwErrno Translate WorkQueue InsState InsFacts Pollset Networking NetworkingFacts Dispatcher DispatcherInv DispatcherFacts Ins Samples.

#[local] Arguments Z.eqb : simpl never.
#[local] Arguments Z.ltb : simpl never.

Section Recv.

Context {W : Type} {OS : NetOS W}.

(** ** Retries *)

(** An answer that was not an interruption. *)
Definition settled (r : sysres) : Prop := 0 <= r_ret r \/ r_err r <> EINTR.

Definition interrupted (r : sysres) : Prop := r_ret r < 0 /\ r_err r = EINTR.

(** The state after one call. *)
Definition called (c : syscall) (r : sysres) (w : W) (e : Z) (s : ins_state W) : ins_state W :=
  {| st_g := st_g s; st_ps := st_ps s; st_errno := if r_ret r <? 0 then r_err r else e;
     st_world := w; st_trace := st_trace s ++ [c] |}.

Lemma recv_retry_once fuel fd len flags (s : ins_state W) r w :
  os_call (SysRecv fd len flags) (st_world s) = (r, w) ->
  recv_retry (S fuel) fd len flags s =
    (if bool_decide (settled r)
     then Done (r, called (SysRecv fd len flags) r w 0 s)
     else recv_retry fuel fd len flags (called (SysRecv fd len flags) r w 0 s)).
Proof.
  intros E. cbn [recv_retry]. unfold set_errno, modify, get_errno, gets, sys, bind, obind, ret.
  simpl. rewrite E. unfold called. simpl.
  case_bool_decide as Hs; unfold settled in Hs.
  - destruct (Z.ltb_spec (r_ret r) 0); [|done]. simpl.
    rewrite (proj2 (Z.eqb_neq _ _)) by (destruct Hs; [lia|congruence]). done.
  - rewrite (proj2 (Z.ltb_lt _ _)) by lia. simpl.
    rewrite (proj2 (Z.eqb_eq _ _)); [done|]. destruct (Z.eq_dec (r_err r) EINTR); [done|].
    exfalso. apply Hs. by right.
Qed.

(** The answers of [n] interrupted calls and a settled one. *)
Fixpoint answers_of (c : syscall) (n : nat) (w : W) : sysres * W :=
  match n with
  | O => os_call c w
  | S n' => answers_of c n' (snd (os_call c w))
  end.

(** A receive that is interrupted is repeated: when the first [n]
    answers are EINTR and the next one is not, [n + 1] rounds of fuel are
    enough, the loop makes [n + 1] identical calls, and returns the last
    answer with errno set by it alone. *)
Theorem recv_retries_interrupts (n : nat) fd len flags (s : ins_state W) :
  (forall m, (m < n)%nat ->
     interrupted (fst (answers_of (SysRecv fd len flags) m (st_world s)))) ->
  settled (fst (answers_of (SysRecv fd len flags) n (st_world s))) ->
  exists s', recv_retry (S n) fd len flags s
             = Done (fst (answers_of (SysRecv fd len flags) n (st_world s)), s')
    /\ st_trace s' = st_trace s ++ replicate (S n) (SysRecv fd len flags)
    /\ st_world s' = snd (answers_of (SysRecv fd len flags) n (st_world s))
    /\ st_g s' = st_g s.
Proof.
  revert s. induction n as [|n IH]; intros s Hi Hs; simpl in Hs.
  - destruct (os_call _ (st_world s)) as [r w] eqn:E. simpl in Hs.
    rewrite (recv_retry_once _ _ _ _ _ _ _ E), bool_decide_true by done.
    simpl. rewrite E. eexists. split; [reflexivity|]. done.
  - destruct (os_call (SysRecv fd len flags) (st_world s)) as [r w] eqn:E. simpl in Hs.
    pose proof (Hi 0%nat ltac:(lia)) as H0. simpl in H0. rewrite E in H0. simpl in H0.
    rewrite (recv_retry_once _ _ _ _ _ _ _ E), bool_decide_false
      by (unfold settled; destruct H0; intros [?|?]; [lia|congruence]).
    simpl. rewrite E. simpl.
    destruct (IH (called (SysRecv fd len flags) r w 0 s)) as (s' & Hr & Ht & Hw & Hg).
    { intros m Hm. specialize (Hi (S m) ltac:(lia)). simpl in Hi. by rewrite E in Hi. }
    { done. }
    exists s'. split; [exact Hr|]. split; [|split; [exact Hw|exact Hg]].
    rewrite Ht. simpl. by rewrite <- app_assoc.
Qed.

(** ** The receive handler against its reference *)

(** What a receive amounts to: data, an error, a closed peer, an open
    peer with nothing to read, or a failed poll. *)
Inductive recv_outcome : Type :=
| RecvData (r : sysres)
| RecvError (err : Z)
| RecvClosed
| RecvIdle
| RecvPollFailed (err : Z).

(** From the answers to recv(), and after a first empty one to poll() and
    to recv() again: only an empty read of a socket that poll() reported
    readable means that the peer is gone. *)
Definition recv_reference (r0 rp r1 : sysres) : recv_outcome :=
  if r_ret r0 <? 0 then RecvError (r_err r0)
  else if 0 <? r_ret r0 then RecvData r0
  else if r_ret rp <? 0 then RecvPollFailed (r_err rp)
  else if r_ret r1 <? 0 then RecvError (r_err r1)
  else if 0 <? r_ret r1 then RecvData r1
  else if (0 <? r_ret rp) && has_flag (hd 0 (r_revents rp)) (Z.lor POLLIN POLLRDNORM)
  then RecvClosed else RecvIdle.

(** Status, body and the flags of the thread, per outcome. *)
Definition recv_effect (o : recv_outcome) (flags : Z) : Z * mt_response_body * Z :=
  match o with
  | RecvData r => (0, BodyRecv (r_ret r) (r_bytes r), flags)
  | RecvError e => (XE_GET_NEG_ERRNO_VAL e, BodyRecv 0 [], flags)
  | RecvClosed => (0, BodyRecv 0 [], Z.lor flags MT_FLAGS_REMOTE_CLOSED)
  | RecvIdle | RecvPollFailed _ => (0, BodyRecv 0 [], 0)
  end.

Definition poll_one (fd : Z) : syscall :=
  SysPoll [{| pf_fd := fd; pf_events := pollset_events; pf_revents := 0 |}] INFTIM.

Definition bounded_answer (r : sysres) : Prop :=
  r_ret r <= MESSAGE_TYPE_MAX_PAYLOAD_LEN /\ settled r /\ (r_ret r = 0 -> r_bytes r = []).

Lemma neg_errno_s32 e : s32 (XE_GET_NEG_ERRNO_VAL e) = XE_GET_NEG_ERRNO_VAL e.
Proof. pose proof (neg_errno_range e). apply wraps_small; unfold in_s; lia. Qed.

Lemma query_one_run fd ev (s : ins_state W) r w :
  os_call (poll_one fd) (st_world s) = (r, w) ->
  xe_pollset_query_one fd ev s =
    Done (if r_ret r <? 0 then (XE_GET_NEG_ERRNO_VAL (r_err r), ev)
          else (0, if r_ret r =? 0 then ev else hd 0 (r_revents r)),
          called (poll_one fd) r w (st_errno s) s).
Proof.
  intros E. unfold xe_pollset_query_one, sys, XE_GET_NEG_ERRNO, gets, bind, obind, ret, called.
  fold (poll_one fd). rewrite E. simpl.
  destruct (r_ret r <? 0); [reflexivity|]. destruct (r_ret r =? 0); [reflexivity|].
  by destruct (r_revents r).
Qed.

Lemma bounded_u16 r : bounded_answer r -> 0 <= r_ret r -> u16 (r_ret r) = r_ret r.
Proof.
  intros [H _] H0. apply wrapu_small. unfold in_u. sizes.
Qed.

(** One round of the loop. *)
Lemma recv_loop_step passes fuel k fd req flags polled ev resp (s : ins_state W) r w :
  os_call (SysRecv fd req flags) (st_world s) = (r, w) -> bounded_answer r ->
  recv_loop (S passes) (S fuel) k fd req flags polled ev resp s =
    (let s1 := called (SysRecv fd req flags) r w 0 s in
     if r_ret r <? 0 then
       Done ((None, set_rs_body (BodyRecv 0 []) (set_rs_status (XE_GET_NEG_ERRNO_VAL (r_err r)) resp)), s1)
     else
       let resp := set_rs_body (BodyRecv (r_ret r) (r_bytes r)) (set_rs_status 0 resp) in
       if 0 <? r_ret r then Done ((None, resp), s1)
       else if has_flag ev (Z.lor POLLIN POLLRDNORM) then
         (upd_ti k (fun t => set_ti_state_flags (Z.lor (ti_state_flags t) MT_FLAGS_REMOTE_CLOSED) t) ;;;
          ret (None, resp)) s1
       else if polled then (upd_ti k (set_ti_state_flags 0) ;;; ret (None, resp)) s1
       else (let* (rc, events) := xe_pollset_query_one fd ev in
             if truth rc then ret (Some rc, resp)
             else recv_loop passes (S fuel) k fd req flags true events resp) s1).
Proof.
  intros E Hb. pose proof Hb as (Hmax & Hset & _). cbn [recv_loop]. unfold bind at 1.
  rewrite (recv_retry_once _ _ _ _ _ _ _ E), bool_decide_true by done. cbn [obind].
  rewrite (proj2 (Z.ltb_ge _ _) Hmax). cbn zeta.
  destruct (Z.ltb_spec (r_ret r) 0) as [Hn|Hn].
  - unfold XE_GET_NEG_ERRNO, bind, gets, obind, ret. simpl.
    by rewrite (proj2 (Z.ltb_lt _ _) Hn).
  - rewrite bounded_u16 by done. repeat cond; reflexivity.
Qed.

(** The loop against the reference. *)
Definition recv_loop_effect (o : recv_outcome) (t : thread_item) (resp : mt_response)
    (err : option Z) (resp' : mt_response) (t' : thread_item) : Prop :=
  match o with
  | RecvPollFailed e => err = Some (XE_GET_NEG_ERRNO_VAL e) /\ rs_size resp' = rs_size resp /\ t' = t
  | _ => err = None
         /\ (rs_status resp', rs_body resp', ti_state_flags t') = recv_effect o (ti_state_flags t)
  end.

Lemma upd_ti_run k f (s : ins_state W) t :
  threads_of s !! k = Some t ->
  exists s', upd_ti k f s = Done (tt, s') /\ threads_of s' !! k = Some (f t).
Proof.
  intros Ht. unfold upd_ti. rewrite Ht. eexists. split; [reflexivity|].
  simpl. apply list_lookup_insert_eq. by eapply lookup_lt_Some.
Qed.

Lemma neg_errno_truth e : truth (XE_GET_NEG_ERRNO_VAL e) = true.
Proof. pose proof (neg_errno_range e). unfold truth. by rewrite (proj2 (Z.eqb_neq _ _)) by lia. Qed.

(** The second round: the events are known. *)
Lemma recv_round2 fuel k fd req flags ev resp (s : ins_state W) t r w :
  os_call (SysRecv fd req flags) (st_world s) = (r, w) -> bounded_answer r ->
  threads_of s !! k = Some t ->
  exists resp' s' t',
    recv_loop 1 (S fuel) k fd req flags true ev resp s = Done ((None, resp'), s')
    /\ threads_of s' !! k = Some t'
    /\ (rs_status resp', rs_body resp', ti_state_flags t')
       = recv_effect (if r_ret r <? 0 then RecvError (r_err r)
                      else if 0 <? r_ret r then RecvData r
                      else if has_flag ev (Z.lor POLLIN POLLRDNORM) then RecvClosed else RecvIdle)
           (ti_state_flags t).
Proof.
  intros E Hb Ht. pose proof Hb as (_ & _ & Hz).
  rewrite (recv_loop_step _ _ _ _ _ _ _ _ _ _ _ _ E Hb). cbn zeta.
  destruct (Z.ltb_spec (r_ret r) 0) as [Hn|Hn].
  { eexists _, _, t. split; [reflexivity|]. split; [exact Ht|]. simpl. by rewrite neg_errno_s32. }
  destruct (Z.ltb_spec 0 (r_ret r)) as [Hp|Hp].
  { eexists _, _, t. split; [reflexivity|]. split; [exact Ht|]. reflexivity. }
  assert (r_ret r = 0) as H0 by lia. rewrite H0, (Hz H0). unfold bind.
  destruct (has_flag ev _).
  - destruct (upd_ti_run k (fun t => set_ti_state_flags
      (Z.lor (ti_state_flags t) MT_FLAGS_REMOTE_CLOSED) t)
      (called (SysRecv fd req flags) r w 0 s) t Ht) as (s' & -> & Ht').
    eexists _, s', _. split; [reflexivity|]. split; [exact Ht'|]. reflexivity.
  - destruct (upd_ti_run k (set_ti_state_flags 0)
      (called (SysRecv fd req flags) r w 0 s) t Ht) as (s' & -> & Ht').
    eexists _, s', _. split; [reflexivity|]. split; [exact Ht'|]. reflexivity.
Qed.

Lemma recv_loop_reference fuel k fd req flags resp (s : ins_state W) t r0 w1 rp w2 r1 w3 :
  threads_of s !! k = Some t ->
  os_call (SysRecv fd req flags) (st_world s) = (r0, w1) ->
  os_call (poll_one fd) w1 = (rp, w2) ->
  os_call (SysRecv fd req flags) w2 = (r1, w3) ->
  bounded_answer r0 -> bounded_answer r1 ->
  exists err resp' s' t',
    recv_loop 2 (S fuel) k fd req flags false 0 resp s = Done ((err, resp'), s')
    /\ threads_of s' !! k = Some t'
    /\ recv_loop_effect (recv_reference r0 rp r1) t resp err resp' t'.
Proof.
  intros Ht E0 Ep E1 B0 B1. rewrite (recv_loop_step _ _ _ _ _ _ _ _ _ _ _ _ E0 B0). cbn zeta.
  unfold recv_reference.
  destruct (Z.ltb_spec (r_ret r0) 0) as [Hn|Hn].
  { eexists _, _, _, t. split; [reflexivity|]. split; [exact Ht|].
    split; [done|]. simpl. by rewrite neg_errno_s32. }
  destruct (Z.ltb_spec 0 (r_ret r0)) as [Hp|Hp].
  { eexists _, _, _, t. split; [reflexivity|]. split; [exact Ht|]. done. }
  rewrite has_flag_zero. unfold bind at 1.
  rewrite (query_one_run _ _ _ rp w2) by exact Ep. cbn [obind].
  destruct (Z.ltb_spec (r_ret rp) 0) as [Hrp|Hrp]; cbn beta iota.
  { rewrite neg_errno_truth. eexists _, _, _, t. split; [reflexivity|]. split; [exact Ht|]. done. }
  change (truth 0) with false. cbn iota.
  edestruct (recv_round2 fuel k fd req flags (if r_ret rp =? 0 then 0 else hd 0 (r_revents rp)))
    as (resp' & s' & t' & -> & Ht' & He); [exact E1|exact B1|exact Ht|].
  exists None, resp', s', t'. split; [reflexivity|]. split; [exact Ht'|].
  assert ((0 <? r_ret rp) && has_flag (hd 0 (r_revents rp)) (Z.lor POLLIN POLLRDNORM)
    = has_flag (if r_ret rp =? 0 then 0 else hd 0 (r_revents rp)) (Z.lor POLLIN POLLRDNORM)) as ->.
  { destruct (Z.eqb_spec (r_ret rp) 0) as [->|Hne]; [done|].
    by rewrite (proj2 (Z.ltb_lt _ _)) by lia. }
  by repeat cond.
Qed.

(** (C16) The receive handler does what its reference says, whatever the
    socket answers: data and errors go to the response with their count
    and size, an empty read is followed by exactly one poll and one more
    read, and only an empty read of a readable socket marks the thread as
    closed by the peer; a failing poll is the one case in which the
    handler returns before it has filled in the response's header. *)
Theorem recv_matches_reference fuel region resp k (s : ins_state W) t r0 w1 rp w2 r1 w3 :
  let rq := get_socket_recv region in
  let call := SysRecv (ti_local_fd t) (rv_requested rq) (xe_net_translate_msg_flags (rv_flags rq)) in
  threads_of s !! k = Some t ->
  os_call call (st_world s) = (r0, w1) -> os_call (poll_one (ti_local_fd t)) w1 = (rp, w2) ->
  os_call call w2 = (r1, w3) -> bounded_answer r0 -> bounded_answer r1 ->
  exists rc resp' s' t',
    xe_net_recv_socket (S fuel) region resp k s = Done ((rc, resp'), s')
    /\ threads_of s' !! k = Some t'
    /\ match recv_reference r0 rp r1 with
       | RecvPollFailed e => rc = XE_GET_NEG_ERRNO_VAL e /\ rs_size resp' = rs_size resp /\ t' = t
       | o => rc = 0 /\ (rs_status resp', rs_body resp', ti_state_flags t')
                        = recv_effect o (ti_state_flags t)
              /\ rs_size resp' = MT_RESPONSE_SOCKET_RECV_SIZE + body_count resp'
              /\ rs_id resp' = rq_id (get_request_base region)
       end.
Proof.
  intros rq call Ht E0 Ep E1 B0 B1. unfold xe_net_recv_socket, get_ti, bind at 1.
  rewrite Ht. cbn [obind]. fold rq.
  set (resp1 := set_rs_status 0 _).
  destruct (recv_loop_reference fuel k (ti_local_fd t) (rv_requested rq)
    (xe_net_translate_msg_flags (rv_flags rq)) resp1 s t r0 w1 rp w2 r1 w3 Ht E0 Ep E1 B0 B1)
    as (err & resp' & s' & t' & Hrun & Ht' & He).
  unfold bind at 1. rewrite Hrun. cbn [obind].
  unfold recv_loop_effect in He.
  assert (0 <= body_count resp' <= MESSAGE_TYPE_MAX_PAYLOAD_LEN ->
    u16 (MT_RESPONSE_SOCKET_RECV_SIZE + body_count resp')
    = MT_RESPONSE_SOCKET_RECV_SIZE + body_count resp') as Hu.
  { intros Hc. apply wrapu_small. unfold in_u. sizes. }
  assert (forall r, bounded_answer r -> 0 <= r_ret r ->
    0 <= r_ret r <= MESSAGE_TYPE_MAX_PAYLOAD_LEN) as Hbd by (intros r (? & _) ?; done).
  assert (0 <= 0 <= MESSAGE_TYPE_MAX_PAYLOAD_LEN) as Hz by sizes.
  unfold recv_reference in *.
  repeat match goal with
  | |- context [if ?x <? ?y then _ else _] => destruct (Z.ltb_spec x y)
  | |- context [if ?b then RecvClosed else _] => destruct b
  end; destruct He as [-> He];
  try (destruct He as [Hs ->]; eexists _, _, s', t; by split);
  injection He as Hst Hbody Hfl;
  unfold bind, upd_g, modify, obind, ret; eexists _, _, _, t';
  (split; [reflexivity|]); (split; [exact Ht'|]); (split; [reflexivity|]);
  (split; [cbn [rs_status rs_body xe_net_set_base_response]; by rewrite Hst, Hbody, Hfl|]); (split; [|reflexivity]);
  cbn [rs_size xe_net_set_base_response]; unfold body_count in *; simpl; rewrite Hbody in *; auto.
Qed.

End Recv.

(** A socket that was closed by the peer: poll() reports it readable and
    both reads are empty. *)
Definition sample_readable : sysres :=
  {| r_ret := 1; r_err := 0; r_bytes := []; r_addr := sockaddr_in_zero; r_alen := 0;
     r_revents := [POLLIN] |}.

Definition sample_closed : sample_state :=
  after_dispatch (boot [res_bytes (create_request 1); res_ok 9; res_ok 0; sample_readable; res_ok 0]).

Lemma recv_retries_interrupts_witness :
  exists s', recv_retry 2 9 100 0 (before_boot [res_err EINTR; res_bytes [7]])
             = Done (res_bytes [7], s').
Proof.
  destruct (recv_retries_interrupts 1 9 100 0 (before_boot [res_err EINTR; res_bytes [7]]))
    as (s' & E & _).
  - intros [|m] Hm; [|lia]. vm_compute. split; reflexivity.
  - left. vm_compute. discriminate.
  - exists s'. exact E.
Defined.

Lemma recv_matches_reference_witness :
  exists resp s' t', xe_net_recv_socket 1 (recv_request 5 0 100) response_zero 0 sample_closed
                     = Done ((0, resp), s')
    /\ threads_of s' !! 0%nat = Some t' /\ ti_state_flags t' = MT_FLAGS_REMOTE_CLOSED
    /\ rs_body resp = BodyRecv 0 [].
Proof.
  destruct (some_and_spec (threads_of sample_closed !! 0%nat)
    (fun t => (ti_local_fd t =? 9) && (ti_state_flags t =? 0))) as (t & Ht & Hu);
    [vm_compute; reflexivity|]. apply andb_true_iff in Hu as [Hu1 Hu2]. zbool.
  assert (st_world sample_closed = [res_ok 0; sample_readable; res_ok 0]) as Hw
    by (vm_compute; reflexivity).
  assert (get_socket_recv (recv_request 5 0 100) = {| rv_flags := 0; rv_requested := 100 |}) as Hrq
    by (vm_compute; reflexivity).
  assert (bounded_answer (res_ok 0)) as Hb by (split; [by vm_compute|split; [by left|done]]).
  destruct (recv_matches_reference 0 (recv_request 5 0 100) response_zero 0 sample_closed t
    (res_ok 0) [sample_readable; res_ok 0] sample_readable [res_ok 0] (res_ok 0) [])
    as (rc & resp & s' & t' & E & Ht' & -> & He & _).
  - exact Ht.
  - rewrite Hrq, Hw, Hu1. vm_compute. reflexivity.
  - rewrite Hu1. vm_compute. reflexivity.
  - rewrite Hrq, Hu1. vm_compute. reflexivity.
  - exact Hb.
  - exact Hb.
  - exists resp, s', t'. rewrite Hu2 in He. injection He as _ Hbody Hfl.
    split; [exact E|]. split; [exact Ht'|]. split; [exact Hfl|exact Hbody].
Defined.

(** ** Sending *)

(** A sink for what send() accepts. A send of a chunk either fails and
    takes nothing, or takes a first part of it that is not empty. *)
Class SendSink (W : Type) {OS : NetOS W} := {
  sink : W -> list Z;
  sink_send : forall fd chunk flags w, chunk <> [] ->
    let r := fst (os_call (SysSend fd chunk flags) w) in
    let w' := snd (os_call (SysSend fd chunk flags) w) in
    (r_ret r < 0 /\ sink w' = sink w)
    \/ (0 < r_ret r <= Z.of_nat (length chunk) /\ sink w' = sink w ++ take (Z.to_nat (r_ret r)) chunk);
  sink_poll : forall fds timeout w, sink (snd (os_call (SysPoll fds timeout) w)) = sink w
}.

Section Send.

Context {W : Type} {OS : NetOS W} {SK : SendSink W}.

(** The bytes [count .. max) of the payload. *)
Definition chunk_of (bytes : list Z) (mx count : Z) : list Z :=
  take (Z.to_nat (mx - count)) (drop (Z.to_nat count) bytes).

Lemma length_chunk bytes mx count :
  0 <= count <= mx -> mx <= Z.of_nat (length bytes) ->
  Z.of_nat (length (chunk_of bytes mx count)) = mx - count.
Proof. intros H1 H2. unfold chunk_of. rewrite length_take, length_drop. lia. Qed.

Lemma take_chunk bytes mx count n :
  0 <= count -> 0 <= n -> count + n <= mx ->
  take (Z.to_nat count) bytes ++ take (Z.to_nat n) (chunk_of bytes mx count)
  = take (Z.to_nat (count + n)) bytes.
Proof.
  intros Hc Hn Hm. unfold chunk_of. rewrite take_take, Z2Nat.inj_add by lia.
  rewrite Nat.min_l by lia. rewrite take_take_drop. reflexivity.
Qed.

(** One call to send(), without the unfolded loop. *)
Lemma send_loop_step fuel k fd flags mx bytes count resp (s : ins_state W) :
  count < mx ->
  send_loop (S fuel) k fd flags mx bytes count resp s =
    (let call := SysSend fd (chunk_of bytes mx count) flags in
     let r := fst (os_call call (st_world s)) in
     let s1 := called call r (snd (os_call call (st_world s))) (st_errno s) s in
     if r_ret r <? 0 then
       if (EAGAIN =? r_err r) || (EWOULDBLOCK =? r_err r) then
         (sys (SysPoll [{| pf_fd := fd; pf_events := POLLOUT; pf_revents := 0 |}] (-1)) ;;;
          send_loop fuel k fd flags mx bytes count resp) s1
       else
         (upd_ti k (set_ti_state_flags
            (if - MW_EPIPE =? XE_GET_NEG_ERRNO_VAL (r_err r) then MT_FLAGS_REMOTE_CLOSED else 0)) ;;;
          ret (count, set_rs_status (XE_GET_NEG_ERRNO_VAL (r_err r)) resp)) s1
     else send_loop fuel k fd flags mx bytes (u16 (count + r_ret r)) resp s1).
Proof.
  intros Hlt. cbn [send_loop]. rewrite (proj2 (Z.ltb_lt _ _) Hlt).
  unfold sys at 1, bind at 1, chunk_of. cbn zeta.
  destruct (os_call _ (st_world s)) as [r w] eqn:E. cbn [obind fst snd].
  destruct (r_ret r <? 0) eqn:En; [|unfold called; by rewrite En].
  unfold get_errno, gets, bind at 1, obind at 1, called. rewrite En.
  cbn [st_errno]. by destruct (_ || _).
Qed.

(** What the loop has sent when it stops. *)
Definition send_post (s0 : list Z) (mx : Z) (bytes : list Z) (count : Z) (resp0 resp : mt_response)
    (s : ins_state W) : Prop :=
  sink (st_world s) = s0 ++ take (Z.to_nat count) bytes
  /\ 0 <= count <= Z.max 0 mx
  /\ ((count = Z.max 0 mx /\ resp = resp0)
      \/ exists err, err <> EAGAIN /\ rs_status resp = XE_GET_NEG_ERRNO_VAL err).

Lemma send_loop_sends fuel k fd flags mx bytes count resp s0 (s : ins_state W) c r s' :
  mx <= Z.of_nat (length bytes) -> mx <= MESSAGE_TYPE_MAX_PAYLOAD_LEN ->
  0 <= count <= Z.max 0 mx ->
  sink (st_world s) = s0 ++ take (Z.to_nat count) bytes ->
  send_loop fuel k fd flags mx bytes count resp s = Done ((c, r), s') ->
  send_post s0 mx bytes c resp r s'.
Proof.
  intros Hlen Hmax. revert count s. induction fuel as [|fuel IH]; intros count s Hc Hs Hrun.
  - simpl in Hrun. destruct (Z.ltb_spec count mx); [discriminate|].
    injection Hrun as <- <- <-. split; [done|]. split; [done|]. left. split; [lia|done].
  - destruct (Z_lt_le_dec count mx) as [Hlt|Hge].
    2: { simpl in Hrun. rewrite (proj2 (Z.ltb_ge _ _) Hge) in Hrun.
         injection Hrun as <- <- <-. split; [done|]. split; [done|]. left. split; [lia|done]. }
    rewrite send_loop_step in Hrun by done. cbn zeta in Hrun.
    set (chunk := chunk_of bytes mx count) in *.
    assert (Z.of_nat (length chunk) = mx - count) as Hlc by (apply length_chunk; lia).
    assert (chunk <> []) as Hne by (intros ->; simpl in Hlc; lia).
    pose proof (sink_send fd chunk flags (st_world s) Hne) as Hsink. cbn zeta in Hsink.
    destruct (os_call (SysSend fd chunk flags) (st_world s)) as [ans w]. cbn [fst snd] in *.
    destruct Hsink as [[Hneg Hw]|[Hpos Hw]].
    + rewrite (proj2 (Z.ltb_lt _ _) Hneg) in Hrun. destruct (_ || _) eqn:Eagain.
      * run_step Hrun p s2 E2. unfold sys in E2.
        pose proof (sink_poll [{| pf_fd := fd; pf_events := POLLOUT; pf_revents := 0 |}] (-1)
          (st_world (called (SysSend fd chunk flags) ans w (st_errno s) s))) as Hp.
        destruct (os_call (SysPoll _ _) _) as [ans2 w2]. injection E2 as _ <-.
        apply (IH count _ Hc) in Hrun; [done|]. simpl in *. congruence.
      * run_step Hrun u s2 E2. unfold upd_ti in E2. destruct (_ !! k); [|discriminate].
        injection E2 as _ <-. injection Hrun as <- <- <-. split; [simpl; congruence|].
        split; [lia|]. right. exists (r_err ans). split; [|apply neg_errno_s32].
        apply orb_false_iff in Eagain as [Ea _]. zbool. congruence.
    + rewrite (proj2 (Z.ltb_ge _ _)) in Hrun by lia.
      assert (u16 (count + r_ret ans) = count + r_ret ans) as Hu.
      { apply wrapu_small. unfold in_u. sizes. }
      rewrite Hu in Hrun. apply IH in Hrun; [done|lia|]. simpl. rewrite Hw, Hs, <- app_assoc.
      f_equal. apply take_chunk; lia.
Qed.

(** Enough fuel when the socket never asks to be polled. *)
Lemma send_loop_terminates fuel k fd flags mx bytes count resp (s : ins_state W) :
  mx <= Z.of_nat (length bytes) -> mx <= MESSAGE_TYPE_MAX_PAYLOAD_LEN -> 0 <= count ->
  mx - count <= Z.of_nat fuel ->
  (forall chunk w, let r := fst (os_call (SysSend fd chunk flags) w) in
     r_ret r < 0 -> r_err r <> EAGAIN /\ r_err r <> EWOULDBLOCK) ->
  send_loop fuel k fd flags mx bytes count resp s <> Fuel.
Proof.
  intros Hlen Hmax Hc Hf Hno. revert count s Hc Hf. induction fuel as [|fuel IH]; intros count s Hc Hf.
  - simpl. rewrite (proj2 (Z.ltb_ge _ _)) by lia. discriminate.
  - destruct (Z_lt_le_dec count mx) as [Hlt|Hge].
    2: { simpl. rewrite (proj2 (Z.ltb_ge _ _) Hge). discriminate. }
    rewrite send_loop_step by done. cbn zeta.
    set (chunk := chunk_of bytes mx count) in *.
    assert (Z.of_nat (length chunk) = mx - count) as Hlc by (apply length_chunk; lia).
    assert (chunk <> []) as Hne by (intros Hnil; rewrite Hnil in Hlc; simpl in Hlc; lia).
    pose proof (sink_send fd chunk flags (st_world s) Hne) as Hsink. cbn zeta in Hsink.
    specialize (Hno chunk (st_world s)). cbn zeta in Hno.
    destruct (os_call (SysSend fd chunk flags) (st_world s)) as [ans w]. cbn [fst snd] in *.
    destruct Hsink as [[Hneg _]|[Hpos _]].
    + rewrite (proj2 (Z.ltb_lt _ _) Hneg). destruct (Hno Hneg) as [H1 H2].
      rewrite !(proj2 (Z.eqb_neq _ _)) by congruence. simpl. unfold bind, upd_ti.
      by destruct (_ !! k).
    + rewrite (proj2 (Z.ltb_ge _ _)) by lia.
      assert (u16 (count + r_ret ans) = count + r_ret ans) as ->.
      { apply wrapu_small. unfold in_u. sizes. }
      apply IH; lia.
Qed.

(** (C17) The send handler delivers the payload in order: whatever the
    sizes of the pieces send() accepts and however often it must wait for
    room, what reaches the socket is the first [count] bytes of the
    request's payload and nothing else, where [count] is the number the
    response reports; it is the whole payload unless a fatal error is
    reported, EAGAIN never is one, and the request always gets a response
    with return code 0. *)
Theorem send_delivers_prefix fuel region resp k (s s' : ins_state W) rc r :
  let base := get_request_base region in
  let payload := sn_bytes (get_socket_send region) in
  rq_size base <= ONE_REQUEST_REGION_SIZE ->
  send_max_expected base <= Z.of_nat (length payload) ->
  xe_net_send_socket fuel region resp k s = Done ((rc, r), s') ->
  exists count, rc = 0 /\ response_for base r
    /\ rs_body r = BodySend (sn_flags (get_socket_send region)) count
    /\ 0 <= count <= Z.max 0 (send_max_expected base)
    /\ sink (st_world s') = sink (st_world s) ++ take (Z.to_nat count) payload
    /\ ((rs_status r = 0 /\ count = Z.max 0 (send_max_expected base))
        \/ exists err, err <> EAGAIN /\ rs_status r = XE_GET_NEG_ERRNO_VAL err).
Proof.
  intros base payload Hsz Hlen Hrun. unfold xe_net_send_socket in Hrun. fold base payload in Hrun.
  assert (send_max_expected base <= MESSAGE_TYPE_MAX_PAYLOAD_LEN) as Hmax.
  { unfold base in *. rewrite send_max_expected_value in *. revert Hsz.
    change ONE_REQUEST_REGION_SIZE with 2017. change MESSAGE_TYPE_MAX_PAYLOAD_LEN with 1985.
    change MT_REQUEST_SOCKET_SEND_SIZE with 32. lia. }
  cbn zeta in Hrun. rewrite (proj2 (Z.ltb_ge _ _) Hmax) in Hrun.
  run_step Hrun t s1 E1. unfold get_ti in E1. destruct (_ !! k); [|discriminate].
  injection E1 as -> <-. run_step Hrun p s2 E2. destruct p as [count r2].
  apply (send_loop_sends _ _ _ _ _ _ _ _ (sink (st_world s))) in E2 as (Hs & Hc & Hr);
    [|done|done|lia|simpl; by rewrite app_nil_r].
  run_step Hrun u s3 E3. injection E3 as _ <-. injection Hrun as <- <- <-.
  exists count. split; [done|]. split; [apply response_for_base; vm_compute; split; discriminate|].
  split; [done|]. split; [done|]. split; [exact Hs|].
  destruct Hr as [[-> ->]|(err & He & Hst)]; [left; done|right; by exists err].
Qed.

(** The send loop ends: when the socket never asks for a poll, one
    round of fuel per byte of the payload is enough. *)
Theorem send_loop_enough_fuel k fd flags mx bytes resp (s : ins_state W) :
  mx <= Z.of_nat (length bytes) -> mx <= MESSAGE_TYPE_MAX_PAYLOAD_LEN ->
  (forall chunk w, let r := fst (os_call (SysSend fd chunk flags) w) in
     r_ret r < 0 -> r_err r <> EAGAIN /\ r_err r <> EWOULDBLOCK) ->
  send_loop (Z.to_nat mx) k fd flags mx bytes 0 resp s <> Fuel.
Proof. intros. apply send_loop_terminates; auto; lia. Qed.

End Send.

(** A socket that takes at most two bytes at a time. *)
Definition two_bytes_call (c : syscall) (w : list Z) : sysres * list Z :=
  match c with
  | SysSend _ chunk _ => (res_ok (Z.of_nat (length (take 2 chunk))), w ++ take 2 chunk)
  | _ => (res_ok 0, w)
  end.

#[export] Instance TwoBytesOS : NetOS (list Z) := two_bytes_call.

Lemma two_bytes_takes fd chunk flags w :
  chunk <> [] ->
  let r := fst (two_bytes_call (SysSend fd chunk flags) w) in
  let w' := snd (two_bytes_call (SysSend fd chunk flags) w) in
  0 < r_ret r <= Z.of_nat (length chunk) /\ w' = w ++ take (Z.to_nat (r_ret r)) chunk.
Proof.
  intros Hne. destruct chunk as [|x [|y rest]]; [done| |]; (split; [simpl; lia|done]).
Qed.

#[export] Instance TwoBytesSink : SendSink (list Z).
Proof.
  refine {| sink := fun w : list Z => w |}.
  - intros fd chunk flags w Hne. right. apply two_bytes_takes, Hne.
  - reflexivity.
Defined.

Definition two_bytes_state : ins_state (list Z) :=
  {| st_g := set_g_worker_threads [zero_thread 0 sample_wq] (zero_globals []);
     st_ps := {| ps_init := false; ps_fds := []; ps_cur_pos := 0 |};
     st_errno := 0; st_world := []; st_trace := [] |}.

Definition long_send_request : list Z :=
  send_request 2 0 [104; 101; 108; 108; 111] ++ replicate 1980 0.

Lemma send_delivers_prefix_witness :
  exists r s', xe_net_send_socket 5 long_send_request response_zero 0 two_bytes_state = Done ((0, r), s')
    /\ st_world s' = [104; 101; 108; 108; 111] /\ rs_status r = 0.
Proof.
  assert (returns (xe_net_send_socket 5 long_send_request response_zero 0 two_bytes_state)
    (fun p => rs_status (snd p) =? 0) = true) as E by (vm_compute; reflexivity).
  destruct (returns_done _ _ two_bytes_state E) as ([rc r] & Ea & Hp).
  cbn [snd] in Hp. zbool. set (s1 := out_state _ _) in Ea.
  assert (send_max_expected (get_request_base long_send_request) = 5) as Hmax
    by (vm_compute; reflexivity).
  destruct (send_delivers_prefix 5 long_send_request response_zero 0 two_bytes_state s1 rc r)
    as (count & -> & _ & _ & _ & Hs & Hr).
  - vm_compute. discriminate.
  - rewrite Hmax. vm_compute. discriminate.
  - exact Ea.
  - exists r, s1. split; [exact Ea|]. split; [|exact Hp].
    destruct Hr as [[_ ->]|(err & _ & Hst)].
    + rewrite Hmax in Hs. refine (eq_trans Hs _). vm_compute. reflexivity.
    + pose proof (neg_errno_range err). lia.
Defined.

Lemma send_loop_enough_fuel_witness :
  send_loop 3 0 9 0 3 [1; 2; 3] 0 response_zero two_bytes_state <> Fuel.
Proof.
  apply (send_loop_enough_fuel 0 9 0 3 [1; 2; 3] response_zero two_bytes_state).
  - vm_compute. discriminate.
  - vm_compute. discriminate.
  - intros chunk w r Hr. exfalso. revert Hr. unfold r. simpl. lia.
Defined.
