(* ===== verification/Reports.v ===== *)
(** * Reports: what the INS publishes about itself

    The texts of the listening ports and of the heartbeat, which other
    parts of the system read from the XenStore, and the items of a
    pollset query. *)

From stdpp Require Import base numbers list.
From Stdlib Require Import ZArith Lia.
From S2P Require Import Prelude Text MwSocket MessageTypes MwErrno Translate WorkQueue InsState InsFacts Pollset Networking NetworkingFacts Dispatcher DispatcherInv DispatcherFacts Ins Samples.

#[local] Arguments Z.eqb : simpl never.
#[local] Arguments Z.ltb : simpl never.
#[local] Arguments Z.div : simpl never.
#[local] Arguments Z.modulo : simpl never.

(** ** Listening ports *)

Definition bound_ports (threads : list thread_item) : list Z :=
  omap (fun t => if (ti_in_use t =? 0) || (ti_bound_port_num t =? 0) then None
                 else Some (ti_bound_port_num t)) threads.

Definition port_text (port : Z) : list Z := hex_text port ++ [32].

Lemma length_port_text port : in_u 16 port -> (length (port_text port) <= 5)%nat.
Proof.
  intros H. unfold port_text. rewrite length_app. simpl.
  pose proof (length_hex_text 4 port H ltac:(lia)). lia.
Qed.

Lemma listening_scan_spec threads text :
  Forall (fun t => in_u 16 (ti_bound_port_num t)) threads ->
  Z.of_nat (length text) + 5 * Z.of_nat (length threads) < INS_LISTENING_PORTS_MAX_LEN ->
  listening_ports_scan threads text = (0, text ++ concat (map port_text (bound_ports threads))).
Proof.
  intros HF. revert text. induction HF as [|t threads Ht _ IH]; intros text Hl.
  - simpl. by rewrite app_nil_r.
  - cbn [listening_ports_scan length] in *. unfold bound_ports. cbn [omap list_omap].
    fold (bound_ports threads).
    destruct (ti_in_use t =? 0); simpl; [apply IH; lia|].
    destruct (ti_bound_port_num t =? 0); simpl; [apply IH; lia|].
    pose proof (length_port_text _ Ht) as H5.
    assert (snprintf 6 (hex_text (ti_bound_port_num t) ++ [32]) = port_text (ti_bound_port_num t)) as ->.
    { unfold snprintf. apply take_ge. exact H5. }
    set (port := port_text (ti_bound_port_num t)) in *.
    unfold INS_LISTENING_PORTS_MAX_LEN in *.
    rewrite (proj2 (Z.ltb_ge _ _)) by lia.
    rewrite take_ge by lia. rewrite IH by (rewrite length_app; lia).
    by rewrite <- app_assoc.
Qed.

Section Publish.

Context {W : Type} {OS : NetOS W}.

(** The published list is complete: when the set of ports changed,
    update_listening_ports() publishes the hexadecimal numbers of exactly
    the bound ports of the threads in use, in the order of the threads,
    each followed by a space, in one ioctl, and clears the pending flag;
    fifty ports always fit, so that the overflow exit is never taken.
    Without a change nothing happens. *)
Theorem listening_ports_complete (s : ins_state W) :
  length (threads_of s) = MAX_THREAD_COUNT ->
  Forall (fun t => in_u 16 (ti_bound_port_num t)) (threads_of s) ->
  let text := concat (map port_text (bound_ports (threads_of s))) in
  exists rc s', update_listening_ports s = Done (rc, s')
    /\ if g_pending_port_change (st_g s)
       then st_trace s' = st_trace s ++ [SysIoctlPublishListeners (g_input_fd (st_g s)) text]
            /\ g_pending_port_change (st_g s') = false
            /\ rc = r_ret (fst (os_call (SysIoctlPublishListeners (g_input_fd (st_g s)) text) (st_world s)))
       else rc = 0 /\ s' = s.
Proof.
  intros Hl HF text. unfold update_listening_ports, get_g, upd_g, modify, gets, bind, obind, ret.
  destruct (g_pending_port_change (st_g s)) eqn:Hp; simpl; [|by eexists _, _].
  rewrite listening_scan_spec; [|exact HF|].
  2: { rewrite Hl. by vm_compute. }
  simpl. fold text. unfold sys. simpl. destruct (os_call _ _) as [r w]. simpl.
  eexists _, _. split; [reflexivity|]. done.
Qed.

(** The heartbeat is never cut: the text of the four statistics,
    the sixteen-digit worst case of each counter included, fits the
    64-byte buffer, so that the whole of it is published. *)
Theorem heartbeat_fits (s : ins_state W) :
  in_u 64 (g_stats_bytes_recv (st_g s)) -> in_u 64 (g_stats_bytes_sent (st_g s)) ->
  g_shutdown_pending (st_g s) = false ->
  Z.of_nat (length (heartbeat_text (st_g s))) < INS_NETWORK_STATS_MAX_LEN
  /\ exists s', heartbeat_iteration s = Done (true, s')
     /\ st_trace s' = st_trace s ++ [SysIoctlHeartbeat (g_input_fd (st_g s)) (heartbeat_text (st_g s))].
Proof.
  intros Hr Hs Hd. assert (Z.of_nat (length (heartbeat_text (st_g s))) < INS_NETWORK_STATS_MAX_LEN) as Hl.
  { unfold heartbeat_text. rewrite !length_app. simpl length.
    pose proof (length_hex_text 16 (u64 (g_stats_socket_ct (st_g s)))
      (wrapu_range 64 _ ltac:(lia)) ltac:(lia)).
    pose proof (length_hex_text 16 _ Hr ltac:(lia)). pose proof (length_hex_text 16 _ Hs ltac:(lia)).
    change (length (hex_text (Z.of_nat MAX_THREAD_COUNT))) with 2%nat.
    unfold INS_NETWORK_STATS_MAX_LEN. lia. }
  split; [exact Hl|]. unfold heartbeat_iteration, get_g, gets, bind, obind, ret, sys. simpl. rewrite Hd.
  assert (snprintf INS_NETWORK_STATS_MAX_LEN (heartbeat_text (st_g s)) = heartbeat_text (st_g s)) as ->.
  { unfold snprintf. apply take_ge. unfold INS_NETWORK_STATS_MAX_LEN in *. lia. }
  destruct (os_call _ _) as [r w]. eexists. split; [reflexivity|]. reflexivity.
Qed.

End Publish.

(** Thread 0 bound to port 8080. *)
Definition sample_bound : sample_state :=
  set_st_g (set_g_pending_port_change true (set_g_worker_threads
    (alter (set_ti_bound_port_num 8080) 0%nat (threads_of sample2)) (st_g sample2))) sample2.

Lemma listening_ports_complete_witness :
  exists rc s', update_listening_ports sample_bound = Done (rc, s')
    /\ last (st_trace s') = Some (SysIoctlPublishListeners 3 [49; 102; 57; 48; 32]).
Proof.
  destruct (listening_ports_complete sample_bound) as (rc & s' & E & H).
  - vm_compute. reflexivity.
  - refine (forallb_Forall _ _ _). vm_compute. reflexivity.
  - replace (g_pending_port_change (st_g sample_bound)) with true in H by (vm_compute; reflexivity).
    destruct H as (Ht & _ & _). exists rc, s'.
    assert (concat (map port_text (bound_ports (threads_of sample_bound))) = [49; 102; 57; 48; 32]) as Etext
      by (vm_compute; reflexivity).
    assert (g_input_fd (st_g sample_bound) = 3) as Efd by (vm_compute; reflexivity).
    rewrite Etext, Efd in Ht. split.
    + exact E.
    + rewrite Ht. apply last_snoc.
Defined.

Lemma heartbeat_fits_witness :
  exists s', heartbeat_iteration sample2 = Done (true, s')
    /\ last (st_trace s') = Some (SysIoctlHeartbeat 3 [51; 50; 58; 49; 58; 48; 58; 48]).
Proof.
  destruct (heartbeat_fits sample2) as (_ & s' & E & Ht).
  - vm_compute. split; [discriminate|reflexivity].
  - vm_compute. split; [discriminate|reflexivity].
  - vm_compute. reflexivity.
  - exists s'. split; [exact E|]. rewrite Ht, last_snoc. vm_compute. reflexivity.
Defined.

(** ** The pollset query *)

(** The order in which one scan visits the threads, from position [c]. *)
Fixpoint visit_order (n : nat) (c : Z) : list nat :=
  match n with
  | O => []
  | S n' => let cur := c mod Z.of_nat MAX_THREAD_COUNT in Z.to_nat cur :: visit_order n' (cur + 1)
  end.

(** What is reported for thread [j], if anything. *)
Definition poll_report (fds : list Z) (revents : list Z) (j : nat) : option mt_pollset_query_item :=
  let ev := nth j revents 0 in
  if ev =? 0 then None
  else Some {| qi_sockfd := nth j fds 0; qi_events := translate_revents ev |}.

Lemma visit_order_mod n c : visit_order n (c mod Z.of_nat MAX_THREAD_COUNT) = visit_order n c.
Proof. destruct n; [reflexivity|]. cbn [visit_order]. by rewrite Z.mod_mod. Qed.

(** A decidable form of completeness, for one starting position. *)
Definition order_complete (l : list nat) : bool :=
  bool_decide (NoDup l) && forallb (fun j => bool_decide (j ∈ l)) (seq 0 MAX_THREAD_COUNT).

Lemma visit_order_all :
  forallb (fun k => order_complete (visit_order MAX_THREAD_COUNT (Z.of_nat k)))
    (seq 0 MAX_THREAD_COUNT) = true.
Proof. vm_compute. reflexivity. Qed.

#[local] Opaque MAX_THREAD_COUNT.

(** A full scan visits every thread exactly once. *)
Lemma visit_order_complete c :
  NoDup (visit_order MAX_THREAD_COUNT c)
  /\ forall j, (j < MAX_THREAD_COUNT)%nat -> j ∈ visit_order MAX_THREAD_COUNT c.
Proof.
  rewrite <- visit_order_mod.
  assert (0 < Z.of_nat MAX_THREAD_COUNT) as Hpos by (by vm_compute).
  pose proof (Z.mod_pos_bound c (Z.of_nat MAX_THREAD_COUNT) Hpos) as Hc.
  set (d := c mod _) in *. pose proof visit_order_all as H. rewrite forallb_forall in H.
  specialize (H (Z.to_nat d)). rewrite Z2Nat.id in H by lia.
  assert (order_complete (visit_order MAX_THREAD_COUNT d) = true) as H'
    by (apply H, in_seq; lia).
  apply andb_true_iff in H' as [H1 H2]. split; [by apply bool_decide_eq_true in H1|].
  intros j Hj. rewrite forallb_forall in H2. specialize (H2 j).
  rewrite bool_decide_eq_true in H2. apply H2, in_seq. lia.
Qed.

Section PollQuery.

Context {W : Type} {OS : NetOS W}.

Definition pubs (s : ins_state W) : list Z := map ti_public_fd (threads_of s).

(** One visit of the scan: the thread's events are recorded. *)
Definition visit (cur : Z) (ev : Z) (t : thread_item) (s : ins_state W) : ins_state W :=
  put_thread (Z.to_nat cur) (set_ti_poll_events ev t)
    (set_st_ps (set_ps_cur_pos (u32 (cur + 1)) (st_ps s)) s).

Lemma visit_pubs cur ev t (s : ins_state W) :
  threads_of s !! Z.to_nat cur = Some t -> pubs (visit cur ev t s) = pubs s.
Proof. intros Ht. unfold pubs, visit. simpl. by rewrite (map_insert_same _ _ _ _ _ Ht). Qed.

Lemma pollset_scan_step n pollct revents items (s : ins_state W) t :
  let cur := ps_cur_pos (st_ps s) mod Z.of_nat MAX_THREAD_COUNT in
  let rev := nth (Z.to_nat cur) revents 0 in
  Z.of_nat (length items) < pollct -> Z.of_nat (length items) < MT_POLLSET_QUERY_MAX_ITEMS ->
  threads_of s !! Z.to_nat cur = Some t ->
  pollset_scan (S n) pollct revents items s =
    (if rev =? 0 then pollset_scan n pollct revents items (visit cur 0 t s)
     else pollset_scan n pollct revents
            (items ++ [{| qi_sockfd := ti_public_fd t; qi_events := translate_revents rev |}])
            (visit cur (translate_revents rev) t s)).
Proof.
  intros cur rev H1 H2 Ht. cbn [pollset_scan].
  rewrite (proj2 (Z.ltb_lt _ _) H1), (proj2 (Z.ltb_lt _ _) H2). cbn [andb].
  pose proof (lookup_lt_Some _ _ _ Ht) as Hlt.
  unfold gets, modify, upd_ti, bind, obind. fold cur. cbn [st_g set_st_ps]. rewrite Ht. fold rev.
  destruct (rev =? 0); [reflexivity|].
  unfold get_ti. cbn [st_g set_st_g set_st_ps g_worker_threads set_g_worker_threads].
  rewrite list_lookup_insert_eq by done. cbn [st_g set_st_g g_worker_threads set_g_worker_threads].
  rewrite list_lookup_insert_eq by done. cbn [st_g set_st_g g_worker_threads set_g_worker_threads].
  rewrite list_insert_insert_eq. reflexivity.
Qed.

Lemma pollset_scan_reference n pollct revents items (s : ins_state W) :
  length (threads_of s) = MAX_THREAD_COUNT ->
  exists s', pollset_scan n pollct revents items s =
    Done (items ++ take (Z.to_nat (Z.min pollct MT_POLLSET_QUERY_MAX_ITEMS) - length items)
                     (omap (poll_report (pubs s) revents) (visit_order n (ps_cur_pos (st_ps s)))), s').
Proof.
  revert items s. induction n as [|n IH]; intros items s Hl.
  - eexists. cbn [pollset_scan visit_order omap list_omap]. by rewrite take_nil, app_nil_r.
  - set (lim := Z.to_nat (Z.min pollct MT_POLLSET_QUERY_MAX_ITEMS)).
    destruct (Z_lt_le_dec (Z.of_nat (length items)) (Z.min pollct MT_POLLSET_QUERY_MAX_ITEMS)) as [Hlt|Hge].
    2: { exists s. replace (lim - length items)%nat with 0%nat by (unfold lim; lia).
         rewrite take_0, app_nil_r. cbn [pollset_scan]. destruct (_ && _) eqn:Ec; [|reflexivity].
         zbool. lia. }
    set (cur := ps_cur_pos (st_ps s) mod Z.of_nat MAX_THREAD_COUNT).
    assert (0 <= cur < Z.of_nat MAX_THREAD_COUNT) as Hcur by (apply Z.mod_pos_bound; by vm_compute).
    destruct (lookup_lt_is_Some_2 (threads_of s) (Z.to_nat cur)) as [t Ht]; [lia|].
    assert (nth (Z.to_nat cur) (pubs s) 0 = ti_public_fd t) as Hpub.
    { apply nth_lookup_Some. unfold pubs.
      change ((ti_public_fd <$> threads_of s) !! Z.to_nat cur = Some (ti_public_fd t)).
      by rewrite list_lookup_fmap, Ht. }
    assert (u32 (cur + 1) = cur + 1) as Hw.
    { apply wrapu_small. unfold in_u. assert (Z.of_nat MAX_THREAD_COUNT = 50) by (by vm_compute). lia. }
    rewrite (pollset_scan_step n pollct revents items s t) by (lia || done).
    fold cur. cbn [visit_order]. fold cur. unfold omap at 1, list_omap, poll_report at 1. rewrite Hpub.
    destruct (nth (Z.to_nat cur) revents 0 =? 0).
    + destruct (IH items (visit cur 0 t s)) as (s' & ->).
      { unfold visit; simpl. by rewrite length_insert. }
      exists s'. rewrite visit_pubs by done. cbn [st_ps visit put_thread set_st_g set_st_ps ps_cur_pos set_ps_cur_pos].
      rewrite Hw. reflexivity.
    + set (it := {| qi_sockfd := ti_public_fd t; qi_events := _ |}).
      edestruct (IH (items ++ [it])) as (s' & ->).
      { unfold visit; simpl. by rewrite length_insert. }
      exists s'. rewrite visit_pubs by done. cbn [st_ps visit put_thread set_st_g set_st_ps ps_cur_pos set_ps_cur_pos].
      rewrite Hw, length_app, <- app_assoc. simpl length.
      replace (lim - length items)%nat with (S (lim - (length items + 1)))%nat by (unfold lim; lia).
      reflexivity.
Qed.

(** The descriptors a query polls: a thread that is not in use is polled
    as -1, which poll() skips. *)
Definition polled_fds (s : ins_state W) : list Z :=
  map (fun t => if ti_in_use t =? 0 then -1 else ti_local_fd t) (threads_of s).

Lemma zip_pf_fds fs ts :
  length fs = length ts ->
  map pf_fd (zip_with (fun f t => {| pf_fd := if ti_in_use t =? 0 then -1 else ti_local_fd t;
                                     pf_events := pf_events f; pf_revents := pf_revents f |}) fs ts)
  = map (fun t => if ti_in_use t =? 0 then -1 else ti_local_fd t) ts.
Proof.
  revert ts. induction fs as [|f fs IH]; intros [|t ts] Hl; simpl in *; try discriminate; [done|].
  f_equal. apply IH. lia.
Qed.

(** A pollset query polls every thread in one call, without waiting,
    and reports, in the order of a rotation that visits each thread
    exactly once and starts where the last query stopped, the sockets
    with events, translated, as many as poll() announced and a response
    can hold; when poll() fails the response is left as it was. *)
Theorem pollset_query_reports base resp (s : ins_state W) :
  length (threads_of s) = MAX_THREAD_COUNT -> length (ps_fds (st_ps s)) = MAX_THREAD_COUNT ->
  let order := visit_order MAX_THREAD_COUNT (ps_cur_pos (st_ps s)) in
  NoDup order /\ (forall j, (j < MAX_THREAD_COUNT)%nat -> j ∈ order)
  /\ exists fds s', map pf_fd fds = polled_fds s
     /\ let r := fst (os_call (SysPoll fds 0) (st_world s)) in
        let items := take (Z.to_nat (Z.min (r_ret r) MT_POLLSET_QUERY_MAX_ITEMS))
                       (omap (poll_report (pubs s) (r_revents r)) order) in
        if r_ret r <? 0
        then xe_pollset_query base resp s = Done ((XE_GET_NEG_ERRNO_VAL (r_err r), resp), s')
        else xe_pollset_query base resp s = Done ((0, xe_net_set_base_response base
               (MT_RESPONSE_POLLSET_QUERY_SIZE
                + MT_RESPONSE_POLLSET_QUERY_ITEM_SIZE * Z.of_nat (length items))
               (set_rs_body (BodyPollset (Z.of_nat (length items)) items) resp)), s').
Proof.
  intros Hl Hf order. destruct (visit_order_complete (ps_cur_pos (st_ps s))) as [Hnd Hall].
  split; [exact Hnd|]. split; [exact Hall|].
  set (fds0 := if ps_init (st_ps s) then ps_fds (st_ps s)
    else map (fun f => {| pf_fd := pf_fd f; pf_events := pollset_events; pf_revents := pf_revents f |})
           (ps_fds (st_ps s))).
  set (fds := zip_with (fun f t => {| pf_fd := if ti_in_use t =? 0 then -1 else ti_local_fd t;
    pf_events := pf_events f; pf_revents := pf_revents f |}) fds0 (threads_of s)).
  assert (length fds0 = length (threads_of s)) as Hl0
    by (unfold fds0; destruct (ps_init _); rewrite ?length_map; congruence).
  unfold xe_pollset_query, get_g, gets, modify, when, bind, obind.
  exists fds. destruct (ps_init (st_ps s)) eqn:Ei; cbn [negb]; unfold ret;
    cbn [st_g set_st_ps st_ps ps_fds set_ps_fds set_ps_init]; unfold sys;
    cbn [st_g set_st_ps st_ps ps_fds set_ps_fds set_ps_init st_world];
    fold fds0; fold fds; destruct (os_call (SysPoll fds 0) (st_world s)) as [r w]; cbn [fst].
  all: destruct (r_ret r <? 0) eqn:En;
    [unfold XE_GET_NEG_ERRNO, gets; eexists; split; [by apply zip_pf_fds|reflexivity]|].
  all: match goal with |- context [pollset_scan _ ?p ?rv ?it ?st] =>
         destruct (pollset_scan_reference MAX_THREAD_COUNT p rv it st Hl) as (s' & ->) end.
  all: exists s'; (split; [by apply zip_pf_fds|]); cbn [app length]; rewrite Nat.sub_0_r; reflexivity.
Qed.

End PollQuery.

(** Two sockets, of which the second has data. *)
Definition sample_two : sample_state :=
  after_dispatch (after_dispatch (boot [res_bytes (create_request 1); res_ok 9;
    res_bytes (create_request 2); res_ok 10;
    {| r_ret := 1; r_err := 0; r_bytes := []; r_addr := sockaddr_in_zero; r_alen := 0;
       r_revents := [0; Z.lor POLLIN POLLRDNORM] |}])).

Lemma pollset_query_reports_witness :
  exists r s', xe_pollset_query sample_request_base response_zero sample_two = Done ((0, r), s')
    /\ rs_body r = BodyPollset 1 [{| qi_sockfd := sample_fd 1; qi_events := Z.lor MW_POLLIN MW_POLLRDNORM |}].
Proof.
  destruct (pollset_query_reports sample_request_base response_zero sample_two) as (_ & _ & fds & s' & _ & H);
    [vm_compute; reflexivity|vm_compute; reflexivity|]. cbn zeta in H.
  assert (fst (os_call (SysPoll fds 0) (st_world sample_two))
    = {| r_ret := 1; r_err := 0; r_bytes := []; r_addr := sockaddr_in_zero; r_alen := 0;
         r_revents := [0; Z.lor POLLIN POLLRDNORM] |}) as E by (vm_compute; reflexivity).
  rewrite E in H. cbn [r_ret r_revents] in H. change (1 <? 0) with false in H. cbn iota in H.
  eexists _, s'. split; [exact H|]. cbn [rs_body xe_net_set_base_response set_rs_body].
  vm_compute. reflexivity.
Defined.
