(* ===== verification/ErrorPaths.v ===== *)
(** * ErrorPaths: error exits and interleavings that go wrong

    What the code does where it does not do what its comments promise:
    error paths of the handlers, for every state, and concrete runs of
    the whole application from start-up. *)

From stdpp Require Import base numbers list relations.
From Stdlib Require Import ZArith Lia.
From S2P Require Import Prelude MwSocket MessageTypes MwErrno Translate WorkQueue InsState InsFacts Pollset Networking NetworkingFacts Dispatcher DispatcherInv DispatcherFacts Ins Samples SocketLife.

(** ** Runs of the application *)

(** [n] iterations of the dispatcher. *)
Fixpoint dispatches (n : nat) (s : sample_state) : option sample_state :=
  match n with
  | O => Some s
  | S n' =>
      if peer_safe s then
        match dispatch_one sample_fuel s with
        | Done (None, s') => dispatches n' s'
        | _ => None
        end
      else None
  end.

Lemma dispatches_reachable n (s s' : sample_state) :
  reachable s -> dispatches n s = Some s' -> reachable s'.
Proof.
  revert s. induction n as [|n IH]; intros s Hr; simpl; [by intros [= <-]|].
  destruct (peer_safe s) eqn:Hp; [|discriminate].
  destruct (dispatch_one sample_fuel s) as [[[rc|] s1]| | |] eqn:E; try discriminate.
  intros Hd. apply (IH s1); [|done]. eapply reachable_step; [exact Hr|]. by eapply step_dispatcher.
Qed.

(** Iterations of the dispatcher and of workers, in a given order. *)
Inductive turn : Type := Dispatch | Work (k : nat).

Fixpoint turns (ts : list turn) (s : sample_state) : option sample_state :=
  match ts with
  | [] => Some s
  | Dispatch :: rest =>
      match dispatches 1 s with Some s' => turns rest s' | None => None end
  | Work k :: rest =>
      if (k <? MAX_THREAD_COUNT)%nat then
        match worker_iteration sample_fuel k s with
        | Done (_, s') => turns rest s'
        | _ => None
        end
      else None
  end.

Lemma turns_reachable ts (s s' : sample_state) :
  reachable s -> turns ts s = Some s' -> reachable s'.
Proof.
  revert s. induction ts as [|[|k] ts IH]; intros s Hr; cbn [turns]; [by intros [= <-]| |].
  - destruct (dispatches 1 s) as [s1|] eqn:E; [|discriminate].
    apply IH. by eapply dispatches_reachable.
  - destruct (Nat.ltb_spec k MAX_THREAD_COUNT) as [Hk|Hk]; [|discriminate].
    destruct (worker_iteration sample_fuel k s) as [[e s1]| | |] eqn:E; try discriminate.
    apply IH. eapply reachable_step; [exact Hr|]. by eapply step_worker.
Qed.

(** A test of the state that the turns lead to. *)
Lemma turns_test ts (s : sample_state) (test : sample_state -> bool) :
  reachable s -> match turns ts s with Some s' => test s' | None => false end = true ->
  exists s', reachable s' /\ test s' = true.
Proof.
  intros Hr H. destruct (turns ts s) as [s'|] eqn:E; [|discriminate].
  exists s'. split; [by eapply turns_reachable|exact H].
Qed.

Lemma boot_reachable script :
  returns (init_state memory0 (fun _ => true) (before_boot (boot_script ++ script))) (Z.eqb 0) = true ->
  reachable (boot script).
Proof. intros H. exists (boot script). split; [by apply boot_booted|apply rtc_refl]. Qed.

(** Ids and statuses of the responses written so far. *)
Definition replies {W} (s : ins_state W) : list (Z * Z) :=
  map (fun p => (rs_id (fst p), rs_status (fst p))) (responses_of (st_trace s)).

(** Address filtering uses up the worker threads: the thread that is
    reserved for an AddrBlock request is never released. After start-up
    and fifty such requests, all of them successful, every thread is in
    use, and the next socket creation fails with an internal error although
    no socket exists. *)
Theorem addr_block_exhausts_workers :
  exists s : sample_state, reachable s
    /\ forallb (fun t => ti_in_use t =? 1) (threads_of s) = true
    /\ g_stats_socket_ct (st_g s) = 0
    /\ replies s = replicate 50 (7, 0) ++ [(8, MT_STATUS_INTERNAL_ERROR)].
Proof.
  set (script := concat (repeat [res_bytes (block_request 7 1); res_ok 0] 50)
                 ++ [res_bytes (create_request 8); res_ok 9]).
  destruct (turns_test (repeat Dispatch 51) (boot script)
    (fun s => forallb (fun t => ti_in_use t =? 1) (threads_of s)
      && (g_stats_socket_ct (st_g s) =? 0)
      && bool_decide (replies s = replicate 50 (7, 0) ++ [(8, MT_STATUS_INTERNAL_ERROR)])))
    as (s & Hr & Ht).
  - apply boot_reachable. vm_compute. reflexivity.
  - vm_compute. reflexivity.
  - apply andb_true_iff in Ht as [Ht H3]. apply andb_true_iff in Ht as [H1 H2].
    zbool. apply bool_decide_eq_true in H3. by exists s.
Qed.

(** One request, two responses: an AddrBlock request whose block field
    is neither 0 nor 1 is answered by its handler and, because the
    handler's return code reaches the dispatcher, answered again with an
    internal error under the same id. *)
Theorem addr_block_answered_twice :
  exists s : sample_state, reachable s
    /\ replies s = [(7, -1); (7, MT_STATUS_INTERNAL_ERROR)].
Proof.
  destruct (turns_test [Dispatch] (boot [res_bytes (block_request 7 2)])
    (fun s => bool_decide (replies s = [(7, -1); (7, MT_STATUS_INTERNAL_ERROR)]))) as (s & Hr & Ht).
  - apply boot_reachable. vm_compute. reflexivity.
  - vm_compute. reflexivity.
  - apply bool_decide_eq_true in Ht. by exists s.
Qed.

(** The calls on stream sockets in a trace. *)
Definition stream_calls (tr : list syscall) : list syscall :=
  List.filter (fun c => match c with
    SysSocket _ _ _ | SysRecv _ _ _ | SysSend _ _ _ | SysClose _ => true | _ => false end) tr.

#[export] Instance sockaddr_in_eq_dec : EqDecision sockaddr_in.
Proof. solve_decision. Defined.
#[export] Instance mt_sockaddr_in_eq_dec : EqDecision mt_sockaddr_in.
Proof. solve_decision. Defined.
#[export] Instance optval_eq_dec : EqDecision optval.
Proof. solve_decision. Defined.
#[export] Instance pollfd_eq_dec : EqDecision pollfd.
Proof. solve_decision. Defined.
#[export] Instance sockfeat_val_eq_dec : EqDecision mt_sockfeat_val.
Proof. solve_decision. Defined.
#[export] Instance pollset_item_eq_dec : EqDecision mt_pollset_query_item.
Proof. solve_decision. Defined.
#[export] Instance response_body_eq_dec : EqDecision mt_response_body.
Proof. solve_decision. Defined.
#[export] Instance response_eq_dec : EqDecision mt_response.
Proof. solve_decision. Defined.
#[export] Instance syscall_eq_dec : EqDecision syscall.
Proof. solve_decision. Defined.


(** The iteration of worker [k] with an iteration of the dispatcher
    between process_buffer_item() and release_buffer_item(). *)
Definition interrupted_worker (fuel k : nat) : ins_m (list sysres) unit :=
  let* x := worker_take k in
  process_buffer_item fuel (Z.to_nat x) ;;;
  dispatch_one fuel ;;;
  release_buffer_item (Z.to_nat x).

(** The worker releases its buffer item twice, and the second release
    can hit the next request: when the dispatcher reads a request between
    the two, it reserves the same item, queues it, and the worker then
    frees it and forgets its thread; the invariant of the queues is gone,
    and the worker that takes the item next follows a null pointer. *)
Theorem double_release_frees_queued_request :
  exists s s' : sample_state, reachable s
    /\ interrupted_worker sample_fuel 0 s = Done (tt, s')
    /\ wq_abs <$> (queues_of s' !! 0%nat) = Some [0]
    /\ (bi_in_use <$> (buffers_of s' !! 0%nat)) = Some 0
    /\ worker_iteration sample_fuel 0 s' = Undef.
Proof.
  destruct (turns_test [Dispatch; Dispatch]
    (boot [res_bytes (create_request 1); res_ok 9; res_bytes (send_request 2 0 [104; 105]);
           res_ok 2; res_bytes (recv_request 3 0 100)])
    (fun s => match interrupted_worker sample_fuel 0 s with
              | Done (_, s') =>
                  bool_decide (wq_abs <$> (queues_of s' !! 0%nat) = Some [0])
                  && bool_decide ((bi_in_use <$> (buffers_of s' !! 0%nat)) = Some 0)
                  && match worker_iteration sample_fuel 0 s' with Undef => true | _ => false end
              | _ => false
              end)) as (s & Hr & Ht).
  - apply boot_reachable. vm_compute. reflexivity.
  - vm_compute. reflexivity.
  - destruct (interrupted_worker sample_fuel 0 s) as [[[] s']| | |] eqn:E; try discriminate.
    apply andb_true_iff in Ht as [Ht H3]. apply andb_true_iff in Ht as [H1 H2].
    apply bool_decide_eq_true in H1, H2.
    destruct (worker_iteration sample_fuel 0 s') eqn:E'; try discriminate.
    exists s, s'. by rewrite E'.
Qed.

(** ** Error exits of the handlers *)

Section Handlers.

Context {W : Type} {OS : NetOS W}.

#[local] Arguments Z.eqb : simpl never.
#[local] Arguments Z.ltb : simpl never.

Lemma sys_run c (s : ins_state W) r w :
  os_call c (st_world s) = (r, w) ->
  sys c s = Done (r, {| st_g := st_g s; st_ps := st_ps s;
    st_errno := if r_ret r <? 0 then r_err r else st_errno s; st_world := w;
    st_trace := st_trace s ++ [c] |}).
Proof. intros E. unfold sys. by rewrite E. Qed.

Lemma closes_of_other tr c :
  match c with SysClose _ => False | _ => True end -> closes_of (tr ++ [c]) = closes_of tr.
Proof.
  intros H. unfold closes_of. rewrite omap_app. destruct c; try done; by rewrite app_nil_r.
Qed.

(** A failed change of the non-blocking mode loses its error: whatever
    errno fcntl() sets, the response carries the negated number of
    success, because xe_net_sock_attrib() replaces the status with one
    computed from its own, never assigned, error variable. *)
Theorem nonblock_errno_lost region resp k (s : ins_state W) t r1 w1 :
  request_type_of (rq_type (get_request_base region)) = Some MtRequestSocketAttrib ->
  sockfeat_of (at_name (get_socket_attrib region)) = Some MtSockAttribNonblock ->
  truth (at_modify (get_socket_attrib region)) = true ->
  threads_of s !! k = Some t ->
  os_call (SysFcntlGetFl (ti_local_fd t)) (st_world s) = (r1, w1) ->
  (forall fl, r_ret (fst (os_call (SysFcntlSetFl (ti_local_fd t) fl) w1)) = -1) ->
  exists r s', xe_net_sock_attrib region resp k s = Done ((0, r), s')
    /\ rs_status r = XE_GET_NEG_ERRNO_VAL 0.
Proof.
  intros _ Hn Hm Ht E1 Hfail. unfold xe_net_sock_attrib, get_ti, bind at 1. rewrite Ht. cbn [obind].
  rewrite Hn. unfold xe_net_sock_fcntl, get_ti, bind, obind. rewrite Ht.
  rewrite (sys_run _ _ _ _ E1), Hm. cbn zeta. set (fl := if truth _ then _ else _).
  match goal with |- context [sys (SysFcntlSetFl ?fd ?g) ?st] =>
    destruct (os_call (SysFcntlSetFl fd g) (st_world st)) as [r2 w2] eqn:E2;
    pose proof (Hfail g) as Hr2; change (st_world st) with w1 in E2; rewrite E2 in Hr2; simpl in Hr2;
    rewrite (sys_run _ st _ _ E2) end.
  rewrite Hr2. unfold get_errno, gets, set_errno, modify, ret. change (-1 =? -1) with true.
  cbn iota beta. unfold attrib_finish, ret. eexists _, _. split; [reflexivity|].
  change (truth (-1)) with true. cbn [rs_status set_rs_status]. apply wraps_small; [lia|].
  pose proof (neg_errno_range 0). unfold in_s. lia.
Qed.

(** An accepted socket that cannot be made non-blocking is closed, but
    the request gets no proper response: the handler returns before the
    header is filled in, so that size, id and signature stay as the
    dispatcher prepared them, zero. *)
Theorem accept_nonblock_failure region k (s : ins_state W) t fd w r1 w1 :
  threads_of s !! k = Some t ->
  has_flag (get_accept_flags region) MW_SOCK_NONBLOCK = true ->
  os_call (SysAccept (ti_local_fd t)) (st_world s) = (fd, w) -> 0 <= r_ret fd ->
  os_call (SysFcntlGetFl (r_ret fd)) w = (r1, w1) -> r_ret r1 = -1 ->
  exists rc r s', xe_net_accept_socket region response_zero k s = Done ((rc, r), s')
    /\ rc <> 0 /\ closes_of (st_trace s') = closes_of (st_trace s) ++ [r_ret fd]
    /\ rs_size r = 0 /\ rs_sig r = 0 /\ rs_id r = 0 /\ MT_IS_RESPONSE r = false.
Proof.
  intros Ht Hf Ea Hfd E1 Hr1. unfold xe_net_accept_socket, get_ti, bind at 1. rewrite Ht. cbn [obind].
  unfold bind at 1. rewrite (sys_run _ _ _ _ Ea). cbn [obind]. cbn zeta.
  rewrite (proj2 (Z.ltb_ge _ _) Hfd), Hf. unfold xe_net_set_sock_nonblock.
  unfold bind, obind. erewrite sys_run by exact E1. rewrite Hr1. change (-1 =? -1) with true.
  unfold get_errno, gets, set_errno, modify, ret. change (truth (- EIO)) with true. cbn iota beta.
  unfold XE_GET_NEG_ERRNO, gets. unfold sys. destruct (os_call (SysClose _) _) as [r2 w2].
  eexists _, _, _. split; [reflexivity|]. split; [discriminate|]. split; [|done].
  cbn [st_trace set_st_errno]. by rewrite closes_of_snoc, !closes_of_other.
Qed.

(** A socket() that fails is counted: when the call fails with anything
    but ENOBUFS, the statistic of open sockets grows by one, and the
    release of the worker thread, which closes nothing, does not take it
    back. *)
Theorem failed_create_is_counted fuel region k (s : ins_state W) t r w :
  let rq := get_socket_create region in
  threads_of s !! k = Some t ->
  g_so_sndbuf (st_g s) = 0 -> g_so_rcvbuf (st_g s) = 0 ->
  g_so_sndtimeo (st_g s) = (0, 0) -> g_so_rcvtimeo (st_g s) = (0, 0) ->
  os_call (SysSocket (xe_net_get_native_protocol_family (cr_sock_fam rq))
             (xe_net_get_native_sock_type (cr_sock_type rq)) (s32 (cr_sock_protocol rq)))
    (st_world s) = (r, w) ->
  r_ret r = MT_INVALID_SOCKET_FD -> r_err r <> ENOBUFS ->
  exists resp s', (let* p := xe_net_create_socket (S fuel) region response_zero k in
                   release_worker_thread k ;;; ret p) s = Done ((0, resp), s')
    /\ rs_status resp < 0
    /\ g_stats_socket_ct (st_g s') = s32 (g_stats_socket_ct (st_g s) + 1)
    /\ closes_of (st_trace s') = closes_of (st_trace s).
Proof.
  intros rq Ht H1 H2 H3 H4 E Hr He. pose proof (lookup_lt_Some _ _ _ Ht) as Hlt.
  set (call := SysSocket _ _ _) in E.
  set (s1 := {| st_g := st_g s; st_ps := st_ps s; st_errno := r_err r; st_world := w;
                st_trace := st_trace s ++ [call] |}).
  assert (socket_retry (S fuel) (xe_net_get_native_protocol_family (cr_sock_fam rq))
    (xe_net_get_native_sock_type (cr_sock_type rq)) (s32 (cr_sock_protocol rq)) s
    = Done (MT_INVALID_SOCKET_FD, s1)) as Es.
  { cbn [socket_retry]. unfold bind, obind. fold call. rewrite (sys_run _ _ _ _ E), Hr.
    change (MT_INVALID_SOCKET_FD <? 0) with true. cbn iota. unfold get_errno, gets, ret. cbn [st_errno].
    by rewrite (proj2 (Z.eqb_neq _ _)) by congruence. }
  set (st := XE_GET_NEG_ERRNO_VAL (r_err r)).
  set (t2 := set_ti_public_fd 0 (set_ti_local_fd MT_INVALID_SOCKET_FD
    (set_ti_sock_domain (xe_net_get_native_protocol_family (cr_sock_fam rq))
    (set_ti_sock_type (xe_net_get_native_sock_type (cr_sock_type rq))
    (set_ti_sock_protocol (s32 (cr_sock_protocol rq)) t))))).
  assert (exists s2, xe_net_create_socket (S fuel) region response_zero k s
    = Done ((0, set_rs_sockfd 0 (xe_net_set_base_response (get_request_base region)
        MT_RESPONSE_BASE_SIZE (set_rs_status st (set_rs_status 0 response_zero)))), s2)
    /\ threads_of s2 !! k = Some t2
    /\ g_stats_socket_ct (st_g s2) = s32 (g_stats_socket_ct (st_g s) + 1)
    /\ st_trace s2 = st_trace s ++ [call]) as (s2 & Ecr & Ht2 & Hct & Htr).
  { unfold xe_net_create_socket. fold rq. unfold bind at 1. rewrite Es. cbn [obind]. cbn zeta.
    change (MT_INVALID_SOCKET_FD <? 0) with true. cbn iota.
    unfold XE_GET_NEG_ERRNO, xe_net_init_socket, get_g, gets, setsockopt_if, upd_g, modify, bind, obind, ret.
    unfold id. cbn [st_g s1]. rewrite H1, H2, H3, H4. cbn [fst snd].
    change (truth 0) with false. cbn [orb]. cbn iota beta. change (truth 0) with false. cbn iota beta.
    unfold upd_ti at 1. cbn [st_g s1]. rewrite Ht. eexists. split; [reflexivity|].
    split; [|done]. apply list_lookup_insert_eq. exact Hlt. }
  unfold bind at 1. rewrite Ecr. cbn [obind].
  destruct (release_run k s2 t2 Ht2) as (s3 & Erel & _ & Hc & Hn & _).
  unfold bind. rewrite Erel. cbn [obind]. unfold ret.
  eexists _, s3. split; [reflexivity|]. change (ti_local_fd t2) with MT_INVALID_SOCKET_FD in Hc, Hn.
  change (MT_INVALID_SOCKET_FD =? MT_INVALID_SOCKET_FD) with true in Hc, Hn. cbn [negb] in Hc, Hn.
  split; [|split; [by rewrite Hn|]].
  - cbn [rs_status set_rs_sockfd xe_net_set_base_response set_rs_status]. unfold st.
    pose proof (neg_errno_range (r_err r)). rewrite wraps_small; [lia|lia|unfold in_s; simpl; lia].
  - rewrite Hc, app_nil_r, Htr. by apply closes_of_other.
Qed.

End Handlers.

(** ** Witnesses *)

Definition attrib_request (id k name : Z) (value : Z) : list Z :=
  request MtRequestSocketAttrib id (sample_fd k) (write_fields [4; 2; 4]%nat [1; name; value]).

Definition accept_request (id k flags : Z) : list Z :=
  request MtRequestSocketAccept id (sample_fd k) (write_fields [4]%nat [flags]).

(** One socket, descriptor 9, and the answers that follow. *)
Definition sample_open (script : list sysres) : sample_state :=
  after_dispatch (boot ([res_bytes (create_request 1); res_ok 9] ++ script)).

Lemma nonblock_errno_lost_witness :
  exists r s', xe_net_sock_attrib (attrib_request 2 0 (sockfeat_code MtSockAttribNonblock) 1) response_zero 0
                 (sample_open [res_ok 0; res_err 9]) = Done ((0, r), s')
    /\ rs_status r = -1.
Proof.
  destruct (some_and_spec (threads_of (sample_open [res_ok 0; res_err 9]) !! 0%nat)
    (fun t => ti_local_fd t =? 9)) as (t & Ht & Hfd); [vm_compute; reflexivity|]. zbool.
  assert (st_world (sample_open [res_ok 0; res_err 9]) = [res_ok 0; res_err 9]) as Hw
    by (vm_compute; reflexivity).
  destruct (nonblock_errno_lost (attrib_request 2 0 (sockfeat_code MtSockAttribNonblock) 1) response_zero 0
    (sample_open [res_ok 0; res_err 9]) t (res_ok 0) [res_err 9]) as (r & s' & E & Hst).
  - vm_compute. reflexivity.
  - vm_compute. reflexivity.
  - vm_compute. reflexivity.
  - exact Ht.
  - rewrite Hw. reflexivity.
  - reflexivity.
  - exists r, s'. split; [exact E|]. rewrite Hst. vm_compute. reflexivity.
Defined.

Lemma accept_nonblock_failure_witness :
  exists rc r s', xe_net_accept_socket (accept_request 2 0 MW_SOCK_NONBLOCK) response_zero 0
                    (sample_open [res_ok 12; res_err 9]) = Done ((rc, r), s')
    /\ rs_size r = 0 /\ closes_of (st_trace s') = [12].
Proof.
  destruct (some_and_spec (threads_of (sample_open [res_ok 12; res_err 9]) !! 0%nat)
    (fun t => ti_local_fd t =? 9)) as (t & Ht & Hfd); [vm_compute; reflexivity|]. zbool.
  assert (st_world (sample_open [res_ok 12; res_err 9]) = [res_ok 12; res_err 9]) as Hw
    by (vm_compute; reflexivity).
  assert (closes_of (st_trace (sample_open [res_ok 12; res_err 9])) = []) as Hc
    by (vm_compute; reflexivity).
  destruct (accept_nonblock_failure (accept_request 2 0 MW_SOCK_NONBLOCK) 0
    (sample_open [res_ok 12; res_err 9]) t (res_ok 12) [res_err 9] (res_err 9) [])
    as (rc & r & s' & E & _ & Hcl & Hsz & _).
  - exact Ht.
  - vm_compute. reflexivity.
  - rewrite Hw. reflexivity.
  - vm_compute. discriminate.
  - reflexivity.
  - reflexivity.
  - exists rc, r, s'. split; [exact E|]. split; [exact Hsz|]. rewrite Hcl, Hc. reflexivity.
Defined.

Lemma failed_create_is_counted_witness :
  exists resp s', (let* p := xe_net_create_socket 1 (create_request 1) response_zero 0 in
                   release_worker_thread 0 ;;; ret p) (boot [res_err 24]) = Done ((0, resp), s')
    /\ g_stats_socket_ct (st_g s') = 1.
Proof.
  destruct (some_and_spec (threads_of (boot [res_err 24]) !! 0%nat) (fun _ => true))
    as (t & Ht & _); [vm_compute; reflexivity|].
  assert (st_world (boot [res_err 24]) = [res_err 24]) as Hw by (vm_compute; reflexivity).
  assert (g_stats_socket_ct (st_g (boot [res_err 24])) = 0) as Hn by (vm_compute; reflexivity).
  destruct (failed_create_is_counted 0 (create_request 1) 0 (boot [res_err 24]) t (res_err 24) [])
    as (resp & s' & E & _ & Hct & _).
  - exact Ht.
  - vm_compute. reflexivity.
  - vm_compute. reflexivity.
  - vm_compute. reflexivity.
  - vm_compute. reflexivity.
  - rewrite Hw. reflexivity.
  - reflexivity.
  - discriminate.
  - exists resp, s'. split; [exact E|]. rewrite Hct, Hn. reflexivity.
Defined.
