(* ===== verification/XenRing.v ===== *)
(** * XenRing: the shared ring between the protected VM and an INS

    Both ends work on one block of shared memory through the macros of
    Xen's ring.h, which is not part of the repository: they are the
    class [XenRing], and [XenRingLaws] states what its documentation
    promises. The private structures of the two ends, whose counters the
    code advances itself, are records. [SimpleRing] is a concrete ring of
    four slots for the witnesses.

    [chan] is the abstract channel the two ends implement together: the
    requests sent and not yet read, the number of requests read and not
    yet answered, and the responses not yet collected. *)

From stdpp Require Import base numbers list.
From Stdlib Require Import ZArith Lia.
From S2P Require Import Prelude MessageTypes.

(** ** The private structures of the two ends *)

Record front_ring := { req_prod_pvt : Z; rsp_cons : Z }.
Record back_ring := { rsp_prod_pvt : Z; req_cons : Z }.

Definition advance_req_prod_pvt (f : front_ring) : front_ring :=
  {| req_prod_pvt := u32 (req_prod_pvt f + 1); rsp_cons := rsp_cons f |}.
Definition advance_rsp_cons (f : front_ring) : front_ring :=
  {| req_prod_pvt := req_prod_pvt f; rsp_cons := u32 (rsp_cons f + 1) |}.
Definition advance_req_cons (b : back_ring) : back_ring :=
  {| rsp_prod_pvt := rsp_prod_pvt b; req_cons := u32 (req_cons b + 1) |}.
Definition advance_rsp_prod_pvt (b : back_ring) : back_ring :=
  {| rsp_prod_pvt := u32 (rsp_prod_pvt b + 1); req_cons := req_cons b |}.

(** A slot is a union of a request and a response. *)
Definition RING_ENTRY_SIZE : Z := Z.max ONE_REQUEST_REGION_SIZE RESPONSE_REGION_SIZE.

(** ** The macros of ring.h

    [ring_entry] is the slot RING_GET_REQUEST and RING_GET_RESPONSE give
    for a counter, [ring_write] a memcpy() to its start. *)
Class XenRing (S : Type) := {
  RING_SIZE : Z;
  ring_entry : S -> Z -> list Z;
  ring_write : S -> Z -> list Z -> S;
  sring_req_prod : S -> Z;
  sring_rsp_prod : S -> Z;
  SHARED_RING_INIT : S -> S;
  FRONT_RING_INIT : front_ring;
  BACK_RING_INIT : back_ring;
  RING_FULL : S -> front_ring -> bool;
  RING_HAS_UNCONSUMED_REQUESTS : S -> back_ring -> bool;
  RING_HAS_UNCONSUMED_RESPONSES : S -> front_ring -> bool;
  RING_PUSH_REQUESTS : S -> front_ring -> S;
  RING_PUSH_RESPONSES : S -> back_ring -> S
}.

(** Counters are free-running 32-bit integers; a counter selects its slot
    modulo the size, a power of two. The number of unconsumed requests
    is bounded by the slots that wait for no response. *)
Class XenRingLaws (S : Type) {R : XenRing S} : Prop := {
  law_size : exists k, 0 <= k < 32 /\ RING_SIZE = 2 ^ k;
  law_entry_length : forall s i, Z.of_nat (length (ring_entry s i)) = RING_ENTRY_SIZE;
  law_entry_mod : forall s i j,
    i mod RING_SIZE = j mod RING_SIZE -> ring_entry s i = ring_entry s j;
  law_write_same : forall s i m, Z.of_nat (length m) <= RING_ENTRY_SIZE ->
    ring_entry (ring_write s i m) i = m ++ drop (length m) (ring_entry s i);
  law_write_other : forall s i j m, Z.of_nat (length m) <= RING_ENTRY_SIZE ->
    i mod RING_SIZE <> j mod RING_SIZE -> ring_entry (ring_write s i m) j = ring_entry s j;
  law_write_prods : forall s i m,
    sring_req_prod (ring_write s i m) = sring_req_prod s
    /\ sring_rsp_prod (ring_write s i m) = sring_rsp_prod s;
  law_shared_init : forall s,
    sring_req_prod (SHARED_RING_INIT s) = 0 /\ sring_rsp_prod (SHARED_RING_INIT s) = 0;
  law_front_init : req_prod_pvt FRONT_RING_INIT = 0 /\ rsp_cons FRONT_RING_INIT = 0;
  law_back_init : rsp_prod_pvt BACK_RING_INIT = 0 /\ req_cons BACK_RING_INIT = 0;
  law_full : forall s f, u32 (req_prod_pvt f - rsp_cons f) <= RING_SIZE ->
    RING_FULL s f = (u32 (req_prod_pvt f - rsp_cons f) =? RING_SIZE);
  law_unconsumed_requests : forall s b,
    RING_HAS_UNCONSUMED_REQUESTS s b
    = truth (Z.min (u32 (sring_req_prod s - req_cons b))
                   (u32 (RING_SIZE - (req_cons b - rsp_prod_pvt b))));
  law_unconsumed_responses : forall s f,
    RING_HAS_UNCONSUMED_RESPONSES s f = negb (u32 (sring_rsp_prod s - rsp_cons f) =? 0);
  law_push_requests : forall s f,
    sring_req_prod (RING_PUSH_REQUESTS s f) = req_prod_pvt f
    /\ sring_rsp_prod (RING_PUSH_REQUESTS s f) = sring_rsp_prod s
    /\ (forall i, ring_entry (RING_PUSH_REQUESTS s f) i = ring_entry s i);
  law_push_responses : forall s b,
    sring_rsp_prod (RING_PUSH_RESPONSES s b) = rsp_prod_pvt b
    /\ sring_req_prod (RING_PUSH_RESPONSES s b) = sring_req_prod s
    /\ (forall i, ring_entry (RING_PUSH_RESPONSES s b) i = ring_entry s i)
}.

(** ** The abstract channel *)

Record chan := { ch_requests : list (list Z); ch_unanswered : nat; ch_responses : list (list Z) }.

Definition chan_empty : chan := {| ch_requests := []; ch_unanswered := 0; ch_responses := [] |}.

Definition chan_used (c : chan) : nat :=
  length (ch_requests c) + ch_unanswered c + length (ch_responses c).

(** A message lies at the start of its slot. *)
Definition holds_message (entry m : list Z) : Prop := take (length m) entry = m.

Section Repr.

Context {S : Type} {R : XenRing S} {Laws : XenRingLaws S}.

(** The ring in state [s], with the private counters [f] and [b] of the
    two ends, holds the channel [c]; [p] counts all responses collected
    so far, before any wrap-around. The slots in use follow each other:
    responses, then requests being served, then requests not yet read. *)
Record ring_repr (s : S) (f : front_ring) (b : back_ring) (c : chan) (p : Z) : Prop := {
  rr_pos : 0 <= p;
  rr_used : Z.of_nat (chan_used c) <= RING_SIZE;
  rr_rsp_cons : rsp_cons f = u32 p;
  rr_rsp_prod_pvt : rsp_prod_pvt b = u32 (p + Z.of_nat (length (ch_responses c)));
  rr_rsp_prod : sring_rsp_prod s = u32 (p + Z.of_nat (length (ch_responses c)));
  rr_req_cons : req_cons b = u32 (p + Z.of_nat (length (ch_responses c) + ch_unanswered c));
  rr_req_prod : sring_req_prod s = u32 (p + Z.of_nat (chan_used c));
  rr_req_prod_pvt : req_prod_pvt f = u32 (p + Z.of_nat (chan_used c));
  rr_responses : forall k m, ch_responses c !! k = Some m ->
    holds_message (ring_entry s (p + Z.of_nat k)) m;
  rr_requests : forall k m, ch_requests c !! k = Some m ->
    holds_message (ring_entry s
      (p + Z.of_nat (length (ch_responses c) + ch_unanswered c + k))) m
}.

Lemma ring_size_pos : 0 < RING_SIZE <= 2 ^ 31.
Proof.
  destruct law_size as (k & Hk & ->). split; [apply Z.pow_pos_nonneg; lia|].
  apply Z.pow_le_mono_r; lia.
Qed.

(** Wrapping a counter does not change its slot. *)
Lemma wrapped_slot x : u32 x mod RING_SIZE = x mod RING_SIZE.
Proof.
  destruct law_size as (k & Hk & ->). unfold wrapu.
  replace (2 ^ 32) with (2 ^ k * 2 ^ (32 - k)) by (rewrite <- Z.pow_add_r by lia; f_equal; lia).
  rewrite Z.rem_mul_r by (try apply Z.pow_nonzero; try apply Z.pow_pos_nonneg; lia).
  rewrite Z.mul_comm, Z.mod_add by (apply Z.pow_nonzero; lia).
  apply Z.mod_mod. apply Z.pow_nonzero; lia.
Qed.

Lemma ring_entry_wrapped s x : ring_entry s (u32 x) = ring_entry s x.
Proof. apply law_entry_mod, wrapped_slot. Qed.

(** The distance of two wrapped counters. *)
Lemma wrapped_distance x n : 0 <= n <= RING_SIZE -> u32 (u32 (x + n) - u32 x) = n.
Proof.
  intros Hn. pose proof ring_size_pos. unfold wrapu.
  rewrite <- Zminus_mod. replace (x + n - x) with n by lia. apply Z.mod_small. lia.
Qed.

Lemma wrapped_succ x : u32 (u32 x + 1) = u32 (x + 1).
Proof. unfold wrapu. by rewrite Zplus_mod_idemp_l. Qed.

(** Different counters less than a ring apart have different slots. *)
Lemma slots_differ x d : 0 < d < RING_SIZE -> x mod RING_SIZE <> (x + d) mod RING_SIZE.
Proof.
  intros Hd E. pose proof ring_size_pos as Hp.
  assert ((x + d - x) mod RING_SIZE = 0) as H.
  { rewrite Zminus_mod, E, Z.sub_diag. apply Z.mod_0_l. lia. }
  replace (x + d - x) with d in H by lia. rewrite Z.mod_small in H by lia. lia.
Qed.

(** ** The tests *)

Lemma repr_full s f b c p :
  ring_repr s f b c p -> RING_FULL s f = (Z.of_nat (chan_used c) =? RING_SIZE).
Proof.
  intros H. pose proof (rr_used _ _ _ _ _ H).
  assert (u32 (req_prod_pvt f - rsp_cons f) = Z.of_nat (chan_used c)) as E.
  { rewrite (rr_req_prod_pvt _ _ _ _ _ H), (rr_rsp_cons _ _ _ _ _ H).
    apply wrapped_distance. lia. }
  rewrite law_full by lia. by rewrite E.
Qed.

Lemma repr_has_requests s f b c p :
  ring_repr s f b c p ->
  RING_HAS_UNCONSUMED_REQUESTS s b = match ch_requests c with [] => false | _ => true end.
Proof.
  intros H. pose proof (rr_used _ _ _ _ _ H) as Hu. unfold chan_used in Hu.
  assert (u32 (sring_req_prod s - req_cons b) = Z.of_nat (length (ch_requests c))) as E.
  { rewrite (rr_req_prod _ _ _ _ _ H), (rr_req_cons _ _ _ _ _ H). unfold chan_used.
    replace (p + Z.of_nat (length (ch_requests c) + ch_unanswered c + length (ch_responses c)))
      with (p + Z.of_nat (length (ch_responses c) + ch_unanswered c)
            + Z.of_nat (length (ch_requests c))) by lia.
    apply wrapped_distance. lia. }
  assert (u32 (RING_SIZE - (req_cons b - rsp_prod_pvt b)) = RING_SIZE - Z.of_nat (ch_unanswered c))
    as E2.
  { assert (u32 (req_cons b - rsp_prod_pvt b) = Z.of_nat (ch_unanswered c)) as <-.
    - rewrite (rr_req_cons _ _ _ _ _ H), (rr_rsp_prod_pvt _ _ _ _ _ H).
      replace (p + Z.of_nat (length (ch_responses c) + ch_unanswered c))
        with (p + Z.of_nat (length (ch_responses c)) + Z.of_nat (ch_unanswered c)) by lia.
      apply wrapped_distance. lia.
    - assert (0 <= u32 (req_cons b - rsp_prod_pvt b) <= RING_SIZE) as Hd.
      { rewrite (rr_req_cons _ _ _ _ _ H), (rr_rsp_prod_pvt _ _ _ _ _ H).
        replace (p + Z.of_nat (length (ch_responses c) + ch_unanswered c))
          with (p + Z.of_nat (length (ch_responses c)) + Z.of_nat (ch_unanswered c)) by lia.
        rewrite wrapped_distance; lia. }
      pose proof ring_size_pos. unfold wrapu in *.
      rewrite <- (Zminus_mod_idemp_r RING_SIZE). apply Z.mod_small. lia. }
  rewrite law_unconsumed_requests, E, E2. unfold truth.
  destruct (ch_requests c) as [|m rest]; simpl length in *.
  - rewrite Z.min_l by lia. done.
  - rewrite (proj2 (Z.eqb_neq _ _)) by lia. done.
Qed.

Lemma repr_has_responses s f b c p :
  ring_repr s f b c p ->
  RING_HAS_UNCONSUMED_RESPONSES s f = match ch_responses c with [] => false | _ => true end.
Proof.
  intros H. pose proof (rr_used _ _ _ _ _ H) as Hu. unfold chan_used in Hu.
  rewrite law_unconsumed_responses, (rr_rsp_prod _ _ _ _ _ H), (rr_rsp_cons _ _ _ _ _ H).
  rewrite wrapped_distance by lia. by destruct (ch_responses c).
Qed.

(** ** The operations *)

Lemma repr_init s s' :
  s' = SHARED_RING_INIT s -> ring_repr s' FRONT_RING_INIT BACK_RING_INIT chan_empty 0.
Proof.
  intros ->. destruct (law_shared_init s) as [H1 H2], law_front_init as [H3 H4],
    law_back_init as [H5 H6]. pose proof ring_size_pos.
  split; simpl; try done; unfold chan_used; simpl; lia.
Qed.

Definition chan_send (m : list Z) (c : chan) : chan :=
  {| ch_requests := ch_requests c ++ [m]; ch_unanswered := ch_unanswered c;
     ch_responses := ch_responses c |}.

Lemma holds_written s i m :
  Z.of_nat (length m) <= RING_ENTRY_SIZE -> holds_message (ring_entry (ring_write s i m) i) m.
Proof. intros Hm. unfold holds_message. rewrite law_write_same by done. apply take_app_length. Qed.

(** Where the slot of position [x] is written, the one of position [y]
    stays, when they are less than a ring apart. *)
Lemma holds_elsewhere s x y m m' :
  Z.of_nat (length m) <= RING_ENTRY_SIZE -> x <> y -> Z.abs (x - y) < RING_SIZE ->
  holds_message (ring_entry s y) m' -> holds_message (ring_entry (ring_write s (u32 x) m) y) m'.
Proof.
  intros Hm Hne Hd Hy. unfold holds_message. rewrite law_write_other; [done|done|].
  rewrite wrapped_slot. destruct (Z.lt_ge_cases x y).
  - replace y with (x + (y - x)) by lia. apply slots_differ. lia.
  - replace x with (y + (x - y)) by lia. apply not_eq_sym, slots_differ. lia.
Qed.

Lemma repr_send s f b c p m :
  ring_repr s f b c p -> Z.of_nat (chan_used c) < RING_SIZE ->
  Z.of_nat (length m) <= RING_ENTRY_SIZE ->
  let f' := advance_req_prod_pvt f in
  ring_repr (RING_PUSH_REQUESTS (ring_write s (req_prod_pvt f) m) f') f' b (chan_send m c) p.
Proof.
  intros H Hfree Hm f'. pose proof ring_size_pos as Hsz.
  destruct (law_push_requests (ring_write s (req_prod_pvt f) m) f') as (Hp1 & Hp2 & Hp3).
  destruct (law_write_prods s (req_prod_pvt f) m) as (Hw1 & Hw2).
  assert (chan_used (chan_send m c) = Datatypes.S (chan_used c)) as Hused.
  { unfold chan_used, chan_send; simpl. rewrite length_app; simpl. lia. }
  assert (req_prod_pvt f' = u32 (p + Z.of_nat (chan_used (chan_send m c)))) as Hreq.
  { unfold f', advance_req_prod_pvt; simpl. rewrite (rr_req_prod_pvt _ _ _ _ _ H), wrapped_succ.
    f_equal. lia. }
  destruct H as [H1 H2 H3 H4 H5 H6 H7 H8 H9 H10]. unfold chan_used in *. simpl in *.
  split; rewrite ?Hp1, ?Hp2, ?Hw2; simpl; auto.
  - unfold chan_used; simpl in *. lia.
  - intros k m' Hk. rewrite Hp3, H8. pose proof (lookup_lt_Some _ _ _ Hk).
    apply holds_elsewhere; [done|lia|lia|]. by apply H9.
  - intros k m' Hk. rewrite Hp3, H8. apply lookup_app_Some in Hk as [Hk|[Hk Hk']].
    + pose proof (lookup_lt_Some _ _ _ Hk).
      apply holds_elsewhere; [done|lia|lia|]. by apply H10.
    + apply list_lookup_singleton_Some in Hk' as [Hk' <-].
      replace (p + Z.of_nat (length (ch_responses c) + ch_unanswered c + k))
        with (p + Z.of_nat (length (ch_requests c) + ch_unanswered c + length (ch_responses c)))
        by lia.
      rewrite <- ring_entry_wrapped. by apply holds_written.
Qed.

Definition chan_take (c : chan) : chan :=
  {| ch_requests := tail (ch_requests c); ch_unanswered := Datatypes.S (ch_unanswered c);
     ch_responses := ch_responses c |}.

Lemma repr_take s f b c p m rest :
  ring_repr s f b c p -> ch_requests c = m :: rest ->
  holds_message (ring_entry s (req_cons b)) m
  /\ ring_repr s f (advance_req_cons b) (chan_take c) p.
Proof.
  intros H E. split.
  - rewrite (rr_req_cons _ _ _ _ _ H), ring_entry_wrapped.
    pose proof (rr_requests _ _ _ _ _ H 0%nat m) as Hm. rewrite E in Hm.
    specialize (Hm eq_refl). by rewrite Nat.add_0_r in Hm.
  - destruct H as [H1 H2 H3 H4 H5 H6 H7 H8 H9 H10].
    unfold chan_take, chan_used in *. rewrite E in *. simpl in *.
    split; simpl; unfold chan_used; simpl; auto; try lia.
    + rewrite H6, wrapped_succ. f_equal. lia.
    + rewrite H7. f_equal. lia.
    + rewrite H8. f_equal. lia.
    + intros k m' Hk. specialize (H10 (Datatypes.S k) m' Hk).
      replace (length (ch_responses c) + Datatypes.S (ch_unanswered c) + k)%nat
        with (length (ch_responses c) + ch_unanswered c + Datatypes.S k)%nat by lia.
      exact H10.
Qed.

Definition chan_answer (m : list Z) (c : chan) : chan :=
  {| ch_requests := ch_requests c; ch_unanswered := pred (ch_unanswered c);
     ch_responses := ch_responses c ++ [m] |}.

Lemma repr_answer s f b c p m :
  ring_repr s f b c p -> (0 < ch_unanswered c)%nat -> Z.of_nat (length m) <= RING_ENTRY_SIZE ->
  let b' := advance_rsp_prod_pvt b in
  ring_repr (RING_PUSH_RESPONSES (ring_write s (rsp_prod_pvt b) m) b') f b' (chan_answer m c) p.
Proof.
  intros H Hun Hm b'. pose proof ring_size_pos as Hsz.
  destruct (law_push_responses (ring_write s (rsp_prod_pvt b) m) b') as (Hp1 & Hp2 & Hp3).
  destruct (law_write_prods s (rsp_prod_pvt b) m) as (Hw1 & Hw2).
  assert (rsp_prod_pvt b' = u32 (p + Z.of_nat (length (ch_responses (chan_answer m c))))) as Hrsp.
  { unfold b', advance_rsp_prod_pvt; simpl. rewrite (rr_rsp_prod_pvt _ _ _ _ _ H), wrapped_succ.
    rewrite length_app. simpl. f_equal. lia. }
  destruct H as [H1 H2 H3 H4 H5 H6 H7 H8 H9 H10]. unfold chan_used, chan_answer in *. simpl in *.
  split; rewrite ?Hp1, ?Hp2, ?Hw1; unfold chan_used; simpl; auto; rewrite ?length_app; simpl.
  - lia.
  - rewrite H6. f_equal. lia.
  - rewrite H7. f_equal. lia.
  - rewrite H8. f_equal. lia.
  - intros k m' Hk. rewrite Hp3, H4. apply lookup_app_Some in Hk as [Hk|[Hk Hk']].
    + pose proof (lookup_lt_Some _ _ _ Hk).
      apply holds_elsewhere; [done|lia|lia|]. by apply H9.
    + apply list_lookup_singleton_Some in Hk' as [Hk' <-].
      replace k with (length (ch_responses c)) by lia.
      rewrite <- ring_entry_wrapped. by apply holds_written.
  - intros k m' Hk. rewrite Hp3, H4. pose proof (lookup_lt_Some _ _ _ Hk).
    replace (length (ch_responses c) + 1 + pred (ch_unanswered c) + k)%nat
      with (length (ch_responses c) + ch_unanswered c + k)%nat by lia.
    apply holds_elsewhere; [done|lia|lia|]. by apply H10.
Qed.

Definition chan_collect (c : chan) : chan :=
  {| ch_requests := ch_requests c; ch_unanswered := ch_unanswered c;
     ch_responses := tail (ch_responses c) |}.

Lemma repr_collect s f b c p m rest :
  ring_repr s f b c p -> ch_responses c = m :: rest ->
  holds_message (ring_entry s (rsp_cons f)) m
  /\ ring_repr s (advance_rsp_cons f) b (chan_collect c) (p + 1).
Proof.
  intros H E. split.
  - rewrite (rr_rsp_cons _ _ _ _ _ H), ring_entry_wrapped.
    pose proof (rr_responses _ _ _ _ _ H 0%nat m) as Hm. rewrite E in Hm.
    specialize (Hm eq_refl). by rewrite Z.add_0_r in Hm.
  - destruct H as [H1 H2 H3 H4 H5 H6 H7 H8 H9 H10].
    unfold chan_collect, chan_used in *. rewrite E in *. simpl in *.
    split; simpl; unfold chan_used; simpl; auto; try lia.
    + rewrite H3. apply wrapped_succ.
    + rewrite H4. f_equal. lia.
    + rewrite H5. f_equal. lia.
    + rewrite H6. f_equal. lia.
    + rewrite H7. f_equal. lia.
    + rewrite H8. f_equal. lia.
    + intros k m' Hk. specialize (H9 (Datatypes.S k) m' Hk).
      replace (p + 1 + Z.of_nat k) with (p + Z.of_nat (Datatypes.S k)) by lia. exact H9.
    + intros k m' Hk. specialize (H10 k m' Hk).
      replace (p + 1 + Z.of_nat (length rest + ch_unanswered c + k))
        with (p + Z.of_nat (Datatypes.S (length rest) + ch_unanswered c + k)) by lia. exact H10.
Qed.

End Repr.

(** ** A concrete ring of four slots *)

Record simple_ring := { sr_slot : Z -> list Z; sr_req_prod : Z; sr_rsp_prod : Z }.

Definition sr_entry (s : simple_ring) (i : Z) : list Z :=
  resize (Z.to_nat RING_ENTRY_SIZE) 0 (sr_slot s (i mod 4)).

Definition sr_write (s : simple_ring) (i : Z) (m : list Z) : simple_ring :=
  {| sr_slot := fun k => if k =? i mod 4 then m ++ drop (length m) (sr_entry s i) else sr_slot s k;
     sr_req_prod := sr_req_prod s; sr_rsp_prod := sr_rsp_prod s |}.

#[export] Instance SimpleRing : XenRing simple_ring := {|
  RING_SIZE := 4;
  ring_entry := sr_entry;
  ring_write := sr_write;
  sring_req_prod := sr_req_prod;
  sring_rsp_prod := sr_rsp_prod;
  SHARED_RING_INIT := fun s => {| sr_slot := sr_slot s; sr_req_prod := 0; sr_rsp_prod := 0 |};
  FRONT_RING_INIT := {| req_prod_pvt := 0; rsp_cons := 0 |};
  BACK_RING_INIT := {| rsp_prod_pvt := 0; req_cons := 0 |};
  RING_FULL := fun _ f => u32 (req_prod_pvt f - rsp_cons f) =? 4;
  RING_HAS_UNCONSUMED_REQUESTS := fun s b =>
    truth (Z.min (u32 (sr_req_prod s - req_cons b)) (u32 (4 - (req_cons b - rsp_prod_pvt b))));
  RING_HAS_UNCONSUMED_RESPONSES := fun s f => negb (u32 (sr_rsp_prod s - rsp_cons f) =? 0);
  RING_PUSH_REQUESTS := fun s f =>
    {| sr_slot := sr_slot s; sr_req_prod := req_prod_pvt f; sr_rsp_prod := sr_rsp_prod s |};
  RING_PUSH_RESPONSES := fun s b =>
    {| sr_slot := sr_slot s; sr_req_prod := sr_req_prod s; sr_rsp_prod := rsp_prod_pvt b |}
|}.

Lemma ring_entry_size_val : RING_ENTRY_SIZE = 2055.
Proof. reflexivity. Qed.

#[export] Instance SimpleRingLaws : XenRingLaws simple_ring.
Proof.
  pose proof ring_entry_size_val as Hsz.
  split; [| | | | |by intros|by intros|by split|by split|by intros|by intros|by intros|by intros|by intros];
    cbn [RING_SIZE ring_entry ring_write SimpleRing].
  - exists 2. split; [lia|reflexivity].
  - intros s i. unfold sr_entry. by rewrite length_resize, Hsz.
  - intros s i j E. unfold sr_entry. by rewrite E.
  - intros s i m Hm. unfold sr_entry at 1, sr_write. cbn [sr_slot]. rewrite Z.eqb_refl.
    rewrite Hsz in Hm |- *. apply resize_all_alt. rewrite length_app, length_drop.
    unfold sr_entry. rewrite length_resize, Hsz. lia.
  - intros s i j m Hm E. unfold sr_entry, sr_write. cbn [sr_slot].
    by rewrite (proj2 (Z.eqb_neq _ _)) by auto.
Qed.

Definition simple_ring_zero : simple_ring :=
  {| sr_slot := fun _ => []; sr_req_prod := 0; sr_rsp_prod := 0 |}.
