(* ===== verification/InsDriver.v ===== *)
(** * InsDriver: the ring device of an INS

    src-netbsd/sys/rump/dev/lib/libxenevent: the driver behind /dev/xe in
    the kernel of the INS, from which the dispatcher reads requests and
    to which the workers write responses. xenevent_comms.c talks to the
    XenStore and works on the ring, xenevent_device.c has the entry
    points of the device, xenevent_minios.c and xenevent_netbsd.c wrap
    semaphores and mutexes.

    The hypervisor services, the XenStore and the NetBSD kernel are
    third-party code: the class [XenOS], one function from a call and a
    world to a result. A mutex is held, free or absent (a null pointer),
    a semaphore is its count or absent. The assertions and the log are
    compiled out of the default build. *)

From Stdlib Require Import String.
From stdpp Require Import base numbers list.
From Stdlib Require Import ZArith Lia.
From S2P Require Import Prelude Text MessageTypes MwErrno XenRing.

#[local] Open Scope string_scope.
#[local] Open Scope list_scope.
#[local] Open Scope Z_scope.

(** ** xen_keystore_defs.h and ins-ioctls.h *)

Definition XENEVENT_XENSTORE_ROOT : list Z := text "/mw".
Definition SERVER_ID_PATH : list Z := text "/mw/pvm/id".
Definition PRIVATE_ID_PATH : list Z := text "domid".
Definition XENEVENT_PATH_STR_LEN : Z := 32.
Definition MAX_KEY_VAL_WIDTH : Z := 32.
Definition GNT_REF_KEY : list Z := text "gnt_ref".
Definition GNT_REF_CHUNKS : list Z := text "gnt_ref_chunks".
Definition VM_EVT_CHN_PORT_KEY : list Z := text "vm_evt_chn_prt".
Definition VM_EVT_CHN_BOUND_KEY : list Z := text "vm_evt_chn_is_bound".
Definition INS_ID_KEY : list Z := text "ins_dom_id".
Definition INS_IP_ADDR_KEY : list Z := text "ip_addrs".
Definition INS_HEARTBEAT_KEY : list Z := text "heartbeat".
Definition INS_SOCKET_PARAMS_KEY : list Z := text "sockopts".
Definition INS_NETWORK_STATS_KEY : list Z := text "network_stats".
Definition INS_LISTENER_KEY : list Z := text "listening_ports".
Definition XENEVENT_GRANT_REF_ORDER : Z := 8.
Definition XENEVENT_GRANT_REF_COUNT : nat := 256.
Definition XENEVENT_GRANT_REF_DELIM : Z := 32.
Definition XENEVENT_GRANT_REF_END : Z := 58.
Definition GNT_REF_CHUNK_SIZE : nat := 64.
Definition INS_SOCK_PARAMS_MAX_LEN : Z := 512.
Definition PAGE_SIZE : Z := 4096.
Definition IP_BUF_SIZE : Z := 128.
Definition INS_EVENT_CHANNEL_MEM_ORDER : Z := 0.
Definition EPASSTHROUGH : Z := -4.

(** "%s/%d" and "%s/%d/%s", into a buffer of 32 bytes. *)
Definition domain_dir (domid : Z) : list Z :=
  XENEVENT_XENSTORE_ROOT ++ [47] ++ int_text domid.
Definition domain_key (domid : Z) (key : list Z) : list Z :=
  snprintf XENEVENT_PATH_STR_LEN (domain_dir domid ++ [47] ++ key).

(** ** Calls to the system *)

Inductive xe_call : Type :=
| XbTransactionStart
| XbTransactionEnd (abort : Z)
| XbWrite (path value : list Z)
| XbRead (path : list Z)
| XbRm (path : list Z)
| XbWatch (path token : list Z)
| XbUnwatch (path token : list Z)
| XbWaitForWatch
| GntmapInit
| GntmapMapGrantRefs (count domid : Z) (refs : list Z) (writable : Z)
| GntmapFini
| BmkMemalloc
| BmkMemfree
| BmkPgalloc (order : Z)
| BmkPgfree (order : Z)
| EvtBindInterdomain (domid port : Z)
| EvtClear (port : Z)
| EvtMask (port : Z)
| EvtUnmask (port : Z)
| EvtUnbind (port : Z)
| EvtNotifyRemote (port : Z)
| KMalloc (size : Z)
| KFree
| DevswAttach
| MakeDevNode
| RtWalktree.

(** The result of a call. For the XenStore calls [x_ret] is 0 when no
    error string is returned, and [x_text] the value read; for an
    allocation or a mapping it is non-zero when it succeeded. [x_ifaces]
    is what a walk over the routes finds: per route the addresses of its
    interface, as family and printed text. *)
Record xe_res := {
  x_ret : Z; x_text : list Z; x_val : Z; x_ifaces : list (list (Z * list Z))
}.

Class XenOS (W : Type) := xen_os_call : xe_call -> W -> xe_res * W.

(** The value a sequence of writes leaves under a key. *)
Definition last_write (kvs : list (list Z * list Z)) (key : list Z) : option (list Z) :=
  fold_left (fun acc kv => if bool_decide (kv.1 = key) then Some kv.2 else acc) kvs None.

(** A XenStore for the witnesses: the world is the list of its writes, a
    key that was never written cannot be read, and every other call
    succeeds. *)
#[export] Instance StoreXen : XenOS (list (list Z * list Z)) := fun c w =>
  let ok r t := {| x_ret := r; x_text := t; x_val := 1; x_ifaces := [] |} in
  match c with
  | XbRead key => (match last_write w key with Some v => ok 0 v | None => ok 1 [] end, w)
  | XbWrite key v => (ok 0 [], w ++ [(key, v)])
  | BmkMemalloc | BmkPgalloc _ | KMalloc _ | GntmapMapGrantRefs _ _ _ _ => (ok 1 [], w)
  | _ => (ok 0 [], w)
  end.

(** ** State *)

Record xen_comm_state := {
  cs_local_id : Z;
  cs_grant_refs : list Z;
  cs_shared_ring : bool;
  cs_shared_ring_size : Z;
  cs_back_ring : back_ring;
  cs_event_channel_mem : bool;
  cs_local_event_port : Z;
  cs_messages_available : option Z
}.

Definition set_cs_local_id (v : Z) (x : xen_comm_state) : xen_comm_state :=
  {| cs_local_id := v; cs_grant_refs := cs_grant_refs x; cs_shared_ring := cs_shared_ring x;
     cs_shared_ring_size := cs_shared_ring_size x; cs_back_ring := cs_back_ring x;
     cs_event_channel_mem := cs_event_channel_mem x; cs_local_event_port :=
     cs_local_event_port x; cs_messages_available := cs_messages_available x |}.
Definition set_cs_grant_refs (v : list Z) (x : xen_comm_state) : xen_comm_state :=
  {| cs_local_id := cs_local_id x; cs_grant_refs := v; cs_shared_ring := cs_shared_ring x;
     cs_shared_ring_size := cs_shared_ring_size x; cs_back_ring := cs_back_ring x;
     cs_event_channel_mem := cs_event_channel_mem x; cs_local_event_port :=
     cs_local_event_port x; cs_messages_available := cs_messages_available x |}.
Definition set_cs_shared_ring (v : bool) (x : xen_comm_state) : xen_comm_state :=
  {| cs_local_id := cs_local_id x; cs_grant_refs := cs_grant_refs x; cs_shared_ring := v;
     cs_shared_ring_size := cs_shared_ring_size x; cs_back_ring := cs_back_ring x;
     cs_event_channel_mem := cs_event_channel_mem x; cs_local_event_port :=
     cs_local_event_port x; cs_messages_available := cs_messages_available x |}.
Definition set_cs_shared_ring_size (v : Z) (x : xen_comm_state) : xen_comm_state :=
  {| cs_local_id := cs_local_id x; cs_grant_refs := cs_grant_refs x; cs_shared_ring :=
     cs_shared_ring x; cs_shared_ring_size := v; cs_back_ring := cs_back_ring x;
     cs_event_channel_mem := cs_event_channel_mem x; cs_local_event_port :=
     cs_local_event_port x; cs_messages_available := cs_messages_available x |}.
Definition set_cs_back_ring (v : back_ring) (x : xen_comm_state) : xen_comm_state :=
  {| cs_local_id := cs_local_id x; cs_grant_refs := cs_grant_refs x; cs_shared_ring :=
     cs_shared_ring x; cs_shared_ring_size := cs_shared_ring_size x; cs_back_ring := v;
     cs_event_channel_mem := cs_event_channel_mem x; cs_local_event_port :=
     cs_local_event_port x; cs_messages_available := cs_messages_available x |}.
Definition set_cs_event_channel_mem (v : bool) (x : xen_comm_state) : xen_comm_state :=
  {| cs_local_id := cs_local_id x; cs_grant_refs := cs_grant_refs x; cs_shared_ring :=
     cs_shared_ring x; cs_shared_ring_size := cs_shared_ring_size x; cs_back_ring :=
     cs_back_ring x; cs_event_channel_mem := v; cs_local_event_port := cs_local_event_port x;
     cs_messages_available := cs_messages_available x |}.
Definition set_cs_local_event_port (v : Z) (x : xen_comm_state) : xen_comm_state :=
  {| cs_local_id := cs_local_id x; cs_grant_refs := cs_grant_refs x; cs_shared_ring :=
     cs_shared_ring x; cs_shared_ring_size := cs_shared_ring_size x; cs_back_ring :=
     cs_back_ring x; cs_event_channel_mem := cs_event_channel_mem x; cs_local_event_port := v;
     cs_messages_available := cs_messages_available x |}.
Definition set_cs_messages_available (v : option Z) (x : xen_comm_state) : xen_comm_state :=
  {| cs_local_id := cs_local_id x; cs_grant_refs := cs_grant_refs x; cs_shared_ring :=
     cs_shared_ring x; cs_shared_ring_size := cs_shared_ring_size x; cs_back_ring :=
     cs_back_ring x; cs_event_channel_mem := cs_event_channel_mem x; cs_local_event_port :=
     cs_local_event_port x; cs_messages_available := v |}.

Record xen_dev_state := {
  ds_read_lock : option bool;
  ds_write_lock : option bool;
  ds_open_count : Z;
  ds_ip_found : bool
}.

Definition set_ds_read_lock (v : option bool) (x : xen_dev_state) : xen_dev_state :=
  {| ds_read_lock := v; ds_write_lock := ds_write_lock x; ds_open_count := ds_open_count x;
     ds_ip_found := ds_ip_found x |}.
Definition set_ds_write_lock (v : option bool) (x : xen_dev_state) : xen_dev_state :=
  {| ds_read_lock := ds_read_lock x; ds_write_lock := v; ds_open_count := ds_open_count x;
     ds_ip_found := ds_ip_found x |}.
Definition set_ds_open_count (v : Z) (x : xen_dev_state) : xen_dev_state :=
  {| ds_read_lock := ds_read_lock x; ds_write_lock := ds_write_lock x; ds_open_count := v;
     ds_ip_found := ds_ip_found x |}.
Definition set_ds_ip_found (v : bool) (x : xen_dev_state) : xen_dev_state :=
  {| ds_read_lock := ds_read_lock x; ds_write_lock := ds_write_lock x; ds_open_count :=
     ds_open_count x; ds_ip_found := v |}.

Record comms_static := {
  sv_sock_init : bool;
  sv_sock_path : list Z;
  sv_heartbeat : Z;
  sv_heartbeat_path : list Z;
  sv_stats_path : list Z;
  sv_listener_path : list Z
}.

Definition set_sv_sock_init (v : bool) (x : comms_static) : comms_static :=
  {| sv_sock_init := v; sv_sock_path := sv_sock_path x; sv_heartbeat := sv_heartbeat x;
     sv_heartbeat_path := sv_heartbeat_path x; sv_stats_path := sv_stats_path x;
     sv_listener_path := sv_listener_path x |}.
Definition set_sv_sock_path (v : list Z) (x : comms_static) : comms_static :=
  {| sv_sock_init := sv_sock_init x; sv_sock_path := v; sv_heartbeat := sv_heartbeat x;
     sv_heartbeat_path := sv_heartbeat_path x; sv_stats_path := sv_stats_path x;
     sv_listener_path := sv_listener_path x |}.
Definition set_sv_heartbeat (v : Z) (x : comms_static) : comms_static :=
  {| sv_sock_init := sv_sock_init x; sv_sock_path := sv_sock_path x; sv_heartbeat := v;
     sv_heartbeat_path := sv_heartbeat_path x; sv_stats_path := sv_stats_path x;
     sv_listener_path := sv_listener_path x |}.
Definition set_sv_heartbeat_path (v : list Z) (x : comms_static) : comms_static :=
  {| sv_sock_init := sv_sock_init x; sv_sock_path := sv_sock_path x; sv_heartbeat :=
     sv_heartbeat x; sv_heartbeat_path := v; sv_stats_path := sv_stats_path x;
     sv_listener_path := sv_listener_path x |}.
Definition set_sv_stats_path (v : list Z) (x : comms_static) : comms_static :=
  {| sv_sock_init := sv_sock_init x; sv_sock_path := sv_sock_path x; sv_heartbeat :=
     sv_heartbeat x; sv_heartbeat_path := sv_heartbeat_path x; sv_stats_path := v;
     sv_listener_path := sv_listener_path x |}.
Definition set_sv_listener_path (v : list Z) (x : comms_static) : comms_static :=
  {| sv_sock_init := sv_sock_init x; sv_sock_path := sv_sock_path x; sv_heartbeat :=
     sv_heartbeat x; sv_heartbeat_path := sv_heartbeat_path x; sv_stats_path := sv_stats_path
     x; sv_listener_path := v |}.

Record xe_state (S W : Type) := {
  xs_comm : xen_comm_state;
  xs_dev : xen_dev_state;
  xs_static : comms_static;
  xs_ring : S;
  xs_world : W;
  xs_trace : list xe_call
}.
Arguments xs_comm {S W}.
Arguments xs_dev {S W}.
Arguments xs_static {S W}.
Arguments xs_ring {S W}.
Arguments xs_world {S W}.
Arguments xs_trace {S W}.

Definition set_xs_comm {S W} (v : xen_comm_state) (x : xe_state S W) : xe_state S W :=
  {| xs_comm := v; xs_dev := xs_dev x; xs_static := xs_static x; xs_ring := xs_ring x;
     xs_world := xs_world x; xs_trace := xs_trace x |}.
Definition set_xs_dev {S W} (v : xen_dev_state) (x : xe_state S W) : xe_state S W :=
  {| xs_comm := xs_comm x; xs_dev := v; xs_static := xs_static x; xs_ring := xs_ring x;
     xs_world := xs_world x; xs_trace := xs_trace x |}.
Definition set_xs_static {S W} (v : comms_static) (x : xe_state S W) : xe_state S W :=
  {| xs_comm := xs_comm x; xs_dev := xs_dev x; xs_static := v; xs_ring := xs_ring x; xs_world
     := xs_world x; xs_trace := xs_trace x |}.
Definition set_xs_ring {S W} (v : S) (x : xe_state S W) : xe_state S W :=
  {| xs_comm := xs_comm x; xs_dev := xs_dev x; xs_static := xs_static x; xs_ring := v;
     xs_world := xs_world x; xs_trace := xs_trace x |}.
Definition set_xs_world {S W} (v : W) (x : xe_state S W) : xe_state S W :=
  {| xs_comm := xs_comm x; xs_dev := xs_dev x; xs_static := xs_static x; xs_ring := xs_ring x;
     xs_world := v; xs_trace := xs_trace x |}.
Definition set_xs_trace {S W} (v : list xe_call) (x : xe_state S W) : xe_state S W :=
  {| xs_comm := xs_comm x; xs_dev := xs_dev x; xs_static := xs_static x; xs_ring := xs_ring x;
     xs_world := xs_world x; xs_trace := v |}.

(** *** Memory handed to the device: one element of an I/O vector. *)
Record iovec := { iov_base : list Z; iov_len : Z }.
Record uio := { uio_iov : list iovec; uio_offset : Z; uio_resid : Z }.

Section Driver.

Context {S W : Type} {R : XenRing S} {OS : XenOS W}.

Definition xe_m (A : Type) : Type := M (xe_state S W) A.

Definition xcall (c : xe_call) : xe_m xe_res := fun s =>
  let '(r, w) := xen_os_call c (xs_world s) in
  Done (r, set_xs_world w (set_xs_trace (xs_trace s ++ [c]) s)).

Definition get_comm {A} (f : xen_comm_state -> A) : xe_m A := gets (fun s => f (xs_comm s)).
Definition upd_comm (f : xen_comm_state -> xen_comm_state) : xe_m unit :=
  modify (fun s => set_xs_comm (f (xs_comm s)) s).
Definition get_dev {A} (f : xen_dev_state -> A) : xe_m A := gets (fun s => f (xs_dev s)).
Definition upd_dev (f : xen_dev_state -> xen_dev_state) : xe_m unit :=
  modify (fun s => set_xs_dev (f (xs_dev s)) s).
Definition get_static {A} (f : comms_static -> A) : xe_m A := gets (fun s => f (xs_static s)).
Definition upd_static (f : comms_static -> comms_static) : xe_m unit :=
  modify (fun s => set_xs_static (f (xs_static s)) s).

(** ** xenevent_minios.c: semaphores *)

Definition xenevent_semaphore_init : xe_m Z :=
  let* r := xcall BmkMemalloc in
  if x_ret r =? 0 then ret ENOMEM
  else upd_comm (set_cs_messages_available (Some 0)) ;;; ret 0.

Definition xenevent_semaphore_destroy : xe_m unit :=
  let* sem := get_comm cs_messages_available in
  match sem with
  | None => ret tt
  | Some _ => xcall BmkMemfree ;;; upd_comm (set_cs_messages_available None)
  end.

Definition xenevent_semaphore_up : xe_m unit :=
  let* sem := get_comm cs_messages_available in
  match sem with
  | None => undef
  | Some n => upd_comm (set_cs_messages_available (Some (n + 1)))
  end.

Definition xenevent_semaphore_trydown : xe_m bool :=
  let* sem := get_comm cs_messages_available in
  match sem with
  | None => undef
  | Some n => if 0 <? n then upd_comm (set_cs_messages_available (Some (n - 1))) ;;; ret true
              else ret false
  end.

(** A failed attempt gives the CPU away and waits in down(). *)
Definition xenevent_semaphore_down : xe_m unit :=
  let* taken := xenevent_semaphore_trydown in
  if taken then ret tt else block.

(** ** xenevent_netbsd.c: mutexes *)

Definition xenevent_mutex_init (set : option bool -> xen_dev_state -> xen_dev_state) : xe_m Z :=
  let* r := xcall (KMalloc 8) in
  if x_ret r =? 0 then ret ENOMEM else upd_dev (set (Some false)) ;;; ret 0.

Definition xenevent_mutex_wait (get : xen_dev_state -> option bool)
    (set : option bool -> xen_dev_state -> xen_dev_state) : xe_m unit :=
  let* m := get_dev get in
  match m with
  | None => undef
  | Some true => block
  | Some false => upd_dev (set (Some true))
  end.

Definition xenevent_mutex_release (get : xen_dev_state -> option bool)
    (set : option bool -> xen_dev_state -> xen_dev_state) : xe_m unit :=
  let* m := get_dev get in
  match m with
  | None => undef
  | Some _ => upd_dev (set (Some false))
  end.

Definition xenevent_mutex_destroy (get : xen_dev_state -> option bool)
    (set : option bool -> xen_dev_state -> xen_dev_state) : xe_m unit :=
  let* m := get_dev get in
  match m with
  | None => ret tt
  | Some _ => xcall KFree ;;; upd_dev (set None)
  end.

(** The new value is returned; the counter is unsigned. *)
Definition xenevent_atomic_inc_open_count : xe_m Z :=
  let* n := get_dev ds_open_count in
  upd_dev (set_ds_open_count (u32 (n + 1))) ;;; ret (u32 (n + 1)).
Definition xenevent_atomic_dec_open_count : xe_m Z :=
  let* n := get_dev ds_open_count in
  upd_dev (set_ds_open_count (u32 (n - 1))) ;;; ret (u32 (n - 1)).

(** ** xenevent_comms.c: the XenStore *)

(** A transaction with one operation; the result of its end, which
    reports that it must be repeated, is ignored. *)
Definition in_transaction (op : xe_call) : xe_m (Z * list Z) :=
  let* st := xcall XbTransactionStart in
  if truth (x_ret st) then ret (1, [])
  else
    let* r := xcall op in
    xcall (XbTransactionEnd 0) ;;;
    if truth (x_ret r) then ret (1, []) else ret (0, x_text r).

Definition xe_comms_write_str_to_key (Path Value : list Z) : xe_m Z :=
  let* (res, _) := in_transaction (XbWrite Path Value) in ret res.

(** "%u" of an [int]. *)
Definition xe_comms_write_int_to_key (Path : list Z) (Value : Z) : xe_m Z :=
  xe_comms_write_str_to_key Path (snprintf MAX_KEY_VAL_WIDTH (dec_text (u32 Value))).

(** The value, [None] for the null pointer. *)
Definition xe_comms_read_str_from_key (Path : list Z) : xe_m (Z * option (list Z)) :=
  let* (res, v) := in_transaction (XbRead Path) in
  ret (res, if truth res then None else Some v).

Definition xe_comms_remove_directory (Path : list Z) : xe_m Z :=
  let* (res, _) := in_transaction (XbRm Path) in ret res.

Definition xe_comms_read_int_from_key (Path : list Z) : xe_m (Z * Z) :=
  let* (res, v) := xe_comms_read_str_from_key Path in
  match v with
  | Some t => ret (res, s32 (fst (bmk_strtoul t 10)))
  | None => ret (res, 0)
  end.

(** Reads until there is a value other than 0, waiting for a change of
    the key in between. *)
Fixpoint wait_for_key (fuel : nat) (Path : list Z) : xe_m (Z * Z) :=
  match fuel with
  | O => out_of_fuel
  | Datatypes.S fuel' =>
      let* (rc, v) := xe_comms_read_int_from_key Path in
      if negb (rc =? 0) || (0 =? v) then xcall XbWaitForWatch ;;; wait_for_key fuel' Path
      else ret (rc, v)
  end.

Definition xe_comms_wait_and_read_int_from_key (fuel : nat) (Path : list Z) : xe_m (Z * Z) :=
  xcall (XbWatch Path Path) ;;;
  let* r := wait_for_key fuel Path in
  xcall (XbUnwatch Path Path) ;;;
  ret r.

Definition xe_comms_publish_ip_addr (Ip : list Z) : xe_m Z :=
  let* id := get_comm cs_local_id in
  xe_comms_write_str_to_key (domain_key id INS_IP_ADDR_KEY) Ip.

(** ** xenevent_comms.c: the ring *)

(** PVM_USES_EVENT_CHANNEL and INS_USES_EVENT_CHANNEL are set. *)
Definition send_event (Port : Z) : xe_m Z :=
  let* r := xcall (EvtNotifyRemote Port) in ret (x_ret r).

Definition xe_comms_event_callback : xe_m unit := xenevent_semaphore_up.

(** The wait for a request: with nothing on the ring the thread takes one
    signal of the semaphore and looks again; [n] bounds the signals. *)
Fixpoint wait_for_request (n : nat) : xe_m unit :=
  let* s := gets (fun s => s) in
  if RING_HAS_UNCONSUMED_REQUESTS (xs_ring s) (cs_back_ring (xs_comm s)) then ret tt
  else
    xenevent_semaphore_down ;;;
    match n with
    | O => out_of_fuel
    | Datatypes.S n' => wait_for_request n'
    end.

Definition pending_signals (c : xen_comm_state) : nat :=
  match cs_messages_available c with Some n => Z.to_nat n | None => O end.

(** Return code and what was copied to [Memory] ([*BytesRead] bytes). *)
Definition xe_comms_read_item (Size : Z) : xe_m (Z * list Z) :=
  let* n := get_comm pending_signals in
  wait_for_request n ;;;
  let* s := gets (fun s => s) in
  let request := ring_entry (xs_ring s) (req_cons (cs_back_ring (xs_comm s))) in
  let base := get_request_base request in
  let* res :=
    (if negb (MT_IS_REQUEST base) || (Size <? rq_size base) then ret (EINVAL, [])
     else if RING_ENTRY_SIZE <? rq_size base then undef
     else ret (0, take (Z.to_nat (rq_size base)) request)) in
  upd_comm (fun c => set_cs_back_ring (advance_req_cons (cs_back_ring c)) c) ;;;
  ret res.

(** [Memory] holds the response. Its own size says how much is copied;
    [Size] is only asserted against. *)
Definition xe_comms_write_item (Memory : list Z) (Size : Z) : xe_m (Z * Z) :=
  let* s := gets (fun s => s) in
  let back := cs_back_ring (xs_comm s) in
  let size := rs_size (get_response_base Memory) in
  if (Z.of_nat (length Memory) <? size) || (RING_ENTRY_SIZE <? size) then undef
  else
    let back' := advance_rsp_prod_pvt back in
    let ring := ring_write (xs_ring s) (rsp_prod_pvt back) (take (Z.to_nat size) Memory) in
    modify (set_xs_ring (RING_PUSH_RESPONSES ring back')) ;;;
    upd_comm (set_cs_back_ring back') ;;;
    let* port := get_comm cs_local_event_port in
    send_event port ;;;
    ret (0, size).

(** ** xenevent_comms.c: registration *)

(** The tokens of one chunk of grant references. Each is stored before
    the character behind it is looked at; past the last slot the store
    leaves the array. [n] counts the free slots. *)
Fixpoint parse_grant_refs (n : nat) (msgptr : list Z) (refs : list Z) : outcome (Z * list Z) :=
  match n with
  | O => Undef
  | Datatypes.S n' =>
      let (v, next) := bmk_strtoul msgptr 16 in
      let refs := refs ++ [u32 v] in
      let c := hd 0 next in
      if c =? XENEVENT_GRANT_REF_END then Done (0, refs)
      else if negb (c =? XENEVENT_GRANT_REF_DELIM) then Done (EINVAL, refs)
      else parse_grant_refs n' next refs
  end.

(** The chunks [gnt], [gnt + 1], ... ([n] of them); [refs] are those read
    so far. *)
Fixpoint read_grant_chunks (n : nat) (gnt : Z) (refs : list Z) : xe_m (Z * list Z) :=
  match n with
  | O => ret (0, refs)
  | Datatypes.S n' =>
      let* id := get_comm cs_local_id in
      let* (rc, gntstr) :=
        xe_comms_read_str_from_key (domain_key id (GNT_REF_KEY ++ [95] ++ int_text gnt)) in
      match gntstr with
      | None => ret (rc, refs)
      | Some msg =>
          match parse_grant_refs (XENEVENT_GRANT_REF_COUNT - length refs) msg refs with
          | Done (0, refs) => read_grant_chunks n' (gnt + 1) refs
          | Done (rc, refs) => ret (rc, refs)
          | _ => undef
          end
      end
  end.

(** Waits until the number of chunks is there and does not start with 0. *)
Fixpoint wait_for_chunks (fuel : nat) (path : list Z) : xe_m unit :=
  match fuel with
  | O => out_of_fuel
  | Datatypes.S fuel' =>
      let* r := xcall (XbRead path) in
      if truth (x_ret r) || (hd 0 (x_text r) =? 48) then
        xcall XbWaitForWatch ;;; wait_for_chunks fuel' path
      else ret tt
  end.

Definition xe_comms_rcv_grant_refs (fuel : nat) (RemoteId : Z) : xe_m Z :=
  let* id := get_comm cs_local_id in
  let path := domain_key id GNT_REF_CHUNKS in
  xcall (XbWatch path []) ;;;
  wait_for_chunks fuel path ;;;
  xcall (XbUnwatch path []) ;;;
  let* (rc, refstr) := xe_comms_read_str_from_key path in
  match refstr with
  | None => ret rc
  | Some t =>
      let gnt_ref_chunks := s32 (fst (bmk_strtoul t 10)) in
      let* (rc, refs) := read_grant_chunks (Z.to_nat gnt_ref_chunks) 1 [] in
      upd_comm (fun c =>
        set_cs_grant_refs (refs ++ drop (length refs) (cs_grant_refs c)) c) ;;;
      if truth rc then ret rc
      else
        xcall GntmapInit ;;;
        let* refs := get_comm cs_grant_refs in
        let* r := xcall (GntmapMapGrantRefs (Z.of_nat XENEVENT_GRANT_REF_COUNT) RemoteId refs 1) in
        if x_ret r =? 0 then upd_comm (set_cs_shared_ring false) ;;; ret ENOMEM
        else
          upd_comm (fun c => set_cs_shared_ring_size (Z.of_nat XENEVENT_GRANT_REF_COUNT * PAGE_SIZE)
                               (set_cs_shared_ring true c)) ;;;
          ret 0
  end.

Definition xe_comms_bind_to_interdom_chn (Srvr_Id Remote_Prt_Nmbr : Z) : xe_m Z :=
  let* m := xcall (BmkPgalloc INS_EVENT_CHANNEL_MEM_ORDER) in
  upd_comm (set_cs_event_channel_mem (truth (x_ret m))) ;;;
  if x_ret m =? 0 then ret ENOMEM
  else
    let* r := xcall (EvtBindInterdomain Srvr_Id Remote_Prt_Nmbr) in
    if truth (x_ret r) then ret (x_ret r)
    else
      upd_comm (set_cs_local_event_port (x_val r)) ;;;
      xcall (EvtClear (x_val r)) ;;;
      xcall (EvtUnmask (x_val r)) ;;;
      let* id := get_comm cs_local_id in
      xe_comms_write_int_to_key (domain_key id VM_EVT_CHN_BOUND_KEY) 1.

Definition xe_comms_get_sock_params : xe_m (Z * list Z) :=
  let* sv := get_static (fun s => s) in
  let* id := get_comm cs_local_id in
  when (negb (sv_sock_init sv))
    (upd_static (fun s => set_sv_sock_path (domain_key id INS_SOCKET_PARAMS_KEY)
                            (set_sv_sock_init true s))) ;;;
  let* path := get_static sv_sock_path in
  let* (rc, params) := xe_comms_read_str_from_key path in
  match params with
  | None => ret (rc, [])
  | Some t => ret (rc, take (Z.to_nat (INS_SOCK_PARAMS_MAX_LEN - 1)) t)
  end.

Definition xe_comms_heartbeat (NetworkStats : list Z) : xe_m Z :=
  let* sv := get_static (fun s => s) in
  let* id := get_comm cs_local_id in
  when (0 =? sv_heartbeat sv)
    (upd_static (fun s => set_sv_heartbeat_path (domain_key id INS_HEARTBEAT_KEY)
                            (set_sv_stats_path (domain_key id INS_NETWORK_STATS_KEY) s))) ;;;
  let* sv := get_static (fun s => s) in
  let* err := xe_comms_write_int_to_key (sv_heartbeat_path sv) (sv_heartbeat sv) in
  if truth err then ret err
  else
    upd_static (fun s => set_sv_heartbeat (s32 (sv_heartbeat s + 1)) s) ;;;
    xe_comms_write_str_to_key (sv_stats_path sv) NetworkStats.

Definition xe_comms_listeners (Listeners : list Z) : xe_m Z :=
  let* path := get_static sv_listener_path in
  let* id := get_comm cs_local_id in
  when (match path with [] => true | _ => false end)
    (upd_static (set_sv_listener_path (domain_key id INS_LISTENER_KEY))) ;;;
  let* path := get_static sv_listener_path in
  xe_comms_write_str_to_key path Listeners.

Definition xe_comms_get_domid : xe_m Z :=
  let* (rc, v) := xe_comms_read_int_from_key PRIVATE_ID_PATH in
  ret (if truth rc then rc else v).

(** The id is read as an [int] into the 16-bit field. *)
Definition xe_comms_init : xe_m Z :=
  let* rc := xenevent_semaphore_init in
  if truth rc then ret rc
  else
    let* (rc, v) := xe_comms_read_int_from_key PRIVATE_ID_PATH in
    upd_comm (set_cs_local_id (u16 v)) ;;;
    ret rc.

(** The domain id of the server is stored in 16 bits too. *)
Definition xe_comms_register (fuel : nat) : xe_m Z :=
  let* id := get_comm cs_local_id in
  let* rc := xe_comms_write_int_to_key (domain_key id INS_ID_KEY) id in
  if truth rc then ret rc
  else
    let* (rc, remote) := xe_comms_wait_and_read_int_from_key fuel SERVER_ID_PATH in
    let remoteId := u16 remote in
    if truth rc then ret rc
    else
      let* rc := xe_comms_rcv_grant_refs fuel remoteId in
      if truth rc then ret rc
      else
        let* (rc, port) :=
          xe_comms_wait_and_read_int_from_key fuel (domain_key id VM_EVT_CHN_PORT_KEY) in
        if truth rc then ret rc
        else
          let* rc := xe_comms_bind_to_interdom_chn remoteId port in
          if truth rc then ret rc
          else upd_comm (set_cs_back_ring BACK_RING_INIT) ;;; ret 0.

Definition xe_comms_fini : xe_m Z :=
  let* c := get_comm (fun c => c) in
  xcall (EvtMask (cs_local_event_port c)) ;;;
  xcall (EvtClear (cs_local_event_port c)) ;;;
  xcall (EvtUnbind (cs_local_event_port c)) ;;;
  xenevent_semaphore_destroy ;;;
  when (cs_event_channel_mem c) (xcall (BmkPgfree INS_EVENT_CHANNEL_MEM_ORDER) ;;; ret tt) ;;;
  xcall GntmapFini ;;;
  xe_comms_remove_directory (snprintf XENEVENT_PATH_STR_LEN (domain_dir (cs_local_id c))) ;;;
  ret 0.

(** ** xenevent_device.c *)

(** strstr() found nothing. *)
Fixpoint is_prefix (p s : list Z) : bool :=
  match p, s with
  | [], _ => true
  | a :: p', b :: s' => (a =? b) && is_prefix p' s'
  | _ :: _, [] => false
  end.
Fixpoint contains (s p : list Z) : bool :=
  is_prefix p s || match s with [] => false | _ :: s' => contains s' p end.

Definition AF_INET : Z := 2.

(** The first IPv4 address of an interface is appended to the buffer,
    unless it is there already. *)
Fixpoint xe_dev_iface_callback (addresses : list (Z * list Z)) (buf : list Z) : list Z :=
  match addresses with
  | [] => buf
  | (family, ip) :: rest =>
      if AF_INET =? family then
        if contains buf (take 15 ip) then buf
        else snprintf IP_BUF_SIZE (buf ++ [32] ++ take 15 ip)
      else xe_dev_iface_callback rest buf
  end.

Definition xe_dev_publish_ip : xe_m Z :=
  let* found := get_dev ds_ip_found in
  if found then ret 0
  else
    upd_dev (set_ds_ip_found true) ;;;
    let* m := xcall (KMalloc IP_BUF_SIZE) in
    if x_ret m =? 0 then ret ENOMEM
    else
      let* r := xcall RtWalktree in
      let buf := fold_left (fun buf a => xe_dev_iface_callback a buf) (x_ifaces r) [] in
      let* rc := (if truth (x_ret r) then ret (x_ret r) else xe_comms_publish_ip_addr buf) in
      xcall KFree ;;;
      ret rc.

Definition dev_zero : xen_dev_state :=
  {| ds_read_lock := None; ds_write_lock := None; ds_open_count := 0; ds_ip_found := false |}.

Definition xe_dev_init : xe_m Z :=
  upd_dev (fun _ => dev_zero) ;;;
  let* rc := xe_comms_init in
  if truth rc then ret rc
  else
    let* r := xcall DevswAttach in
    if truth (x_ret r) then ret (x_ret r)
    else let* r := xcall MakeDevNode in ret (x_ret r).

Definition xe_dev_fini : xe_m Z := xe_comms_fini.

(** The commands, with the data handed over. *)
Inductive xe_ioctl : Type :=
| INS_GET_SOCK_PARAMS_IOCTL
| INS_HEARTBEAT_IOCTL (stats : list Z)
| INS_DOMID_IOCTL
| INS_PUBLISH_LISTENERS_IOCTL (listeners : list Z)
| OtherIoctl.

(** Return code and what is stored through [Data]. *)
Inductive ioctl_data : Type := NoData | DataText (t : list Z) | DataDomid (d : Z).

Definition xe_dev_ioctl (Cmd : xe_ioctl) : xe_m (Z * ioctl_data) :=
  match Cmd with
  | INS_GET_SOCK_PARAMS_IOCTL =>
      let* (rc, t) := xe_comms_get_sock_params in ret (rc, DataText t)
  | INS_HEARTBEAT_IOCTL stats =>
      let* rc := xe_comms_heartbeat stats in
      ret (if 0 =? rc then 0 else EPASSTHROUGH, NoData)
  | INS_DOMID_IOCTL =>
      let* rc := xe_comms_get_domid in
      if rc <=? 0 then ret (EPASSTHROUGH, NoData) else ret (0, DataDomid (u16 rc))
  | INS_PUBLISH_LISTENERS_IOCTL l =>
      let* rc := xe_comms_listeners l in ret (rc, NoData)
  | OtherIoctl => ret (EINVAL, NoData)
  end.

Definition xe_dev_open (fuel : nat) : xe_m Z :=
  let* n := xenevent_atomic_inc_open_count in
  if 1 <? n then ret EBUSY
  else
    let* rc := xenevent_mutex_init set_ds_read_lock in
    if truth rc then ret rc
    else
      let* rc := xenevent_mutex_init set_ds_write_lock in
      if truth rc then ret rc
      else
        let* rc := xe_comms_register fuel in
        if truth rc then ret rc else xe_dev_publish_ip.

Definition xe_dev_close : xe_m Z :=
  let* n := xenevent_atomic_dec_open_count in
  if negb (0 =? n) then ret 0
  else
    xenevent_mutex_destroy ds_read_lock set_ds_read_lock ;;;
    xenevent_mutex_destroy ds_write_lock set_ds_write_lock ;;;
    xe_dev_fini.

(** The loop over the vector: one request per element, stored at its
    base. *)
Fixpoint read_iovs (todo : list iovec) (finished : list iovec) (u : uio) : xe_m (Z * uio) :=
  match todo with
  | [] => ret (0, u)
  | iov :: rest =>
      let* (rc, bytes) := xe_comms_read_item (iov_len iov) in
      if truth rc then ret (rc, u)
      else
        let n := Z.of_nat (length bytes) in
        let iov' := {| iov_base := iov_base iov ++ bytes; iov_len := iov_len iov - n |} in
        let finished := finished ++ [iov'] in
        read_iovs rest finished
          {| uio_iov := finished ++ rest; uio_offset := uio_offset u + n;
             uio_resid := uio_resid u - n |}
  end.

Definition xe_dev_read (Uio : uio) : xe_m (Z * uio) :=
  xenevent_mutex_wait ds_read_lock set_ds_read_lock ;;;
  let* r := read_iovs (uio_iov Uio) [] Uio in
  xenevent_mutex_release ds_read_lock set_ds_read_lock ;;;
  ret r.

Fixpoint write_iovs (todo : list iovec) (finished : list iovec) (u : uio) : xe_m (Z * uio) :=
  match todo with
  | [] => ret (0, u)
  | iov :: rest =>
      let* (rc, n) := xe_comms_write_item (iov_base iov) (iov_len iov) in
      if truth rc then ret (rc, u)
      else
        let iov' := {| iov_base := drop (Z.to_nat n) (iov_base iov); iov_len := iov_len iov - n |} in
        let finished := finished ++ [iov'] in
        write_iovs rest finished
          {| uio_iov := finished ++ rest; uio_offset := uio_offset u + n;
             uio_resid := uio_resid u - n |}
  end.

Definition xe_dev_write (Uio : uio) : xe_m (Z * uio) :=
  xenevent_mutex_wait ds_write_lock set_ds_write_lock ;;;
  let* r := write_iovs (uio_iov Uio) [] Uio in
  xenevent_mutex_release ds_write_lock set_ds_write_lock ;;;
  ret r.

End Driver.

(** The driver as it is loaded: all of its state is zero. *)
Definition xe_boot {S W : Type} (memory : S) (w : W) : xe_state S W :=
  {| xs_comm := {| cs_local_id := 0; cs_grant_refs := replicate XENEVENT_GRANT_REF_COUNT 0;
       cs_shared_ring := false; cs_shared_ring_size := 0;
       cs_back_ring := {| rsp_prod_pvt := 0; req_cons := 0 |}; cs_event_channel_mem := false;
       cs_local_event_port := 0; cs_messages_available := None |};
     xs_dev := dev_zero;
     xs_static := {| sv_sock_init := false; sv_sock_path := []; sv_heartbeat := 0;
       sv_heartbeat_path := []; sv_stats_path := []; sv_listener_path := [] |};
     xs_ring := memory; xs_world := w; xs_trace := [] |}.
