(* ===== verification/PvmXen.v ===== *)
(** * PvmXen: the Xen interface of the protected VM

    src/protvm/kernel/mwcomms/mwcomms-xen-iface.c: the table of the INS
    domains, the handshake through the XenStore, the heartbeat and its
    reaper, and the front ends of the rings. A handle or a pointer to a
    table entry is its index, a request slot the counter it was taken
    for. The shared memory of each ring is a field of its entry.

    The XenStore, the hypervisor and the kernel's own functions are the
    class [PvmOS]; the clock is a call. The two static counters of the
    round-robin functions are fields of the globals. The log is not
    modelled, and an assertion of this driver only logs. *)

From Stdlib Require Import String.
From stdpp Require Import base numbers list.
From Stdlib Require Import ZArith Lia.
From S2P Require Import Prelude Text MessageTypes XenRing InsDriver.

#[local] Open Scope string_scope.
#[local] Open Scope list_scope.
#[local] Open Scope Z_scope.

(** Error numbers of Linux (the same as on the wire, see MwErrno). *)
Module LinuxErrno.

Definition ENOENT : Z := 2.
Definition EIO : Z := 5.
Definition ENXIO : Z := 6.
Definition E2BIG : Z := 7.
Definition EAGAIN : Z := 11.
Definition ENOMEM : Z := 12.
Definition EINVAL : Z := 22.
Definition ESTALE : Z := 116.

End LinuxErrno.
Import LinuxErrno.

(** common_config.h.template and xen_keystore_defs.h *)
Definition MAX_INS_COUNT : nat := 3.
Definition HEARTBEAT_INTERVAL_SEC : Z := 1.
Definition HEARTBEAT_MAX_MISSES : Z := 2.
Definition MAX_GNT_REF_WIDTH : Z := 15.
Definition XENEVENT_XENSTORE_PVM : list Z := text "/mw/pvm".
Definition XENEVENT_XENSTORE_PVM_NODE : list Z := text "pvm".
Definition SERVER_ID_KEY : list Z := text "id".
Definition XENEVENT_NO_NODE : list Z := [].
Definition KEY_RESET_VAL : list Z := text "0".

(** ** Calls to the system *)

Inductive pvm_call : Type :=
| XsTransactionStart
| XsTransactionEnd (abort : Z)
| XsExists (dir node : list Z)
| XsRm (dir node : list Z)
| XsMkdir (dir node : list Z)
| XsWrite (dir node value : list Z)
| XsRead (dir node : list Z)
| RegisterXenbusWatch
| UnregisterXenbusWatch
| EvtchnAllocUnbound (dom remote_dom : Z)
| EvtchnSend (port : Z)
| EvtchnStatus (port : Z)
| EvtchnClose (port : Z)
| BindEvtchnToIrqhandler (port : Z)
| UnbindFromIrqhandler (irq : Z)
| GetFreePages (order : Z)
| GnttabGrantForeignAccess (domid page : Z) (readonly : Z)
| GnttabEndForeignAccessRef (ref : Z)
| Kmalloc (size : Z)
| Kfree
| Jiffies
| ScheduleTimeout (jiffies : Z)
| CompletionCb (domid : Z)
| EventCb.

(** [p_ret] is the return code, or non-zero for an allocation that
    succeeded; [p_text] a value read; [p_val] a port, a status or the
    clock. *)
Record pvm_res := { p_ret : Z; p_text : list Z; p_val : Z }.

(** The text functions return a code and a value; the constants are those
    of the kernel's and Xen's headers. *)
Class PvmOS (W : Type) := {
  pvm_os_call : pvm_call -> W -> pvm_res * W;
  kstrtoint : list Z -> Z * Z;
  simple_strtol : list Z -> Z;
  HZ : Z;
  DOMID_INVALID : Z;
  EVTCHNSTAT_closed : Z
}.

(** What their documentation promises: decimal numbers are read, the
    reserved domain id is a 16-bit value, the clock ticks. *)
Class PvmOSLaws (W : Type) {OS : PvmOS W} : Prop := {
  law_kstrtoint : forall x, in_u 31 x -> kstrtoint (dec_text x) = (0, x);
  law_simple_strtol : forall x, in_u 31 x -> simple_strtol (dec_text x) = x;
  law_hz : 0 < HZ;
  law_domid_invalid : 0 < DOMID_INVALID < 2 ^ 16
}.

(** A protected VM for the witnesses: the world is the clock, every call
    succeeds, and the text functions read decimal numbers. *)
#[export] Instance ClockPvm : PvmOS Z := {|
  pvm_os_call := fun c w =>
    let ok r := {| p_ret := r; p_text := text "7"; p_val := w |} in
    match c with
    | XsExists _ _ | GetFreePages _ | Kmalloc _ => (ok 1, w)
    | GnttabGrantForeignAccess _ page _ => (ok (256 + page), w)
    | BindEvtchnToIrqhandler port => (ok 40, w)
    | ScheduleTimeout j => (ok 0, w + j)
    | _ => (ok 0, w)
    end;
  kstrtoint := fun s => match bmk_strtoul s 10 with
                        | (v, []) => (0, v)
                        | _ => (- EINVAL, 0)
                        end;
  simple_strtol := fun s => fst (bmk_strtoul s 10);
  HZ := 250;
  DOMID_INVALID := 0x7FF4;
  EVTCHNSTAT_closed := 0
|}.

#[export] Instance ClockPvmLaws : PvmOSLaws Z.
Proof.
  split; simpl; try lia.
  - intros x Hx. rewrite bmk_strtoul_dec; [done|]. unfold in_u in *. lia.
  - intros x Hx. rewrite bmk_strtoul_dec; [done|]. unfold in_u in *. lia.
Qed.

(** ** State *)

Record mwcomms_ins_data (S : Type) := {
  id_in_use : Z;
  id_domid : Z;
  id_ring_ptr : bool;
  id_ring_pagect : Z;
  id_sring : S;
  id_front_ring : front_ring;
  id_is_ring_ready : bool;
  id_grant_refs : list Z;
  id_common_evtchn : Z;
  id_irq : Z;
  id_last_seen_time : Z;
  id_missed_heartbeats : Z;
  id_curr_req : option Z;
  id_locked : bool;
  id_request_lock : bool
}.
Arguments id_in_use {S}.
Arguments id_domid {S}.
Arguments id_ring_ptr {S}.
Arguments id_ring_pagect {S}.
Arguments id_sring {S}.
Arguments id_front_ring {S}.
Arguments id_is_ring_ready {S}.
Arguments id_grant_refs {S}.
Arguments id_common_evtchn {S}.
Arguments id_irq {S}.
Arguments id_last_seen_time {S}.
Arguments id_missed_heartbeats {S}.
Arguments id_curr_req {S}.
Arguments id_locked {S}.
Arguments id_request_lock {S}.

Definition set_id_in_use {S} (v : Z) (x : mwcomms_ins_data S) : mwcomms_ins_data S :=
  {| id_in_use := v; id_domid := id_domid x; id_ring_ptr := id_ring_ptr x; id_ring_pagect :=
     id_ring_pagect x; id_sring := id_sring x; id_front_ring := id_front_ring x;
     id_is_ring_ready := id_is_ring_ready x; id_grant_refs := id_grant_refs x;
     id_common_evtchn := id_common_evtchn x; id_irq := id_irq x; id_last_seen_time :=
     id_last_seen_time x; id_missed_heartbeats := id_missed_heartbeats x; id_curr_req :=
     id_curr_req x; id_locked := id_locked x; id_request_lock := id_request_lock x |}.
Definition set_id_domid {S} (v : Z) (x : mwcomms_ins_data S) : mwcomms_ins_data S :=
  {| id_in_use := id_in_use x; id_domid := v; id_ring_ptr := id_ring_ptr x; id_ring_pagect :=
     id_ring_pagect x; id_sring := id_sring x; id_front_ring := id_front_ring x;
     id_is_ring_ready := id_is_ring_ready x; id_grant_refs := id_grant_refs x;
     id_common_evtchn := id_common_evtchn x; id_irq := id_irq x; id_last_seen_time :=
     id_last_seen_time x; id_missed_heartbeats := id_missed_heartbeats x; id_curr_req :=
     id_curr_req x; id_locked := id_locked x; id_request_lock := id_request_lock x |}.
Definition set_id_ring_ptr {S} (v : bool) (x : mwcomms_ins_data S) : mwcomms_ins_data S :=
  {| id_in_use := id_in_use x; id_domid := id_domid x; id_ring_ptr := v; id_ring_pagect :=
     id_ring_pagect x; id_sring := id_sring x; id_front_ring := id_front_ring x;
     id_is_ring_ready := id_is_ring_ready x; id_grant_refs := id_grant_refs x;
     id_common_evtchn := id_common_evtchn x; id_irq := id_irq x; id_last_seen_time :=
     id_last_seen_time x; id_missed_heartbeats := id_missed_heartbeats x; id_curr_req :=
     id_curr_req x; id_locked := id_locked x; id_request_lock := id_request_lock x |}.
Definition set_id_ring_pagect {S} (v : Z) (x : mwcomms_ins_data S) : mwcomms_ins_data S :=
  {| id_in_use := id_in_use x; id_domid := id_domid x; id_ring_ptr := id_ring_ptr x;
     id_ring_pagect := v; id_sring := id_sring x; id_front_ring := id_front_ring x;
     id_is_ring_ready := id_is_ring_ready x; id_grant_refs := id_grant_refs x;
     id_common_evtchn := id_common_evtchn x; id_irq := id_irq x; id_last_seen_time :=
     id_last_seen_time x; id_missed_heartbeats := id_missed_heartbeats x; id_curr_req :=
     id_curr_req x; id_locked := id_locked x; id_request_lock := id_request_lock x |}.
Definition set_id_sring {S} (v : S) (x : mwcomms_ins_data S) : mwcomms_ins_data S :=
  {| id_in_use := id_in_use x; id_domid := id_domid x; id_ring_ptr := id_ring_ptr x;
     id_ring_pagect := id_ring_pagect x; id_sring := v; id_front_ring := id_front_ring x;
     id_is_ring_ready := id_is_ring_ready x; id_grant_refs := id_grant_refs x;
     id_common_evtchn := id_common_evtchn x; id_irq := id_irq x; id_last_seen_time :=
     id_last_seen_time x; id_missed_heartbeats := id_missed_heartbeats x; id_curr_req :=
     id_curr_req x; id_locked := id_locked x; id_request_lock := id_request_lock x |}.
Definition set_id_front_ring {S} (v : front_ring) (x : mwcomms_ins_data S) : mwcomms_ins_data S :=
  {| id_in_use := id_in_use x; id_domid := id_domid x; id_ring_ptr := id_ring_ptr x;
     id_ring_pagect := id_ring_pagect x; id_sring := id_sring x; id_front_ring := v;
     id_is_ring_ready := id_is_ring_ready x; id_grant_refs := id_grant_refs x;
     id_common_evtchn := id_common_evtchn x; id_irq := id_irq x; id_last_seen_time :=
     id_last_seen_time x; id_missed_heartbeats := id_missed_heartbeats x; id_curr_req :=
     id_curr_req x; id_locked := id_locked x; id_request_lock := id_request_lock x |}.
Definition set_id_is_ring_ready {S} (v : bool) (x : mwcomms_ins_data S) : mwcomms_ins_data S :=
  {| id_in_use := id_in_use x; id_domid := id_domid x; id_ring_ptr := id_ring_ptr x;
     id_ring_pagect := id_ring_pagect x; id_sring := id_sring x; id_front_ring :=
     id_front_ring x; id_is_ring_ready := v; id_grant_refs := id_grant_refs x;
     id_common_evtchn := id_common_evtchn x; id_irq := id_irq x; id_last_seen_time :=
     id_last_seen_time x; id_missed_heartbeats := id_missed_heartbeats x; id_curr_req :=
     id_curr_req x; id_locked := id_locked x; id_request_lock := id_request_lock x |}.
Definition set_id_grant_refs {S} (v : list Z) (x : mwcomms_ins_data S) : mwcomms_ins_data S :=
  {| id_in_use := id_in_use x; id_domid := id_domid x; id_ring_ptr := id_ring_ptr x;
     id_ring_pagect := id_ring_pagect x; id_sring := id_sring x; id_front_ring :=
     id_front_ring x; id_is_ring_ready := id_is_ring_ready x; id_grant_refs := v;
     id_common_evtchn := id_common_evtchn x; id_irq := id_irq x; id_last_seen_time :=
     id_last_seen_time x; id_missed_heartbeats := id_missed_heartbeats x; id_curr_req :=
     id_curr_req x; id_locked := id_locked x; id_request_lock := id_request_lock x |}.
Definition set_id_common_evtchn {S} (v : Z) (x : mwcomms_ins_data S) : mwcomms_ins_data S :=
  {| id_in_use := id_in_use x; id_domid := id_domid x; id_ring_ptr := id_ring_ptr x;
     id_ring_pagect := id_ring_pagect x; id_sring := id_sring x; id_front_ring :=
     id_front_ring x; id_is_ring_ready := id_is_ring_ready x; id_grant_refs := id_grant_refs
     x; id_common_evtchn := v; id_irq := id_irq x; id_last_seen_time := id_last_seen_time x;
     id_missed_heartbeats := id_missed_heartbeats x; id_curr_req := id_curr_req x; id_locked
     := id_locked x; id_request_lock := id_request_lock x |}.
Definition set_id_irq {S} (v : Z) (x : mwcomms_ins_data S) : mwcomms_ins_data S :=
  {| id_in_use := id_in_use x; id_domid := id_domid x; id_ring_ptr := id_ring_ptr x;
     id_ring_pagect := id_ring_pagect x; id_sring := id_sring x; id_front_ring :=
     id_front_ring x; id_is_ring_ready := id_is_ring_ready x; id_grant_refs := id_grant_refs
     x; id_common_evtchn := id_common_evtchn x; id_irq := v; id_last_seen_time :=
     id_last_seen_time x; id_missed_heartbeats := id_missed_heartbeats x; id_curr_req :=
     id_curr_req x; id_locked := id_locked x; id_request_lock := id_request_lock x |}.
Definition set_id_last_seen_time {S} (v : Z) (x : mwcomms_ins_data S) : mwcomms_ins_data S :=
  {| id_in_use := id_in_use x; id_domid := id_domid x; id_ring_ptr := id_ring_ptr x;
     id_ring_pagect := id_ring_pagect x; id_sring := id_sring x; id_front_ring :=
     id_front_ring x; id_is_ring_ready := id_is_ring_ready x; id_grant_refs := id_grant_refs
     x; id_common_evtchn := id_common_evtchn x; id_irq := id_irq x; id_last_seen_time := v;
     id_missed_heartbeats := id_missed_heartbeats x; id_curr_req := id_curr_req x; id_locked
     := id_locked x; id_request_lock := id_request_lock x |}.
Definition set_id_missed_heartbeats {S} (v : Z) (x : mwcomms_ins_data S) : mwcomms_ins_data S :=
  {| id_in_use := id_in_use x; id_domid := id_domid x; id_ring_ptr := id_ring_ptr x;
     id_ring_pagect := id_ring_pagect x; id_sring := id_sring x; id_front_ring :=
     id_front_ring x; id_is_ring_ready := id_is_ring_ready x; id_grant_refs := id_grant_refs
     x; id_common_evtchn := id_common_evtchn x; id_irq := id_irq x; id_last_seen_time :=
     id_last_seen_time x; id_missed_heartbeats := v; id_curr_req := id_curr_req x; id_locked
     := id_locked x; id_request_lock := id_request_lock x |}.
Definition set_id_curr_req {S} (v : option Z) (x : mwcomms_ins_data S) : mwcomms_ins_data S :=
  {| id_in_use := id_in_use x; id_domid := id_domid x; id_ring_ptr := id_ring_ptr x;
     id_ring_pagect := id_ring_pagect x; id_sring := id_sring x; id_front_ring :=
     id_front_ring x; id_is_ring_ready := id_is_ring_ready x; id_grant_refs := id_grant_refs
     x; id_common_evtchn := id_common_evtchn x; id_irq := id_irq x; id_last_seen_time :=
     id_last_seen_time x; id_missed_heartbeats := id_missed_heartbeats x; id_curr_req := v;
     id_locked := id_locked x; id_request_lock := id_request_lock x |}.
Definition set_id_locked {S} (v : bool) (x : mwcomms_ins_data S) : mwcomms_ins_data S :=
  {| id_in_use := id_in_use x; id_domid := id_domid x; id_ring_ptr := id_ring_ptr x;
     id_ring_pagect := id_ring_pagect x; id_sring := id_sring x; id_front_ring :=
     id_front_ring x; id_is_ring_ready := id_is_ring_ready x; id_grant_refs := id_grant_refs
     x; id_common_evtchn := id_common_evtchn x; id_irq := id_irq x; id_last_seen_time :=
     id_last_seen_time x; id_missed_heartbeats := id_missed_heartbeats x; id_curr_req :=
     id_curr_req x; id_locked := v; id_request_lock := id_request_lock x |}.
Definition set_id_request_lock {S} (v : bool) (x : mwcomms_ins_data S) : mwcomms_ins_data S :=
  {| id_in_use := id_in_use x; id_domid := id_domid x; id_ring_ptr := id_ring_ptr x;
     id_ring_pagect := id_ring_pagect x; id_sring := id_sring x; id_front_ring :=
     id_front_ring x; id_is_ring_ready := id_is_ring_ready x; id_grant_refs := id_grant_refs
     x; id_common_evtchn := id_common_evtchn x; id_irq := id_irq x; id_last_seen_time :=
     id_last_seen_time x; id_missed_heartbeats := id_missed_heartbeats x; id_curr_req :=
     id_curr_req x; id_locked := id_locked x; id_request_lock := v |}.

Record mwcomms_xen_globals (S : Type) := {
  mx_my_domid : Z;
  mx_xenbus_watch_active : bool;
  mx_pending_exit : bool;
  mx_ins_count : Z;
  mx_ins : list (mwcomms_ins_data S);
  mx_next_index : Z;
  mx_curr_index : Z
}.
Arguments mx_my_domid {S}.
Arguments mx_xenbus_watch_active {S}.
Arguments mx_pending_exit {S}.
Arguments mx_ins_count {S}.
Arguments mx_ins {S}.
Arguments mx_next_index {S}.
Arguments mx_curr_index {S}.

Definition set_mx_my_domid {S} (v : Z) (x : mwcomms_xen_globals S) : mwcomms_xen_globals S :=
  {| mx_my_domid := v; mx_xenbus_watch_active := mx_xenbus_watch_active x; mx_pending_exit :=
     mx_pending_exit x; mx_ins_count := mx_ins_count x; mx_ins := mx_ins x; mx_next_index :=
     mx_next_index x; mx_curr_index := mx_curr_index x |}.
Definition set_mx_xenbus_watch_active {S} (v : bool) (x : mwcomms_xen_globals S) : mwcomms_xen_globals S :=
  {| mx_my_domid := mx_my_domid x; mx_xenbus_watch_active := v; mx_pending_exit :=
     mx_pending_exit x; mx_ins_count := mx_ins_count x; mx_ins := mx_ins x; mx_next_index :=
     mx_next_index x; mx_curr_index := mx_curr_index x |}.
Definition set_mx_pending_exit {S} (v : bool) (x : mwcomms_xen_globals S) : mwcomms_xen_globals S :=
  {| mx_my_domid := mx_my_domid x; mx_xenbus_watch_active := mx_xenbus_watch_active x;
     mx_pending_exit := v; mx_ins_count := mx_ins_count x; mx_ins := mx_ins x; mx_next_index
     := mx_next_index x; mx_curr_index := mx_curr_index x |}.
Definition set_mx_ins_count {S} (v : Z) (x : mwcomms_xen_globals S) : mwcomms_xen_globals S :=
  {| mx_my_domid := mx_my_domid x; mx_xenbus_watch_active := mx_xenbus_watch_active x;
     mx_pending_exit := mx_pending_exit x; mx_ins_count := v; mx_ins := mx_ins x;
     mx_next_index := mx_next_index x; mx_curr_index := mx_curr_index x |}.
Definition set_mx_ins {S} (v : list (mwcomms_ins_data S)) (x : mwcomms_xen_globals S) : mwcomms_xen_globals S :=
  {| mx_my_domid := mx_my_domid x; mx_xenbus_watch_active := mx_xenbus_watch_active x;
     mx_pending_exit := mx_pending_exit x; mx_ins_count := mx_ins_count x; mx_ins := v;
     mx_next_index := mx_next_index x; mx_curr_index := mx_curr_index x |}.
Definition set_mx_next_index {S} (v : Z) (x : mwcomms_xen_globals S) : mwcomms_xen_globals S :=
  {| mx_my_domid := mx_my_domid x; mx_xenbus_watch_active := mx_xenbus_watch_active x;
     mx_pending_exit := mx_pending_exit x; mx_ins_count := mx_ins_count x; mx_ins := mx_ins x;
     mx_next_index := v; mx_curr_index := mx_curr_index x |}.
Definition set_mx_curr_index {S} (v : Z) (x : mwcomms_xen_globals S) : mwcomms_xen_globals S :=
  {| mx_my_domid := mx_my_domid x; mx_xenbus_watch_active := mx_xenbus_watch_active x;
     mx_pending_exit := mx_pending_exit x; mx_ins_count := mx_ins_count x; mx_ins := mx_ins x;
     mx_next_index := mx_next_index x; mx_curr_index := v |}.

Record pvm_state (S W : Type) := {
  pv_g : mwcomms_xen_globals S;
  pv_world : W;
  pv_trace : list pvm_call
}.
Arguments pv_g {S W}.
Arguments pv_world {S W}.
Arguments pv_trace {S W}.

Definition set_pv_g {S W} (v : mwcomms_xen_globals S) (x : pvm_state S W) : pvm_state S W :=
  {| pv_g := v; pv_world := pv_world x; pv_trace := pv_trace x |}.
Definition set_pv_world {S W} (v : W) (x : pvm_state S W) : pvm_state S W :=
  {| pv_g := pv_g x; pv_world := v; pv_trace := pv_trace x |}.
Definition set_pv_trace {S W} (v : list pvm_call) (x : pvm_state S W) : pvm_state S W :=
  {| pv_g := pv_g x; pv_world := pv_world x; pv_trace := v |}.

Section PvmXen.

Context {S W : Type} {R : XenRing S} {OS : PvmOS W}.

Definition pvm_m (A : Type) : Type := M (pvm_state S W) A.

Definition pcall (c : pvm_call) : pvm_m pvm_res := fun s =>
  let '(r, w) := pvm_os_call c (pv_world s) in
  Done (r, set_pv_world w (set_pv_trace (pv_trace s ++ [c]) s)).

Definition get_mx {A} (f : mwcomms_xen_globals S -> A) : pvm_m A := gets (fun s => f (pv_g s)).
Definition upd_mx (f : mwcomms_xen_globals S -> mwcomms_xen_globals S) : pvm_m unit :=
  modify (fun s => set_pv_g (f (pv_g s)) s).

(** [g_mwxen_state.ins[ i ]]. *)
Definition get_ins (i : nat) : pvm_m (mwcomms_ins_data S) := fun s =>
  match mx_ins (pv_g s) !! i with
  | Some x => Done (x, s)
  | None => Undef
  end.
Definition upd_ins (i : nat) (f : mwcomms_ins_data S -> mwcomms_ins_data S) : pvm_m unit := fun s =>
  match mx_ins (pv_g s) !! i with
  | Some x => Done (tt, set_pv_g (set_mx_ins (<[i := f x]> (mx_ins (pv_g s))) (pv_g s)) s)
  | None => Undef
  end.

(** ** The XenStore *)

Definition mw_xen_rm (Dir Node : list Z) : pvm_m Z :=
  let* r := pcall XsTransactionStart in
  if truth (p_ret r) then ret (p_ret r)
  else
    let* e := pcall (XsExists Dir Node) in
    let* err := (if p_ret e =? 0 then ret (p_ret r)
                 else let* d := pcall (XsRm Dir Node) in ret (p_ret d)) in
    pcall (XsTransactionEnd 0) ;;;
    ret err.

Definition mw_xen_mkdir (Dir Node : list Z) : pvm_m Z :=
  let* r := pcall XsTransactionStart in
  if truth (p_ret r) then ret (p_ret r)
  else
    let* e := pcall (XsExists Dir Node) in
    let* err := (if p_ret e =? 0 then ret 0
                 else let* d := pcall (XsRm Dir Node) in ret (p_ret d)) in
    let* err := (if truth err then ret err
                 else let* d := pcall (XsMkdir Dir Node) in ret (p_ret d)) in
    pcall (XsTransactionEnd 0) ;;;
    ret err.

Definition mw_xen_write_to_key (Dir Node Value : list Z) : pvm_m Z :=
  let* r := pcall XsTransactionStart in
  if truth (p_ret r) then ret (p_ret r)
  else
    let* e := pcall (XsExists Dir XENEVENT_NO_NODE) in
    if p_ret e =? 0 then pcall (XsTransactionEnd 1) ;;; ret (- EIO)
    else
      let* w := pcall (XsWrite Dir Node Value) in
      pcall (XsTransactionEnd 0) ;;;
      ret (p_ret w).

(** [None] is the null pointer. *)
Definition mw_xen_read_from_key (Dir Node : list Z) : pvm_m (option (list Z)) :=
  let* r := pcall XsTransactionStart in
  if truth (p_ret r) then ret None
  else
    let* v := pcall (XsRead Dir Node) in
    if truth (p_ret v) then pcall (XsTransactionEnd 1) ;;; ret None
    else pcall (XsTransactionEnd 0) ;;; ret (Some (p_text v)).

Definition mw_xen_write_server_id_to_key : pvm_m Z :=
  let* id := mw_xen_read_from_key PRIVATE_ID_PATH XENEVENT_NO_NODE in
  match id with
  | None => ret (- EIO)
  | Some dom_id_str =>
      let* err := mw_xen_write_to_key XENEVENT_XENSTORE_PVM SERVER_ID_KEY dom_id_str in
      when (err =? 0) (upd_mx (set_mx_my_domid (u16 (simple_strtol dom_id_str)))) ;;;
      ret err
  end.

(** ** Event channels *)

(** "%s/%d" of the root and the domain id. *)
Definition ins_dir (x : mwcomms_ins_data S) : list Z :=
  snprintf XENEVENT_PATH_STR_LEN (domain_dir (id_domid x)).

(** A domain id of 0 is refused, with return code 0. *)
Definition mw_xen_create_unbound_evt_chn (i : nat) : pvm_m Z :=
  let* x := get_ins i in
  if id_domid x <=? 0 then ret 0
  else
    let* me := get_mx mx_my_domid in
    let* r := pcall (EvtchnAllocUnbound me (id_domid x)) in
    if truth (p_ret r) then ret (p_ret r)
    else
      upd_ins i (set_id_common_evtchn (p_val r)) ;;;
      mw_xen_write_to_key (ins_dir x) VM_EVT_CHN_PORT_KEY
        (snprintf MAX_GNT_REF_WIDTH (dec_text (u32 (p_val r)))).

Definition mw_xen_ins_alive (i : nat) : pvm_m unit :=
  let* now := pcall Jiffies in
  upd_ins i (fun x => set_id_missed_heartbeats 0 (set_id_last_seen_time (p_val now) x)).

Definition mw_xen_irq_event_handler : pvm_m unit := pcall EventCb ;;; ret tt.

Definition mw_xen_send_event (i : nat) : pvm_m Z :=
  let* x := get_ins i in
  let* r := pcall (EvtchnSend (id_common_evtchn x)) in ret (p_ret r).

Definition mw_xen_is_evt_chn_closed (i : nat) : pvm_m bool :=
  let* x := get_ins i in
  let* r := pcall (EvtchnStatus (id_common_evtchn x)) in
  ret ((p_ret r <? 0) || (p_val r =? EVTCHNSTAT_closed)).

Definition mw_xen_free_unbound_evt_chn (i : nat) : pvm_m unit :=
  let* x := get_ins i in
  when (truth (id_common_evtchn x)) (pcall (EvtchnClose (id_common_evtchn x)) ;;; ret tt).

(** ** Grants *)

(** The pages [i], [i + 1], ... of the ring ([n] of them). *)
Fixpoint offer_pages (k : nat) (n : nat) (i : nat) : pvm_m Z :=
  match n with
  | O => ret 0
  | Datatypes.S n' =>
      let* x := get_ins k in
      let* r := pcall (GnttabGrantForeignAccess (id_domid x) (Z.of_nat i) 0) in
      if p_ret r <? 0 then ret (p_ret r)
      else if (XENEVENT_GRANT_REF_COUNT <=? i)%nat then undef
      else
        upd_ins k (fun x => set_id_grant_refs (<[i := u32 (p_ret r)]> (id_grant_refs x)) x) ;;;
        offer_pages k n' (Datatypes.S i)
  end.

Definition mw_xen_offer_grant (k : nat) : pvm_m Z :=
  let* x := get_ins k in
  offer_pages k (Z.to_nat (id_ring_pagect x)) 0.

(** "%x " of one reference must fit nine bytes. *)
Definition ref_text (ref : Z) : list Z := hex_text ref ++ [XENEVENT_GRANT_REF_DELIM].
Definition ONE_REF_SIZE : Z := 9.
Definition GNT_REFS_SZ : Z := Z.of_nat XENEVENT_GRANT_REF_COUNT * ONE_REF_SIZE.

(** The last character becomes the end mark. *)
Definition end_chunk (gnt_refs : list Z) : list Z :=
  take (length gnt_refs - 1) gnt_refs ++ [XENEVENT_GRANT_REF_END].

Definition chunk_key (gnt_chunk : Z) : list Z :=
  snprintf XENEVENT_PATH_STR_LEN (GNT_REF_KEY ++ [95] ++ int_text gnt_chunk).

(** The loop over the references: the text of the chunk so far, how many
    references it has, and its number. *)
Fixpoint write_refs (path : list Z) (refs : list Z) (gnt_refs : list Z) (gnt_cnt : nat)
    (gnt_chunk : Z) : pvm_m (Z * list Z * nat * Z) :=
  match refs with
  | [] => ret (0, gnt_refs, gnt_cnt, gnt_chunk)
  | ref :: rest =>
      if ONE_REF_SIZE <=? Z.of_nat (length (ref_text ref)) then
        ret (- E2BIG, gnt_refs, gnt_cnt, gnt_chunk)
      else if GNT_REFS_SZ - ONE_REF_SIZE <=? Z.of_nat (length gnt_refs) then
        ret (- E2BIG, gnt_refs, gnt_cnt, gnt_chunk)
      else
        let gnt_refs := gnt_refs ++ ref_text ref in
        if (Datatypes.S gnt_cnt =? GNT_REF_CHUNK_SIZE)%nat then
          let* rc := mw_xen_write_to_key path (chunk_key gnt_chunk) (end_chunk gnt_refs) in
          if truth rc then ret (rc, gnt_refs, gnt_cnt, gnt_chunk)
          else write_refs path rest [] 0 (gnt_chunk + 1)
        else write_refs path rest gnt_refs (Datatypes.S gnt_cnt) gnt_chunk
  end.

Definition mw_xen_write_grant_refs_to_key (k : nat) : pvm_m Z :=
  let* x := get_ins k in
  let path := ins_dir x in
  let* m := pcall (Kmalloc GNT_REFS_SZ) in
  if p_ret m =? 0 then ret (- ENOMEM)
  else
    let* (rc, gnt_refs, gnt_cnt, gnt_chunk) := write_refs path (id_grant_refs x) [] 0 1 in
    let* (rc, gnt_chunk) :=
      (if truth rc then ret (rc, gnt_chunk)
       else if (0 <? gnt_cnt)%nat then
         let* rc := mw_xen_write_to_key path (chunk_key gnt_chunk) (end_chunk gnt_refs) in
         ret (rc, gnt_chunk + 1)
       else ret (0, gnt_chunk)) in
    let* rc :=
      (if truth rc then ret rc
       else mw_xen_write_to_key path GNT_REF_CHUNKS
              (snprintf XENEVENT_PATH_STR_LEN (int_text (gnt_chunk - 1)))) in
    pcall Kfree ;;;
    ret rc.

(** ** The table of INS domains *)

Fixpoint upto_slash (s : list Z) : list Z :=
  match s with
  | [] => []
  | c :: rest => if c =? 47 then [] else c :: upto_slash rest
  end.

(** The first entry from [i] on ([n] left) with the domain id. *)
Fixpoint find_domid (n i : nat) (domid : Z) : pvm_m (option nat) :=
  match n with
  | O => ret None
  | Datatypes.S n' =>
      let* x := get_ins i in
      if id_domid x =? domid then ret (Some i) else find_domid n' (Datatypes.S i) domid
  end.

(** The component of the path behind the root. The copy of a path of 32
    bytes or more has no terminator. *)
Definition mw_xen_get_ins_from_xs_path (Path : list Z) : pvm_m (Z * option nat) :=
  let* m := pcall (Kmalloc XENEVENT_PATH_STR_LEN) in
  if p_ret m =? 0 then ret (- ENOMEM, None)
  else if XENEVENT_PATH_STR_LEN <=? Z.of_nat (length Path) then undef
  else
    let (rc, domid) := kstrtoint (upto_slash (drop (length XENEVENT_XENSTORE_ROOT + 1) Path)) in
    let* res :=
      (if truth rc then ret (rc, None)
       else
         let* found := find_domid MAX_INS_COUNT 0 domid in
         ret (match found with Some i => (0, Some i) | None => (- ENOENT, None) end)) in
    pcall Kfree ;;;
    ret res.

Definition mw_xen_bind_evt_chn (Path : list Z) : pvm_m Z :=
  let* (rc, ins) := mw_xen_get_ins_from_xs_path Path in
  match ins with
  | None => ret rc
  | Some i =>
      mw_xen_ins_alive i ;;;
      let* v := mw_xen_read_from_key Path XENEVENT_NO_NODE in
      match v with
      | None => ret (- EIO)
      | Some is_bound_str =>
          if bool_decide (is_bound_str = KEY_RESET_VAL) then ret (- EIO)
          else
            let* x := get_ins i in
            let* r := pcall (BindEvtchnToIrqhandler (id_common_evtchn x)) in
            if p_ret r <=? 0 then ret (p_ret r)
            else upd_ins i (set_id_irq (p_ret r)) ;;; ret 0
      end
  end.

Definition mw_xen_ins_heartbeat (Path : list Z) : pvm_m Z :=
  let* (rc, ins) := mw_xen_get_ins_from_xs_path Path in
  match ins with
  | None => ret rc
  | Some i =>
      let* x := get_ins i in
      if negb (id_in_use x =? 1) then ret (- EINVAL)
      else mw_xen_ins_alive i ;;; ret rc
  end.

Definition mw_xen_init_ring (i : nat) : pvm_m Z :=
  upd_ins i (fun x => set_id_front_ring FRONT_RING_INIT
                        (set_id_sring (SHARED_RING_INIT (id_sring x)) x)) ;;;
  ret 0.

Definition mw_xen_init_ring_block (i : nat) : pvm_m Z :=
  let* r := pcall (GetFreePages XENEVENT_GRANT_REF_ORDER) in
  upd_ins i (fun x => set_id_ring_pagect (Z.of_nat XENEVENT_GRANT_REF_COUNT)
                        (set_id_ring_ptr (truth (p_ret r)) x)) ;;;
  ret (if p_ret r =? 0 then - ENOMEM else 0).

(** atomic64_cmpxchg( &ins[i].in_use, 0, 1 ) for the entries from [i] on;
    the claimed entry gets the domain id. *)
Fixpoint claim_slot (n i : nat) (domid : Z) : pvm_m (option nat) :=
  match n with
  | O => ret None
  | Datatypes.S n' =>
      let* x := get_ins i in
      if id_in_use x =? 0 then
        upd_ins i (fun x => set_id_domid domid (set_id_in_use 1 x)) ;;; ret (Some i)
      else claim_slot n' (Datatypes.S i) domid
  end.

(** One step of the handshake after the other, up to the first error. *)
Definition then_do (m k : pvm_m Z) : pvm_m Z :=
  let* err := m in if truth err then ret err else k.

Definition mw_xen_ins_found (Path : list Z) : pvm_m Z :=
  let* v := mw_xen_read_from_key Path XENEVENT_NO_NODE in
  match v with
  | None => ret (- EIO)
  | Some client_id_str =>
      if bool_decide (client_id_str = KEY_RESET_VAL) then ret (- EIO)
      else
        let* slot := claim_slot MAX_INS_COUNT 0 (u16 (simple_strtol client_id_str)) in
        match slot with
        | None => ret (- ENXIO)
        | Some i =>
            then_do (mw_xen_init_ring_block i)
           (then_do (mw_xen_create_unbound_evt_chn i)
           (then_do (mw_xen_offer_grant i)
           (then_do (mw_xen_init_ring i)
           (then_do (mw_xen_write_grant_refs_to_key i)
              (mw_xen_ins_alive i ;;;
               upd_ins i (fun x => set_id_is_ring_ready true
                 (set_id_locked false (set_id_request_lock false x))) ;;;
               upd_mx (fun g => set_mx_ins_count (mx_ins_count g + 1) g) ;;;
               let* x := get_ins i in
               pcall (CompletionCb (id_domid x)) ;;;
               ret 0)))))
        end
  end.

Definition mw_xen_iface_ready : pvm_m bool :=
  let* n := get_mx mx_ins_count in ret (0 <? n).

(** ** Round robin *)

Definition mw_xen_get_next_index_rr : pvm_m nat :=
  let* i := get_mx mx_next_index in
  let i := i mod Z.of_nat MAX_INS_COUNT in
  upd_mx (set_mx_next_index (i + 1)) ;;;
  ret (Z.to_nat i).

(** The loop tests the same entry each time. The counter is an [int] that
    wraps around; then its remainder is negative. *)
Fixpoint new_socket_scan (n : nat) : pvm_m nat :=
  match n with
  | O => ret 0%nat
  | Datatypes.S n' =>
      let* c := get_mx mx_curr_index in
      let i := Z.rem c (Z.of_nat MAX_INS_COUNT) in
      if i <? 0 then undef
      else
        let* x := get_ins (Z.to_nat i) in
        if id_is_ring_ready x then upd_mx (set_mx_curr_index (s32 (c + 1))) ;;; ret (Z.to_nat i)
        else new_socket_scan n'
  end.

Definition mw_xen_new_socket_rr : pvm_m Z :=
  let* selected := new_socket_scan MAX_INS_COUNT in
  let* x := get_ins selected in
  ret (id_domid x).

(** ** Release and reaping *)

Fixpoint end_access (refs : list Z) : pvm_m unit :=
  match refs with
  | [] => ret tt
  | ref :: rest =>
      when (truth ref) (pcall (GnttabEndForeignAccessRef ref) ;;; ret tt) ;;; end_access rest
  end.

Definition mw_xen_release_ins (i : nat) : pvm_m unit :=
  let* x := get_ins i in
  when (negb (id_in_use x =? 0))
    (end_access (id_grant_refs x) ;;;
     when (truth (id_irq x)) (pcall (UnbindFromIrqhandler (id_irq x)) ;;; ret tt) ;;;
     let* closed := mw_xen_is_evt_chn_closed i in
     when (negb closed) (mw_xen_free_unbound_evt_chn i)) ;;;
  upd_ins i (fun x => set_id_domid DOMID_INVALID
                        (set_id_is_ring_ready false (set_id_in_use 0 x))).

(** One entry: is its INS now considered dead? The clock is read once. *)
Definition reap_one (now : Z) (i : nat) : pvm_m bool :=
  let* x := get_ins i in
  if id_in_use x =? 0 then ret false
  else
    let age := u64 (now - id_last_seen_time x) / HZ in
    if age <=? u64 (HEARTBEAT_INTERVAL_SEC * (id_missed_heartbeats x + 1)) then ret false
    else
      upd_ins i (fun x => set_id_missed_heartbeats (s32 (id_missed_heartbeats x + 1)) x) ;;;
      let* x := get_ins i in
      if id_missed_heartbeats x =? HEARTBEAT_MAX_MISSES then
        mw_xen_release_ins i ;;; ret true
      else ret false.

Fixpoint reap_scan (now : Z) (n i : nat) (dead : list Z) : pvm_m (list Z) :=
  match n with
  | O => ret dead
  | Datatypes.S n' =>
      let* x := get_ins i in
      let* d := reap_one now i in
      reap_scan now n' (Datatypes.S i) (if d then dead ++ [id_domid x] else dead)
  end.

(** The domain ids written to the front of the array. *)
Definition mw_xen_reap_dead_ins : pvm_m (Z * list Z) :=
  let* now := pcall Jiffies in
  let* dead := reap_scan (p_val now) MAX_INS_COUNT 0 [] in
  ret (0, dead).

(** ** Responses *)

Fixpoint response_scan (n : nat) : pvm_m (option nat) :=
  match n with
  | O => ret None
  | Datatypes.S n' =>
      let* i := mw_xen_get_next_index_rr in
      let* x := get_ins i in
      if negb (id_is_ring_ready x) then response_scan n'
      else if RING_HAS_UNCONSUMED_RESPONSES (id_sring x) (id_front_ring x) then ret (Some i)
      else response_scan n'
  end.

(** The handle, when there is a response. *)
Definition mw_xen_response_available : pvm_m (option nat) := response_scan MAX_INS_COUNT.

(** The response stays on the ring; its slot's content is given. *)
Definition mw_xen_get_next_response (Handle : nat) : pvm_m (Z * option (list Z)) :=
  let* x := get_ins Handle in
  let response := ring_entry (id_sring x) (rsp_cons (id_front_ring x)) in
  if negb (MT_IS_RESPONSE (get_response_base response)) then ret (- EIO, None)
  else ret (0, Some response).

Definition mw_xen_mark_response_consumed (Handle : option nat) : pvm_m Z :=
  match Handle with
  | None => ret (- EIO)
  | Some i => upd_ins i (fun x => set_id_front_ring (advance_rsp_cons (id_front_ring x)) x) ;;; ret 0
  end.

(** ** Requests *)

Definition mw_xen_get_ins_from_domid (Domid : Z) : pvm_m (Z * option nat) :=
  let* found := find_domid MAX_INS_COUNT 0 Domid in
  match found with
  | None => ret (- ENXIO, None)
  | Some i =>
      let* x := get_ins i in
      ret (if id_in_use x =? 0 then - ESTALE else 0, Some i)
  end.

(** The wait for a free slot, looking again after each timeout. *)
Fixpoint wait_for_slot (fuel : nat) (WaitForRing : bool) (i : nat) : pvm_m Z :=
  match fuel with
  | O => out_of_fuel
  | Datatypes.S fuel' =>
      let* x := get_ins i in
      if id_in_use x =? 0 then ret (- ESTALE)
      else if negb (RING_FULL (id_sring x) (id_front_ring x)) then ret 0
      else if negb WaitForRing then ret (- EAGAIN)
      else pcall (ScheduleTimeout (HZ / 64)) ;;; wait_for_slot fuel' WaitForRing i
  end.

(** Return code, the slot ([*Dest]) and the handle. *)
Definition mw_xen_get_next_request_slot (fuel : nat) (WaitForRing : bool) (DomId : Z)
    : pvm_m (Z * option Z * option nat) :=
  let* DomId :=
    (if (DomId =? DOMID_INVALID) || (DomId =? u16 (-1)) then mw_xen_new_socket_rr
     else ret DomId) in
  let* (rc, ins) := mw_xen_get_ins_from_domid DomId in
  match ins with
  | None => ret (rc, None, None)
  | Some i =>
      if truth rc then ret (rc, None, None)
      else
        let* x := get_ins i in
        if negb (id_is_ring_ready x) then ret (- EIO, None, None)
        else if id_request_lock x then block
        else
          upd_ins i (fun x => set_id_curr_req None
                                (set_id_locked true (set_id_request_lock true x))) ;;;
          let* rc := wait_for_slot fuel WaitForRing i in
          if truth rc then ret (rc, None, Some i)
          else
            let* x := get_ins i in
            let slot := req_prod_pvt (id_front_ring x) in
            upd_ins i (set_id_curr_req (Some slot)) ;;;
            ret (0, Some slot, Some i)
  end.

(** The callback is given each live INS; the last error is returned. *)
Fixpoint live_ins_scan (Callback : Z -> pvm_m Z) (n i : nat) (rc : Z) : pvm_m Z :=
  match n with
  | O => ret rc
  | Datatypes.S n' =>
      let* x := get_ins i in
      if negb (id_is_ring_ready x) then live_ins_scan Callback n' (Datatypes.S i) rc
      else
        let* rc2 := Callback (id_domid x) in
        live_ins_scan Callback n' (Datatypes.S i) (if truth rc2 then rc2 else rc)
  end.

Definition mw_xen_for_each_live_ins (Callback : Z -> pvm_m Z) : pvm_m Z :=
  live_ins_scan Callback MAX_INS_COUNT 0 0.

(** The exit: the lock is released whatever happened. *)
Definition unlock_request (i : nat) : pvm_m unit :=
  upd_ins i (fun x => set_id_request_lock false (set_id_locked false (set_id_curr_req None x))).

(** The slot of the current request is the one a send pushes; without a
    current request the pointer is null. *)
Definition mw_xen_release_request (Handle : option nat) (SendRequest : bool) : pvm_m Z :=
  match Handle with
  | None => ret (- EINVAL)
  | Some i =>
      let* x := get_ins i in
      let* rc :=
        (if id_in_use x =? 0 then ret (- EINVAL)
         else if negb SendRequest then ret 0
         else match id_curr_req x with
         | None => undef
         | Some slot =>
             if negb (MT_IS_REQUEST (get_request_base (ring_entry (id_sring x) slot)))
             then ret (- EINVAL)
             else
               let front := advance_req_prod_pvt (id_front_ring x) in
               upd_ins i (fun x => set_id_sring (RING_PUSH_REQUESTS (id_sring x) front)
                                     (set_id_front_ring front x)) ;;;
               mw_xen_send_event i
         end) in
      unlock_request i ;;;
      ret rc
  end.

(** The client's copy of its request into the slot (mwsocket_send_request()). *)
Definition fill_request_slot (Handle : nat) (slot : Z) (request : list Z) : pvm_m unit :=
  upd_ins Handle (fun x => set_id_sring (ring_write (id_sring x) slot request) x).

(** The part of mwsocket_send_request() that uses the ring; [prepare_rc] is
    the result of mwsocket_pre_process_request(). The return code is that
    of the release, whatever failed before. *)
Definition send_on_ring (fuel : nat) (WaitForRing : bool) (DomId : Z) (prepare_rc : Z)
    (request : list Z) : pvm_m Z :=
  let* (rc, req, h) := mw_xen_get_next_request_slot fuel WaitForRing DomId in
  match h, req with
  | Some i, Some slot =>
      if truth prepare_rc then mw_xen_release_request h false
      else
        fill_request_slot i slot (take (Z.to_nat (rq_size (get_request_base request))) request) ;;;
        mw_xen_release_request h true
  | _, _ => mw_xen_release_request h false
  end.

(** ** Watches, start and end *)

Definition mw_xen_xenstore_state_changed (Path : list Z) : pvm_m unit :=
  if contains Path INS_ID_KEY then mw_xen_ins_found Path ;;; ret tt
  else if contains Path VM_EVT_CHN_BOUND_KEY then mw_xen_bind_evt_chn Path ;;; ret tt
  else if contains Path INS_HEARTBEAT_KEY then mw_xen_ins_heartbeat Path ;;; ret tt
  else ret tt.

Definition mw_xen_initialize_keystore : pvm_m Z :=
  then_do (mw_xen_mkdir XENEVENT_XENSTORE_ROOT XENEVENT_XENSTORE_PVM_NODE)
    (mw_xen_mkdir XENEVENT_XENSTORE_PVM SERVER_ID_KEY).

Definition mw_xen_initialize_keys : pvm_m Z :=
  mw_xen_write_to_key XENEVENT_XENSTORE_PVM SERVER_ID_KEY KEY_RESET_VAL.

Definition ins_zero (memory : S) : mwcomms_ins_data S :=
  {| id_in_use := 0; id_domid := 0; id_ring_ptr := false; id_ring_pagect := 0; id_sring := memory;
     id_front_ring := {| req_prod_pvt := 0; rsp_cons := 0 |}; id_is_ring_ready := false;
     id_grant_refs := replicate XENEVENT_GRANT_REF_COUNT 0; id_common_evtchn := 0; id_irq := 0;
     id_last_seen_time := 0; id_missed_heartbeats := 0; id_curr_req := None; id_locked := false;
     id_request_lock := false |}.

Definition globals_zero (memory : S) : mwcomms_xen_globals S :=
  {| mx_my_domid := 0; mx_xenbus_watch_active := false; mx_pending_exit := false;
     mx_ins_count := 0; mx_ins := replicate MAX_INS_COUNT (ins_zero memory);
     mx_next_index := 0; mx_curr_index := 0 |}.

(** The static counters are not part of the structure that is zeroed. *)
Definition mw_xen_init (memory : S) : pvm_m Z :=
  upd_mx (fun g => set_mx_next_index (mx_next_index g)
                     (set_mx_curr_index (mx_curr_index g) (globals_zero memory))) ;;;
  then_do mw_xen_initialize_keystore
 (then_do mw_xen_initialize_keys
 (then_do mw_xen_write_server_id_to_key
    (let* r := pcall RegisterXenbusWatch in
     if truth (p_ret r) then ret (p_ret r)
     else upd_mx (set_mx_xenbus_watch_active true) ;;; ret 0))).

Fixpoint release_all (n i : nat) : pvm_m unit :=
  match n with
  | O => ret tt
  | Datatypes.S n' => mw_xen_release_ins i ;;; release_all n' (Datatypes.S i)
  end.

Definition mw_xen_fini : pvm_m unit :=
  upd_mx (set_mx_pending_exit true) ;;;
  release_all MAX_INS_COUNT 0 ;;;
  let* active := get_mx mx_xenbus_watch_active in
  when active (pcall UnregisterXenbusWatch ;;; ret tt) ;;;
  mw_xen_initialize_keys ;;;
  mw_xen_rm XENEVENT_XENSTORE_ROOT XENEVENT_XENSTORE_PVM_NODE ;;;
  ret tt.

Definition mw_xen_get_local_domid : pvm_m Z := get_mx mx_my_domid.

End PvmXen.

(** The module as it is loaded. *)
Definition pvm_boot {S W : Type} (memory : S) (w : W) : pvm_state S W :=
  {| pv_g := globals_zero memory; pv_world := w; pv_trace := [] |}.
