(* ===== verification/Handshake.v ===== *)
(** * Handshake: the grant references on their way to the INS

    The protected VM writes the references of a ring's pages to the
    XenStore as hexadecimal text, in chunks, and the INS reads and parses
    them. The theorem is the round trip between the two drivers. *)

From Stdlib Require Import String.
From stdpp Require Import base numbers list.
From Stdlib Require Import ZArith Lia.
From S2P Require Import Prelude Text MessageTypes XenRing InsDriver PvmXen.

#[local] Open Scope string_scope.
#[local] Open Scope list_scope.
#[local] Open Scope Z_scope.
#[local] Arguments Z.eqb : simpl never.
#[local] Arguments Z.ltb : simpl never.
#[local] Arguments Z.leb : simpl never.

(** ** The text of a chunk *)

(** References separated by spaces, and the end mark. *)
Fixpoint chunk_text (refs : list Z) : list Z :=
  match refs with
  | [] => [XENEVENT_GRANT_REF_END]
  | [r] => hex_text r ++ [XENEVENT_GRANT_REF_END]
  | r :: rest => hex_text r ++ [XENEVENT_GRANT_REF_DELIM] ++ chunk_text rest
  end.

(** What the writer builds is that text. *)
Lemma end_chunk_text refs :
  refs <> [] -> end_chunk (concat (map ref_text refs)) = chunk_text refs.
Proof.
  intros Hne. unfold end_chunk. induction refs as [|r rest IH]; [done|].
  cbn [map concat]. destruct rest as [|r2 rest].
  - cbn [map concat chunk_text]. rewrite app_nil_r. unfold ref_text.
    rewrite length_app. simpl length. replace (length (hex_text r) + 1 - 1)%nat
      with (length (hex_text r)) by lia. by rewrite take_app_length.
  - specialize (IH ltac:(done)). change (chunk_text (r :: r2 :: rest))
      with (hex_text r ++ [XENEVENT_GRANT_REF_DELIM] ++ chunk_text (r2 :: rest)).
    rewrite <- IH. unfold ref_text at 1. set (tl := concat (map ref_text (r2 :: rest))) in *.
    assert (0 < length tl)%nat as Hl.
    { subst tl. cbn [map concat]. unfold ref_text at 1. rewrite !length_app. simpl. lia. }
    unfold ref_text. rewrite !length_app, <- !app_assoc. simpl length.
    replace (length (hex_text r) + 1 + length tl - 1)%nat
      with (length (hex_text r) + S (length tl - 1))%nat by lia.
    rewrite take_app_add. simpl. by rewrite <- app_assoc.
Qed.

(** Parsing it, after any number of spaces, gives the references. *)
Lemma parse_chunk_text refs n k acc :
  refs <> [] -> (length refs <= n)%nat -> Forall (in_u 32) refs ->
  parse_grant_refs n (replicate k 32 ++ chunk_text refs) acc = Done (0, acc ++ refs).
Proof.
  intros Hne Hn HF. revert n k acc Hn. induction HF as [|r rest Hr HF IH]; [done|].
  intros n k acc Hn. destruct n as [|n]; [simpl in Hn; lia|].
  assert (in_u 64 r) as Hr64 by (unfold in_u in *; lia).
  assert (u32 r = r) as Hu by by apply wrapu_small.
  destruct rest as [|r2 rest].
  - cbn [chunk_text parse_grant_refs]. rewrite bmk_strtoul_hex by done. cbn [hd].
    rewrite Hu. reflexivity.
  - change (chunk_text (r :: r2 :: rest))
      with (hex_text r ++ [XENEVENT_GRANT_REF_DELIM] ++ chunk_text (r2 :: rest)).
    cbn [parse_grant_refs].
    rewrite bmk_strtoul_hex by done. cbn [hd app]. rewrite Hu.
    change (XENEVENT_GRANT_REF_DELIM =? XENEVENT_GRANT_REF_END) with false.
    change (XENEVENT_GRANT_REF_DELIM =? XENEVENT_GRANT_REF_DELIM) with true. cbn [negb].
    change (XENEVENT_GRANT_REF_DELIM :: chunk_text (r2 :: rest))
      with (replicate 1 32 ++ chunk_text (r2 :: rest)).
    rewrite (IH ltac:(done)) by (simpl in *; lia). by rewrite <- app_assoc.
Qed.

(** ** The two ends *)

(** A write of a trace; a key is its directory and node. *)
Definition write_of (c : pvm_call) : option (list Z * list Z) :=
  match c with XsWrite dir node v => Some (dir ++ [47] ++ node, v) | _ => None end.

Definition writes_of (tr : list pvm_call) : list (list Z * list Z) := omap write_of tr.

Lemma last_write_app a b key v :
  last_write b key = Some v -> last_write (a ++ b) key = Some v.
Proof.
  unfold last_write. rewrite fold_left_app.
  generalize (fold_left (fun acc kv => if bool_decide (kv.1 = key) then Some kv.2 else acc) a None).
  assert (forall l o, (exists v0, fold_left (fun acc kv => if bool_decide (kv.1 = key)
            then Some kv.2 else acc) l None = Some v0) ->
          fold_left (fun acc kv => if bool_decide (kv.1 = key) then Some kv.2 else acc) l o
          = fold_left (fun acc (kv : list Z * list Z) => if bool_decide (kv.1 = key)
            then Some kv.2 else acc) l None) as H.
  { induction l as [|kv l IH]; intros o [v0 Hv]; simpl in *; [discriminate|].
    destruct (bool_decide (kv.1 = key)); [done|]. apply IH. eauto. }
  intros o Hb. rewrite H; eauto.
Qed.

(** The keys of the references in chunks of 64, from number [c] on. *)
Fixpoint chunk_writes (dir : list Z) (groups : list (list Z)) (c : Z) : list (list Z * list Z) :=
  match groups with
  | [] => []
  | g :: rest => (dir ++ [47] ++ chunk_key c, chunk_text g) :: chunk_writes dir rest (c + 1)
  end.

Section PvmSide.

Context {S W : Type} {R : XenRing S} {OS : PvmOS W}.

(** A XenStore that accepts what is written, and memory for the text. *)
Record xenstore_accepts : Prop := {
  xa_start : forall w, p_ret (fst (pvm_os_call XsTransactionStart w)) = 0;
  xa_exists : forall d n w, p_ret (fst (pvm_os_call (XsExists d n) w)) = 1;
  xa_write : forall d n v w, p_ret (fst (pvm_os_call (XsWrite d n v) w)) = 0;
  xa_memory : forall n w, p_ret (fst (pvm_os_call (Kmalloc n) w)) <> 0
}.

Context (Ok : xenstore_accepts).

(** [s'] differs from [s] by its world and by a trace with the writes [kvs]. *)
Definition wrote (s s' : pvm_state S W) (kvs : list (list Z * list Z)) : Prop :=
  pv_g s' = pv_g s /\ writes_of (pv_trace s') = writes_of (pv_trace s) ++ kvs.

Lemma wrote_trans s1 s2 s3 k1 k2 : wrote s1 s2 k1 -> wrote s2 s3 k2 -> wrote s1 s3 (k1 ++ k2).
Proof. intros [G1 T1] [G2 T2]. split; [congruence|]. by rewrite T2, T1, app_assoc. Qed.

Lemma pcall_wrote c s :
  exists w', pcall c s = Done (fst (pvm_os_call c (pv_world s)), w')
    /\ wrote s w' (match write_of c with Some kv => [kv] | None => [] end).
Proof.
  unfold pcall. destruct (pvm_os_call c (pv_world s)) as [r w]. simpl.
  eexists. split; [reflexivity|]. split; [done|]. simpl. unfold writes_of.
  rewrite omap_app. simpl. by destruct (write_of c).
Qed.

Ltac call H := match goal with
  | |- context [bind (pcall ?c) _ ?s] =>
      let s' := fresh "s" in destruct (pcall_wrote c s) as (s' & E & H);
      rewrite (bind_done _ _ _ _ _ E); clear E
  end.

Lemma write_to_key_ok d n v s :
  exists s', mw_xen_write_to_key d n v s = Done (0, s') /\ wrote s s' [(d ++ [47] ++ n, v)].
Proof.
  unfold mw_xen_write_to_key. call H1. rewrite (xa_start Ok). cbn [truth Z.eqb negb].
  change (truth 0) with false. cbn iota. call H2. rewrite (xa_exists Ok).
  change (1 =? 0) with false. cbn iota. call H3. call H4. rewrite (xa_write Ok).
  eexists. split; [reflexivity|].
  pose proof (wrote_trans _ _ _ _ _ (wrote_trans _ _ _ _ _ (wrote_trans _ _ _ _ _ H1 H2) H3) H4) as H.
  exact H.
Qed.

Lemma length_ref_text r : in_u 28 r -> (length (ref_text r) <= 8)%nat.
Proof.
  intros Hr. unfold ref_text. rewrite length_app. simpl.
  pose proof (length_hex_text 7 r Hr ltac:(lia)). lia.
Qed.

(** One chunk: the references that fill it are written under its key. *)
Lemma write_refs_chunk path g rest acc cnt c s :
  g <> [] -> (cnt + length g = GNT_REF_CHUNK_SIZE)%nat -> Forall (in_u 28) g ->
  (length acc <= 8 * cnt)%nat ->
  exists s', write_refs path (g ++ rest) acc cnt c s = write_refs path rest [] 0 (c + 1) s'
    /\ wrote s s' [(path ++ [47] ++ chunk_key c, end_chunk (acc ++ concat (map ref_text g)))].
Proof.
  intros Hne Hcnt HF. revert acc cnt Hcnt.
  induction HF as [|r g Hr HF IH]; [done|]. intros acc cnt Hcnt Hacc.
  pose proof (length_ref_text r Hr) as Hl. unfold GNT_REF_CHUNK_SIZE in Hcnt. simpl length in Hcnt.
  cbn [app write_refs map concat]. unfold ONE_REF_SIZE, GNT_REFS_SZ, ONE_REF_SIZE, XENEVENT_GRANT_REF_COUNT.
  rewrite (proj2 (Z.leb_gt 9 _)) by lia. rewrite (proj2 (Z.leb_gt (Z.of_nat 256 * 9 - 9) _)) by lia.
  destruct g as [|r2 g].
  - simpl length in Hcnt. replace (Datatypes.S cnt) with GNT_REF_CHUNK_SIZE by (unfold GNT_REF_CHUNK_SIZE; lia).
    rewrite Nat.eqb_refl. cbn [map concat app]. rewrite app_nil_r.
    destruct (write_to_key_ok path (chunk_key c) (end_chunk (acc ++ ref_text r)) s) as (s' & E & H).
    rewrite (bind_done _ _ _ _ _ E). change (truth 0) with false. by exists s'.
  - simpl length in Hcnt. rewrite (proj2 (Nat.eqb_neq _ _)) by (unfold GNT_REF_CHUNK_SIZE; lia).
    destruct (IH ltac:(done) (acc ++ ref_text r) (Datatypes.S cnt)) as (s' & E & H).
    + unfold GNT_REF_CHUNK_SIZE. simpl. lia.
    + rewrite length_app. lia.
    + exists s'. rewrite E. split; [done|]. by rewrite <- app_assoc in H.
Qed.

Lemma write_refs_groups path groups c s :
  Forall (fun g => length g = GNT_REF_CHUNK_SIZE /\ Forall (in_u 28) g) groups ->
  exists s', write_refs path (concat groups) [] 0 c s
             = Done ((0, [], 0%nat, c + Z.of_nat (length groups)), s')
    /\ wrote s s' (chunk_writes path groups c).
Proof.
  intros HF. revert c s. induction HF as [|g groups [Hl Hg] HF IH]; intros c s.
  - exists s. simpl. rewrite Z.add_0_r. split; [done|]. split; [done|]. by rewrite app_nil_r.
  - assert (g <> []) as Hne by (intros ->; discriminate).
    cbn [concat chunk_writes].
    destruct (write_refs_chunk path g (concat groups) [] 0 c s Hne Hl Hg ltac:(simpl; lia))
      as (s1 & E1 & H1).
    destruct (IH (c + 1) s1) as (s2 & E2 & H2). rewrite E1, E2. simpl in H1.
    rewrite (end_chunk_text g Hne) in H1. exists s2. split.
    + do 3 f_equal. simpl length. lia.
    + exact (wrote_trans _ _ _ _ _ H1 H2).
Qed.

(** The references of a ring in groups of 64. *)
Definition groups_of (refs : list Z) : list (list Z) :=
  [take 64 refs; take 64 (drop 64 refs); take 64 (drop 128 refs); drop 192 refs].

Lemma groups_concat refs : concat (groups_of refs) = refs.
Proof.
  unfold groups_of. cbn [concat]. rewrite app_nil_r.
  replace (drop 192 refs) with (drop 64 (drop 128 refs)) by (rewrite drop_drop; done).
  rewrite (take_drop 64 (drop 128 refs)).
  replace (drop 128 refs) with (drop 64 (drop 64 refs)) by (rewrite drop_drop; done).
  by rewrite !take_drop.
Qed.

Lemma groups_sizes (refs : list Z) (P : Z -> Prop) :
  length refs = XENEVENT_GRANT_REF_COUNT -> Forall P refs ->
  Forall (fun g => length g = GNT_REF_CHUNK_SIZE /\ Forall P g) (groups_of refs).
Proof.
  intros Hl HF. unfold XENEVENT_GRANT_REF_COUNT in Hl. unfold groups_of, GNT_REF_CHUNK_SIZE.
  repeat constructor; rewrite ?length_take, ?length_drop; try lia;
    auto using Forall_take, Forall_drop.
Qed.

(** All writes of mw_xen_write_grant_refs_to_key(). *)
Lemma write_grant_refs_ok k x s :
  mx_ins (pv_g s) !! k = Some x ->
  length (id_grant_refs x) = XENEVENT_GRANT_REF_COUNT -> Forall (in_u 28) (id_grant_refs x) ->
  exists s', mw_xen_write_grant_refs_to_key k s = Done (0, s')
    /\ wrote s s' (chunk_writes (ins_dir x) (groups_of (id_grant_refs x)) 1
                   ++ [(ins_dir x ++ [47] ++ GNT_REF_CHUNKS, [52])]).
Proof.
  intros Hx Hl HF. unfold mw_xen_write_grant_refs_to_key.
  assert (get_ins k s = Done (x, s)) as Eg by (unfold get_ins; by rewrite Hx).
  rewrite (bind_done _ _ _ _ _ Eg). call H1.
  rewrite (proj2 (Z.eqb_neq _ _)) by apply (xa_memory Ok).
  destruct (write_refs_groups (ins_dir x) (groups_of (id_grant_refs x)) 1 s0) as (s1 & E1 & H2).
  { by apply groups_sizes. }
  rewrite groups_concat in E1. rewrite (bind_done _ _ _ _ _ E1).
  change (truth 0) with false. cbn iota. change (0 <? 0)%nat with false. cbn iota.
  rewrite (bind_done _ _ _ _ _ eq_refl). cbn beta iota.
  change (truth 0) with false. cbn iota.
  change (snprintf XENEVENT_PATH_STR_LEN
    (int_text (1 + Z.of_nat (length (groups_of (id_grant_refs x))) - 1))) with [52].
  destruct (write_to_key_ok (ins_dir x) GNT_REF_CHUNKS [52] s1) as (s2 & E2 & H3).
  rewrite (bind_done _ _ _ _ _ E2). call H4. eexists. split; [reflexivity|].
  pose proof (wrote_trans _ _ _ _ _ (wrote_trans _ _ _ _ _ (wrote_trans _ _ _ _ _ H1 H2) H3) H4) as H.
  cbn [write_of] in H. rewrite app_nil_r in H. exact H.
Qed.

End PvmSide.

(** ** The INS *)

Lemma chunk_key_eq d c :
  in_u 16 d -> 0 <= c < 10 ->
  domain_key d (GNT_REF_KEY ++ [95] ++ int_text c)
  = snprintf XENEVENT_PATH_STR_LEN (domain_dir d) ++ [47] ++ chunk_key c
  /\ domain_key d GNT_REF_CHUNKS
     = snprintf XENEVENT_PATH_STR_LEN (domain_dir d) ++ [47] ++ GNT_REF_CHUNKS.
Proof.
  intros Hd Hc. unfold in_u in Hd.
  assert (length (domain_dir d) <= 9)%nat as Hl.
  { unfold domain_dir, int_text. rewrite (proj2 (Z.ltb_ge _ _)) by lia.
    pose proof (length_digits 10 20 5 d ltac:(lia) ltac:(change (10 ^ Z.of_nat 5) with 100000; lia)
                  ltac:(lia)) as H. fold (dec_text d) in H.
    rewrite !length_app. change (length XENEVENT_XENSTORE_ROOT) with 3%nat. simpl. lia. }
  assert (length (int_text c) <= 1)%nat as Hl2.
  { unfold int_text. rewrite (proj2 (Z.ltb_ge _ _)) by lia.
    apply (length_digits 10 20 1 c); [lia|change (10 ^ Z.of_nat 1) with 10; lia|lia]. }
  unfold domain_key, chunk_key, snprintf, XENEVENT_PATH_STR_LEN.
  change (Z.to_nat (32 - 1)) with 31%nat.
  rewrite (take_ge (domain_dir d)) by lia.
  split.
  - rewrite (take_ge (GNT_REF_KEY ++ _)), take_ge; [done| |].
    + rewrite !length_app. change (length GNT_REF_KEY) with 7%nat. cbn [length]. lia.
    + rewrite !length_app. change (length GNT_REF_KEY) with 7%nat. cbn [length]. lia.
  - rewrite take_ge; [done|]. rewrite !length_app. change (length GNT_REF_CHUNKS) with 14%nat.
    cbn [length]. lia.
Qed.

Section InsSide.

Context {S W : Type} {R : XenRing S} {OS : XenOS W}.

(** Does a call change the XenStore? *)
Definition is_xb_write (c : xe_call) : bool :=
  match c with XbWrite _ _ | XbRm _ => true | _ => false end.

(** In the worlds of [P], which only a write or a removal leaves, the
    XenStore works and holds the keys [kvs]. *)
Record xenstore_returns (kvs : list (list Z * list Z)) (P : W -> Prop) : Prop := {
  xr_start : forall w, P w -> x_ret (fst (xen_os_call XbTransactionStart w)) = 0;
  xr_read : forall key v w, P w -> last_write kvs key = Some v ->
    x_ret (fst (xen_os_call (XbRead key) w)) = 0 /\ x_text (fst (xen_os_call (XbRead key) w)) = v;
  xr_keeps : forall c w, is_xb_write c = false -> P w -> P (snd (xen_os_call c w))
}.

Context (kvs : list (list Z * list Z)) (P : W -> Prop) (Hx : xenstore_returns kvs P).

(** Only the world and the trace changed, and the world is still in [P]. *)
Definition quiet (s s' : xe_state S W) : Prop :=
  xs_comm s' = xs_comm s /\ xs_dev s' = xs_dev s /\ xs_static s' = xs_static s
  /\ xs_ring s' = xs_ring s /\ P (xs_world s').

#[local] Instance quiet_trans : Transitive quiet.
Proof. unfold quiet. intros x y z H1 H2. intuition congruence. Qed.

Lemma xcall_quiet c s :
  is_xb_write c = false -> P (xs_world s) ->
  exists s', xcall c s = Done (fst (xen_os_call c (xs_world s)), s') /\ quiet s s'.
Proof.
  intros Hc Hs. pose proof (xr_keeps _ _ Hx c _ Hc Hs) as Hk.
  unfold xcall. destruct (xen_os_call c (xs_world s)) as [r w]. simpl in *.
  eexists. split; [reflexivity|]. by repeat split.
Qed.

Ltac xc H := match goal with
  | |- context [bind (xcall ?c) _ ?s] =>
      let s' := fresh "s" in
      destruct (xcall_quiet c s eq_refl) as (s' & E & H);
      [solve [eassumption | match goal with Q : quiet _ s |- _ => apply Q end]|];
      rewrite (bind_done _ _ _ _ _ E); clear E
  end.

Lemma read_key_ok key v s :
  P (xs_world s) -> last_write kvs key = Some v ->
  exists s', xe_comms_read_str_from_key key s = Done ((0, Some v), s') /\ quiet s s'.
Proof.
  intros Hs Hk. unfold xe_comms_read_str_from_key, in_transaction.
  unfold bind at 1. xc H1. rewrite (xr_start _ _ Hx _ Hs). change (truth 0) with false. cbn iota.
  assert (P (xs_world s0)) as Hs0 by apply H1.
  xc H2. destruct (xr_read _ _ Hx key v (xs_world s0) Hs0 Hk) as [E1 E2]. xc H3.
  rewrite E1, E2. change (truth 0) with false. cbn.
  eexists. split; [reflexivity|]. by do 2 (etransitivity; [eassumption|]).
Qed.

Lemma read_chunks_ok d groups c refs s :
  P (xs_world s) -> cs_local_id (xs_comm s) = d -> in_u 16 d ->
  0 <= c -> c + Z.of_nat (length groups) <= 10 ->
  (length refs + length (concat groups) <= XENEVENT_GRANT_REF_COUNT)%nat ->
  Forall (fun g => g <> [] /\ Forall (in_u 32) g) groups ->
  Forall (fun kv => last_write kvs kv.1 = Some kv.2)
    (chunk_writes (snprintf XENEVENT_PATH_STR_LEN (domain_dir d)) groups c) ->
  exists s', read_grant_chunks (length groups) c refs s = Done ((0, refs ++ concat groups), s')
    /\ quiet s s'.
Proof.
  intros Hs Hd Hd16 Hc Hc10 Hlen HF. revert c refs s Hs Hd Hc Hc10 Hlen.
  induction HF as [|g groups [Hne Hg] HF IH]; intros c refs s Hs Hd Hc Hc10 Hlen Hkv.
  - exists s. simpl. rewrite app_nil_r. split; [done|by repeat split].
  - cbn [length read_grant_chunks chunk_writes concat] in *.
    apply Forall_cons in Hkv as [Hk Hkv]. simpl in Hk.
    destruct (chunk_key_eq d c Hd16 ltac:(lia)) as [Ekey _].
    unfold get_comm. rewrite (bind_done _ _ _ _ _ eq_refl).
    destruct (read_key_ok (domain_key d (GNT_REF_KEY ++ [95] ++ int_text c)) (chunk_text g) s Hs)
      as (s1 & E1 & Q1).
    { rewrite Ekey. exact Hk. }
    rewrite Hd, (bind_done _ _ _ _ _ E1). cbn beta iota.
    rewrite length_app in Hlen.
    pose proof (parse_chunk_text g (XENEVENT_GRANT_REF_COUNT - length refs) 0 refs Hne
                  ltac:(lia) Hg) as Ep. simpl in Ep. rewrite Ep.
    destruct (IH (c + 1) (refs ++ g) s1) as (s2 & E2 & Q2); auto.
    + apply Q1.
    + destruct Q1 as [-> _]. exact Hd.
    + lia.
    + lia.
    + rewrite length_app. lia.
    + exists s2. rewrite E2, <- app_assoc. split; [done|]. by etransitivity.
Qed.

End InsSide.

(** The keys of one handshake are different, so that each holds its value. *)
Lemma keys_hold kvs0 dir refs :
  Forall (fun kv => last_write (kvs0 ++ chunk_writes dir (groups_of refs) 1
            ++ [(dir ++ [47] ++ GNT_REF_CHUNKS, [52])]) kv.1 = Some kv.2)
    (chunk_writes dir (groups_of refs) 1 ++ [(dir ++ [47] ++ GNT_REF_CHUNKS, [52])]).
Proof.
  unfold groups_of. cbn [chunk_writes app].
  rewrite !Forall_cons, Forall_nil. split_and!; [..|done]; apply last_write_app; unfold last_write;
    cbn [fold_left fst snd];
    repeat case_bool_decide; try reflexivity; try congruence;
    exfalso;
    match goal with H : _ ++ _ = _ ++ _ |- _ => apply app_inv_head in H; vm_compute in H; discriminate H end.
Qed.

Section RoundTrip.

Context {S1 W1 : Type} {R1 : XenRing S1} {OS1 : PvmOS W1}.
Context {S2 W2 : Type} {R2 : XenRing S2} {OS2 : XenOS W2}.

(** (C32) The grant references arrive: the references of a ring's pages, of
    at most seven hexadecimal digits, which the protected VM writes to
    the XenStore in chunks of text, are the ones the INS parses, all 256
    and in order; it maps exactly these pages, and fails only when the
    mapping does. One look at the key of the number of chunks is enough,
    since the protected VM writes it last. *)
Theorem grant_refs_handshake (s : pvm_state S1 W1) (k : nat) (x : mwcomms_ins_data S1) :
  xenstore_accepts (W := W1) ->
  mx_ins (pv_g s) !! k = Some x ->
  length (id_grant_refs x) = XENEVENT_GRANT_REF_COUNT ->
  Forall (in_u 28) (id_grant_refs x) -> in_u 16 (id_domid x) ->
  exists s', mw_xen_write_grant_refs_to_key k s = Done (0, s') /\
  forall (t : xe_state S2 W2) (fuel : nat) (remote : Z) (P : W2 -> Prop),
    xenstore_returns (writes_of (pv_trace s')) P -> P (xs_world t) ->
    cs_local_id (xs_comm t) = id_domid x ->
    length (cs_grant_refs (xs_comm t)) = XENEVENT_GRANT_REF_COUNT -> (0 < fuel)%nat ->
    exists rc t' w, xe_comms_rcv_grant_refs fuel remote t = Done (rc, t')
      /\ cs_grant_refs (xs_comm t') = id_grant_refs x
      /\ rc = if x_ret (fst (xen_os_call (GntmapMapGrantRefs 256 remote (id_grant_refs x) 1) w)) =? 0
              then 12 else 0.
Proof.
  intros Hok Hx Hlen HF Hd.
  destruct (write_grant_refs_ok (S := S1) Hok k x s Hx Hlen HF) as (s' & Es & _ & Ht).
  exists s'. split; [exact Es|]. intros t fuel remote P Hret HP Hid Htl Hfuel. rewrite Ht in Hret.
  set (dir := ins_dir x) in *. set (kvs := writes_of (pv_trace s) ++ _) in Hret.
  pose proof (keys_hold (writes_of (pv_trace s)) dir (id_grant_refs x)) as Hk. fold kvs in Hk.
  apply Forall_app in Hk as [Hchunks Hn]. apply Forall_cons in Hn as [Hn _].
  cbn [fst snd] in Hn.
  destruct (chunk_key_eq (id_domid x) 1 Hd ltac:(lia)) as [_ Epath].
  change (snprintf XENEVENT_PATH_STR_LEN (domain_dir (id_domid x))) with dir in Epath.
  unfold xe_comms_rcv_grant_refs, get_comm at 1. rewrite (bind_done _ _ _ _ _ eq_refl), Hid, Epath.
  destruct fuel as [|fuel]; [lia|]. set (path := dir ++ [47] ++ GNT_REF_CHUNKS) in *.
  destruct (xcall_quiet _ _ Hret (XbWatch path []) t eq_refl HP) as (t1 & E1 & Q1).
  rewrite (bind_done _ _ _ _ _ E1). assert (P (xs_world t1)) as P1 by apply Q1.
  destruct (xcall_quiet _ _ Hret (XbRead path) t1 eq_refl P1) as (t2 & E2 & Q2).
  destruct (xr_read _ _ Hret _ _ (xs_world t1) P1 Hn) as [Er Ev].
  assert (wait_for_chunks (S fuel) path t1 = Done (tt, t2)) as Ew.
  { cbn [wait_for_chunks]. rewrite (bind_done _ _ _ _ _ E2), Er, Ev. reflexivity. }
  rewrite (bind_done _ _ _ _ _ Ew). clear Ew. assert (P (xs_world t2)) as P2 by apply Q2.
  destruct (xcall_quiet _ _ Hret (XbUnwatch path []) t2 eq_refl P2) as (t3 & E3 & Q3).
  rewrite (bind_done _ _ _ _ _ E3). assert (P (xs_world t3)) as P3 by apply Q3.
  destruct (read_key_ok _ _ Hret _ _ t3 P3 Hn) as (t4 & E4 & Q4).
  rewrite (bind_done _ _ _ _ _ E4). cbn beta iota.
  change (Z.to_nat (s32 (fst (bmk_strtoul [52] 10)))) with (length (groups_of (id_grant_refs x))).
  assert (quiet P t t4) as Q by (unfold quiet in *; intuition congruence).
  destruct (read_chunks_ok _ _ Hret (id_domid x) (groups_of (id_grant_refs x)) 1 [] t4)
    as (t5 & E5 & Q5); auto; try done.
  - apply Q.
  - by destruct Q as [-> _].
  - rewrite groups_concat, Hlen. simpl. lia.
  - eapply Forall_impl; [apply groups_sizes; [exact Hlen|exact HF]|].
    intros g [Hg HF']. split; [by intros ->|]. eapply Forall_impl; [exact HF'|].
    intros r Hr. unfold in_u in *. lia.
  - rewrite (bind_done _ _ _ _ _ E5). cbn beta iota. rewrite groups_concat. simpl app.
    rewrite (bind_done _ _ _ _ _ eq_refl). change (truth 0) with false. cbn iota.
    assert (id_grant_refs x ++ drop (length (id_grant_refs x)) (cs_grant_refs (xs_comm t5))
            = id_grant_refs x) as Ed.
    { destruct Q as [Ea _], Q5 as [Eb _]. by rewrite Eb, Ea, Hlen, <- Htl, drop_all, app_nil_r. }
    destruct (xcall_quiet _ _ Hret GntmapInit (set_xs_comm (set_cs_grant_refs
      (id_grant_refs x ++ drop (length (id_grant_refs x)) (cs_grant_refs (xs_comm t5)))
      (xs_comm t5)) t5) eq_refl) as (t6 & E6 & Q6); [apply Q5|].
    rewrite (bind_done _ _ _ _ _ E6). unfold get_comm at 1. rewrite (bind_done _ _ _ _ _ eq_refl).
    assert (P (xs_world t6)) as P6 by apply Q6.
    destruct Q6 as [Q6 _]. rewrite Q6. cbn [cs_grant_refs set_cs_grant_refs xs_comm set_xs_comm].
    rewrite Ed.
    destruct (xcall_quiet _ _ Hret (GntmapMapGrantRefs (Z.of_nat XENEVENT_GRANT_REF_COUNT) remote
      (id_grant_refs x) 1) t6 eq_refl P6) as (t7 & E7 & [Q7 _]).
    rewrite (bind_done _ _ _ _ _ E7). change (Z.of_nat XENEVENT_GRANT_REF_COUNT) with 256.
    destruct (x_ret _ =? 0) eqn:Em; eexists _, _, (xs_world t6); (split; [reflexivity|]);
      rewrite Em; (split; [|done]); simpl; rewrite Q7, Q6; simpl; exact Ed.
Qed.

End RoundTrip.

(** The handshake of an INS with domain id 5 whose references are
    0x1000, 0x1001, ... *)
Definition sample_refs : list Z := map (fun n => 0x1000 + Z.of_nat n) (seq 0 256).

Definition sample_pvm : pvm_state simple_ring Z :=
  set_pv_g (set_mx_ins [set_id_domid 5 (set_id_in_use 1 (set_id_grant_refs sample_refs
    (ins_zero simple_ring_zero)))] (globals_zero simple_ring_zero)) (pvm_boot simple_ring_zero 0).

Definition sample_xe (w : list (list Z * list Z)) : xe_state simple_ring (list (list Z * list Z)) :=
  let s := xe_boot simple_ring_zero w in set_xs_comm (set_cs_local_id 5 (xs_comm s)) s.

Lemma clock_accepts : xenstore_accepts (W := Z).
Proof. by split. Qed.

(** The StoreXen of the witnesses holds what its world says. *)
Lemma store_returns kvs : xenstore_returns kvs (fun w => w = kvs).
Proof.
  split.
  - by intros w ->.
  - intros key v w -> Hk. simpl. by rewrite Hk.
  - intros c w Hc ->. destruct c; try done.
Qed.

Lemma grant_refs_handshake_witness :
  Forall (in_u 28) sample_refs /\
  exists rc t', xe_comms_rcv_grant_refs 1 0 (sample_xe (chunk_writes (text "/mw/5") (groups_of sample_refs) 1
      ++ [(text "/mw/5" ++ [47] ++ GNT_REF_CHUNKS, [52])])) = Done (rc, t')
    /\ cs_grant_refs (xs_comm t') = sample_refs.
Proof.
  assert (Forall (in_u 28) sample_refs) as HF.
  { apply Forall_map, Forall_seq. intros j Hj. unfold in_u. lia. }
  split; [exact HF|].
  destruct (grant_refs_handshake (OS2 := StoreXen) (S2 := simple_ring) sample_pvm 0
    (set_id_domid 5 (set_id_in_use 1 (set_id_grant_refs sample_refs (ins_zero simple_ring_zero))))
    clock_accepts eq_refl eq_refl HF ltac:(split; done)) as (s' & Es & Ht).
  assert (writes_of (pv_trace s') = chunk_writes (text "/mw/5") (groups_of sample_refs) 1
      ++ [(text "/mw/5" ++ [47] ++ GNT_REF_CHUNKS, [52])]) as Ew.
  { assert (mw_xen_write_grant_refs_to_key 0 sample_pvm = Done (0, s')) as Es' by exact Es.
    destruct (write_grant_refs_ok clock_accepts 0 _ sample_pvm eq_refl eq_refl HF) as (s2 & E2 & _ & Hw).
    rewrite E2 in Es'. injection Es' as <-. exact Hw. }
  destruct (Ht (sample_xe (writes_of (pv_trace s'))) 1%nat 0 (fun w => w = writes_of (pv_trace s'))
    (store_returns _) eq_refl eq_refl eq_refl ltac:(lia)) as (rc & t' & w & Er & Ec & _).
  rewrite Ew in Er. exists rc, t'. split; [exact Er|exact Ec].
Defined.
