(* ===== verification/RingChannel.v ===== *)
(** * RingChannel: requests and responses across the ring

    The protected VM's end of the ring (PvmXen) and the INS's end
    (InsDriver) together: whatever the order of their operations, the
    requests the INS reads are those the protected VM sent, in order, and
    the responses collected are those the INS wrote, in order, as long as
    the INS writes at most one response per request. [chan] is the
    specification, [link_ok] the simulation relation. The second part is
    the wake-up of the reader. *)

From stdpp Require Import base numbers list relations.
From Stdlib Require Import ZArith Lia.
From S2P Require Import Prelude Text MessageTypes MwErrno XenRing InsDriver PvmXen.

#[local] Arguments Z.eqb : simpl never.
#[local] Arguments Z.ltb : simpl never.
#[local] Arguments Z.leb : simpl never.

(** ** Messages at the start of a slot *)

Lemma read_fields_prefix ws m tail :
  (sum_list ws <= length m)%nat -> read_fields ws (m ++ tail) = read_fields ws m.
Proof.
  revert m. induction ws as [|w ws IH]; intros m Hl; [done|]. simpl in *.
  rewrite take_app_le by lia. rewrite drop_app_le by lia. rewrite IH; [done|].
  rewrite length_drop. lia.
Qed.

Lemma slot_fields ws i entry m :
  holds_message entry m -> (sum_list ws <= length m)%nat -> fld ws i entry = fld ws i m.
Proof.
  intros Hm Hl. unfold fld. rewrite <- (take_drop (length m) entry), Hm.
  by rewrite read_fields_prefix.
Qed.

(** A request as its sender builds it: its size field is its length and
    fits a slot. *)
Record valid_request (m : list Z) : Prop := {
  vr_is : MT_IS_REQUEST (get_request_base m) = true;
  vr_size : rq_size (get_request_base m) = Z.of_nat (length m);
  vr_fits : Z.of_nat (length m) <= ONE_REQUEST_REGION_SIZE
}.

Record valid_response (m : list Z) : Prop := {
  vp_is : MT_IS_RESPONSE (get_response_base m) = true;
  vp_size : rs_size (get_response_base m) = Z.of_nat (length m);
  vp_fits : Z.of_nat (length m) <= RESPONSE_REGION_SIZE
}.

Lemma valid_request_length m : valid_request m -> (28 <= length m)%nat.
Proof.
  intros [H1 H2 _]. unfold MT_IS_REQUEST in H1. zbool.
  change MT_REQUEST_BASE_SIZE with 28 in *. lia.
Qed.

Lemma valid_response_length m : valid_response m -> (40 <= length m)%nat.
Proof.
  intros [H1 H2 _]. unfold MT_IS_RESPONSE in H1. zbool.
  change MT_RESPONSE_BASE_SIZE with 40 in *. lia.
Qed.

Lemma slot_request entry m :
  holds_message entry m -> valid_request m -> get_request_base entry = get_request_base m.
Proof.
  intros Hm Hv. pose proof (valid_request_length m Hv).
  unfold get_request_base. by rewrite !(slot_fields request_base_ws _ entry m Hm) by (simpl; lia).
Qed.

Lemma slot_response entry m :
  holds_message entry m -> valid_response m ->
  MT_IS_RESPONSE (get_response_base entry) = true
  /\ rs_size (get_response_base entry) = Z.of_nat (length m).
Proof.
  intros Hm Hv. pose proof (valid_response_length m Hv). destruct Hv as [H1 H2 _].
  assert (get_response_base entry = get_response_base m) as ->; [|done].
  unfold get_response_base. by rewrite !(slot_fields response_base_ws _ entry m Hm) by (simpl; lia).
Qed.

Lemma request_fits m : valid_request m -> Z.of_nat (length m) <= RING_ENTRY_SIZE.
Proof. intros [_ _ H]. unfold RING_ENTRY_SIZE. lia. Qed.
Lemma response_fits m : valid_response m -> Z.of_nat (length m) <= RING_ENTRY_SIZE.
Proof. intros [_ _ H]. unfold RING_ENTRY_SIZE. lia. Qed.

(** ** The two ends *)

Section Link.

Context {S W1 W2 : Type} {R : XenRing S} {Laws : XenRingLaws S}
  {OS1 : PvmOS W1} {OS2 : XenOS W2}.

(** The channel of the INS with table index [i]; both ends see the same
    shared memory. *)
Context (i : nat).

Record link := { lk_pvm : pvm_state S W1; lk_xe : xe_state S W2 }.

(** The memory as the end that wrote it left it. *)
Definition pvm_memory (p : pvm_state S W1) (old : S) : S :=
  match mx_ins (pv_g p) !! i with Some e => id_sring e | None => old end.

Definition map_into_pvm (memory : S) (p : pvm_state S W1) : pvm_state S W1 :=
  set_pv_g (set_mx_ins (alter (set_id_sring memory) i (mx_ins (pv_g p))) (pv_g p)) p.

Inductive link_event : Type :=
| EvSent (request : list Z)
| EvRead (request : list Z)
| EvWrote (response : list Z)
| EvCollected (response : list Z).

(** A slot's response, as far as its size field says. *)
Definition response_bytes (slot : list Z) : list Z :=
  take (Z.to_nat (rs_size (get_response_base slot))) slot.

(** The operations of the two ends, in any order. The sender waits for
    the ring; the INS writes no more responses than it read requests. *)
Inductive link_step (open : nat) : link -> link_event -> link -> Prop :=
| step_send fuel d m p' l :
    valid_request m ->
    (exists e, mx_ins (pv_g (lk_pvm l)) !! i = Some e /\ id_domid e = d) ->
    send_on_ring fuel true d 0 m (lk_pvm l) = Done (0, p') ->
    link_step open l (EvSent m)
      {| lk_pvm := p'; lk_xe := set_xs_ring (pvm_memory p' (xs_ring (lk_xe l))) (lk_xe l) |}
| step_read m x' l :
    xe_comms_read_item ONE_REQUEST_REGION_SIZE (lk_xe l) = Done ((0, m), x') ->
    link_step open l (EvRead m)
      {| lk_pvm := map_into_pvm (xs_ring x') (lk_pvm l); lk_xe := x' |}
| step_write m n x' l :
    valid_response m -> (0 < open)%nat ->
    xe_comms_write_item m (Z.of_nat (length m)) (lk_xe l) = Done ((0, n), x') ->
    link_step open l (EvWrote m)
      {| lk_pvm := map_into_pvm (xs_ring x') (lk_pvm l); lk_xe := x' |}
| step_collect slot p' l :
    (let* (rc, r) := mw_xen_get_next_response i in
     mw_xen_mark_response_consumed (Some i) ;;; ret (rc, r)) (lk_pvm l) = Done ((0, Some slot), p') ->
    (exists e, mx_ins (pv_g (lk_pvm l)) !! i = Some e
       /\ RING_HAS_UNCONSUMED_RESPONSES (id_sring e) (id_front_ring e) = true) ->
    link_step open l (EvCollected (response_bytes slot)) {| lk_pvm := p'; lk_xe := lk_xe l |}.

(** The number of requests read and not answered after some events. *)
Definition open_after (n : nat) (ev : link_event) : nat :=
  match ev with EvRead _ => Datatypes.S n | EvWrote _ => pred n | _ => n end.

Inductive link_run : link -> nat -> list link_event -> link -> nat -> Prop :=
| run_nil l n : link_run l n [] l n
| run_cons l n ev l1 evs l2 n2 :
    link_step n l ev l1 -> link_run l1 (open_after n ev) evs l2 n2 ->
    link_run l n (ev :: evs) l2 n2.

Definition sent_of (evs : list link_event) : list (list Z) :=
  omap (fun e => match e with EvSent m => Some m | _ => None end) evs.
Definition read_of (evs : list link_event) : list (list Z) :=
  omap (fun e => match e with EvRead m => Some m | _ => None end) evs.
Definition wrote_of (evs : list link_event) : list (list Z) :=
  omap (fun e => match e with EvWrote m => Some m | _ => None end) evs.
Definition collected_of (evs : list link_event) : list (list Z) :=
  omap (fun e => match e with EvCollected m => Some m | _ => None end) evs.

(** ** The sender *)

(** The table with entry [e] at index [i], the other entries as in [L]. *)
Definition table_at (L : list (mwcomms_ins_data S)) (e : mwcomms_ins_data S) (p : pvm_state S W1) :=
  mx_ins (pv_g p) = <[i := e]> L /\ (i < length L)%nat.

Lemma table_get L e p : table_at L e p -> get_ins i p = Done (e, p).
Proof. intros [H Hi]. unfold get_ins. by rewrite H, list_lookup_insert_eq. Qed.

Lemma table_upd L e f p :
  table_at L e p -> exists p', upd_ins i f p = Done (tt, p') /\ table_at L (f e) p'.
Proof.
  intros [H Hi]. unfold upd_ins. rewrite H, list_lookup_insert_eq by done.
  eexists. split; [reflexivity|]. split; [|done]. simpl. by rewrite list_insert_insert_eq.
Qed.

Lemma table_call L e c p :
  table_at L e p -> exists r p', pcall c p = Done (r, p') /\ table_at L e p'.
Proof.
  intros [H Hi]. unfold pcall. destruct (pvm_os_call c (pv_world p)) as [r w].
  eexists _, _. split; [reflexivity|]. by split.
Qed.

Lemma table_self e p :
  mx_ins (pv_g p) !! i = Some e -> table_at (mx_ins (pv_g p)) e p.
Proof.
  intros H. split; [by rewrite list_insert_id|]. by eapply lookup_lt_Some.
Qed.

Ltac tget H := rewrite (bind_done _ _ _ _ _ (table_get _ _ _ H)).
Ltac tupd H := match goal with
  | |- context [bind (upd_ins i ?f) _ ?p] =>
      let p' := fresh "p" in let E := fresh "E" in let H' := fresh "T" in
      destruct (table_upd _ _ f p H) as (p' & E & H'); rewrite (bind_done _ _ _ _ _ E); clear E
  | G : context [bind (upd_ins i ?f) _ ?p] |- _ =>
      let p' := fresh "p" in let E := fresh "E" in let H' := fresh "T" in
      destruct (table_upd _ _ f p H) as (p' & E & H'); rewrite (bind_done _ _ _ _ _ E) in G; clear E
  end.

(** A wait that returns has found a free slot. *)
Lemma wait_for_slot_done L e fuel p rc p' :
  table_at L e p -> id_in_use e = 1 ->
  wait_for_slot fuel true i p = Done (rc, p') ->
  rc = 0 /\ RING_FULL (id_sring e) (id_front_ring e) = false /\ table_at L e p'.
Proof.
  intros T Hu. revert p T. induction fuel as [|fuel IH]; intros p T H; [discriminate|].
  cbn [wait_for_slot] in H. rewrite (bind_done _ _ _ _ _ (table_get _ _ _ T)), Hu in H.
  change (1 =? 0) with false in H. cbn iota in H.
  destruct (RING_FULL (id_sring e) (id_front_ring e)) eqn:Ef; cbn [negb] in H.
  - destruct (table_call L e (ScheduleTimeout (HZ / 64)) p T) as (r & p1 & E1 & T1).
    rewrite (bind_done _ _ _ _ _ E1) in H. by apply (IH p1).
  - injection H as <- <-. by split.
Qed.

Lemma find_domid_first n j0 d (p : pvm_state S W1) e :
  mx_ins (pv_g p) !! i = Some e -> id_domid e = d -> (j0 <= i < j0 + n)%nat ->
  (forall j e', (j < i)%nat -> mx_ins (pv_g p) !! j = Some e' -> id_domid e' <> d) ->
  find_domid n j0 d p = Done (Some i, p).
Proof.
  intros He Hd Hj Hfirst. revert j0 Hj. induction n as [|n IH]; intros j0 Hj; [lia|].
  cbn [find_domid]. destruct (decide (j0 = i)) as [->|Hne].
  - unfold get_ins, bind. rewrite He. simpl. by rewrite Hd, Z.eqb_refl.
  - pose proof (lookup_lt_Some _ _ _ He).
    destruct (lookup_lt_is_Some_2 (mx_ins (pv_g p)) j0 ltac:(lia)) as [e0 E0].
    unfold get_ins, bind. rewrite E0. simpl.
    rewrite (proj2 (Z.eqb_neq _ _)) by (apply (Hfirst j0); [lia|done]). apply IH. lia.
Qed.

(** An entry that can be sent to, the first one with its domain id. *)
Record sendable (p : pvm_state S W1) (e : mwcomms_ins_data S) (d : Z) : Prop := {
  sd_entry : mx_ins (pv_g p) !! i = Some e;
  sd_index : (i < MAX_INS_COUNT)%nat;
  sd_domid : id_domid e = d;
  sd_valid : d <> DOMID_INVALID /\ d <> u16 (-1);
  sd_in_use : id_in_use e = 1;
  sd_ready : id_is_ring_ready e = true;
  sd_first : forall j e', (j < i)%nat -> mx_ins (pv_g p) !! j = Some e' -> id_domid e' <> d
}.

(** The entry while its lock is held for the slot [slot]. *)
Definition reserved (slot : Z) (e : mwcomms_ins_data S) : mwcomms_ins_data S :=
  set_id_curr_req (Some slot) (set_id_curr_req None (set_id_locked true (set_id_request_lock true e))).

(** A request slot that is given: there was room, and the lock is held. *)
Lemma get_slot_done fuel d p e rc req h p' :
  sendable p e d -> mw_xen_get_next_request_slot fuel true d p = Done ((rc, req, h), p') ->
  let slot := req_prod_pvt (id_front_ring e) in
  rc = 0 /\ req = Some slot /\ h = Some i
  /\ RING_FULL (id_sring e) (id_front_ring e) = false
  /\ table_at (mx_ins (pv_g p)) (reserved slot e) p'.
Proof.
  intros [He Hi Hd [Hd1 Hd2] Hu Hr Hfirst] E.
  unfold mw_xen_get_next_request_slot, mw_xen_get_ins_from_domid in E.
  rewrite (proj2 (Z.eqb_neq d _) Hd1), (proj2 (Z.eqb_neq d _) Hd2) in E. cbn [orb] in E.
  run_step E x1 s1 E1. injection E1 as <- <-. run_step E x2 s2 E2. run_step E2 x3 s3 E3.
  rewrite (find_domid_first MAX_INS_COUNT 0 d p e He Hd ltac:(lia) Hfirst) in E3.
  injection E3 as <- <-. pose proof (table_self _ _ He) as T.
  rewrite (bind_done _ _ _ _ _ (table_get _ _ _ T)), Hu in E2. injection E2 as <- <-.
  change (truth 0) with false in E. cbn iota in E.
  rewrite (bind_done _ _ _ _ _ (table_get _ _ _ T)), Hr in E. cbn [negb] in E.
  destruct (id_request_lock e); [discriminate|].
  tupd T. run_step E w s4 E4. destruct (wait_for_slot_done _ _ _ _ _ _ T0 Hu E4) as (-> & Hf & T4).
  change (truth 0) with false in E. cbn iota in E.
  rewrite (bind_done _ _ _ _ _ (table_get _ _ _ T4)) in E. tupd T4. by injection E as <- <- <- <-.
Qed.

(** Pushing the slot of the current request. *)
Lemma release_send_done L e p rc p' slot :
  table_at L e p -> id_in_use e = 1 -> id_curr_req e = Some slot ->
  MT_IS_REQUEST (get_request_base (ring_entry (id_sring e) slot)) = true ->
  mw_xen_release_request (Some i) true p = Done (rc, p') ->
  let front := advance_req_prod_pvt (id_front_ring e) in
  table_at L (set_id_request_lock false (set_id_locked false (set_id_curr_req None
    (set_id_sring (RING_PUSH_REQUESTS (id_sring e) front) (set_id_front_ring front e))))) p'.
Proof.
  intros T Hu Hc Hreq H front. unfold mw_xen_release_request in H.
  rewrite (bind_done _ _ _ _ _ (table_get _ _ _ T)), Hu, Hc, Hreq in H.
  change (1 =? 0) with false in H. cbn [negb] in H.
  run_step H rc1 s1 E1. tupd T. unfold mw_xen_send_event in E1.
  rewrite (bind_done _ _ _ _ _ (table_get _ _ _ T0)) in E1. run_step E1 r s2 E2.
  destruct (table_call _ _ (EvtchnSend (id_common_evtchn (set_id_sring (RING_PUSH_REQUESTS
    (id_sring e) front) (set_id_front_ring front e)))) p0 T0) as (r' & p2 & E & T2).
  unfold front in *. cbn [id_sring set_id_front_ring] in E2, E. rewrite E in E2.
  injection E2 as <- <-. injection E1 as <- <-. unfold unlock_request in H.
  tupd T2. by injection H as <- <-.
Qed.

(** What a send that returned did: there was room, the request was put
    into the next slot and pushed, and the lock is free again. *)
Lemma send_on_ring_done fuel d m p p' e rc :
  valid_request m -> sendable p e d -> send_on_ring fuel true d 0 m p = Done (rc, p') ->
  RING_FULL (id_sring e) (id_front_ring e) = false
  /\ exists e', table_at (mx_ins (pv_g p)) e' p'
     /\ id_front_ring e' = advance_req_prod_pvt (id_front_ring e)
     /\ id_sring e' = RING_PUSH_REQUESTS (ring_write (id_sring e) (req_prod_pvt (id_front_ring e)) m)
                        (advance_req_prod_pvt (id_front_ring e))
     /\ id_in_use e' = 1 /\ id_is_ring_ready e' = true /\ id_domid e' = id_domid e
     /\ id_request_lock e' = false.
Proof.
  intros Hm Hsd H. unfold send_on_ring in H. run_step H x s E. destruct x as [[rc1 req] h].
  destruct (get_slot_done _ _ _ _ _ _ _ _ Hsd E) as (-> & -> & -> & Hf & T).
  change (truth 0) with false in H. cbn iota in H. split; [exact Hf|].
  unfold fill_request_slot in H. rewrite (vr_size m Hm), Nat2Z.id, firstn_all in H. tupd T.
  eexists. split; [eapply release_send_done; [exact T0|apply Hsd|reflexivity| |exact H]|].
  - cbn [id_sring set_id_sring reserved set_id_curr_req set_id_locked set_id_request_lock].
    erewrite slot_request; [apply Hm|apply holds_written, request_fits, Hm|exact Hm].
  - repeat split; apply Hsd.
Qed.

(** *** Sends that fail *)

Lemma sendable_found p e d :
  sendable p e d -> mw_xen_get_ins_from_domid d p = Done ((0, Some i), p).
Proof.
  intros [He Hi Hd _ Hu _ Hfirst]. unfold mw_xen_get_ins_from_domid.
  rewrite (bind_done _ _ _ _ _ (find_domid_first MAX_INS_COUNT 0 d p e He Hd ltac:(lia) Hfirst)).
  by rewrite (bind_done _ _ _ _ _ (table_get _ _ _ (table_self _ _ He))), Hu.
Qed.

(** With the lock free, asking for a slot takes the lock; a full ring is
    an error unless the caller waits. *)
Lemma get_slot_taken fuel wait d p e :
  sendable p e d -> id_request_lock e = false -> (0 < fuel)%nat ->
  RING_FULL (id_sring e) (id_front_ring e) = false \/ wait = false ->
  exists rc req e' p', mw_xen_get_next_request_slot fuel wait d p = Done ((rc, req, Some i), p')
    /\ table_at (mx_ins (pv_g p)) e' p' /\ id_in_use e' = 1 /\ id_sring e' = id_sring e
    /\ id_front_ring e' = id_front_ring e
    /\ (RING_FULL (id_sring e) (id_front_ring e) = true -> rc = - LinuxErrno.EAGAIN /\ req = None).
Proof.
  intros Hsd Hlock Hfuel Hfull. pose proof (sendable_found _ _ _ Hsd) as Efound.
  destruct Hsd as [He Hi Hd [Hd1 Hd2] Hu Hr Hfirst]. unfold mw_xen_get_next_request_slot.
  rewrite (proj2 (Z.eqb_neq d _) Hd1), (proj2 (Z.eqb_neq d _) Hd2). cbn [orb].
  rewrite (bind_done _ _ _ _ _ eq_refl), (bind_done _ _ _ _ _ Efound).
  change (truth 0) with false. cbn iota. pose proof (table_self _ _ He) as T.
  rewrite (bind_done _ _ _ _ _ (table_get _ _ _ T)), Hr, Hlock. cbn [negb].
  tupd T. destruct fuel as [|fuel]; [lia|].
  destruct (RING_FULL (id_sring e) (id_front_ring e)) eqn:Ef.
  - destruct Hfull as [Hf|Hf]; [discriminate|subst wait].
    assert (wait_for_slot (Datatypes.S fuel) false i p0 = Done (- LinuxErrno.EAGAIN, p0)) as Ew.
    { cbn [wait_for_slot]. rewrite (bind_done _ _ _ _ _ (table_get _ _ _ T0)). cbn.
      by rewrite Hu, Ef. }
    rewrite (bind_done _ _ _ _ _ Ew). eexists _, _, _, p0. split; [reflexivity|].
    split; [exact T0|]. by split_and!.
  - assert (wait_for_slot (Datatypes.S fuel) wait i p0 = Done (0, p0)) as Ew.
    { cbn [wait_for_slot]. rewrite (bind_done _ _ _ _ _ (table_get _ _ _ T0)). cbn.
      by rewrite Hu, Ef. }
    rewrite (bind_done _ _ _ _ _ Ew). change (truth 0) with false. cbn iota.
    rewrite (bind_done _ _ _ _ _ (table_get _ _ _ T0)). tupd T0.
    eexists _, _, _, p1. split; [reflexivity|]. split; [exact T1|]. by split_and!.
Qed.

(** Giving a slot back without a send. *)
Lemma release_unsent L e p :
  table_at L e p -> id_in_use e = 1 ->
  exists p', mw_xen_release_request (Some i) false p = Done (0, p')
    /\ table_at L (set_id_request_lock false (set_id_locked false (set_id_curr_req None e))) p'.
Proof.
  intros T Hu. unfold mw_xen_release_request. rewrite (bind_done _ _ _ _ _ (table_get _ _ _ T)), Hu.
  rewrite (bind_done _ _ _ _ _ eq_refl). unfold unlock_request. tupd T. by exists p0.
Qed.

(** A request that could not be sent is reported as sent: when the
    preparation of the request fails, or the ring is full and the caller
    does not wait, the send gives the slot back and returns 0, the result
    of giving it back; nothing was put on the ring. The lock is free
    again. *)
Theorem failed_send_reports_success (fuel : nat) (wait : bool) (d prepare_rc : Z) (m : list Z)
    (p : pvm_state S W1) (e : mwcomms_ins_data S) :
  sendable p e d -> id_request_lock e = false -> (0 < fuel)%nat ->
  (prepare_rc <> 0 /\ RING_FULL (id_sring e) (id_front_ring e) = false)
  \/ (wait = false /\ RING_FULL (id_sring e) (id_front_ring e) = true) ->
  exists p' e', send_on_ring fuel wait d prepare_rc m p = Done (0, p')
    /\ mx_ins (pv_g p') !! i = Some e' /\ id_sring e' = id_sring e
    /\ id_front_ring e' = id_front_ring e /\ id_request_lock e' = false.
Proof.
  intros Hsd Hlock Hfuel Hcase.
  destruct (get_slot_taken fuel wait d p e Hsd Hlock Hfuel) as
    (rc & req & e1 & p1 & E1 & T1 & Hu1 & Hs1 & Hf1 & Hfull1).
  { destruct Hcase as [[_ Hf]|[Hw _]]; [by left|by right]. }
  destruct (release_unsent _ _ _ T1 Hu1) as (p2 & E2 & T2).
  unfold send_on_ring. rewrite (bind_done _ _ _ _ _ E1). exists p2. eexists. split; [|split].
  - destruct Hcase as [[Hp Hf]|[Hw Hf]].
    + destruct req; [|exact E2]. unfold truth. rewrite (proj2 (Z.eqb_neq _ _) Hp). exact E2.
    + by destruct (Hfull1 Hf) as [_ ->].
  - destruct T2 as [T2 Hl]. rewrite T2. by apply list_lookup_insert_eq.
  - by split_and!.
Qed.

(** ** The reader *)

(** A wait that returns has a request; it only took signals. *)
Lemma wait_for_request_done n (x : xe_state S W2) x' :
  wait_for_request n x = Done (tt, x') ->
  RING_HAS_UNCONSUMED_REQUESTS (xs_ring x) (cs_back_ring (xs_comm x)) = true
  /\ xs_ring x' = xs_ring x /\ cs_back_ring (xs_comm x') = cs_back_ring (xs_comm x).
Proof.
  revert x. induction n as [|n IH]; intros x H; cbn [wait_for_request] in H;
    rewrite (bind_done _ _ _ _ _ eq_refl) in H;
    (destruct (RING_HAS_UNCONSUMED_REQUESTS _ _) eqn:Eh; [by injection H as <-|]);
    run_step H u s1 E; unfold xenevent_semaphore_down, xenevent_semaphore_trydown in E;
    run_step E t s2 E2; unfold get_comm in E2; rewrite (bind_done _ _ _ _ _ eq_refl) in E2;
    (destruct (cs_messages_available (xs_comm x)) as [k|]; [|discriminate]);
    (destruct (0 <? k); injection E2 as <- <-; [|discriminate]); injection E as _ <-;
    [discriminate|].
  apply IH in H as (H1 & H2 & H3). simpl in *. congruence.
Qed.

Lemma read_item_done (x : xe_state S W2) rc bytes x' f c pos :
  ring_repr (xs_ring x) f (cs_back_ring (xs_comm x)) c pos -> Forall valid_request (ch_requests c) ->
  xe_comms_read_item ONE_REQUEST_REGION_SIZE x = Done ((rc, bytes), x') ->
  exists rest, ch_requests c = bytes :: rest /\ rc = 0 /\ xs_ring x' = xs_ring x
    /\ cs_back_ring (xs_comm x') = advance_req_cons (cs_back_ring (xs_comm x)).
Proof.
  intros Hr HF H. unfold xe_comms_read_item, get_comm in H.
  rewrite (bind_done _ _ _ _ _ eq_refl) in H. run_step H u s1 E. destruct u.
  apply wait_for_request_done in E as (Eh & Er & Eb).
  rewrite (repr_has_requests _ _ _ _ _ Hr) in Eh.
  destruct (ch_requests c) as [|m rest] eqn:Ec; [discriminate|]. apply Forall_cons in HF as [Hm _].
  destruct (repr_take _ _ _ _ _ _ _ Hr Ec) as [Hh _].
  rewrite (bind_done _ _ _ _ _ eq_refl), Er, Eb, (slot_request _ _ Hh Hm) in H.
  rewrite (vr_is m Hm), (vr_size m Hm) in H. cbn [negb orb] in H.
  pose proof (vr_fits m Hm) as Hf. pose proof (request_fits m Hm) as Hf2.
  rewrite (proj2 (Z.ltb_ge _ _)) in H by exact Hf.
  rewrite (proj2 (Z.ltb_ge _ _)) in H by exact Hf2.
  rewrite (bind_done _ _ _ _ _ eq_refl), Nat2Z.id, Hh in H.
  unfold upd_comm in H. rewrite (bind_done _ _ _ _ _ eq_refl) in H. injection H as <- <- <-.
  exists rest. simpl. by rewrite Er, Eb.
Qed.

(** A request on the ring is read at once, whatever the semaphore says. *)
Lemma read_item_ready (x : xe_state S W2) f c pos m rest :
  ring_repr (xs_ring x) f (cs_back_ring (xs_comm x)) c pos -> ch_requests c = m :: rest ->
  valid_request m ->
  exists x', xe_comms_read_item ONE_REQUEST_REGION_SIZE x = Done ((0, m), x').
Proof.
  intros Hr Ec Hm. destruct (repr_take _ _ _ _ _ _ _ Hr Ec) as [Hh _].
  unfold xe_comms_read_item, get_comm. rewrite (bind_done _ _ _ _ _ eq_refl).
  assert (wait_for_request (pending_signals (xs_comm x)) x = Done (tt, x)) as Ew.
  { destruct (pending_signals (xs_comm x)); cbn [wait_for_request];
      rewrite (bind_done _ _ _ _ _ eq_refl), (repr_has_requests _ _ _ _ _ Hr), Ec; done. }
  rewrite (bind_done _ _ _ _ _ Ew), (bind_done _ _ _ _ _ eq_refl), (slot_request _ _ Hh Hm).
  rewrite (vr_is m Hm), (vr_size m Hm). cbn [negb orb].
  rewrite (proj2 (Z.ltb_ge _ _)) by apply (vr_fits m Hm).
  rewrite (proj2 (Z.ltb_ge _ _)) by apply (request_fits m Hm).
  rewrite (bind_done _ _ _ _ _ eq_refl), Nat2Z.id, Hh. eexists. reflexivity.
Qed.

(** ** Responses *)

Lemma write_item_done (x : xe_state S W2) m n rc k x' :
  valid_response m -> xe_comms_write_item m k x = Done ((rc, n), x') ->
  let b := cs_back_ring (xs_comm x) in
  rc = 0 /\ n = Z.of_nat (length m) /\ cs_back_ring (xs_comm x') = advance_rsp_prod_pvt b
  /\ xs_ring x' = RING_PUSH_RESPONSES (ring_write (xs_ring x) (rsp_prod_pvt b) m)
                    (advance_rsp_prod_pvt b).
Proof.
  intros Hm H b. unfold xe_comms_write_item in H. rewrite (bind_done _ _ _ _ _ eq_refl) in H.
  rewrite (vp_size m Hm), Z.ltb_irrefl in H. cbn [orb] in H.
  rewrite (proj2 (Z.ltb_ge _ _)) in H by apply (response_fits m Hm).
  rewrite Nat2Z.id, firstn_all in H. rewrite (bind_done _ _ _ _ _ eq_refl) in H.
  unfold upd_comm, get_comm in H. rewrite !(bind_done _ _ _ _ _ eq_refl) in H.
  unfold send_event, xcall in H. run_step H u s1 E. run_step E r s2 E2.
  destruct (xen_os_call _ _) as [r0 w0]. injection E2 as <- <-. injection E as _ <-.
  injection H as <- <- <-. by repeat split.
Qed.

Lemma collect_done L (p : pvm_state S W1) e rc r p' c pos b m rest :
  table_at L e p -> ring_repr (id_sring e) (id_front_ring e) b c pos ->
  ch_responses c = m :: rest -> valid_response m ->
  (let* (rc, r) := mw_xen_get_next_response i in
   mw_xen_mark_response_consumed (Some i) ;;; ret (rc, r)) p = Done ((rc, r), p') ->
  rc = 0 /\ (exists slot, r = Some slot /\ response_bytes slot = m)
  /\ table_at L (set_id_front_ring (advance_rsp_cons (id_front_ring e)) e) p'.
Proof.
  intros T Hr Ec Hm H. destruct (repr_collect _ _ _ _ _ _ _ Hr Ec) as [Hh _].
  run_step H x s1 E. unfold mw_xen_get_next_response in E.
  rewrite (bind_done _ _ _ _ _ (table_get _ _ _ T)) in E.
  destruct (slot_response _ _ Hh Hm) as [Hi Hs]. rewrite Hi in E. cbn [negb] in E.
  injection E as <- <-. run_step H u s2 E2. unfold mw_xen_mark_response_consumed in E2.
  tupd T. injection E2 as <- <-. injection H as <- <- <-.
  split; [done|]. split; [|done]. eexists. split; [done|].
  unfold response_bytes. by rewrite Hs, Nat2Z.id, Hh.
Qed.

(** ** The simulation *)

Record link_ok (l : link) (c : chan) : Prop := {
  lo_ends : exists e d pos, sendable (lk_pvm l) e d /\ id_sring e = xs_ring (lk_xe l)
    /\ ring_repr (xs_ring (lk_xe l)) (id_front_ring e) (cs_back_ring (xs_comm (lk_xe l))) c pos;
  lo_requests : Forall valid_request (ch_requests c);
  lo_responses : Forall valid_response (ch_responses c)
}.

(** The effect of an event on the channel. *)
Definition chan_event (ev : link_event) (c : chan) : chan :=
  match ev with
  | EvSent m => chan_send m c
  | EvRead _ => chan_take c
  | EvWrote m => chan_answer m c
  | EvCollected _ => chan_collect c
  end.

(** What an event says of the channel: a read gives the oldest request,
    a collection the oldest response. *)
Definition event_fits (ev : link_event) (c : chan) : Prop :=
  match ev with
  | EvSent _ => Z.of_nat (chan_used c) < RING_SIZE
  | EvRead m => exists rest, ch_requests c = m :: rest
  | EvWrote _ => True
  | EvCollected m => exists rest, ch_responses c = m :: rest
  end.

(** Entries that differ in nothing the sender looks at. *)
Lemma sendable_table (p p' : pvm_state S W1) e e' d :
  sendable p e d -> table_at (mx_ins (pv_g p)) e' p' ->
  id_in_use e' = id_in_use e -> id_is_ring_ready e' = id_is_ring_ready e ->
  id_domid e' = id_domid e -> sendable p' e' d.
Proof.
  intros [He Hi Hd Hv Hu Hr Hf] [Ht Hl] Hu' Hr' Hd'. split; try congruence; try done.
  - by rewrite Ht, list_lookup_insert_eq.
  - intros j e0 Hj H0. rewrite Ht, list_lookup_insert_ne in H0 by lia. eauto.
Qed.

Lemma sendable_mapped (p : pvm_state S W1) e d memory :
  sendable p e d -> sendable (map_into_pvm memory p) (set_id_sring memory e) d.
Proof.
  intros [He Hi Hd Hv Hu Hr Hf]. split; try done.
  - simpl. rewrite list_lookup_alter_eq, He. done.
  - intros j e0 Hj H0. simpl in H0. rewrite list_lookup_alter_ne in H0 by lia. eauto.
Qed.

Lemma link_step_ok l c ev l' :
  link_ok l c -> link_step (ch_unanswered c) l ev l' ->
  event_fits ev c /\ link_ok l' (chan_event ev c).
Proof.
  intros [(e & d & pos & Hsd & Hmem & Hr) HF1 HF2] Hstep. destruct Hstep; simpl.
  - destruct H0 as (e0 & He0 & Hd0).
    assert (e0 = e) as -> by (pose proof (sd_entry _ _ _ Hsd); congruence).
    assert (d0 = d) as -> by (pose proof (sd_domid _ _ _ Hsd); congruence).
    destruct (send_on_ring_done _ _ _ _ _ _ _ H Hsd H1)
      as (Hfull & e' & T & Hfr & Hsr & Hu' & Hr' & Hd' & _).
    rewrite Hmem, (repr_full _ _ _ _ _ Hr) in Hfull. apply Z.eqb_neq in Hfull.
    assert (Z.of_nat (chan_used c) < RING_SIZE) as Hroom
      by (pose proof (rr_used _ _ _ _ _ Hr); lia).
    split; [exact Hroom|]. split; simpl; [|apply Forall_app; split; auto|done].
    assert (pvm_memory p' (xs_ring (lk_xe l)) = id_sring e') as Em.
    { unfold pvm_memory. destruct T as [Ht Hl]. by rewrite Ht, list_lookup_insert_eq. }
    exists e', d, pos. split; [|split].
    + eapply sendable_table; [exact Hsd|exact T| |exact (eq_trans Hr' (eq_sym (sd_ready _ _ _ Hsd)))|exact Hd'].
      by rewrite Hu', (sd_in_use _ _ _ Hsd).
    + by rewrite Em.
    + simpl. rewrite Em, Hfr, Hsr, Hmem. apply repr_send; [exact Hr|exact Hroom|].
      by apply request_fits.
  - destruct (read_item_done _ _ _ _ _ _ _ Hr HF1 H) as (rest & Ec & _ & Er & Eb).
    split; [by exists rest|]. destruct (repr_take _ _ _ _ _ _ _ Hr Ec) as [_ Hr'].
    split; simpl; [|by rewrite Ec in *; simpl; apply Forall_cons in HF1 as [_ ?]|done].
    exists (set_id_sring (xs_ring x') e), d, pos. split; [by apply sendable_mapped|].
    split; [done|]. simpl. by rewrite Er, Eb.
  - destruct (write_item_done _ _ _ _ _ _ H H1) as (_ & _ & Eb & Er).
    split; [done|]. split; simpl; [|done|apply Forall_app; split; auto].
    exists (set_id_sring (xs_ring x') e), d, pos. split; [by apply sendable_mapped|].
    split; [done|]. simpl. rewrite Er, Eb. apply repr_answer; [exact Hr|done|].
    by apply response_fits.
  - destruct H0 as (e0 & He0 & Hhas).
    assert (e0 = e) as -> by (pose proof (sd_entry _ _ _ Hsd); congruence).
    rewrite Hmem, (repr_has_responses _ _ _ _ _ Hr) in Hhas.
    destruct (ch_responses c) as [|m rest] eqn:Ec; [discriminate|].
    apply Forall_cons in HF2 as [Hm HF2]. rewrite <- Hmem in Hr.
    pose proof (table_self _ _ (sd_entry _ _ _ Hsd)) as T.
    destruct (collect_done _ _ _ _ _ _ _ _ _ _ _ T Hr Ec Hm H) as (_ & (sl & Esl & Eby) & T').
    injection Esl as <-. rewrite Eby. split; [by exists rest|].
    destruct (repr_collect _ _ _ _ _ _ _ Hr Ec) as [_ Hr'].
    split; simpl; [|done|by rewrite Ec].
    exists (set_id_front_ring (advance_rsp_cons (id_front_ring e)) e), d, (pos + 1).
    split; [by eapply sendable_table|]. split; [exact Hmem|]. simpl. by rewrite <- Hmem.
Qed.

Lemma unanswered_event ev c :
  ch_unanswered (chan_event ev c) = open_after (ch_unanswered c) ev.
Proof. by destruct ev. Qed.

(** One event as a step of the two queues. *)
Lemma event_queues ev c evs reqs rsps :
  event_fits ev c ->
  ch_requests (chan_event ev c) ++ sent_of evs = read_of evs ++ reqs ->
  ch_responses (chan_event ev c) ++ wrote_of evs = collected_of evs ++ rsps ->
  ch_requests c ++ sent_of (ev :: evs) = read_of (ev :: evs) ++ reqs
  /\ ch_responses c ++ wrote_of (ev :: evs) = collected_of (ev :: evs) ++ rsps.
Proof.
  intros Hfit H1 H2. destruct ev; simpl in *.
  - by rewrite <- app_assoc in H1.
  - destruct Hfit as [rest Ec]. rewrite Ec in *. simpl in *. by rewrite H1.
  - by rewrite <- app_assoc in H2.
  - destruct Hfit as [rest Ec]. rewrite Ec in *. simpl in *. by rewrite H2.
Qed.

Lemma link_run_ok l c evs l' n' :
  link_ok l c -> link_run l (ch_unanswered c) evs l' n' ->
  link_ok l' (fold_left (fun c ev => chan_event ev c) evs c).
Proof.
  intros Hok Hrun. remember (ch_unanswered c) as n eqn:En. revert c En Hok.
  induction Hrun as [l n|l n ev l1 evs l2 n2 Hstep Hrun IH]; intros c En Hok; [done|].
  subst n. destruct (link_step_ok _ _ _ _ Hok Hstep) as [_ Hok1]. simpl.
  apply IH; [|done]. symmetry. apply unanswered_event.
Qed.

(** (C15) The two drivers implement a reliable channel: over any sequence
    of sends, reads, responses and collections, in any order and with the
    32-bit counters wrapping, the requests read are a prefix of the
    requests sent, in order and unchanged, and the rest is on the ring;
    the same holds of the responses written and collected; the ring never
    holds more than its size; and a request on the ring is read without
    waiting. The INS must not write more responses than it has read
    requests ([link_run]). *)
Theorem channel_fifo (l : link) (c : chan) (evs : list link_event) (l' : link) (n' : nat) :
  link_ok l c -> link_run l (ch_unanswered c) evs l' n' ->
  exists c', link_ok l' c' /\ ch_unanswered c' = n'
    /\ ch_requests c ++ sent_of evs = read_of evs ++ ch_requests c'
    /\ ch_responses c ++ wrote_of evs = collected_of evs ++ ch_responses c'
    /\ Z.of_nat (chan_used c') <= RING_SIZE
    /\ forall m rest, ch_requests c' = m :: rest ->
         exists x', xe_comms_read_item ONE_REQUEST_REGION_SIZE (lk_xe l') = Done ((0, m), x').
Proof.
  intros Hok Hrun. remember (ch_unanswered c) as n eqn:En. revert c En Hok.
  induction Hrun as [l n|l n ev l1 evs l2 n2 Hstep Hrun IH]; intros c En Hok.
  - exists c. destruct Hok as [(e & d & pos & Hsd & Hmem & Hr) HF1 HF2].
    split; [split; [exists e, d, pos; auto|done|done]|]. split; [done|]. simpl. rewrite !app_nil_r.
    split; [done|]. split; [done|]. split; [apply (rr_used _ _ _ _ _ Hr)|].
    intros m rest Ec. rewrite Ec in HF1. apply Forall_cons in HF1 as [Hm _].
    by eapply read_item_ready.
  - subst n. destruct (link_step_ok _ _ _ _ Hok Hstep) as [Hfit Hok1].
    destruct (IH (chan_event ev c)) as (c' & Hok' & Hn' & H1 & H2 & Hused & Hread); auto.
    { symmetry. apply unanswered_event. }
    exists c'. destruct (event_queues ev c evs _ _ Hfit H1 H2). by split_and!.
Qed.

End Link.

(** *** A concrete exchange *)

Definition small_request : list Z :=
  put_request_base {| rq_sig := MT_SIGNATURE_REQUEST; rq_type := request_type_code MtRequestSocketClose;
    rq_size := 28; rq_id := 9; rq_sockfd := 0; rq_flags := 0 |}.
Definition small_response : list Z :=
  put_response_base (set_rs_type (response_type_code MtRequestSocketClose)
    {| rs_sig := MT_SIGNATURE_RESPONSE; rs_type := 0; rs_size := 40; rs_id := 9; rs_sockfd := 0;
       rs_status := 0; rs_flags := 0; rs_ts_ins := 0; rs_body := rs_body response_zero |}).

Definition small_memory : simple_ring := SHARED_RING_INIT simple_ring_zero.
Definition small_pvm : pvm_state simple_ring Z :=
  set_pv_g (set_mx_ins [set_id_domid 5 (set_id_in_use 1 (set_id_is_ring_ready true
    (ins_zero small_memory)))] (globals_zero small_memory)) (pvm_boot small_memory 0).
Definition small_xe : xe_state simple_ring (list (list Z * list Z)) :=
  let s := xe_boot small_memory [] in
  set_xs_comm (set_cs_messages_available (Some 0) (xs_comm s)) s.

Abbreviation small_link := (link (S := simple_ring) (W1 := Z) (W2 := list (list Z * list Z))).

(** One operation on a state of both ends. *)
Definition sent (m : list Z) (l : small_link) : small_link :=
  let p := out_state (send_on_ring 1 true 5 0 m (lk_pvm l)) (lk_pvm l) in
  {| lk_pvm := p; lk_xe := set_xs_ring (pvm_memory 0 p (xs_ring (lk_xe l))) (lk_xe l) |}.
Definition read_one (l : small_link) : small_link :=
  let x := out_state (xe_comms_read_item ONE_REQUEST_REGION_SIZE (lk_xe l)) (lk_xe l) in
  {| lk_pvm := map_into_pvm 0 (xs_ring x) (lk_pvm l); lk_xe := x |}.
Definition wrote_one (m : list Z) (l : small_link) : small_link :=
  let x := out_state (xe_comms_write_item m (Z.of_nat (length m)) (lk_xe l)) (lk_xe l) in
  {| lk_pvm := map_into_pvm 0 (xs_ring x) (lk_pvm l); lk_xe := x |}.

Definition link0 : small_link := {| lk_pvm := small_pvm; lk_xe := small_xe |}.
Definition link1 : small_link := sent small_request link0.
Definition link2 : small_link := read_one link1.
Definition link3 : small_link := wrote_one small_response link2.
Definition link4 : small_link := sent small_request link3.

Lemma sent_step open m l :
  valid_request m ->
  match mx_ins (pv_g (lk_pvm l)) !! 0%nat with Some e => id_domid e =? 5 | None => false end = true ->
  returns (send_on_ring 1 true 5 0 m (lk_pvm l)) (fun x => bool_decide (x = 0)) = true ->
  link_step 0 open l (EvSent m) (sent m l).
Proof.
  intros Hm Hd Hr. apply (step_send 0 open 1 5); [done| |by apply returns_eq].
  destruct (mx_ins (pv_g (lk_pvm l)) !! 0%nat) as [e|]; [|done]. apply Z.eqb_eq in Hd. by exists e.
Qed.

Lemma read_step open m l :
  returns (xe_comms_read_item ONE_REQUEST_REGION_SIZE (lk_xe l)) (fun x => bool_decide (x = (0, m)))
    = true ->
  link_step 0 open l (EvRead m) (read_one l).
Proof. intros Hr. apply (step_read 0). by apply returns_eq. Qed.

Lemma wrote_step open m n l :
  valid_response m -> (0 < open)%nat ->
  returns (xe_comms_write_item m (Z.of_nat (length m)) (lk_xe l)) (fun x => bool_decide (x = (0, n)))
    = true ->
  link_step 0 open l (EvWrote m) (wrote_one m l).
Proof. intros Hm Ho Hr. apply (step_write 0 open m n); [done|done|]. by apply returns_eq. Qed.

Lemma small_request_valid : valid_request small_request.
Proof. split; vm_compute; done. Qed.
Lemma small_response_valid : valid_response small_response.
Proof. split; vm_compute; done. Qed.

Lemma link0_ok : link_ok 0 link0 chan_empty.
Proof.
  split; [|constructor|constructor]. eexists _, 5, 0. split; [|split].
  - split; try done; try (intros; unfold MAX_INS_COUNT in *; lia).
  - done.
  - exact (repr_init simple_ring_zero small_memory eq_refl).
Qed.

Lemma link4_run :
  link_run 0 link0 0 [EvSent small_request; EvRead small_request; EvWrote small_response;
    EvSent small_request] link4 0.
Proof.
  eapply run_cons; [apply (sent_step 0 _ _ small_request_valid); by vm_compute|].
  eapply run_cons; [apply (read_step 0 small_request); by vm_compute|].
  eapply run_cons; [apply (wrote_step 1 _ 40 _ small_response_valid); [lia|by vm_compute]|].
  eapply run_cons; [apply (sent_step 0 _ _ small_request_valid); by vm_compute|].
  apply run_nil.
Qed.

Lemma link0_sendable : sendable 0 (lk_pvm link0) (set_id_domid 5 (set_id_in_use 1
    (set_id_is_ring_ready true (ins_zero small_memory)))) 5.
Proof. split; try done; try (intros; unfold MAX_INS_COUNT in *; lia). Qed.

Lemma failed_send_reports_success_witness :
  exists p', send_on_ring 1 true 5 (-22) small_request (lk_pvm link0) = Done (0, p').
Proof.
  destruct (failed_send_reports_success 0 1 true 5 (-22) small_request (lk_pvm link0) _
    link0_sendable eq_refl ltac:(lia) ltac:(left; done)) as (p' & e' & E & _).
  exists p'. exact E.
Defined.

Lemma channel_fifo_witness :
  exists c', link_ok 0 link4 c'
    /\ [small_request; small_request] = [small_request] ++ ch_requests c'
    /\ [small_response] = ch_responses c'.
Proof.
  destruct (channel_fifo 0 link0 chan_empty _ link4 0 link0_ok link4_run)
    as (c' & Hok & _ & H1 & H2 & _). by exists c'.
Defined.

(** ** One response too many *)

Section ExtraResponse.

Context {S W : Type} {R : XenRing S} {Laws : XenRingLaws S} {OS : XenOS W}.

Lemma wrapped_room a n : u32 (n - (u32 a - u32 (a + 1))) = u32 (n + 1).
Proof.
  unfold wrapu. rewrite <- (Zminus_mod_idemp_r n), <- Zminus_mod, Zminus_mod_idemp_r.
  f_equal. lia.
Qed.

(** What a slot with a response on it looks like to the reader. *)
Lemma response_is_no_request entry r :
  holds_message entry r -> valid_response r -> MT_IS_REQUEST (get_request_base entry) = false.
Proof.
  intros Hh Hv. pose proof (valid_response_length r Hv). destruct Hv as [Hi _ _].
  unfold MT_IS_RESPONSE in Hi. zbool. unfold MT_IS_REQUEST.
  replace (MT_SIGNATURE_REQUEST =? _) with false; [done|]. symmetry. apply Z.eqb_neq.
  cbn [rq_sig get_request_base].
  assert (fld request_base_ws 0 entry = rs_sig (get_response_base r)) as ->.
  - change (rs_sig (get_response_base r)) with (fld request_base_ws 0 r).
    apply slot_fields; [exact Hh|simpl; lia].
  - intros E. rewrite <- E in *. discriminate.
Qed.

(** The requests on the ring are still announced after such a response. *)
Lemma still_has_requests s f b c pos r m rest :
  ring_repr s f b c pos -> ch_unanswered c = 0%nat -> ch_requests c = m :: rest ->
  let b' := advance_rsp_prod_pvt b in
  RING_HAS_UNCONSUMED_REQUESTS (RING_PUSH_RESPONSES (ring_write s (rsp_prod_pvt b) r) b') b' = true.
Proof.
  intros Hr Hun Ec b'. pose proof (rr_used _ _ _ _ _ Hr) as Hu. unfold chan_used in Hu.
  rewrite Ec, Hun in Hu. simpl in Hu. pose proof ring_size_pos as Hsz.
  destruct (law_push_responses (ring_write s (rsp_prod_pvt b) r) b') as (_ & Hp & _).
  destruct (law_write_prods s (rsp_prod_pvt b) r) as (Hw & _).
  rewrite law_unconsumed_requests, Hp, Hw. unfold b'. cbn [req_cons rsp_prod_pvt advance_rsp_prod_pvt].
  rewrite (rr_req_prod _ _ _ _ _ Hr), (rr_req_cons _ _ _ _ _ Hr), (rr_rsp_prod_pvt _ _ _ _ _ Hr).
  unfold chan_used. rewrite Ec, Hun, !Nat.add_0_r, wrapped_succ, wrapped_room. simpl length.
  rewrite (wrapu_small 32 (RING_SIZE + 1)) by (unfold in_u; lia).
  replace (pos + Z.of_nat (Datatypes.S (length rest) + length (ch_responses c)))
    with (pos + Z.of_nat (length (ch_responses c)) + Z.of_nat (Datatypes.S (length rest))) by lia.
  rewrite wrapped_distance by lia.
  unfold truth. rewrite (proj2 (Z.eqb_neq _ _)) by lia. done.
Qed.

(** A response for which no request is open is put over the next
    request: when the INS has answered every request it read and another
    one waits on the ring, writing one more response succeeds, and the
    next read fails with EINVAL instead of giving the request, which is
    gone; the position moves on as if it had been read. *)
Theorem extra_response_loses_request (x : xe_state S W) (f : front_ring) (c : chan) (pos : Z)
    (m : list Z) (rest : list (list Z)) (r : list Z) (k : Z) (rc n : Z) (x' : xe_state S W) :
  ring_repr (xs_ring x) f (cs_back_ring (xs_comm x)) c pos ->
  ch_unanswered c = 0%nat -> ch_requests c = m :: rest -> valid_response r ->
  xe_comms_write_item r k x = Done ((rc, n), x') ->
  rc = 0 /\ exists x'', xe_comms_read_item ONE_REQUEST_REGION_SIZE x' = Done ((EINVAL, []), x'')
    /\ req_cons (cs_back_ring (xs_comm x''))
       = u32 (req_cons (cs_back_ring (xs_comm x)) + 1).
Proof.
  intros Hr Hun Ec Hv H. destruct (write_item_done _ _ _ _ _ _ Hv H) as (-> & _ & Eb & Er).
  split; [done|]. set (b := cs_back_ring (xs_comm x)) in *.
  pose proof (still_has_requests _ _ _ _ _ r _ _ Hr Hun Ec) as Hhas. cbn zeta in Hhas.
  rewrite <- Er, <- Eb in Hhas.
  assert (req_cons b = rsp_prod_pvt b) as Epos.
  { rewrite (rr_req_cons _ _ _ _ _ Hr), (rr_rsp_prod_pvt _ _ _ _ _ Hr), Hun. f_equal. lia. }
  assert (wait_for_request (pending_signals (xs_comm x')) x' = Done (tt, x')) as Ew.
  { destruct (pending_signals (xs_comm x')); cbn [wait_for_request];
      by rewrite (bind_done _ _ _ _ _ eq_refl), Hhas. }
  unfold xe_comms_read_item, get_comm. rewrite (bind_done _ _ _ _ _ eq_refl).
  rewrite (bind_done _ _ _ _ _ Ew), (bind_done _ _ _ _ _ eq_refl).
  rewrite (response_is_no_request _ r); [|rewrite Er, Eb|exact Hv].
  - cbn [negb orb]. rewrite (bind_done _ _ _ _ _ eq_refl). eexists. split; [reflexivity|].
    simpl. by rewrite Eb.
  - destruct (law_push_responses (ring_write (xs_ring x) (rsp_prod_pvt b) r)
      (advance_rsp_prod_pvt b)) as (_ & _ & Hp3).
    rewrite Hp3. cbn [req_cons advance_rsp_prod_pvt]. rewrite Epos.
    apply holds_written, response_fits, Hv.
Qed.

End ExtraResponse.

Lemma extra_response_loses_request_witness :
  exists x' x'', xe_comms_write_item small_response 40 (lk_xe link4) = Done ((0, 40), x')
    /\ xe_comms_read_item ONE_REQUEST_REGION_SIZE x' = Done ((EINVAL, []), x'').
Proof.
  destruct (link_run_ok 0 _ _ _ _ _ link0_ok link4_run) as [(e & d & pos & _ & _ & Hr) _ _].
  assert (xe_comms_write_item small_response 40 (lk_xe link4)
    = Done ((0, 40), out_state (xe_comms_write_item small_response 40 (lk_xe link4)) (lk_xe link4)))
    as Hw by (apply returns_eq; by vm_compute).
  destruct (extra_response_loses_request _ _ _ _ small_request [] small_response 40 0 40 _
    Hr eq_refl eq_refl small_response_valid Hw) as (_ & x'' & E & _).
  eexists _, x''. split; [exact Hw|exact E].
Defined.
