(* ===== verification/Wakeup.v ===== *)
(** * Wakeup: the reader of the ring is woken for every request

    The reader of an INS looks at the ring, and waits for its semaphore
    when it is empty (xe_comms_read_item()); the protected VM pushes a
    request and then sends an event, which the hypervisor delivers by a
    callback that raises the semaphore. Here these steps interleave one
    by one: a request pushed between the reader's look and its wait is
    not overlooked. *)

From stdpp Require Import base numbers list relations.
From Stdlib Require Import ZArith Lia.
From S2P Require Import Prelude Text MessageTypes MwErrno XenRing InsDriver.

(** Where the reader is: about to look, about to wait, or about to take
    the request it saw. The sender is between requests, or has pushed
    one and not yet sent the event. *)
Inductive reader_pc : Type := RCheck | RWait | RGot.
Inductive sender_pc : Type := SIdle | SPushed.

Section Wakeup.

Context {S W : Type} {R : XenRing S} {Laws : XenRingLaws S} {OS : XenOS W}.

(** The driver with the shared ring, the sender's private counters, and
    an event channel that is pending or not; [w_chan] is the channel the
    ring holds, which no step looks at except to bound the responses. *)
Record wake_state := {
  w_xe : xe_state S W;
  w_front : front_ring;
  w_reader : reader_pc;
  w_sender : sender_pc;
  w_pending : bool;
  w_chan : chan
}.

Definition w_back (s : wake_state) : back_ring := cs_back_ring (xs_comm (w_xe s)).

Definition has_request (s : wake_state) : bool :=
  RING_HAS_UNCONSUMED_REQUESTS (xs_ring (w_xe s)) (w_back s).

Definition set_reader (r : reader_pc) (s : wake_state) : wake_state :=
  {| w_xe := w_xe s; w_front := w_front s; w_reader := r; w_sender := w_sender s;
     w_pending := w_pending s; w_chan := w_chan s |}.

(** The steps that wake the reader and lead it to a request. *)
Inductive wake_step : wake_state -> wake_state -> Prop :=
| wk_found s :
    w_reader s = RCheck -> has_request s = true -> wake_step s (set_reader RGot s)
| wk_down s x' :
    w_reader s = RWait -> xenevent_semaphore_trydown (w_xe s) = Done (true, x') ->
    wake_step s {| w_xe := x'; w_front := w_front s; w_reader := RCheck; w_sender := w_sender s;
                   w_pending := w_pending s; w_chan := w_chan s |}
| wk_notify s :
    w_sender s = SPushed ->
    wake_step s {| w_xe := w_xe s; w_front := w_front s; w_reader := w_reader s; w_sender := SIdle;
                   w_pending := true; w_chan := w_chan s |}
| wk_deliver s x' :
    w_pending s = true -> xe_comms_event_callback (w_xe s) = Done (tt, x') ->
    wake_step s {| w_xe := x'; w_front := w_front s; w_reader := w_reader s;
                   w_sender := w_sender s; w_pending := false; w_chan := w_chan s |}.

(** All steps: also the reader's failed look and its taking of a request,
    the sender's push, and the responses. *)
Inductive any_step : wake_state -> wake_state -> Prop :=
| any_wake s s' : wake_step s s' -> any_step s s'
| any_empty s :
    w_reader s = RCheck -> has_request s = false -> any_step s (set_reader RWait s)
| any_consume s :
    w_reader s = RGot ->
    any_step s {| w_xe := set_xs_comm (set_cs_back_ring (advance_req_cons (w_back s))
                    (xs_comm (w_xe s))) (w_xe s);
                  w_front := w_front s; w_reader := RCheck; w_sender := w_sender s;
                  w_pending := w_pending s; w_chan := chan_take (w_chan s) |}
| any_push s m :
    w_sender s = SIdle -> RING_FULL (xs_ring (w_xe s)) (w_front s) = false ->
    Z.of_nat (length m) <= RING_ENTRY_SIZE ->
    any_step s {| w_xe := set_xs_ring (RING_PUSH_REQUESTS
                    (ring_write (xs_ring (w_xe s)) (req_prod_pvt (w_front s)) m)
                    (advance_req_prod_pvt (w_front s))) (w_xe s);
                  w_front := advance_req_prod_pvt (w_front s); w_reader := w_reader s;
                  w_sender := SPushed; w_pending := w_pending s;
                  w_chan := chan_send m (w_chan s) |}
| any_answer s m :
    (0 < ch_unanswered (w_chan s))%nat -> Z.of_nat (length m) <= RING_ENTRY_SIZE ->
    any_step s {| w_xe := set_xs_comm (set_cs_back_ring (advance_rsp_prod_pvt (w_back s))
                    (xs_comm (w_xe s)))
                    (set_xs_ring (RING_PUSH_RESPONSES
                       (ring_write (xs_ring (w_xe s)) (rsp_prod_pvt (w_back s)) m)
                       (advance_rsp_prod_pvt (w_back s))) (w_xe s));
                  w_front := w_front s; w_reader := w_reader s; w_sender := w_sender s;
                  w_pending := w_pending s; w_chan := chan_answer m (w_chan s) |}
| any_collect s :
    RING_HAS_UNCONSUMED_RESPONSES (xs_ring (w_xe s)) (w_front s) = true ->
    any_step s {| w_xe := w_xe s; w_front := advance_rsp_cons (w_front s);
                  w_reader := w_reader s; w_sender := w_sender s; w_pending := w_pending s;
                  w_chan := chan_collect (w_chan s) |}.

(** ** The invariant *)

(** A waiting reader with a request on the ring will be woken. *)
Definition will_wake (s : wake_state) (n : Z) : Prop :=
  w_sender s = SPushed \/ w_pending s = true \/ 0 < n.

Record wake_inv (s : wake_state) : Prop := {
  wi_ring : exists p, ring_repr (xs_ring (w_xe s)) (w_front s) (w_back s) (w_chan s) p;
  wi_wake : exists n, cs_messages_available (xs_comm (w_xe s)) = Some n /\ 0 <= n
    /\ (w_reader s = RWait -> ch_requests (w_chan s) <> [] -> will_wake s n);
  wi_got : w_reader s = RGot -> ch_requests (w_chan s) <> []
}.

Lemma inv_has_request s :
  wake_inv s ->
  has_request s = match ch_requests (w_chan s) with [] => false | _ => true end.
Proof. intros [[p Hr] _ _]. exact (repr_has_requests _ _ _ _ _ Hr). Qed.

Lemma trydown_done (x x' : xe_state S W) n t :
  cs_messages_available (xs_comm x) = Some n -> xenevent_semaphore_trydown x = Done (t, x') ->
  if t then 0 < n /\ x' = set_xs_comm (set_cs_messages_available (Some (n - 1)) (xs_comm x)) x
  else n <= 0 /\ x' = x.
Proof.
  intros En H. unfold xenevent_semaphore_trydown, get_comm in H.
  rewrite (bind_done _ _ _ _ _ eq_refl), En in H.
  destruct (Z.ltb_spec 0 n); by injection H as <- <-.
Qed.

Lemma callback_done (x x' : xe_state S W) n :
  cs_messages_available (xs_comm x) = Some n -> xe_comms_event_callback x = Done (tt, x') ->
  x' = set_xs_comm (set_cs_messages_available (Some (n + 1)) (xs_comm x)) x.
Proof.
  intros En H. unfold xe_comms_event_callback, xenevent_semaphore_up, get_comm in H.
  rewrite (bind_done _ _ _ _ _ eq_refl), En in H. by injection H as <-.
Qed.

Lemma wake_step_inv s s' : wake_inv s -> wake_step s s' -> wake_inv s'.
Proof.
  intros Hi Hs. pose proof (inv_has_request s Hi) as Hh.
  destruct Hi as [[p Hr] (n & En & Hn & Hw) Hg]. destruct Hs as [s Er Hreq|s x' Er Ed|s Es|s x' Ep Ed].
  - split; [by exists p|exists n; split_and!; done|]. intros _. rewrite Hreq in Hh. simpl.
    by destruct (ch_requests (w_chan s)).
  - destruct (trydown_done _ _ _ _ En Ed) as [Hpos ->].
    split; [by exists p| |done]. exists (n - 1). simpl. split_and!; [done|lia|done].
  - split; [by exists p| |done]. exists n. simpl. split_and!; [done|done|].
    intros _ _. right. by left.
  - rewrite (callback_done _ _ _ En Ed). split; [by exists p| |done].
    exists (n + 1). simpl. split_and!; [done|lia|]. intros _ _. right. right. lia.
Qed.

Lemma any_step_inv s s' : wake_inv s -> any_step s s' -> wake_inv s'.
Proof.
  intros Hi Hs. pose proof (inv_has_request s Hi) as Hh. destruct Hs as
    [s s' Hs|s Er Hreq|s Er|s m Es Hfull Hm|s m Hun Hm|s Hc]; [by eapply wake_step_inv|..];
    destruct Hi as [[p Hr] (n & En & Hn & Hw) Hg].
  - split; [by exists p| |done]. exists n. simpl. split_and!; [done|done|].
    intros _ Hne. rewrite Hreq in Hh. by destruct (ch_requests (w_chan s)).
  - specialize (Hg Er). destruct (ch_requests (w_chan s)) as [|m rest] eqn:Ec; [done|].
    destruct (repr_take _ _ _ _ _ _ _ Hr Ec) as [_ Hr'].
    split; [by exists p| |done]. exists n. by simpl.
  - rewrite (repr_full _ _ _ _ _ Hr) in Hfull. apply Z.eqb_neq in Hfull.
    pose proof (rr_used _ _ _ _ _ Hr).
    split; [exists p; apply repr_send; [done|lia|done]| |].
    + exists n. simpl. split_and!; [done|done|]. intros _ _. by left.
    + intros _. simpl. by destruct (ch_requests (w_chan s)).
  - split; [exists p; by apply repr_answer| |done]. exists n. by simpl.
  - rewrite (repr_has_responses _ _ _ _ _ Hr) in Hc.
    destruct (ch_responses (w_chan s)) as [|m rest] eqn:Ec; [done|].
    destruct (repr_collect _ _ _ _ _ _ _ Hr Ec) as [_ Hr'].
    split; [by exists (p + 1)| |done]. exists n. by simpl.
Qed.

(** ** Start *)

(** A ring just set up, with nobody waiting. *)
Definition wake_start (s : wake_state) : Prop :=
  (exists old, xs_ring (w_xe s) = SHARED_RING_INIT old)
  /\ w_front s = FRONT_RING_INIT /\ w_back s = BACK_RING_INIT /\ w_chan s = chan_empty
  /\ w_reader s = RCheck /\ w_sender s = SIdle /\ w_pending s = false
  /\ cs_messages_available (xs_comm (w_xe s)) = Some 0.

Lemma wake_start_inv s : wake_start s -> wake_inv s.
Proof.
  intros ([old Ho] & Hf & Hb & Hc & Hr & Hs & Hp & Hm). split.
  - exists 0. rewrite Hf, Hb, Hc, Ho. by eapply repr_init.
  - exists 0. rewrite Hr. by split_and!.
  - by rewrite Hr.
Qed.

Lemma wake_reachable_inv s s' : wake_start s -> rtc any_step s s' -> wake_inv s'.
Proof.
  intros Hs Hrun. assert (wake_inv s) as Hi by by apply wake_start_inv. clear Hs.
  induction Hrun; [done|]. eauto using any_step_inv.
Qed.

(** The semaphore's operations succeed on a semaphore. *)
Lemma trydown_some (x : xe_state S W) n :
  cs_messages_available (xs_comm x) = Some n -> 0 < n ->
  xenevent_semaphore_trydown x
  = Done (true, set_xs_comm (set_cs_messages_available (Some (n - 1)) (xs_comm x)) x).
Proof.
  intros En Hn. unfold xenevent_semaphore_trydown, get_comm.
  rewrite (bind_done _ _ _ _ _ eq_refl), En. by rewrite (proj2 (Z.ltb_lt 0 n) Hn).
Qed.

Lemma callback_some (x : xe_state S W) n :
  cs_messages_available (xs_comm x) = Some n ->
  xe_comms_event_callback x
  = Done (tt, set_xs_comm (set_cs_messages_available (Some (n + 1)) (xs_comm x)) x).
Proof.
  intros En. unfold xe_comms_event_callback, xenevent_semaphore_up, get_comm.
  by rewrite (bind_done _ _ _ _ _ eq_refl), En.
Qed.

(** The way of the reader to a request that is on the ring. *)
Lemma wake_from_check s :
  wake_inv s -> ch_requests (w_chan s) <> [] -> w_reader s = RCheck ->
  exists s', rtc wake_step s s' /\ w_reader s' = RGot.
Proof.
  intros Hi Hne Er. exists (set_reader RGot s). split; [|done]. apply rtc_once, wk_found; [done|].
  rewrite (inv_has_request s Hi). by destruct (ch_requests (w_chan s)).
Qed.

Lemma wake_from_signal s n :
  wake_inv s -> ch_requests (w_chan s) <> [] -> w_reader s = RWait ->
  cs_messages_available (xs_comm (w_xe s)) = Some n -> 0 < n ->
  exists s', rtc wake_step s s' /\ w_reader s' = RGot.
Proof.
  intros Hi Hne Er En Hn. pose proof (wk_down s _ Er (trydown_some _ _ En Hn)) as Hd.
  edestruct wake_from_check as (s' & Hs & Hr); [exact (wake_step_inv _ _ Hi Hd)|exact Hne|done|].
  exists s'. split; [|done]. by eapply rtc_l.
Qed.

Lemma wake_from_pending s :
  wake_inv s -> ch_requests (w_chan s) <> [] -> w_reader s = RWait -> w_pending s = true ->
  exists s', rtc wake_step s s' /\ w_reader s' = RGot.
Proof.
  intros Hi Hne Er Hp. destruct (wi_wake s Hi) as (n & En & Hn & _).
  pose proof (wk_deliver s _ Hp (callback_some _ _ En)) as Hd.
  edestruct (wake_from_signal _ (n + 1) (wake_step_inv _ _ Hi Hd)) as (s' & Hs & Hr);
    [exact Hne|exact Er|done|lia|].
  exists s'. split; [|done]. by eapply rtc_l.
Qed.


End Wakeup.

(** The race: the reader has looked at the empty ring, then a request is
    pushed, and only then does the reader wait. *)
Definition race0 : wake_state (S := simple_ring) (W := list (list Z * list Z)) :=
  let x := xe_boot (SHARED_RING_INIT simple_ring_zero) [] in
  {| w_xe := set_xs_comm (set_cs_messages_available (Some 0) (xs_comm x)) x;
     w_front := FRONT_RING_INIT; w_reader := RCheck; w_sender := SIdle; w_pending := false;
     w_chan := chan_empty |}.

