(* ===== verification/InsTable.v ===== *)
(** * InsTable: the INS domains the protected VM knows

    The operations of PvmXen on the table of INS domains: the round robin
    over the rings, the choice of an INS for a new socket, heartbeats and
    the reaper, and the lock that a request slot is taken under. *)

From Stdlib Require Import String.
From stdpp Require Import base numbers list relations.
From Stdlib Require Import ZArith Lia.
From S2P Require Import Prelude Text MessageTypes XenRing InsDriver PvmXen.
Import LinuxErrno.

#[local] Open Scope string_scope.
#[local] Open Scope list_scope.
#[local] Open Scope Z_scope.
#[local] Arguments Z.eqb : simpl never.
#[local] Arguments Z.ltb : simpl never.
#[local] Arguments Z.leb : simpl never.
#[local] Arguments Z.modulo : simpl never.
#[local] Arguments Z.div : simpl never.

Section Table.

Context {S W : Type} {R : XenRing S} {OS : PvmOS W}.

Lemma get_ins_done i (p : pvm_state S W) e :
  mx_ins (pv_g p) !! i = Some e -> get_ins i p = Done (e, p).
Proof. intros H. unfold get_ins. by rewrite H. Qed.

Lemma upd_ins_done i f (p : pvm_state S W) e :
  mx_ins (pv_g p) !! i = Some e ->
  upd_ins i f p = Done (tt, set_pv_g (set_mx_ins (<[i := f e]> (mx_ins (pv_g p))) (pv_g p)) p).
Proof. intros H. unfold upd_ins. by rewrite H. Qed.

(** A call leaves the globals alone. *)
Lemma pcall_done c (p : pvm_state S W) :
  exists p', pcall c p = Done (fst (pvm_os_call c (pv_world p)), p') /\ pv_g p' = pv_g p.
Proof.
  unfold pcall. destruct (pvm_os_call c (pv_world p)) as [r w]. eexists. split; reflexivity.
Qed.

Lemma entry_exists i (p : pvm_state S W) :
  length (mx_ins (pv_g p)) = MAX_INS_COUNT -> (i < MAX_INS_COUNT)%nat ->
  exists e, mx_ins (pv_g p) !! i = Some e.
Proof. intros Hl Hi. apply lookup_lt_is_Some_2. lia. Qed.

(** ** Responses, round robin *)

(** Entry [i] has a response to collect. *)
Definition has_response (p : pvm_state S W) (i : nat) : bool :=
  match mx_ins (pv_g p) !! i with
  | Some e => id_is_ring_ready e && RING_HAS_UNCONSUMED_RESPONSES (id_sring e) (id_front_ring e)
  | None => false
  end.

(** The entry the next scan starts at, and how far entry [i] is from it. *)
Definition next_start (p : pvm_state S W) : Z := mx_next_index (pv_g p) mod 3.
Definition distance (p : pvm_state S W) (i : nat) : Z := (Z.of_nat i - next_start p) mod 3.

Lemma next_index_done (p : pvm_state S W) :
  mw_xen_get_next_index_rr p
  = Done (Z.to_nat (next_start p), set_pv_g (set_mx_next_index (next_start p + 1) (pv_g p)) p).
Proof. reflexivity. Qed.

(** One step of the scan. *)
Lemma response_scan_step n (p : pvm_state S W) :
  length (mx_ins (pv_g p)) = MAX_INS_COUNT ->
  let i := Z.to_nat (next_start p) in
  let p' := set_pv_g (set_mx_next_index (next_start p + 1) (pv_g p)) p in
  response_scan (Datatypes.S n) p
  = if has_response p i then Done (Some i, p') else response_scan n p'.
Proof.
  intros Hl i p'. pose proof (Z.mod_pos_bound (mx_next_index (pv_g p)) 3 ltac:(lia)).
  destruct (entry_exists i p Hl) as [e He].
  { unfold MAX_INS_COUNT, i, next_start. lia. }
  cbn [response_scan]. rewrite (bind_done _ _ _ _ _ (next_index_done p)).
  rewrite (bind_done _ _ _ _ _ (get_ins_done _ p' e He)). unfold has_response. rewrite He.
  by destruct (id_is_ring_ready e), (RING_HAS_UNCONSUMED_RESPONSES (id_sring e) (id_front_ring e)).
Qed.

Lemma next_start_step (p : pvm_state S W) :
  next_start (set_pv_g (set_mx_next_index (next_start p + 1) (pv_g p)) p) = (next_start p + 1) mod 3.
Proof. reflexivity. Qed.

Lemma has_response_step (p : pvm_state S W) v i :
  has_response (set_pv_g (set_mx_next_index v (pv_g p)) p) i = has_response p i.
Proof. reflexivity. Qed.

(** The scan over [n] entries finds entry [i] or one before it. *)
Lemma response_scan_finds n i (p : pvm_state S W) :
  length (mx_ins (pv_g p)) = MAX_INS_COUNT -> (i < MAX_INS_COUNT)%nat -> has_response p i = true ->
  distance p i < Z.of_nat n ->
  exists j p', response_scan n p = Done (Some j, p') /\ has_response p j = true
    /\ mx_ins (pv_g p') = mx_ins (pv_g p)
    /\ (j = i \/ distance p' i < distance p i).
Proof.
  revert p. induction n as [|n IH]; intros p Hl Hi Hh Hd.
  { unfold distance in Hd. pose proof (Z.mod_pos_bound (Z.of_nat i - next_start p) 3). lia. }
  rewrite response_scan_step by done. set (k := Z.to_nat (next_start p)).
  set (p' := set_pv_g _ p). pose proof (Z.mod_pos_bound (mx_next_index (pv_g p)) 3 ltac:(lia)) as Hb.
  fold (next_start p) in Hb. unfold MAX_INS_COUNT in Hi.
  assert (k <> i -> distance p' i = distance p i - 1) as Hstep.
  { intros Hne. unfold distance, p'. rewrite next_start_step. subst k.
    assert (next_start p = 0 \/ next_start p = 1 \/ next_start p = 2) as Hc by lia.
    assert (i = 0 \/ i = 1 \/ i = 2)%nat as Hci by lia.
    destruct Hc as [Hc | [Hc | Hc]], Hci as [-> | [-> | ->]]; rewrite Hc in Hne |- *;
      try (exfalso; apply Hne; reflexivity); reflexivity. }
  destruct (decide (k = i)) as [->|Hne].
  - rewrite Hh. exists i, p'. split_and!; auto.
  - destruct (has_response p k) eqn:Ek.
    + exists k, p'. split_and!; auto. right. rewrite Hstep by done. lia.
    + destruct (IH p' Hl Hi Hh) as (j & p2 & E & Hj & Hm & Hdist); [rewrite Hstep by done; lia|].
      exists j, p2. split_and!; auto. destruct Hdist as [|Hdist]; [by left|].
      right. rewrite Hstep in Hdist by done. lia.
Qed.

Lemma response_scan_none n (p : pvm_state S W) :
  length (mx_ins (pv_g p)) = MAX_INS_COUNT -> (forall i, has_response p i = false) ->
  exists p', response_scan n p = Done (None, p') /\ mx_ins (pv_g p') = mx_ins (pv_g p).
Proof.
  revert p. induction n as [|n IH]; intros p Hl Hh; [by exists p|].
  rewrite response_scan_step, Hh by done.
  destruct (IH (set_pv_g (set_mx_next_index (next_start p + 1) (pv_g p)) p) Hl Hh) as (p2 & E & H).
  by exists p2.
Qed.

(** (C35) No ring is starved: mw_xen_response_available() finds a response
    exactly when some INS with a ready ring has one; the entry it gives
    has one; and for every entry with a response either that one is given
    or the next scan starts closer to it, so that it is served within
    three calls. The table does not change. *)
Theorem response_available_fair (p : pvm_state S W) :
  length (mx_ins (pv_g p)) = MAX_INS_COUNT ->
  match mw_xen_response_available p with
  | Done (Some j, p') =>
      has_response p j = true /\ mx_ins (pv_g p') = mx_ins (pv_g p)
      /\ forall i, (i < MAX_INS_COUNT)%nat -> has_response p i = true ->
           (j = i \/ distance p' i < distance p i) /\ distance p i < 3
  | Done (None, p') => (forall i, has_response p i = false) /\ mx_ins (pv_g p') = mx_ins (pv_g p)
  | _ => False
  end.
Proof.
  intros Hl. unfold mw_xen_response_available.
  assert (forall i, has_response p i = true -> (i < MAX_INS_COUNT)%nat) as Hlt.
  { intros i H. unfold has_response in H. destruct (mx_ins (pv_g p) !! i) eqn:E; [|discriminate].
    apply lookup_lt_Some in E. lia. }
  assert (forall i, distance p i < 3) as Hd
    by (intros i; unfold distance; pose proof (Z.mod_pos_bound (Z.of_nat i - next_start p) 3); lia).
  destruct (List.existsb (has_response p) (seq 0 MAX_INS_COUNT)) eqn:Ex.
  - apply List.existsb_exists in Ex as (i & _ & Hi).
    destruct (response_scan_finds MAX_INS_COUNT i p Hl (Hlt i Hi) Hi (Hd i))
      as (j & p' & E & Hj & Hm & _).
    rewrite E. split_and!; auto. intros i' Hi' Hh'. split; [|by apply Hd].
    destruct (response_scan_finds MAX_INS_COUNT i' p Hl Hi' Hh' (Hd i'))
      as (j' & p2 & E' & _ & _ & Hdist).
    rewrite E in E'. by injection E' as <- <-.
  - assert (forall i, has_response p i = false) as Hf.
    { intros i. apply not_true_is_false. intros Hi. apply not_true_iff_false in Ex. apply Ex.
      apply List.existsb_exists. exists i. split; [|done]. apply List.in_seq.
      pose proof (Hlt i Hi). lia. }
    destruct (response_scan_none MAX_INS_COUNT p Hl Hf) as (p' & E & Hm). by rewrite E.
Qed.

(** ** New sockets *)

(** The choice of an INS for a new socket sticks to the first one:
    when the INS whose turn it is has no ready ring, the INS of entry 0
    is given, without looking at the others, and the turn does not move
    on, so that the next socket meets the same state. When entry 0 was
    released, no new socket can be created although another INS is alive. *)
Theorem new_socket_sticks (p : pvm_state S W) (e e0 : mwcomms_ins_data S) :
  let c := Z.rem (mx_curr_index (pv_g p)) 3 in
  0 <= c -> mx_ins (pv_g p) !! Z.to_nat c = Some e -> id_is_ring_ready e = false ->
  mx_ins (pv_g p) !! 0%nat = Some e0 ->
  mw_xen_new_socket_rr p = Done (id_domid e0, p)
  /\ (id_domid e0 = DOMID_INVALID -> id_in_use e0 = 0 ->
      forall fuel wait, mw_xen_get_next_request_slot fuel wait DOMID_INVALID p
                        = Done ((- ESTALE, None, None), p)).
Proof.
  intros c Hc He Hr He0.
  assert (forall n, new_socket_scan n p = Done (0%nat, p)) as Hscan.
  { induction n as [|n IH]; [done|]. cbn [new_socket_scan]. unfold get_mx.
    rewrite (bind_done _ _ _ _ _ eq_refl). change (Z.of_nat MAX_INS_COUNT) with 3. fold c.
    rewrite (proj2 (Z.ltb_ge _ _) Hc), (bind_done _ _ _ _ _ (get_ins_done _ _ _ He)), Hr. exact IH. }
  assert (mw_xen_new_socket_rr p = Done (id_domid e0, p)) as Hrr.
  { unfold mw_xen_new_socket_rr. rewrite (bind_done _ _ _ _ _ (Hscan _)).
    by rewrite (bind_done _ _ _ _ _ (get_ins_done _ _ _ He0)). }
  split; [exact Hrr|]. intros Hd Hu fuel wait. unfold mw_xen_get_next_request_slot.
  rewrite Z.eqb_refl. cbn [orb]. rewrite (bind_done _ _ _ _ _ Hrr), Hd.
  unfold mw_xen_get_ins_from_domid.
  assert (find_domid MAX_INS_COUNT 0 DOMID_INVALID p = Done (Some 0%nat, p)) as Ef.
  { unfold MAX_INS_COUNT. cbn [find_domid].
    by rewrite (bind_done _ _ _ _ _ (get_ins_done _ _ _ He0)), Hd, Z.eqb_refl. }
  assert ((let* found := find_domid MAX_INS_COUNT 0 DOMID_INVALID in
           match found with
           | None => ret (- ENXIO, None)
           | Some i => let* x := get_ins i in ret (if id_in_use x =? 0 then - ESTALE else 0, Some i)
           end) p = Done ((- ESTALE, Some 0%nat), p)) as Eg.
  { rewrite (bind_done _ _ _ _ _ Ef), (bind_done _ _ _ _ _ (get_ins_done _ _ _ He0)), Hu. done. }
  by rewrite (bind_done _ _ _ _ _ Eg).
Qed.

(** ** Heartbeats and the reaper *)

(** Computations that only call the system. *)
Definition calls_only {A} (m : pvm_m (S := S) (W := W) A) : Prop :=
  forall p, exists a p', m p = Done (a, p') /\ pv_g p' = pv_g p.

Lemma calls_only_ret {A} (a : A) : calls_only (ret a).
Proof. intros p. by eexists _, _. Qed.
Lemma calls_only_call c : calls_only (pcall c).
Proof. intros p. destruct (pcall_done c p) as (p' & E & H). by eexists _, _. Qed.
Lemma calls_only_bind {A B} (m : pvm_m A) (k : A -> pvm_m B) :
  calls_only m -> (forall a, calls_only (k a)) -> calls_only (bind m k).
Proof.
  intros Hm Hk p. destruct (Hm p) as (a & p1 & E & H). destruct (Hk a p1) as (b & p2 & E2 & H2).
  exists b, p2. rewrite (bind_done _ _ _ _ _ E). split; [done|congruence].
Qed.
Lemma calls_only_when b (m : pvm_m unit) : calls_only m -> calls_only (when b m).
Proof. intros H. destruct b; [done|apply calls_only_ret]. Qed.
Lemma calls_only_end_access refs : calls_only (end_access refs).
Proof.
  induction refs as [|r refs IH]; [apply calls_only_ret|]. apply calls_only_bind; [|by intros []].
  apply calls_only_when, calls_only_bind; [apply calls_only_call|]. intros _. apply calls_only_ret.
Qed.

(** The entry that mw_xen_release_ins() leaves. *)
Definition released (e : mwcomms_ins_data S) : mwcomms_ins_data S :=
  set_id_domid DOMID_INVALID (set_id_is_ring_ready false (set_id_in_use 0 e)).

Lemma release_calls (e : mwcomms_ins_data S) i (p : pvm_state S W) :
  mx_ins (pv_g p) !! i = Some e ->
  exists a p', (when (negb (id_in_use e =? 0))
    (end_access (id_grant_refs e) ;;;
     when (truth (id_irq e)) (pcall (UnbindFromIrqhandler (id_irq e)) ;;; ret tt) ;;;
     let* closed := mw_xen_is_evt_chn_closed i in
     when (negb closed) (mw_xen_free_unbound_evt_chn i))) p = Done (a, p') /\ pv_g p' = pv_g p.
Proof.
  intros He. destruct (negb (id_in_use e =? 0)); [|by eexists _, _]. unfold when at 1.
  destruct (calls_only_end_access (id_grant_refs e) p) as (a1 & p1 & E1 & H1).
  rewrite (bind_done _ _ _ _ _ E1).
  assert (calls_only (when (truth (id_irq e)) (pcall (UnbindFromIrqhandler (id_irq e)) ;;; ret tt)))
    as Hirq by (apply calls_only_when, calls_only_bind;
                [apply calls_only_call|intros; apply calls_only_ret]).
  destruct (Hirq p1) as (a2 & p2 & E2 & H2). rewrite (bind_done _ _ _ _ _ E2).
  assert (mx_ins (pv_g p2) !! i = Some e) as He2 by (rewrite H2, H1; exact He).
  unfold mw_xen_is_evt_chn_closed, mw_xen_free_unbound_evt_chn.
  unfold bind at 1. rewrite (bind_done _ _ _ _ _ (get_ins_done _ _ _ He2)).
  destruct (pcall_done (EvtchnStatus (id_common_evtchn e)) p2) as (p3 & E3 & H3).
  rewrite (bind_done _ _ _ _ _ E3). cbn beta iota. simpl obind.
  destruct (negb _); [|eexists _, _; split; [reflexivity|congruence]]. unfold when at 1.
  assert (mx_ins (pv_g p3) !! i = Some e) as He3 by (rewrite H3; exact He2).
  rewrite (bind_done _ _ _ _ _ (get_ins_done _ _ _ He3)).
  assert (calls_only (when (truth (id_common_evtchn e))
    (pcall (EvtchnClose (id_common_evtchn e)) ;;; ret tt))) as Hc
    by (apply calls_only_when, calls_only_bind; [apply calls_only_call|intros; apply calls_only_ret]).
  destruct (Hc p3) as (a4 & p4 & E4 & H4). exists a4, p4. split; [exact E4|congruence].
Qed.

Lemma release_ins_done i e (p : pvm_state S W) :
  mx_ins (pv_g p) !! i = Some e ->
  exists p', mw_xen_release_ins i p = Done (tt, p')
    /\ mx_ins (pv_g p') = <[i := released e]> (mx_ins (pv_g p)).
Proof.
  intros He. unfold mw_xen_release_ins. rewrite (bind_done _ _ _ _ _ (get_ins_done _ _ _ He)).
  destruct (release_calls e i p He) as (a & p1 & E1 & H1).
  rewrite (bind_done _ _ _ _ _ E1).
  assert (mx_ins (pv_g p1) !! i = Some e) as He1 by (rewrite H1; exact He).
  rewrite (upd_ins_done _ _ _ _ He1). eexists. split; [reflexivity|]. simpl. by rewrite H1.
Qed.

(** The seconds since an INS was heard of. *)
Definition silence (now : Z) (e : mwcomms_ins_data S) : Z := u64 (now - id_last_seen_time e) / HZ.

(** One entry under the reaper: is it declared dead, and what becomes of it? *)
Definition reap_entry (now : Z) (e : mwcomms_ins_data S) : bool * mwcomms_ins_data S :=
  if id_in_use e =? 0 then (false, e)
  else if silence now e <=? u64 (id_missed_heartbeats e + 1) then (false, e)
  else
    let e' := set_id_missed_heartbeats (s32 (id_missed_heartbeats e + 1)) e in
    if id_missed_heartbeats e' =? HEARTBEAT_MAX_MISSES then (true, released e') else (false, e').

Lemma reap_one_done now i e (p : pvm_state S W) :
  mx_ins (pv_g p) !! i = Some e ->
  exists p', reap_one now i p = Done (fst (reap_entry now e), p')
    /\ mx_ins (pv_g p') = <[i := snd (reap_entry now e)]> (mx_ins (pv_g p)).
Proof.
  intros He. unfold reap_one, reap_entry. rewrite (bind_done _ _ _ _ _ (get_ins_done _ _ _ He)).
  destruct (id_in_use e =? 0).
  { exists p. split; [done|]. simpl. by rewrite list_insert_id. }
  fold (silence now e). unfold HEARTBEAT_INTERVAL_SEC. rewrite Z.mul_1_l.
  destruct (silence now e <=? u64 (id_missed_heartbeats e + 1)).
  { exists p. split; [done|]. simpl. by rewrite list_insert_id. }
  set (e' := set_id_missed_heartbeats (s32 (id_missed_heartbeats e + 1)) e).
  rewrite (bind_done _ _ _ _ _ (upd_ins_done _ _ _ _ He)).
  set (p1 := set_pv_g _ p).
  assert (mx_ins (pv_g p1) !! i = Some e') as He1.
  { simpl. rewrite list_lookup_insert_eq; [done|]. by eapply lookup_lt_Some. }
  rewrite (bind_done _ _ _ _ _ (get_ins_done _ _ _ He1)).
  destruct (id_missed_heartbeats e' =? HEARTBEAT_MAX_MISSES).
  - destruct (release_ins_done i e' p1 He1) as (p2 & E2 & H2).
    rewrite (bind_done _ _ _ _ _ E2). exists p2. split; [done|]. rewrite H2. simpl.
    by rewrite list_insert_insert_eq.
  - by exists p1.
Qed.

(** One pass of the reaper: every entry is judged by itself from the
    time it was last heard of ([reap_entry]), the domain ids of the
    entries declared dead are reported in the order of the table, and
    nothing else of the table changes. The pass always ends. *)
Theorem reap_pass (p : pvm_state S W) (e0 e1 e2 : mwcomms_ins_data S) :
  mx_ins (pv_g p) = [e0; e1; e2] ->
  let now := p_val (fst (pvm_os_call Jiffies (pv_world p))) in
  exists p', mw_xen_reap_dead_ins p
    = Done ((0, omap (fun e => if fst (reap_entry now e) then Some (id_domid e) else None)
                  [e0; e1; e2]), p')
    /\ mx_ins (pv_g p') = map (fun e => snd (reap_entry now e)) [e0; e1; e2].
Proof.
  intros Hm now. unfold mw_xen_reap_dead_ins.
  destruct (pcall_done Jiffies p) as (p0 & E0 & H0). rewrite (bind_done _ _ _ _ _ E0). fold now.
  unfold MAX_INS_COUNT. cbn [reap_scan].
  assert (mx_ins (pv_g p0) = [e0; e1; e2]) as Hm0 by by rewrite H0.
  destruct (reap_one_done now 0 e0 p0) as (p1 & E1 & H1); [by rewrite Hm0|].
  destruct (reap_one_done now 1 e1 p1) as (p2 & E2 & H2); [by rewrite H1, Hm0|].
  destruct (reap_one_done now 2 e2 p2) as (p3 & E3 & H3); [by rewrite H2, H1, Hm0|].
  exists p3. split; [|by rewrite H3, H2, H1, Hm0].
  unfold bind at 1. rewrite (bind_done _ _ _ _ _ (get_ins_done 0 p0 e0 ltac:(by rewrite Hm0))).
  rewrite (bind_done _ _ _ _ _ E1).
  rewrite (bind_done _ _ _ _ _ (get_ins_done 1 p1 e1 ltac:(by rewrite H1, Hm0))).
  rewrite (bind_done _ _ _ _ _ E2).
  rewrite (bind_done _ _ _ _ _ (get_ins_done 2 p2 e2 ltac:(by rewrite H2, H1, Hm0))).
  rewrite (bind_done _ _ _ _ _ E3). simpl.
  by destruct (fst (reap_entry now e0)), (fst (reap_entry now e1)), (fst (reap_entry now e2)).
Qed.

(** Passes of the reaper over entry [i] at the times [ts], with no
    heartbeat in between: is the INS declared dead in one of them? *)
Fixpoint reap_passes (i : nat) (ts : list Z) : pvm_m (S := S) (W := W) bool :=
  match ts with
  | [] => ret false
  | t :: rest =>
      let* dead := reap_one t i in
      let* later := reap_passes i rest in
      ret (dead || later)
  end.

(** The same on the entry alone. *)
Fixpoint reaped_after (ts : list Z) (e : mwcomms_ins_data S) : bool :=
  match ts with
  | [] => false
  | t :: rest => let (dead, e') := reap_entry t e in dead || reaped_after rest e'
  end.

Lemma reap_passes_done i ts e (p : pvm_state S W) :
  mx_ins (pv_g p) !! i = Some e ->
  exists p', reap_passes i ts p = Done (reaped_after ts e, p').
Proof.
  revert e p. induction ts as [|t ts IH]; intros e p He; cbn [reap_passes reaped_after]; [by exists p|].
  destruct (reap_one_done t i e p He) as (p1 & E1 & H1). rewrite (bind_done _ _ _ _ _ E1).
  destruct (IH (snd (reap_entry t e)) p1) as (p2 & E2).
  { rewrite H1. apply list_lookup_insert_eq. by eapply lookup_lt_Some. }
  rewrite (bind_done _ _ _ _ _ E2). exists p2. by destruct (reap_entry t e).
Qed.

Lemma silence_missed now v e : silence now (set_id_missed_heartbeats v e) = silence now e.
Proof. reflexivity. Qed.

(** A pass over an INS that has missed [m] heartbeats. *)
Lemma reap_entry_missed now e m :
  id_in_use e = 1 -> id_missed_heartbeats e = m -> 0 <= m < 2 ^ 31 - 1 ->
  reap_entry now e =
    if silence now e <=? m + 1 then (false, e)
    else if m + 1 =? 2 then (true, released (set_id_missed_heartbeats 2 e))
    else (false, set_id_missed_heartbeats (m + 1) e).
Proof.
  intros Hu Hm Hr. unfold reap_entry. rewrite Hu, Hm. change (1 =? 0) with false.
  rewrite (wrapu_small 64) by (unfold in_u; lia).
  rewrite (wraps_small 32) by (unfold in_s; lia).
  destruct (silence now e <=? m + 1); [done|]. cbn [id_missed_heartbeats set_id_missed_heartbeats].
  unfold HEARTBEAT_MAX_MISSES. destruct (Z.eqb_spec (m + 1) 2) as [->|]; done.
Qed.

Lemma reaped_after_one ts e :
  id_in_use e = 1 -> id_missed_heartbeats e = 1 ->
  reaped_after ts e = true <-> exists t, t ∈ ts /\ 2 < silence t e.
Proof.
  intros Hu Hm. induction ts as [|t ts IH]; cbn [reaped_after].
  - split; [done|]. by intros (t & Ht%elem_of_nil & _).
  - rewrite (reap_entry_missed t e 1 Hu Hm ltac:(lia)). change (1 + 1) with 2.
    destruct (Z.leb_spec (silence t e) 2) as [Hle|Hgt].
    + simpl. rewrite IH. split.
      * intros (t2 & Ht & Hs). exists t2. split; [by right|done].
      * intros (t2 & Ht & Hs). apply elem_of_cons in Ht as [->|Ht]; [lia|by exists t2].
    + change (2 =? 2) with true. simpl. split; [|done]. intros _. exists t. split; [by left|lia].
Qed.

Lemma reaped_after_timeline (ts : list Z) (e : mwcomms_ins_data S) :
  id_in_use e = 1 -> id_missed_heartbeats e = 0 ->
  reaped_after ts e = true
  <-> exists before t1 after t2, ts = before ++ t1 :: after /\ 1 < silence t1 e
        /\ t2 ∈ after /\ 2 < silence t2 e.
Proof.
  intros Hu Hm. induction ts as [|t ts IH]; cbn [reaped_after].
  - split; [done|]. intros (b & t1 & a & t2 & E & _). by apply app_cons_not_nil in E.
  - rewrite (reap_entry_missed t e 0 Hu Hm ltac:(lia)). change (0 + 1) with 1.
    change (1 =? 2) with false. destruct (Z.leb_spec (silence t e) 1) as [Hle|Hgt]; simpl.
    + rewrite IH. split.
      * intros (b & t1 & a & t2 & -> & H). by exists (t :: b), t1, a, t2.
      * intros ([|b0 b] & t1 & a & t2 & E & H1 & H2); injection E as -> ->; [lia|].
        by exists b, t1, a, t2.
    + rewrite reaped_after_one by done. split.
      * intros (t2 & Ht & Hs). exists [], t, ts, t2. split_and!; done.
      * intros ([|b0 b] & t1 & a & t2 & E & H1 & H2 & H3); injection E as -> ->;
          exists t2; (split; [|done]); [done|]. apply elem_of_app. right. by right.
Qed.

(** When an INS is declared dead: starting from a heartbeat, passes of
    the reaper at any times declare it dead exactly when one of them finds
    more than one second of silence and a later one more than two; an INS
    that is heard of again in time is never declared dead, whatever the
    number and the times of the passes. *)
Theorem reaper_timeline (i : nat) (ts : list Z) (p : pvm_state S W) (e : mwcomms_ins_data S) :
  mx_ins (pv_g p) !! i = Some e -> id_in_use e = 1 -> id_missed_heartbeats e = 0 ->
  exists dead p', reap_passes i ts p = Done (dead, p')
    /\ (dead = true <-> exists before t1 after t2, ts = before ++ t1 :: after
          /\ 1 < silence t1 e /\ t2 ∈ after /\ 2 < silence t2 e).
Proof.
  intros He Hu Hm. destruct (reap_passes_done i ts e p He) as (p' & E).
  exists (reaped_after ts e), p'. split; [exact E|]. by apply reaped_after_timeline.
Qed.

(** An entry whose count is past the limit is never declared dead. *)
Lemma never_reaped ts e m :
  id_in_use e = 1 -> id_missed_heartbeats e = m -> HEARTBEAT_MAX_MISSES <= m ->
  m + Z.of_nat (length ts) < 2 ^ 31 - 1 -> reaped_after ts e = false.
Proof.
  unfold HEARTBEAT_MAX_MISSES. revert e m.
  induction ts as [|t ts IH]; intros e m Hu Hm Hge Hlt; cbn [reaped_after]; [done|].
  simpl length in Hlt. rewrite (reap_entry_missed t e m Hu Hm ltac:(lia)).
  destruct (silence t e <=? m + 1); [apply (IH e m); auto; lia|].
  rewrite (proj2 (Z.eqb_neq (m + 1) 2)) by lia. apply (IH _ (m + 1)); [done|done|lia|lia].
Qed.

(** The first free entry is claimed. *)
Lemma claim_slot_first n j0 i d (p : pvm_state S W) e :
  mx_ins (pv_g p) !! i = Some e -> id_in_use e = 0 -> (j0 <= i < j0 + n)%nat ->
  (forall j e', (j < i)%nat -> mx_ins (pv_g p) !! j = Some e' -> id_in_use e' <> 0) ->
  claim_slot n j0 d p
  = Done (Some i, set_pv_g (set_mx_ins (<[i := set_id_domid d (set_id_in_use 1 e)]>
                   (mx_ins (pv_g p))) (pv_g p)) p).
Proof.
  intros He Hu Hj Hfirst. revert j0 Hj. induction n as [|n IH]; intros j0 Hj; [lia|].
  cbn [claim_slot]. destruct (decide (j0 = i)) as [->|Hne].
  - rewrite (bind_done _ _ _ _ _ (get_ins_done _ _ _ He)), Hu. change (0 =? 0) with true.
    cbn iota. by rewrite (bind_done _ _ _ _ _ (upd_ins_done _ _ _ _ He)).
  - pose proof (lookup_lt_Some _ _ _ He).
    destruct (lookup_lt_is_Some_2 (mx_ins (pv_g p)) j0 ltac:(lia)) as [e0 E0].
    rewrite (bind_done _ _ _ _ _ (get_ins_done _ _ _ E0)).
    rewrite (proj2 (Z.eqb_neq _ _)) by (apply (Hfirst j0); [lia|done]). apply IH. lia.
Qed.

Lemma read_from_key_done dir node (p : pvm_state S W) v :
  (forall w, p_ret (fst (pvm_os_call XsTransactionStart w)) = 0) ->
  (forall w, p_ret (fst (pvm_os_call (XsRead dir node) w)) = 0
             /\ p_text (fst (pvm_os_call (XsRead dir node) w)) = v) ->
  exists p', mw_xen_read_from_key dir node p = Done (Some v, p') /\ pv_g p' = pv_g p.
Proof.
  intros Hs Hr. unfold mw_xen_read_from_key.
  destruct (pcall_done XsTransactionStart p) as (p1 & E1 & H1). rewrite (bind_done _ _ _ _ _ E1), Hs.
  change (truth 0) with false. cbn iota.
  destruct (pcall_done (XsRead dir node) p1) as (p2 & E2 & H2).
  destruct (Hr (pv_world p1)) as [Hr1 Hr2]. rewrite (bind_done _ _ _ _ _ E2), Hr1, Hr2.
  change (truth 0) with false. cbn iota.
  destruct (pcall_done (XsTransactionEnd 0) p2) as (p3 & E3 & H3).
  rewrite (bind_done _ _ _ _ _ E3). exists p3. split; [done|congruence].
Qed.

(** A handshake that fails keeps its slot: when an INS appears and the
    ring for it cannot be allocated, the entry it claimed stays in use
    without a ring, and if an earlier INS of that entry died, the count
    of missed heartbeats it left is past the reaper's limit, so that no
    later pass ever frees the entry. *)
Theorem failed_handshake_leaks_slot (p : pvm_state S W) (path id : list Z) (i : nat)
    (e : mwcomms_ins_data S) :
  mx_ins (pv_g p) !! i = Some e -> (i < MAX_INS_COUNT)%nat ->
  id_in_use e = 0 -> id_is_ring_ready e = false -> id_missed_heartbeats e = HEARTBEAT_MAX_MISSES ->
  (forall j e', (j < i)%nat -> mx_ins (pv_g p) !! j = Some e' -> id_in_use e' <> 0) ->
  id <> KEY_RESET_VAL ->
  (forall w, p_ret (fst (pvm_os_call XsTransactionStart w)) = 0) ->
  (forall w, p_ret (fst (pvm_os_call (XsRead path XENEVENT_NO_NODE) w)) = 0
             /\ p_text (fst (pvm_os_call (XsRead path XENEVENT_NO_NODE) w)) = id) ->
  (forall w, p_ret (fst (pvm_os_call (GetFreePages XENEVENT_GRANT_REF_ORDER) w)) = 0) ->
  exists p' e', mw_xen_ins_found path p = Done (- ENOMEM, p')
    /\ mx_ins (pv_g p') !! i = Some e' /\ id_in_use e' = 1 /\ id_is_ring_ready e' = false
    /\ forall ts, Z.of_nat (length ts) < 2 ^ 31 - 4 ->
         exists p'', reap_passes i ts p' = Done (false, p'').
Proof.
  intros He Hi Hu Hr Hm Hfirst Hid Hs Hread Hmem. unfold mw_xen_ins_found.
  destruct (read_from_key_done path XENEVENT_NO_NODE p id Hs Hread) as (p1 & E1 & H1).
  rewrite (bind_done _ _ _ _ _ E1). rewrite bool_decide_false by done. cbn iota.
  rewrite <- H1 in He, Hfirst.
  rewrite (bind_done _ _ _ _ _ (claim_slot_first MAX_INS_COUNT 0 i (u16 (simple_strtol id)) p1 e
             He Hu ltac:(lia) Hfirst)). cbn iota.
  set (e1 := set_id_domid _ _). set (p2 := set_pv_g _ p1). unfold then_do at 1.
  assert (mx_ins (pv_g p2) !! i = Some e1) as He2.
  { simpl. rewrite list_lookup_insert_eq; [done|]. by eapply lookup_lt_Some. }
  destruct (pcall_done (GetFreePages XENEVENT_GRANT_REF_ORDER) p2) as (p3 & E3 & H3).
  assert (mx_ins (pv_g p3) !! i = Some e1) as He3 by by rewrite H3.
  unfold mw_xen_init_ring_block. unfold bind at 1.
  rewrite (bind_done _ _ _ _ _ E3), (bind_done _ _ _ _ _ (upd_ins_done _ _ _ _ He3)), Hmem.
  set (e2 := set_id_ring_pagect _ _). set (p4 := set_pv_g _ p3).
  assert (mx_ins (pv_g p4) !! i = Some e2) as He4
    by (simpl; apply list_lookup_insert_eq; by eapply lookup_lt_Some).
  exists p4, e2. split; [reflexivity|]. split; [exact He4|].
  split; [done|]. split; [exact Hr|]. intros ts Hts.
  destruct (reap_passes_done i ts e2 p4 He4) as (p5 & E5). exists p5. rewrite E5.
  rewrite (never_reaped ts e2 HEARTBEAT_MAX_MISSES); [done|done|exact Hm|done|].
  unfold HEARTBEAT_MAX_MISSES. lia.
Qed.

End Table.

(** ** Concrete tables *)

(** A table with a dead INS in entry 0, a silent one in entry 1 and a
    free entry 2, at time 2000 (a tick is 1/250 of a second). *)
Definition dead_ins : mwcomms_ins_data simple_ring :=
  set_id_domid DOMID_INVALID (set_id_missed_heartbeats 2 (ins_zero simple_ring_zero)).
Definition silent_ins : mwcomms_ins_data simple_ring :=
  set_id_domid 5 (set_id_in_use 1 (set_id_missed_heartbeats 1 (set_id_last_seen_time 1000
    (ins_zero simple_ring_zero)))).
Definition sample_table : pvm_state simple_ring Z :=
  set_pv_g (set_mx_ins [dead_ins; silent_ins; ins_zero simple_ring_zero]
    (globals_zero simple_ring_zero)) (pvm_boot simple_ring_zero 2000).

(** The INS of entry 1 has just been heard of. *)
Definition sample_beat : pvm_state simple_ring Z :=
  set_pv_g (set_mx_ins [dead_ins; set_id_missed_heartbeats 0 silent_ins; ins_zero simple_ring_zero]
    (globals_zero simple_ring_zero)) (pvm_boot simple_ring_zero 2000).

Lemma response_available_fair_witness :
  length (mx_ins (pv_g sample_table)) = MAX_INS_COUNT /\
  exists p', mw_xen_response_available sample_table = Done (None, p').
Proof.
  split; [reflexivity|].
  pose proof (response_available_fair sample_table eq_refl) as H.
  destruct (mw_xen_response_available sample_table) as [[[j|] p']| | |] eqn:E; [|by exists p'|done..].
  exfalso. vm_compute in E. discriminate.
Defined.

Lemma new_socket_sticks_witness :
  mw_xen_new_socket_rr sample_table = Done (DOMID_INVALID, sample_table) /\
  mw_xen_get_next_request_slot 3 true DOMID_INVALID sample_table
  = Done ((- ESTALE, None, None), sample_table).
Proof.
  destruct (new_socket_sticks sample_table dead_ins dead_ins ltac:(by vm_compute) eq_refl eq_refl eq_refl)
    as [H1 H2].
  split; [exact H1|]. by apply H2.
Defined.

Lemma reap_pass_witness :
  mx_ins (pv_g sample_table) = [dead_ins; silent_ins; ins_zero simple_ring_zero] /\
  exists p', mw_xen_reap_dead_ins sample_table = Done ((0, [5]), p')
    /\ map id_in_use (mx_ins (pv_g p')) = [0; 0; 0].
Proof.
  split; [reflexivity|].
  destruct (reap_pass sample_table dead_ins silent_ins (ins_zero simple_ring_zero) eq_refl)
    as (p' & E & H).
  exists p'. split; [exact E|]. rewrite H. by vm_compute.
Defined.

Lemma reaper_timeline_witness :
  exists p', reap_passes 1 [1100; 1600; 1700; 1800] sample_beat = Done (true, p').
Proof.
  destruct (reaper_timeline 1 [1100; 1600; 1700; 1800] sample_beat
    (set_id_missed_heartbeats 0 silent_ins) eq_refl eq_refl eq_refl) as (dead & p' & E & H).
  replace dead with true in E; [by exists p'|]. symmetry. apply H.
  exists [1100], 1600, [1700; 1800], 1800. split_and!; [done|by vm_compute| |by vm_compute].
  right. left.
Defined.

(** A protected VM that is out of memory. *)
Definition PoorPvm : PvmOS Z := {|
  pvm_os_call := fun c w => match c with
    | GetFreePages _ => ({| p_ret := 0; p_text := []; p_val := w |}, w)
    | _ => pvm_os_call c w
    end;
  kstrtoint := kstrtoint; simple_strtol := simple_strtol; HZ := HZ;
  DOMID_INVALID := DOMID_INVALID; EVTCHNSTAT_closed := EVTCHNSTAT_closed
|}.

Lemma failed_handshake_leaks_slot_witness :
  exists p' e', mw_xen_ins_found (OS := PoorPvm) (text "/mw/7/id") sample_table = Done (- ENOMEM, p')
    /\ mx_ins (pv_g p') !! 0%nat = Some e' /\ id_in_use e' = 1 /\ id_is_ring_ready e' = false
    /\ forall ts, Z.of_nat (length ts) < 2 ^ 31 - 4 ->
         exists p'', reap_passes (OS := PoorPvm) 0 ts p' = Done (false, p'').
Proof.
  apply (failed_handshake_leaks_slot (OS := PoorPvm) sample_table (text "/mw/7/id") (text "7") 0 dead_ins);
    try done.
  - unfold MAX_INS_COUNT. lia.
  - intros j e' Hj. lia.
Defined.
