(* ===== verification/DeviceFacts.v ===== *)
(** * DeviceFacts: the device of an INS and its heartbeat

    The heartbeat on its way from the driver of the INS to the table of
    the protected VM, and two error paths of the device. *)

From Stdlib Require Import String.
From stdpp Require Import base numbers list.
From Stdlib Require Import ZArith Lia.
From S2P Require Import Prelude Text MessageTypes MwErrno XenRing InsDriver PvmXen InsTable.

#[local] Open Scope string_scope.
#[local] Open Scope list_scope.
#[local] Open Scope Z_scope.
#[local] Arguments Z.eqb : simpl never.
#[local] Arguments Z.ltb : simpl never.
#[local] Arguments Z.leb : simpl never.
#[local] Arguments digits_fuel : simpl never.
#[local] Arguments dec_text : simpl never.

(** ** Paths *)

Lemma is_prefix_refl s : is_prefix s s = true.
Proof. induction s as [|c s IH]; [done|]. simpl. by rewrite Z.eqb_refl. Qed.

Lemma contains_suffix a s : contains (a ++ s) s = true.
Proof.
  induction a as [|c a IH]; simpl.
  - destruct s as [|c s]; [done|]. cbn [contains]. by rewrite is_prefix_refl.
  - rewrite IH. apply orb_true_r.
Qed.

(** A text whose first character does not occur in [a] is not found there. *)
Lemma contains_skip a s c p :
  Forall (fun x => x <> c) a -> contains (a ++ s) (c :: p) = contains s (c :: p).
Proof.
  induction 1 as [|x a Hx HF IH]; [done|]. cbn [app contains is_prefix].
  rewrite (proj2 (Z.eqb_neq c x)) by auto. exact IH.
Qed.

(** The directory of a domain, without truncation. *)
Definition dir_prefix (d : Z) : list Z := XENEVENT_XENSTORE_ROOT ++ [47] ++ dec_text d ++ [47].

Lemma length_dec_text d : in_u 16 d -> (length (dec_text d) <= 5)%nat.
Proof.
  intros Hd. unfold in_u in Hd. apply length_digits; [lia| |lia].
  change (10 ^ Z.of_nat 5) with 100000. lia.
Qed.

Lemma length_dir_prefix d : in_u 16 d -> (length (dir_prefix d) <= 10)%nat.
Proof.
  intros Hd. pose proof (length_dec_text d Hd). unfold dir_prefix.
  rewrite !length_app. change (length XENEVENT_XENSTORE_ROOT) with 3%nat. cbn [length]. lia.
Qed.

Lemma domain_key_path d key :
  in_u 16 d -> (length key <= 20)%nat -> domain_key d key = dir_prefix d ++ key.
Proof.
  intros Hd Hk. pose proof (length_dir_prefix d Hd) as Hl.
  unfold domain_key, domain_dir, snprintf, XENEVENT_PATH_STR_LEN, int_text.
  rewrite (proj2 (Z.ltb_ge _ _)) by (unfold in_u in Hd; lia).
  change (Z.to_nat (32 - 1)) with 31%nat.
  replace ((XENEVENT_XENSTORE_ROOT ++ [47] ++ dec_text d) ++ [47] ++ key) with (dir_prefix d ++ key)
    by (unfold dir_prefix; by rewrite <- !app_assoc).
  rewrite take_ge; [done|]. rewrite length_app. lia.
Qed.

(** The characters of the directory are digits, slashes and "mw". *)
Lemma dir_prefix_chars d c :
  c <> 47 -> c <> 109 -> c <> 119 -> ~ (48 <= c <= 57 \/ 97 <= c <= 102) ->
  Forall (fun x => x <> c) (dir_prefix d).
Proof.
  intros H1 H2 H3 H4. unfold dir_prefix. rewrite !Forall_app. split_and!.
  - change XENEVENT_XENSTORE_ROOT with [47; 109; 119].
    apply Forall_cons. split; [auto|]. apply Forall_cons. split; [auto|].
    apply Forall_cons. split; [auto|apply Forall_nil_2].
  - apply Forall_cons. split; [auto|apply Forall_nil_2].
  - unfold dec_text. eapply Forall_impl; [apply (digits_are_digits 10 20 d); lia|].
    intros x Hx%is_digit_range ->. auto.
  - apply Forall_cons. split; [auto|apply Forall_nil_2].
Qed.

Lemma upto_slash_digits d rest : upto_slash (dec_text d ++ 47 :: rest) = dec_text d.
Proof.
  pose proof (digits_are_digits 10 20 d ltac:(lia)) as HF. fold (dec_text d) in HF.
  induction HF as [|c ds Hc HF IH]; [done|]. simpl. apply is_digit_range in Hc.
  rewrite (proj2 (Z.eqb_neq c 47)) by lia. by rewrite IH.
Qed.

(** ** The heartbeat *)

Section InsHeartbeat.

Context {S W : Type} {R : XenRing S} {OS : XenOS W}.

(** A XenStore that works. *)
Record xenstore_works : Prop := {
  xw_start : forall w, x_ret (fst (xen_os_call XbTransactionStart w)) = 0;
  xw_write : forall k v w, x_ret (fst (xen_os_call (XbWrite k v) w)) = 0
}.

Definition xb_writes (tr : list xe_call) : list (list Z * list Z) :=
  omap (fun c => match c with XbWrite k v => Some (k, v) | _ => None end) tr.

Lemma write_str_done (Ok : xenstore_works) k v (x : xe_state S W) :
  exists x', xe_comms_write_str_to_key k v x = Done (0, x')
    /\ xs_comm x' = xs_comm x /\ xs_static x' = xs_static x
    /\ xb_writes (xs_trace x') = xb_writes (xs_trace x) ++ [(k, v)].
Proof.
  unfold xe_comms_write_str_to_key, in_transaction, xcall.
  unfold bind. pose proof (xw_start Ok (xs_world x)) as Hs.
  destruct (xen_os_call XbTransactionStart (xs_world x)) as [r1 w1]. simpl in *. rewrite Hs.
  change (truth 0) with false. cbn iota. simpl.
  pose proof (xw_write Ok k v w1) as Hw. destruct (xen_os_call (XbWrite k v) w1) as [r2 w2].
  simpl in *. destruct (xen_os_call (XbTransactionEnd 0) w2) as [r3 w3]. simpl. rewrite Hw.
  change (truth 0) with false. cbn iota. simpl.
  eexists. split; [reflexivity|]. split; [done|]. split; [done|]. simpl. unfold xb_writes.
  rewrite !omap_app. simpl. by rewrite !app_nil_r.
Qed.

(** The static paths are those of the domain, once they were needed. *)
Definition heartbeat_paths_set (x : xe_state S W) : Prop :=
  let id := cs_local_id (xs_comm x) in
  sv_heartbeat (xs_static x) <> 0 ->
  sv_heartbeat_path (xs_static x) = domain_key id INS_HEARTBEAT_KEY
  /\ sv_stats_path (xs_static x) = domain_key id INS_NETWORK_STATS_KEY.

Lemma heartbeat_done (Ok : xenstore_works) stats (x : xe_state S W) :
  heartbeat_paths_set x -> 0 <= sv_heartbeat (xs_static x) < 2 ^ 31 - 1 ->
  let id := cs_local_id (xs_comm x) in
  let n := sv_heartbeat (xs_static x) in
  exists x', xe_comms_heartbeat stats x = Done (0, x')
    /\ sv_heartbeat (xs_static x') = n + 1 /\ cs_local_id (xs_comm x') = id
    /\ heartbeat_paths_set x'
    /\ xb_writes (xs_trace x') = xb_writes (xs_trace x)
         ++ [(domain_key id INS_HEARTBEAT_KEY, dec_text n); (domain_key id INS_NETWORK_STATS_KEY, stats)].
Proof.
  intros Hp Hn id n. unfold xe_comms_heartbeat, get_static, get_comm.
  rewrite !(bind_done _ _ _ _ _ eq_refl). fold id n.
  set (x1 := if 0 =? n then set_xs_static (set_sv_heartbeat_path (domain_key id INS_HEARTBEAT_KEY)
    (set_sv_stats_path (domain_key id INS_NETWORK_STATS_KEY) (xs_static x))) x else x).
  assert ((when (0 =? n) (upd_static (fun s => set_sv_heartbeat_path (domain_key id INS_HEARTBEAT_KEY)
    (set_sv_stats_path (domain_key id INS_NETWORK_STATS_KEY) s)))) x = Done (tt, x1)) as E1
    by (unfold x1; by destruct (0 =? n)).
  rewrite (bind_done _ _ _ _ _ E1), (bind_done _ _ _ _ _ eq_refl).
  assert (sv_heartbeat_path (xs_static x1) = domain_key id INS_HEARTBEAT_KEY
    /\ sv_stats_path (xs_static x1) = domain_key id INS_NETWORK_STATS_KEY
    /\ sv_heartbeat (xs_static x1) = n /\ cs_local_id (xs_comm x1) = id
    /\ xs_trace x1 = xs_trace x) as (Hp1 & Hp2 & Hh & Hc & Ht).
  { unfold x1. destruct (Z.eqb_spec 0 n) as [|Hne]; [done|].
    destruct (Hp ltac:(unfold n in Hne; lia)) as [? ?]. by split_and!. }
  rewrite Hp1, Hh. unfold xe_comms_write_int_to_key.
  assert (snprintf MAX_KEY_VAL_WIDTH (dec_text (u32 n)) = dec_text n) as ->.
  { rewrite (wrapu_small 32 n) by (unfold in_u; lia). unfold snprintf.
    apply take_ge. change (Z.to_nat (MAX_KEY_VAL_WIDTH - 1)) with 31%nat.
    pose proof (length_digits 10 20 20 n ltac:(lia)) as H. fold (dec_text n) in H.
    enough (length (dec_text n) <= 20)%nat by lia. apply H; [|lia].
    split; [lia|]. transitivity (2 ^ 31 - 1); [lia|by vm_compute]. }
  destruct (write_str_done Ok (domain_key id INS_HEARTBEAT_KEY) (dec_text n) x1)
    as (x2 & E2 & C2 & S2 & T2).
  rewrite (bind_done _ _ _ _ _ E2). change (truth 0) with false. cbn iota.
  unfold upd_static. rewrite (bind_done _ _ _ _ _ eq_refl), Hp2.
  set (x3 := set_xs_static _ x2).
  destruct (write_str_done Ok (domain_key id INS_NETWORK_STATS_KEY) stats x3)
    as (x4 & E4 & C4 & S4 & T4).
  exists x4. split; [exact E4|]. rewrite S4, C4. simpl. rewrite S2, C2, Hh, Hc.
  rewrite (wraps_small 32 (n + 1)) by (unfold in_s; lia).
  split; [done|]. split; [done|]. split.
  - intros _. rewrite S4, C4. simpl. by rewrite S2, C2, Hc, Hp1, Hp2.
  - rewrite T4. simpl. rewrite T2, Ht. by rewrite <- app_assoc.
Qed.

End InsHeartbeat.

Section PvmHeartbeat.

Context {S1 W1 : Type} {R1 : XenRing S1} {OS1 : PvmOS W1} {Laws1 : PvmOSLaws W1}.

Lemma find_domid_entry n j0 i d (p : pvm_state S1 W1) e :
  mx_ins (pv_g p) !! i = Some e -> id_domid e = d -> (j0 <= i < j0 + n)%nat ->
  (forall j e', (j < i)%nat -> mx_ins (pv_g p) !! j = Some e' -> id_domid e' <> d) ->
  find_domid n j0 d p = Done (Some i, p).
Proof.
  intros He Hd Hj Hfirst. revert j0 Hj. induction n as [|n IH]; intros j0 Hj; [lia|].
  cbn [find_domid]. destruct (decide (j0 = i)) as [->|Hne].
  - by rewrite (bind_done _ _ _ _ _ (get_ins_done _ _ _ He)), Hd, Z.eqb_refl.
  - pose proof (lookup_lt_Some _ _ _ He).
    destruct (lookup_lt_is_Some_2 (mx_ins (pv_g p)) j0 ltac:(lia)) as [e0 E0].
    rewrite (bind_done _ _ _ _ _ (get_ins_done _ _ _ E0)).
    rewrite (proj2 (Z.eqb_neq _ _)) by (apply (Hfirst j0); [lia|done]). apply IH. lia.
Qed.

(** The entry of a path that an INS wrote. *)
Lemma path_entry d key i (p : pvm_state S1 W1) e :
  in_u 16 d -> (length key <= 20)%nat ->
  (forall n w, p_ret (fst (pvm_os_call (Kmalloc n) w)) <> 0) ->
  mx_ins (pv_g p) !! i = Some e -> id_domid e = d -> (i < MAX_INS_COUNT)%nat ->
  (forall j e', (j < i)%nat -> mx_ins (pv_g p) !! j = Some e' -> id_domid e' <> d) ->
  exists p', mw_xen_get_ins_from_xs_path (domain_key d key) p = Done ((0, Some i), p')
    /\ pv_g p' = pv_g p.
Proof.
  intros Hd Hk Hmem He Hdom Hi Hfirst. unfold mw_xen_get_ins_from_xs_path.
  rewrite (domain_key_path d key Hd Hk). pose proof (length_dir_prefix d Hd) as Hl.
  destruct (pcall_done (Kmalloc XENEVENT_PATH_STR_LEN) p) as (p1 & E1 & H1).
  rewrite (bind_done _ _ _ _ _ E1). rewrite (proj2 (Z.eqb_neq _ 0)) by apply Hmem.
  rewrite (proj2 (Z.leb_gt _ _)) by (unfold XENEVENT_PATH_STR_LEN; rewrite length_app; lia).
  assert (upto_slash (drop (length XENEVENT_XENSTORE_ROOT + 1) (dir_prefix d ++ key)) = dec_text d)
    as ->.
  { unfold dir_prefix. change (length XENEVENT_XENSTORE_ROOT + 1)%nat with 4%nat.
    change XENEVENT_XENSTORE_ROOT with [47; 109; 119]. cbn [app drop]. rewrite <- app_assoc. cbn [app].
    apply upto_slash_digits. }
  rewrite law_kstrtoint by (unfold in_u in *; lia). change (truth 0) with false. cbn iota.
  rewrite <- H1 in He, Hfirst. unfold bind at 1.
  rewrite (bind_done _ _ _ _ _ (find_domid_entry MAX_INS_COUNT 0 i d p1 e He Hdom ltac:(lia) Hfirst)).
  simpl obind. destruct (pcall_done Kfree p1) as (p2 & E2 & H2).
  rewrite (bind_done _ _ _ _ _ E2). exists p2. split; [done|congruence].
Qed.

(** The watch recognises the key of a heartbeat, and only that one. *)
Lemma heartbeat_key_recognised d :
  in_u 16 d ->
  let path := domain_key d INS_HEARTBEAT_KEY in
  contains path INS_ID_KEY = false /\ contains path VM_EVT_CHN_BOUND_KEY = false
  /\ contains path INS_HEARTBEAT_KEY = true.
Proof.
  intros Hd path. unfold path. rewrite domain_key_path by (done || (vm_compute; lia)).
  split; [|split; [|apply contains_suffix]].
  - change INS_ID_KEY with (105 :: tail INS_ID_KEY).
    rewrite contains_skip; [by vm_compute|]. apply dir_prefix_chars; lia.
  - change VM_EVT_CHN_BOUND_KEY with (118 :: tail VM_EVT_CHN_BOUND_KEY).
    rewrite contains_skip; [by vm_compute|]. apply dir_prefix_chars; lia.
Qed.

End PvmHeartbeat.

Section Heartbeat.

Context {S1 W1 : Type} {R1 : XenRing S1} {OS1 : PvmOS W1} {Laws1 : PvmOSLaws W1}.
Context {S2 W2 : Type} {R2 : XenRing S2} {OS2 : XenOS W2}.

(** A heartbeat reaches the table: the n-th heartbeat of an INS writes
    the number n and the statistics under the keys of its domain, and the
    protected VM, told that the first of these keys changed, finds the
    entry of that domain, sets its count of missed heartbeats to 0 and
    the time it was last seen to now, and changes no other entry. *)
Theorem heartbeat_keeps_alive (x : xe_state S2 W2) (stats : list Z) (p : pvm_state S1 W1) (i : nat)
    (e : mwcomms_ins_data S1) :
  let d := cs_local_id (xs_comm x) in
  let n := sv_heartbeat (xs_static x) in
  xenstore_works (W := W2) -> heartbeat_paths_set x -> 0 <= n < 2 ^ 31 - 1 -> in_u 16 d ->
  (forall n w, p_ret (fst (pvm_os_call (W := W1) (Kmalloc n) w)) <> 0) ->
  mx_ins (pv_g p) !! i = Some e -> (i < MAX_INS_COUNT)%nat -> id_domid e = d -> id_in_use e = 1 ->
  (forall j e', (j < i)%nat -> mx_ins (pv_g p) !! j = Some e' -> id_domid e' <> d) ->
  exists x' path, xe_comms_heartbeat stats x = Done (0, x')
    /\ xb_writes (xs_trace x') = xb_writes (xs_trace x)
         ++ [(path, dec_text n); (domain_key d INS_NETWORK_STATS_KEY, stats)]
    /\ sv_heartbeat (xs_static x') = n + 1
    /\ exists p' now, mw_xen_xenstore_state_changed path p = Done (tt, p')
      /\ (exists w, now = p_val (fst (pvm_os_call Jiffies w)))
      /\ mx_ins (pv_g p') = <[i := set_id_missed_heartbeats 0 (set_id_last_seen_time now e)]>
                              (mx_ins (pv_g p)).
Proof.
  intros d n Hok Hpaths Hn Hd Hmem He Hi Hdom Hu Hfirst.
  destruct (heartbeat_done Hok stats x Hpaths Hn) as (x' & Ex & Hh & _ & _ & Hw).
  exists x', (domain_key d INS_HEARTBEAT_KEY). split; [exact Ex|]. split; [exact Hw|].
  split; [exact Hh|].
  destruct (heartbeat_key_recognised d Hd) as (C1 & C2 & C3).
  unfold mw_xen_xenstore_state_changed. rewrite C1, C2, C3. unfold mw_xen_ins_heartbeat.
  destruct (path_entry d INS_HEARTBEAT_KEY i p e Hd ltac:(vm_compute; lia) Hmem He Hdom Hi Hfirst)
    as (p1 & E1 & H1).
  unfold bind at 1. rewrite (bind_done _ _ _ _ _ E1). cbn iota.
  assert (mx_ins (pv_g p1) !! i = Some e) as He1 by by rewrite H1.
  rewrite (bind_done _ _ _ _ _ (get_ins_done _ _ _ He1)), Hu. change (1 =? 1) with true. cbn [negb].
  unfold mw_xen_ins_alive. unfold bind at 1.
  destruct (pcall_done Jiffies p1) as (p2 & E2 & H2). rewrite (bind_done _ _ _ _ _ E2).
  assert (mx_ins (pv_g p2) !! i = Some e) as He2 by by rewrite H2.
  rewrite (upd_ins_done _ _ _ _ He2). eexists _, _. split; [reflexivity|].
  split; [by eexists|]. simpl. by rewrite H2, H1.
Qed.

End Heartbeat.

(** ** Error paths of the device *)

Section Device.

Context {S W : Type} {R : XenRing S} {OS : XenOS W}.

(** A domain id that cannot be read is reported as domain 1: when the
    XenStore refuses the transaction, the ioctl that asks for the domain
    id succeeds and gives the error code of the read, 1, as the id. *)
Theorem failed_domid_is_domain_one (x : xe_state S W) :
  x_ret (fst (xen_os_call XbTransactionStart (xs_world x))) <> 0 ->
  exists x', xe_dev_ioctl INS_DOMID_IOCTL x = Done ((0, DataDomid 1), x').
Proof.
  intros Hs. unfold xe_dev_ioctl, xe_comms_get_domid, xe_comms_read_int_from_key,
    xe_comms_read_str_from_key, in_transaction, xcall, bind.
  destruct (xen_os_call XbTransactionStart (xs_world x)) as [r w]. simpl in *.
  unfold truth at 1. rewrite (proj2 (Z.eqb_neq _ _) Hs). simpl. by eexists.
Qed.

(** A refused second open keeps the device from ever being closed: it
    counts as an open although it fails with EBUSY, so that the close of
    the only open handle neither destroys the locks nor unregisters from
    the hypervisor, and calls nothing. *)
Theorem second_open_prevents_close (x : xe_state S W) (fuel : nat) :
  ds_open_count (xs_dev x) = 1 ->
  exists x1 x2, xe_dev_open fuel x = Done (EBUSY, x1) /\ xe_dev_close x1 = Done (0, x2)
    /\ ds_open_count (xs_dev x2) = 1 /\ ds_read_lock (xs_dev x2) = ds_read_lock (xs_dev x)
    /\ xs_comm x2 = xs_comm x /\ xs_trace x2 = xs_trace x.
Proof.
  intros Hc. unfold xe_dev_open, xenevent_atomic_inc_open_count, get_dev, upd_dev.
  unfold bind at 1. rewrite (bind_done _ _ _ _ _ eq_refl), Hc. eexists _, _. split; [reflexivity|].
  unfold xe_dev_close, xenevent_atomic_dec_open_count, get_dev, upd_dev.
  unfold bind at 1. rewrite (bind_done _ _ _ _ _ eq_refl). simpl. by split_and!.
Qed.

End Device.

(** ** Concrete runs *)

(** An INS with domain id 5 and its heartbeat number 3. *)
Definition beating_ins : xe_state simple_ring (list (list Z * list Z)) :=
  let s := xe_boot simple_ring_zero [] in
  set_xs_static (set_sv_heartbeat 3 (set_sv_heartbeat_path (domain_key 5 INS_HEARTBEAT_KEY)
      (set_sv_stats_path (domain_key 5 INS_NETWORK_STATS_KEY) (xs_static s))))
    (set_xs_comm (set_cs_local_id 5 (xs_comm s)) s).

Lemma heartbeat_keeps_alive_witness :
  exists x' path, xe_comms_heartbeat (text "10:0:7") beating_ins = Done (0, x')
    /\ xb_writes (xs_trace x') = [(path, dec_text 3); (text "/mw/5/network_stats", text "10:0:7")]
    /\ exists p', mw_xen_xenstore_state_changed path sample_table = Done (tt, p')
      /\ map id_missed_heartbeats (mx_ins (pv_g p')) = [2; 0; 0].
Proof.
  destruct (heartbeat_keeps_alive beating_ins (text "10:0:7") sample_table 1 silent_ins)
    as (x' & path & E & Hw & _ & p' & now & Ep & _ & Hm).
  - by split.
  - by intros _.
  - by vm_compute.
  - by vm_compute.
  - done.
  - reflexivity.
  - unfold MAX_INS_COUNT. lia.
  - reflexivity.
  - reflexivity.
  - intros [|j] e' Hj He'; [|lia]. injection He' as <-. by vm_compute.
  - exists x', path. split; [exact E|]. split; [exact Hw|]. exists p'. split; [exact Ep|].
    rewrite Hm. reflexivity.
Defined.

(** A XenStore that refuses transactions. *)
Definition BrokenXen : XenOS unit := fun _ w =>
  ({| x_ret := 11; x_text := []; x_val := 0; x_ifaces := [] |}, w).

Lemma failed_domid_is_domain_one_witness :
  exists x', xe_dev_ioctl (OS := BrokenXen) INS_DOMID_IOCTL (xe_boot simple_ring_zero tt)
             = Done ((0, DataDomid 1), x').
Proof. by apply (failed_domid_is_domain_one (OS := BrokenXen)). Defined.

Lemma second_open_prevents_close_witness :
  exists x0 x1 x2, upd_dev (set_ds_open_count 1) beating_ins = Done (tt, x0)
    /\ xe_dev_open 3 x0 = Done (EBUSY, x1) /\ xe_dev_close x1 = Done (0, x2)
    /\ ds_open_count (xs_dev x2) = 1.
Proof.
  eexists. destruct (second_open_prevents_close
    (set_xs_dev (set_ds_open_count 1 (xs_dev beating_ins)) beating_ins) 3 eq_refl)
    as (x1 & x2 & H1 & H2 & H3 & _).
  exists x1, x2. split; [reflexivity|]. by split_and!.
Defined.
