(* ===== verification/Threads.v ===== *)
(** * Threads: programs that wait, and their interleavings

    A function that waits is a program ([prog]): a sequence of steps of
    the state monad. A step that cannot go on ([Block]) is not taken; the
    other threads run until it can. What a thread does between two waits
    is one step. *)

From stdpp Require Import base numbers list relations.
From Stdlib Require Import ZArith Lia.
From S2P Require Import Prelude.

Inductive prog (S A : Type) : Type :=
| PRet (a : A)
| PStep {X : Type} (m : M S X) (k : X -> prog S A).
Arguments PRet {S A} a.
Arguments PStep {S A X} m k.

Fixpoint pbind {S A B} (p : prog S A) (f : A -> prog S B) : prog S B :=
  match p with
  | PRet a => f a
  | PStep m k => PStep m (fun x => pbind (k x) f)
  end.

Definition lift {S A} (m : M S A) : prog S A := PStep m PRet.

Notation "'let!' x ':=' p 'in' k" := (pbind p (fun x => k))
  (at level 10, x pattern, p at level 100, k at level 200) : c_scope.
Notation "p ';!;' k" := (pbind p (fun _ => k))
  (at level 199, right associativity) : c_scope.

Definition pwhen {S} (b : bool) (p : prog S unit) : prog S unit := if b then p else PRet tt.

(** A program on its own, without interference: a step that would wait
    stops it. *)
Fixpoint alone {S A} (p : prog S A) : M S A :=
  match p with
  | PRet a => ret a
  | PStep m k => bind m (fun x => alone (k x))
  end.

Lemma alone_pbind {S A B} (p : prog S A) (f : A -> prog S B) s :
  alone (pbind p f) s = bind (alone p) (fun a => alone (f a)) s.
Proof.
  revert s. induction p as [a|X m k IH]; intros s; [done|]. cbn [pbind alone].
  unfold bind at 1 2 3. destruct (m s) as [[x s1]| | |]; cbn [obind]; [|done..]. apply IH.
Qed.

Lemma alone_run {S A B} (p : prog S A) (f : A -> prog S B) s a s' :
  alone p s = Done (a, s') -> alone (pbind p f) s = alone (f a) s'.
Proof. intros E. rewrite alone_pbind. by rewrite (bind_done _ _ _ _ _ E). Qed.

Lemma alone_lift {S A} (m : M S A) s : alone (lift m) s = m s.
Proof. simpl. unfold bind. by destruct (m s) as [[a s1]| | |]. Qed.

(** ** Interleaving *)

(** The threads' remaining programs and the state they share. *)
Record pool (S A : Type) := { po_threads : list (prog S A); po_state : S }.
Arguments po_threads {S A}.
Arguments po_state {S A}.

(** Any thread takes its next step, or the world outside changes the
    state ([env]). *)
Inductive pool_step {S A} (env : S -> S -> Prop) : pool S A -> pool S A -> Prop :=
| ps_thread ts i X (m : M S X) k s x s' :
    ts !! i = Some (PStep m k) -> m s = Done (x, s') ->
    pool_step env {| po_threads := ts; po_state := s |}
                  {| po_threads := <[i := k x]> ts; po_state := s' |}
| ps_env ts s s' :
    env s s' ->
    pool_step env {| po_threads := ts; po_state := s |} {| po_threads := ts; po_state := s' |}.

(** One schedule as a list of thread numbers; for concrete runs. *)
Fixpoint run_schedule {S A} (sched : list nat) (ts : list (prog S A)) (s : S)
    : outcome (list (prog S A) * S) :=
  match sched with
  | [] => Done (ts, s)
  | i :: rest =>
      match ts !! i with
      | Some (PStep m k) =>
          obind (m s) (fun '(x, s') => run_schedule rest (<[i := k x]> ts) s')
      | _ => Undef
      end
  end.

(** Such a run is one of the pool. *)
Lemma run_schedule_pool {S A} env sched (ts ts' : list (prog S A)) s s' :
  run_schedule sched ts s = Done (ts', s') ->
  rtc (pool_step env) {| po_threads := ts; po_state := s |} {| po_threads := ts'; po_state := s' |}.
Proof.
  revert ts s. induction sched as [|i sched IH]; intros ts s E; simpl in E.
  - injection E as <- <-. apply rtc_refl.
  - destruct (ts !! i) as [[a|X m k]|] eqn:Hi; try discriminate.
    unfold obind in E. destruct (m s) as [[x s1]| | |] eqn:Hm; try discriminate.
    eapply rtc_l; [by eapply ps_thread|]. by apply IH.
Qed.

(** ** Invariants of the shared state *)

(** A step keeps [I] if it is taken. *)
Definition keeps {S X} (I : S -> Prop) (m : M S X) : Prop :=
  forall s x s', I s -> m s = Done (x, s') -> I s'.

(** Every step of the program, whatever the others did in between. *)
Fixpoint prog_keeps {S A} (I : S -> Prop) (p : prog S A) : Prop :=
  match p with
  | PRet _ => True
  | PStep m k => keeps I m /\ forall x, prog_keeps I (k x)
  end.

Lemma m_keeps_ret {S X} (I : S -> Prop) (x : X) : keeps I (ret x).
Proof. intros s y s' Hs [= <- <-]. exact Hs. Qed.

Lemma m_keeps_bind {S X Y} (I : S -> Prop) (m : M S X) (k : X -> M S Y) :
  keeps I m -> (forall x, keeps I (k x)) -> keeps I (bind m k).
Proof.
  intros Hm Hk s y s' Hs (x & s1 & E1 & E2)%bind_inv.
  exact (Hk x s1 y s' (Hm s x s1 Hs E1) E2).
Qed.

Lemma m_keeps_gets {S X} (I : S -> Prop) (f : S -> X) : keeps I (gets f).
Proof. intros s y s' Hs [= <- <-]. exact Hs. Qed.

Lemma m_keeps_modify {S} (I : S -> Prop) (f : S -> S) :
  (forall s, I s -> I (f s)) -> keeps I (modify f).
Proof. intros H s y s' Hs [= <- <-]. auto. Qed.

Lemma keeps_undef {S X} (I : S -> Prop) : keeps I (undef : M S X).
Proof. intros s x s' _ H. discriminate. Qed.
Lemma m_keeps_block {S X} (I : S -> Prop) : keeps I (block : M S X).
Proof. intros s x s' _ H. discriminate. Qed.
Lemma m_keeps_fuel {S X} (I : S -> Prop) : keeps I (out_of_fuel : M S X).
Proof. intros s x s' _ H. discriminate. Qed.

Lemma m_keeps_when {S} (I : S -> Prop) b (m : M S unit) : keeps I m -> keeps I (when b m).
Proof. intros H. destruct b; [done|apply m_keeps_ret]. Qed.

Lemma prog_keeps_bind {S A B} (I : S -> Prop) (p : prog S A) (f : A -> prog S B) :
  prog_keeps I p -> (forall a, prog_keeps I (f a)) -> prog_keeps I (pbind p f).
Proof.
  intros Hp Hf. induction p as [a|X m k IH]; [apply Hf|]. destruct Hp as [Hm Hk].
  split; [done|]. intros x. apply IH, Hk.
Qed.

Lemma prog_keeps_lift {S A} (I : S -> Prop) (m : M S A) : keeps I m -> prog_keeps I (lift m).
Proof. intros H. by split. Qed.

Lemma prog_keeps_when {S} (I : S -> Prop) b (p : prog S unit) :
  prog_keeps I p -> prog_keeps I (pwhen b p).
Proof. by destruct b. Qed.

(** An invariant that every thread's steps and the outside keep holds in
    every state the pool reaches. *)
Lemma pool_invariant {S A} env (I : S -> Prop) (c c' : pool S A) :
  (forall s s', I s -> env s s' -> I s') ->
  Forall (prog_keeps I) (po_threads c) -> I (po_state c) ->
  rtc (pool_step env) c c' ->
  Forall (prog_keeps I) (po_threads c') /\ I (po_state c').
Proof.
  intros Henv Hts Hs Hrun. induction Hrun as [c|c c1 c2 Hstep Hrun IH]; [done|].
  apply IH; destruct Hstep as [ts i X m k s x s' Hi E|ts s s' Hee]; simpl in *; eauto.
  - apply Forall_insert; [done|]. apply (Forall_lookup_1 _ _ _ _ Hts Hi).
  - destruct (Forall_lookup_1 _ _ _ _ Hts Hi) as [Hm _]. eapply Hm; eauto.
Qed.

(** A program alone keeps the invariant, too. *)
Lemma alone_keeps {S A} (I : S -> Prop) (p : prog S A) : prog_keeps I p -> keeps I (alone p).
Proof.
  induction p as [a|X m k IH]; intros Hp; [apply m_keeps_ret|]. destruct Hp as [Hm Hk].
  apply m_keeps_bind; [done|]. intros x. apply IH, Hk.
Qed.

Create HintDb keeps discriminated.
#[export] Hint Resolve m_keeps_ret m_keeps_gets keeps_undef m_keeps_block m_keeps_fuel : keeps.

(** Walks through a function: one goal per primitive step is left. *)
Ltac keeps_step :=
  lazymatch goal with
  | |- keeps _ (bind _ _) => apply m_keeps_bind; [|intros ?]
  | |- keeps _ (when _ _) => apply m_keeps_when
  | |- keeps _ (match ?x with _ => _ end) => destruct x
  | |- keeps _ (let (_, _) := ?x in _) => destruct x
  | |- keeps _ _ => solve [eauto with keeps]
  | |- prog_keeps _ (pbind _ _) => apply prog_keeps_bind; [|intros ?]
  | |- prog_keeps _ (pwhen _ _) => apply prog_keeps_when
  | |- prog_keeps _ (PRet _) => exact I
  | |- prog_keeps _ (lift _) => apply prog_keeps_lift
  | |- prog_keeps _ (match ?x with _ => _ end) => destruct x
  | |- prog_keeps _ _ => solve [eauto with keeps]
  | |- forall _, _ => intros ?
  end.
Ltac keeps_solve := repeat keeps_step.

(** ** Runs that surely end

    [sure I m Q]: from every state with [I], [m] returns, in a state with
    [I] again, with a result that satisfies [Q]. *)

Definition sure {S X} (I : S -> Prop) (m : M S X) (Q : X -> Prop) : Prop :=
  forall s, I s -> exists x s', m s = Done (x, s') /\ I s' /\ Q x.

Lemma sure_ret {S X} (I : S -> Prop) (x : X) (Q : X -> Prop) : Q x -> sure I (ret x) Q.
Proof. intros HQ s Hs. by exists x, s. Qed.

Lemma sure_bind {S X Y} (I : S -> Prop) (m : M S X) (k : X -> M S Y) P Q :
  sure I m P -> (forall x, P x -> sure I (k x) Q) -> sure I (bind m k) Q.
Proof.
  intros Hm Hk s Hs. destruct (Hm s Hs) as (x & s1 & E & H1 & Hx).
  destruct (Hk x Hx s1 H1) as (y & s2 & E2 & H2). exists y, s2. unfold bind. rewrite E. done.
Qed.

Lemma sure_mono {S X} (I : S -> Prop) (m : M S X) (P Q : X -> Prop) :
  sure I m P -> (forall x, P x -> Q x) -> sure I m Q.
Proof. intros Hm HPQ s Hs. destruct (Hm s Hs) as (x & s' & ? & ? & ?). exists x, s'. auto. Qed.

Lemma sure_gets {S X} (I : S -> Prop) (f : S -> X) : sure I (gets f) (fun _ => True).
Proof. intros s Hs. by exists (f s), s. Qed.

Lemma sure_modify {S} (I : S -> Prop) (f : S -> S) :
  (forall s, I s -> I (f s)) -> sure I (modify f) (fun _ => True).
Proof. intros H s Hs. exists tt, (f s). auto. Qed.

Lemma sure_when {S} (I : S -> Prop) b (m : M S unit) :
  sure I m (fun _ => True) -> sure I (when b m) (fun _ => True).
Proof. intros H. destruct b; [done|by apply sure_ret]. Qed.

Lemma sure_run {S X} (I : S -> Prop) (m : M S X) (Q : X -> Prop) s :
  sure I m Q -> I s -> exists x s', m s = Done (x, s') /\ I s' /\ Q x.
Proof. auto. Qed.

Create HintDb sure discriminated.
#[export] Hint Resolve sure_gets : sure.

(** Walks through a function; the facts about results stay in the context. *)
Ltac sure_step :=
  lazymatch goal with
  | |- sure _ (bind _ _) _ =>
      first [eapply sure_bind; [solve [eauto with sure]|]
            |apply (sure_bind _ _ _ (fun _ => True))];
      [..|let x := fresh "x" in let Hx := fresh "Hx" in intros x Hx; cbn beta in Hx; try subst x]
  | |- sure _ (when _ _) _ => apply sure_when
  | |- sure _ (ret _) _ => apply sure_ret; try done
  | |- sure _ (if ?b then _ else _) _ => destruct b eqn:?
  | |- sure _ (match ?x with _ => _ end) _ => destruct x eqn:?
  | |- sure _ _ _ => first [solve [eauto with sure] | eapply sure_mono; [solve [eauto with sure]|]]
  end.
Ltac sure_solve := repeat sure_step.

(** ** Results in any interleaving

    What a program can return, whatever the state is that each of its
    steps finds. *)

Definition possible {S X} (m : M S X) (x : X) : Prop := exists s s', m s = Done (x, s').

Fixpoint returns_all {S A} (Q : A -> Prop) (p : prog S A) : Prop :=
  match p with
  | PRet a => Q a
  | PStep m k => forall x, possible m x -> returns_all Q (k x)
  end.

Lemma possible_bind {S X Y} (m : M S X) (k : X -> M S Y) y :
  possible (bind m k) y -> exists x, possible m x /\ possible (k x) y.
Proof. intros (s & s' & (x & s1 & E1 & E2)%bind_inv). exists x. split; eexists; eauto. Qed.

Lemma possible_ret {S X} (a x : X) : possible (ret a : M S X) x -> x = a.
Proof. by intros (s & s' & [= -> _]). Qed.

Lemma returns_all_bind {S A B} (Q : B -> Prop) (P : A -> Prop) (p : prog S A) (f : A -> prog S B) :
  returns_all P p -> (forall a, P a -> returns_all Q (f a)) -> returns_all Q (pbind p f).
Proof.
  intros Hp Hf. induction p as [a|X m k IH]; [by apply Hf|].
  intros x Hx. apply IH, Hp, Hx.
Qed.

Lemma returns_all_lift {S A} (Q : A -> Prop) (m : M S A) :
  (forall x, possible m x -> Q x) -> returns_all Q (lift m).
Proof. intros H x Hx. by apply H. Qed.

Lemma returns_all_true {S A} (p : prog S A) : returns_all (fun _ => True) p.
Proof. induction p as [a|X m k IH]; [done|]. intros x _. apply IH. Qed.

(** Every thread of a pool that ends has such a result. *)
Lemma returns_all_pool {S A} env (Q : A -> Prop) (c c' : pool S A) i p a :
  po_threads c !! i = Some p -> returns_all Q p -> rtc (pool_step env) c c' ->
  po_threads c' !! i = Some (PRet a) -> Q a.
Proof.
  intros Hi Hp Hrun. revert p Hi Hp. induction Hrun as [c|c c1 c2 Hstep Hrun IH]; intros p Hi Hp Ha.
  - rewrite Hi in Ha. by injection Ha as ->.
  - destruct Hstep as [ts j X m k s x s' Hj E|ts s s' _]; simpl in *; [|by eapply IH].
    destruct (decide (i = j)) as [->|Hne].
    + rewrite Hj in Hi. injection Hi as <-. apply (IH (k x)); [|apply Hp; by exists s, s'|exact Ha].
      apply list_lookup_insert_eq. by eapply lookup_lt_Some.
    + eapply IH; [|exact Hp|done]. rewrite list_lookup_insert_ne by congruence. exact Hi.
Qed.
