(* ===== verification/PvmCalls.v ===== *)
(** * PvmCalls: the Xen interface changes the world by its calls only

    A property of the world that every call of [PvmOS] keeps is kept by
    every function of the Xen interface that the socket driver uses. *)

From stdpp Require Import base numbers list.
From Stdlib Require Import ZArith Lia.
From S2P Require Import Prelude MwSocket MessageTypes XenRing PvmXen Threads.

Section Calls.

Context {S W : Type} {R : XenRing S} {POS : PvmOS W}.

Definition world_in (Wp : W -> Prop) (p : pvm_state S W) : Prop := Wp (pv_world p).

Definition by_calls {A} (m : pvm_m (S := S) (W := W) A) : Prop :=
  forall Wp : W -> Prop, (forall c w, Wp w -> Wp (snd (pvm_os_call c w))) -> keeps (world_in Wp) m.

(** The primitive steps. *)

Lemma calls_pcall c : by_calls (pcall c).
Proof.
  intros Wp Hc p r p' Hp E. unfold pcall in E. specialize (Hc c (pv_world p) Hp).
  destruct (pvm_os_call c (pv_world p)) as [r1 w1]. injection E as _ <-. exact Hc.
Qed.

Lemma calls_get_mx {A} (f : mwcomms_xen_globals S -> A) : by_calls (get_mx f).
Proof. intros Wp _. apply m_keeps_gets. Qed.

Lemma calls_upd_mx f : by_calls (upd_mx f).
Proof. intros Wp _. apply m_keeps_modify. intros p Hp. exact Hp. Qed.

Lemma calls_get_ins i : by_calls (get_ins i).
Proof.
  intros Wp _ p x p' Hp E. unfold get_ins in E. destruct (_ !! i); [|discriminate].
  by injection E as _ <-.
Qed.

Lemma calls_upd_ins i f : by_calls (upd_ins i f).
Proof.
  intros Wp _ p x p' Hp E. unfold upd_ins in E. destruct (_ !! i); [|discriminate].
  by injection E as _ <-.
Qed.

Lemma calls_ret {A} (x : A) : by_calls (ret x).
Proof. intros Wp _. apply m_keeps_ret. Qed.

Lemma calls_bind {A B} (m : pvm_m (S := S) (W := W) A) (k : A -> pvm_m (S := S) (W := W) B) :
  by_calls m -> (forall x, by_calls (k x)) -> by_calls (bind m k).
Proof. intros Hm Hk Wp Hc. apply m_keeps_bind; [by apply Hm|]. intros x. by apply Hk. Qed.

Lemma calls_stop {A} :
  by_calls (undef : pvm_m A) /\ by_calls (block : pvm_m A) /\ by_calls (out_of_fuel : pvm_m A).
Proof. split_and!; intros Wp _ p x p' _ E; discriminate. Qed.

Lemma calls_when b m : by_calls m -> by_calls (when b m).
Proof. intros Hm. destruct b; [done|apply calls_ret]. Qed.

End Calls.

Create HintDb by_calls discriminated.
#[export] Hint Resolve calls_pcall calls_get_mx calls_upd_mx calls_get_ins calls_upd_ins calls_ret : by_calls.
#[export] Hint Extern 1 (by_calls undef) => apply calls_stop : by_calls.
#[export] Hint Extern 1 (by_calls block) => apply calls_stop : by_calls.
#[export] Hint Extern 1 (by_calls out_of_fuel) => apply calls_stop : by_calls.

Ltac calls_step :=
  lazymatch goal with
  | |- by_calls (bind _ _) => apply calls_bind; [|intros ?]
  | |- by_calls (when _ _) => apply calls_when
  | |- by_calls (match ?x with _ => _ end) => destruct x
  | |- by_calls (let (_, _) := ?x in _) => destruct x
  | |- by_calls _ => solve [eauto with by_calls]
  | |- forall _, _ => intros ?
  end.
Ltac calls_solve := intros; cbv zeta; repeat calls_step.

(** ** The functions *)

Section Functions.

Context {S W : Type} {R : XenRing S} {POS : PvmOS W}.

#[local] Abbreviation calls := (by_calls (S := S) (W := W)).

Lemma calls_find_domid n i d : calls (find_domid n i d).
Proof. revert i. induction n; intros; cbn [find_domid]; calls_solve. Qed.
#[local] Hint Resolve calls_find_domid : by_calls.

Lemma calls_new_socket_scan n : calls (new_socket_scan n).
Proof. induction n; cbn [new_socket_scan]; calls_solve. Qed.
#[local] Hint Resolve calls_new_socket_scan : by_calls.

Lemma calls_wait_for_slot n w i : calls (wait_for_slot n w i).
Proof. induction n; cbn [wait_for_slot]; calls_solve. Qed.
#[local] Hint Resolve calls_wait_for_slot : by_calls.

Lemma calls_get_next_request_slot n w d : calls (mw_xen_get_next_request_slot n w d).
Proof. unfold mw_xen_get_next_request_slot, mw_xen_new_socket_rr, mw_xen_get_ins_from_domid. calls_solve. Qed.

Lemma calls_release_request h b : calls (mw_xen_release_request h b).
Proof. unfold mw_xen_release_request, unlock_request, mw_xen_send_event. calls_solve. Qed.

Lemma calls_fill_request_slot h slot bs : calls (fill_request_slot h slot bs).
Proof. unfold fill_request_slot. calls_solve. Qed.

Lemma calls_response_scan n : calls (response_scan n).
Proof. induction n; cbn [response_scan]; unfold mw_xen_get_next_index_rr; calls_solve. Qed.

Lemma calls_response_available : calls mw_xen_response_available.
Proof. apply calls_response_scan. Qed.

Lemma calls_get_next_response h : calls (mw_xen_get_next_response h).
Proof. unfold mw_xen_get_next_response. calls_solve. Qed.

Lemma calls_mark_response_consumed h : calls (mw_xen_mark_response_consumed h).
Proof. unfold mw_xen_mark_response_consumed. calls_solve. Qed.

Lemma calls_end_access l : calls (end_access l).
Proof. induction l; cbn [end_access]; calls_solve. Qed.
#[local] Hint Resolve calls_end_access : by_calls.

Lemma calls_release_ins i : calls (mw_xen_release_ins i).
Proof. unfold mw_xen_release_ins, mw_xen_is_evt_chn_closed, mw_xen_free_unbound_evt_chn. calls_solve. Qed.
#[local] Hint Resolve calls_release_ins : by_calls.

Lemma calls_reap_one now i : calls (reap_one now i).
Proof. unfold reap_one. calls_solve. Qed.
#[local] Hint Resolve calls_reap_one : by_calls.

Lemma calls_reap_scan now n i dead : calls (reap_scan now n i dead).
Proof. revert i dead. induction n; intros; cbn [reap_scan]; calls_solve. Qed.
#[local] Hint Resolve calls_reap_scan : by_calls.

Lemma calls_reap_dead_ins : calls mw_xen_reap_dead_ins.
Proof. unfold mw_xen_reap_dead_ins. calls_solve. Qed.

Lemma calls_write_to_key dir node value : calls (mw_xen_write_to_key dir node value).
Proof. unfold mw_xen_write_to_key. calls_solve. Qed.

End Functions.

#[export] Hint Resolve calls_write_to_key calls_get_next_request_slot calls_release_request calls_fill_request_slot
  calls_response_available calls_get_next_response calls_mark_response_consumed
  calls_reap_dead_ins : by_calls.
