(* ===== verification/MwsState.v ===== *)
(** * MwsState: the state of the socket multiplexer of the protected VM

    src/protvm/kernel/mwcomms/mwcomms-socket.c: the socket instances, the
    active requests and the globals. A pointer to an instance or a request
    is the address ([nat]) its cache gave out; [mg_sockinsts] and
    [mg_active_requests] hold the objects that were not freed, so that an
    access to a freed one is [Undef]; addresses are not used twice. The two
    global lists hold the addresses, newest first. A circular list of
    siblings is the list at its user socket. Mutexes that are held within
    one step are not modelled; the semaphores and the locks that are held
    across waits are counters.

    The kernel around the driver is the class [MwsOS], on the world of
    [PvmOS]; the Xen interface ([PvmXen]) is part of the state and called
    through [xen]. Debug counters and traces are compiled out of the default build
    (MW_DEBUGFS); polling (ENABLE_POLLING) is part of it. *)

From stdpp Require Import base numbers list gmap.
From Stdlib Require Import ZArith Lia.
From S2P Require Import Prelude MwSocket MessageTypes XenRing PvmXen.
Import LinuxErrno.

(** Further error numbers of Linux. *)
Definition EINTR : Z := 4.
Definition EBADF : Z := 9.
Definition EFAULT : Z := 14.
Definition ENODEV : Z := 19.
Definition EMFILE : Z := 24.
Definition ENOSPC : Z := 28.
Definition EPIPE : Z := 32.
Definition ETIME : Z := 62.
Definition EBADFD : Z := 77.
Definition ESRCH : Z := 3.
Definition ERESTARTSYS : Z := 512.
Definition SIGPIPE : Z := 13.
Definition O_RDWR : Z := 2.
Definition POLLIN : Z := 1.
Definition MW_ERROR_REMOTE_SURPRISE_CLOSE : Z := EPIPE.
Definition MT_ID_UNSET_VALUE : Z := 0.

(** Flags of a socket instance; an [int] holds them. *)
Definition MWSOCKET_FLAG_USER : Z := 0x01.
Definition MWSOCKET_FLAG_POLLABLE : Z := 0x02.
Definition MWSOCKET_FLAG_BOUND : Z := 0x10.
Definition MWSOCKET_FLAG_LISTENING : Z := 0x20.
Definition MWSOCKET_FLAG_ACCEPT : Z := 0x40.
Definition MWSOCKET_FLAG_CONNECTED : Z := 0x100.
Definition MWSOCKET_FLAG_CLOSED : Z := 0x40000000.
Definition MWSOCKET_FLAG_RELEASED : Z := 0x80000000.

Definition set_flag (flag x : Z) : Z := Z.lor x flag.
Definition clear_flag (flag x : Z) : Z := Z.ldiff x flag.

(** ** Data of the kernel *)

Record sockaddr := { sa_family : Z; sa_port : Z; sa_addr : Z }.
Definition sockaddr_zero : sockaddr := {| sa_family := 0; sa_port := 0; sa_addr := 0 |}.
Definition AF_INET : Z := 2.
Definition AF_INET6 : Z := 10.

Record timespec := { tv_sec : Z; tv_nsec : Z }.
Definition timespec_zero : timespec := {| tv_sec := 0; tv_nsec := 0 |}.

(** What the netflow channel is told (mw_netflow_iface.h): the numbers,
    before the fields are put into the byte order of the network. Port and
    address are taken as they are in memory, where they have that order. *)
Record mw_endpoint := { ep_af : Z; ep_port : Z; ep_addr : Z }.
Record mw_netflow_info := {
  nf_obs : Z;
  nf_session_start : timespec;
  nf_curr : timespec;
  nf_sockfd : Z;
  nf_pvm : mw_endpoint;
  nf_remote : mw_endpoint;
  nf_bytes_in : Z;
  nf_bytes_out : Z;
  nf_extra : Z
}.

(** ** The kernel *)

Inductive mws_call : Type :=
| KmemCacheAlloc
| KmallocGfp
| GetUnusedFd (flags : Z)
| NewInodePseudo
| DAllocPseudo
| AllocFile
| SendSig (sig proc : Z)
| CopyFromUser
| CopyToUser
| SignalPending
| WaitExpires (jiffies : Z)
| GetNsTimeOfDay
| CurrentTask
| ProcessDying (proc : Z)
| FreedRequestReused
| ReadPastSockaddr
| MwNetflowConsumerExists
| MwNetflowWriteAll (nf : mw_netflow_info)
| WakeUpInterruptible
| MwsSleep (jiffies : Z)
| ScheduleWork
| KallsymsLookup
| RegisterFilesystem
| UnregisterFilesystem
| KernMount
| KernUnmount
| KmemCacheCreate
| KmemCacheDestroy
| KthreadRun.

(** [m_ret] is the return code, a descriptor, or non-zero for an
    allocation that succeeded; [m_val] a status; [m_time] the clock. *)
Record mws_res := { m_ret : Z; m_val : Z; m_time : timespec }.

Class MwsOS (W : Type) := mws_os_call : mws_call -> W -> mws_res * W.

(** ** State *)

Record mwsocket_instance := {
  si_proc : Z;
  si_inode : bool;
  si_file : option nat;
  si_local_fd : Z;
  si_remote_fd : Z;
  si_mwflags : Z;
  si_sock_fam : Z;
  si_sock_type : Z;
  si_sock_protocol : Z;
  si_bind_sockaddr : list Z;
  si_backlog : Z;
  si_defer_accept : Z;
  si_inbound_list : list nat;
  si_inbound_sem : Z;
  si_user_outstanding_accept : Z;
  si_usersock : nat;
  si_poll_active : option nat;
  si_sibling_listeners : list nat;
  si_peer : sockaddr;
  si_local_bind : sockaddr;
  si_poll_events : Z;
  si_f_flags : Z;
  si_u_flags : Z;
  si_send_tally : Z;
  si_pending_errno : Z;
  si_est_time : timespec;
  si_tot_sent : Z;
  si_tot_recv : Z;
  si_refct : Z;
  si_blockid : Z;
  si_read_expected : bool;
  si_remote_close_requested : bool;
  si_remote_surprise_close : bool;
  si_ins_alive : bool;
  si_close_readers : Z;
  si_close_writer : bool;
  si_close_lock_write : bool;
  si_close_blockid : Z;
  si_request_sem : Z;
  si_state_valid : bool;
  si_sock_rep_lock : bool
}.

Definition eta_si (x : mwsocket_instance) : mwsocket_instance :=
  {| si_proc := si_proc x; si_inode := si_inode x; si_file := si_file x; si_local_fd :=
     si_local_fd x; si_remote_fd := si_remote_fd x; si_mwflags := si_mwflags x; si_sock_fam :=
     si_sock_fam x; si_sock_type := si_sock_type x; si_sock_protocol := si_sock_protocol x;
     si_bind_sockaddr := si_bind_sockaddr x; si_backlog := si_backlog x; si_defer_accept :=
     si_defer_accept x; si_inbound_list := si_inbound_list x; si_inbound_sem := si_inbound_sem
     x; si_user_outstanding_accept := si_user_outstanding_accept x; si_usersock := si_usersock
     x; si_poll_active := si_poll_active x; si_sibling_listeners := si_sibling_listeners x;
     si_peer := si_peer x; si_local_bind := si_local_bind x; si_poll_events := si_poll_events x;
     si_f_flags := si_f_flags x; si_u_flags := si_u_flags x; si_send_tally := si_send_tally x;
     si_pending_errno := si_pending_errno x; si_est_time := si_est_time x; si_tot_sent :=
     si_tot_sent x; si_tot_recv := si_tot_recv x; si_refct := si_refct x; si_blockid :=
     si_blockid x; si_read_expected := si_read_expected x; si_remote_close_requested :=
     si_remote_close_requested x; si_remote_surprise_close := si_remote_surprise_close x;
     si_ins_alive := si_ins_alive x; si_close_readers := si_close_readers x; si_close_writer :=
     si_close_writer x; si_close_lock_write := si_close_lock_write x; si_close_blockid :=
     si_close_blockid x; si_request_sem := si_request_sem x; si_state_valid := si_state_valid x;
     si_sock_rep_lock := si_sock_rep_lock x |}.
Definition set_si_proc (v : Z) (x : mwsocket_instance) : mwsocket_instance :=
  ltac:(set_field (eta_si) (si_proc) v x).
Definition set_si_inode (v : bool) (x : mwsocket_instance) : mwsocket_instance :=
  ltac:(set_field (eta_si) (si_inode) v x).
Definition set_si_file (v : option nat) (x : mwsocket_instance) : mwsocket_instance :=
  ltac:(set_field (eta_si) (si_file) v x).
Definition set_si_local_fd (v : Z) (x : mwsocket_instance) : mwsocket_instance :=
  ltac:(set_field (eta_si) (si_local_fd) v x).
Definition set_si_remote_fd (v : Z) (x : mwsocket_instance) : mwsocket_instance :=
  ltac:(set_field (eta_si) (si_remote_fd) v x).
Definition set_si_mwflags (v : Z) (x : mwsocket_instance) : mwsocket_instance :=
  ltac:(set_field (eta_si) (si_mwflags) v x).
Definition set_si_sock_fam (v : Z) (x : mwsocket_instance) : mwsocket_instance :=
  ltac:(set_field (eta_si) (si_sock_fam) v x).
Definition set_si_sock_type (v : Z) (x : mwsocket_instance) : mwsocket_instance :=
  ltac:(set_field (eta_si) (si_sock_type) v x).
Definition set_si_sock_protocol (v : Z) (x : mwsocket_instance) : mwsocket_instance :=
  ltac:(set_field (eta_si) (si_sock_protocol) v x).
Definition set_si_bind_sockaddr (v : list Z) (x : mwsocket_instance) : mwsocket_instance :=
  ltac:(set_field (eta_si) (si_bind_sockaddr) v x).
Definition set_si_backlog (v : Z) (x : mwsocket_instance) : mwsocket_instance :=
  ltac:(set_field (eta_si) (si_backlog) v x).
Definition set_si_defer_accept (v : Z) (x : mwsocket_instance) : mwsocket_instance :=
  ltac:(set_field (eta_si) (si_defer_accept) v x).
Definition set_si_inbound_list (v : list nat) (x : mwsocket_instance) : mwsocket_instance :=
  ltac:(set_field (eta_si) (si_inbound_list) v x).
Definition set_si_inbound_sem (v : Z) (x : mwsocket_instance) : mwsocket_instance :=
  ltac:(set_field (eta_si) (si_inbound_sem) v x).
Definition set_si_user_outstanding_accept (v : Z) (x : mwsocket_instance) : mwsocket_instance :=
  ltac:(set_field (eta_si) (si_user_outstanding_accept) v x).
Definition set_si_usersock (v : nat) (x : mwsocket_instance) : mwsocket_instance :=
  ltac:(set_field (eta_si) (si_usersock) v x).
Definition set_si_poll_active (v : option nat) (x : mwsocket_instance) : mwsocket_instance :=
  ltac:(set_field (eta_si) (si_poll_active) v x).
Definition set_si_sibling_listeners (v : list nat) (x : mwsocket_instance) : mwsocket_instance :=
  ltac:(set_field (eta_si) (si_sibling_listeners) v x).
Definition set_si_peer (v : sockaddr) (x : mwsocket_instance) : mwsocket_instance :=
  ltac:(set_field (eta_si) (si_peer) v x).
Definition set_si_local_bind (v : sockaddr) (x : mwsocket_instance) : mwsocket_instance :=
  ltac:(set_field (eta_si) (si_local_bind) v x).
Definition set_si_poll_events (v : Z) (x : mwsocket_instance) : mwsocket_instance :=
  ltac:(set_field (eta_si) (si_poll_events) v x).
Definition set_si_f_flags (v : Z) (x : mwsocket_instance) : mwsocket_instance :=
  ltac:(set_field (eta_si) (si_f_flags) v x).
Definition set_si_u_flags (v : Z) (x : mwsocket_instance) : mwsocket_instance :=
  ltac:(set_field (eta_si) (si_u_flags) v x).
Definition set_si_send_tally (v : Z) (x : mwsocket_instance) : mwsocket_instance :=
  ltac:(set_field (eta_si) (si_send_tally) v x).
Definition set_si_pending_errno (v : Z) (x : mwsocket_instance) : mwsocket_instance :=
  ltac:(set_field (eta_si) (si_pending_errno) v x).
Definition set_si_est_time (v : timespec) (x : mwsocket_instance) : mwsocket_instance :=
  ltac:(set_field (eta_si) (si_est_time) v x).
Definition set_si_tot_sent (v : Z) (x : mwsocket_instance) : mwsocket_instance :=
  ltac:(set_field (eta_si) (si_tot_sent) v x).
Definition set_si_tot_recv (v : Z) (x : mwsocket_instance) : mwsocket_instance :=
  ltac:(set_field (eta_si) (si_tot_recv) v x).
Definition set_si_refct (v : Z) (x : mwsocket_instance) : mwsocket_instance :=
  ltac:(set_field (eta_si) (si_refct) v x).
Definition set_si_blockid (v : Z) (x : mwsocket_instance) : mwsocket_instance :=
  ltac:(set_field (eta_si) (si_blockid) v x).
Definition set_si_read_expected (v : bool) (x : mwsocket_instance) : mwsocket_instance :=
  ltac:(set_field (eta_si) (si_read_expected) v x).
Definition set_si_remote_close_requested (v : bool) (x : mwsocket_instance) : mwsocket_instance :=
  ltac:(set_field (eta_si) (si_remote_close_requested) v x).
Definition set_si_remote_surprise_close (v : bool) (x : mwsocket_instance) : mwsocket_instance :=
  ltac:(set_field (eta_si) (si_remote_surprise_close) v x).
Definition set_si_ins_alive (v : bool) (x : mwsocket_instance) : mwsocket_instance :=
  ltac:(set_field (eta_si) (si_ins_alive) v x).
Definition set_si_close_readers (v : Z) (x : mwsocket_instance) : mwsocket_instance :=
  ltac:(set_field (eta_si) (si_close_readers) v x).
Definition set_si_close_writer (v : bool) (x : mwsocket_instance) : mwsocket_instance :=
  ltac:(set_field (eta_si) (si_close_writer) v x).
Definition set_si_close_lock_write (v : bool) (x : mwsocket_instance) : mwsocket_instance :=
  ltac:(set_field (eta_si) (si_close_lock_write) v x).
Definition set_si_close_blockid (v : Z) (x : mwsocket_instance) : mwsocket_instance :=
  ltac:(set_field (eta_si) (si_close_blockid) v x).
Definition set_si_request_sem (v : Z) (x : mwsocket_instance) : mwsocket_instance :=
  ltac:(set_field (eta_si) (si_request_sem) v x).
Definition set_si_state_valid (v : bool) (x : mwsocket_instance) : mwsocket_instance :=
  ltac:(set_field (eta_si) (si_state_valid) v x).
Definition set_si_sock_rep_lock (v : bool) (x : mwsocket_instance) : mwsocket_instance :=
  ltac:(set_field (eta_si) (si_sock_rep_lock) v x).

(** A socket instance after bzero(). *)
Definition si_zero : mwsocket_instance :=
  {| si_proc := 0; si_inode := false; si_file := None; si_local_fd := 0; si_remote_fd := 0;
     si_mwflags := 0; si_sock_fam := 0; si_sock_type := 0; si_sock_protocol := 0;
     si_bind_sockaddr := replicate (sizeof ct_sockaddr_in) 0; si_backlog := 0; si_defer_accept
     := 0; si_inbound_list := []; si_inbound_sem := 0; si_user_outstanding_accept := 0;
     si_usersock := 0%nat; si_poll_active := None; si_sibling_listeners := []; si_peer :=
     sockaddr_zero; si_local_bind := sockaddr_zero; si_poll_events := 0; si_f_flags := 0;
     si_u_flags := 0; si_send_tally := 0; si_pending_errno := 0; si_est_time := timespec_zero;
     si_tot_sent := 0; si_tot_recv := 0; si_refct := 0; si_blockid := 0; si_read_expected :=
     false; si_remote_close_requested := false; si_remote_surprise_close := false; si_ins_alive
     := false; si_close_readers := 0; si_close_writer := false; si_close_lock_write := false;
     si_close_blockid := 0; si_request_sem := 0; si_state_valid := false; si_sock_rep_lock :=
     false |}.

Record mwsocket_active_request := {
  ar_id : Z;
  ar_deliver_response : bool;
  ar_response_populated : bool;
  ar_from_user : bool;
  ar_arrived : Z;
  ar_rr : list Z;
  ar_sockinst : nat
}.

Definition eta_ar (x : mwsocket_active_request) : mwsocket_active_request :=
  {| ar_id := ar_id x; ar_deliver_response := ar_deliver_response x; ar_response_populated :=
     ar_response_populated x; ar_from_user := ar_from_user x; ar_arrived := ar_arrived x; ar_rr
     := ar_rr x; ar_sockinst := ar_sockinst x |}.
Definition set_ar_id (v : Z) (x : mwsocket_active_request) : mwsocket_active_request :=
  ltac:(set_field (eta_ar) (ar_id) v x).
Definition set_ar_deliver_response (v : bool) (x : mwsocket_active_request) : mwsocket_active_request :=
  ltac:(set_field (eta_ar) (ar_deliver_response) v x).
Definition set_ar_response_populated (v : bool) (x : mwsocket_active_request) : mwsocket_active_request :=
  ltac:(set_field (eta_ar) (ar_response_populated) v x).
Definition set_ar_from_user (v : bool) (x : mwsocket_active_request) : mwsocket_active_request :=
  ltac:(set_field (eta_ar) (ar_from_user) v x).
Definition set_ar_arrived (v : Z) (x : mwsocket_active_request) : mwsocket_active_request :=
  ltac:(set_field (eta_ar) (ar_arrived) v x).
Definition set_ar_rr (v : list Z) (x : mwsocket_active_request) : mwsocket_active_request :=
  ltac:(set_field (eta_ar) (ar_rr) v x).
Definition set_ar_sockinst (v : nat) (x : mwsocket_active_request) : mwsocket_active_request :=
  ltac:(set_field (eta_ar) (ar_sockinst) v x).

Record mwsocket_globals := {
  mg_xen_iface_ready : Z;
  mg_is_xen_iface_ready : bool;
  mg_active_requests : gmap nat mwsocket_active_request;
  mg_active_request_list : list nat;
  mg_sockinsts : gmap nat mwsocket_instance;
  mg_sockinst_list : list nat;
  mg_sockinst_count : Z;
  mg_poll_sock_count : Z;
  mg_event_channel_sem : Z;
  mg_fs_registered : bool;
  mg_fs_mount : bool;
  mg_active_request_cache : bool;
  mg_sockinst_cache : bool;
  mg_response_reader_thread : bool;
  mg_response_reader_done : Z;
  mg_monitor_thread : bool;
  mg_monitor_done : Z;
  mg_pending_exit : bool;
  mg_id_counter : Z;
  mg_next_address : nat;
  mg_files : gmap nat nat
}.

Definition eta_mg (x : mwsocket_globals) : mwsocket_globals :=
  {| mg_xen_iface_ready := mg_xen_iface_ready x; mg_is_xen_iface_ready := mg_is_xen_iface_ready
     x; mg_active_requests := mg_active_requests x; mg_active_request_list :=
     mg_active_request_list x; mg_sockinsts := mg_sockinsts x; mg_sockinst_list :=
     mg_sockinst_list x; mg_sockinst_count := mg_sockinst_count x; mg_poll_sock_count :=
     mg_poll_sock_count x; mg_event_channel_sem := mg_event_channel_sem x; mg_fs_registered :=
     mg_fs_registered x; mg_fs_mount := mg_fs_mount x; mg_active_request_cache :=
     mg_active_request_cache x; mg_sockinst_cache := mg_sockinst_cache x;
     mg_response_reader_thread := mg_response_reader_thread x; mg_response_reader_done :=
     mg_response_reader_done x; mg_monitor_thread := mg_monitor_thread x; mg_monitor_done :=
     mg_monitor_done x; mg_pending_exit := mg_pending_exit x; mg_id_counter := mg_id_counter x;
     mg_next_address := mg_next_address x; mg_files := mg_files x |}.
Definition set_mg_xen_iface_ready (v : Z) (x : mwsocket_globals) : mwsocket_globals :=
  ltac:(set_field (eta_mg) (mg_xen_iface_ready) v x).
Definition set_mg_is_xen_iface_ready (v : bool) (x : mwsocket_globals) : mwsocket_globals :=
  ltac:(set_field (eta_mg) (mg_is_xen_iface_ready) v x).
Definition set_mg_active_requests (v : gmap nat mwsocket_active_request) (x : mwsocket_globals) : mwsocket_globals :=
  ltac:(set_field (eta_mg) (mg_active_requests) v x).
Definition set_mg_active_request_list (v : list nat) (x : mwsocket_globals) : mwsocket_globals :=
  ltac:(set_field (eta_mg) (mg_active_request_list) v x).
Definition set_mg_sockinsts (v : gmap nat mwsocket_instance) (x : mwsocket_globals) : mwsocket_globals :=
  ltac:(set_field (eta_mg) (mg_sockinsts) v x).
Definition set_mg_sockinst_list (v : list nat) (x : mwsocket_globals) : mwsocket_globals :=
  ltac:(set_field (eta_mg) (mg_sockinst_list) v x).
Definition set_mg_sockinst_count (v : Z) (x : mwsocket_globals) : mwsocket_globals :=
  ltac:(set_field (eta_mg) (mg_sockinst_count) v x).
Definition set_mg_poll_sock_count (v : Z) (x : mwsocket_globals) : mwsocket_globals :=
  ltac:(set_field (eta_mg) (mg_poll_sock_count) v x).
Definition set_mg_event_channel_sem (v : Z) (x : mwsocket_globals) : mwsocket_globals :=
  ltac:(set_field (eta_mg) (mg_event_channel_sem) v x).
Definition set_mg_fs_registered (v : bool) (x : mwsocket_globals) : mwsocket_globals :=
  ltac:(set_field (eta_mg) (mg_fs_registered) v x).
Definition set_mg_fs_mount (v : bool) (x : mwsocket_globals) : mwsocket_globals :=
  ltac:(set_field (eta_mg) (mg_fs_mount) v x).
Definition set_mg_active_request_cache (v : bool) (x : mwsocket_globals) : mwsocket_globals :=
  ltac:(set_field (eta_mg) (mg_active_request_cache) v x).
Definition set_mg_sockinst_cache (v : bool) (x : mwsocket_globals) : mwsocket_globals :=
  ltac:(set_field (eta_mg) (mg_sockinst_cache) v x).
Definition set_mg_response_reader_thread (v : bool) (x : mwsocket_globals) : mwsocket_globals :=
  ltac:(set_field (eta_mg) (mg_response_reader_thread) v x).
Definition set_mg_response_reader_done (v : Z) (x : mwsocket_globals) : mwsocket_globals :=
  ltac:(set_field (eta_mg) (mg_response_reader_done) v x).
Definition set_mg_monitor_thread (v : bool) (x : mwsocket_globals) : mwsocket_globals :=
  ltac:(set_field (eta_mg) (mg_monitor_thread) v x).
Definition set_mg_monitor_done (v : Z) (x : mwsocket_globals) : mwsocket_globals :=
  ltac:(set_field (eta_mg) (mg_monitor_done) v x).
Definition set_mg_pending_exit (v : bool) (x : mwsocket_globals) : mwsocket_globals :=
  ltac:(set_field (eta_mg) (mg_pending_exit) v x).
Definition set_mg_id_counter (v : Z) (x : mwsocket_globals) : mwsocket_globals :=
  ltac:(set_field (eta_mg) (mg_id_counter) v x).
Definition set_mg_next_address (v : nat) (x : mwsocket_globals) : mwsocket_globals :=
  ltac:(set_field (eta_mg) (mg_next_address) v x).
Definition set_mg_files (v : gmap nat nat) (x : mwsocket_globals) : mwsocket_globals :=
  ltac:(set_field (eta_mg) (mg_files) v x).

Record mws_state (S W : Type) := {
  ms_pvm : pvm_state S W;
  ms_g : mwsocket_globals;
  ms_trace : list mws_call
}.
Arguments ms_pvm {S W}.
Arguments ms_g {S W}.
Arguments ms_trace {S W}.

Definition set_ms_pvm {S W} (v : pvm_state S W) (x : mws_state S W) : mws_state S W :=
  {| ms_pvm := v; ms_g := ms_g x; ms_trace := ms_trace x |}.
Definition set_ms_g {S W} (v : mwsocket_globals) (x : mws_state S W) : mws_state S W :=
  {| ms_pvm := ms_pvm x; ms_g := v; ms_trace := ms_trace x |}.
Definition set_ms_trace {S W} (v : list mws_call) (x : mws_state S W) : mws_state S W :=
  {| ms_pvm := ms_pvm x; ms_g := ms_g x; ms_trace := v |}.

Definition mg_zero : mwsocket_globals :=
  {| mg_xen_iface_ready := 0; mg_is_xen_iface_ready := false; mg_active_requests := ∅;
     mg_active_request_list := []; mg_sockinsts := ∅; mg_sockinst_list := []; mg_sockinst_count
     := 0; mg_poll_sock_count := 0; mg_event_channel_sem := 0; mg_fs_registered := false;
     mg_fs_mount := false; mg_active_request_cache := false; mg_sockinst_cache := false;
     mg_response_reader_thread := false; mg_response_reader_done := 0; mg_monitor_thread :=
     false; mg_monitor_done := 0; mg_pending_exit := false; mg_id_counter := 0; mg_next_address
     := 0%nat; mg_files := ∅ |}.

(** The region of an active request holds a request or a response. *)
Definition RR_SIZE : nat :=
  Nat.max (sizeof ct_request_generic) (sizeof ct_response_generic).

Definition ar_zero : mwsocket_active_request :=
  {| ar_id := 0; ar_deliver_response := false; ar_response_populated := false; ar_from_user :=
     false; ar_arrived := 0; ar_rr := replicate RR_SIZE 0; ar_sockinst := 0%nat |}.

Section Primitives.

Context {S W : Type} {R : XenRing S} {POS : PvmOS W} {OS : MwsOS W}.

Definition mws_m (A : Type) : Type := M (mws_state S W) A.

(** A call of the Xen interface. *)
Definition xen {A} (m : pvm_m (S := S) (W := W) A) : mws_m A := fun s =>
  obind (m (ms_pvm s)) (fun '(a, p) => Done (a, set_ms_pvm p s)).

Definition oscall (c : mws_call) : mws_m mws_res := fun s =>
  let '(r, w) := mws_os_call c (pv_world (ms_pvm s)) in
  Done (r, set_ms_pvm (set_pv_world w (ms_pvm s)) (set_ms_trace (ms_trace s ++ [c]) s)).

Definition os_ret (c : mws_call) : mws_m Z := let* r := oscall c in ret (m_ret r).

Definition get_mg {A} (f : mwsocket_globals -> A) : mws_m A := gets (fun s => f (ms_g s)).
Definition upd_mg (f : mwsocket_globals -> mwsocket_globals) : mws_m unit :=
  modify (fun s => set_ms_g (f (ms_g s)) s).

(** A socket instance, an active request: live, or the access is undefined. *)
Definition get_si (h : nat) : mws_m mwsocket_instance := fun s =>
  match mg_sockinsts (ms_g s) !! h with Some x => Done (x, s) | None => Undef end.
Definition upd_si (h : nat) (f : mwsocket_instance -> mwsocket_instance) : mws_m unit := fun s =>
  match mg_sockinsts (ms_g s) !! h with
  | Some x => Done (tt, set_ms_g (set_mg_sockinsts (<[h := f x]> (mg_sockinsts (ms_g s))) (ms_g s)) s)
  | None => Undef
  end.
Definition get_ar (a : nat) : mws_m mwsocket_active_request := fun s =>
  match mg_active_requests (ms_g s) !! a with Some x => Done (x, s) | None => Undef end.
Definition upd_ar (a : nat) (f : mwsocket_active_request -> mwsocket_active_request) : mws_m unit := fun s =>
  match mg_active_requests (ms_g s) !! a with
  | Some x =>
      Done (tt, set_ms_g (set_mg_active_requests (<[a := f x]> (mg_active_requests (ms_g s))) (ms_g s)) s)
  | None => Undef
  end.

Definition has_mwflag (h : nat) (flag : Z) : mws_m bool :=
  let* x := get_si h in ret (has_flag (si_mwflags x) flag).

(** A fresh address from a cache. *)
Definition new_address : mws_m nat :=
  let* a := get_mg mg_next_address in
  upd_mg (set_mg_next_address (Datatypes.S a)) ;;; ret a.

(** ** Semaphores and completions *)

(** down_interruptible(): non-zero when a signal came first. *)
Definition down_interruptible (get : mwsocket_instance -> Z)
    (set : Z -> mwsocket_instance -> mwsocket_instance) (h : nat) : mws_m Z :=
  let* x := get_si h in
  if 0 <? get x then upd_si h (set (get x - 1)) ;;; ret 0
  else
    let* r := os_ret SignalPending in
    if truth r then ret (- EINTR) else block.

(** wait_for_completion_interruptible() on the arrival of a response. *)
Definition wait_arrived_interruptible (a : nat) : mws_m Z :=
  let* x := get_ar a in
  if 0 <? ar_arrived x then upd_ar a (set_ar_arrived (ar_arrived x - 1)) ;;; ret 0
  else
    let* r := os_ret SignalPending in
    if truth r then ret (- ERESTARTSYS) else block.

(** wait_for_completion_timeout(): 0 when the time is over, and else the
    time left, at least 1. *)
Definition wait_arrived_timeout (a : nat) (jiffies : Z) : mws_m Z :=
  let* x := get_ar a in
  if 0 <? ar_arrived x then upd_ar a (set_ar_arrived (ar_arrived x - 1)) ;;; ret 1
  else
    let* r := os_ret (WaitExpires jiffies) in
    if truth r then ret 0 else block.

(** Both: negative when a signal came first. *)
Definition wait_arrived_interruptible_timeout (a : nat) (jiffies : Z) : mws_m Z :=
  let* x := get_ar a in
  if 0 <? ar_arrived x then upd_ar a (set_ar_arrived (ar_arrived x - 1)) ;;; ret 1
  else
    let* r := os_ret SignalPending in
    if truth r then ret (- ERESTARTSYS)
    else
      let* r := os_ret (WaitExpires jiffies) in
      if truth r then ret 0 else block.

Definition complete_arrived (a : nat) : mws_m unit :=
  upd_ar a (fun x => set_ar_arrived (ar_arrived x + 1) x).

(** The lock that a close takes for writing. *)
Definition down_read_close (h : nat) : mws_m unit :=
  let* x := get_si h in
  if si_close_writer x then block
  else upd_si h (set_si_close_readers (si_close_readers x + 1)).
Definition up_read_close (h : nat) : mws_m unit :=
  upd_si h (fun x => set_si_close_readers (si_close_readers x - 1) x).
Definition down_write_trylock_close (h : nat) : mws_m bool :=
  let* x := get_si h in
  if si_close_writer x || truth (si_close_readers x) then ret false
  else upd_si h (set_si_close_writer true) ;;; ret true.
Definition up_write_close (h : nat) : mws_m unit := upd_si h (set_si_close_writer false).

(** memcpy() of the first [n] of [bytes] to the start of the region of a
    request, which overruns it when they are too many. *)
Definition memcpy_rr (a : nat) (n : Z) (bytes : list Z) : mws_m unit :=
  let bytes := take (Z.to_nat n) bytes in
  if Z.of_nat RR_SIZE <? n then undef
  else upd_ar a (fun x => set_ar_rr (bytes ++ drop (length bytes) (ar_rr x)) x).

End Primitives.
