(* ===== verification/MwsRequest.v ===== *)
(** * MwsRequest: socket instances and active requests

    mwcomms-socket.c: the life of a socket instance and of an active
    request, and the way of a request to the ring
    (mwsocket_send_request() and the functions built on it). A function
    that waits is a program ([mws_p]); the wait for room on the ring is
    one step, with [ring_fuel] looks at the ring. *)

From stdpp Require Import base numbers list gmap.
From Stdlib Require Import ZArith Lia.
From S2P Require Import Prelude MwSocket MessageTypes XenRing PvmXen Threads MwsState.
Import LinuxErrno.

(** Sizes of requests (message_types.h). *)
Definition MT_REQUEST_SOCKET_CREATE_SIZE : Z := size_of ct_request_socket_create.
Definition MT_REQUEST_SOCKET_CLOSE_SIZE : Z := size_of ct_request_base.
Definition MT_REQUEST_SOCKET_BIND_SIZE : Z := size_of ct_request_socket_bind.
Definition MT_REQUEST_SOCKET_LISTEN_SIZE : Z := size_of ct_request_socket_listen.
Definition MT_REQUEST_SOCKET_ACCEPT_SIZE : Z := size_of ct_request_socket_accept.
Definition MT_REQUEST_SOCKET_ATTRIB_SIZE : Z := size_of ct_request_socket_attrib.
Definition MT_REQUEST_ADDR_BLOCK_SIZE : Z := size_of ct_request_addr_block.
Definition MT_REQUEST_POLLSET_QUERY_SIZE : Z := MT_REQUEST_BASE_SIZE.
Definition MT_INET_ADDRSTRLEN : nat := 16.

Definition MT_REQUEST_CALLER_WAITS (r : mt_request_base) : bool :=
  has_flag (rq_flags r) MT_FLAGS_PVM_CALLER_AWAITS_RESPONSE.

(** [type] is the enumerator [t]. *)
Definition is_type (t : mt_request_type) (type : Z) : bool := type =? request_type_code t.
Definition is_response_type (t : mt_request_type) (type : Z) : bool := type =? response_type_code t.

Section Requests.

Context {S W : Type} {R : XenRing S} {POS : PvmOS W} {OS : MwsOS W}.
Context (ring_fuel : nat).

#[local] Abbreviation mws_m := (mws_m (S := S) (W := W)).
Definition mws_p (A : Type) : Type := prog (mws_state S W) A.

Definition GENERAL_RESPONSE_TIMEOUT : Z := HZ * 30.
Definition CLOSE_WAIT_TIMEOUT : Z := HZ * 1.

Definition mwsocket_wait (TimeoutJiffies : Z) : mws_m unit :=
  os_ret (MwsSleep TimeoutJiffies) ;;; ret tt.

Definition mwsocket_event_cb : mws_m unit :=
  upd_mg (fun g => set_mg_event_channel_sem (mg_event_channel_sem g + 1) g).

(** ** Identifiers of requests *)

Fixpoint id_in_use (l : list nat) (id : Z) : mws_m bool :=
  match l with
  | [] => ret false
  | a :: rest => let* x := get_ar a in if ar_id x =? id then ret true else id_in_use rest id
  end.

(** atomic64_inc_return() *)
Definition inc_id_counter : mws_m Z :=
  let* c := get_mg mg_id_counter in
  upd_mg (set_mg_id_counter (u64 (c + 1))) ;;; ret (u64 (c + 1)).

Fixpoint next_id_loop (fuel : nat) : mws_m Z :=
  match fuel with
  | O => out_of_fuel
  | Datatypes.S fuel' =>
      let* id := inc_id_counter in
      let* id := (if MT_ID_UNSET_VALUE =? id then inc_id_counter else ret id) in
      let* l := get_mg mg_active_request_list in
      let* found := id_in_use l id in
      if found then next_id_loop fuel' else ret id
  end.

(** One look more than there are requests is enough. *)
Definition mwsocket_get_next_id : mws_m Z :=
  let* l := get_mg mg_active_request_list in next_id_loop (Datatypes.S (length l)).

(** ** Lookups *)

(** The instance of a file, unless it names another file. *)
Definition mwsocket_find_sockinst (File : nat) : mws_m (Z * option nat) :=
  let* files := get_mg mg_files in
  match files !! File with
  | None => undef
  | Some h =>
      let* x := get_si h in
      ret (if bool_decide (si_file x = Some File) then (0, Some h) else (- EBADFD, None))
  end.

Fixpoint find_remote_fd (l : list nat) (RemoteFd : Z) : mws_m (option nat) :=
  match l with
  | [] => ret None
  | h :: rest =>
      let* x := get_si h in
      if si_remote_fd x =? RemoteFd then ret (Some h) else find_remote_fd rest RemoteFd
  end.

Definition mwsocket_find_sockinst_by_remote_fd (RemoteFd : Z) : mws_m (Z * option nat) :=
  let* l := get_mg mg_sockinst_list in
  let* found := find_remote_fd l RemoteFd in
  ret (match found with Some h => (0, Some h) | None => (- EBADF, None) end).

Definition mwsocket_signal_owner_by_remote_fd (RemoteFd SignalNum : Z) : mws_m Z :=
  let* (rc, found) := mwsocket_find_sockinst_by_remote_fd RemoteFd in
  match found with
  | None => ret rc
  | Some h => let* x := get_si h in os_ret (SendSig SignalNum (si_proc x)) ;;; ret rc
  end.

Fixpoint find_request_id (l : list nat) (Id : Z) : mws_m (option nat) :=
  match l with
  | [] => ret None
  | a :: rest =>
      let* x := get_ar a in
      if ar_id x =? Id then ret (Some a) else find_request_id rest Id
  end.

(** A request of a released socket is found, too; only the log says so. *)
Definition mwsocket_find_active_request_by_id (Id : Z) : mws_m (Z * option nat) :=
  let* l := get_mg mg_active_request_list in
  let* found := find_request_id l Id in
  match found with
  | None => ret (- ENOENT, None)
  | Some a =>
      let* x := get_ar a in
      let* released := has_mwflag (ar_sockinst x) MWSOCKET_FLAG_RELEASED in
      ret (0, Some a)
  end.

(** ** Socket instances *)

Definition mwsocket_get_sockinst (h : nat) : mws_m unit :=
  upd_si h (fun x => set_si_refct (si_refct x + 1) x).

Definition mwsocket_set_pollable (h : nat) (Pollable : bool) : mws_m unit :=
  let* x := get_si h in
  if Bool.eqb (has_flag (si_mwflags x) MWSOCKET_FLAG_POLLABLE) Pollable then ret tt
  else if Pollable then
    upd_mg (fun g => set_mg_poll_sock_count (mg_poll_sock_count g + 1) g) ;;;
    upd_si h (set_si_mwflags (set_flag MWSOCKET_FLAG_POLLABLE (si_mwflags x)))
  else
    upd_mg (fun g => set_mg_poll_sock_count (mg_poll_sock_count g - 1) g) ;;;
    upd_si h (set_si_mwflags (clear_flag MWSOCKET_FLAG_POLLABLE (si_mwflags x))).

Definition without (h : nat) (l : list nat) : list nat := filter (fun g => g <> h) l.

(** list_del() of an instance from the list of siblings it is on, if its
    user socket still exists. *)
Definition del_sibling (h : nat) : mws_m unit :=
  let* x := get_si h in
  let u := si_usersock x in
  let* insts := get_mg mg_sockinsts in
  match insts !! u with
  | Some y =>
      when (negb (bool_decide (u = h)))
        (upd_si u (set_si_sibling_listeners (without h (si_sibling_listeners y))))
  | None => ret tt
  end.

Definition del_sockinst (h : nat) : mws_m unit :=
  upd_mg (fun g => set_mg_sockinst_count (mg_sockinst_count g - 1)
                     (set_mg_sockinst_list (without h (mg_sockinst_list g)) g)).
Definition free_sockinst (h : nat) : mws_m unit :=
  upd_mg (fun g => set_mg_sockinsts (delete h (mg_sockinsts g)) g).

Definition mwsocket_put_sockinst (SockInst : option nat) : mws_m unit :=
  match SockInst with
  | None => ret tt
  | Some h =>
      upd_si h (fun x => set_si_refct (si_refct x - 1) x) ;;;
      let* x := get_si h in
      if truth (si_refct x) then ret tt
      else
        del_sockinst h ;;;
        del_sibling h ;;;
        mwsocket_set_pollable h false ;;;
        free_sockinst h
  end.

Definition init_sockinst (proc : Z) (h : nat) : mwsocket_instance :=
  set_si_proc proc (set_si_local_fd (-1) (set_si_remote_fd MT_INVALID_SOCKET_FD
 (set_si_local_bind {| sa_family := AF_INET; sa_port := 0; sa_addr := 0 |}
 (set_si_peer {| sa_family := AF_INET; sa_port := 0; sa_addr := 0 |}
 (set_si_ins_alive true (set_si_usersock h (set_si_request_sem 1
 (set_si_state_valid true (set_si_refct 1 si_zero))))))))).

(** The file behind a descriptor, step by step up to the first failure;
    the error code, or the descriptor, the file and its flags. *)
Definition create_backing_file (Flags : Z) (h : nat) : mws_m Z :=
  let flags := Z.lor O_RDWR Flags in
  let* fd := os_ret (GetUnusedFd flags) in
  if fd <? 0 then ret (- EMFILE)
  else
    let* inode := os_ret NewInodePseudo in
    if inode =? 0 then ret (- ENOMEM)
    else
      upd_si h (set_si_inode true) ;;;
      let* dentry := os_ret DAllocPseudo in
      if dentry =? 0 then ret (- ENOMEM)
      else
        let* file := os_ret AllocFile in
        if file <? 0 then ret file
        else
          let* f := new_address in
          upd_si h (set_si_file (Some f)) ;;;
          upd_mg (fun g => set_mg_files (<[f := h]> (mg_files g)) g) ;;;
          let* now := oscall GetNsTimeOfDay in
          upd_si h (fun x => set_si_local_fd fd (set_si_f_flags flags
                               (set_si_est_time (m_time now) x))) ;;;
          ret 0.

Definition mwsocket_create_sockinst (Flags : Z) (Pollable CreateBackingFile : bool)
    : mws_m (Z * option nat) :=
  let* mem := os_ret KmemCacheAlloc in
  if mem =? 0 then ret (- ENOMEM, None)
  else
    let* h := new_address in
    let* proc := os_ret CurrentTask in
    upd_mg (fun g => set_mg_sockinsts (<[h := init_sockinst proc h]> (mg_sockinsts g))
                    (set_mg_sockinst_list (h :: mg_sockinst_list g)
                    (set_mg_sockinst_count (mg_sockinst_count g + 1) g))) ;;;
    mwsocket_set_pollable h Pollable ;;;
    if negb CreateBackingFile then ret (0, Some h)
    else
      let* rc := create_backing_file Flags h in
      if truth rc then
        del_sockinst h ;;;
        free_sockinst h ;;;
        ret (rc, None)
      else ret (0, Some h).

(** ** Active requests *)

Definition mwsocket_destroy_active_request (Request : option nat) : mws_m unit :=
  match Request with
  | None => ret tt
  | Some a =>
      let* x := get_ar a in
      upd_si (ar_sockinst x) (fun s =>
        if si_close_blockid s =? ar_id x then set_si_close_blockid MT_ID_UNSET_VALUE s else s) ;;;
      mwsocket_put_sockinst (Some (ar_sockinst x)) ;;;
      upd_mg (fun g => set_mg_active_requests (delete a (mg_active_requests g))
                         (set_mg_active_request_list (without a (mg_active_request_list g)) g))
  end.

Definition mwsocket_create_active_request (h : nat) : mws_m (Z * option nat) :=
  let* x := get_si h in
  if negb (si_ins_alive x) then ret (- EINVAL, None)
  else
    let* mem := os_ret KmemCacheAlloc in
    if mem =? 0 then ret (- ENOMEM, None)
    else
      let* a := new_address in
      mwsocket_get_sockinst h ;;;
      let* id := mwsocket_get_next_id in
      upd_mg (fun g => set_mg_active_requests
                         (<[a := set_ar_id id (set_ar_sockinst h ar_zero)]> (mg_active_requests g))
                      (set_mg_active_request_list (a :: mg_active_request_list g) g)) ;;;
      ret (0, Some a).

(** ** Errors for the next call *)

Definition mwsocket_pending_error (h : nat) (RequestType : Z) : mws_m Z :=
  let* x := get_si h in
  if is_type MtRequestSocketShutdown RequestType || is_type MtRequestSocketClose RequestType
  then ret 0
  else if si_remote_surprise_close x then
    when (is_type MtRequestSocketSend RequestType)
      (let* me := os_ret CurrentTask in os_ret (SendSig SIGPIPE me) ;;; ret tt) ;;;
    ret (- MW_ERROR_REMOTE_SURPRISE_CLOSE)
  else if truth (si_pending_errno x) then
    upd_si h (set_si_pending_errno 0) ;;; ret (si_pending_errno x)
  else ret 0.

(** ** The way to the ring *)

(** Writes the preamble of a request. *)
Definition upd_base (a : nat) (f : mt_request_base -> mt_request_base) : mws_m unit :=
  upd_ar a (fun x => set_ar_rr (put_request_base (f (get_request_base (ar_rr x)))
                                  ++ drop (sizeof ct_request_base) (ar_rr x)) x).
Definition get_base (a : nat) : mws_m mt_request_base :=
  let* x := get_ar a in ret (get_request_base (ar_rr x)).

Definition base_with_sockfd (fd : Z) (b : mt_request_base) : mt_request_base :=
  {| rq_sig := rq_sig b; rq_type := rq_type b; rq_size := rq_size b; rq_id := rq_id b;
     rq_sockfd := fd; rq_flags := rq_flags b |}.
Definition base_with_type (type size : Z) (b : mt_request_base) : mt_request_base :=
  {| rq_sig := rq_sig b; rq_type := type; rq_size := size; rq_id := rq_id b;
     rq_sockfd := rq_sockfd b; rq_flags := rq_flags b |}.
Definition base_to_send (id remote_fd : Z) (b : mt_request_base) : mt_request_base :=
  {| rq_sig := MT_SIGNATURE_REQUEST; rq_type := rq_type b; rq_size := rq_size b; rq_id := id;
     rq_sockfd := if MW_SOCKET_IS_FD (rq_sockfd b) then rq_sockfd b else remote_fd;
     rq_flags := rq_flags b |}.

(** The writer's state of a caller that waits for the response. *)
Definition note_caller_waits (a : nat) : mws_m unit :=
  let* x := get_ar a in
  let* b := get_base a in
  when (MT_REQUEST_CALLER_WAITS b)
    (upd_si (ar_sockinst x) (fun s => set_si_blockid (ar_id x) (set_si_read_expected true s)) ;;;
     upd_ar a (set_ar_deliver_response true)).

(** The wait of a close for the operations in flight: at most [n] looks,
    with a sleep after each that failed. *)
Fixpoint close_wait (n : nat) (h : nat) : mws_p bool :=
  match n with
  | O => PRet false
  | Datatypes.S n' =>
      let! acquired := lift (down_write_trylock_close h) in
      if acquired : bool then PRet true
      else lift (mwsocket_wait CLOSE_WAIT_TIMEOUT) ;!; close_wait n' h
  end.

Definition enforce_close_lock (a : nat) : mws_p unit :=
  let! x := lift (get_ar a) in
  let! b := lift (get_base a) in
  let h := ar_sockinst x in
  if MT_CLOSE_WAITS (rq_type b) then
    lift (down_read_close h ;;; upd_si h (set_si_close_blockid (ar_id x)))
  else if is_type MtRequestSocketClose (rq_type b) then
    let! s := lift (get_si h) in
    (if negb (si_close_blockid s =? MT_ID_UNSET_VALUE)
     then close_wait 60 h ;!; PRet tt else PRet tt) ;!;
    lift (upd_si h (set_si_close_blockid MT_ID_UNSET_VALUE))
  else PRet tt.

(** What the request tells about the socket. *)
Definition record_request (a : nat) : mws_m unit :=
  let* x := get_ar a in
  let* b := get_base a in
  let h := ar_sockinst x in
  let* s := get_si h in
  let type := rq_type b in
  if is_type MtRequestSocketCreate type then
    let c := get_socket_create (ar_rr x) in
    upd_si h (fun s => set_si_sock_fam (cr_sock_fam c) (set_si_sock_type (cr_sock_type c)
                         (set_si_sock_protocol (cr_sock_protocol c) s)))
  else if is_type MtRequestSocketListen type then
    upd_si h (set_si_backlog (get_listen_backlog (ar_rr x)))
  else if is_type MtRequestSocketBind type then
    upd_si h (set_si_bind_sockaddr
      (take (sizeof ct_sockaddr_in) (drop (sizeof ct_request_base) (ar_rr x))))
  else if is_type MtRequestSocketAccept type then
    upd_si h (fun s => set_si_defer_accept (s32 (get_accept_flags (ar_rr x)))
                         (set_si_mwflags (set_flag MWSOCKET_FLAG_ACCEPT (si_mwflags s)) s)) ;;;
    match si_poll_active s with
    | Some p =>
        if has_flag (si_poll_events s) POLLIN then
          let* y := get_si p in upd_base a (base_with_sockfd (si_remote_fd y))
        else ret tt
    | None => ret tt
    end
  else if is_type MtRequestSocketSend type then
    when (negb (has_flag (si_u_flags s) MT_FLAGS_BATCH_SEND)
          && has_flag (rq_flags b) MT_FLAGS_BATCH_SEND)
      (upd_si h (fun s => set_si_send_tally 0
                            (set_si_u_flags (set_flag MT_FLAGS_BATCH_SEND (si_u_flags s)) s)))
  else ret tt.

Definition mwsocket_pre_process_request (a : nat) : mws_p Z :=
  lift (note_caller_waits a) ;!;
  enforce_close_lock a ;!;
  lift (record_request a) ;!;
  PRet 0.

(** Up to the slot: the code of the release when there is none, or the
    handle of the ring and the slot, locked. *)
Definition acquire_request_slot (a : nat) (WaitForRing : bool) : mws_m (Z + nat * Z) :=
  let* x := get_ar a in
  let h := ar_sockinst x in
  let* s := get_si h in
  upd_base a (base_to_send (ar_id x) (si_remote_fd s)) ;;;
  let* b := get_base a in
  if negb (MT_IS_REQUEST b) then
    let* rc := xen (mw_xen_release_request None false) in ret (inl rc)
  else if negb (si_ins_alive s) then
    mwsocket_set_pollable h false ;;;
    let* rc := xen (mw_xen_release_request None false) in ret (inl rc)
  else
    let* (rc, req, hd) := xen (mw_xen_get_next_request_slot ring_fuel WaitForRing
                                 (MW_SOCKET_CLIENT_ID (rq_sockfd b))) in
    match hd, req with
    | Some i, Some slot => ret (inr (i, slot))
    | _, _ =>
        when WaitForRing
          (upd_si h (set_si_ins_alive false) ;;; mwsocket_set_pollable h false) ;;;
        let* rc := xen (mw_xen_release_request hd false) in ret (inl rc)
    end.

(** The copy into the slot, and its release. *)
Definition put_on_ring (a i : nat) (slot : Z) : mws_m Z :=
  let* x := get_ar a in
  let* b := get_base a in
  xen (fill_request_slot i slot (take (Z.to_nat (rq_size b)) (ar_rr x))) ;;;
  xen (mw_xen_release_request (Some i) true).

Definition mwsocket_send_request (a : nat) (WaitForRing : bool) : mws_p Z :=
  let! got := lift (acquire_request_slot a WaitForRing) in
  match got with
  | inl rc => PRet rc
  | inr (i, slot) =>
      let! rc := mwsocket_pre_process_request a in
      if truth rc then lift (xen (mw_xen_release_request (Some i) false))
      else lift (put_on_ring a i slot)
  end.

(** The request is destroyed before its response is read: the status is
    the old one only while nobody was given the memory. *)
Definition finish_message (a : nat) : mws_m Z :=
  let* x := get_ar a in
  mwsocket_destroy_active_request (Some a) ;;;
  let* reused := oscall FreedRequestReused in
  let status := if truth (m_ret reused) then m_val reused
                else rs_status (get_response_base (ar_rr x)) in
  ret (s32 (- status)).

(** The wait for the response of a message. *)
Definition await_message (a : nat) : mws_p Z :=
  let! rc := lift (wait_arrived_interruptible_timeout a GENERAL_RESPONSE_TIMEOUT) in
  if rc =? 0 then PRet (- ETIME)
  else if rc <? 0 then PRet rc
  else lift (finish_message a).

(** On every error the active request is left behind. *)
Definition mwsocket_send_message (h : nat) (Request : list Z) (AwaitResponse : bool) : mws_p Z :=
  let! (rc, actreq) := lift (mwsocket_create_active_request h) in
  match actreq with
  | None => PRet rc
  | Some a =>
      lift (upd_ar a (set_ar_deliver_response AwaitResponse) ;;;
            memcpy_rr a (rq_size (get_request_base Request)) Request) ;!;
      let! rc := mwsocket_send_request a true in
      if truth rc then PRet rc
      else if negb AwaitResponse then PRet rc
      else await_message a
  end.

(** ** Closing on the INS *)

Definition mwsocket_close_remote (h : nat) (WaitForResponse : bool) : mws_p Z :=
  let! s := lift (get_si h) in
  if negb (MW_SOCKET_IS_FD (si_remote_fd s)) then PRet (- EINVAL)
  else if si_remote_close_requested s then PRet 0
  else
    let! (rc, actreq) := lift (
      upd_si h (fun s => set_si_remote_close_requested true
                           (set_si_mwflags (set_flag MWSOCKET_FLAG_CLOSED (si_mwflags s)) s)) ;;;
      mwsocket_create_active_request h) in
    match actreq with
    | None => PRet rc
    | Some a =>
        lift (upd_ar a (set_ar_deliver_response WaitForResponse) ;;;
              upd_base a (base_with_type (request_type_code MtRequestSocketClose)
                            MT_REQUEST_SOCKET_CLOSE_SIZE)) ;!;
        let! rc := mwsocket_send_request a true in
        if truth rc then lift (mwsocket_destroy_active_request (Some a)) ;!; PRet rc
        else if negb WaitForResponse then PRet rc
        else
          let! rc := lift (wait_arrived_timeout a GENERAL_RESPONSE_TIMEOUT) in
          lift (let* x := get_ar a in
                mwsocket_destroy_active_request (Some a) ;;;
                ret (if rc =? 0 then - ETIME else rs_status (get_response_base (ar_rr x))))
    end.

(** ** Mitigation *)

Definition mwsocket_close_by_remote_fd (RemoteFd : Z) (Wait : bool) : mws_p Z :=
  let! (rc, found) := lift (mwsocket_find_sockinst_by_remote_fd RemoteFd) in
  match found with
  | None => PRet rc
  | Some h =>
      let! rc := mwsocket_close_remote h Wait in
      if truth rc then PRet rc
      else lift (upd_si h (set_si_remote_surprise_close true)) ;!; PRet rc
  end.

(** A request without a body behind its preamble is zero there. *)
Definition request_bytes (type size sockfd : Z) (body : list Z) : list Z :=
  let bytes := put_request_base {| rq_sig := 0; rq_type := type; rq_size := size; rq_id := 0;
                                   rq_sockfd := sockfd; rq_flags := 0 |} ++ body in
  bytes ++ replicate (Z.to_nat size - length bytes) 0.

(** strncpy() of [n] bytes. *)
Fixpoint upto_nul (bs : list Z) : list Z :=
  match bs with
  | [] => []
  | b :: rest => if b =? 0 then [] else b :: upto_nul rest
  end.
Definition strncpy (n : nat) (bs : list Z) : list Z :=
  let copied := take n (upto_nul bs) in copied ++ replicate (n - length copied) 0.

(** [block] and [addr] are those of the feature request; its preamble
    also carries the signature. *)
Definition mwsocket_block_ip_mitigation (Domid : Z) (block : Z) (addr : list Z) : mws_p Z :=
  let! (rc, newsock) := lift (mwsocket_create_sockinst 0 false false) in
  match newsock with
  | None => PRet rc
  | Some h =>
      mwsocket_send_message h
        (request_bytes (request_type_code MtRequestAddrBlock) MT_REQUEST_ADDR_BLOCK_SIZE
           MT_INVALID_SOCKET_FD (le_bytes 4 block ++ strncpy MT_INET_ADDRSTRLEN addr)) true
  end.

(** The response is not waited for: what is copied is what the region of
    the request holds right after the send. *)
Definition mwsocket_send_bare_request (Request : list Z) (response_size : Z)
    : mws_p (Z * option (list Z)) :=
  let base := get_request_base Request in
  if ONE_REQUEST_REGION_SIZE <? rq_size base then PRet (- EINVAL, None)
  else
    let! (rc, found) := lift (mwsocket_find_sockinst_by_remote_fd (rq_sockfd base)) in
    match found with
    | None => PRet (rc, None)
    | Some h =>
        let! (rc, actreq) := lift (mwsocket_create_active_request h) in
        match actreq with
        | None => PRet (rc, None)
        | Some a =>
            lift (upd_ar a (set_ar_deliver_response true) ;;;
                  memcpy_rr a (rq_size base) Request) ;!;
            let! rc := mwsocket_send_request a true in
            lift (let* x := get_ar a in
                  let size := rs_size (get_response_base (ar_rr x)) in
                  mwsocket_destroy_active_request (Some a) ;;;
                  ret (if truth rc then (rc, None)
                       else if response_size <? size then (- ENOSPC, None)
                       else (0, Some (take (Z.to_nat size) (ar_rr x)))))
        end
    end.

End Requests.
