(* ===== verification/MwsResponse.v ===== *)
(** * MwsResponse: responses, the monitor and its reaper

    mwcomms-socket.c: what a response changes (the two post-processing
    functions), the thread that takes responses off the rings, the thread
    that polls the INS domains and cleans up after the dead ones. A
    response is the bytes of its slot; a change the driver makes to them
    is not written back to the ring, whose slot is given up right after. *)

From stdpp Require Import base numbers list gmap.
From Stdlib Require Import ZArith Lia.
From S2P Require Import Prelude MwSocket MessageTypes XenRing PvmXen Threads MwsState MwsRequest.
Import LinuxErrno.

(** Observations (mw_netflow_iface.h). *)
Definition MwObservationNone : Z := 0.
Definition MwObservationCreate : Z := 1.
Definition MwObservationBind : Z := 2.
Definition MwObservationAccept : Z := 3.
Definition MwObservationConnect : Z := 4.
Definition MwObservationRecv : Z := 5.
Definition MwObservationSend : Z := 6.
Definition MwObservationClose : Z := 7.

(** ** The bodies of responses *)

Definition rsp_fld (ws : list nat) (i : nat) (bs : list Z) : Z :=
  fld ws i (drop (sizeof ct_response_base) bs).

Definition rsp_send_count (bs : list Z) : Z := rsp_fld [4; 2]%nat 1 bs.
Definition rsp_recv_count (bs : list Z) : Z := rsp_fld [2]%nat 0 bs.
Definition rsp_recvfrom_count (bs : list Z) : Z :=
  fld [4; 2]%nat 1 (drop (sizeof ct_response_base + sizeof ct_sockaddr_in) bs).
Definition rsp_accept_flags (bs : list Z) : Z := rsp_fld [4]%nat 0 bs.
Definition rsp_accept_sockaddr (bs : list Z) : mt_sockaddr_in :=
  get_sockaddr_in (drop (sizeof ct_response_base + 4) bs).
Definition rsp_attrib_name (bs : list Z) : Z := rsp_fld [2; 4]%nat 0 bs.
Definition rsp_attrib_v32 (bs : list Z) : Z := rsp_fld [2; 4]%nat 1 bs.
Definition rsp_attrib_val (bs : list Z) : list Z :=
  take (sizeof ct_sockfeat_arg) (drop (sizeof ct_response_base + 2) bs).
Definition rsp_pollset_count (bs : list Z) : Z := rsp_fld [4]%nat 0 bs.
Definition rsp_pollset_item (i : nat) (bs : list Z) : mt_pollset_query_item :=
  let item := drop (sizeof ct_response_base + 4 + i * sizeof ct_pollset_query_item) bs in
  {| qi_sockfd := s64 (fld [8; 4]%nat 0 item); qi_events := fld [8; 4]%nat 1 item |}.

(** Overwrites [bytes] at an offset. *)
Definition patch (off : nat) (bytes bs : list Z) : list Z :=
  take off bs ++ bytes ++ drop (off + length bytes) bs.

Definition set_rsp_send_count (v : Z) (bs : list Z) : list Z :=
  patch (sizeof ct_response_base + 4) (le_bytes 2 v) bs.
(** [Response->base.sockfd = Response->base.status = v] *)
Definition set_rsp_fd (v : Z) (bs : list Z) : list Z :=
  patch 16 (le_bytes 8 v) (patch 24 (le_bytes 4 v) bs).

(** translate.h, in the kernel: a family has 16 bits. *)
Definition kernel_protocol_family (Fam : Z) : Z :=
  if Fam =? MT_PF_INET then AF_INET else if Fam =? MT_PF_INET6 then AF_INET6 else u16 (-1).

Section Responses.

Context {S W : Type} {R : XenRing S} {POS : PvmOS W} {OS : MwsOS W}.
Context (ring_fuel : nat).

#[local] Abbreviation mws_m := (mws_m (S := S) (W := W)).
#[local] Abbreviation mws_p := (mws_p (S := S) (W := W)).

Definition MONITOR_RESPONSE_TIMEOUT : Z := HZ * 2.
Definition MONITOR_QUERY_INTERVAL : Z := HZ / 32.

(** ** Netflow *)

(** The 16 bytes of an IPv6 address are more than a [struct sockaddr]
    has: what is read behind it is not known. *)
Definition mwsocket_populate_netflow_ip (a : sockaddr) : mws_m mw_endpoint :=
  if sa_family a =? AF_INET then
    ret {| ep_af := 4; ep_port := sa_port a; ep_addr := u32 (sa_addr a) |}
  else if sa_family a =? AF_INET6 then
    let* past := oscall ReadPastSockaddr in
    ret {| ep_af := 6; ep_port := sa_port a; ep_addr := m_val past |}
  else ret {| ep_af := 0; ep_port := 0; ep_addr := 0 |}.

(** The descriptor is converted as a 32-bit number. *)
Definition mwsocket_populate_netflow (a : nat) (obs extra : Z) : mws_m mw_netflow_info :=
  let* x := get_ar a in
  let* s := get_si (ar_sockinst x) in
  let* now := oscall GetNsTimeOfDay in
  let* pvm := mwsocket_populate_netflow_ip (si_local_bind s) in
  let* remote := mwsocket_populate_netflow_ip (si_peer s) in
  ret {| nf_obs := obs; nf_session_start := si_est_time s; nf_curr := m_time now;
         nf_sockfd := u32 (si_remote_fd s);
         nf_pvm := pvm; nf_remote := remote;
         nf_bytes_in := si_tot_recv s; nf_bytes_out := si_tot_sent s; nf_extra := extra |}.

Definition netflow_observation (type : Z) : option Z :=
  if is_response_type MtRequestSocketCreate type then Some MwObservationCreate
  else if is_response_type MtRequestSocketClose type then Some MwObservationClose
  else if is_response_type MtRequestSocketConnect type then Some MwObservationConnect
  else if is_response_type MtRequestSocketBind type then Some MwObservationBind
  else if is_response_type MtRequestSocketAccept type then Some MwObservationAccept
  else if is_response_type MtRequestSocketSend type then Some MwObservationSend
  else if is_response_type MtRequestSocketRecv type then Some MwObservationRecv
  else if is_response_type MtRequestSocketRecvFrom type then Some MwObservationRecv
  else None.

(** The address of an accepted peer replaces the first four bytes. *)
Definition with_remote (sa : mt_sockaddr_in) (nf : mw_netflow_info) : mw_netflow_info :=
  let e := {| ep_af := 4; ep_port := mt_sin_port sa;
              ep_addr := u32 (mt_sin_addr sa) + 2 ^ 32 * (ep_addr (nf_remote nf) / 2 ^ 32) |} in
  {| nf_obs := nf_obs nf; nf_session_start := nf_session_start nf; nf_curr := nf_curr nf;
     nf_sockfd := nf_sockfd nf; nf_pvm := nf_pvm nf; nf_remote := e;
     nf_bytes_in := nf_bytes_in nf; nf_bytes_out := nf_bytes_out nf; nf_extra := nf_extra nf |}.

Definition mwsocket_postproc_emit_netflow (a : nat) (Response : list Z) : mws_m unit :=
  let* exists_ := os_ret MwNetflowConsumerExists in
  if exists_ =? 0 then ret tt
  else
    let base := get_response_base Response in
    match netflow_observation (rs_type base) with
    | None => ret tt
    | Some obs =>
        let* nf := mwsocket_populate_netflow a obs (u64 (rs_sockfd base)) in
        let nf := if is_response_type MtRequestSocketAccept (rs_type base)
                  then with_remote (rsp_accept_sockaddr Response) nf else nf in
        os_ret (MwNetflowWriteAll nf) ;;; ret tt
    end.

(** ** The state after a response *)

(** The locks a close waits for. *)
Definition release_close_lock (a : nat) (type : Z) : mws_m unit :=
  let* x := get_ar a in
  let h := ar_sockinst x in
  let* s := get_si h in
  if MT_CLOSE_WAITS type then
    upd_si h (fun s => if si_close_blockid s =? ar_id x
                       then set_si_close_blockid MT_ID_UNSET_VALUE s else s) ;;;
    up_read_close h
  else if is_response_type MtRequestSocketClose type && si_close_lock_write s then
    up_write_close h ;;; upd_si h (set_si_close_lock_write false)
  else ret tt.

(** The tally of a batch of sends; the response with the total. *)
Definition tally_send (h : nat) (Response : list Z) : mws_m (list Z) :=
  let base := get_response_base Response in
  let* s := get_si h in
  if negb (is_response_type MtRequestSocketSend (rs_type base)) then ret Response
  else if has_flag (rs_flags base) MT_FLAGS_BATCH_SEND_FINI then
    upd_si h (set_si_u_flags (clear_flag (Z.lor MT_FLAGS_BATCH_SEND_INIT
                (Z.lor MT_FLAGS_BATCH_SEND MT_FLAGS_BATCH_SEND_FINI)) (si_u_flags s))) ;;;
    ret (set_rsp_send_count (u16 (rsp_send_count Response + si_send_tally s)) Response)
  else if has_flag (rs_flags base) MT_FLAGS_BATCH_SEND then
    when (0 <? rsp_send_count Response)
      (upd_si h (set_si_send_tally (s64 (si_send_tally s + rsp_send_count Response)))) ;;;
    ret Response
  else ret Response.

(** A returning accept() goes to the queue of the user socket. *)
Definition queue_accept (a : nat) (Response : list Z) : mws_m unit :=
  let* x := get_ar a in
  let h := ar_sockinst x in
  upd_si h (fun s => set_si_mwflags (clear_flag MWSOCKET_FLAG_ACCEPT (si_mwflags s)) s) ;;;
  let* s := get_si h in
  when (si_remote_close_requested s) (upd_ar a (set_ar_deliver_response false)) ;;;
  memcpy_rr a (rs_size (get_response_base Response)) Response ;;;
  upd_ar a (set_ar_response_populated true) ;;;
  upd_si (si_usersock s) (fun p => set_si_inbound_sem (si_inbound_sem p + 1)
                                     (set_si_inbound_list (si_inbound_list p ++ [a]) p)).

(** The state after a success; [Response] is the response as changed. *)
Definition record_success (h : nat) (Response : list Z) : mws_m unit :=
  let base := get_response_base Response in
  let type := rs_type base in
  let add_flag flag := upd_si h (fun s => set_si_mwflags (set_flag flag (si_mwflags s)) s) in
  let add_recv n := upd_si h (fun s => set_si_tot_recv (u64 (si_tot_recv s + n)) s) in
  if is_response_type MtRequestSocketCreate type then upd_si h (set_si_remote_fd (rs_sockfd base))
  else if is_response_type MtRequestSocketListen type then add_flag MWSOCKET_FLAG_LISTENING
  else if is_response_type MtRequestSocketBind type then add_flag MWSOCKET_FLAG_BOUND
  else if is_response_type MtRequestSocketConnect type then add_flag MWSOCKET_FLAG_CONNECTED
  else if is_response_type MtRequestSocketSend type then
    upd_si h (fun s => set_si_tot_sent (u64 (si_tot_sent s + rsp_send_count Response)) s)
  else if is_response_type MtRequestSocketRecv type then add_recv (rsp_recv_count Response)
  else if is_response_type MtRequestSocketRecvFrom type then add_recv (rsp_recvfrom_count Response)
  else if is_response_type MtRequestSocketAttrib type then
    if rsp_attrib_name Response =? sockfeat_code MtSockAttribDeferAccept then
      let* s := get_si h in
      upd_si (si_usersock s) (set_si_defer_accept (s32 (rsp_attrib_v32 Response)))
    else ret tt
  else ret tt.

(** The response as it was changed on the ring. *)
Definition mwsocket_postproc_no_context (a : nat) (Response : list Z) : mws_m (list Z) :=
  let base := get_response_base Response in
  let* x := get_ar a in
  let h := ar_sockinst x in
  release_close_lock a (rs_type base) ;;;
  let* Response := tally_send h Response in
  when (has_flag (rs_flags base) MT_FLAGS_REMOTE_CLOSED)
    (upd_si h (set_si_remote_surprise_close true)) ;;;
  when (is_response_type MtRequestSocketAccept (rs_type base)) (queue_accept a Response) ;;;
  (if rs_status base <? 0 then ret tt else record_success h Response) ;;;
  ret Response.

(** In the process that reads: a new local socket for an accepted one.
    The code, and the response for the user. *)
Definition mwsocket_postproc_in_task (a : nat) (Response : list Z) : mws_m (Z * list Z) :=
  let base := get_response_base Response in
  if negb (is_response_type MtRequestSocketAccept (rs_type base)) || (rs_status base <? 0)
  then ret (0, Response)
  else
    let* (rc, acceptinst) :=
      mwsocket_create_sockinst (rsp_accept_flags Response) true true in
    match acceptinst with
    | None => ret (rc, Response)
    | Some c =>
        let* x := get_ar a in
        let* s := get_si (ar_sockinst x) in
        let sa := rsp_accept_sockaddr Response in
        upd_si c (fun y => set_si_remote_fd (rs_sockfd base)
          (set_si_mwflags (set_flag MWSOCKET_FLAG_USER (si_mwflags y))
          (set_si_local_bind (si_local_bind s)
          (set_si_peer {| sa_family := kernel_protocol_family (mt_sin_family sa);
                          sa_port := mt_sin_port sa; sa_addr := u32 (mt_sin_addr sa) |} y)))) ;;;
        let* y := get_si c in
        let Response := set_rsp_fd (si_local_fd y) Response in
        upd_ar a (fun x => set_ar_rr (Response ++ drop (length Response) (ar_rr x)) x) ;;;
        ret (0, Response)
    end.

(** ** The response consumer *)

(** One response found on the ring of [hd] for the request [a]. *)
Definition deliver_response (a : nat) (Response : list Z) : mws_m unit :=
  let* Response := mwsocket_postproc_no_context a Response in
  mwsocket_postproc_emit_netflow a Response ;;;
  let* x := get_ar a in
  let* dying :=
    (if ar_deliver_response x && ar_from_user x then
       let* s := get_si (ar_sockinst x) in
       let* d := os_ret (ProcessDying (si_proc s)) in ret (truth d)
     else ret false) in
  if negb (ar_deliver_response x) || dying then mwsocket_destroy_active_request (Some a)
  else
    when (negb (ar_response_populated x))
      (memcpy_rr a (rs_size (get_response_base Response)) Response ;;;
       upd_ar a (set_ar_response_populated true)) ;;;
    complete_arrived a.

(** One pass of the loop: 0 to go on, or the end of the thread. *)
Definition consume_response : mws_m (option Z) :=
  let* found := xen mw_xen_response_available in
  match found with
  | None =>
      let* exiting := get_mg mg_pending_exit in
      if exiting : bool then ret (Some 0)
      else
        let* n := get_mg mg_event_channel_sem in
        if 0 <? n then upd_mg (set_mg_event_channel_sem (n - 1)) ;;; ret None
        else
          let* r := os_ret SignalPending in
          if truth r then ret (Some (- EINTR)) else block
  | Some hd =>
      let* (rc, response) := xen (mw_xen_get_next_response hd) in
      match response with
      | None => ret (Some rc)
      | Some Response =>
          let* exiting := get_mg mg_pending_exit in
          if exiting : bool then ret (Some 0)
          else
            let* (rc, actreq) :=
              mwsocket_find_active_request_by_id (rs_id (get_response_base Response)) in
            match actreq with
            | None => xen (mw_xen_mark_response_consumed (Some hd)) ;;; ret None
            | Some a =>
                deliver_response a Response ;;;
                xen (mw_xen_mark_response_consumed (Some hd)) ;;; ret None
            end
      end
  end.

(** complete_all() leaves a completion that never blocks again. *)
Definition wait_xen_iface_ready : mws_m Z :=
  let* n := get_mg mg_xen_iface_ready in
  if 0 <? n then ret 0
  else
    let* r := os_ret SignalPending in
    if truth r then ret (- ERESTARTSYS) else block.

Fixpoint consumer_loop (n : nat) : mws_p Z :=
  match n with
  | O => lift out_of_fuel
  | Datatypes.S n' =>
      let! end_ := lift consume_response in
      match end_ with Some rc => PRet rc | None => consumer_loop n' end
  end.

(** [n] passes of the loop at most. *)
Definition mwsocket_response_consumer (n : nat) : mws_p Z :=
  let! rc := lift wait_xen_iface_ready in
  let! exiting := lift (get_mg mg_pending_exit) in
  let! rc := (if rc <? 0 then PRet rc else if exiting : bool then PRet rc else consumer_loop n) in
  lift (upd_mg (fun g => set_mg_response_reader_done (mg_response_reader_done g + 1) g)) ;!;
  PRet rc.

(** ** Iteration over a global list *)

(** The element behind [h]. *)
Fixpoint after (h : nat) (l : list nat) : option nat :=
  match l with
  | [] => None
  | g :: rest => if (g =? h)%nat then head rest else after h rest
  end.

(** list_for_each_entry_safe(): the next element is taken before the
    body runs, so that the body can remove the current one. [n] bounds
    the elements visited. *)
Fixpoint each_safe (get : mwsocket_globals -> list nat) (body : nat -> mws_m unit)
    (n : nat) (cur : option nat) : mws_m unit :=
  match cur with
  | None => ret tt
  | Some h =>
      match n with
      | O => out_of_fuel
      | Datatypes.S n' =>
          let* l := get_mg get in
          let next := after h l in
          body h ;;;
          each_safe get body n' next
      end
  end.

Definition for_each_safe (get : mwsocket_globals -> list nat) (body : nat -> mws_m unit) : mws_m unit :=
  let* l := get_mg get in each_safe get body (length l) (head l).

(** ** Dead INS domains *)

(** The search through the array of dead domains: the position it ends
    at. Behind the last entry the array is read out of bounds. *)
Fixpoint dead_index (dead : list Z) (domid : Z) (i : nat) : nat :=
  match dead with
  | [] => i
  | d :: rest => if (d =? 0) || (d =? domid) then i else dead_index rest domid (Datatypes.S i)
  end.

(** Is the INS of this descriptor dead? *)
Definition ins_is_dead (dead : list Z) (fd : Z) : mws_m bool :=
  let domid := MW_SOCKET_CLIENT_ID fd in
  match dead !! dead_index dead domid 0 with
  | None => undef
  | Some d => ret (domid =? d)
  end.

(** The failure that stands for the response of a dead INS. *)
Definition dead_response (b : mt_request_base) : list Z :=
  put_response_base {| rs_sig := MT_SIGNATURE_RESPONSE; rs_type := MT_RESPONSE (rq_type b);
    rs_size := MT_RESPONSE_BASE_SIZE; rs_id := rq_id b; rs_sockfd := rq_sockfd b;
    rs_status := - ENOENT; rs_flags := 0; rs_ts_ins := 0; rs_body := BodyUnset |}
  ++ replicate (Z.to_nat (RESPONSE_REGION_SIZE - MT_RESPONSE_BASE_SIZE)) 0.

(** The request [a] gets that failure. *)
Definition fail_request (a : nat) : mws_m unit :=
  let* mem := os_ret KmallocGfp in
  if mem =? 0 then ret tt
  else
    let* b := get_base a in
    let* Response := mwsocket_postproc_no_context a (dead_response b) in
    mwsocket_postproc_emit_netflow a Response ;;;
    memcpy_rr a MT_RESPONSE_BASE_SIZE Response ;;;
    upd_ar a (set_ar_response_populated true) ;;;
    complete_arrived a.

Definition reap_request (dead : list Z) (a : nat) : mws_m unit :=
  let* x := get_ar a in
  let* s := get_si (ar_sockinst x) in
  let* d := ins_is_dead dead (si_remote_fd s) in
  if negb d then ret tt
  else if ar_deliver_response x then
    let* b := get_base a in
    let accepting := is_type MtRequestSocketAccept (rq_type b) in
    if accepting && negb (has_flag (si_mwflags s) MWSOCKET_FLAG_USER) then
      mwsocket_destroy_active_request (Some a)
    else if negb accepting && negb (ar_response_populated x) then fail_request a
    else ret tt
  else mwsocket_destroy_active_request (Some a).

(** The first live sibling whose INS did not die now. *)
Fixpoint find_replacement (dead : list Z) (siblings : list nat) : mws_m (option nat) :=
  match siblings with
  | [] => ret None
  | h :: rest =>
      let* x := get_si h in
      if negb (si_ins_alive x) || bool_decide (MW_SOCKET_CLIENT_ID (si_remote_fd x) ∈ dead)
      then find_replacement dead rest
      else ret (Some h)
  end.

(** The requests of the user socket [h] go, those of the sibling [r]
    become its own. *)
Definition move_request (h r : nat) (a : nat) : mws_m unit :=
  let* x := get_ar a in
  if (ar_sockinst x =? h)%nat then mwsocket_destroy_active_request (Some a)
  else if (ar_sockinst x =? r)%nat then
    upd_ar a (set_ar_sockinst h) ;;;
    mwsocket_put_sockinst (Some r) ;;;
    mwsocket_get_sockinst h
  else ret tt.

Definition take_over (h r : nat) : mws_m unit :=
  for_each_safe mg_active_request_list (move_request h r) ;;;
  let* y := get_si r in
  upd_si h (fun x => set_si_remote_fd (si_remote_fd y)
    (set_si_mwflags (set_flag MWSOCKET_FLAG_USER (si_mwflags y))
    (set_si_poll_events (si_poll_events y) (set_si_send_tally (si_send_tally y)
    (set_si_pending_errno (si_pending_errno y) (set_si_est_time (si_est_time y)
    (set_si_tot_sent (si_tot_sent y) (set_si_tot_recv (si_tot_recv y)
    (set_si_read_expected (si_read_expected y)
    (set_si_remote_close_requested (si_remote_close_requested y)
    (set_si_remote_surprise_close (si_remote_surprise_close y)
    (set_si_close_lock_write (si_close_lock_write y)
    (set_si_close_blockid (si_close_blockid y) x))))))))))))) ;;;
  mwsocket_put_sockinst (Some r) ;;;
  upd_si h (set_si_ins_alive true) ;;;
  mwsocket_set_pollable h true.

Definition reap_sockinst (dead : list Z) (h : nat) : mws_m unit :=
  let* s := get_si h in
  let* d := ins_is_dead dead (si_remote_fd s) in
  if negb d then ret tt
  else
    upd_si h (set_si_ins_alive false) ;;;
    mwsocket_set_pollable h false ;;;
    let* (rc, blockreq) := mwsocket_find_active_request_by_id (si_blockid s) in
    let accepting := has_flag (si_mwflags s) MWSOCKET_FLAG_ACCEPT in
    if accepting && negb (has_flag (si_mwflags s) MWSOCKET_FLAG_USER) then
      mwsocket_put_sockinst (Some h)
    else if accepting then
      let* found := find_replacement dead (si_sibling_listeners s) in
      match found with
      | None =>
          match blockreq with
          | None => undef
          | Some a => fail_request a
          end
      | Some r => take_over h r
      end
    else ret tt.

(** [Dead_INS_Array]: the domain ids in front, zeros behind. An
    allocation that fails is passed over; only the return code shows it. *)
Definition mwsocket_reap_dead_sock_instances (dead : list Z) : mws_m unit :=
  match dead with
  | [] => undef
  | d :: _ =>
      if d =? 0 then ret tt
      else
        for_each_safe mg_active_request_list (reap_request dead) ;;;
        for_each_safe mg_sockinst_list (reap_sockinst dead)
  end.

(** ** Polling *)

(** The domains of the pollable sockets, each with its socket, at most
    one per entry of the array. An entry with the domain 0 is free, so
    that this domain is found in it. *)
Fixpoint note_domid (ins : list (Z * nat)) (room : nat) (domid : Z) (h : nat) : list (Z * nat) :=
  match ins with
  | [] => match room with
          | O => []
          | Datatypes.S _ => if domid =? 0 then [] else [(domid, h)]
          end
  | (d, g) :: rest =>
      if d =? domid then ins
      else match room with
           | O => ins
           | Datatypes.S room' => (d, g) :: note_domid rest room' domid h
           end
  end.

Fixpoint poll_targets (monitor : nat) (l : list nat) (ins : list (Z * nat)) : mws_m (list (Z * nat)) :=
  match l with
  | [] => ret ins
  | h :: rest =>
      let* x := get_si h in
      if negb (si_ins_alive x) then mwsocket_set_pollable h false ;;; poll_targets monitor rest ins
      else if (monitor =? h)%nat
              || has_flag (si_mwflags x) (Z.lor MWSOCKET_FLAG_CLOSED MWSOCKET_FLAG_RELEASED)
      then poll_targets monitor rest ins
      else if (length ins =? MAX_INS_COUNT)%nat then ret ins
      else poll_targets monitor rest
             (note_domid ins MAX_INS_COUNT (MW_SOCKET_CLIENT_ID (si_remote_fd x)) h)
  end.

(** One query per domain, backed by the socket of the monitor. The code
    and the requests made so far. *)
Fixpoint send_queries (monitor : nat) (domids : list Z) (made : list nat) : mws_p (Z * list nat) :=
  match domids with
  | [] => PRet (0, made)
  | d :: rest =>
      if d =? 0 then send_queries monitor rest made
      else
      let! (rc, actreq) := lift (mwsocket_create_active_request monitor) in
      match actreq with
      | None => PRet (rc, made)
      | Some a =>
          lift (upd_base a (fun b => base_with_sockfd (s64 (MW_SOCKET_CREATE d 0))
                  (base_with_type (request_type_code MtRequestPollsetQuery)
                     MT_REQUEST_POLLSET_QUERY_SIZE b)) ;;;
                upd_ar a (set_ar_deliver_response true)) ;!;
          let! rc := mwsocket_send_request ring_fuel a true in
          if truth rc then PRet (rc, made ++ [a]) else send_queries monitor rest (made ++ [a])
      end
  end.

(** The events of one reported socket, for the first item that names it.
    The count is the INS's; items behind the region are read out of
    bounds. *)
Fixpoint find_events (fd : Z) (n i : nat) (Response : list Z) : mws_m (option Z) :=
  match n with
  | O => ret None
  | Datatypes.S n' =>
      if (RR_SIZE <? sizeof ct_response_base + 4 + Datatypes.S i * sizeof ct_pollset_query_item)%nat
      then undef
      else
        let item := rsp_pollset_item i Response in
        if qi_sockfd item =? fd then ret (Some (qi_events item))
        else find_events fd n' (Datatypes.S i) Response
  end.

Definition report_events (Response : list Z) (h : nat) : mws_m unit :=
  let* x := get_si h in
  upd_si (si_usersock x) (set_si_poll_events 0) ;;;
  let* found := find_events (si_remote_fd x) (Z.to_nat (rsp_pollset_count Response)) 0 Response in
  match found with
  | None => ret tt
  | Some events =>
      upd_si (si_usersock x) (fun u => set_si_poll_active (Some h)
                                         (set_si_poll_events (Z.lor (si_poll_events u) events) u))
  end.

Fixpoint poll_reports (Response : list Z) (l : list nat) : mws_m unit :=
  match l with
  | [] => ret tt
  | h :: rest => report_events Response h ;;; poll_reports Response rest
  end.

(** The response to one query; a timeout or a failure is passed over. *)
Definition await_query (a : nat) : mws_p unit :=
  let! rc := lift (wait_arrived_timeout a MONITOR_RESPONSE_TIMEOUT) in
  if rc =? 0 then PRet tt
  else
    lift (let* x := get_ar a in
          let Response := ar_rr x in
          if rs_status (get_response_base Response) <? 0 then ret tt
          else if rsp_pollset_count Response =? 0 then ret tt
          else let* l := get_mg mg_sockinst_list in poll_reports Response l).

Fixpoint await_queries (made : list nat) : mws_p unit :=
  match made with
  | [] => PRet tt
  | a :: rest => await_query a ;!; await_queries rest
  end.

Fixpoint destroy_queries (made : list nat) : mws_m unit :=
  match made with
  | [] => ret tt
  | a :: rest => mwsocket_destroy_active_request (Some a) ;;; destroy_queries rest
  end.

Definition mwsocket_poll_handle_notifications (SockInst : nat) : mws_p Z :=
  let! ins := lift (let* l := get_mg mg_sockinst_list in poll_targets SockInst l []) in
  let! (rc, made) := send_queries SockInst (map fst ins) [] in
  let! rc := (if truth rc then PRet rc
              else
                await_queries made ;!;
                lift (os_ret WakeUpInterruptible ;;; ret tt) ;!;
                PRet 0) in
  lift (destroy_queries made) ;!;
  PRet rc.

(** ** The monitor *)

(** One pass: sleep, reap, poll. *)
Definition monitor_pass (sockinst : nat) : mws_p unit :=
  lift (mwsocket_wait MONITOR_QUERY_INTERVAL) ;!;
  let! (rc, dead) := lift (xen mw_xen_reap_dead_ins) in
  lift (mwsocket_reap_dead_sock_instances
          (dead ++ replicate (MAX_INS_COUNT - length dead) 0)) ;!;
  let! n := lift (get_mg mg_poll_sock_count) in
  if n <? 1 then PRet tt
  else
    let! rc := mwsocket_poll_handle_notifications sockinst in
    if truth rc then PRet tt
    else lift (upd_si sockinst (set_si_ins_alive true)).

Fixpoint monitor_loop (n : nat) (sockinst : nat) : mws_p unit :=
  let! exiting := lift (get_mg mg_pending_exit) in
  if exiting : bool then PRet tt
  else
    match n with
    | O => lift out_of_fuel
    | Datatypes.S n' => monitor_pass sockinst ;!; monitor_loop n' sockinst
    end.

Definition mwsocket_monitor (n : nat) : mws_p unit :=
  let! (rc, sockinst) := lift (mwsocket_create_sockinst 0 false false) in
  (match sockinst with
   | None => PRet tt
   | Some h =>
       let! rc := lift wait_xen_iface_ready in
       if rc <? 0 then PRet tt else monitor_loop n h
   end) ;!;
  lift (mwsocket_put_sockinst sockinst ;;;
        upd_mg (fun g => set_mg_monitor_done (mg_monitor_done g + 1) g)).

End Responses.
