(* ===== verification/MwsFile.v ===== *)
(** * MwsFile: the operations of a socket's file, listeners, start and end

    mwcomms-socket.c: the callbacks of the file behind a descriptor
    (write, read, ioctl, poll, release), the creation of a socket, the
    replication of a listening socket onto every INS, and the start and
    end of the subsystem. The memory of the user is an argument of a
    write and a result of a read; [CopyFromUser] and [CopyToUser] are the
    copies, which can fail. *)

From stdpp Require Import base numbers list gmap.
From Stdlib Require Import ZArith Lia.
From S2P Require Import Prelude MwSocket MessageTypes XenRing PvmXen Threads MwsState MwsRequest MwsResponse.
Import LinuxErrno.

(** mwcomms-ioctls.h *)
Record mwsocket_attrib := { wa_modify : bool; wa_name : Z; wa_val : list Z }.

Section Files.

Context {S W : Type} {R : XenRing S} {POS : PvmOS W} {OS : MwsOS W}.
Context (ring_fuel : nat).

#[local] Abbreviation mws_m := (mws_m (S := S) (W := W)).
#[local] Abbreviation mws_p := (mws_p (S := S) (W := W)).

Definition up_request (h : nat) : mws_m unit :=
  upd_si h (fun x => set_si_request_sem (si_request_sem x + 1) x).
Definition down_request (h : nat) : mws_m Z := down_interruptible si_request_sem set_si_request_sem h.

(** The bodies of the requests the driver makes itself. *)
Definition create_bytes (sockfd fam type protocol : Z) : list Z :=
  request_bytes (request_type_code MtRequestSocketCreate) MT_REQUEST_SOCKET_CREATE_SIZE sockfd
    (le_bytes 4 fam ++ le_bytes 4 type ++ le_bytes 4 protocol).
Definition bind_bytes (sockfd : Z) (sockaddr : list Z) : list Z :=
  request_bytes (request_type_code MtRequestSocketBind) MT_REQUEST_SOCKET_BIND_SIZE sockfd sockaddr.
Definition listen_bytes (sockfd backlog : Z) : list Z :=
  request_bytes (request_type_code MtRequestSocketListen) MT_REQUEST_SOCKET_LISTEN_SIZE sockfd
    (le_bytes 4 backlog).
Definition attrib_bytes (sockfd : Z) (modify : bool) (name : Z) (val : list Z) : list Z :=
  request_bytes (request_type_code MtRequestSocketAttrib) MT_REQUEST_SOCKET_ATTRIB_SIZE sockfd
    (le_bytes 4 (Z.b2z modify) ++ le_bytes 2 name ++ take (sizeof ct_sockfeat_arg) val).
Definition accept_bytes (sockfd flags : Z) : list Z :=
  request_bytes (request_type_code MtRequestSocketAccept) MT_REQUEST_SOCKET_ACCEPT_SIZE sockfd
    (le_bytes 4 flags).

(** ** Creation *)

(** The socket is the user's from here on, unless it could not be
    created; then it stays behind. The code and [*SockFd]. *)
Definition finish_create (h : nat) (rc : Z) : mws_m (Z * Z) :=
  if truth rc then ret (rc, -1)
  else
    upd_si h (fun x => set_si_mwflags (set_flag MWSOCKET_FLAG_USER (si_mwflags x)) x) ;;;
    let* x := get_si h in ret (0, si_local_fd x).

Definition mwsocket_create (Domain Type_ Protocol : Z) : mws_p (Z * Z) :=
  let! ready := lift (get_mg mg_is_xen_iface_ready) in
  if negb ready then PRet (- ENODEV, -1)
  else
    let! (rc, sockinst) := lift (mwsocket_create_sockinst 0 true true) in
    match sockinst with
    | None => PRet (rc, -1)
    | Some h =>
        let! rc := mwsocket_send_message ring_fuel h (create_bytes 0 Domain Type_ Protocol) true in
        lift (finish_create h rc)
    end.

(** [File->f_op == &mwsocket_fops]: is it one of the driver's files? *)
Definition mwsocket_verify (File : nat) : mws_m bool :=
  let* files := get_mg mg_files in ret (bool_decide (is_Some (files !! File))).

(** ** Attributes *)

(** The code and the attributes as changed. *)
Definition mwsocket_handle_attrib (File : nat) (SetAttribs : mwsocket_attrib)
    : mws_p (Z * mwsocket_attrib) :=
  let! (rc, found) := lift (mwsocket_find_sockinst File) in
  match found with
  | None => PRet (rc, SetAttribs)
  | Some h =>
      let! (rc, actreq) := lift (mwsocket_create_active_request h) in
      match actreq with
      | None => PRet (rc, SetAttribs)
      | Some a =>
          lift (upd_ar a (set_ar_deliver_response true) ;;;
                memcpy_rr a MT_REQUEST_SOCKET_ATTRIB_SIZE
                  (attrib_bytes 0 (wa_modify SetAttribs) (wa_name SetAttribs) (wa_val SetAttribs))) ;!;
          let! rc := mwsocket_send_request ring_fuel a true in
          if truth rc then lift (mwsocket_destroy_active_request (Some a)) ;!; PRet (rc, SetAttribs)
          else
            let! rc := lift (wait_arrived_timeout a GENERAL_RESPONSE_TIMEOUT) in
            lift (let* x := get_ar a in
                  mwsocket_destroy_active_request (Some a) ;;;
                  ret (if rc =? 0 then (- ETIME, SetAttribs)
                       else
                         let status := rs_status (get_response_base (ar_rr x)) in
                         if status <? 0 then (status, SetAttribs)
                         else (0, if wa_modify SetAttribs
                                  then {| wa_modify := true; wa_name := wa_name SetAttribs;
                                          wa_val := rsp_attrib_val (ar_rr x) |}
                                  else SetAttribs)))
      end
  end.

(** [attrib] is what [Arg] points to; the value copied back, if any.
    [attributes] tells whether [Cmd] is MW_IOCTL_SOCKET_ATTRIBUTES. *)
Definition mwsocket_ioctl (File : nat) (attributes : bool) (attrib : mwsocket_attrib)
    : mws_p (Z * option (list Z)) :=
  let! (rc, found) := lift (mwsocket_find_sockinst File) in
  match found with
  | None => PRet (rc, None)
  | Some h =>
      if negb attributes then PRet (- EINVAL, None)
      else
        let! rc := lift (os_ret CopyFromUser) in
        if truth rc then PRet (- EFAULT, None)
        else
          let! (rc, attrib) := mwsocket_handle_attrib File attrib in
          if truth rc then PRet (rc, None)
          else if negb (wa_modify attrib) then PRet (0, None)
          else
            let! rc := lift (os_ret CopyToUser) in
            if truth rc then PRet (- EFAULT, None) else PRet (0, Some (wa_val attrib))
  end.

(** ** Reading *)

(** The first connection of the queue, for the socket of the request. *)
Definition mwsocket_await_inbound_connection (a : nat) : mws_m (Z * option nat) :=
  let* x := get_ar a in
  let h := ar_sockinst x in
  let* rc := down_interruptible si_inbound_sem set_si_inbound_sem h in
  if truth rc then upd_si h (set_si_state_valid false) ;;; ret (- EINTR, None)
  else
    let* s := get_si h in
    match si_inbound_list s with
    | [] => undef
    | b :: rest => upd_si h (set_si_inbound_list rest) ;;; ret (0, Some b)
    end.

(** The response of [a] for the socket [h] is there: the code, and the
    bytes given to the user. *)
Definition give_response (h a : nat) (Len : Z) : mws_m (Z * option (list Z)) :=
  let* x := get_ar a in
  let Response := ar_rr x in
  if Len <? rs_size (get_response_base Response) then ret (- EINVAL, None)
  else
    let* (rc, Response) := mwsocket_postproc_in_task a Response in
    if truth rc then ret (rc, None)
    else
      let base := get_response_base Response in
      let* rc := mwsocket_pending_error h (Z.land (rs_type base) MT_TYPE_MASK) in
      if truth rc then ret (rc, None)
      else
        let* rc := os_ret CopyToUser in
        if truth rc then ret (- EFAULT, None)
        else ret (rs_size base, Some (take (Z.to_nat (rs_size base)) Response)).

(** The exit: the request goes, unless the read was interrupted. *)
Definition read_exit (h : nat) (actreq : option nat) (r : Z * option (list Z))
    : mws_m (Z * option (list Z)) :=
  when (negb (fst r =? - EINTR)) (mwsocket_destroy_active_request actreq) ;;;
  up_request h ;;;
  ret r.

Definition mwsocket_read (File : nat) (Len : Z) : mws_p (Z * option (list Z)) :=
  let! (rc, found) := lift (mwsocket_find_sockinst File) in
  match found with
  | None => PRet (rc, None)
  | Some h =>
      let! s := lift (get_si h) in
      if si_state_valid s && negb (si_read_expected s) then lift (read_exit h None (- EINVAL, None))
      else
        let! (rc, actreq) := lift (upd_si h (set_si_read_expected false) ;;;
                                   mwsocket_find_active_request_by_id (si_blockid s)) in
        match actreq with
        | None => lift (read_exit h None (rc, None))
        | Some a =>
            let! x := lift (get_ar a) in
            let! s := lift (get_si h) in
            if negb (ar_deliver_response x) then lift (read_exit h (Some a) (- EINVAL, None))
            else if 0 <? si_user_outstanding_accept s then
              lift (upd_si h (fun s =>
                      set_si_user_outstanding_accept (si_user_outstanding_accept s - 1) s)) ;!;
              let! (rc, inbound) := lift (mwsocket_await_inbound_connection a) in
              match inbound with
              | None => lift (read_exit h (Some a) (rc, None))
              | Some b =>
                  let! y := lift (get_ar b) in
                  let c := ar_sockinst y in
                  (if (c =? h)%nat then PRet tt
                   else
                     lift (up_request h) ;!;
                     lift (down_request c) ;!;
                     lift (upd_si c (set_si_read_expected false))) ;!;
                  lift (let* r := give_response c b Len in read_exit c (Some b) r)
              end
            else
              let! rc := lift (wait_arrived_interruptible a) in
              if truth rc then
                lift (upd_si h (set_si_read_expected true) ;;; read_exit h (Some a) (- EINTR, None))
              else lift (let* r := give_response h a Len in read_exit h (Some a) r)
        end
  end.

(** ** Listening sockets *)

Definition lock_sock_rep (h : nat) : mws_m unit :=
  let* x := get_si h in
  if si_sock_rep_lock x then block else upd_si h (set_si_sock_rep_lock true).

(** The socket for an INS among the siblings. *)
Fixpoint find_sibling (l : list nat) (Domid : Z) : mws_m (option nat) :=
  match l with
  | [] => ret None
  | h :: rest =>
      let* x := get_si h in
      if MW_SOCKET_CLIENT_ID (si_remote_fd x) =? Domid then ret (Some h) else find_sibling rest Domid
  end.

Definition find_for_ins (u : nat) (Domid : Z) : mws_m (option nat) :=
  let* x := get_si u in
  if MW_SOCKET_CLIENT_ID (si_remote_fd x) =? Domid then ret (Some u)
  else find_sibling (si_sibling_listeners x) Domid.

(** A socket for the INS that has none: the code, and the socket. *)
Definition create_sibling (u : nat) (Domid : Z) : mws_p (Z * option nat) :=
  let! (rc, newsock) := lift (mwsocket_create_sockinst 0 true false) in
  match newsock with
  | None => PRet (rc, None)
  | Some n =>
      let! x := lift (get_si u) in
      let! rc := mwsocket_send_message ring_fuel n
                   (create_bytes (MW_SOCKET_CREATE Domid MT_INVALID_SOCKET_FD)
                      (si_sock_fam x) (si_sock_type x) (si_sock_protocol x)) true in
      if truth rc then PRet (rc, Some n)
      else
        lift (upd_si u (fun x => set_si_sibling_listeners (n :: si_sibling_listeners x) x) ;;;
              upd_si n (set_si_usersock u)) ;!;
        PRet (0, Some n)
  end.

(** One step of the replication: the message, when the user socket [u]
    is in a state that [n] is not in yet. *)
Definition replicate_step (u n : nat) (needed : mwsocket_instance -> mwsocket_instance -> bool)
    (message : mwsocket_instance -> mwsocket_instance -> list Z) : mws_p Z :=
  let! x := lift (get_si u) in
  let! y := lift (get_si n) in
  if needed x y then mwsocket_send_message ring_fuel n (message x y) true else PRet 0.

Definition lacks_flag (flag : Z) (x y : mwsocket_instance) : bool :=
  has_flag (si_mwflags x) flag && negb (has_flag (si_mwflags y) flag).

(** The accept on [n], whose response nobody waits for here. *)
Definition replicate_accept (u n : nat) (reqbase : option mt_request_base) : mws_p Z :=
  let! y := lift (get_si n) in
  if has_flag (si_mwflags y) MWSOCKET_FLAG_ACCEPT then PRet 0
  else
    let! x := lift (get_si u) in
    let! (rc, actreq) := lift (mwsocket_create_active_request n) in
    match actreq with
    | None => PRet rc
    | Some a =>
        let waits := (n =? u)%nat && match reqbase with
                                     | Some b => MT_REQUEST_CALLER_WAITS b
                                     | None => false
                                     end in
        lift (upd_ar a (set_ar_deliver_response true) ;;;
              memcpy_rr a MT_REQUEST_SOCKET_ACCEPT_SIZE
                (accept_bytes (si_remote_fd y) (u32 (si_defer_accept x))) ;;;
              when waits (upd_base a (fun b =>
                {| rq_sig := rq_sig b; rq_type := rq_type b; rq_size := rq_size b;
                   rq_id := rq_id b; rq_sockfd := rq_sockfd b;
                   rq_flags := Z.lor (rq_flags b) MT_FLAGS_PVM_CALLER_AWAITS_RESPONSE |}))) ;!;
        mwsocket_send_request ring_fuel a true
    end.

Definition then_p (p : mws_p Z) (q : mws_p Z) : mws_p Z :=
  let! rc := p in if truth rc then PRet rc else q.

Definition replicate_onto (u n : nat) (reqbase : option mt_request_base) : mws_p Z :=
  then_p (replicate_step u n (lacks_flag MWSOCKET_FLAG_BOUND)
            (fun x y => bind_bytes (si_remote_fd y) (si_bind_sockaddr x)))
 (then_p (replicate_step u n (lacks_flag MWSOCKET_FLAG_LISTENING)
            (fun x y => listen_bytes (si_remote_fd y) (si_backlog x)))
 (then_p (replicate_step u n (fun x y => (0 <? si_defer_accept x) && negb (0 <? si_defer_accept y))
            (fun x y => attrib_bytes (si_remote_fd y) true (sockfeat_code MtSockAttribDeferAccept)
                          (le_bytes 4 (si_defer_accept x) ++ replicate (sizeof ct_sockfeat_arg - 4) 0)))
    (replicate_accept u n reqbase))).

(** On an error the socket of the INS loses a reference, even when it is
    the user socket itself. *)
Definition mwsocket_ins_sock_replicator (u : nat) (reqbase : option mt_request_base) (Domid : Z)
    : mws_p Z :=
  lift (lock_sock_rep u) ;!;
  let! x := lift (get_si u) in
  let! (rc, newsock) :=
    (if negb (has_flag (si_mwflags x) MWSOCKET_FLAG_USER) then PRet (- EINVAL, None)
     else
       let! found := lift (find_for_ins u Domid) in
       let! (rc, newsock) := match found with
                             | Some n => PRet (0, Some n)
                             | None => create_sibling u Domid
                             end in
       match newsock with
       | Some n => if truth rc then PRet (rc, Some n)
                   else let! rc := replicate_onto u n reqbase in PRet (rc, Some n)
       | None => PRet (rc, None)
       end) in
  lift (when (truth rc) (mwsocket_put_sockinst newsock) ;;;
        upd_si u (set_si_sock_rep_lock false)) ;!;
  PRet rc.

(** mw_xen_for_each_live_ins() for a callback that waits. *)
Fixpoint each_live_ins (Callback : Z -> mws_p Z) (n i : nat) (rc : Z) : mws_p Z :=
  match n with
  | O => PRet rc
  | Datatypes.S n' =>
      let! x := lift (xen (get_ins i)) in
      if negb (id_is_ring_ready x) then each_live_ins Callback n' (Datatypes.S i) rc
      else
        let! rc2 := Callback (id_domid x) in
        each_live_ins Callback n' (Datatypes.S i) (if truth rc2 then rc2 else rc)
  end.

Definition for_each_live_ins (Callback : Z -> mws_p Z) : mws_p Z :=
  each_live_ins Callback MAX_INS_COUNT 0 0.

Definition ready_to_replicate (x : mwsocket_instance) : bool :=
  has_flag (si_mwflags x) MWSOCKET_FLAG_USER && has_flag (si_mwflags x) MWSOCKET_FLAG_BOUND
  && has_flag (si_mwflags x) MWSOCKET_FLAG_LISTENING.

(** The list is not locked: the next element is looked up after the
    waits. Sockets are added at its head only, so that as many are
    visited as it had at first, at most. *)
Fixpoint propogate_from (n : nat) (cur : option nat) (rc : Z) : mws_p Z :=
  match cur with
  | None => PRet rc
  | Some h =>
      match n with
      | O => lift out_of_fuel
      | Datatypes.S n' =>
          let! x := lift (get_si h) in
          let! rc := (if ready_to_replicate x
                      then for_each_live_ins (mwsocket_ins_sock_replicator h None)
                      else PRet rc) in
          let! next := lift (get_si h ;;; let* l := get_mg mg_sockinst_list in ret (after h l)) in
          propogate_from n' next rc
      end
  end.

Definition mwsocket_propogate_listeners : mws_p Z :=
  let! l := lift (get_mg mg_sockinst_list) in propogate_from (length l) (head l) 0.

(** The work item runs [mwsocket_propogate_listeners]. *)
Definition mwsocket_new_ins (Domid : Z) : mws_m Z :=
  let* mem := os_ret KmallocGfp in
  if mem =? 0 then ret (- ENOMEM) else os_ret ScheduleWork ;;; ret 0.

(** complete_all() *)
Definition complete_xen_iface_ready : mws_m unit :=
  upd_mg (fun g => set_mg_xen_iface_ready (mg_xen_iface_ready g + 2 ^ 31 - 1) g).

Definition mwsocket_notify_ring_ready (Domid : Z) : mws_m unit :=
  let* ready := get_mg mg_is_xen_iface_ready in
  if negb ready then upd_mg (set_mg_is_xen_iface_ready true) ;;; complete_xen_iface_ready
  else mwsocket_new_ins Domid ;;; ret tt.

(** ** Writing *)

(** An accept: one more is outstanding, on every INS. *)
Definition write_accept (h : nat) (base : mt_request_base) : mws_p Z :=
  lift (upd_si h (fun s => set_si_user_outstanding_accept (si_user_outstanding_accept s + 1) s)) ;!;
  let! rc := for_each_live_ins (mwsocket_ins_sock_replicator h (Some base)) in
  lift (upd_si h (set_si_read_expected true)) ;!;
  PRet rc.

(** Any other request, of its own: the code, and the request to destroy
    when there is one. *)
Definition write_request (h : nat) (Bytes : list Z) : mws_p (Z * option nat) :=
  let! (rc, actreq) := lift (mwsocket_create_active_request h) in
  match actreq with
  | None => PRet (rc, None)
  | Some a =>
      let! rc := lift (
        upd_ar a (set_ar_from_user true) ;;;
        let* rc := os_ret CopyFromUser in
        if truth rc then ret (- EFAULT)
        else
          memcpy_rr a (Z.of_nat (length Bytes)) Bytes ;;;
          let* b := get_base a in
          if Z.of_nat (length Bytes) <? rq_size b then ret (- EINVAL)
          else mwsocket_pending_error h (rq_type b)) in
      if truth rc then PRet (rc, Some a)
      else
        let! rc := mwsocket_send_request ring_fuel a true in PRet (rc, Some a)
  end.

(** The exit of a write that found its socket. *)
Definition write_exit (h : nat) (rc : Z) (actreq : option nat) : mws_m Z :=
  when (truth rc) (upd_si h (set_si_read_expected false) ;;;
                   mwsocket_destroy_active_request actreq) ;;;
  let* s := get_si h in
  when (negb (si_read_expected s) || negb (si_state_valid s)) (up_request h) ;;;
  ret rc.

Definition mwsocket_write (File : nat) (Bytes : list Z) : mws_p Z :=
  if Z.of_nat (length Bytes) <? MT_REQUEST_BASE_SIZE then PRet (- EINVAL)
  else
    let! rc := lift (os_ret CopyFromUser) in
    if truth rc then PRet (- EFAULT)
    else
      let base := get_request_base Bytes in
      let! (rc, found) := lift (mwsocket_find_sockinst File) in
      match found with
      | None => PRet rc
      | Some h =>
          let! rc := lift (down_request h) in
          if truth rc then lift (upd_si h (set_si_state_valid false) ;;; write_exit h (- EINTR) None)
          else
            let! s := lift (get_si h) in
            if si_state_valid s && si_read_expected s then lift (write_exit h (- EIO) None)
            else if is_type MtRequestSocketAccept (rq_type base) then
              let! rc := write_accept h base in lift (write_exit h rc None)
            else
              let! (rc, actreq) := write_request h Bytes in lift (write_exit h rc actreq)
      end.

(** ** Polling and release *)

Definition mwsocket_poll (File : nat) : mws_m Z :=
  let* (rc, found) := mwsocket_find_sockinst File in
  match found with
  | None => undef
  | Some h =>
      let* x := get_si h in
      upd_si h (set_si_poll_events 0) ;;;
      ret (si_poll_events x)
  end.

(** The siblings of the user socket [u]: each is closed and given up.
    The code of the last close. *)
Fixpoint close_siblings (u : nat) (n : nat) (cur : option nat) (rc : Z) : mws_p Z :=
  match cur with
  | None => PRet rc
  | Some h =>
      match n with
      | O => lift out_of_fuel
      | Datatypes.S n' =>
          let! next := lift (let* x := get_si u in ret (after h (si_sibling_listeners x))) in
          let! s := lift (get_si h) in
          let! rc := (if has_flag (si_mwflags s) MWSOCKET_FLAG_USER then PRet rc
                      else
                        let! rc := mwsocket_close_remote ring_fuel h true in
                        lift (upd_si h (fun s =>
                                set_si_mwflags (set_flag MWSOCKET_FLAG_RELEASED (si_mwflags s)) s) ;;;
                              mwsocket_put_sockinst (Some h)) ;!;
                        PRet rc) in
          close_siblings u n' next rc
      end
  end.

Definition mwsocket_release (File : nat) : mws_p Z :=
  let! (rc, found) := lift (mwsocket_find_sockinst File) in
  match found with
  | None => PRet rc
  | Some h =>
      let! s := lift (upd_si h (fun s =>
                        set_si_mwflags (set_flag MWSOCKET_FLAG_RELEASED (si_mwflags s)) s) ;;;
                      get_si h) in
      let siblings := si_sibling_listeners s in
      let! rc := close_siblings h (length siblings) (head siblings) rc in
      let! s := lift (get_si h) in
      let! rc := (if MW_SOCKET_IS_FD (si_remote_fd s) then mwsocket_close_remote ring_fuel h true
                  else PRet rc) in
      lift (mwsocket_put_sockinst (Some h)) ;!;
      PRet rc
  end.

(** ** Start and end *)

(** The mount may be an error pointer, which is not null. *)
Definition mwsocket_fs_init : mws_m Z :=
  let* rc := os_ret RegisterFilesystem in
  if truth rc then ret rc
  else
    upd_mg (set_mg_fs_registered true) ;;;
    let* mnt := os_ret KernMount in
    upd_mg (set_mg_fs_mount (truth mnt)) ;;;
    ret (if mnt <? 0 then mnt else 0).

(** What is created at the start, one after another; null is a failure. *)
Definition create_or (c : mws_call) (failure : Z)
    (set : bool -> mwsocket_globals -> mwsocket_globals) (k : mws_m Z) : mws_m Z :=
  let* p := os_ret c in
  upd_mg (set (truth p)) ;;;
  if p =? 0 then ret failure else k.

(** The threads run [mwsocket_response_consumer] and [mwsocket_monitor].
    The addresses go on where they were. *)
Definition mwsocket_init : mws_m Z :=
  upd_mg (fun g => set_mg_next_address (mg_next_address g) mg_zero) ;;;
  let* inode := os_ret KallsymsLookup in
  let* dname := os_ret KallsymsLookup in
  if (inode =? 0) || (dname =? 0) then ret (- ENXIO)
  else
    let* rc := mwsocket_fs_init in
    if truth rc then ret rc
    else
      create_or KmemCacheCreate (- ENOMEM) set_mg_active_request_cache
     (create_or KmemCacheCreate (- ENOMEM) set_mg_sockinst_cache
     (create_or KthreadRun (- ESRCH) set_mg_response_reader_thread
     (create_or KthreadRun (- ESRCH) set_mg_monitor_thread (ret 0)))).

(** wait_for_completion() *)
Definition wait_done (get : mwsocket_globals -> Z)
    (set : Z -> mwsocket_globals -> mwsocket_globals) : mws_m unit :=
  let* n := get_mg get in
  if 0 <? n then upd_mg (fun g => set (n - 1) g) else block.

Definition when_mg (get : mwsocket_globals -> bool) (c : mws_call) : mws_m unit :=
  let* b := get_mg get in when b (os_ret c ;;; ret tt).

(** Requests and sockets that are left are freed, whatever their counts. *)
Definition mwsocket_fini : mws_p unit :=
  lift (upd_mg (set_mg_pending_exit true) ;;; complete_xen_iface_ready ;;; mwsocket_event_cb) ;!;
  lift (let* b := get_mg mg_response_reader_thread in
        when b (wait_done mg_response_reader_done set_mg_response_reader_done)) ;!;
  lift (let* b := get_mg mg_monitor_thread in
        when b (wait_done mg_monitor_done set_mg_monitor_done)) ;!;
  lift (
    upd_mg (fun g => set_mg_active_requests
                       (foldr delete (mg_active_requests g) (mg_active_request_list g))
                    (set_mg_active_request_list [] g)) ;;;
    when_mg mg_active_request_cache KmemCacheDestroy ;;;
    upd_mg (fun g => set_mg_sockinsts (foldr delete (mg_sockinsts g) (mg_sockinst_list g))
                    (set_mg_sockinst_list [] g)) ;;;
    when_mg mg_sockinst_cache KmemCacheDestroy ;;;
    when_mg mg_fs_mount KernUnmount ;;;
    when_mg mg_fs_registered UnregisterFilesystem).

End Files.
