(* ===== verification/MwsTables.v ===== *)
(** * MwsTables: what the multiplexer's functions do to its tables

    The tables are the sockets, the active requests and the two lists.
    A property of them is [Stable] when the few changes that requests,
    responses and files make keep it, and [FullyStable] when also a
    given-up reference and the takeover of a listener do. The lemmas show
    that every function keeps every such property, in each of its steps,
    so that a client only looks at the changes themselves.

    The functions are walked through for any property [I] of the whole
    state that the primitive steps keep: [Steps], [Walks] and [FullWalks]
    are the interface. Stable properties of the tables implement it
    ([on]), and so do properties of the world that every call into the
    kernel keeps ([world_is]), and conjunctions. *)

From stdpp Require Import base numbers list gmap.
From Stdlib Require Import ZArith Lia.
From S2P Require Import Prelude MwSocket MessageTypes XenRing PvmXen Threads PvmCalls MwsState MwsRequest MwsResponse MwsFile.

Record tables := {
  t_requests : gmap nat mwsocket_active_request;
  t_request_list : list nat;
  t_socks : gmap nat mwsocket_instance;
  t_sock_list : list nat;
  t_count : Z;
  t_next : nat
}.

Definition tables_of (g : mwsocket_globals) : tables :=
  {| t_requests := mg_active_requests g; t_request_list := mg_active_request_list g;
     t_socks := mg_sockinsts g; t_sock_list := mg_sockinst_list g;
     t_count := mg_sockinst_count g; t_next := mg_next_address g |}.

(** ** The changes *)

Definition with_next (t : tables) : tables :=
  {| t_requests := t_requests t; t_request_list := t_request_list t; t_socks := t_socks t;
     t_sock_list := t_sock_list t; t_count := t_count t; t_next := S (t_next t) |}.

Definition with_sock (h : nat) (y : mwsocket_instance) (t : tables) : tables :=
  {| t_requests := t_requests t; t_request_list := t_request_list t;
     t_socks := <[h := y]> (t_socks t);
     t_sock_list := t_sock_list t; t_count := t_count t; t_next := t_next t |}.

Definition with_request (a : nat) (y : mwsocket_active_request) (t : tables) : tables :=
  {| t_requests := <[a := y]> (t_requests t); t_request_list := t_request_list t;
     t_socks := t_socks t; t_sock_list := t_sock_list t; t_count := t_count t;
     t_next := t_next t |}.

Definition add_request (id : Z) (h : nat) (t : tables) : tables :=
  let a := t_next t in
  {| t_requests := <[a := set_ar_id id (set_ar_sockinst h ar_zero)]> (t_requests t);
     t_request_list := a :: t_request_list t; t_socks := t_socks t;
     t_sock_list := t_sock_list t; t_count := t_count t; t_next := S a |}.

Definition del_request (a : nat) (t : tables) : tables :=
  {| t_requests := delete a (t_requests t); t_request_list := without a (t_request_list t);
     t_socks := t_socks t; t_sock_list := t_sock_list t; t_count := t_count t;
     t_next := t_next t |}.

Definition add_sock (x : mwsocket_instance) (t : tables) : tables :=
  let h := t_next t in
  {| t_requests := t_requests t; t_request_list := t_request_list t;
     t_socks := <[h := x]> (t_socks t);
     t_sock_list := h :: t_sock_list t; t_count := t_count t + 1; t_next := S h |}.

Definition del_sock (h : nat) (t : tables) : tables :=
  {| t_requests := t_requests t; t_request_list := t_request_list t;
     t_socks := delete h (t_socks t);
     t_sock_list := without h (t_sock_list t); t_count := t_count t - 1; t_next := t_next t |}.

Definition get_ref (x : mwsocket_instance) : mwsocket_instance := set_si_refct (si_refct x + 1) x.
Definition put_ref (x : mwsocket_instance) : mwsocket_instance := set_si_refct (si_refct x - 1) x.

(** A reference to the socket [h], whose record is [x], is given up. *)
Definition put_sock (h : nat) (x : mwsocket_instance) (t : tables) : tables :=
  if truth (si_refct x - 1) then with_sock h (put_ref x) t else del_sock h t.

(** What the ordinary updates of a record leave alone. *)
Definition sock_same (x y : mwsocket_instance) : Prop :=
  si_refct y = si_refct x
  /\ (si_pending_errno y = si_pending_errno x \/ si_pending_errno y = 0)
  /\ (si_close_lock_write y = si_close_lock_write x \/ si_close_lock_write y = false).
Definition request_same (x y : mwsocket_active_request) : Prop :=
  ar_id y = ar_id x /\ ar_sockinst y = ar_sockinst x.

Definition new_sock (x : mwsocket_instance) : Prop :=
  si_refct x = 1 /\ si_pending_errno x = 0 /\ si_close_lock_write x = false.

(** ** The interface *)

Class Stable (P : tables -> Prop) : Prop := {
  st_next t : P t -> P (with_next t);
  st_sock t h x y : P t -> t_socks t !! h = Some x -> sock_same x y -> P (with_sock h y t);
  st_request t a x y : P t -> t_requests t !! a = Some x -> request_same x y -> P (with_request a y t);
  st_create t h x id :
    P t -> t_socks t !! h = Some x -> id <> MT_ID_UNSET_VALUE ->
    (forall a y, a ∈ t_request_list t -> t_requests t !! a = Some y -> ar_id y <> id) ->
    P (add_request id h (with_sock h (get_ref x) t));
  st_destroy t a x y :
    P t -> t_requests t !! a = Some x -> t_socks t !! ar_sockinst x = Some y ->
    P (del_request a (put_sock (ar_sockinst x) y t));
  st_new t x : P t -> new_sock x -> P (add_sock x t);
  st_new_failed t x : P t -> new_sock x -> P (del_sock (t_next t) (add_sock x t))
}.

Class FullyStable (P : tables -> Prop) : Prop := {
  fs_stable :: Stable P;
  fs_get t h x : P t -> t_socks t !! h = Some x -> P (with_sock h (get_ref x) t);
  fs_put t h x : P t -> t_socks t !! h = Some x -> P (put_sock h x t);
  fs_copy t h r x y z :
    P t -> t_socks t !! h = Some x -> t_socks t !! r = Some y ->
    si_refct z = si_refct x -> si_pending_errno z = si_pending_errno y ->
    si_close_lock_write z = si_close_lock_write y -> P (with_sock h z t);
  fs_move t a h x :
    P t -> t_requests t !! a = Some x -> P (with_request a (set_ar_sockinst h x) t)
}.

Class Steps {S W} {R : XenRing S} {POS : PvmOS W} {OS : MwsOS W} (I : mws_state S W -> Prop) : Prop := {
  sp_xen {A} (m : pvm_m (S := S) (W := W) A) : by_calls m -> keeps I (xen m);
  sp_oscall c : keeps I (oscall c);
  sp_si h f : (forall x, sock_same x (f x)) -> keeps I (upd_si h f);
  sp_ar a f : (forall x, request_same x (f x)) -> keeps I (upd_ar a f);
  sp_scalar f : (forall g, tables_of (f g) = tables_of g) -> keeps I (upd_mg f);
  sp_address : keeps I new_address
}.

Class Walks {S W} {R : XenRing S} {POS : PvmOS W} {OS : MwsOS W} (I : mws_state S W -> Prop) : Prop := {
  wk_steps :: Steps I;
  wk_create h : keeps I (mwsocket_create_active_request h);
  wk_destroy a : keeps I (mwsocket_destroy_active_request a);
  wk_new Flags b f : keeps I (mwsocket_create_sockinst Flags b f)
}.

Class FullWalks {S W} {R : XenRing S} {POS : PvmOS W} {OS : MwsOS W} (I : mws_state S W -> Prop) : Prop := {
  fw_walks :: Walks I;
  fw_get h : keeps I (mwsocket_get_sockinst h);
  fw_put h : keeps I (mwsocket_put_sockinst h);
  fw_take_over h r : keeps I (take_over h r)
}.

Section Walk.

Context {S W : Type} {R : XenRing S} {POS : PvmOS W} {OS : MwsOS W}.
Context (ring_fuel : nat).

#[local] Abbreviation mws_m := (mws_m (S := S) (W := W)).
#[local] Abbreviation mws_p := (mws_p (S := S) (W := W)).

Definition on (P : tables -> Prop) (s : mws_state S W) : Prop := P (tables_of (ms_g s)).

(** ** Primitive steps, for any property *)

Section Any.
Context (P : tables -> Prop).

Lemma on_xen {A} (m : pvm_m (S := S) (W := W) A) : keeps (on P) (xen m).
Proof.
  intros s x s' Hs E. unfold xen, obind in E. destruct (m (ms_pvm s)) as [[a p]| | |]; try discriminate.
  injection E as <- <-. exact Hs.
Qed.

Lemma on_oscall c : keeps (on P) (oscall c).
Proof.
  intros s x s' Hs E. unfold oscall in E. destruct (mws_os_call c _) as [r w].
  injection E as <- <-. exact Hs.
Qed.

Lemma os_ret_on c : keeps (on P) (os_ret c).
Proof. apply m_keeps_bind; [apply on_oscall|]. intros. apply m_keeps_ret. Qed.

(** A change of the globals that the tables do not show. *)
Lemma on_scalar f : (forall g, tables_of (f g) = tables_of g) -> keeps (on P) (upd_mg f).
Proof. intros H. apply m_keeps_modify. intros s Hs. unfold on. simpl. by rewrite H. Qed.

End Any.

(** What a read returned. *)
Lemma get_si_inv h s x s' :
  get_si (S := S) (W := W) h s = Done (x, s') -> s' = s /\ mg_sockinsts (ms_g s) !! h = Some x.
Proof. unfold get_si. destruct (_ !! h) eqn:E; [|discriminate]. intros [= <- <-]. auto. Qed.

Lemma get_ar_inv a s x s' :
  get_ar (S := S) (W := W) a s = Done (x, s') -> s' = s /\ mg_active_requests (ms_g s) !! a = Some x.
Proof. unfold get_ar. destruct (_ !! a) eqn:E; [|discriminate]. intros [= <- <-]. auto. Qed.

Lemma upd_si_inv h f s u s' :
  upd_si (S := S) (W := W) h f s = Done (u, s') ->
  exists x, mg_sockinsts (ms_g s) !! h = Some x
  /\ s' = set_ms_g (set_mg_sockinsts (<[h := f x]> (mg_sockinsts (ms_g s))) (ms_g s)) s.
Proof. unfold upd_si. destruct (_ !! h) eqn:E; [|discriminate]. intros [= <- <-]. eauto. Qed.

Lemma upd_ar_inv a f s u s' :
  upd_ar (S := S) (W := W) a f s = Done (u, s') ->
  exists x, mg_active_requests (ms_g s) !! a = Some x
  /\ s' = set_ms_g (set_mg_active_requests (<[a := f x]> (mg_active_requests (ms_g s))) (ms_g s)) s.
Proof. unfold upd_ar. destruct (_ !! a) eqn:E; [|discriminate]. intros [= <- <-]. eauto. Qed.

End Walk.

#[export] Hint Resolve on_xen on_oscall os_ret_on : keeps.
#[export] Hint Extern 1 (keeps (on _) (upd_mg _)) => apply on_scalar; intros ?; reflexivity : keeps.

Ltac solve_sock_same :=
  intros; unfold sock_same;
  repeat match goal with |- context [if ?b then _ else _] => destruct b end;
  split_and!; solve [reflexivity | left; reflexivity | right; reflexivity].

(** ** Reading changes nothing *)

Section Reads.
Context {S W : Type} {R : XenRing S} {POS : PvmOS W} {OS : MwsOS W}.
Context (I : mws_state S W -> Prop).

Lemma reads_get_mg {A} (f : mwsocket_globals -> A) : keeps I (get_mg f).
Proof. apply m_keeps_gets. Qed.
Lemma reads_get_si h : keeps I (get_si h).
Proof. by intros s x s' Hs [-> _]%get_si_inv. Qed.
Lemma reads_get_ar a : keeps I (get_ar a).
Proof. by intros s x s' Hs [-> _]%get_ar_inv. Qed.

End Reads.

#[export] Hint Resolve reads_get_mg reads_get_si reads_get_ar : keeps.

(** ** The steps inside the functions *)

#[export] Hint Extern 0 (Steps _) => typeclasses eauto : keeps.
#[export] Hint Extern 0 (Walks _) => typeclasses eauto : keeps.
#[export] Hint Extern 0 (FullWalks _) => typeclasses eauto : keeps.
#[export] Hint Extern 2 (keeps _ (xen _)) =>
  apply sp_xen; solve [eauto with by_calls] : keeps.
#[export] Hint Extern 2 (keeps _ (oscall _)) => apply sp_oscall : keeps.
#[export] Hint Extern 2 (keeps _ (upd_mg _)) =>
  apply sp_scalar; intros ?; reflexivity : keeps.
#[export] Hint Extern 2 (keeps _ new_address) => apply sp_address : keeps.
#[export] Hint Extern 2 (keeps _ (upd_si _ _)) =>
  apply sp_si; solve_sock_same : keeps.
#[export] Hint Extern 2 (keeps _ (upd_ar _ _)) =>
  apply sp_ar; intros; split; reflexivity : keeps.
#[export] Hint Extern 2 (keeps _ (mwsocket_create_active_request _)) =>
  apply wk_create : keeps.
#[export] Hint Extern 2 (keeps _ (mwsocket_destroy_active_request _)) =>
  apply wk_destroy : keeps.
#[export] Hint Extern 2 (keeps _ (mwsocket_create_sockinst _ _ _)) =>
  apply wk_new : keeps.

(** Walks through an unfolded function. *)
Ltac walk := intros; cbv zeta; keeps_solve.
Ltac walk1 f := unfold f; walk.

Section StepWalk.

Context {S W : Type} {R : XenRing S} {POS : PvmOS W} {OS : MwsOS W}.
Context (I : mws_state S W -> Prop) {HI : Steps I}.

Lemma on_os_ret c : keeps I (os_ret c).
Proof. walk1 @os_ret. Qed.
#[local] Hint Resolve on_os_ret : keeps.

Lemma on_down_request h : keeps I (down_request h).
Proof. walk1 @down_request. walk1 @down_interruptible. Qed.

Lemma on_wait_arrived_interruptible a : keeps I (wait_arrived_interruptible a).
Proof. walk1 @wait_arrived_interruptible. Qed.

Lemma on_wait_arrived_timeout a j : keeps I (wait_arrived_timeout a j).
Proof. walk1 @wait_arrived_timeout. Qed.

Lemma on_wait_arrived_interruptible_timeout a j : keeps I (wait_arrived_interruptible_timeout a j).
Proof. walk1 @wait_arrived_interruptible_timeout. Qed.

Lemma on_complete_arrived a : keeps I (complete_arrived a).
Proof. walk1 @complete_arrived. Qed.

Lemma on_close_lock h :
  keeps I (down_read_close h) /\ keeps I (up_read_close h)
  /\ keeps I (down_write_trylock_close h) /\ keeps I (up_write_close h).
Proof.
  unfold down_read_close, up_read_close, down_write_trylock_close, up_write_close.
  split_and!; walk.
Qed.

Lemma on_memcpy_rr a n bytes : keeps I (memcpy_rr a n bytes).
Proof. walk1 @memcpy_rr. Qed.

Lemma on_set_pollable h b : keeps I (mwsocket_set_pollable h b).
Proof. walk1 @mwsocket_set_pollable. Qed.

Lemma on_upd_base a f : keeps I (upd_base a f).
Proof. walk1 @upd_base. Qed.

Lemma on_get_base a : keeps I (get_base a).
Proof. walk1 @get_base. Qed.

End StepWalk.

#[export] Hint Resolve on_os_ret on_down_request on_wait_arrived_interruptible
  on_wait_arrived_timeout on_wait_arrived_interruptible_timeout on_complete_arrived on_memcpy_rr
  on_set_pollable on_upd_base on_get_base : keeps.
#[export] Hint Extern 2 (keeps _ (down_read_close _)) => apply on_close_lock : keeps.
#[export] Hint Extern 2 (keeps _ (up_read_close _)) => apply on_close_lock : keeps.
#[export] Hint Extern 2 (keeps _ (down_write_trylock_close _)) => apply on_close_lock : keeps.
#[export] Hint Extern 2 (keeps _ (up_write_close _)) => apply on_close_lock : keeps.

(** ** Under a stable property *)

Section StableWalk.

Context {S W : Type} {R : XenRing S} {POS : PvmOS W} {OS : MwsOS W}.
Context (ring_fuel : nat) (P : tables -> Prop) {HP : Stable P}.

#[local] Abbreviation onP := (on (S := S) (W := W) P).

#[export] Instance steps_on : Steps onP.
Proof.
  split.
  - intros A m _. apply on_xen.
  - apply on_oscall.
  - intros h f Hf s u s' Hs (x & Hx & ->)%upd_si_inv. exact (st_sock _ h x _ Hs Hx (Hf x)).
  - intros a f Hf s u s' Hs (x & Hx & ->)%upd_ar_inv. exact (st_request _ a x _ Hs Hx (Hf x)).
  - apply on_scalar.
  - intros s a s' Hs [= <- <-]. exact (st_next _ Hs).
Qed.

(** Requests come and go with their reference. *)

Lemma id_in_use_inv l id s b s' :
  id_in_use (S := S) (W := W) l id s = Done (b, s') ->
  s' = s /\ (b = false -> forall a y, a ∈ l -> mg_active_requests (ms_g s) !! a = Some y -> ar_id y <> id).
Proof.
  revert s. induction l as [|a l IH]; intros s E; simpl in E.
  - injection E as <- <-. split; [done|]. intros _ a y []%not_elem_of_nil.
  - run_step E x s1 E1. apply get_ar_inv in E1 as [-> Hx].
    destruct (Z.eqb_spec (ar_id x) id) as [Hid|Hid].
    + injection E as <- <-. split; [done|discriminate].
    + destruct (IH s E) as [-> Hf]. split; [done|]. intros Hb c y [->|Hc]%elem_of_cons Hy.
      * congruence.
      * eauto.
Qed.

Lemma inc_id_counter_inv s id s' :
  inc_id_counter (S := S) (W := W) s = Done (id, s') ->
  tables_of (ms_g s') = tables_of (ms_g s) /\ id = u64 (mg_id_counter (ms_g s) + 1)
  /\ mg_id_counter (ms_g s') = id.
Proof. intros [= <- <-]. auto. Qed.

Lemma next_id_loop_inv n s id s' :
  next_id_loop (S := S) (W := W) n s = Done (id, s') ->
  tables_of (ms_g s') = tables_of (ms_g s) /\ id <> MT_ID_UNSET_VALUE
  /\ forall a y, a ∈ mg_active_request_list (ms_g s) ->
       mg_active_requests (ms_g s) !! a = Some y -> ar_id y <> id.
Proof.
  revert s. induction n as [|n IH]; intros s E; [discriminate|]. cbn [next_id_loop] in E.
  run_step E c s1 E1. apply inc_id_counter_inv in E1 as (T1 & Hc & Hs1).
  run_step E d s2 E2.
  assert (tables_of (ms_g s2) = tables_of (ms_g s) /\ d <> 0) as [T2 Hd].
  { destruct (Z.eqb_spec MT_ID_UNSET_VALUE c) as [H0|H0].
    - apply inc_id_counter_inv in E2 as (T2 & -> & _). split; [congruence|].
      rewrite Hs1, <- H0. discriminate.
    - injection E2 as <- <-. split; [done|]. intros ->. by apply H0. }
  run_step E l s3 E3. injection E3 as <- <-. run_step E b s4 E4.
  apply id_in_use_inv in E4 as [-> Hfree].
  pose proof T2 as T2'. unfold tables_of in T2'. injection T2' as Hreq Hlist Hsock Hsl Hct Hnx.
  destruct b.
  - destruct (IH s2 E) as (T & Hid & Hf). split_and!; [congruence|done|].
    rewrite Hreq, Hlist in Hf. exact Hf.
  - injection E as <- <-. split_and!; [done..|]. rewrite Hreq, Hlist in Hfree. by apply Hfree.
Qed.

Lemma get_next_id_inv s id s' :
  mwsocket_get_next_id (S := S) (W := W) s = Done (id, s') ->
  tables_of (ms_g s') = tables_of (ms_g s) /\ id <> MT_ID_UNSET_VALUE
  /\ forall a y, a ∈ mg_active_request_list (ms_g s) ->
       mg_active_requests (ms_g s) !! a = Some y -> ar_id y <> id.
Proof. intros E. run_step E l s1 E1. injection E1 as <- <-. by eapply next_id_loop_inv. Qed.

Lemma on_create_active_request h : keeps onP (mwsocket_create_active_request h).
Proof.
  unfold mwsocket_create_active_request. intros s r s' Hs E.
  run_step E x s1 E1. apply get_si_inv in E1 as [-> Hx].
  destruct (negb (si_ins_alive x)); [injection E as <- <-; exact Hs|].
  run_step E mem s1 E1. pose proof (on_os_ret onP _ _ _ _ Hs E1) as Hs1.
  destruct (mem =? 0); [injection E as <- <-; exact Hs1|].
  run_step E a s2 E2. injection E2 as <- <-.
  run_step E u s3 E3. apply upd_si_inv in E3 as (y & Hy & ->).
  run_step E d s4 E4. apply get_next_id_inv in E4 as (T & Hid & Hfresh).
  run_step E u2 s5 E5. injection E5 as <- <-. injection E as <- <-.
  simpl in *. unfold on in *. simpl. unfold tables_of in T |- *. simpl in *.
  injection T as -> -> -> -> -> ->.
  exact (st_create _ h y d Hs1 Hy Hid Hfresh).
Qed.

(** The tables after a reference was given up; the list of siblings of
    another socket may have changed, too. *)
Definition put_result (h : nat) (x : mwsocket_instance) (t t' : tables) : Prop :=
  t' = put_sock h x t
  \/ exists u y z, t_socks (put_sock h x t) !! u = Some y /\ sock_same y z
       /\ t' = with_sock u z (put_sock h x t).

Lemma del_sibling_inv h s u s' :
  del_sibling (S := S) (W := W) h s = Done (u, s') ->
  tables_of (ms_g s') = tables_of (ms_g s)
  \/ exists g y z, g <> h /\ mg_sockinsts (ms_g s) !! g = Some y /\ sock_same y z
       /\ tables_of (ms_g s') = with_sock g z (tables_of (ms_g s)).
Proof.
  unfold del_sibling. intros E. run_step E x s1 E1. apply get_si_inv in E1 as [-> Hx].
  run_step E m s2 E2. injection E2 as <- <-.
  destruct (mg_sockinsts (ms_g s) !! si_usersock x) as [y|] eqn:Hy.
  - destruct (bool_decide_reflect (si_usersock x = h)) as [Hu|Hu]; simpl in E.
    + injection E as <- <-. by left.
    + apply upd_si_inv in E as (y' & Hy' & ->). rewrite Hy in Hy'. injection Hy' as <-.
      right. exists (si_usersock x), y. eexists. split_and!; [done|done| |reflexivity].
      solve_sock_same.
  - injection E as <- <-. by left.
Qed.

Lemma set_pollable_inv h b s u s' :
  mwsocket_set_pollable (S := S) (W := W) h b s = Done (u, s') ->
  exists x, mg_sockinsts (ms_g s) !! h = Some x /\ (
    tables_of (ms_g s') = tables_of (ms_g s)
    \/ exists z, sock_same x z /\ tables_of (ms_g s') = with_sock h z (tables_of (ms_g s))).
Proof.
  unfold mwsocket_set_pollable. intros E. run_step E x s1 E1. apply get_si_inv in E1 as [-> Hx].
  exists x. split; [done|]. destruct (Bool.eqb _ _); [injection E as <- <-; by left|].
  destruct b; run_step E v s2 E2; injection E2 as <- <-; apply upd_si_inv in E as (y & Hy & ->);
    simpl in Hy; rewrite Hx in Hy; injection Hy as <-; right; eexists;
    (split; [|reflexivity]); solve_sock_same.
Qed.

(** The record of [h] is freed. *)
Definition erase (h : nat) (t : tables) : tables :=
  {| t_requests := t_requests t; t_request_list := t_request_list t;
     t_socks := delete h (t_socks t);
     t_sock_list := t_sock_list t; t_count := t_count t; t_next := t_next t |}.

Lemma erase_with_sock h g z t :
  erase h (with_sock g z t) = if decide (g = h) then erase h t else with_sock g z (erase h t).
Proof.
  unfold erase, with_sock. simpl. case_decide as Hd; [subst g|].
  - by rewrite delete_insert_eq.
  - by rewrite delete_insert_ne.
Qed.

Lemma put_sockinst_inv h s u s' :
  mwsocket_put_sockinst (S := S) (W := W) (Some h) s = Done (u, s') ->
  exists x, mg_sockinsts (ms_g s) !! h = Some x
  /\ put_result h x (tables_of (ms_g s)) (tables_of (ms_g s')).
Proof.
  unfold mwsocket_put_sockinst. intros E.
  run_step E v s1 E1. apply upd_si_inv in E1 as (x & Hx & ->). exists x. split; [done|].
  run_step E x2 s2 E2. apply get_si_inv in E2 as [-> Hx2]. simpl in Hx2.
  rewrite lookup_insert_eq in Hx2. injection Hx2 as <-. simpl in E. unfold put_result, put_sock.
  destruct (truth (si_refct x - 1)); [injection E as <- <-; by left|].
  run_step E v2 s2 E2. injection E2 as <- <-.
  run_step E v3 s3 E3. run_step E v4 s4 E4. injection E as <- <-.
  assert (tables_of (ms_g (set_ms_g (set_mg_sockinsts (delete h (mg_sockinsts (ms_g s4))) (ms_g s4)) s4))
          = erase h (tables_of (ms_g s3))) as ->.
  { change (erase h (tables_of (ms_g s4)) = erase h (tables_of (ms_g s3))).
    apply set_pollable_inv in E4 as (y4 & _ & [->|(z & _ & ->)]); [done|].
    rewrite erase_with_sock. by case_decide. }
  apply del_sibling_inv in E3 as [->|(g & y & z & Hg & Hy & Hz & ->)].
  - left. unfold erase, del_sock. simpl. by rewrite delete_insert_eq.
  - right. simpl in Hy. rewrite lookup_insert_ne in Hy by done. exists g, y, z.
    split_and!; [simpl; by rewrite lookup_delete_ne|done|].
    rewrite erase_with_sock, decide_False by done.
    unfold with_sock, erase, del_sock. simpl. by rewrite delete_insert_eq.
Qed.

Lemma with_sock_put_result h x t t' (f : tables -> tables) :
  (forall u y z t0, P (f t0) -> t_socks t0 !! u = Some y -> sock_same y z -> P (f (with_sock u z t0))) ->
  P (f (put_sock h x t)) -> put_result h x t t' -> P (f t').
Proof. intros Hf Ht [->|(u & y & z & Hy & Hz & ->)]; eauto. Qed.

Lemma on_destroy_active_request a : keeps onP (mwsocket_destroy_active_request a).
Proof.
  destruct a as [a|]; [|apply m_keeps_ret]. unfold mwsocket_destroy_active_request. intros s r s' Hs E.
  run_step E x s1 E1. apply get_ar_inv in E1 as [-> Hx].
  run_step E v s1 E1. unshelve epose proof (sp_si (I := onP) _ _ _ _ _ _ Hs E1) as Hs1; [solve_sock_same|].
  apply upd_si_inv in E1 as (y & Hy & ->).
  run_step E v2 s2 E2. apply put_sockinst_inv in E2 as (y2 & Hy2 & T). injection E as <- <-.
  apply (with_sock_put_result _ _ _ _ (del_request a)) in T; [exact T| |].
  - intros u0 y0 z0 t0 Ht Hy0 Hz. exact (st_sock (P := P) (del_request a t0) u0 y0 z0 Ht Hy0 Hz).
  - exact (st_destroy (P := P) _ a x y2 Hs1 Hx Hy2).
Qed.

Lemma os_ret_tables c s r s' :
  os_ret (S := S) c s = Done (r, s') -> tables_of (ms_g s') = tables_of (ms_g s).
Proof. exact (os_ret_on (fun t => t = tables_of (ms_g s)) c s r s' eq_refl). Qed.

Lemma on_create_backing_file Flags h : keeps onP (create_backing_file Flags h).
Proof. unfold create_backing_file. walk. Qed.

(** A file that could not be made leaves only the record changed. *)
Lemma create_backing_file_failed Flags h s rc s' :
  create_backing_file (S := S) (W := W) Flags h s = Done (rc, s') -> truth rc = true ->
  erase h (tables_of (ms_g s')) = erase h (tables_of (ms_g s)).
Proof.
  unfold create_backing_file. intros E Hrc.
  run_step E fd s1 E1. apply os_ret_tables in E1. rewrite <- E1. clear E1 s.
  destruct (fd <? 0); [injection E as _ <-; done|].
  run_step E inode s2 E2. apply os_ret_tables in E2. rewrite <- E2. clear E2 s1.
  destruct (inode =? 0); [injection E as _ <-; done|].
  run_step E u s3 E3. apply upd_si_inv in E3 as (x & Hx & ->).
  run_step E dentry s4 E4. apply os_ret_tables in E4.
  transitivity (erase h (tables_of (ms_g s4))).
  2:{ rewrite E4. change (erase h (with_sock h (set_si_inode true x) (tables_of (ms_g s2)))
                          = erase h (tables_of (ms_g s2))).
      rewrite erase_with_sock. by case_decide. }
  clear E4 Hx. destruct (dentry =? 0); [injection E as _ <-; done|].
  run_step E file s5 E5. apply os_ret_tables in E5. rewrite <- E5.
  destruct (file <? 0); [injection E as _ <-; done|].
  run_step E f s6 E6. run_step E u6 s7 E7. run_step E u7 s8 E8. run_step E now s9 E9.
  run_step E u9 s10 E10. injection E as <- _. discriminate.
Qed.

Lemma on_create_sockinst Flags b f : keeps onP (mwsocket_create_sockinst Flags b f).
Proof.
  unfold mwsocket_create_sockinst. intros s r s' Hs E.
  run_step E mem s1 E1. pose proof (on_os_ret onP _ _ _ _ Hs E1) as Hs1.
  destruct (mem =? 0); [injection E as <- <-; exact Hs1|].
  run_step E h s2 E2. injection E2 as <- <-.
  run_step E proc s3 E3. apply os_ret_tables in E3.
  run_step E u s4 E4. injection E4 as _ <-.
  set (h := mg_next_address (ms_g s1)) in *. set (x := init_sockinst proc h) in *.
  assert (tables_of (ms_g (set_ms_g (set_mg_sockinsts (<[h := x]> (mg_sockinsts (ms_g s3)))
            (set_mg_sockinst_list (h :: mg_sockinst_list (ms_g s3))
            (set_mg_sockinst_count (mg_sockinst_count (ms_g s3) + 1) (ms_g s3)))) s3))
          = add_sock x (tables_of (ms_g s1))) as T4.
  { unfold tables_of in E3. simpl in E3. injection E3 as Q1 Q2 Q3 Q4 Q5 Q6.
    unfold tables_of, add_sock. simpl. by rewrite Q1, Q2, Q3, Q4, Q5, Q6. }
  assert (new_sock x) as Hx by done.
  run_step E u5 s5 E5.
  assert (erase h (tables_of (ms_g s5)) = erase h (add_sock x (tables_of (ms_g s1)))) as T5.
  { rewrite <- T4. apply set_pollable_inv in E5 as (y & _ & [->|(z & _ & ->)]); [done|].
    rewrite erase_with_sock. by case_decide. }
  assert (P (tables_of (ms_g s5))) as Hs5.
  { refine (on_set_pollable onP _ _ _ _ _ _ E5). red. rewrite T4. by apply st_new. }
  destruct (negb f); [injection E as _ <-; exact Hs5|].
  run_step E rc s6 E6. pose proof (on_create_backing_file _ _ _ _ _ Hs5 E6) as Hs6.
  destruct (truth rc) eqn:Hrc; [|injection E as _ <-; exact Hs6].
  apply create_backing_file_failed in E6; [|done]. rewrite T5 in E6.
  run_step E u7 s7 E7. injection E7 as _ <-. run_step E v8 s8 E8. injection E8 as _ <-.
  injection E as _ <-. red. simpl.
  pose proof (st_new_failed (P := P) _ x Hs1 Hx) as Hd. fold h in Hd.
  unfold tables_of, erase in E6. simpl in E6. injection E6 as Q1 Q2 Q3 Q4 Q5 Q6.
  unfold tables_of. simpl. rewrite Q1, Q2, Q3, Q4, Q5, Q6. exact Hd.
Qed.

#[export] Instance walks_on : Walks onP.
Proof.
  split; [typeclasses eauto|exact on_create_active_request|exact on_destroy_active_request
         |exact on_create_sockinst].
Qed.

End StableWalk.
