(* ===== verification/MwsWalk.v ===== *)
(** * MwsWalk: every function keeps the stable properties

    One lemma per function of the multiplexer: each of its steps keeps
    every [Stable] property of the tables; the functions that give up a
    reference without a request, replace a listener or replicate a
    socket keep the [FullyStable] ones. *)

From stdpp Require Import base numbers list gmap.
From Stdlib Require Import ZArith Lia.
From S2P Require Import Prelude MwSocket MessageTypes XenRing PvmXen Threads PvmCalls MwsState MwsRequest MwsResponse MwsFile MwsTables.

Section Walk.

Context {S W : Type} {R : XenRing S} {POS : PvmOS W} {OS : MwsOS W}.
Context (ring_fuel : nat) (I : mws_state S W -> Prop) {HI : Walks I}.

(** ** Requests *)

Lemma on_wait j : keeps I (mwsocket_wait j).
Proof. unfold mwsocket_wait. walk. Qed.
#[local] Hint Resolve on_wait : keeps.

Lemma on_find_sockinst f : keeps I (mwsocket_find_sockinst f).
Proof. unfold mwsocket_find_sockinst. walk. Qed.
#[local] Hint Resolve on_find_sockinst : keeps.

Lemma on_find_remote_fd l fd : keeps I (find_remote_fd l fd).
Proof. induction l; cbn [find_remote_fd]; walk. Qed.
#[local] Hint Resolve on_find_remote_fd : keeps.

Lemma on_find_sockinst_by_remote_fd fd : keeps I (mwsocket_find_sockinst_by_remote_fd fd).
Proof. unfold mwsocket_find_sockinst_by_remote_fd. walk. Qed.
#[local] Hint Resolve on_find_sockinst_by_remote_fd : keeps.

Lemma on_signal_owner_by_remote_fd fd sig : keeps I (mwsocket_signal_owner_by_remote_fd fd sig).
Proof. unfold mwsocket_signal_owner_by_remote_fd. walk. Qed.

Lemma on_find_request_id l id : keeps I (find_request_id l id).
Proof. induction l; cbn [find_request_id]; walk. Qed.
#[local] Hint Resolve on_find_request_id : keeps.

Lemma on_find_active_request_by_id id : keeps I (mwsocket_find_active_request_by_id id).
Proof. unfold mwsocket_find_active_request_by_id, has_mwflag. walk. Qed.
#[local] Hint Resolve on_find_active_request_by_id : keeps.

Lemma on_pending_error h t : keeps I (mwsocket_pending_error h t).
Proof. unfold mwsocket_pending_error. walk. Qed.
#[local] Hint Resolve on_pending_error : keeps.

Lemma on_note_caller_waits a : keeps I (note_caller_waits a).
Proof. unfold note_caller_waits. walk. Qed.

Lemma on_close_wait n h : prog_keeps I (close_wait n h).
Proof. induction n; cbn [close_wait]; walk. Qed.
#[local] Hint Resolve on_note_caller_waits on_close_wait : keeps.

Lemma on_enforce_close_lock a : prog_keeps I (enforce_close_lock a).
Proof. unfold enforce_close_lock. walk. Qed.

Lemma on_record_request a : keeps I (record_request a).
Proof. unfold record_request. walk. Qed.
#[local] Hint Resolve on_enforce_close_lock on_record_request : keeps.

Lemma on_pre_process_request a : prog_keeps I (mwsocket_pre_process_request a).
Proof. unfold mwsocket_pre_process_request. walk. Qed.

Lemma on_acquire_request_slot a w : keeps I (acquire_request_slot ring_fuel a w).
Proof. unfold acquire_request_slot. walk. Qed.

Lemma on_put_on_ring a i slot : keeps I (put_on_ring a i slot).
Proof. unfold put_on_ring. walk. Qed.
#[local] Hint Resolve on_pre_process_request on_acquire_request_slot on_put_on_ring : keeps.

Lemma on_send_request a w : prog_keeps I (mwsocket_send_request ring_fuel a w).
Proof. unfold mwsocket_send_request. walk. Qed.
#[local] Hint Resolve on_send_request : keeps.

Lemma on_send_message h r w : prog_keeps I (mwsocket_send_message ring_fuel h r w).
Proof. unfold mwsocket_send_message, await_message, finish_message. walk. Qed.

Lemma on_close_remote h w : prog_keeps I (mwsocket_close_remote ring_fuel h w).
Proof. unfold mwsocket_close_remote. walk. Qed.
#[local] Hint Resolve on_send_message on_close_remote : keeps.

Lemma on_close_by_remote_fd fd w : prog_keeps I (mwsocket_close_by_remote_fd ring_fuel fd w).
Proof. unfold mwsocket_close_by_remote_fd. walk. Qed.

Lemma on_block_ip_mitigation d b addr : prog_keeps I (mwsocket_block_ip_mitigation ring_fuel d b addr).
Proof. unfold mwsocket_block_ip_mitigation. walk. Qed.

Lemma on_send_bare_request r n : prog_keeps I (mwsocket_send_bare_request ring_fuel r n).
Proof. unfold mwsocket_send_bare_request. walk. Qed.

#[local] Hint Resolve on_close_by_remote_fd on_block_ip_mitigation on_send_bare_request : keeps.

(** ** Responses *)

Lemma on_populate_netflow a obs extra : keeps I (mwsocket_populate_netflow a obs extra).
Proof. unfold mwsocket_populate_netflow, mwsocket_populate_netflow_ip. walk. Qed.
#[local] Hint Resolve on_populate_netflow : keeps.

Lemma on_postproc_emit_netflow a bs : keeps I (mwsocket_postproc_emit_netflow a bs).
Proof. unfold mwsocket_postproc_emit_netflow. walk. Qed.

Lemma on_release_close_lock a t : keeps I (release_close_lock a t).
Proof. unfold release_close_lock. walk. Qed.

Lemma on_tally_send h bs : keeps I (tally_send h bs).
Proof. unfold tally_send. walk. Qed.

Lemma on_queue_accept a bs : keeps I (queue_accept a bs).
Proof. unfold queue_accept. walk. Qed.

Lemma on_record_success h bs : keeps I (record_success h bs).
Proof. unfold record_success. walk. Qed.
#[local] Hint Resolve on_postproc_emit_netflow on_release_close_lock on_tally_send on_queue_accept
  on_record_success : keeps.

Lemma on_postproc_no_context a bs : keeps I (mwsocket_postproc_no_context a bs).
Proof. unfold mwsocket_postproc_no_context. walk. Qed.

Lemma on_postproc_in_task a bs : keeps I (mwsocket_postproc_in_task a bs).
Proof. unfold mwsocket_postproc_in_task. walk. Qed.
#[local] Hint Resolve on_postproc_no_context on_postproc_in_task : keeps.

Lemma on_deliver_response a bs : keeps I (deliver_response a bs).
Proof. unfold deliver_response. walk. Qed.
#[local] Hint Resolve on_deliver_response : keeps.

Lemma on_consume_response : keeps I consume_response.
Proof. unfold consume_response. walk. Qed.

Lemma on_wait_xen_iface_ready : keeps I wait_xen_iface_ready.
Proof. unfold wait_xen_iface_ready. walk. Qed.
#[local] Hint Resolve on_consume_response on_wait_xen_iface_ready : keeps.

Lemma on_consumer_loop n : prog_keeps I (consumer_loop n).
Proof. induction n; cbn [consumer_loop]; walk. Qed.
#[local] Hint Resolve on_consumer_loop : keeps.

Lemma on_response_consumer n : prog_keeps I (mwsocket_response_consumer n).
Proof. unfold mwsocket_response_consumer. walk. Qed.

Lemma on_fail_request a : keeps I (fail_request a).
Proof. unfold fail_request. walk. Qed.

Lemma on_ins_is_dead dead fd : keeps I (ins_is_dead dead fd).
Proof. unfold ins_is_dead. walk. Qed.
#[local] Hint Resolve on_fail_request on_ins_is_dead : keeps.

Lemma on_reap_request dead a : keeps I (reap_request dead a).
Proof. unfold reap_request. walk. Qed.

Lemma on_find_replacement dead l : keeps I (find_replacement dead l).
Proof. induction l; cbn [find_replacement]; walk. Qed.

Lemma on_each_safe get body n cur :
  (forall h, keeps I (body h)) -> keeps I (each_safe get body n cur).
Proof. intros Hb. revert cur. induction n; intros [h|]; cbn [each_safe]; walk. Qed.

Lemma on_for_each_safe get body :
  (forall h, keeps I (body h)) -> keeps I (for_each_safe get body).
Proof. intros Hb. apply m_keeps_bind; [apply reads_get_mg|]. intros. by apply on_each_safe. Qed.

(** ** Polling *)

Lemma on_poll_targets m l ins : keeps I (poll_targets m l ins).
Proof. revert ins. induction l; intros; cbn [poll_targets]; walk. Qed.

Lemma on_send_queries m l made : prog_keeps I (send_queries ring_fuel m l made).
Proof. revert made. induction l; intros; cbn [send_queries]; walk. Qed.

Lemma on_find_events fd n i bs : keeps I (find_events fd n i bs).
Proof. revert i. induction n; intros; cbn [find_events]; walk. Qed.
#[local] Hint Resolve on_find_events : keeps.

Lemma on_poll_report bs h : keeps I (report_events bs h).
Proof. unfold report_events. walk. Qed.
#[local] Hint Resolve on_poll_targets on_send_queries on_poll_report : keeps.

Lemma on_poll_reports bs l : keeps I (poll_reports bs l).
Proof. induction l; cbn [poll_reports]; walk. Qed.
#[local] Hint Resolve on_poll_reports : keeps.

Lemma on_await_query a : prog_keeps I (await_query a).
Proof. unfold await_query. walk. Qed.
#[local] Hint Resolve on_await_query : keeps.

Lemma on_await_queries l : prog_keeps I (await_queries l).
Proof. induction l; cbn [await_queries]; walk. Qed.

Lemma on_destroy_queries l : keeps I (destroy_queries l).
Proof. induction l; cbn [destroy_queries]; walk. Qed.
#[local] Hint Resolve on_await_queries on_destroy_queries : keeps.

Lemma on_poll_handle_notifications m :
  prog_keeps I (mwsocket_poll_handle_notifications ring_fuel m).
Proof. unfold mwsocket_poll_handle_notifications. walk. Qed.

(** ** Files *)

Lemma on_create d t p : prog_keeps I (mwsocket_create ring_fuel d t p).
Proof. unfold mwsocket_create, finish_create. walk. Qed.

Lemma on_handle_attrib f attr : prog_keeps I (mwsocket_handle_attrib ring_fuel f attr).
Proof. unfold mwsocket_handle_attrib. walk. Qed.
#[local] Hint Resolve on_handle_attrib : keeps.

Lemma on_ioctl f b attr : prog_keeps I (mwsocket_ioctl ring_fuel f b attr).
Proof. unfold mwsocket_ioctl. walk. Qed.

Lemma on_await_inbound_connection a : keeps I (mwsocket_await_inbound_connection a).
Proof. unfold mwsocket_await_inbound_connection, down_interruptible. walk. Qed.

Lemma on_up_request h : keeps I (up_request h).
Proof. unfold up_request. walk. Qed.
#[local] Hint Resolve on_await_inbound_connection on_up_request : keeps.

Lemma on_give_response h a n : keeps I (give_response h a n).
Proof. unfold give_response. walk. Qed.

Lemma on_read_exit h a r : keeps I (read_exit h a r).
Proof. unfold read_exit. walk. Qed.
#[local] Hint Resolve on_give_response on_read_exit : keeps.

Lemma on_read f n : prog_keeps I (mwsocket_read f n).
Proof. unfold mwsocket_read. walk. Qed.

Lemma on_write_request h bs : prog_keeps I (write_request ring_fuel h bs).
Proof. unfold write_request. walk. Qed.

Lemma on_write_exit h rc a : keeps I (write_exit h rc a).
Proof. unfold write_exit. walk. Qed.

Lemma on_poll f : keeps I (mwsocket_poll f).
Proof. unfold mwsocket_poll. walk. Qed.

Lemma on_notify_ring_ready d : keeps I (mwsocket_notify_ring_ready d).
Proof. unfold mwsocket_notify_ring_ready, complete_xen_iface_ready, mwsocket_new_ins. walk. Qed.

Lemma on_event_cb : keeps I mwsocket_event_cb.
Proof. unfold mwsocket_event_cb. walk. Qed.

End Walk.

#[export] Hint Resolve
  on_wait on_find_sockinst on_find_remote_fd on_find_sockinst_by_remote_fd
  on_signal_owner_by_remote_fd on_find_request_id
  on_find_active_request_by_id on_pending_error on_note_caller_waits on_close_wait
  on_enforce_close_lock on_record_request on_pre_process_request on_acquire_request_slot
  on_put_on_ring on_send_request on_send_message on_close_remote on_close_by_remote_fd
  on_block_ip_mitigation on_send_bare_request on_populate_netflow on_postproc_emit_netflow
  on_release_close_lock on_tally_send on_queue_accept on_record_success on_postproc_no_context
  on_postproc_in_task on_deliver_response on_consume_response on_wait_xen_iface_ready
  on_consumer_loop on_response_consumer on_fail_request on_ins_is_dead on_reap_request
  on_find_replacement on_each_safe on_for_each_safe on_poll_targets on_send_queries
  on_poll_report on_poll_reports on_await_query on_await_queries on_destroy_queries
  on_poll_handle_notifications on_create on_handle_attrib on_ioctl on_await_inbound_connection
  on_up_request on_give_response on_read_exit on_read on_write_request on_write_exit on_poll
  on_notify_ring_ready on_event_cb : keeps.

(** ** Under a fully stable property of the tables *)

Section FullyStableWalk.

Context {S W : Type} {R : XenRing S} {POS : PvmOS W} {OS : MwsOS W}.
Context (P : tables -> Prop) {HP : FullyStable P}.

#[local] Abbreviation onP := (on (S := S) (W := W) P).

Lemma stable_get_sockinst h : keeps onP (mwsocket_get_sockinst h).
Proof. intros s u s' Hs (x & Hx & ->)%upd_si_inv. exact (fs_get (P := P) _ h x Hs Hx). Qed.

Lemma stable_put_sockinst h : keeps onP (mwsocket_put_sockinst h).
Proof.
  destruct h as [h|]; [|apply m_keeps_ret]. intros s u s' Hs E.
  apply put_sockinst_inv in E as (x & Hx & [T|(g & y & z & Hy & Hz & T)]); red; rewrite T;
    pose proof (fs_put (P := P) _ h x Hs Hx) as Hp; [done|].
  exact (st_sock (P := P) _ g y z Hp Hy Hz).
Qed.
#[local] Hint Resolve stable_get_sockinst stable_put_sockinst : keeps.

Lemma on_retarget a h : keeps onP (upd_ar a (set_ar_sockinst h)).
Proof. intros s u s' Hs (x & Hx & ->)%upd_ar_inv. exact (fs_move (P := P) _ a h x Hs Hx). Qed.
#[local] Hint Resolve on_retarget : keeps.

Lemma on_move_request h r a : keeps onP (move_request h r a).
Proof. unfold move_request. walk. Qed.

Lemma stable_take_over h r : keeps onP (take_over h r).
Proof.
  unfold take_over. apply m_keeps_bind; [apply (on_for_each_safe onP); intros ?; apply on_move_request|].
  intros _ s u s' Hs E. run_step E y s1 E1. apply get_si_inv in E1 as [-> Hy].
  run_step E v s1 E1. apply upd_si_inv in E1 as (x & Hx & ->).
  refine ((_ : keeps onP (mwsocket_put_sockinst (Some r) ;;; upd_si h (set_si_ins_alive true) ;;;
                          mwsocket_set_pollable h true)) _ _ _ _ E); [walk|].
  refine (fs_copy (P := P) _ h r x y _ Hs Hx Hy _ _ _); reflexivity.
Qed.

#[export] Instance full_on : FullWalks onP.
Proof.
  split; [typeclasses eauto|exact stable_get_sockinst|exact stable_put_sockinst|exact stable_take_over].
Qed.

End FullyStableWalk.

#[export] Hint Extern 2 (keeps _ (mwsocket_get_sockinst _)) => apply fw_get : keeps.
#[export] Hint Extern 2 (keeps _ (mwsocket_put_sockinst _)) => apply fw_put : keeps.
#[export] Hint Extern 2 (keeps _ (take_over _ _)) => apply fw_take_over : keeps.

(** ** Every other function *)

Section FullWalk.

Context {S W : Type} {R : XenRing S} {POS : PvmOS W} {OS : MwsOS W}.
Context (ring_fuel : nat) (I : mws_state S W -> Prop) {HI : FullWalks I}.

(** ** The reaper and the monitor *)

Lemma on_reap_sockinst dead h : keeps I (reap_sockinst dead h).
Proof. unfold reap_sockinst. walk. Qed.

Lemma on_reap_dead_sock_instances dead : keeps I (mwsocket_reap_dead_sock_instances dead).
Proof.
  unfold mwsocket_reap_dead_sock_instances. walk.
  apply on_for_each_safe; intros ?. apply on_reap_sockinst.
Qed.
#[local] Hint Resolve on_reap_dead_sock_instances : keeps.

Lemma on_monitor_pass h : prog_keeps I (monitor_pass ring_fuel h).
Proof. unfold monitor_pass. walk. Qed.
#[local] Hint Resolve on_monitor_pass : keeps.

Lemma on_monitor_loop n h : prog_keeps I (monitor_loop ring_fuel n h).
Proof. induction n; cbn [monitor_loop]; walk. Qed.
#[local] Hint Resolve on_monitor_loop : keeps.

Lemma on_monitor n : prog_keeps I (mwsocket_monitor ring_fuel n).
Proof. unfold mwsocket_monitor. walk. Qed.

(** ** Listeners, accepts and release *)

Lemma on_find_sibling l d : keeps I (find_sibling l d).
Proof. induction l; cbn [find_sibling]; walk. Qed.
#[local] Hint Resolve on_find_sibling : keeps.

Lemma on_create_sibling u d : prog_keeps I (create_sibling ring_fuel u d).
Proof. unfold create_sibling. walk. Qed.
#[local] Hint Resolve on_create_sibling : keeps.

Lemma on_replicate_onto u n b : prog_keeps I (replicate_onto ring_fuel u n b).
Proof. unfold replicate_onto, then_p, replicate_step, replicate_accept. walk. Qed.
#[local] Hint Resolve on_replicate_onto : keeps.

Lemma on_ins_sock_replicator u b d : prog_keeps I (mwsocket_ins_sock_replicator ring_fuel u b d).
Proof. unfold mwsocket_ins_sock_replicator, lock_sock_rep, find_for_ins. walk. Qed.
#[local] Hint Resolve on_ins_sock_replicator : keeps.

Lemma on_each_live_ins cb n i rc :
  (forall d, prog_keeps I (cb d)) -> prog_keeps I (each_live_ins cb n i rc).
Proof. intros Hcb. revert i rc. induction n; intros; cbn [each_live_ins]; walk. Qed.

Lemma on_propogate_from n cur rc : prog_keeps I (propogate_from ring_fuel n cur rc).
Proof.
  revert cur rc. induction n; intros [h|] rc; cbn [propogate_from]; walk.
  apply on_each_live_ins. intros. apply on_ins_sock_replicator.
Qed.
#[local] Hint Resolve on_propogate_from : keeps.

Lemma on_propogate_listeners : prog_keeps I (mwsocket_propogate_listeners ring_fuel).
Proof. unfold mwsocket_propogate_listeners. walk. Qed.

Lemma on_write_accept h b : prog_keeps I (write_accept ring_fuel h b).
Proof.
  unfold write_accept. walk. apply on_each_live_ins. intros. apply on_ins_sock_replicator.
Qed.
#[local] Hint Resolve on_write_accept : keeps.

Lemma on_write f bs : prog_keeps I (mwsocket_write ring_fuel f bs).
Proof. unfold mwsocket_write. walk. Qed.

Lemma on_close_siblings u n cur rc : prog_keeps I (close_siblings ring_fuel u n cur rc).
Proof. revert cur rc. induction n; intros [h|] rc; cbn [close_siblings]; walk. Qed.
#[local] Hint Resolve on_close_siblings : keeps.

Lemma on_release f : prog_keeps I (mwsocket_release ring_fuel f).
Proof. unfold mwsocket_release. walk. Qed.

End FullWalk.

#[export] Hint Resolve on_reap_sockinst
  on_reap_dead_sock_instances on_monitor on_ins_sock_replicator on_propogate_listeners on_write
  on_release : keeps.

(** A write that is no accept gives up no other reference. *)
Lemma on_write_request_only {S W} {R : XenRing S} {POS : PvmOS W} {OS : MwsOS W} ring_fuel
    (I : mws_state S W -> Prop) {HI : Walks I} f bs :
  is_type MtRequestSocketAccept (rq_type (get_request_base bs)) = false ->
  prog_keeps I (mwsocket_write ring_fuel f bs).
Proof. intros Hb. unfold mwsocket_write. walk; congruence. Qed.
