(* ===== verification/MwsWorld.v ===== *)
(** * MwsWorld: the multiplexer changes the world by its calls only

    A property of the world that every call into the kernel keeps is kept
    by every step of every function of the multiplexer. It can be combined
    with a property of the tables. *)

From stdpp Require Import base numbers list gmap.
From Stdlib Require Import ZArith Lia.
From S2P Require Import Prelude MwSocket MessageTypes XenRing PvmXen Threads PvmCalls MwsState MwsRequest MwsResponse MwsFile MwsTables MwsWalk.

Class WorldStable {W} {POS : PvmOS W} {OS : MwsOS W} (Wp : W -> Prop) : Prop := {
  ws_mws c w : Wp w -> Wp (snd (mws_os_call c w));
  ws_pvm c w : Wp w -> Wp (snd (pvm_os_call c w))
}.

Section World.

Context {S W : Type} {R : XenRing S} {POS : PvmOS W} {OS : MwsOS W}.
Context (Wp : W -> Prop) {HW : WorldStable Wp}.

Definition world_is (s : mws_state S W) : Prop := Wp (pv_world (ms_pvm s)).

Lemma world_upd_si h f : keeps world_is (upd_si h f).
Proof. by intros s u s' Hs (x & _ & ->)%upd_si_inv. Qed.

Lemma world_upd_ar a f : keeps world_is (upd_ar a f).
Proof. by intros s u s' Hs (x & _ & ->)%upd_ar_inv. Qed.

Lemma world_upd_mg f : keeps world_is (upd_mg f).
Proof. by apply m_keeps_modify. Qed.

#[export] Instance steps_world : Steps world_is.
Proof.
  split; intros.
  - intros s x s' Hs E. unfold xen, obind in E.
    destruct (m (ms_pvm s)) as [[y p]| | |] eqn:Em; try discriminate. injection E as _ <-.
    exact (H Wp (ws_pvm (Wp := Wp)) (ms_pvm s) y p Hs Em).
  - intros s x s' Hs E. unfold oscall in E. pose proof (ws_mws (Wp := Wp) c _ Hs) as Hc.
    destruct (mws_os_call c _) as [r w]. injection E as _ <-. exact Hc.
  - apply world_upd_si.
  - apply world_upd_ar.
  - apply world_upd_mg.
  - unfold new_address. apply m_keeps_bind; [apply reads_get_mg|]. intros a.
    apply m_keeps_bind; [apply world_upd_mg|]. intros _. apply m_keeps_ret.
Qed.

#[local] Hint Resolve world_upd_si world_upd_ar world_upd_mg : keeps.

Lemma world_id_in_use l id : keeps world_is (id_in_use l id).
Proof. induction l; cbn [id_in_use]; walk. Qed.
#[local] Hint Resolve world_id_in_use : keeps.

Lemma world_next_id_loop n : keeps world_is (next_id_loop n).
Proof. induction n; cbn [next_id_loop]; unfold inc_id_counter; walk. Qed.
#[local] Hint Resolve world_next_id_loop : keeps.

Lemma world_put_sockinst h : keeps world_is (mwsocket_put_sockinst h).
Proof. unfold mwsocket_put_sockinst, del_sockinst, del_sibling, free_sockinst. walk. Qed.

Lemma world_get_sockinst h : keeps world_is (mwsocket_get_sockinst h).
Proof. unfold mwsocket_get_sockinst. walk. Qed.
#[local] Hint Resolve world_put_sockinst world_get_sockinst : keeps.

#[export] Instance walks_world : Walks world_is.
Proof.
  split; intros.
  - apply steps_world.
  - unfold mwsocket_create_active_request, mwsocket_get_next_id. walk.
  - unfold mwsocket_destroy_active_request. walk.
  - unfold mwsocket_create_sockinst, create_backing_file, del_sockinst, free_sockinst. walk.
Qed.

#[export] Instance full_world : FullWalks world_is.
Proof.
  split; intros; [apply walks_world|apply world_get_sockinst|apply world_put_sockinst|].
  unfold take_over. walk. apply on_for_each_safe. intros a.
  unfold move_request. walk.
Qed.

End World.

(** ** Conjunctions *)

Section Both.

Context {S W : Type} {R : XenRing S} {POS : PvmOS W} {OS : MwsOS W}.
Context (I J : mws_state S W -> Prop).

Definition both (s : mws_state S W) : Prop := I s /\ J s.

Lemma keeps_both {A} (m : M (mws_state S W) A) : keeps I m -> keeps J m -> keeps both m.
Proof. intros HI HJ s x s' [Hi Hj] E. split; [by eapply HI|by eapply HJ]. Qed.

#[export] Instance steps_both {HI : Steps I} {HJ : Steps J} : Steps both.
Proof.
  split; intros; apply keeps_both;
    first [by apply sp_xen|by apply sp_oscall|by apply sp_si|by apply sp_ar|by apply sp_scalar|by apply sp_address].
Qed.

#[export] Instance walks_both {HI : Walks I} {HJ : Walks J} : Walks both.
Proof.
  split; [typeclasses eauto|..]; intros; apply keeps_both;
    first [apply wk_create|apply wk_destroy|apply wk_new].
Qed.

#[export] Instance full_both {HI : FullWalks I} {HJ : FullWalks J} : FullWalks both.
Proof.
  split; [typeclasses eauto|..]; intros; apply keeps_both;
    first [apply fw_get|apply fw_put|apply fw_take_over].
Qed.

End Both.
