(* ===== verification/MwsInvariant.v ===== *)
(** * MwsInvariant: invariants of the multiplexer's tables

    [books]: the lists and the tables agree, identifiers are unique, every
    count of references is positive. All threads keep it, in every
    interleaving. [refs own]: the references of a socket are at least its
    requests and the [own] other ones its files and threads hold. The
    threads that do input and output keep it, so that they never free a
    socket that is in use. *)

From stdpp Require Import base numbers list gmap.
From Stdlib Require Import ZArith Lia.
From S2P Require Import Prelude MwSocket MessageTypes XenRing PvmXen Threads MwsState MwsRequest MwsResponse MwsFile MwsTables MwsWalk.

(** ** A table and the list of its addresses *)

Section Listed.
Context {A : Type}.
Implicit Types (m : gmap nat A) (l : list nat).

(** The list has every address of the table once; addresses are below
    the next one. *)
Record listed (m : gmap nat A) (l : list nat) (next : nat) : Prop := {
  ls_nodup : NoDup l;
  ls_dom a : a ∈ l <-> is_Some (m !! a);
  ls_below a : a ∈ l -> (a < next)%nat
}.

Lemma listed_fresh m l n : listed m l n -> m !! n = None.
Proof.
  intros [_ Hd Hb]. apply eq_None_not_Some. intros Hs%Hd%Hb. lia.
Qed.

Lemma listed_next m l n : listed m l n -> listed m l (S n).
Proof. intros [Hn Hd Hb]. split; [done..|]. intros a Ha%Hb. lia. Qed.

Lemma listed_update m l n a x y : listed m l n -> m !! a = Some x -> listed (<[a := y]> m) l n.
Proof.
  intros [Hn Hd Hb] Ha. split; [done| |done]. intros b. rewrite Hd, lookup_insert_is_Some'.
  split; [auto|]. intros [<-|]; [by eexists|done].
Qed.

Lemma listed_add m l n x : listed m l n -> listed (<[n := x]> m) (n :: l) (S n).
Proof.
  intros H. pose proof (listed_fresh _ _ _ H) as Hf. destruct H as [Hn Hd Hb]. split.
  - constructor; [|done]. intros Hin%Hb. lia.
  - intros b. rewrite elem_of_cons, Hd, lookup_insert_is_Some'. naive_solver.
  - intros b [->|Hin%Hb]%elem_of_cons; lia.
Qed.

Lemma elem_of_without a b l : b ∈ without a l <-> b <> a /\ b ∈ l.
Proof. unfold without. by rewrite list_elem_of_filter. Qed.

Lemma without_fresh a l : a ∉ l -> without a l = l.
Proof.
  intros H. unfold without. induction l as [|b l IH]; [done|].
  apply not_elem_of_cons in H as [Hb H]. rewrite filter_cons_True by done. by rewrite IH.
Qed.

Lemma length_without a l : NoDup l -> a ∈ l -> length l = S (length (without a l)).
Proof.
  induction l as [|b l IH]; intros Hn Ha; [by apply elem_of_nil in Ha|].
  apply NoDup_cons in Hn as [Hb Hn]. unfold without. rewrite filter_cons.
  destruct (decide (b <> a)) as [Hne|Heq].
  - apply elem_of_cons in Ha as [->|Ha]; [done|]. simpl. by rewrite (IH Hn Ha).
  - assert (b = a) as -> by (by apply dec_stable). fold (without a l). by rewrite without_fresh.
Qed.

Lemma listed_del m l n a : listed m l n -> listed (delete a m) (without a l) n.
Proof.
  intros [Hn Hd Hb]. split.
  - apply NoDup_filter. done.
  - intros b. rewrite elem_of_without, Hd, lookup_delete_is_Some. naive_solver.
  - intros b [_ Hin]%elem_of_without. by apply Hb.
Qed.

End Listed.

(** ** The books *)

Definition sock_ok (x : mwsocket_instance) : Prop :=
  1 <= si_refct x /\ si_pending_errno x = 0 /\ si_close_lock_write x = false.

Record books (t : tables) : Prop := {
  bk_requests : listed (t_requests t) (t_request_list t) (t_next t);
  bk_socks : listed (t_socks t) (t_sock_list t) (t_next t);
  bk_count : t_count t = Z.of_nat (length (t_sock_list t));
  bk_id a x : t_requests t !! a = Some x -> ar_id x <> MT_ID_UNSET_VALUE;
  bk_unique a b x y :
    t_requests t !! a = Some x -> t_requests t !! b = Some y -> ar_id x = ar_id y -> a = b;
  bk_sock h x : t_socks t !! h = Some x -> sock_ok x
}.

Lemma sock_ok_same x y : sock_ok x -> sock_same x y -> sock_ok y.
Proof. intros (? & He & Hc) (Hr & Hp & Hw). split_and!; [lia| |]; intuition congruence. Qed.

Lemma books_with_sock t h x y :
  books t -> t_socks t !! h = Some x -> sock_ok y -> books (with_sock h y t).
Proof.
  intros [H1 H2 H3 H4 H5 H6] Hx Hy. split; simpl; [done| |done..|].
  - by eapply listed_update.
  - intros g z [[<- <-]|[_ Hz]]%lookup_insert_Some; [done|by eapply H6].
Qed.

Lemma books_with_request t a x y :
  books t -> t_requests t !! a = Some x -> ar_id y = ar_id x -> books (with_request a y t).
Proof.
  intros [H1 H2 H3 H4 H5 H6] Hx Hid. split; simpl; [by eapply listed_update|done..| | |done].
  - intros b z [[<- <-]|[_ Hz]]%lookup_insert_Some; [rewrite Hid|]; by eapply H4.
  - intros b c z w [[<- <-]|[Hb Hz]]%lookup_insert_Some [[<- <-]|[Hc Hw]]%lookup_insert_Some E;
      [done|rewrite Hid in E|rewrite Hid in E|]; by eapply H5.
Qed.

Lemma books_add_request t h id :
  books t -> id <> MT_ID_UNSET_VALUE ->
  (forall a y, a ∈ t_request_list t -> t_requests t !! a = Some y -> ar_id y <> id) ->
  books (add_request id h t).
Proof.
  intros [H1 H2 H3 H4 H5 H6] Hid Hf.
  assert (forall b y, t_requests t !! b = Some y -> ar_id y <> id) as Hf'.
  { intros b y Hy. apply (Hf b y); [|done]. apply (ls_dom _ _ _ H1). by exists y. }
  split; simpl; [by apply listed_add|by apply listed_next|done| | |done].
  - intros b z [[<- <-]|[_ Hz]]%lookup_insert_Some; [done|by eapply H4].
  - intros b c z w [[<- <-]|[Hb Hz]]%lookup_insert_Some [[<- <-]|[Hc Hw]]%lookup_insert_Some E;
      [done| | |by eapply H5]; simpl in E; exfalso; eapply Hf'; eauto.
Qed.

Lemma books_del_request t a : books t -> books (del_request a t).
Proof.
  intros [H1 H2 H3 H4 H5 H6]. split; simpl; [by apply listed_del|done..| | |done].
  - intros b z [_ Hz]%lookup_delete_Some. by eapply H4.
  - intros b c z w [_ Hz]%lookup_delete_Some [_ Hw]%lookup_delete_Some E. by eapply H5.
Qed.

Lemma books_put_sock t h x : books t -> t_socks t !! h = Some x -> books (put_sock h x t).
Proof.
  intros Hb Hx. pose proof (bk_sock _ Hb h x Hx) as (Hr & He & Hc). unfold put_sock, truth.
  destruct (Z.eqb_spec (si_refct x - 1) 0) as [H0|H0]; simpl.
  - destruct Hb as [H1 H2 H3 H4 H5 H6]. split; simpl; [done|by apply listed_del| |done..|].
    + rewrite H3, (length_without h (t_sock_list t)); [lia|apply H2|]. apply H2. by exists x.
    + intros g z [_ Hz]%lookup_delete_Some. by eapply H6.
  - eapply books_with_sock; [done..|]. split_and!; simpl; [lia|done|done].
Qed.

Lemma books_add_sock t x : books t -> new_sock x -> books (add_sock x t).
Proof.
  intros [H1 H2 H3 H4 H5 H6] (Hr & He & Hc).
  split; simpl; [by apply listed_next|by apply listed_add|lia|done|done|].
  intros g z [[<- <-]|[_ Hz]]%lookup_insert_Some; [|by eapply H6]. split_and!; [lia|done|done].
Qed.

Lemma del_add_sock t x : books t -> del_sock (t_next t) (add_sock x t) = with_next t.
Proof.
  intros [H1 H2 H3 H4 H5 H6]. unfold del_sock, add_sock, with_next. simpl.
  rewrite delete_insert_eq, delete_id by (by eapply listed_fresh).
  f_equal; [|lia]. unfold without. rewrite filter_cons_False by auto.
  apply without_fresh. intros Hin%(ls_below _ _ _ H2). lia.
Qed.

Lemma books_with_next t : books t -> books (with_next t).
Proof. intros [H1 H2 H3 H4 H5 H6]. split; simpl; try done; by apply listed_next. Qed.

#[export] Instance books_stable : Stable books.
Proof.
  split.
  - apply books_with_next.
  - intros t h x y Hb Hx Hs. eapply books_with_sock; [done..|].
    eapply sock_ok_same; [|done]. by eapply bk_sock.
  - intros t a x y Hb Hx [Hid _]. by eapply books_with_request.
  - intros t h x id Hb Hx Hid Hf. apply books_add_request; [|done..].
    eapply books_with_sock; [done..|].
    destruct (bk_sock _ Hb h x Hx) as (? & ? & ?). split_and!; simpl; [lia|done|done].
  - intros t a x y Hb Hx Hy. by apply books_del_request, books_put_sock.
  - intros t x. apply books_add_sock.
  - intros t x Hb _. rewrite del_add_sock by done. by apply books_with_next.
Qed.

#[export] Instance books_fully_stable : FullyStable books.
Proof.
  split.
  - apply _.
  - intros t h x Hb Hx. eapply books_with_sock; [done..|].
    destruct (bk_sock _ Hb h x Hx) as (? & ? & ?). split_and!; simpl; [lia|done|done].
  - intros t h x. apply books_put_sock.
  - intros t h r x y z Hb Hx Hy Hr He Hc. eapply books_with_sock; [done..|].
    destruct (bk_sock _ Hb h x Hx) as (? & ? & ?), (bk_sock _ Hb r y Hy) as (? & ? & ?).
    split_and!; congruence.
  - intros t a h x Hb Hx. by eapply books_with_request.
Qed.

(** ** References *)

(** The requests of the socket [h]. *)
Definition uses (h : nat) (m : gmap nat mwsocket_active_request) : nat :=
  size (filter (fun p => ar_sockinst p.2 = h) m).

Definition use (h : nat) (x : mwsocket_active_request) : nat :=
  if decide (ar_sockinst x = h) then 1%nat else 0%nat.

Lemma uses_insert h m a x :
  uses h (<[a := x]> m) = (use h x + uses h (delete a m))%nat.
Proof.
  unfold uses, use. rewrite <- insert_delete_eq. case_decide as Hd.
  - rewrite map_filter_insert_True by done. rewrite map_size_insert_None; [done|].
    apply map_lookup_filter_None_2. left. apply lookup_delete_eq.
  - rewrite map_filter_insert_False by done. by rewrite delete_delete_eq.
Qed.

Lemma uses_at h m a x : m !! a = Some x -> uses h m = (use h x + uses h (delete a m))%nat.
Proof. intros Hx. rewrite <- uses_insert. f_equal. by rewrite insert_id. Qed.

Lemma uses_pos h m a x : m !! a = Some x -> ar_sockinst x = h -> (0 < uses h m)%nat.
Proof. intros Hx Hh. rewrite (uses_at h m a x Hx). unfold use. rewrite decide_True by done. lia. Qed.

Lemma uses_none h m : (forall a x, m !! a = Some x -> ar_sockinst x <> h) -> uses h m = 0%nat.
Proof.
  intros H. unfold uses. apply map_size_empty_iff, map_empty_filter_2.
  intros a x Hx. by apply (H a).
Qed.

Record refs (own : nat -> nat) (t : tables) : Prop := {
  rf_books : books t;
  rf_live a x : t_requests t !! a = Some x -> is_Some (t_socks t !! ar_sockinst x);
  rf_own h : (0 < own h)%nat -> is_Some (t_socks t !! h);
  rf_count h x :
    t_socks t !! h = Some x -> Z.of_nat (uses h (t_requests t) + own h) <= si_refct x
}.

Section Refs.
Context (own : nat -> nat).

Lemma refs_fresh t : refs own t -> own (t_next t) = 0%nat /\ uses (t_next t) (t_requests t) = 0%nat.
Proof.
  intros [Hb Hl Ho _]. pose proof (listed_fresh _ _ _ (bk_socks _ Hb)) as Hf. split.
  - destruct (own (t_next t)) eqn:E; [done|]. destruct (Ho (t_next t)) as [x Hx]; [lia|congruence].
  - apply uses_none. intros a x Hx Hn. destruct (Hl a x Hx) as [y Hy]. congruence.
Qed.

Lemma refs_with_sock t h x y :
  refs own t -> t_socks t !! h = Some x -> sock_ok y -> si_refct x <= si_refct y ->
  refs own (with_sock h y t).
Proof.
  intros [Hb Hl Ho Hc] Hx Hy Hr. split; simpl.
  - by eapply books_with_sock.
  - intros a z Hz. rewrite lookup_insert_is_Some'. right. by eapply Hl.
  - intros g Hg. rewrite lookup_insert_is_Some'. right. by apply Ho.
  - intros g z [[<- <-]|[_ Hz]]%lookup_insert_Some; [|by apply Hc].
    specialize (Hc h x Hx). lia.
Qed.

Lemma refs_with_request t a x y :
  refs own t -> t_requests t !! a = Some x -> request_same x y -> refs own (with_request a y t).
Proof.
  intros [Hb Hl Ho Hc] Hx [Hid Hs]. split; simpl.
  - by eapply books_with_request.
  - intros b z [[<- <-]|[_ Hz]]%lookup_insert_Some; [rewrite Hs|]; by eapply Hl.
  - done.
  - intros h z Hz. rewrite uses_insert. specialize (Hc h z Hz). rewrite (uses_at h _ a x Hx) in Hc.
    unfold use in *. rewrite Hs. lia.
Qed.

Lemma refs_create t h x id :
  refs own t -> t_socks t !! h = Some x -> id <> MT_ID_UNSET_VALUE ->
  (forall a y, a ∈ t_request_list t -> t_requests t !! a = Some y -> ar_id y <> id) ->
  refs own (add_request id h (with_sock h (get_ref x) t)).
Proof.
  intros [Hb Hl Ho Hc] Hx Hid Hf. split; simpl.
  - by apply (st_create (P := books) _ h x id).
  - intros a z [[<- <-]|[_ Hz]]%lookup_insert_Some; simpl; rewrite lookup_insert_is_Some'; [by left|].
    right. by eapply Hl.
  - intros g Hg. rewrite lookup_insert_is_Some'. right. by apply Ho.
  - intros g z Hz. rewrite uses_insert. rewrite delete_id by (by eapply listed_fresh, bk_requests).
    unfold use. simpl. apply lookup_insert_Some in Hz as [[<- <-]|[Hne Hz]].
    + rewrite decide_True by done. simpl. specialize (Hc h x Hx). lia.
    + rewrite decide_False by done. apply Hc. done.
Qed.

Lemma refs_destroy t a x y :
  refs own t -> t_requests t !! a = Some x -> t_socks t !! ar_sockinst x = Some y ->
  refs own (del_request a (put_sock (ar_sockinst x) y t)).
Proof.
  intros [Hb Hl Ho Hc] Hx Hy. set (h := ar_sockinst x) in *.
  pose proof (Hc h y Hy) as Hch. rewrite (uses_at h _ a x Hx) in Hch. unfold use in Hch.
  rewrite decide_True in Hch by done.
  assert (forall g z, g <> h -> t_socks t !! g = Some z ->
            Z.of_nat (uses g (delete a (t_requests t)) + own g) <= si_refct z) as Hother.
  { intros g z Hg Hz. specialize (Hc g z Hz). rewrite (uses_at g _ a x Hx) in Hc. lia. }
  pose proof (st_destroy (P := books) _ a x y Hb Hx Hy) as Hb'. fold h in Hb'.
  unfold put_sock, truth in *. destruct (Z.eqb_spec (si_refct y - 1) 0) as [H0|H0]; simpl in *.
  - split; simpl; [done| | |].
    + intros b z [Hba Hz]%lookup_delete_Some. rewrite lookup_delete_is_Some. split; [|by eapply Hl].
      intros Heq. assert (0 < uses h (delete a (t_requests t)))%nat; [|lia].
      eapply (uses_pos h _ b z); [by rewrite lookup_delete_ne|done].
    + intros g Hg. rewrite lookup_delete_is_Some. split; [|by apply Ho]. intros <-. lia.
    + intros g z [Hg Hz]%lookup_delete_Some. by apply Hother.
  - split; simpl; [done| | |].
    + intros b z [Hba Hz]%lookup_delete_Some. rewrite lookup_insert_is_Some'. right. by eapply Hl.
    + intros g Hg. rewrite lookup_insert_is_Some'. right. by apply Ho.
    + intros g z [[<- <-]|[Hne Hz]]%lookup_insert_Some; [|by apply Hother]. simpl. lia.
Qed.

Lemma refs_new t x : refs own t -> new_sock x -> refs own (add_sock x t).
Proof.
  intros Hr Hx. destruct (refs_fresh t Hr) as [Ho0 Hu0]. destruct Hr as [Hb Hl Ho Hc]. split; simpl.
  - by apply books_add_sock.
  - intros a z Hz. rewrite lookup_insert_is_Some'. right. by eapply Hl.
  - intros g Hg. rewrite lookup_insert_is_Some'. right. by apply Ho.
  - intros g z [[<- <-]|[_ Hz]]%lookup_insert_Some; [|by apply Hc].
    rewrite Ho0, Hu0. destruct Hx as (-> & _). lia.
Qed.

Lemma refs_next t : refs own t -> refs own (with_next t).
Proof. intros [Hb Hl Ho Hc]. split; simpl; try done. by apply books_with_next. Qed.

#[export] Instance refs_stable : Stable (refs own).
Proof.
  split.
  - apply refs_next.
  - intros t h x y Hr Hx Hs. eapply refs_with_sock; [done..| |].
    + eapply sock_ok_same; [|done]. eapply bk_sock; [apply Hr|done].
    + destruct Hs as [-> _]. lia.
  - intros t a x y. apply refs_with_request.
  - intros t h x id. apply refs_create.
  - intros t a x y. apply refs_destroy.
  - intros t x. apply refs_new.
  - intros t x Hr _. rewrite del_add_sock by apply Hr. by apply refs_next.
Qed.

End Refs.
