(* ===== verification/MwsThreads.v ===== *)
(** * MwsThreads: the threads of the multiplexer, interleaved

    Every call into the multiplexer is a thread: the callbacks of files,
    the calls of the other parts of the module, its two kernel threads
    and its work item. Their steps interleave in any order, the rings and
    the kernel change in between, and the tables stay well-formed. *)

From stdpp Require Import base numbers list gmap relations.
From Stdlib Require Import ZArith Lia.
From S2P Require Import Prelude MwSocket MessageTypes XenRing PvmXen Threads MwsState MwsRequest MwsResponse MwsFile MwsTables MwsWalk MwsInvariant.

(** A call into the multiplexer. *)
Inductive mws_op : Type :=
| OpCreate (Domain Type_ Protocol : Z)
| OpWrite (File : nat) (Bytes : list Z)
| OpRead (File : nat) (Len : Z)
| OpIoctl (File : nat) (attributes : bool) (attrib : mwsocket_attrib)
| OpPoll (File : nat)
| OpRelease (File : nat)
| OpEvent
| OpRingReady (Domid : Z)
| OpCloseByRemoteFd (RemoteFd : Z) (Wait : bool)
| OpSignalOwner (RemoteFd SignalNum : Z)
| OpBlockIp (Domid block : Z) (addr : list Z)
| OpBareRequest (Request : list Z) (response_size : Z)
| OpPropogateListeners
| OpResponseConsumer (n : nat)
| OpMonitor (n : nat).

Section Ops.

Context {S W : Type} {R : XenRing S} {POS : PvmOS W} {OS : MwsOS W}.
Context (ring_fuel : nat).

#[local] Abbreviation mws_p := (mws_p (S := S) (W := W)).

Definition done_p {A} (p : mws_p A) : mws_p unit := p ;!; PRet tt.

Definition run_op (op : mws_op) : mws_p unit :=
  match op with
  | OpCreate d t p => done_p (mwsocket_create ring_fuel d t p)
  | OpWrite f bs => done_p (mwsocket_write ring_fuel f bs)
  | OpRead f n => done_p (mwsocket_read f n)
  | OpIoctl f b attr => done_p (mwsocket_ioctl ring_fuel f b attr)
  | OpPoll f => done_p (lift (mwsocket_poll f))
  | OpRelease f => done_p (mwsocket_release ring_fuel f)
  | OpEvent => done_p (lift mwsocket_event_cb)
  | OpRingReady d => done_p (lift (mwsocket_notify_ring_ready d))
  | OpCloseByRemoteFd fd w => done_p (mwsocket_close_by_remote_fd ring_fuel fd w)
  | OpSignalOwner fd sig => done_p (lift (mwsocket_signal_owner_by_remote_fd fd sig))
  | OpBlockIp d b addr => done_p (mwsocket_block_ip_mitigation ring_fuel d b addr)
  | OpBareRequest r n => done_p (mwsocket_send_bare_request ring_fuel r n)
  | OpPropogateListeners => done_p (mwsocket_propogate_listeners ring_fuel)
  | OpResponseConsumer n => done_p (mwsocket_response_consumer n)
  | OpMonitor n => done_p (mwsocket_monitor ring_fuel n)
  end.

(** The calls that give up no reference but that of their own request. *)
Definition is_io (op : mws_op) : bool :=
  match op with
  | OpWrite _ bs => negb (is_type MtRequestSocketAccept (rq_type (get_request_base bs)))
  | OpRelease _ | OpPropogateListeners | OpMonitor _ => false
  | _ => true
  end.

(** The rings and the kernel are changed from outside, the tables are not. *)
Definition outside (s s' : mws_state S W) : Prop := ms_g s' = ms_g s.

Definition pool_of (ops : list mws_op) (s : mws_state S W) : pool (mws_state S W) unit :=
  {| po_threads := map run_op ops; po_state := s |}.

Lemma run_op_keeps (I : mws_state S W -> Prop) {HI : FullWalks I} op : prog_keeps I (run_op op).
Proof. destruct op; cbn [run_op]; unfold done_p; walk. Qed.

Lemma run_op_keeps_io (I : mws_state S W -> Prop) {HI : Walks I} op :
  is_io op = true -> prog_keeps I (run_op op).
Proof.
  destruct op; cbn [run_op is_io]; intros Hio; try discriminate; unfold done_p; walk.
  apply on_write_request_only; [typeclasses eauto|]. by apply negb_true_iff.
Qed.

Lemma pool_on P (ops : list mws_op) (s : mws_state S W) c :
  Forall (fun op => prog_keeps (on P) (run_op op)) ops -> on P s ->
  rtc (pool_step outside) (pool_of ops s) c -> on P (po_state c).
Proof.
  intros Hops Hs Hrun.
  refine (proj2 (pool_invariant outside (on P) (pool_of ops s) c _ _ Hs Hrun)).
  - intros s1 s2 H1 E. red. rewrite E. exact H1.
  - simpl. by apply Forall_map.
Qed.

(** The subsystem as it starts. *)
Lemma books_zero n : books (tables_of (set_mg_next_address n mg_zero)).
Proof.
  split; simpl; try done.
  - split; [constructor| |]; intros a; rewrite ?lookup_empty; [split; [by intros ?%elem_of_nil|by intros []]|by intros ?%elem_of_nil].
  - split; [constructor| |]; intros a; rewrite ?lookup_empty; [split; [by intros ?%elem_of_nil|by intros []]|by intros ?%elem_of_nil].
Qed.

Lemma init_books s rc s' : mwsocket_init (S := S) (W := W) s = Done (rc, s') -> on books s'.
Proof.
  unfold mwsocket_init. intros E. run_step E u s1 E1. injection E1 as _ <-.
  match type of E with ?m ?s1 = _ => assert (keeps (on books) m) as Hk end.
  { unfold mwsocket_fs_init, create_or. walk. }
  refine (Hk _ _ _ _ E). apply books_zero.
Qed.

End Ops.
