(* ===== verification/MwsSamples.v ===== *)
(** * MwsSamples: concrete sockets, rings and kernels for the witnesses *)

From stdpp Require Import base numbers list gmap.
From Stdlib Require Import ZArith Lia.
From S2P Require Import Prelude MwSocket MessageTypes XenRing PvmXen Threads MwsState MwsRequest MwsResponse MwsFile.

(** A kernel in which every call succeeds, no signal comes, no wait
    expires, and nobody listens to the netflow. The world is the clock. *)
#[export] Instance CalmMws : MwsOS Z := fun c w =>
  let ok r := {| m_ret := r; m_val := 0; m_time := {| tv_sec := w; tv_nsec := 0 |} |} in
  match c with
  | KmemCacheAlloc | KmallocGfp | NewInodePseudo | DAllocPseudo | AllocFile | CurrentTask
  | KallsymsLookup | KernMount | KmemCacheCreate | KthreadRun => (ok 1, w)
  | GetUnusedFd _ => (ok 5, w)
  | MwsSleep j => (ok 0, w + j)
  | _ => (ok 0, w)
  end.

(** The INS 7 with an empty ring; the other entries are free. *)
Definition ready_ins : mwcomms_ins_data simple_ring :=
  set_id_is_ring_ready true (set_id_domid 7 (set_id_in_use 1 (ins_zero simple_ring_zero))).
Definition ready_pvm : pvm_state simple_ring Z :=
  set_pv_g (set_mx_ins [ready_ins; ins_zero simple_ring_zero; ins_zero simple_ring_zero]
              (globals_zero simple_ring_zero)) (pvm_boot simple_ring_zero 1000).

Definition with_globals (g : mwsocket_globals) : mws_state simple_ring Z :=
  {| ms_pvm := ready_pvm; ms_g := g; ms_trace := [] |}.

(** The user socket 0 on the INS 7 behind the file 3. *)
Definition user_sock : mwsocket_instance :=
  set_si_file (Some 3%nat) (set_si_local_fd 5 (set_si_remote_fd (MW_SOCKET_CREATE 7 1)
 (set_si_mwflags MWSOCKET_FLAG_USER (init_sockinst 1 0)))).

Definition one_socket : mwsocket_globals :=
  set_mg_is_xen_iface_ready true (set_mg_files {[ 3%nat := 0%nat ]}
 (set_mg_sockinsts {[ 0%nat := user_sock ]} (set_mg_sockinst_list [0%nat]
 (set_mg_sockinst_count 1 (set_mg_next_address 10 mg_zero))))).

(** A request of the user: it will read the response. *)
Definition user_request (type size : Z) (body : list Z) : list Z :=
  put_request_base {| rq_sig := 0; rq_type := type; rq_size := size; rq_id := 0;
    rq_sockfd := MW_SOCKET_CREATE 7 1; rq_flags := MT_FLAGS_PVM_CALLER_AWAITS_RESPONSE |} ++ body.
Definition listen_request : list Z :=
  user_request (request_type_code MtRequestSocketListen) MT_REQUEST_SOCKET_LISTEN_SIZE (le_bytes 4 8).

(** The INS has put the response [bs] on its ring. *)
Definition response_ring (bs : list Z) : simple_ring :=
  {| sr_slot := fun _ => bs; sr_req_prod := 1; sr_rsp_prod := 1 |}.
Definition answering_ins (bs : list Z) : mwcomms_ins_data simple_ring :=
  set_id_sring (response_ring bs) ready_ins.
Definition with_response (bs : list Z) (g : mwsocket_globals) : mws_state simple_ring Z :=
  {| ms_pvm := set_pv_g (set_mx_ins [answering_ins bs; ins_zero simple_ring_zero; ins_zero simple_ring_zero]
                           (pv_g ready_pvm)) ready_pvm;
     ms_g := g; ms_trace := [] |}.

Definition response_bytes (type id size sockfd status flags : Z) (body : list Z) : list Z :=
  put_response_base {| rs_sig := MT_SIGNATURE_RESPONSE; rs_type := MT_RESPONSE type; rs_size := size;
    rs_id := id; rs_sockfd := sockfd; rs_status := status; rs_flags := flags; rs_ts_ins := 0;
    rs_body := BodyUnset |} ++ body.

(** The user socket waits for the response to its request 1, at the
    address 9; another request, at the address 8, waits too. *)
Definition waiting_request : mwsocket_active_request :=
  set_ar_id 1 (set_ar_deliver_response true (set_ar_from_user true ar_zero)).
Definition other_request : mwsocket_active_request :=
  set_ar_id 2 (set_ar_deliver_response true ar_zero).
Definition waiting_sock : mwsocket_instance :=
  set_si_refct 3 (set_si_blockid 1 (set_si_read_expected true (set_si_request_sem 0 user_sock))).
Definition waiting_socket : mwsocket_globals :=
  set_mg_active_requests {[ 9%nat := waiting_request; 8%nat := other_request ]}
 (set_mg_active_request_list [9; 8]%nat
 (set_mg_sockinsts {[ 0%nat := waiting_sock ]} one_socket)).
Definition listen_response : list Z :=
  response_bytes (request_type_code MtRequestSocketListen) 1 MT_RESPONSE_BASE_SIZE (MW_SOCKET_CREATE 7 1) 0 0 [].
