(* ===== verification/MwsSafety.v ===== *)
(** * MwsSafety: what holds in every interleaving of the multiplexer's threads *)

From stdpp Require Import base numbers list gmap relations.
From Stdlib Require Import ZArith Lia.
From S2P Require Import Prelude MwSocket MessageTypes XenRing PvmXen Threads MwsState MwsRequest MwsResponse MwsFile MwsTables MwsWalk MwsInvariant MwsThreads MwsSamples.

Section Safety.

Context {S W : Type} {R : XenRing S} {POS : PvmOS W} {OS : MwsOS W}.
Context (ring_fuel : nat).
Implicit Types s : mws_state S W.

(** (C2) Whatever the threads of the module do, in whatever order their steps
    are taken, and whatever the INS domains and the kernel do in between:
    the lists of requests and of sockets name every live object once,
    [sockinst_count] is the number of sockets, the identifiers of active
    requests are set and unique, a live socket has a reference, no socket
    has a pending error, and nobody ever holds the close lock for the
    flag that would release it. *)
Theorem tables_stay_consistent (ops : list mws_op) s0 rc s c :
  mwsocket_init s0 = Done (rc, s) ->
  rtc (pool_step outside) (pool_of ring_fuel ops s) c ->
  let g := ms_g (po_state c) in
  (NoDup (mg_active_request_list g)
   /\ forall a, a ∈ mg_active_request_list g <-> is_Some (mg_active_requests g !! a))
  /\ (NoDup (mg_sockinst_list g)
      /\ forall h, h ∈ mg_sockinst_list g <-> is_Some (mg_sockinsts g !! h))
  /\ mg_sockinst_count g = Z.of_nat (length (mg_sockinst_list g))
  /\ (forall a b x y, mg_active_requests g !! a = Some x -> mg_active_requests g !! b = Some y ->
      ar_id x <> MT_ID_UNSET_VALUE /\ (ar_id x = ar_id y -> a = b))
  /\ (forall h x, mg_sockinsts g !! h = Some x ->
      1 <= si_refct x /\ si_pending_errno x = 0 /\ si_close_lock_write x = false).
Proof.
  intros Hinit Hrun g. pose proof (init_books _ _ _ Hinit) as Hb.
  assert (books (tables_of g)) as [H1 H2 H3 H4 H5 H6].
  { refine (pool_on ring_fuel books ops s c _ Hb Hrun). apply Forall_forall. intros op _.
    exact (run_op_keeps ring_fuel (on books) op). }
  split_and!; try apply H1; try apply H2; eauto.
Qed.

(** (C10) A thread that reads, writes anything but an accept, sets options,
    polls, creates sockets or consumes responses never frees a socket
    that is in use: with [own h] references to [h] that are not those of
    a request, the socket of every file stays and so does the socket of
    every request, whatever the interleaving. *)
Theorem sockets_in_use_stay (own : nat -> nat) (ops : list mws_op) s c :
  Forall (fun op => is_io op = true) ops ->
  refs own (tables_of (ms_g s)) ->
  rtc (pool_step outside) (pool_of ring_fuel ops s) c ->
  let g := ms_g (po_state c) in
  (forall h, (0 < own h)%nat -> is_Some (mg_sockinsts g !! h))
  /\ (forall a x, mg_active_requests g !! a = Some x -> is_Some (mg_sockinsts g !! ar_sockinst x))
  /\ (forall h x, mg_sockinsts g !! h = Some x ->
      Z.of_nat (uses h (mg_active_requests g) + own h) <= si_refct x).
Proof.
  intros Hio Hs Hrun g.
  assert (refs own (tables_of g)) as [_ H2 H3 H4]; [|done].
  refine (pool_on ring_fuel (refs own) ops s c _ Hs Hrun).
  eapply Forall_impl; [exact Hio|]. intros op. exact (run_op_keeps_io ring_fuel (on (refs own)) op).
Qed.

End Safety.

(** The module starts, an INS comes, and a process creates a socket: it
    waits for the response to its request. *)
Definition started : mws_state simple_ring Z :=
  out_state (mwsocket_init (with_globals mg_zero)) (with_globals mg_zero).
Definition creating : list mws_op := [OpRingReady 7; OpCreate 2 1 0].

Definition schedule_end (ops : list mws_op) (sched : list nat) (s : mws_state simple_ring Z)
    : mws_state simple_ring Z :=
  out_state (run_schedule sched (map (run_op 3) ops) s) s.

Lemma schedule_runs ops sched s :
  returns (run_schedule sched (map (run_op 3) ops) s) (fun _ => true) = true ->
  exists ts, rtc (pool_step outside) (pool_of 3 ops s)
               {| po_threads := ts; po_state := schedule_end ops sched s |}.
Proof.
  intros H. destruct (returns_done _ _ s H) as (ts & E & _). exists ts.
  by eapply run_schedule_pool.
Qed.

Lemma tables_stay_consistent_witness :
  exists c, rtc (pool_step outside) (pool_of 3 creating started) c
  /\ map fst (map_to_list (mg_active_requests (ms_g (po_state c)))) = [2%nat]
  /\ mg_sockinst_count (ms_g (po_state c)) = Z.of_nat (length (mg_sockinst_list (ms_g (po_state c)))).
Proof.
  destruct (schedule_runs creating (0 :: replicate 10 1)%nat started ltac:(by vm_compute)) as [ts Hrun].
  eexists. split; [exact Hrun|]. split; [by vm_compute|].
  refine (proj1 (proj2 (proj2 (tables_stay_consistent 3 creating (with_globals mg_zero) 0 started _ _ Hrun)))).
  apply returns_eq. by vm_compute.
Defined.

Definition own_first : nat -> nat := fun h => if decide (h = 0%nat) then 1%nat else 0%nat.

(** A write to the user socket, and the thread of the responses. *)
Lemma sockets_in_use_stay_witness :
  refs own_first (tables_of one_socket) /\
  exists c, rtc (pool_step outside) (pool_of 3 [OpWrite 3 listen_request; OpResponseConsumer 2]
                                       (with_globals one_socket)) c
  /\ map fst (map_to_list (mg_active_requests (ms_g (po_state c)))) = [10%nat]
  /\ is_Some (mg_sockinsts (ms_g (po_state c)) !! 0%nat).
Proof.
  assert (refs own_first (tables_of one_socket)) as Hr.
  { split; [split| | |]; simpl; try done.
    - split; [constructor| |]; intros a; rewrite ?lookup_empty; [split|]; try by intros ?%elem_of_nil.
      by intros [].
    - split; [apply NoDup_singleton| |]; intros a; rewrite list_elem_of_singleton; [|lia].
      rewrite lookup_singleton_is_Some. done.
    - intros h x [<- <-]%lookup_singleton_Some. by split_and!.
    - intros h Hh. rewrite lookup_singleton_is_Some. unfold own_first in Hh. case_decide; [done|lia].
    - intros h x [<- <-]%lookup_singleton_Some. by vm_compute. }
  split; [exact Hr|].
  destruct (schedule_runs [OpWrite 3 listen_request; OpResponseConsumer 2] (replicate 13 0%nat)
              (with_globals one_socket) ltac:(by vm_compute)) as [ts Hrun].
  eexists. split; [exact Hrun|]. split; [by vm_compute|].
  refine (proj1 (sockets_in_use_stay 3 own_first _ (with_globals one_socket) _ _ Hr Hrun) 0%nat _); [by repeat constructor|].
  vm_compute. lia.
Defined.
