(* ===== verification/MwsDelivery.v ===== *)
(** * MwsDelivery: identifiers, and the way of a response to its reader *)

From stdpp Require Import base numbers list gmap.
From Stdlib Require Import ZArith Lia.
From S2P Require Import Prelude MwSocket MessageTypes XenRing PvmXen Threads MwsState MwsRequest MwsResponse MwsFile MwsTables MwsWalk MwsInvariant MwsSamples.

(** ** Identifiers *)

Lemma length_filter_lt {A} (P Q : A -> Prop) `{forall x, Decision (P x), forall x, Decision (Q x)}
    (l : list A) y :
  (forall x, P x -> Q x) -> y ∈ l -> Q y -> ~ P y ->
  (length (filter P l) < length (filter Q l))%nat.
Proof.
  intros HPQ Hy Hq Hp.
  assert (forall l', length (filter P l') <= length (filter Q l'))%nat as Hle.
  { induction l' as [|x l' IH]; [done|]. rewrite !filter_cons.
    case_decide as H1; case_decide as H2; simpl; try lia. by apply HPQ in H1. }
  induction l as [|x l IH]; [by apply elem_of_nil in Hy|]. rewrite !filter_cons.
  apply elem_of_cons in Hy as [<-|Hy].
  - rewrite decide_False, decide_True by done. simpl. specialize (Hle l). lia.
  - specialize (IH Hy). case_decide as H1; case_decide as H2; simpl; try lia. by apply HPQ in H1.
Qed.

(** The value of the counter after [c] that is used. *)
Definition next_value (c : Z) : Z :=
  if MT_ID_UNSET_VALUE =? u64 (c + 1) then u64 (u64 (c + 1) + 1) else u64 (c + 1).

(** The steps of the counter from [c] to [x]. *)
Definition steps_to (c x : Z) : Z := u64 (x - c).

(** [x] is among the next [2 * n] values from [c] on. *)
Definition near (c : Z) (n : nat) (x : Z) : Prop := 1 <= steps_to c x <= 2 * Z.of_nat n.

#[global] Instance near_dec c n x : Decision (near c n x).
Proof. unfold near. apply _. Defined.

Lemma near_next c x n :
  2 * Z.of_nat (S n) < 2 ^ 64 -> near (next_value c) n x -> near c (S n) x.
Proof.
  unfold near, steps_to, next_value, MT_ID_UNSET_VALUE, wrapu. intros Hn H.
  assert (exists d, 1 <= d <= 2 /\ (x - c) mod 2 ^ 64
            = ((x - (if 0 =? (c + 1) mod 2 ^ 64 then ((c + 1) mod 2 ^ 64 + 1) mod 2 ^ 64
                     else (c + 1) mod 2 ^ 64)) + d) mod 2 ^ 64) as (d & Hd & ->).
  { destruct (0 =? _); [exists 2|exists 1]; (split; [lia|]).
    - rewrite (Zplus_mod_idemp_l (c + 1)), Zplus_mod, Zminus_mod_idemp_r, <- Zplus_mod. f_equal. lia.
    - rewrite Zplus_mod, Zminus_mod_idemp_r, <- Zplus_mod. f_equal. lia. }
  rewrite Zplus_mod, (Z.mod_small d) by lia. rewrite Z.mod_small; lia.
Qed.

Lemma steps_to_next_value c : 1 <= steps_to c (next_value c) <= 2 /\ steps_to (next_value c) (next_value c) = 0.
Proof.
  unfold steps_to, next_value, MT_ID_UNSET_VALUE, wrapu. split; [|by rewrite Z.sub_diag].
  destruct (0 =? _).
  - rewrite Zplus_mod_idemp_l, Zminus_mod_idemp_l. replace (c + 1 + 1 - c) with 2 by lia. by vm_compute.
  - rewrite Zminus_mod_idemp_l. replace (c + 1 - c) with 1 by lia. by vm_compute.
Qed.

Lemma next_value_range c : 0 < next_value c < 2 ^ 64.
Proof.
  unfold next_value, MT_ID_UNSET_VALUE.
  destruct (Z.eqb_spec 0 (u64 (c + 1))) as [<-|Hne]; [by vm_compute|].
  pose proof (wrapu_range 64 (c + 1) ltac:(lia)) as Hr. unfold in_u in Hr. lia.
Qed.

Section Ids.

Context {S W : Type} {R : XenRing S} {POS : PvmOS W} {OS : MwsOS W}.
Implicit Types s : mws_state S W.

(** The identifiers of the requests [l]. *)
Definition ids_of (m : gmap nat mwsocket_active_request) (l : list nat) : list Z :=
  omap (fun a => ar_id <$> m !! a) l.

Lemma length_ids_of m l : (length (ids_of m l) <= length l)%nat.
Proof. induction l as [|a l IH]; simpl; [done|]. destruct (m !! a); simpl; lia. Qed.

Lemma id_in_use_eval l id s :
  Forall (fun a => is_Some (mg_active_requests (ms_g s) !! a)) l ->
  id_in_use l id s = Done (bool_decide (id ∈ ids_of (mg_active_requests (ms_g s)) l), s).
Proof.
  induction 1 as [|a l [x Hx] Hl IH]; [done|].
  cbn [id_in_use]. unfold bind, get_ar. rewrite Hx. cbn [obind]. unfold ids_of. cbn [omap list_omap].
  rewrite Hx. simpl. destruct (Z.eqb_spec (ar_id x) id) as [<-|Hne].
  - rewrite bool_decide_true by set_solver. done.
  - rewrite IH. do 2 f_equal. apply bool_decide_ext. unfold ids_of. set_solver.
Qed.

Definition with_counter (c : Z) s : mws_state S W := set_ms_g (set_mg_id_counter c (ms_g s)) s.

Lemma next_id_step n s :
  Forall (fun a => is_Some (mg_active_requests (ms_g s) !! a)) (mg_active_request_list (ms_g s)) ->
  next_id_loop (Datatypes.S n) s =
  let id := next_value (mg_id_counter (ms_g s)) in
  if bool_decide (id ∈ ids_of (mg_active_requests (ms_g s)) (mg_active_request_list (ms_g s)))
  then next_id_loop n (with_counter id s) else Done (id, with_counter id s).
Proof.
  intros Hl. cbn [next_id_loop]. unfold inc_id_counter, upd_mg, get_mg, gets, modify, next_value.
  unfold bind at 1 2 3 4. cbn [obind]. unfold ret at 1. cbn [obind].
  destruct (MT_ID_UNSET_VALUE =? u64 (mg_id_counter (ms_g s) + 1)) eqn:E; unfold bind, ret; cbn [obind];
    rewrite id_in_use_eval by exact Hl; cbn [obind]; destruct (bool_decide _); try done.
Qed.

Lemma next_id_loop_total n s :
  Forall (fun a => is_Some (mg_active_requests (ms_g s) !! a)) (mg_active_request_list (ms_g s)) ->
  2 * Z.of_nat n < 2 ^ 64 ->
  (length (filter (near (mg_id_counter (ms_g s)) n)
     (ids_of (mg_active_requests (ms_g s)) (mg_active_request_list (ms_g s)))) < n)%nat ->
  exists id s', next_id_loop n s = Done (id, s') /\ 0 < id < 2 ^ 64.
Proof.
  revert s. induction n as [|n IH]; intros s Hl Hn Hhits; [lia|].
  rewrite next_id_step by done. cbv zeta. set (c := mg_id_counter (ms_g s)) in *.
  case_bool_decide as Hin; [|pose proof (next_value_range c); eauto].
  apply IH; [exact Hl|lia|]. cbn [with_counter ms_g set_ms_g].
  pose proof (steps_to_next_value c) as [H1 H2].
  eapply Nat.lt_le_trans; [|apply Nat.lt_succ_r, Hhits].
  apply (length_filter_lt _ _ _ (next_value c)); [|done|unfold near; lia|unfold near; simpl; lia].
  intros x. apply near_next. lia.
Qed.

(** (C27) [mwsocket_get_next_id] returns an identifier that is set and that no
    active request has, for any number of requests below 2^62, also when
    the 64-bit counter starts over. *)
Theorem next_id_terminates s :
  (forall a, a ∈ mg_active_request_list (ms_g s) -> is_Some (mg_active_requests (ms_g s) !! a)) ->
  Z.of_nat (length (mg_active_request_list (ms_g s))) < 2 ^ 62 ->
  exists id s', mwsocket_get_next_id s = Done (id, s')
  /\ 0 < id < 2 ^ 64
  /\ tables_of (ms_g s') = tables_of (ms_g s)
  /\ forall a x, a ∈ mg_active_request_list (ms_g s) ->
       mg_active_requests (ms_g s) !! a = Some x -> ar_id x <> id.
Proof.
  intros Hl Hlen. apply Forall_forall in Hl.
  pose proof (length_ids_of (mg_active_requests (ms_g s)) (mg_active_request_list (ms_g s))) as Hids.
  destruct (next_id_loop_total (Datatypes.S (length (mg_active_request_list (ms_g s)))) s)
    as (id & s' & E & Hid); [done|lia| |].
  { eapply Nat.le_lt_trans; [apply length_filter|]. lia. }
  exists id, s'. split; [exact E|]. split; [exact Hid|].
  destruct (next_id_loop_inv _ _ _ _ E) as (T & _ & Hf). done.
Qed.

End Ids.

Lemma next_id_terminates_witness :
  let g := set_mg_id_counter (2 ^ 64 - 1) (set_mg_active_request_list [0; 1]%nat
             (set_mg_active_requests {[ 0%nat := set_ar_id 1 ar_zero; 1%nat := set_ar_id 2 ar_zero ]}
                one_socket)) in
  exists s', mwsocket_get_next_id (with_globals g) = Done (3, s').
Proof.
  intros g. destruct (next_id_terminates (with_globals g)) as (id & s' & E & _).
  - simpl. intros a Ha. assert (a = 0 \/ a = 1)%nat as [-> | ->] by set_solver; by eexists.
  - by vm_compute.
  - exists s'. rewrite E.
    assert (returns (mwsocket_get_next_id (with_globals g)) (fun i => i =? 3) = true) as H by by vm_compute.
    rewrite E in H. by apply Z.eqb_eq in H as ->.
Defined.

(** ** A response and the other requests *)

Section Other.

Context {S W : Type} {R : XenRing S} {POS : PvmOS W} {OS : MwsOS W}.
Context (a b : nat) (y : mwsocket_active_request) (Hab : a <> b).

(** The request [b] is as it was. *)
Definition untouched (t : tables) : Prop := t_requests t !! b = Some y.
#[local] Abbreviation onU := (on (S := S) (W := W) untouched).

Lemma untouched_upd_si h f : keeps onU (upd_si h f).
Proof. intros s u s' Hs (x & Hx & ->)%upd_si_inv. exact Hs. Qed.

Lemma untouched_upd_ar f : keeps onU (upd_ar a f).
Proof.
  intros s u s' Hs (x & Hx & ->)%upd_ar_inv. red. unfold untouched. simpl.
  by rewrite lookup_insert_ne.
Qed.

Lemma untouched_put h : keeps onU (mwsocket_put_sockinst h).
Proof.
  destruct h as [h|]; [|apply m_keeps_ret]. intros s u s' Hs (x & Hx & T)%put_sockinst_inv.
  red. destruct T as [->|(u' & y' & z & _ & _ & ->)]; unfold untouched, put_sock, with_sock; simpl;
    by destruct (truth _).
Qed.

Lemma untouched_delete f :
  (forall g, mg_active_requests (f g) = delete a (mg_active_requests g)) -> keeps onU (upd_mg f).
Proof.
  intros Hf. apply m_keeps_modify. intros s Hs. red. unfold untouched. simpl.
  by rewrite Hf, lookup_delete_ne.
Qed.

#[local] Hint Resolve untouched_upd_si untouched_upd_ar untouched_put : keeps.
#[local] Hint Extern 2 (keeps _ (upd_mg _)) => apply untouched_delete; intros ?; reflexivity : keeps.

Lemma untouched_postproc bs : keeps onU (mwsocket_postproc_no_context a bs).
Proof.
  unfold mwsocket_postproc_no_context, release_close_lock, tally_send, queue_accept, record_success,
    up_read_close, up_write_close, memcpy_rr. walk.
Qed.
#[local] Hint Resolve untouched_postproc : keeps.

Lemma untouched_deliver bs : keeps onU (deliver_response a bs).
Proof.
  unfold deliver_response, mwsocket_postproc_emit_netflow, mwsocket_populate_netflow, mwsocket_populate_netflow_ip,
    complete_arrived, mwsocket_destroy_active_request, memcpy_rr. walk.
Qed.

End Other.

Section Dispatch.

Context {S W : Type} {R : XenRing S} {POS : PvmOS W} {OS : MwsOS W}.
Implicit Types s : mws_state S W.

Lemma find_request_id_inv l Id s o s' :
  find_request_id (S := S) (W := W) l Id s = Done (o, s') ->
  s' = s /\ forall a, o = Some a ->
    exists x, mg_active_requests (ms_g s) !! a = Some x /\ ar_id x = Id.
Proof.
  revert s. induction l as [|a l IH]; intros s E; cbn [find_request_id] in E.
  - injection E as <- <-. split; [done|discriminate].
  - run_step E x s1 E1. apply get_ar_inv in E1 as [-> Hx].
    destruct (Z.eqb_spec (ar_id x) Id) as [Hid|]; [|by apply IH].
    injection E as <- <-. split; [done|]. intros b [= <-]. eauto.
Qed.

Lemma find_active_request_inv Id s rc o s' :
  mwsocket_find_active_request_by_id (S := S) (W := W) Id s = Done ((rc, o), s') ->
  s' = s /\ forall a, o = Some a ->
    exists x, mg_active_requests (ms_g s) !! a = Some x /\ ar_id x = Id.
Proof.
  unfold mwsocket_find_active_request_by_id. intros E.
  run_step E l s1 E1. injection E1 as <- <-. run_step E found s2 E2.
  apply find_request_id_inv in E2 as [-> Hf]. destruct found as [a|].
  - run_step E x s3 E3. apply get_ar_inv in E3 as [-> Hx]. run_step E rel s4 E4.
    unfold has_mwflag in E4. run_step E4 z s5 E5. apply get_si_inv in E5 as [-> Hz].
    injection E4 as _ <-. injection E as _ <- <-. split; [done|]. exact Hf.
  - injection E as _ <- <-. split; [done|discriminate].
Qed.

Lemma xen_inv {A} (m : pvm_m (S := S) (W := W) A) s x s' :
  xen m s = Done (x, s') -> exists p, m (ms_pvm s) = Done (x, p) /\ s' = set_ms_pvm p s.
Proof.
  unfold xen, obind. destruct (m (ms_pvm s)) as [[y p]| | |]; try discriminate.
  intros [= <- <-]. eauto.
Qed.


End Dispatch.
