(* ===== verification/MwsRoundTrip.v ===== *)
(** * MwsRoundTrip: a response reaches the process that waits for it *)

From stdpp Require Import base numbers list gmap.
From Stdlib Require Import ZArith Lia.
From S2P Require Import Prelude MwSocket MessageTypes XenRing PvmXen Threads MwsState MwsRequest MwsResponse MwsFile MwsTables MwsWalk MwsInvariant MwsDelivery MwsSamples.

(** What a reader looks at in its socket. *)
Definition reader_view (x : mwsocket_instance) :=
  (si_file x, si_state_valid x, si_read_expected x, si_blockid x, si_user_outstanding_accept x,
   si_usersock x, si_remote_surprise_close x, si_refct x, si_request_sem x).

(** What a read leaves as it is. *)
Definition kept_view (x : mwsocket_instance) :=
  (si_file x, si_usersock x, si_state_valid x, si_user_outstanding_accept x, si_remote_surprise_close x).

(** The fields of a structure are in its first bytes. *)
Lemma read_fields_app ws n l tail :
  (sum_list ws <= n)%nat -> (n <= length l)%nat ->
  read_fields ws (take n l ++ tail) = read_fields ws l.
Proof.
  revert n l tail. induction ws as [|w ws IH]; intros n l tail Hn Hl; [done|]. simpl in *.
  rewrite take_app_le by (rewrite length_take; lia). rewrite take_take.
  rewrite drop_app_le by (rewrite length_take; lia). rewrite skipn_firstn_comm.
  rewrite Nat.min_l by lia. f_equal. apply IH; [lia|]. rewrite length_drop. lia.
Qed.

Lemma get_response_base_app n l tail :
  (sizeof ct_response_base <= n)%nat -> (n <= length l)%nat ->
  get_response_base (take n l ++ tail) = get_response_base l.
Proof.
  intros Hn Hl. unfold get_response_base, fld. by rewrite read_fields_app.
Qed.

Section RoundTrip.

Context {S W : Type} {R : XenRing S} {POS : PvmOS W} {OS : MwsOS W}.
Implicit Types s : mws_state S W.

Section Frame.
Context (h a : nat) (x : mwsocket_instance) (y : mwsocket_active_request).
Context (files : gmap nat nat) (pvm : mwcomms_xen_globals S).
Hypothesis (Hu : si_usersock x = h) (Hy : ar_sockinst y = h).

(** The request [a] is [y], and the reader's view of its socket [h] is
    that of [x]. *)
Record waiting s : Prop := {
  wt_request : mg_active_requests (ms_g s) !! a = Some y;
  wt_sock : exists z, mg_sockinsts (ms_g s) !! h = Some z /\ reader_view z = reader_view x;
  wt_files : mg_files (ms_g s) = files;
  wt_pvm : pv_g (ms_pvm s) = pvm
}.

Lemma waiting_oscall c : sure waiting (oscall c) (fun _ => True).
Proof.
  intros s [H1 H2 H3 H4]. unfold oscall. destruct (mws_os_call c (pv_world (ms_pvm s))) as [r w].
  do 2 eexists. split; [done|]. done.
Qed.

Lemma waiting_os_ret c : sure waiting (os_ret c) (fun _ => True).
Proof. eapply sure_bind; [apply waiting_oscall|]. intros. by apply sure_ret. Qed.

Lemma waiting_get_ar : sure waiting (get_ar a) (fun z => z = y).
Proof. intros s Hs. exists y, s. unfold get_ar. by rewrite (wt_request _ Hs). Qed.

Lemma waiting_get_si : sure waiting (get_si h) (fun z => reader_view z = reader_view x).
Proof. intros s Hs. destruct (wt_sock _ Hs) as (z & Hz & Hv). exists z, s. unfold get_si. by rewrite Hz. Qed.

Lemma waiting_upd_si f :
  (forall z, reader_view (f z) = reader_view z) -> sure waiting (upd_si h f) (fun _ => True).
Proof.
  intros Hf s [H1 (z & Hz & Hv) H3 H4]. exists tt. unfold upd_si. rewrite Hz. eexists. split; [done|].
  split; [|done]. split; simpl; try done. exists (f z). rewrite lookup_insert_eq. by rewrite Hf.
Qed.

#[local] Hint Resolve waiting_oscall waiting_os_ret waiting_get_ar waiting_get_si : sure.
#[local] Hint Extern 1 (sure _ (upd_si _ _) _) =>
  apply waiting_upd_si; intros ?;
  repeat match goal with |- context [if ?b then _ else _] => destruct b end; reflexivity : sure.

#[local] Ltac wait_solve := repeat (progress rewrite ?Hy, ?Hu || sure_step).

Lemma waiting_release_close_lock t : sure waiting (release_close_lock a t) (fun _ => True).
Proof. unfold release_close_lock, up_read_close, up_write_close. wait_solve. Qed.
#[local] Hint Resolve waiting_release_close_lock : sure.

Context (bs : list Z).

(** The response [bs] is passed on as it is, unless it ends a batch. *)
Definition ends_batch : bool :=
  is_response_type MtRequestSocketSend (rs_type (get_response_base bs))
  && has_flag (rs_flags (get_response_base bs)) MT_FLAGS_BATCH_SEND_FINI.

Lemma waiting_tally_send : ends_batch = false -> sure waiting (tally_send h bs) (fun r => r = bs).
Proof.
  unfold ends_batch. intros Hb. unfold tally_send.
  eapply sure_bind; [solve [eauto with sure]|]. intros z Hz.
  destruct (is_response_type _ _); [|by apply sure_ret]. simpl in Hb |- *. rewrite Hb.
  wait_solve.
Qed.

Lemma waiting_record_success : sure waiting (record_success h bs) (fun _ => True).
Proof.
  unfold record_success. cbv zeta. wait_solve.
  unfold reader_view in Hx. injection Hx as _ _ _ _ _ -> _ _ _. wait_solve.
Qed.

Lemma waiting_emit_netflow : sure waiting (mwsocket_postproc_emit_netflow a bs) (fun _ => True).
Proof. unfold mwsocket_postproc_emit_netflow, mwsocket_populate_netflow, mwsocket_populate_netflow_ip. cbv zeta. wait_solve. Qed.
#[local] Hint Resolve waiting_tally_send waiting_record_success waiting_emit_netflow : sure.

Lemma waiting_postproc :
  ends_batch = false ->
  is_response_type MtRequestSocketAccept (rs_type (get_response_base bs)) = false ->
  has_flag (rs_flags (get_response_base bs)) MT_FLAGS_REMOTE_CLOSED = false ->
  sure waiting (mwsocket_postproc_no_context a bs) (fun r => r = bs).
Proof.
  intros Hb Ha Hc. unfold mwsocket_postproc_no_context. rewrite Ha, Hc. cbv zeta. cbn [when].
  wait_solve.
Qed.

End Frame.
(** ** Steps of the reader *)

Lemma waiting_step_sock h a x x' y fs g s f :
  waiting h a x y fs g s ->
  (forall z, reader_view z = reader_view x -> reader_view (f z) = reader_view x') ->
  exists s', upd_si h f s = Done (tt, s') /\ waiting h a x' y fs g s'.
Proof.
  intros [H1 (z & Hz & Hv) H3 H4] Hf. unfold upd_si. rewrite Hz. eexists. split; [done|].
  split; simpl; try done. exists (f z). rewrite lookup_insert_eq. eauto.
Qed.

Lemma waiting_step_request h a x y fs g s f :
  waiting h a x y fs g s ->
  exists s', upd_ar a f s = Done (tt, s') /\ waiting h a x (f y) fs g s'.
Proof.
  intros [H1 H2 H3 H4]. unfold upd_ar. rewrite H1. eexists. split; [done|].
  split; simpl; try done. by rewrite lookup_insert_eq.
Qed.

(** The request after its response [bs] arrived. *)
Definition answered (bs : list Z) (y : mwsocket_active_request) : mwsocket_active_request :=
  let n := rs_size (get_response_base bs) in
  set_ar_arrived (ar_arrived y + 1) (set_ar_response_populated true
    (set_ar_rr (take (Z.to_nat n) bs ++ drop (length (take (Z.to_nat n) bs)) (ar_rr y)) y)).

Lemma memcpy_step h a x y fs g s n bs :
  waiting h a x y fs g s -> n <= Z.of_nat RR_SIZE ->
  exists s', memcpy_rr a n bs s = Done (tt, s')
  /\ waiting h a x (set_ar_rr (take (Z.to_nat n) bs ++ drop (length (take (Z.to_nat n) bs)) (ar_rr y)) y)
       fs g s'.
Proof.
  intros Hw Hn. unfold memcpy_rr. rewrite (proj2 (Z.ltb_ge _ _)) by done.
  exact (waiting_step_request _ _ _ _ _ _ _
           (fun y => set_ar_rr (take (Z.to_nat n) bs ++ drop (length (take (Z.to_nat n) bs)) (ar_rr y)) y) Hw).
Qed.

Lemma deliver_completes h a x y fs g bs s :
  waiting h a x y fs g s ->
  si_usersock x = h -> ar_sockinst y = h ->
  ends_batch bs = false ->
  is_response_type MtRequestSocketAccept (rs_type (get_response_base bs)) = false ->
  has_flag (rs_flags (get_response_base bs)) MT_FLAGS_REMOTE_CLOSED = false ->
  ar_deliver_response y = true -> ar_response_populated y = false ->
  rs_size (get_response_base bs) <= Z.of_nat RR_SIZE ->
  (forall proc w, m_ret (fst (mws_os_call (ProcessDying proc) w)) = 0) ->
  exists s', deliver_response a bs s = Done (tt, s') /\ waiting h a x (answered bs y) fs g s'.
Proof.
  intros Hw Hu Hy Hb Hacc Hc Hd Hp Hsz Hos. unfold deliver_response.
  destruct (waiting_postproc h a x y fs g Hu Hy bs Hb Hacc Hc s Hw) as (r & s1 & E1 & Hw1 & ->).
  rewrite (bind_done _ _ _ _ _ E1).
  destruct (waiting_emit_netflow h a x y fs g Hy bs s1 Hw1) as ([] & s2 & E2 & Hw2 & _).
  rewrite (bind_done _ _ _ _ _ E2).
  destruct (waiting_get_ar h a x y fs g s2 Hw2) as (y' & s2' & E3 & Hw3 & ->).
  rewrite (bind_done _ _ _ _ _ E3). rewrite Hd. cbn [andb negb orb].
  assert (exists s4, (if ar_from_user y then let* z := get_si (ar_sockinst y) in
            let* d := os_ret (ProcessDying (si_proc z)) in ret (truth d) else ret false) s2'
          = Done (false, s4) /\ waiting h a x y fs g s4) as (s4 & E4 & Hw4).
  { destruct (ar_from_user y); [|by exists s2']. rewrite Hy.
    destruct (waiting_get_si h a x y fs g s2' Hw3) as (z & s3 & E & Hw' & _).
    rewrite (bind_done _ _ _ _ _ E). unfold os_ret, oscall, bind.
    specialize (Hos (si_proc z) (pv_world (ms_pvm s3))).
    destruct (mws_os_call _ _) as [r w]. simpl in Hos. cbn [obind ret]. rewrite Hos. eexists.
    split; [done|]. destruct Hw' as [? ? ? ?]. by split. }
  rewrite (bind_done _ _ _ _ _ E4). rewrite Hp. cbn [negb orb when].
  destruct (memcpy_step _ _ _ _ _ _ _ _ bs Hw4 Hsz) as (s5 & E5 & Hw5).
  destruct (waiting_step_request _ _ _ _ _ _ _ (set_ar_response_populated true) Hw5) as (s6 & E6 & Hw6).
  destruct (waiting_step_request _ _ _ _ _ _ _ (fun x => set_ar_arrived (ar_arrived x + 1) x) Hw6) as (s7 & E7 & Hw7).
  exists s7. split; [|exact Hw7]. unfold complete_arrived.
  rewrite (bind_done _ _ s4 tt s6) by (by rewrite (bind_done _ _ _ _ _ E5)). exact E7.
Qed.

Lemma find_request_id_ok l t s a y :
  listed (mg_active_requests (ms_g s)) l t ->
  (forall b z, mg_active_requests (ms_g s) !! b = Some z -> ar_id z = ar_id y -> b = a) ->
  mg_active_requests (ms_g s) !! a = Some y ->
  find_request_id l (ar_id y) s = Done (Some a, s).
Proof.
  intros [_ Hd _] Hu Hy. assert (a ∈ l) as Hin by (apply Hd; eauto).
  assert (forall b, b ∈ l -> is_Some (mg_active_requests (ms_g s) !! b)) as Hl by (intros b; apply Hd).
  clear Hd. induction l as [|b l IH]; [by apply elem_of_nil in Hin|]. cbn [find_request_id].
  destruct (Hl b) as [z Hz]; [by left|]. unfold bind, get_ar. rewrite Hz. cbn [obind].
  destruct (Z.eqb_spec (ar_id z) (ar_id y)) as [E|E].
  - by rewrite (Hu b z Hz E).
  - apply IH; [|intros c Hc; apply Hl; by right]. apply elem_of_cons in Hin as [->|Hin]; [|done].
    congruence.
Qed.

Lemma find_active_request_ok h a x y fs g s :
  waiting h a x y fs g s -> books (tables_of (ms_g s)) -> ar_sockinst y = h ->
  mwsocket_find_active_request_by_id (ar_id y) s = Done ((0, Some a), s).
Proof.
  intros Hw Hb Hy. unfold mwsocket_find_active_request_by_id, get_mg, gets, bind. cbn [obind].
  assert (find_request_id (mg_active_request_list (ms_g s)) (ar_id y) s = Done (Some a, s)) as ->;
    cbn [obind].
  2:{ unfold get_ar. rewrite (wt_request _ _ _ _ _ _ _ Hw). cbn [obind]. rewrite Hy.
    unfold has_mwflag, get_si, bind. destruct (wt_sock _ _ _ _ _ _ _ Hw) as (z & -> & _). done. }
  apply (find_request_id_ok _ _ _ a y (bk_requests _ Hb)); [|apply Hw].
  intros b z Hz E. by apply (bk_unique _ Hb b a z y Hz (wt_request _ _ _ _ _ _ _ Hw)).
Qed.

(** A request goes, its socket has other references. *)
Lemma destroy_ok a y z s :
  mg_active_requests (ms_g s) !! a = Some y -> mg_sockinsts (ms_g s) !! ar_sockinst y = Some z ->
  1 < si_refct z ->
  exists s' z', mwsocket_destroy_active_request (Some a) s = Done (tt, s') /\ ms_pvm s' = ms_pvm s
  /\ mg_active_requests (ms_g s') = delete a (mg_active_requests (ms_g s))
  /\ mg_files (ms_g s') = mg_files (ms_g s)
  /\ mg_sockinsts (ms_g s') = <[ar_sockinst y := z']> (mg_sockinsts (ms_g s))
  /\ z' = set_si_refct (si_refct z - 1)
           (set_si_close_blockid (if si_close_blockid z =? ar_id y then MT_ID_UNSET_VALUE
                                  else si_close_blockid z) z).
Proof.
  intros Hy Hz Hr. unfold mwsocket_destroy_active_request, mwsocket_put_sockinst, get_ar, bind.
  rewrite Hy. cbn [obind]. unfold upd_si at 1. rewrite Hz. cbn [obind].
  unfold upd_si at 1. cbn [ms_g set_ms_g mg_sockinsts set_mg_sockinsts]. rewrite lookup_insert_eq. cbn [obind].
  unfold get_si at 1. cbn [ms_g set_ms_g mg_sockinsts set_mg_sockinsts]. rewrite lookup_insert_eq. cbn [obind].
  match goal with |- context [truth (si_refct (set_si_refct ?v ?w))] =>
    replace (truth (si_refct (set_si_refct v w))) with true end.
  2:{ symmetry. unfold truth. cbn [si_refct set_si_refct]. destruct (si_close_blockid z =? ar_id y);
        cbn [si_refct set_si_close_blockid]; apply negb_true_iff, Z.eqb_neq; lia. }
  cbn [ret obind upd_mg modify]. do 2 eexists. do 4 (split; [done|]).
  cbn [ms_g set_ms_g mg_sockinsts set_mg_sockinsts set_mg_active_requests set_mg_active_request_list].
  rewrite !insert_insert_eq. split; [done|].
  destruct (si_close_blockid z =? ar_id y); [done|]. by destruct z.
Qed.

(** The exit of a read whose request is done. *)
Lemma read_exit_ok h a x y fs g s r :
  waiting h a x y fs g s -> ar_sockinst y = h -> 1 < si_refct x -> fst r <> - EINTR ->
  exists s', read_exit h (Some a) r s = Done (r, s') /\ ms_pvm s' = ms_pvm s
  /\ mg_active_requests (ms_g s') = delete a (mg_active_requests (ms_g s))
  /\ exists z, mg_sockinsts (ms_g s') !! h = Some z /\ si_read_expected z = si_read_expected x
     /\ si_refct z = si_refct x - 1 /\ si_request_sem z = si_request_sem x + 1
     /\ kept_view z = kept_view x /\ mg_files (ms_g s') = fs.
Proof.
  intros Hw Hy Hr Hrc. unfold read_exit. rewrite (proj2 (Z.eqb_neq _ _)) by done. cbn [negb when].
  destruct Hw as [H1 (z & Hz & Hv) H3 H4]. unfold reader_view in Hv. injection Hv as V1 V2 V3 V4 V5 V6 V7 V8 V9.
  destruct (destroy_ok a y z s H1) as (s1 & z1 & E1 & Hp & Hq & Hfs & Hs & ->); [by rewrite Hy|lia|].
  rewrite (bind_done _ _ _ _ _ E1). rewrite Hy in Hs. unfold up_request, upd_si, bind. rewrite Hs.
  rewrite lookup_insert_eq. cbn [obind ret]. eexists. split; [done|]. split; [done|]. split; [done|].
  cbn [ms_g set_ms_g mg_sockinsts set_mg_sockinsts]. eexists. rewrite lookup_insert_eq. split; [done|].
  simpl. rewrite Hfs, H3. unfold kept_view. simpl. by rewrite V1, V2, V3, V5, V6, V7, V8, V9.
Qed.

Lemma bind_alone_lift {A B} (m : mws_m (S := S) (W := W) A) (k : A -> mws_p (S := S) (W := W) B) s x s' :
  m s = Done (x, s') -> alone (let! x := lift m in k x) s = alone (k x) s'.
Proof.
  intros E. change (bind m (fun x => alone (k x)) s = alone (k x) s').
  by rewrite (bind_done _ _ _ _ _ E).
Qed.

Lemma get_si_ok h a x y fs g s :
  waiting h a x y fs g s ->
  exists z, get_si h s = Done (z, s) /\ reader_view z = reader_view x.
Proof.
  intros Hw. destruct (wt_sock _ _ _ _ _ _ _ Hw) as (z & Hz & Hv). exists z. unfold get_si. by rewrite Hz.
Qed.

Lemma get_ar_ok h a x y fs g s : waiting h a x y fs g s -> get_ar a s = Done (y, s).
Proof. intros Hw. unfold get_ar. by rewrite (wt_request _ _ _ _ _ _ _ Hw). Qed.

Lemma find_sockinst_ok h a x y fs g s f :
  waiting h a x y fs g s -> fs !! f = Some h -> si_file x = Some f ->
  mwsocket_find_sockinst f s = Done ((0, Some h), s).
Proof.
  intros Hw Hf Hfile. unfold mwsocket_find_sockinst, get_mg, gets, bind. cbn [obind].
  rewrite (wt_files _ _ _ _ _ _ _ Hw), Hf. destruct (get_si_ok _ _ _ _ _ _ _ Hw) as (z & -> & Hv).
  cbn [obind]. unfold reader_view in Hv. injection Hv as V1 _ _ _ _ _ _ _ _. rewrite V1, Hfile.
  by rewrite bool_decide_true.
Qed.

Lemma no_pending_error h a x y fs g s t :
  waiting h a x y fs g s -> books (tables_of (ms_g s)) -> si_remote_surprise_close x = false ->
  mwsocket_pending_error h t s = Done (0, s).
Proof.
  intros Hw Hb Hsc. unfold mwsocket_pending_error.
  destruct (get_si_ok _ _ _ _ _ _ _ Hw) as (z & E & Hv). rewrite (bind_done _ _ _ _ _ E).
  apply get_si_inv in E as [_ Hz]. destruct (bk_sock _ Hb h z Hz) as (_ & He & _).
  unfold reader_view in Hv. injection Hv as _ _ _ _ _ _ V7 _ _.
  destruct (is_type _ _ || is_type _ _); [done|]. rewrite V7, Hsc. by rewrite He.
Qed.

Lemma give_response_ok h a x y fs g s Len n :
  waiting h a x y fs g s -> books (tables_of (ms_g s)) -> si_remote_surprise_close x = false ->
  is_response_type MtRequestSocketAccept (rs_type (get_response_base (ar_rr y))) = false ->
  rs_size (get_response_base (ar_rr y)) = n -> n <= Len ->
  (forall w, m_ret (fst (mws_os_call CopyToUser w)) = 0) ->
  exists s', give_response h a Len s = Done ((n, Some (take (Z.to_nat n) (ar_rr y))), s')
  /\ waiting h a x y fs g s' /\ mg_active_requests (ms_g s') = mg_active_requests (ms_g s).
Proof.
  intros Hw Hb Hsc Hna Hn HLen Hos. unfold give_response.
  rewrite (bind_done _ _ _ _ _ (get_ar_ok _ _ _ _ _ _ _ Hw)).
  rewrite Hn, (proj2 (Z.ltb_ge _ _)) by lia. unfold mwsocket_postproc_in_task. rewrite Hna. cbn [negb orb].
  unfold bind at 1. cbn [ret obind truth Z.eqb negb].
  rewrite (bind_done _ _ _ _ _ (no_pending_error _ _ _ _ _ _ _ _ Hw Hb Hsc)). cbn [truth Z.eqb negb].
  unfold os_ret, oscall, bind. specialize (Hos (pv_world (ms_pvm s))).
  destruct (mws_os_call CopyToUser _) as [r w]. simpl in Hos. cbn [obind ret]. rewrite Hos.
  cbn [truth Z.eqb negb ret]. rewrite Hn. eexists. split; [done|]. split; [|done].
  destruct Hw as [? ? ? ?]. by split.
Qed.

(** A read finds the response of its request and gives it to the user. *)
Lemma read_answered h a f x y fs g s Len n :
  waiting h a x y fs g s -> books (tables_of (ms_g s)) ->
  ar_sockinst y = h -> fs !! f = Some h -> si_file x = Some f ->
  si_read_expected x = true -> si_blockid x = ar_id y -> si_user_outstanding_accept x = 0 ->
  si_remote_surprise_close x = false -> 1 < si_refct x ->
  ar_deliver_response y = true -> 0 < ar_arrived y ->
  is_response_type MtRequestSocketAccept (rs_type (get_response_base (ar_rr y))) = false ->
  rs_size (get_response_base (ar_rr y)) = n -> n <= Len ->
  (forall w, m_ret (fst (mws_os_call CopyToUser w)) = 0) ->
  exists s', alone (mwsocket_read f Len) s = Done ((n, Some (take (Z.to_nat n) (ar_rr y))), s')
  /\ pv_g (ms_pvm s') = g
  /\ mg_active_requests (ms_g s') = delete a (mg_active_requests (ms_g s))
  /\ exists z, mg_sockinsts (ms_g s') !! h = Some z /\ si_read_expected z = false
     /\ si_refct z = si_refct x - 1 /\ si_request_sem z = si_request_sem x + 1
     /\ kept_view z = kept_view x /\ mg_files (ms_g s') = fs.
Proof.
  intros Hw Hb Hy Hf Hfile Hre Hbid Hacc Hsc Hr Hd Harr Hna Hn HLen Hos.
  unfold mwsocket_read.
  rewrite (bind_alone_lift _ _ _ _ _ (find_sockinst_ok _ _ _ _ _ _ _ _ Hw Hf Hfile)). cbn beta iota.
  destruct (get_si_ok _ _ _ _ _ _ _ Hw) as (z & E & Hv).
  rewrite (bind_alone_lift _ _ _ _ _ E). cbn beta iota. clear E.
  unfold reader_view in Hv. injection Hv as _ _ V3 V4 _ _ _ _ _. rewrite V3, Hre, andb_false_r.
  destruct (waiting_step_sock h a x (set_si_read_expected false x) y fs g s (set_si_read_expected false) Hw)
    as (s2 & E2 & Hw2); [intros z' Hz'; unfold reader_view in *; simpl; congruence|].
  assert (keeps (on (S := S) (W := W) books) (upd_si h (set_si_read_expected false))) as Hk by walk.
  pose proof (Hk _ _ _ Hb E2) as Hb2. clear Hk.
  rewrite (bind_alone_lift _ _ s (0, Some a) s2).
  2:{ rewrite (bind_done _ _ _ _ _ E2), V4, Hbid. by eapply find_active_request_ok. }
  cbn beta iota. rewrite (bind_alone_lift _ _ _ _ _ (get_ar_ok _ _ _ _ _ _ _ Hw2)). cbn beta iota.
  destruct (get_si_ok _ _ _ _ _ _ _ Hw2) as (z2 & E5 & Hv2).
  rewrite (bind_alone_lift _ _ _ _ _ E5). cbn beta iota.
  unfold reader_view in Hv2. simpl in Hv2. injection Hv2 as _ _ _ _ U5 _ _ _ _.
  rewrite Hd, U5, Hacc. cbn [negb]. rewrite (proj2 (Z.ltb_ge 0 0)) by lia.
  set (y4 := set_ar_arrived (ar_arrived y - 1) y).
  destruct (waiting_step_request h a _ y fs g s2 (set_ar_arrived (ar_arrived y - 1)) Hw2) as (s4 & E6 & Hw4).
  fold y4 in Hw4.
  assert (keeps (on (S := S) (W := W) books) (upd_ar a (set_ar_arrived (ar_arrived y - 1)))) as Hk by walk.
  pose proof (Hk _ _ _ Hb2 E6) as Hb4. clear Hk.
  rewrite (bind_alone_lift _ _ s2 0 s4).
  2:{ unfold wait_arrived_interruptible. rewrite (bind_done _ _ _ _ _ (get_ar_ok _ _ _ _ _ _ _ Hw2)).
      rewrite (proj2 (Z.ltb_lt _ _)) by done. by rewrite (bind_done _ _ _ _ _ E6). }
  cbn [truth Z.eqb negb].
  destruct (give_response_ok h a _ y4 fs g s4 Len n Hw4 Hb4 Hsc Hna Hn HLen Hos) as (s5 & E8 & Hw5 & Hreq).
  destruct (read_exit_ok h a _ y4 fs g s5 (n, Some (take (Z.to_nat n) (ar_rr y))) Hw5 Hy Hr)
    as (s6 & E11 & Hp & Hq & Hz).
  { assert (0 <= n) by (rewrite <- Hn; apply (read_fields_nonneg response_base_ws (ar_rr y) 2)).
    cbn [fst]. unfold EINTR. lia. }
  exists s6. split.
  - simpl. apply bind_done with (a := (n, Some (take (Z.to_nat n) (ar_rr y)))) (s' := s6).
    by rewrite (bind_done _ _ _ _ _ E8).
  - split; [rewrite Hp; apply Hw5|]. split; [|exact Hz]. rewrite Hq, Hreq.
    apply upd_ar_inv in E6 as (? & _ & ->). apply upd_si_inv in E2 as (? & _ & ->). simpl.
    by rewrite delete_insert_eq.
Qed.

(** A process waits in read() for the response to its request. When the
    response [bs] comes first on a ring - of any type but an accept's,
    not the end of a batch, with the size of a response and room for it
    on both sides - then one pass of the response thread takes it off the
    ring and the read returns exactly its bytes. The request is gone, its
    reference given back, and the socket is ready for the next write. *)
Lemma response_reaches_reader s h a f x y hd i p bs Len :
  books (tables_of (ms_g s)) ->
  mg_files (ms_g s) !! f = Some h ->
  mg_sockinsts (ms_g s) !! h = Some x ->
  mg_active_requests (ms_g s) !! a = Some y ->
  (si_file x, si_usersock x, si_blockid x, si_read_expected x) = (Some f, h, ar_id y, true) ->
  si_user_outstanding_accept x = 0 -> si_remote_surprise_close x = false -> 1 < si_refct x ->
  (ar_sockinst y, ar_deliver_response y, ar_response_populated y, ar_arrived y) = (h, true, false, 0) ->
  mg_pending_exit (ms_g s) = false ->
  mw_xen_response_available (ms_pvm s) = Done (Some hd, p) ->
  mx_ins (pv_g p) !! hd = Some i ->
  ring_entry (id_sring i) (rsp_cons (id_front_ring i)) = bs ->
  MT_IS_RESPONSE (get_response_base bs) = true ->
  rs_id (get_response_base bs) = ar_id y ->
  is_response_type MtRequestSocketAccept (rs_type (get_response_base bs)) = false ->
  ends_batch bs = false ->
  has_flag (rs_flags (get_response_base bs)) MT_FLAGS_REMOTE_CLOSED = false ->
  rs_size (get_response_base bs) <= Z.min Len (Z.of_nat RR_SIZE) ->
  (Z.to_nat (rs_size (get_response_base bs)) <= length bs)%nat ->
  (forall proc w, m_ret (fst (mws_os_call (ProcessDying proc) w)) = 0) ->
  (forall w, m_ret (fst (mws_os_call CopyToUser w)) = 0) ->
  exists s' z, (let* _ := consume_response in alone (mwsocket_read f Len)) s
    = Done ((rs_size (get_response_base bs),
             Some (take (Z.to_nat (rs_size (get_response_base bs))) bs)), s')
  /\ mx_ins (pv_g (ms_pvm s'))
     = <[hd := set_id_front_ring (advance_rsp_cons (id_front_ring i)) i]> (mx_ins (pv_g p))
  /\ mg_active_requests (ms_g s') !! a = None
  /\ mg_sockinsts (ms_g s') !! h = Some z
  /\ si_read_expected z = false /\ si_refct z = si_refct x - 1
  /\ si_request_sem z = si_request_sem x + 1
  /\ kept_view z = kept_view x /\ mg_files (ms_g s') = mg_files (ms_g s).
Proof.
  intros Hb Hf Hx Hy [= X1 X2 X3 X4] Hacc Hsc Hr [= Y1 Y2 Y3 Y4] Hexit Havail Hi Hbs Hresp Hid Hna Heb Hrc
    Hsz Hlen Hos1 Hos2.
  set (n := rs_size (get_response_base bs)) in *.
  set (s1 := set_ms_pvm p s).
  assert (waiting h a x y (mg_files (ms_g s)) (pv_g p) s1) as Hw1 by (split; simpl; eauto).
  assert (books (tables_of (ms_g s1))) as Hb1 by exact Hb.
  destruct (deliver_completes h a x y _ _ bs s1 Hw1 X2 Y1 Heb Hna Hrc Y2 Y3) as (s2 & E2 & Hw2);
    [lia|done|].
  pose proof (on_deliver_response (on books) a bs _ _ _ Hb1 E2) as Hb2.
  set (p3 := set_pv_g (set_mx_ins (<[hd := set_id_front_ring (advance_rsp_cons (id_front_ring i)) i]>
               (mx_ins (pv_g p))) (pv_g p)) (ms_pvm s2)).
  set (s3 := set_ms_pvm p3 s2).
  assert (consume_response s = Done (None, s3)) as Ec.
  { unfold consume_response. rewrite (bind_done _ _ s (Some hd) s1) by (unfold xen; by rewrite Havail).
    rewrite (bind_done _ _ s1 (0, Some bs) s1).
    2:{ unfold xen, mw_xen_get_next_response, bind, get_ins, s1. cbn [ms_pvm set_ms_pvm]. rewrite Hi.
        cbn [obind]. rewrite Hbs, Hresp. done. }
    unfold get_mg, gets, bind at 1. cbn [obind]. change (ms_g s1) with (ms_g s). rewrite Hexit. rewrite Hid.
    rewrite (bind_done _ _ _ _ _ (find_active_request_ok _ _ _ _ _ _ _ Hw1 Hb1 Y1)).
    rewrite (bind_done _ _ _ _ _ E2). unfold xen, mw_xen_mark_response_consumed, upd_ins, bind.
    rewrite (wt_pvm _ _ _ _ _ _ _ Hw2), Hi. done. }
  rewrite (bind_done _ _ _ _ _ Ec).
  assert (waiting h a x (answered bs y) (mg_files (ms_g s)) (pv_g p3) s3) as Hw3
    by (destruct Hw2 as [? ? ? ?]; by split).
  assert (sizeof ct_response_base <= Z.to_nat n)%nat as Hn.
  { unfold MT_IS_RESPONSE in Hresp. apply andb_true_iff in Hresp as [_ Hresp%Z.leb_le].
    change (Z.of_nat (sizeof ct_response_base) <= n) in Hresp. lia. }
  assert (get_response_base (ar_rr (answered bs y)) = get_response_base bs) as Hbase
    by (by apply get_response_base_app).
  destruct (read_answered h a f x (answered bs y) (mg_files (ms_g s)) (pv_g p3) s3 Len n)
    as (s4 & E4 & Hp4 & Hq4 & z & Hz & Hz1 & Hz2 & Hz3 & Hz4 & Hz5); try done.
  - simpl. lia.
  - by rewrite Hbase.
  - by rewrite Hbase.
  - lia.
  - exists s4, z. rewrite E4. split_and!; try done.
    + unfold answered. cbn [ar_rr set_ar_arrived set_ar_response_populated set_ar_rr]. fold n.
      by rewrite take_app_length' by (rewrite length_take; lia).
    + by rewrite Hp4.
    + rewrite Hq4. apply lookup_delete_eq.
Qed.

End RoundTrip.

Lemma waiting_socket_books : books (tables_of waiting_socket).
Proof.
  split.
  - split.
    + by apply (bool_decide_unpack _); vm_compute.
    + intros a. simpl. rewrite !elem_of_cons, lookup_insert_is_Some', lookup_singleton_is_Some.
      rewrite elem_of_nil. naive_solver.
    + intros a Ha. simpl in *. rewrite !elem_of_cons, elem_of_nil in Ha. lia.
  - split.
    + apply NoDup_singleton.
    + intros a. simpl. rewrite list_elem_of_singleton, lookup_singleton_is_Some. done.
    + intros a Ha. simpl in *. rewrite list_elem_of_singleton in Ha. lia.
  - done.
  - intros a x. simpl. rewrite lookup_insert_Some, lookup_singleton_Some.
    intros [[_ <-]|[_ [_ <-]]]; done.
  - intros a b x y. simpl. rewrite !lookup_insert_Some, !lookup_singleton_Some.
    intros [[<- <-]|[_ [<- <-]]] [[<- <-]|[_ [<- <-]]] E; done.
  - intros a x. simpl. rewrite lookup_singleton_Some. intros [_ <-]. by split_and!.
Qed.

