(* ===== verification/MwsWrite.v ===== *)
(** * MwsWrite: a request reaches the ring

    The way of a write to a socket's file, from the process to the slot of
    the ring: what is in the slot, and what the driver keeps to bring the
    response back. *)

From stdpp Require Import base numbers list gmap.
From Stdlib Require Import ZArith Lia.
From S2P Require Import Prelude MwSocket MessageTypes XenRing PvmXen RingChannel Threads MwsState MwsRequest MwsResponse MwsFile MwsTables MwsWalk MwsInvariant MwsDelivery MwsRoundTrip.

(** ** The request in the slot *)

(** The bytes of the user's request [Bytes] as they are sent. *)
Definition sent_message (id remote_fd : Z) (Bytes : list Z) : list Z :=
  put_request_base (base_to_send id remote_fd (get_request_base Bytes)) ++ drop (sizeof ct_request_base) Bytes.

(** A request as a process writes it. *)
Record user_message (Bytes : list Z) : Prop := {
  um_size : rq_size (get_request_base Bytes) = Z.of_nat (length Bytes);
  um_base : (sizeof ct_request_base <= length Bytes)%nat;
  um_fits : Z.of_nat (length Bytes) <= ONE_REQUEST_REGION_SIZE;
  um_request : Z.land MT_RESPONSE_MASK (rq_type (get_request_base Bytes)) = 0
}.

Lemma fld_range ws i bs : in_u (8 * Z.of_nat (nth i ws 0%nat)) (fld ws i bs).
Proof.
  unfold fld, in_u. revert ws bs. induction i as [|i IH]; intros [|w ws] bs; simpl; try lia; [|apply IH].
  apply le_value_take_range.
Qed.

Lemma base_to_send_wf id fd bs :
  in_u 64 id -> in_s 64 fd -> request_base_wf (base_to_send id fd (get_request_base bs)).
Proof.
  intros Hi Hf. unfold request_base_wf, base_to_send. cbn [rq_sig rq_type rq_size rq_id rq_sockfd rq_flags].
  split; [by vm_compute|]. split; [apply (fld_range request_base_ws 1)|].
  split; [apply (fld_range request_base_ws 2)|]. split; [done|].
  split; [|apply (fld_range request_base_ws 5)].
  destruct (MW_SOCKET_IS_FD _); [|done]. by apply wraps_range.
Qed.

Lemma sent_message_valid id fd Bytes :
  in_u 64 id -> in_s 64 fd -> user_message Bytes ->
  valid_request (sent_message id fd Bytes)
  /\ get_request_base (sent_message id fd Bytes) = base_to_send id fd (get_request_base Bytes)
  /\ length (sent_message id fd Bytes) = length Bytes.
Proof.
  intros Hi Hf [H1 H2 H3 H4].
  assert (length (sent_message id fd Bytes) = length Bytes) as Hl
    by (unfold sent_message; rewrite length_app, length_put_request_base, length_drop;
        change (sizeof ct_request_base) with 28%nat in *; lia).
  assert (get_request_base (sent_message id fd Bytes) = base_to_send id fd (get_request_base Bytes)) as Hg
    by (apply get_put_request_base; by apply base_to_send_wf).
  split; [|done]. split; rewrite ?Hg, ?Hl; [|done|done].
  unfold MT_IS_REQUEST, base_to_send. cbn [rq_sig rq_type rq_size]. rewrite H4, H1. apply Z.leb_le.
  change MT_REQUEST_BASE_SIZE with (Z.of_nat (sizeof ct_request_base)). lia.
Qed.

Lemma get_request_base_app n l tail :
  (sizeof ct_request_base <= n)%nat -> (n <= length l)%nat ->
  get_request_base (take n l ++ tail) = get_request_base l.
Proof. intros Hn Hl. unfold get_request_base, fld. by rewrite read_fields_app. Qed.

(** ** The slot *)

Section Slot.

Context {S W : Type} {R : XenRing S} {Laws : XenRingLaws S} {POS : PvmOS W}.
Context (i : nat).

Lemma sendable_same (p q : pvm_state S W) e d : pv_g p = pv_g q -> sendable i p e d -> sendable i q e d.
Proof. intros E [? ? ? ? ? ? ?]. split; by rewrite <- ?E. Qed.

(** A slot is given at once when there is room. *)
Lemma slot_taken fuel (p : pvm_state S W) e d :
  sendable i p e d -> id_request_lock e = false -> (0 < fuel)%nat ->
  RING_FULL (id_sring e) (id_front_ring e) = false ->
  let slot := req_prod_pvt (id_front_ring e) in
  exists p', mw_xen_get_next_request_slot fuel true d p = Done ((0, Some slot, Some i), p')
  /\ table_at i (mx_ins (pv_g p)) (reserved slot e) p'.
Proof.
  intros Hs Hl Hf Hr slot.
  destruct (get_slot_taken i fuel true d p e Hs Hl Hf (or_introl Hr)) as (rc & req & e' & p' & E & _).
  destruct (get_slot_done i fuel d p e rc req (Some i) p' Hs E) as (-> & -> & _ & _ & T). by exists p'.
Qed.

(** The entry of the ring after the message [msg] was pushed. *)
Definition pushed (msg : list Z) (e : mwcomms_ins_data S) : mwcomms_ins_data S :=
  let slot := req_prod_pvt (id_front_ring e) in
  let front := advance_req_prod_pvt (id_front_ring e) in
  let e1 := set_id_sring (ring_write (id_sring e) slot msg) (reserved slot e) in
  set_id_request_lock false (set_id_locked false (set_id_curr_req None
    (set_id_sring (RING_PUSH_REQUESTS (id_sring e1) front) (set_id_front_ring front e1)))).

Lemma slot_sent L e (p : pvm_state S W) msg :
  let slot := req_prod_pvt (id_front_ring e) in
  table_at i L (reserved slot e) p -> PvmXen.id_in_use e = 1 -> valid_request msg ->
  (forall port w, p_ret (fst (pvm_os_call (EvtchnSend port) w)) = 0) ->
  exists p1 p2, fill_request_slot i slot msg p = Done (tt, p1)
  /\ mw_xen_release_request (Some i) true p1 = Done (0, p2) /\ table_at i L (pushed msg e) p2.
Proof.
  intros slot T Hu Hm Hos. unfold fill_request_slot.
  destruct (table_upd i _ _ (fun x => set_id_sring (ring_write (id_sring x) slot msg) x) _ T) as (p1 & -> & T1).
  exists p1. unfold mw_xen_release_request. rewrite (bind_done _ _ _ _ _ (table_get i _ _ _ T1)).
  cbn [PvmXen.id_in_use id_curr_req id_sring set_id_sring reserved set_id_curr_req set_id_locked set_id_request_lock].
  rewrite Hu. change (1 =? 0) with false. cbn [negb].
  rewrite (slot_request _ msg) by (try done; by apply holds_written, request_fits).
  rewrite (vr_is msg Hm). cbn [negb]. unfold mw_xen_send_event, unlock_request.
  match goal with |- context [upd_ins i ?f] => destruct (table_upd i _ _ f _ T1) as (p2 & E2 & T2) end.
  destruct (table_call i _ _ (EvtchnSend (id_common_evtchn e)) _ T2) as (r & p3 & E3 & T3).
  assert (p_ret r = 0) as Hr.
  { unfold pcall in E3. specialize (Hos (id_common_evtchn e) (pv_world p2)).
    destruct (pvm_os_call _ _) as [r0 w0]. by injection E3 as <- _. }
  destruct (table_upd i _ _ (fun x => set_id_request_lock false (set_id_locked false (set_id_curr_req None x))) _ T3)
    as (p4 & E4 & T4).
  exists p4. split; [done|]. split; [|exact T4].
  rewrite (bind_done _ _ p1 0 p3).
  - by rewrite (bind_done _ _ _ _ _ E4).
  - rewrite (bind_done _ _ _ _ _ E2), (bind_done _ _ _ _ _ (table_get i _ _ _ T2)).
    rewrite (bind_done _ _ p2 r p3 E3). by rewrite Hr.
Qed.

End Slot.

(** ** Before and after *)

(** The socket [x] behind the file [f] can take a request. *)
Record idle_socket (g : mwsocket_globals) (h f : nat) (x : mwsocket_instance) : Prop := {
  id_books : books (tables_of g);
  id_file : mg_files g !! f = Some h;
  id_sock : mg_sockinsts g !! h = Some x;
  id_view : (si_file x, si_usersock x, si_state_valid x, si_read_expected x) = (Some f, h, true, false);
  id_accepts : si_user_outstanding_accept x = 0;
  id_open : si_remote_surprise_close x = false;
  id_sem : 0 < si_request_sem x
}.

(** The process behind the file [f] waits for the response to the request
    [a], of which nothing has arrived. *)
Record awaiting (g : mwsocket_globals) (h a f : nat) (x : mwsocket_instance) (y : mwsocket_active_request)
    : Prop := {
  aw_books : books (tables_of g);
  aw_file : mg_files g !! f = Some h;
  aw_sock : mg_sockinsts g !! h = Some x;
  aw_request : mg_active_requests g !! a = Some y;
  aw_view : (si_file x, si_usersock x, si_blockid x, si_read_expected x, si_state_valid x)
            = (Some f, h, ar_id y, true, true);
  aw_sem : 0 <= si_request_sem x;
  aw_accepts : si_user_outstanding_accept x = 0;
  aw_open : si_remote_surprise_close x = false;
  aw_refs : 1 < si_refct x;
  aw_state : (ar_sockinst y, ar_deliver_response y, ar_response_populated y, ar_arrived y) = (h, true, false, 0)
}.

Section Write.

Context {S W : Type} {R : XenRing S} {POS : PvmOS W} {OS : MwsOS W}.
Implicit Types s : mws_state S W.

(** ** Steps of the writer *)

(** What a writer needs of its socket. *)
Definition writer_view (x : mwsocket_instance) :=
  (si_file x, si_usersock x, si_user_outstanding_accept x, si_remote_surprise_close x, si_refct x,
   si_ins_alive x, si_remote_fd x, si_close_writer x, si_request_sem x, si_state_valid x,
   (si_read_expected x, si_blockid x, si_pending_errno x)).

Section Frame.
Context (h : nat) (files : gmap nat nat).

(** The requests are [m], the writer's view of its socket [h] is that of
    [x], and the Xen interface is in the state [g]. *)
Record writing (x : mwsocket_instance) (m : gmap nat mwsocket_active_request)
    (g : mwcomms_xen_globals S) s : Prop := {
  wr_requests : mg_active_requests (ms_g s) = m;
  wr_sock : exists z, mg_sockinsts (ms_g s) !! h = Some z /\ writer_view z = writer_view x;
  wr_files : mg_files (ms_g s) = files;
  wr_pvm : pv_g (ms_pvm s) = g
}.

Lemma write_get_si x m g s :
  writing x m g s -> exists z, get_si h s = Done (z, s) /\ writer_view z = writer_view x.
Proof. intros [_ (z & Hz & Hv) _ _]. exists z. unfold get_si. by rewrite Hz. Qed.

Lemma write_upd_si x x' m g s f :
  writing x m g s -> (forall z, writer_view z = writer_view x -> writer_view (f z) = writer_view x') ->
  exists s', upd_si h f s = Done (tt, s') /\ writing x' m g s'.
Proof.
  intros [H1 (z & Hz & Hv) H3 H4] Hf. unfold upd_si. rewrite Hz. eexists. split; [done|].
  split; simpl; try done. exists (f z). rewrite lookup_insert_eq. eauto.
Qed.

Lemma write_get_ar x m g s a y : writing x m g s -> m !! a = Some y -> get_ar a s = Done (y, s).
Proof. intros [H _ _ _] Hy. unfold get_ar. by rewrite H, Hy. Qed.

Lemma write_get_base x m g s a y :
  writing x m g s -> m !! a = Some y -> get_base a s = Done (get_request_base (ar_rr y), s).
Proof. intros Hw Hy. unfold get_base. by rewrite (bind_done _ _ _ _ _ (write_get_ar _ _ _ _ _ _ Hw Hy)). Qed.

Lemma write_upd_ar x m g s a y f :
  writing x m g s -> m !! a = Some y ->
  exists s', upd_ar a f s = Done (tt, s') /\ writing x (<[a := f y]> m) g s'.
Proof.
  intros [H1 H2 H3 H4] Hy. unfold upd_ar. rewrite H1, Hy. eexists. split; [done|]. by split.
Qed.

Lemma write_os_ret x m g s c :
  writing x m g s ->
  exists w s', os_ret c s = Done (m_ret (fst (mws_os_call c w)), s') /\ writing x m g s' /\ ms_g s' = ms_g s.
Proof.
  intros Hw. exists (pv_world (ms_pvm s)). unfold os_ret, oscall, bind.
  destruct (mws_os_call c _) as [r w]. cbn [obind ret]. eexists.
  split; [done|]. split; [|done]. destruct Hw as [? ? ? ?]. by split.
Qed.

Lemma write_xen {A} (p : pvm_m A) x m g s v p' :
  writing x m g s -> p (ms_pvm s) = Done (v, p') ->
  exists s', xen p s = Done (v, s') /\ writing x m (pv_g p') s' /\ ms_pvm s' = p'.
Proof.
  intros [H1 H2 H3 H4] E. unfold xen. rewrite E. eexists. split; [done|]. split; [|done]. by split.
Qed.

(** ** The identifier *)

Lemma counter_next_id (I : mws_state S W -> Prop) :
  (forall c s, I s -> I (with_counter c s)) -> keeps I mwsocket_get_next_id.
Proof.
  intros Hc. assert (keeps I inc_id_counter) as Hi by (intros s u s' Hs [= _ <-]; by apply Hc).
  assert (forall n, keeps I (next_id_loop n)) as Hn.
  { induction n as [|n IH]; [done|]. cbn [next_id_loop]. apply m_keeps_bind; [exact Hi|]. intros c.
    apply m_keeps_bind; [destruct (_ =? _); [exact Hi|apply m_keeps_ret]|]. intros d.
    apply m_keeps_bind; [apply m_keeps_gets|]. intros l.
    apply m_keeps_bind; [intros s u s' Hs E; apply id_in_use_inv in E as [-> _]; exact Hs|].
    intros [|]; [exact IH|apply m_keeps_ret]. }
  unfold mwsocket_get_next_id. apply m_keeps_bind; [apply m_keeps_gets|]. intros l. apply Hn.
Qed.

(** An identifier is found, and only the counter moves. *)
Lemma write_next_id x m g s :
  writing x m g s -> listed m (mg_active_request_list (ms_g s)) (mg_next_address (ms_g s)) ->
  Z.of_nat (length (mg_active_request_list (ms_g s))) < 2 ^ 62 ->
  exists id s', mwsocket_get_next_id s = Done (id, s') /\ 0 < id < 2 ^ 64 /\ writing x m g s'
  /\ (forall a y, m !! a = Some y -> ar_id y <> id).
Proof.
  intros Hw Hl Hlen. pose proof (wr_requests _ _ _ _ Hw) as Hm.
  pose proof (length_ids_of (mg_active_requests (ms_g s)) (mg_active_request_list (ms_g s))) as Hids.
  destruct (next_id_loop_total (Datatypes.S (length (mg_active_request_list (ms_g s)))) s) as (id & s' & E & Hid).
  - apply Forall_forall. intros a Ha. rewrite Hm. by apply (ls_dom _ _ _ Hl).
  - lia.
  - eapply Nat.le_lt_trans; [apply length_filter|]. lia.
  - change (mwsocket_get_next_id s = Done (id, s')) in E. exists id, s'. split; [done|]. split; [done|]. split.
    + refine (counter_next_id (writing x m g) _ _ _ _ Hw E). intros c s1 [? ? ? ?]. by split.
    + destruct (get_next_id_inv _ _ _ E) as (_ & _ & Hf). intros a y Hy. apply (Hf a); [|congruence].
      apply (ls_dom _ _ _ Hl). eauto.
Qed.

(** ** The active request *)

Lemma write_create x m g s :
  writing x m g s -> books (tables_of (ms_g s)) -> si_ins_alive x = true ->
  Z.of_nat (length (mg_active_request_list (ms_g s))) < 2 ^ 62 ->
  (forall w, m_ret (fst (mws_os_call KmemCacheAlloc w)) <> 0) ->
  exists a id s', mwsocket_create_active_request h s = Done ((0, Some a), s')
  /\ m !! a = None /\ 0 < id < 2 ^ 64 /\ (forall b y, m !! b = Some y -> ar_id y <> id)
  /\ writing (set_si_refct (si_refct x + 1) x) (<[a := set_ar_id id (set_ar_sockinst h ar_zero)]> m) g s'.
Proof.
  intros Hw Hb Halive Hlen Halloc. unfold mwsocket_create_active_request.
  destruct (write_get_si _ _ _ _ Hw) as (z & Ez & Hv). rewrite (bind_done _ _ _ _ _ Ez).
  unfold writer_view in Hv. injection Hv as _ _ _ _ _ V _ _ _ _ _ _ _. rewrite V, Halive. cbn [negb].
  destruct (write_os_ret _ _ _ _ KmemCacheAlloc Hw) as (w & s1 & E1 & Hw1 & Hg1).
  rewrite (bind_done _ _ _ _ _ E1), (proj2 (Z.eqb_neq _ _) (Halloc w)).
  pose proof (bk_requests _ Hb) as Hl. rewrite <- Hg1 in Hl. simpl in Hl. rewrite (wr_requests _ _ _ _ Hw1) in Hl.
  set (a := mg_next_address (ms_g s1)) in *.
  set (s2 := set_ms_g (set_mg_next_address (Datatypes.S a) (ms_g s1)) s1).
  assert (writing x m g s2) as Hw2 by (destruct Hw1 as [? ? ? ?]; by split).
  rewrite (bind_done _ _ s1 a s2) by reflexivity.
  destruct (write_upd_si _ (set_si_refct (si_refct x + 1) x) _ _ _ (fun z => set_si_refct (si_refct z + 1) z) Hw2)
    as (s3 & E3 & Hw3).
  { intros z' Hz'. unfold writer_view in *. simpl. injection Hz' as -> -> -> -> -> -> -> -> -> -> -> -> ->. done. }
  unfold mwsocket_get_sockinst. rewrite (bind_done _ _ _ _ _ E3).
  destruct (write_next_id _ _ _ s3 Hw3) as (id & s4 & E4 & Hid & Hw4 & Hf).
  { apply upd_si_inv in E3 as (? & _ & ->). simpl. by apply listed_next. }
  { apply upd_si_inv in E3 as (? & _ & ->). simpl. by rewrite Hg1. }
  rewrite (bind_done _ _ _ _ _ E4). exists a, id. eexists. split; [reflexivity|].
  split; [by eapply listed_fresh|]. split; [done|]. split; [done|].
  destruct Hw4 as [H1 H2 H3 H4]. split; simpl; [by rewrite H1|done..].
Qed.

(** ** Errors *)

Lemma write_pending x m g s t :
  writing x m g s -> si_remote_surprise_close x = false -> si_pending_errno x = 0 ->
  mwsocket_pending_error h t s = Done (0, s).
Proof.
  intros Hw Hsc Hp. unfold mwsocket_pending_error.
  destruct (write_get_si _ _ _ _ Hw) as (z & E & Hv). rewrite (bind_done _ _ _ _ _ E).
  unfold writer_view in Hv. injection Hv as _ _ _ V1 _ _ _ _ _ _ _ _ V2.
  destruct (is_type _ _ || is_type _ _); [done|]. by rewrite V1, V2, Hsc, Hp.
Qed.

(** ** What is noted about the request *)

#[local] Ltac same_view := intros; unfold writer_view in *; simpl; congruence.

Lemma sure_get_si x m g : sure (writing x m g) (get_si h) (fun z => writer_view z = writer_view x).
Proof. intros s Hs. destruct (write_get_si _ _ _ _ Hs) as (z & -> & Hz). eauto. Qed.
Lemma sure_get_ar x m g a y : m !! a = Some y -> sure (writing x m g) (get_ar a) (fun z => z = y).
Proof. intros Hy s Hs. rewrite (write_get_ar _ _ _ _ _ _ Hs Hy). eauto. Qed.
Lemma sure_get_base x m g a y :
  m !! a = Some y -> sure (writing x m g) (get_base a) (fun b => b = get_request_base (ar_rr y)).
Proof. intros Hy s Hs. rewrite (write_get_base _ _ _ _ _ _ Hs Hy). eauto. Qed.
Lemma sure_upd_si x m g f :
  (forall z, writer_view (f z) = writer_view z) -> sure (writing x m g) (upd_si h f) (fun _ => True).
Proof.
  intros Hf s Hs. destruct (write_upd_si x x m g s f Hs) as (s' & -> & Hs'); [|eauto].
  intros z Hz. by rewrite Hf.
Qed.

#[local] Hint Extern 1 (sure _ (upd_si h _) _) =>
  apply sure_upd_si; intros ?; reflexivity : sure.
#[local] Hint Resolve sure_get_si : sure.
#[local] Hint Extern 1 (sure _ (get_ar _) _) => eapply sure_get_ar; eassumption : sure.
#[local] Hint Extern 1 (sure _ (get_base _) _) => eapply sure_get_base; eassumption : sure.

Lemma sure_record x m g a y :
  m !! a = Some y -> ar_sockinst y = h ->
  is_type MtRequestSocketAccept (rq_type (get_request_base (ar_rr y))) = false ->
  sure (writing x m g) (record_request a) (fun _ => True).
Proof.
  intros Hy Hh Ha. unfold record_request.
  eapply sure_bind; [eauto with sure|]. intros y' ->. eapply sure_bind; [eauto with sure|]. intros b ->.
  rewrite Hh. eapply sure_bind; [eauto with sure|]. intros z Hz. cbv zeta. rewrite Ha. sure_solve.
Qed.

(** The lock that keeps a close away is taken at once. *)
Lemma write_close_lock x m g s a y :
  writing x m g s -> m !! a = Some y -> ar_sockinst y = h -> si_close_writer x = false ->
  is_type MtRequestSocketClose (rq_type (get_request_base (ar_rr y))) = false ->
  exists s', alone (enforce_close_lock a) s = Done (tt, s') /\ writing x m g s'.
Proof.
  intros Hw Hy Hh Hc Ht. unfold enforce_close_lock.
  rewrite (bind_alone_lift _ _ _ _ _ (write_get_ar _ _ _ _ _ _ Hw Hy)). cbn beta.
  rewrite (bind_alone_lift _ _ _ _ _ (write_get_base _ _ _ _ _ _ Hw Hy)). cbn beta. rewrite Ht, Hh. cbv zeta.
  destruct (MT_CLOSE_WAITS _); [|by exists s]. rewrite alone_lift.
  destruct (write_get_si _ _ _ _ Hw) as (z & Ez & Hz).
  destruct (write_upd_si x x m g s (set_si_close_readers (si_close_readers z + 1)) Hw) as (s1 & E1 & Hw1); [same_view|].
  destruct (write_upd_si x x m g s1 (set_si_close_blockid (ar_id y)) Hw1) as (s2 & E2 & Hw2); [same_view|].
  exists s2. split; [|done]. rewrite (bind_done _ _ s tt s1); [done|].
  unfold down_read_close. rewrite (bind_done _ _ _ _ _ Ez).
  unfold writer_view in Hz. injection Hz as _ _ _ _ _ _ _ V _ _ _ _ _. by rewrite V, Hc.
Qed.

(** The caller that waits: socket and request afterwards. *)
Definition noted_sock (b : mt_request_base) (id : Z) (x : mwsocket_instance) : mwsocket_instance :=
  if MT_REQUEST_CALLER_WAITS b then set_si_blockid id (set_si_read_expected true x) else x.
Definition noted_request (b : mt_request_base) (y : mwsocket_active_request) : mwsocket_active_request :=
  if MT_REQUEST_CALLER_WAITS b then set_ar_deliver_response true y else y.

Lemma write_pre_process x m g s a y :
  let b := get_request_base (ar_rr y) in
  writing x m g s -> m !! a = Some y -> ar_sockinst y = h -> si_close_writer x = false ->
  is_type MtRequestSocketClose (rq_type b) = false -> is_type MtRequestSocketAccept (rq_type b) = false ->
  exists s', alone (mwsocket_pre_process_request a) s = Done (0, s')
  /\ writing (noted_sock b (ar_id y) x) (<[a := noted_request b y]> m) g s'.
Proof.
  intros b Hw Hy Hh Hc Hcl Hac. unfold mwsocket_pre_process_request.
  assert (exists s1, note_caller_waits a s = Done (tt, s1)
          /\ writing (noted_sock b (ar_id y) x) (<[a := noted_request b y]> m) g s1) as (s1 & E1 & Hw1).
  { unfold note_caller_waits, noted_sock, noted_request.
    rewrite (bind_done _ _ _ _ _ (write_get_ar _ _ _ _ _ _ Hw Hy)).
    rewrite (bind_done _ _ _ _ _ (write_get_base _ _ _ _ _ _ Hw Hy)). fold b.
    destruct (MT_REQUEST_CALLER_WAITS b); cbn [when]; [|exists s; by rewrite insert_id].
    rewrite Hh.
    destruct (write_upd_si x (set_si_blockid (ar_id y) (set_si_read_expected true x)) m g s
      (fun z => set_si_blockid (ar_id y) (set_si_read_expected true z)) Hw) as (s1 & E1 & Hw1); [same_view|].
    destruct (write_upd_ar _ _ _ _ a y (set_ar_deliver_response true) Hw1 Hy) as (s2 & E2 & Hw2).
    exists s2. split; [|done]. by rewrite (bind_done _ _ _ _ _ E1). }
  rewrite (bind_alone_lift _ _ _ _ _ E1).
  set (x1 := noted_sock b (ar_id y) x) in *. set (y1 := noted_request b y) in *.
  assert ((<[a := y1]> m) !! a = Some y1) as Hy1 by apply lookup_insert_eq.
  assert (ar_sockinst y1 = h /\ ar_rr y1 = ar_rr y) as [Hh1 Hr1]
    by (unfold y1, noted_request; by destruct (MT_REQUEST_CALLER_WAITS b)).
  assert (si_close_writer x1 = false) as Hc1
    by (unfold x1, noted_sock; by destruct (MT_REQUEST_CALLER_WAITS b)).
  destruct (write_close_lock _ _ _ _ a y1 Hw1 Hy1 Hh1 Hc1) as (s2 & E2 & Hw2); [by rewrite Hr1|].
  rewrite (alone_run _ _ _ _ _ E2).
  destruct (sure_record x1 _ g a y1 Hy1 Hh1 ltac:(by rewrite Hr1) s2 Hw2) as ([] & s3 & E3 & Hw3 & _).
  rewrite (bind_alone_lift _ _ _ _ _ E3). by exists s3.
Qed.

(** ** The ring *)

Context {Laws : XenRingLaws S}.
Context (i : nat) (e : mwcomms_ins_data S).
#[local] Abbreviation slot := (req_prod_pvt (id_front_ring e)).

(** A request with the user's bytes. *)
Definition holds_user (Bytes : list Z) (y : mwsocket_active_request) : Prop :=
  exists tail, ar_rr y = Bytes ++ tail.

Definition addressed (fd : Z) (Bytes : list Z) (y : mwsocket_active_request) : mwsocket_active_request :=
  set_ar_rr (sent_message (ar_id y) fd Bytes ++ drop (length Bytes) (ar_rr y)) y.

Lemma rewritten_base Bytes fd y :
  user_message Bytes -> holds_user Bytes y ->
  set_ar_rr (put_request_base (base_to_send (ar_id y) fd (get_request_base (ar_rr y)))
             ++ drop (sizeof ct_request_base) (ar_rr y)) y = addressed fd Bytes y.
Proof.
  intros [_ Hb _ _] [tail Ht]. unfold addressed, sent_message. f_equal. rewrite Ht.
  assert (get_request_base (Bytes ++ tail) = get_request_base Bytes) as ->.
  { rewrite <- (take_ge Bytes (length Bytes)) at 1 by done. by apply get_request_base_app. }
  by rewrite drop_app_le, drop_app_length, app_assoc by done.
Qed.

Lemma write_acquire ring_fuel x m g s a y Bytes :
  let fd := si_remote_fd x in
  writing x m g s -> m !! a = Some y -> ar_sockinst y = h ->
  user_message Bytes -> holds_user Bytes y -> in_u 64 (ar_id y) -> in_s 64 fd -> si_ins_alive x = true ->
  sendable i (ms_pvm s) e (MW_SOCKET_CLIENT_ID (rq_sockfd (base_to_send 0 fd (get_request_base Bytes)))) ->
  id_request_lock e = false -> (0 < ring_fuel)%nat -> RING_FULL (id_sring e) (id_front_ring e) = false ->
  exists s', acquire_request_slot ring_fuel a true s = Done (inr (i, slot), s')
  /\ writing x (<[a := addressed fd Bytes y]> m) (pv_g (ms_pvm s')) s'
  /\ table_at i (mx_ins g) (reserved slot e) (ms_pvm s').
Proof.
  intros fd Hw Hy Hh Hu Hb Hid Hfd Halive Hs Hl Hf Hr. unfold acquire_request_slot.
  rewrite (bind_done _ _ _ _ _ (write_get_ar _ _ _ _ _ _ Hw Hy)). rewrite Hh. cbv zeta.
  destruct (write_get_si _ _ _ _ Hw) as (z & Ez & Hz). rewrite (bind_done _ _ _ _ _ Ez).
  unfold writer_view in Hz. injection Hz as _ _ _ _ _ V1 V2 _ _ _ _ _ _.
  destruct (write_upd_ar _ _ _ _ a y
    (fun x0 => set_ar_rr (put_request_base (base_to_send (ar_id y) (si_remote_fd z) (get_request_base (ar_rr x0)))
                 ++ drop (sizeof ct_request_base) (ar_rr x0)) x0) Hw Hy) as (s1 & E1 & Hw1).
  unfold upd_base. rewrite (bind_done _ _ _ _ _ E1). rewrite V2, (rewritten_base Bytes) in Hw1 by done. fold fd in Hw1.
  assert ((<[a := addressed fd Bytes y]> m) !! a = Some (addressed fd Bytes y)) as Hy1 by apply lookup_insert_eq.
  rewrite (bind_done _ _ _ _ _ (write_get_base _ _ _ _ _ _ Hw1 Hy1)).
  destruct (sent_message_valid (ar_id y) fd Bytes Hid Hfd Hu) as (Hv & Hg & _).
  assert (get_request_base (ar_rr (addressed fd Bytes y)) = base_to_send (ar_id y) fd (get_request_base Bytes)) as ->.
  { rewrite <- Hg. unfold addressed. cbn [ar_rr set_ar_rr].
    rewrite <- (take_ge (sent_message _ _ _) (length (sent_message (ar_id y) fd Bytes))) at 1 by done.
    apply get_request_base_app; [|done]. exact (valid_request_length _ Hv). }
  pose proof (vr_is _ Hv) as His. rewrite Hg in His. rewrite His, V1, Halive. cbn [negb].
  assert (ms_pvm s1 = ms_pvm s) as Hp1 by (apply upd_ar_inv in E1 as (? & _ & ->); done).
  destruct (slot_taken i ring_fuel (ms_pvm s1) e _ (sendable_same i _ _ _ _ (f_equal pv_g (eq_sym Hp1)) Hs) Hl Hf Hr)
    as (p' & E2 & T).
  destruct (write_xen _ _ _ _ _ _ p' Hw1 E2) as (s2 & E3 & Hw2 & Hp2).
  exists s2. cbn [rq_sockfd base_to_send] in *. rewrite (bind_done _ _ _ _ _ E3). split; [done|].
  rewrite Hp2. split; [done|]. by rewrite <- (wr_pvm _ _ _ _ Hw1).
Qed.

Lemma write_put x m g s a y L Bytes fd id tail :
  writing x m g s -> m !! a = Some y -> ar_rr y = sent_message id fd Bytes ++ tail ->
  user_message Bytes -> in_u 64 id -> in_s 64 fd ->
  table_at i L (reserved slot e) (ms_pvm s) -> PvmXen.id_in_use e = 1 ->
  (forall port w, p_ret (fst (pvm_os_call (EvtchnSend port) w)) = 0) ->
  exists s', put_on_ring a i slot s = Done (0, s') /\ writing x m (pv_g (ms_pvm s')) s'
  /\ table_at i L (pushed (sent_message id fd Bytes) e) (ms_pvm s').
Proof.
  intros Hw Hy Hrr Hu Hid Hfd T Hin Hos. unfold put_on_ring.
  rewrite (bind_done _ _ _ _ _ (write_get_ar _ _ _ _ _ _ Hw Hy)).
  rewrite (bind_done _ _ _ _ _ (write_get_base _ _ _ _ _ _ Hw Hy)).
  destruct (sent_message_valid id fd Bytes Hid Hfd Hu) as (Hv & Hg & Hl).
  assert (take (Z.to_nat (rq_size (get_request_base (ar_rr y)))) (ar_rr y) = sent_message id fd Bytes) as ->.
  { assert (get_request_base (ar_rr y) = get_request_base (sent_message id fd Bytes)) as ->.
    { rewrite Hrr, <- (take_ge (sent_message _ _ _) (length (sent_message id fd Bytes))) at 1 by done.
      apply get_request_base_app; [|done]. exact (valid_request_length _ Hv). }
    by rewrite (vr_size _ Hv), Nat2Z.id, Hrr, take_app_length. }
  destruct (slot_sent i L e _ _ T Hin Hv Hos) as (p1 & p2 & E1 & E2 & T2).
  destruct (write_xen _ _ _ _ _ _ _ Hw E1) as (s1 & Ex1 & Hw1 & Hp1).
  rewrite <- Hp1 in E2. destruct (write_xen _ _ _ _ _ _ _ Hw1 E2) as (s2 & Ex2 & Hw2 & Hp2).
  exists s2. rewrite (bind_done _ _ _ _ _ Ex1). rewrite Hp2. by split_and!.
Qed.

(** ** The whole write *)

(** A ring with room, at the entry [i], for a request of the socket [x]. *)
Record room (x : mwsocket_instance) (Bytes : list Z) s : Prop := {
  rm_entry : sendable i (ms_pvm s) e (MW_SOCKET_CLIENT_ID
               (rq_sockfd (base_to_send 0 (si_remote_fd x) (get_request_base Bytes))));
  rm_lock : id_request_lock e = false;
  rm_free : RING_FULL (id_sring e) (id_front_ring e) = false
}.

Lemma room_same x x' Bytes s s' :
  pv_g (ms_pvm s) = pv_g (ms_pvm s') -> si_remote_fd x' = si_remote_fd x -> room x Bytes s -> room x' Bytes s'.
Proof. intros Hp Hf [H ? ?]. split; [|done..]. rewrite Hf. by apply (sendable_same i _ _ _ _ Hp). Qed.

(** A request whose caller waits, ready to be sent. *)
Record to_send (x : mwsocket_instance) (Bytes : list Z) : Prop := {
  ts_message : user_message Bytes;
  ts_waits : MT_REQUEST_CALLER_WAITS (get_request_base Bytes) = true;
  ts_accept : is_type MtRequestSocketAccept (rq_type (get_request_base Bytes)) = false;
  ts_close : is_type MtRequestSocketClose (rq_type (get_request_base Bytes)) = false;
  ts_alive : si_ins_alive x = true;
  ts_open : si_close_writer x = false;
  ts_fd : in_s 64 (si_remote_fd x)
}.

Definition expecting (id : Z) (x : mwsocket_instance) : mwsocket_instance :=
  set_si_blockid id (set_si_read_expected true x).

Lemma write_send ring_fuel x m g s a y Bytes :
  writing x m g s -> m !! a = Some y -> ar_sockinst y = h -> holds_user Bytes y -> in_u 64 (ar_id y) ->
  to_send x Bytes -> room x Bytes s -> (0 < ring_fuel)%nat ->
  (forall port w, p_ret (fst (pvm_os_call (EvtchnSend port) w)) = 0) ->
  exists s' y', alone (mwsocket_send_request ring_fuel a true) s = Done (0, s')
  /\ (ar_id y', ar_sockinst y', ar_response_populated y', ar_arrived y')
     = (ar_id y, ar_sockinst y, ar_response_populated y, ar_arrived y) /\ ar_deliver_response y' = true
  /\ writing (expecting (ar_id y) x) (<[a := y']> m) (pv_g (ms_pvm s')) s'
  /\ table_at i (mx_ins g) (pushed (sent_message (ar_id y) (si_remote_fd x) Bytes) e) (ms_pvm s').
Proof.
  intros Hw Hy Hh Hb Hid [Hu Hwt Hac Hcl Hal Hcw Hfd] [Hs Hl Hr] Hf Hos. unfold mwsocket_send_request.
  destruct (write_acquire ring_fuel x m g s a y Bytes Hw Hy Hh Hu Hb Hid Hfd Hal Hs Hl Hf Hr) as (s1 & E1 & Hw1 & T1).
  rewrite (bind_alone_lift _ _ _ _ _ E1). cbn beta iota.
  set (y1 := addressed (si_remote_fd x) Bytes y) in *.
  destruct (sent_message_valid (ar_id y) (si_remote_fd x) Bytes Hid Hfd Hu) as (Hv & Hg & _).
  assert (get_request_base (ar_rr y1) = base_to_send (ar_id y) (si_remote_fd x) (get_request_base Bytes)) as Hg1.
  { rewrite <- Hg. unfold y1, addressed. cbn [ar_rr set_ar_rr].
    rewrite <- (take_ge (sent_message _ _ _) (length (sent_message (ar_id y) (si_remote_fd x) Bytes))) at 1 by done.
    apply get_request_base_app; [|done]. exact (valid_request_length _ Hv). }
  assert ((<[a := y1]> m) !! a = Some y1) as Hy1 by apply lookup_insert_eq.
  destruct (write_pre_process x _ _ s1 a y1 Hw1 Hy1 Hh Hcw) as (s2 & E2 & Hw2); [by rewrite Hg1..|].
  rewrite (alone_run _ _ _ _ _ E2). change (truth 0) with false. cbn iota. rewrite alone_lift.
  assert (noted_sock (get_request_base (ar_rr y1)) (ar_id y1) x = expecting (ar_id y) x) as Hx2.
  { unfold noted_sock. rewrite Hg1. unfold MT_REQUEST_CALLER_WAITS in *. cbn [rq_flags base_to_send]. by rewrite Hwt. }
  assert (noted_request (get_request_base (ar_rr y1)) y1 = set_ar_deliver_response true y1) as Hy2.
  { unfold noted_request. rewrite Hg1. unfold MT_REQUEST_CALLER_WAITS in *. cbn [rq_flags base_to_send]. by rewrite Hwt. }
  rewrite Hx2, Hy2, insert_insert_eq in Hw2.
  assert (pv_g (ms_pvm s2) = pv_g (ms_pvm s1)) as Hp2 by apply (wr_pvm _ _ _ _ Hw2).
  destruct (write_put _ _ _ s2 a (set_ar_deliver_response true y1) (mx_ins g) Bytes (si_remote_fd x) (ar_id y)
              (drop (length Bytes) (ar_rr y)) Hw2 (lookup_insert_eq _ _ _) eq_refl Hu Hid Hfd) as (s3 & E3 & Hw3 & T3);
    [by destruct T1 as [T1 ?]; split; rewrite ?Hp2|apply Hs|done|].
  exists s3, (set_ar_deliver_response true y1). by split_and!.
Qed.

Lemma write_request_sends ring_fuel x m g s Bytes :
  writing x m g s -> books (tables_of (ms_g s)) -> to_send x Bytes -> room x Bytes s -> (0 < ring_fuel)%nat ->
  si_remote_surprise_close x = false -> si_pending_errno x = 0 ->
  Z.of_nat (length (mg_active_request_list (ms_g s))) < 2 ^ 62 ->
  (forall w, m_ret (fst (mws_os_call KmemCacheAlloc w)) <> 0) ->
  (forall w, m_ret (fst (mws_os_call CopyFromUser w)) = 0) ->
  (forall port w, p_ret (fst (pvm_os_call (EvtchnSend port) w)) = 0) ->
  exists a y s', alone (write_request ring_fuel h Bytes) s = Done ((0, Some a), s')
  /\ m !! a = None /\ 0 < ar_id y < 2 ^ 64 /\ (forall b z, m !! b = Some z -> ar_id z <> ar_id y)
  /\ (ar_sockinst y, ar_deliver_response y, ar_response_populated y, ar_arrived y) = (h, true, false, 0)
  /\ writing (expecting (ar_id y) (set_si_refct (si_refct x + 1) x)) (<[a := y]> m) (pv_g (ms_pvm s')) s'
  /\ table_at i (mx_ins g) (pushed (sent_message (ar_id y) (si_remote_fd x) Bytes) e) (ms_pvm s').
Proof.
  intros Hw Hb Ht Hr Hf Hsc Hp Hlen Halloc Hcopy Hos. unfold write_request.
  destruct (write_create x m g s Hw Hb (ts_alive _ _ Ht) Hlen Halloc) as (a & id & s1 & E1 & Ha & Hid & Hfr & Hw1).
  rewrite (bind_alone_lift _ _ _ _ _ E1). cbn beta iota.
  set (x1 := set_si_refct (si_refct x + 1) x) in *. set (y0 := set_ar_id id (set_ar_sockinst h ar_zero)) in *.
  destruct (write_upd_ar _ _ _ _ a y0 (set_ar_from_user true) Hw1 (lookup_insert_eq _ _ _)) as (s2 & E2 & Hw2).
  destruct (write_os_ret _ _ _ _ CopyFromUser Hw2) as (w & s3 & E3 & Hw3 & _). rewrite Hcopy in E3.
  rewrite insert_insert_eq in Hw3.
  set (y2 := set_ar_rr (Bytes ++ drop (length Bytes) (ar_rr y0)) (set_ar_from_user true y0)).
  assert (exists s4, memcpy_rr a (Z.of_nat (length Bytes)) Bytes s3 = Done (tt, s4)
          /\ writing x1 (<[a := y2]> m) g s4) as (s4 & E4 & Hw4).
  { unfold memcpy_rr. rewrite (proj2 (Z.ltb_ge _ _)), Nat2Z.id, take_ge by
      (try done; pose proof (um_fits _ (ts_message _ _ Ht)); assert (ONE_REQUEST_REGION_SIZE <= Z.of_nat RR_SIZE) by (by vm_compute); lia).
    destruct (write_upd_ar _ _ _ _ a (set_ar_from_user true y0)
      (fun x => set_ar_rr (Bytes ++ drop (length Bytes) (ar_rr x)) x) Hw3 (lookup_insert_eq _ _ _)) as (s4 & E4 & Hw4).
    exists s4. split; [done|]. by rewrite insert_insert_eq in Hw4. }
  assert (get_request_base (ar_rr y2) = get_request_base Bytes) as Hg.
  { unfold y2. cbn [ar_rr set_ar_rr]. rewrite <- (take_ge Bytes (length Bytes)) at 1 by done.
    apply get_request_base_app; [apply Ht|done]. }
  pose proof (write_get_base _ _ _ _ _ _ Hw4 (lookup_insert_eq _ _ _)) as E5. rewrite Hg in E5.
  rewrite (bind_alone_lift _ _ s1 0 s4).
  2:{ rewrite (bind_done _ _ _ _ _ E2), (bind_done _ _ _ _ _ E3). change (truth 0) with false. cbn iota.
      rewrite (bind_done _ _ _ _ _ E4), (bind_done _ _ _ _ _ E5).
      rewrite (um_size _ (ts_message _ _ Ht)), Z.ltb_irrefl. by apply (write_pending x1 _ _ _ _ Hw4). }
  change (truth 0) with false. cbn iota.
  destruct (write_send ring_fuel x1 _ g s4 a y2 Bytes Hw4 (lookup_insert_eq _ _ _)) as
    (s5 & y' & E6 & Hsame & Hd & Hw5 & T5).
  - reflexivity.
  - by eexists.
  - unfold in_u. cbn [ar_id y2 set_ar_rr set_ar_from_user y0 set_ar_id]. lia.
  - destruct Ht. by split.
  - apply (room_same x _ _ s); [|done|exact Hr]. by rewrite (wr_pvm _ _ _ _ Hw4), (wr_pvm _ _ _ _ Hw).
  - exact Hf.
  - exact Hos.
  - change (ar_id y2) with id in *. change (si_remote_fd x1) with (si_remote_fd x) in *.
    change (ar_sockinst y2) with h in Hsame. change (ar_response_populated y2) with false in Hsame.
    change (ar_arrived y2) with 0 in Hsame. injection Hsame as H1 H2 H3 H4.
    exists a, y', s5. rewrite (alone_run _ _ _ _ _ E6).
    rewrite insert_insert_eq in Hw5. rewrite H1, H2, H3, H4, Hd.
    split; [done|]. split; [done|]. split; [done|]. split; [done|]. split; [done|]. by split.
Qed.

End Frame.

(** A write puts the request of the process on the ring, with an
    identifier of its own and the descriptor of the INS, and leaves the
    driver waiting for the response with this identifier. *)
Lemma write_sends {Laws : XenRingLaws S} i e ring_fuel h f x s Bytes :
  idle_socket (ms_g s) h f x -> to_send x Bytes -> room i e x Bytes s -> (0 < ring_fuel)%nat ->
  Z.of_nat (length (mg_active_request_list (ms_g s))) < 2 ^ 62 ->
  (forall w, m_ret (fst (mws_os_call KmemCacheAlloc w)) <> 0) ->
  (forall w, m_ret (fst (mws_os_call CopyFromUser w)) = 0) ->
  (forall port w, p_ret (fst (pvm_os_call (EvtchnSend port) w)) = 0) ->
  exists a y z s', alone (mwsocket_write ring_fuel f Bytes) s = Done (0, s')
  /\ awaiting (ms_g s') h a f z y
  /\ si_refct z = si_refct x + 1 /\ si_request_sem z = si_request_sem x - 1
  /\ 0 < ar_id y < 2 ^ 64
  /\ (forall b w, mg_active_requests (ms_g s) !! b = Some w -> ar_id w <> ar_id y)
  /\ mg_active_requests (ms_g s) !! a = None
  /\ mg_active_requests (ms_g s') = <[a := y]> (mg_active_requests (ms_g s))
  /\ mx_ins (pv_g (ms_pvm s'))
     = <[i := pushed (sent_message (ar_id y) (si_remote_fd x) Bytes) e]> (mx_ins (pv_g (ms_pvm s))).
Proof.
  intros [Hb Hfile Hx [= V1 V2 V3 V4] Hacc Hsc Hsem] Ht Hr Hf Hlen Halloc Hcopy Hos.
  assert (keeps (on (S := S) (W := W) books) (alone (mwsocket_write ring_fuel f Bytes))) as Hkeep
    by (apply alone_keeps, on_write; typeclasses eauto).
  destruct (bk_sock _ Hb h x Hx) as (Href & Hpend & _).
  set (m := mg_active_requests (ms_g s)). set (g := pv_g (ms_pvm s)).
  assert (writing h (mg_files (ms_g s)) x m g s) as Hw by (split; eauto).
  destruct (write_os_ret _ _ _ _ _ _ CopyFromUser Hw) as (w & s1 & E1 & Hw1 & Hg1). rewrite Hcopy in E1.
  set (x1 := set_si_request_sem (si_request_sem x - 1) x).
  destruct (write_upd_si h _ x x1 m g s1 (set_si_request_sem (si_request_sem x - 1)) Hw1) as (s2 & E2 & Hw2).
  { intros z Hz. unfold writer_view in *. simpl. congruence. }
  assert (down_request h s1 = Done (0, s2)) as Ed.
  { unfold down_request, down_interruptible. rewrite (bind_done _ _ s1 x s1) by
      (unfold get_si; by rewrite Hg1, Hx).
    rewrite (proj2 (Z.ltb_lt _ _) Hsem). by rewrite (bind_done _ _ _ _ _ E2). }
  assert (tables_of (ms_g s2) = with_sock h x1 (tables_of (ms_g s)) /\ mg_active_request_list (ms_g s2) = mg_active_request_list (ms_g s))
    as [Htab Hlist].
  { apply upd_si_inv in E2 as (x' & Hx' & ->). rewrite Hg1 in Hx'. simplify_eq. simpl. rewrite Hg1. by split. }
  destruct (write_get_si _ _ _ _ _ _ Hw2) as (z2 & E3 & Hz2). pose proof Hz2 as Hz2'.
  unfold writer_view in Hz2'. injection Hz2' as _ _ _ _ _ _ _ _ _ U1 U2 _ _.
  destruct (write_request_sends h _ i e ring_fuel x1 m g s2 Bytes Hw2) as
    (a & y & s3 & E4 & Ha & Hid & Hfr & Hy & Hw3 & T3); try done.
  { rewrite Htab. by apply (books_with_sock _ h x _ Hb Hx), (bk_sock _ Hb h x Hx). }
  { destruct Ht. by split. }
  { apply (room_same i e x _ _ s); [|done|exact Hr]. by rewrite (wr_pvm _ _ _ _ _ _ Hw2). }
  { by rewrite Hlist. }
  destruct (write_get_si _ _ _ _ _ _ Hw3) as (z & E5 & Hz).
  assert (alone (mwsocket_write ring_fuel f Bytes) s = Done (0, s3)) as E.
  { unfold mwsocket_write. rewrite (proj2 (Z.ltb_ge _ _)).
    2:{ pose proof (um_base _ (ts_message _ _ Ht)). change MT_REQUEST_BASE_SIZE with (Z.of_nat (sizeof ct_request_base)). lia. }
    rewrite (bind_alone_lift _ _ _ _ _ E1). change (truth 0) with false. cbn iota zeta.
    rewrite (bind_alone_lift _ _ s1 (0, Some h) s1).
    2:{ unfold mwsocket_find_sockinst, get_mg, gets, bind, get_si. cbn [obind]. rewrite Hg1, Hfile. cbn [obind]. rewrite Hg1, Hx. cbn [obind].
        by rewrite V1, bool_decide_true. }
    cbn beta iota. rewrite (bind_alone_lift _ _ _ _ _ Ed). change (truth 0) with false. cbn iota.
    rewrite (bind_alone_lift _ _ _ _ _ E3). change (si_read_expected x1) with (si_read_expected x) in U2.
    rewrite U2, V4, andb_false_r, (ts_accept _ _ Ht). rewrite (alone_run _ _ _ _ _ E4). cbn beta iota. rewrite alone_lift.
    unfold write_exit. change (truth 0) with false. cbn [when]. rewrite (bind_done _ _ _ _ _ eq_refl).
    rewrite (bind_done _ _ _ _ _ E5). unfold writer_view in Hz. injection Hz as _ _ _ _ _ _ _ _ _ -> -> _ _.
    cbn [expecting si_read_expected si_state_valid set_si_blockid set_si_read_expected set_si_refct x1 set_si_request_sem].
    rewrite V3. reflexivity. }
  apply get_si_inv in E5 as [_ Hz3]. unfold writer_view in Hz. injection Hz as Z1 Z2 Z3 Z4 Z5 _ _ _ Z9 Z10 Z11 Z12 _.
  pose proof (wr_files _ _ _ _ _ _ Hw3) as Hfiles.
  pose proof Hy as Hy'. injection Hy' as Y1 Y2 Y3 Y4.
  exists a, y, z, s3. split; [exact E|].
  assert (si_refct z = si_refct x + 1) as Hrefs by (rewrite Z5; reflexivity).
  assert (si_request_sem z = si_request_sem x - 1) as Hsems by (rewrite Z9; reflexivity).
  split; [|do 5 (split; [done|]); split; [apply (wr_requests _ _ _ _ _ _ Hw3)|apply T3]].
  split; [exact (Hkeep _ _ _ Hb E)|by rewrite Hfiles|done| |rewrite Z1, Z2, Z10, Z11, Z12; simpl; by rewrite V1, V2, V3|lia|by rewrite Z3|by rewrite Z4| |done].
  - by rewrite (wr_requests _ _ _ _ _ _ Hw3), lookup_insert_eq.
  - lia.
Qed.

End Write.
