(* ===== verification/MwsReports.v ===== *)
(** * MwsReports: what users are told: totals of batches, events, options, errors *)

From stdpp Require Import base numbers list gmap.
From Stdlib Require Import ZArith Lia.
From S2P Require Import Prelude MwSocket MessageTypes XenRing PvmXen Threads MwsState MwsRequest MwsResponse MwsFile MwsTables MwsWalk MwsInvariant MwsSamples.

(** ** Access to the bytes of a response *)

Lemma rsp_send_count_set v bs :
  (sizeof ct_response_base + 6 <= length bs)%nat ->
  rsp_send_count (set_rsp_send_count v bs) = u16 v.
Proof.
  intros Hl.
  change (le_value (take 2 (drop 4 (drop (sizeof ct_response_base) (set_rsp_send_count v bs)))) = u16 v).
  unfold set_rsp_send_count, patch. rewrite drop_drop.
  rewrite drop_app_length' by (rewrite length_take; lia).
  rewrite take_app_length' by (by rewrite length_le_bytes). apply le_value_bytes.
Qed.

Section Tally.

Context {S W : Type} {R : XenRing S} {POS : PvmOS W} {OS : MwsOS W}.
Implicit Types s : mws_state S W.

(** The responses to a batch of sends, in the order of their arrival. *)
Fixpoint tally_batch (h : nat) (batch : list (list Z)) : mws_m (S := S) (W := W) unit :=
  match batch with
  | [] => ret tt
  | bs :: rest => tally_send h bs ;;; tally_batch h rest
  end.

Definition in_batch (bs : list Z) : Prop :=
  is_response_type MtRequestSocketSend (rs_type (get_response_base bs)) = true
  /\ has_flag (rs_flags (get_response_base bs)) MT_FLAGS_BATCH_SEND = true
  /\ has_flag (rs_flags (get_response_base bs)) MT_FLAGS_BATCH_SEND_FINI = false.

Definition ends_batch (bs : list Z) : Prop :=
  is_response_type MtRequestSocketSend (rs_type (get_response_base bs)) = true
  /\ has_flag (rs_flags (get_response_base bs)) MT_FLAGS_BATCH_SEND_FINI = true.

Definition with_sock_of h x s : mws_state S W :=
  set_ms_g (set_mg_sockinsts (<[h := x]> (mg_sockinsts (ms_g s))) (ms_g s)) s.

Lemma rsp_send_count_range bs : 0 <= rsp_send_count bs < 2 ^ 16.
Proof. exact (read_fields_range [4; 2]%nat (drop (sizeof ct_response_base) bs) 1 2 eq_refl). Qed.

Definition total (batch : list (list Z)) : Z := foldr (fun bs n => rsp_send_count bs + n) 0 batch.

Lemma total_nonneg batch : 0 <= total batch.
Proof.
  induction batch as [|bs batch IH]; [done|]. pose proof (rsp_send_count_range bs).
  change (0 <= rsp_send_count bs + total batch). lia.
Qed.

Lemma tally_one h x bs s :
  in_batch bs -> mg_sockinsts (ms_g s) !! h = Some x ->
  0 <= si_send_tally x -> si_send_tally x + rsp_send_count bs < 2 ^ 63 ->
  exists s', tally_send h bs s = Done (bs, s')
  /\ mg_sockinsts (ms_g s') !! h = Some (set_si_send_tally (si_send_tally x + rsp_send_count bs) x).
Proof.
  intros (Ht & Hb & Hf) Hx H0 Hlt. pose proof (rsp_send_count_range bs) as Hc.
  unfold tally_send, bind, get_si. rewrite Hx. cbn [obind]. rewrite Ht, Hf, Hb. cbn [negb].
  destruct (Z.ltb_spec 0 (rsp_send_count bs)) as [Hp|Hp]; cbn [when].
  - unfold upd_si. rewrite Hx. cbn [obind]. eexists. split; [done|]. simpl.
    rewrite lookup_insert_eq. rewrite wraps_small; [done|lia|]. unfold in_s. lia.
  - eexists. split; [done|]. replace (si_send_tally x + rsp_send_count bs) with (si_send_tally x) by lia.
    rewrite Hx. by destruct x.
Qed.

Lemma tally_many h x batch s :
  Forall in_batch batch -> mg_sockinsts (ms_g s) !! h = Some x ->
  0 <= si_send_tally x -> si_send_tally x + total batch < 2 ^ 63 ->
  exists s', tally_batch h batch s = Done (tt, s')
  /\ mg_sockinsts (ms_g s') !! h = Some (set_si_send_tally (si_send_tally x + total batch) x).
Proof.
  intros Hb. revert x s. induction Hb as [|bs batch H1 Hb IH]; intros x s Hx H0 Hlt.
  - exists s. split; [done|]. simpl. rewrite Z.add_0_r, Hx. by destruct x.
  - change (total (bs :: batch)) with (rsp_send_count bs + total batch) in *.
    pose proof (total_nonneg batch). pose proof (rsp_send_count_range bs).
    destruct (tally_one h x bs s H1 Hx H0) as (s1 & E1 & Hx1); [lia|].
    destruct (IH _ _ Hx1) as (s2 & E2 & Hx2); [cbn [si_send_tally set_si_send_tally]; lia..|].
    exists s2. cbn [tally_batch]. rewrite (bind_done _ _ _ _ _ E1). split; [done|].
    rewrite Hx2. simpl. by rewrite Z.add_assoc.
Qed.

(** A batch of sends, of which only the last has a response for the
    process: its response reports the bytes of the whole batch, though
    only the low 16 bits of their number. *)
Theorem batch_reports_total h x batch last s :
  mg_sockinsts (ms_g s) !! h = Some x -> si_send_tally x = 0 ->
  Forall in_batch batch -> ends_batch last ->
  (sizeof ct_response_base + 6 <= length last)%nat ->
  total batch < 2 ^ 63 ->
  exists bs s', (tally_batch h batch ;;; tally_send h last) s = Done (bs, s')
  /\ rsp_send_count bs = (total batch + rsp_send_count last) mod 2 ^ 16
  /\ exists z, mg_sockinsts (ms_g s') !! h = Some z
     /\ has_flag (si_u_flags z) MT_FLAGS_BATCH_SEND = false.
Proof.
  intros Hx H0 Hb [Ht Hf] Hl Hlt.
  destruct (tally_many h x batch s Hb Hx) as (s1 & E1 & Hx1); [lia|lia|].
  rewrite (bind_done _ _ _ _ _ E1). unfold tally_send, bind at 1, get_si. rewrite Hx1. cbn [obind].
  rewrite Ht, Hf. cbn [negb]. unfold bind, upd_si. rewrite Hx1. cbn [obind ret].
  do 2 eexists. split; [done|]. split.
  - rewrite rsp_send_count_set by done. simpl. rewrite H0. unfold wrapu. rewrite Zmod_mod. f_equal. lia.
  - eexists. simpl. rewrite lookup_insert_eq. split; [done|]. simpl.
    unfold has_flag, clear_flag, truth. apply negb_false_iff, Z.eqb_eq, Z.bits_inj'. intros k Hk.
    rewrite Z.land_spec, Z.ldiff_spec, !Z.lor_spec, Z.bits_0.
    destruct (Z.testbit MT_FLAGS_BATCH_SEND k); [|by rewrite andb_false_r].
    by rewrite orb_true_l, orb_true_r, andb_false_r.
Qed.

End Tally.

(** ** Events *)

Section Events.

Context {S W : Type} {R : XenRing S} {POS : PvmOS W} {OS : MwsOS W}.
Implicit Types s : mws_state S W.

(** The items of a poll response, and the events of the first one that
    names the socket [fd]. *)
Definition pollset_items (bs : list Z) : list mt_pollset_query_item :=
  map (fun i => rsp_pollset_item i bs) (seq 0 (Z.to_nat (rsp_pollset_count bs))).
Definition reported_events (fd : Z) (bs : list Z) : option Z :=
  qi_events <$> head (filter (fun it => qi_sockfd it = fd) (pollset_items bs)).

(** The items fit into the region. *)
Definition items_fit (bs : list Z) : Prop :=
  (sizeof ct_response_base + 4 + Z.to_nat (rsp_pollset_count bs) * sizeof ct_pollset_query_item
   <= RR_SIZE)%nat.

Lemma find_events_eq fd n i bs s :
  (sizeof ct_response_base + 4 + (i + n) * sizeof ct_pollset_query_item <= RR_SIZE)%nat ->
  find_events fd n i bs s =
  Done (qi_events <$> head (filter (fun it => qi_sockfd it = fd)
                              (map (fun k => rsp_pollset_item k bs) (seq i n))), s).
Proof.
  revert i. induction n as [|n IH]; intros i Hfit; [done|]. cbn [find_events].
  rewrite (proj2 (Nat.ltb_ge _ _)) by nia. cbn [seq map]. rewrite filter_cons.
  destruct (Z.eqb_spec (qi_sockfd (rsp_pollset_item i bs)) fd) as [He|He].
  - by rewrite decide_True by done.
  - rewrite decide_False by done. apply IH. lia.
Qed.

(** The socket [h] is there and has the user socket [u], which is there. *)
Definition sock_for (socks : gmap nat mwsocket_instance) (h u : nat) (fd : Z) : Prop :=
  exists x, socks !! h = Some x /\ si_usersock x = u /\ si_remote_fd x = fd /\ is_Some (socks !! u).

Lemma poll_report_eq bs h u fd s :
  items_fit bs -> sock_for (mg_sockinsts (ms_g s)) h u fd ->
  exists s' y, report_events bs h s = Done (tt, s')
  /\ mg_sockinsts (ms_g s') = <[u := y]> (mg_sockinsts (ms_g s))
  /\ (forall x, mg_sockinsts (ms_g s) !! u = Some x ->
        si_usersock y = si_usersock x /\ si_remote_fd y = si_remote_fd x)
  /\ si_poll_events y = default 0 (reported_events fd bs).
Proof.
  intros Hfit (x & Hx & Hu & Hfd & [z Hz]). unfold report_events, bind at 1, get_si. rewrite Hx. cbn [obind].
  unfold bind at 1, upd_si at 1. rewrite Hu, Hz. cbn [obind].
  unfold bind at 1. rewrite find_events_eq by (simpl; exact Hfit). cbn [obind].
  rewrite Hfd. change (map _ (seq 0 _)) with (pollset_items bs). fold (reported_events fd bs).
  destruct (reported_events fd bs) as [ev|].
  - unfold upd_si. simpl. rewrite lookup_insert_eq. do 2 eexists. split; [done|]. simpl.
    rewrite insert_insert_eq. split; [done|]. split; [|done].
    intros x' Hx'. simplify_eq. done.
  - do 2 eexists. split; [done|]. simpl. split; [done|]. split; [|done].
    intros x' Hx'. simplify_eq. done.
Qed.

Lemma sock_for_insert socks h u fd v y :
  sock_for socks h u fd ->
  (forall x, socks !! v = Some x -> si_usersock y = si_usersock x /\ si_remote_fd y = si_remote_fd x) ->
  sock_for (<[v := y]> socks) h u fd.
Proof.
  intros (x & Hx & Hu & Hfd & Hz) Hy. destruct (decide (h = v)) as [->|Hne].
  - exists y. rewrite lookup_insert_eq. destruct (Hy x Hx) as [-> ->].
    rewrite lookup_insert_is_Some'. auto.
  - exists x. rewrite lookup_insert_ne by done. rewrite lookup_insert_is_Some'. auto.
Qed.

Lemma poll_reports_run bs l s :
  items_fit bs ->
  (forall h, h ∈ l -> exists u fd, sock_for (mg_sockinsts (ms_g s)) h u fd) ->
  exists s', poll_reports bs l s = Done (tt, s')
  /\ (forall h u fd, sock_for (mg_sockinsts (ms_g s)) h u fd -> sock_for (mg_sockinsts (ms_g s')) h u fd)
  /\ forall u, (forall h fd, h ∈ l -> ~ sock_for (mg_sockinsts (ms_g s)) h u fd) ->
       mg_sockinsts (ms_g s') !! u = mg_sockinsts (ms_g s) !! u.
Proof.
  intros Hfit. revert s. induction l as [|h l IH]; intros s Hl; [by exists s|].
  destruct (Hl h) as (u & fd & Hs); [by left|].
  destruct (poll_report_eq bs h u fd s Hfit Hs) as (s1 & y & E1 & Hs1 & Hy & _).
  destruct (IH s1) as (s2 & E2 & Hs2 & Hother).
  { intros g Hg. destruct (Hl g) as (v & fd' & Hv); [by right|]. exists v, fd'. rewrite Hs1.
    by apply sock_for_insert. }
  exists s2. cbn [poll_reports]. rewrite (bind_done _ _ _ _ _ E1). split; [exact E2|]. split.
  - intros g v fd' Hg. apply Hs2. rewrite Hs1. by apply sock_for_insert.
  - intros v Hv. assert (v <> u) as Hne by (intros ->; by apply (Hv h fd); [left|]).
    rewrite Hother, Hs1; [by rewrite lookup_insert_ne|].
    intros g fd' Hg Hg'. destruct (Hl g) as (w & fd2 & Hw); [by right|].
    apply (Hv g fd'); [by right|]. destruct Hg' as (x & Hx & Hxu & Hxf & Hlive).
    destruct Hw as (x2 & Hx2 & _). exists x2. rewrite Hs1 in Hx, Hlive.
    rewrite lookup_insert_ne in Hlive by done. destruct (decide (g = u)) as [->|Hgu].
    + rewrite lookup_insert_eq in Hx. injection Hx as <-. destruct (Hy x2 Hx2) as [Q1 Q2].
      rewrite <- Q1, <- Q2. done.
    + rewrite lookup_insert_ne in Hx by done. split_and!; congruence.
Qed.

Lemma poll_reports_app bs l1 l2 s :
  poll_reports bs (l1 ++ l2) s = (poll_reports bs l1 ;;; poll_reports bs l2) s.
Proof.
  revert s. induction l1 as [|h l1 IH]; intros s; [done|]. cbn [poll_reports app].
  unfold bind in *. destruct (report_events bs h s) as [[[] s1]| | |]; cbn [obind]; auto.
Qed.

(** (C29) The events a user socket has after a response of the monitor are
    those of the last socket in the list that belongs to it, if this
    response names it, and none otherwise: whatever the sockets before it
    had, and whatever the responses before this one reported, is lost. *)
Theorem last_sibling_sets_events bs l1 h l2 u fd s :
  items_fit bs ->
  (forall g, g ∈ l1 ++ h :: l2 -> exists v fd', sock_for (mg_sockinsts (ms_g s)) g v fd') ->
  sock_for (mg_sockinsts (ms_g s)) h u fd ->
  (forall g fd', g ∈ l2 -> ~ sock_for (mg_sockinsts (ms_g s)) g u fd') ->
  exists s' x, poll_reports bs (l1 ++ h :: l2) s = Done (tt, s')
  /\ mg_sockinsts (ms_g s') !! u = Some x
  /\ si_poll_events x = default 0 (reported_events fd bs).
Proof.
  intros Hfit Hl Hh Hl2.
  destruct (poll_reports_run bs l1 s Hfit) as (s1 & E1 & Hs1 & _).
  { intros g Hg. apply Hl. set_solver. }
  destruct (poll_report_eq bs h u fd s1 Hfit (Hs1 h u fd Hh)) as (s2 & y & E2 & Hs2 & Hy & Hev).
  assert (forall g v fd', sock_for (mg_sockinsts (ms_g s)) g v fd' ->
            sock_for (mg_sockinsts (ms_g s2)) g v fd') as Hkeep.
  { intros g v fd' Hg. rewrite Hs2. apply sock_for_insert; [by apply Hs1|done]. }
  destruct (poll_reports_run bs l2 s2 Hfit) as (s3 & E3 & _ & Hother).
  { intros g Hg. destruct (Hl g) as (v & fd' & Hv); [set_solver|]. eauto. }
  exists s3, y. split_and!; [| |done].
  - rewrite poll_reports_app. rewrite (bind_done _ _ _ _ _ E1). cbn [poll_reports].
    by rewrite (bind_done _ _ _ _ _ E2).
  - rewrite Hother; [by rewrite Hs2, lookup_insert_eq|].
    intros g fd' Hg Hg'. destruct (Hl g) as (v & fd2 & Hv); [set_solver|].
    pose proof (Hkeep _ _ _ Hv) as Hv'.
    assert (v = u) as -> by (destruct Hg' as (? & ? & ? & _), Hv' as (? & ? & ? & _); congruence).
    by apply (Hl2 g fd2).
Qed.

End Events.

(** ** Witnesses *)

Definition send_response (flags count : Z) : list Z :=
  response_bytes (request_type_code MtRequestSocketSend) 1 (MT_RESPONSE_BASE_SIZE + 6)
    (MW_SOCKET_CREATE 7 1) 0 flags (le_bytes 4 0 ++ le_bytes 2 count).

Lemma batch_reports_total_witness :
  exists bs s', (tally_batch 0 [send_response MT_FLAGS_BATCH_SEND 60000; send_response MT_FLAGS_BATCH_SEND 5000] ;;;
                 tally_send 0 (send_response (Z.lor MT_FLAGS_BATCH_SEND MT_FLAGS_BATCH_SEND_FINI) 1000))
                (with_globals one_socket) = Done (bs, s')
  /\ rsp_send_count bs = 66000 - 65536.
Proof.
  destruct (batch_reports_total 0 user_sock
    [send_response MT_FLAGS_BATCH_SEND 60000; send_response MT_FLAGS_BATCH_SEND 5000]
    (send_response (Z.lor MT_FLAGS_BATCH_SEND MT_FLAGS_BATCH_SEND_FINI) 1000) (with_globals one_socket))
    as (bs & s' & E & Hc & _).
  - by vm_compute.
  - by vm_compute.
  - repeat constructor; by vm_compute.
  - split; by vm_compute.
  - apply Nat.leb_le. by vm_compute.
  - by vm_compute.
  - exists bs, s'. split; [exact E|]. rewrite Hc. by vm_compute.
Defined.

(** The sockets 0 and 1 of one user socket; the response names both. *)
Definition sibling_of_first : mwsocket_instance :=
  set_si_usersock 0 (set_si_remote_fd (MW_SOCKET_CREATE 7 2) (init_sockinst 1 1)).
Definition two_sockets : mwsocket_globals :=
  set_mg_sockinsts {[ 0%nat := user_sock; 1%nat := sibling_of_first ]}
 (set_mg_sockinst_list [1; 0]%nat one_socket).
Definition poll_response : list Z :=
  response_bytes (request_type_code MtRequestPollsetQuery) 1 (MT_RESPONSE_BASE_SIZE + 16) 0 0 0
    (le_bytes 4 1 ++ le_bytes 8 (MW_SOCKET_CREATE 7 2) ++ le_bytes 4 POLLIN).

(** Only the sibling has an event; the user socket ends without. *)
Lemma last_sibling_sets_events_witness :
  reported_events (MW_SOCKET_CREATE 7 2) poll_response = Some POLLIN /\
  exists s' x, poll_reports poll_response [1; 0]%nat (with_globals two_sockets) = Done (tt, s')
  /\ mg_sockinsts (ms_g s') !! 0%nat = Some x /\ si_poll_events x = 0.
Proof.
  split; [by vm_compute|].
  assert (sock_for (mg_sockinsts two_sockets) 0 0 (MW_SOCKET_CREATE 7 1)) as H0.
  { exists user_sock. split_and!; [by vm_compute..|]. by eexists. }
  destruct (last_sibling_sets_events poll_response [1%nat] 0 [] 0 (MW_SOCKET_CREATE 7 1)
              (with_globals two_sockets)) as (s' & x & E & Hx & Hev).
  - apply Nat.leb_le. by vm_compute.
  - intros g [->|[->|[]%elem_of_nil]%elem_of_cons]%elem_of_cons; [|eauto].
    exists 0%nat, (MW_SOCKET_CREATE 7 2), sibling_of_first. split_and!; [by vm_compute..|]. by eexists.
  - exact H0.
  - intros g fd' []%elem_of_nil.
  - exists s', x. split_and!; [exact E|exact Hx|]. rewrite Hev. by vm_compute.
Defined.
