(* ===== verification/MwsErrors.v ===== *)
(** * MwsErrors: what goes wrong, and what the user sees of it *)

From stdpp Require Import base numbers list gmap.
From Stdlib Require Import ZArith Lia.
From S2P Require Import Prelude MwSocket MessageTypes XenRing PvmXen Threads MwsState MwsRequest MwsResponse MwsFile MwsTables MwsWalk MwsInvariant MwsDelivery MwsSamples MwsRoundTrip.
Import LinuxErrno.

Section Errors.

Context {S W : Type} {R : XenRing S} {POS : PvmOS W} {OS : MwsOS W}.
Context (ring_fuel : nat).
Implicit Types s : mws_state S W.

(** ** Options *)

(** An option that is asked for (modify is false) never comes back: in
    every interleaving, whatever the INS answers, the call copies nothing
    to the user. *)
Theorem getting_an_option_returns_nothing f attributes attrib :
  wa_modify attrib = false ->
  returns_all (fun '(rc, out) => out = None) (mwsocket_ioctl (S := S) (W := W) ring_fuel f attributes attrib).
Proof.
  intros Hm. unfold mwsocket_ioctl.
  apply (returns_all_bind _ (fun _ => True)); [apply returns_all_true|]. intros [rc [h|]] _; [|done].
  destruct attributes; [|done]. cbn [negb].
  apply (returns_all_bind _ (fun _ => True)); [apply returns_all_true|]. intros rc1 _.
  destruct (truth rc1); [done|].
  apply (returns_all_bind _ (fun '(_, attr) => wa_modify attr = false)).
  2:{ intros [rc2 attr] Hattr. destruct (truth rc2); [done|]. by rewrite Hattr. }
  unfold mwsocket_handle_attrib.
  apply (returns_all_bind _ (fun _ => True)); [apply returns_all_true|]. intros [rc3 [g|]] _; [|done].
  apply (returns_all_bind _ (fun _ => True)); [apply returns_all_true|]. intros [rc4 [a|]] _; [|done].
  apply (returns_all_bind _ (fun _ => True)); [apply returns_all_true|]. intros _ _.
  apply (returns_all_bind _ (fun _ => True)); [apply returns_all_true|]. intros rc5 _.
  destruct (truth rc5).
  - apply (returns_all_bind _ (fun _ => True)); [apply returns_all_true|]. done.
  - apply (returns_all_bind _ (fun _ => True)); [apply returns_all_true|]. intros rc6 _.
    apply returns_all_lift. intros [rc7 attr] (x & _ & Hx)%possible_bind.
    apply possible_bind in Hx as (u & _ & Hx). apply possible_ret in Hx. rewrite Hm in Hx.
    destruct (rc6 =? 0); [|destruct (_ <? 0)]; by injection Hx as -> ->.
Qed.

(** ** The semaphore of requests *)

Lemma down_request_ok h x s :
  mg_sockinsts (ms_g s) !! h = Some x -> 0 < si_request_sem x ->
  exists s', down_request h s = Done (0, s')
  /\ mg_sockinsts (ms_g s') !! h = Some (set_si_request_sem (si_request_sem x - 1) x).
Proof.
  intros Hx Hp. unfold down_request, down_interruptible, bind, get_si. rewrite Hx. cbn [obind].
  rewrite (proj2 (Z.ltb_lt _ _)) by done. unfold upd_si. rewrite Hx. cbn [obind ret].
  eexists. split; [done|]. simpl. apply lookup_insert_eq.
Qed.

(** A read that nobody expects fails, and nevertheless releases the
    semaphore that keeps the requests of a socket apart: after it, two
    writers pass. *)
Theorem unexpected_read_releases_semaphore f h x Len s :
  mg_files (ms_g s) !! f = Some h -> mg_sockinsts (ms_g s) !! h = Some x ->
  si_file x = Some f -> si_state_valid x = true -> si_read_expected x = false ->
  si_request_sem x = 1 ->
  exists s', alone (mwsocket_read f Len) s = Done ((- EINVAL, None), s')
  /\ mg_sockinsts (ms_g s') !! h = Some (set_si_request_sem 2 x)
  /\ exists s2, (let* r1 := down_request h in let* r2 := down_request h in ret (r1, r2)) s'
       = Done ((0, 0), s2).
Proof.
  intros Hf Hx Hfile Hv Hr Hsem. unfold mwsocket_read.
  assert (mwsocket_find_sockinst f s = Done ((0, Some h), s)) as E1.
  { unfold mwsocket_find_sockinst, get_mg, gets, bind. cbn [obind]. rewrite Hf. unfold get_si.
    rewrite Hx. cbn [obind]. rewrite Hfile. by rewrite bool_decide_true. }
  rewrite (bind_alone_lift _ _ _ _ _ E1). cbn beta iota.
  assert (get_si h s = Done (x, s)) as E2 by (unfold get_si; by rewrite Hx).
  rewrite (bind_alone_lift _ _ _ _ _ E2). cbn beta iota. rewrite Hv, Hr. cbn [andb negb].
  eexists. split; [|split].
  - simpl. unfold read_exit. cbn [fst]. change (- EINVAL =? - EINTR) with false. cbn [negb when].
    unfold bind, mwsocket_destroy_active_request, up_request, upd_si. cbn [ret obind]. rewrite Hx. done.
  - simpl. by rewrite lookup_insert_eq, Hsem.
  - destruct (down_request_ok h (set_si_request_sem 2 x)
                (set_ms_g (set_mg_sockinsts (<[h:=set_si_request_sem (si_request_sem x + 1) x]>
                             (mg_sockinsts (ms_g s))) (ms_g s)) s)) as (s2 & E3 & Hs2).
    + simpl. by rewrite lookup_insert_eq, Hsem.
    + done.
    + destruct (down_request_ok h _ s2 Hs2) as (s3 & E4 & _); [done|]. exists s3.
      rewrite (bind_done _ _ _ _ _ E3). by rewrite (bind_done _ _ _ _ _ E4).
Qed.

(** ** Refused by the INS *)

Lemma oscall_run c s r w :
  mws_os_call c (pv_world (ms_pvm s)) = (r, w) ->
  oscall c s = Done (r, set_ms_pvm (set_pv_world w (ms_pvm s)) (set_ms_trace (ms_trace s ++ [c]) s)).
Proof. intros E. unfold oscall. by rewrite E. Qed.

(** The INS refuses a new socket with the status [st]. The ioctl that
    creates sockets then returns the positive number [- st] and no
    descriptor; a caller that tests for a negative code takes this for a
    success. The socket stays, with the reference nobody will give back. *)
Theorem refused_create_is_positive s h a y z :
  mg_active_requests (ms_g s) !! a = Some y -> ar_sockinst y = h -> 0 < ar_arrived y ->
  mg_sockinsts (ms_g s) !! h = Some z -> 1 < si_refct z ->
  - 2 ^ 31 < rs_status (get_response_base (ar_rr y)) < 0 ->
  (forall w, m_ret (fst (mws_os_call FreedRequestReused w)) = 0) ->
  exists s' z', alone (let! rc := await_message a in lift (finish_create h rc)) s
    = Done ((- rs_status (get_response_base (ar_rr y)), -1), s')
  /\ 0 < - rs_status (get_response_base (ar_rr y))
  /\ mg_active_requests (ms_g s') = delete a (mg_active_requests (ms_g s))
  /\ mg_sockinsts (ms_g s') !! h = Some z' /\ si_refct z' = si_refct z - 1.
Proof.
  intros Hy Hh Harr Hz Hr Hst Hos. set (st := rs_status (get_response_base (ar_rr y))) in *.
  set (y1 := set_ar_arrived (ar_arrived y - 1) y).
  set (s1 := set_ms_g (set_mg_active_requests (<[a := y1]> (mg_active_requests (ms_g s))) (ms_g s)) s).
  assert (wait_arrived_interruptible_timeout a GENERAL_RESPONSE_TIMEOUT s = Done (1, s1)) as E1.
  { unfold wait_arrived_interruptible_timeout, bind, get_ar, upd_ar. rewrite Hy. cbn [obind].
    rewrite (proj2 (Z.ltb_lt _ _)) by done. rewrite Hy. done. }
  assert (mg_active_requests (ms_g s1) !! a = Some y1) as Hy1 by apply lookup_insert_eq.
  destruct (destroy_ok a y1 z s1 Hy1) as (s2 & z2 & E2 & Hp2 & Hq2 & _ & Hs2 & Hz2); [by rewrite <- Hh in Hz|done|].
  destruct (mws_os_call FreedRequestReused (pv_world (ms_pvm s2))) as [r w] eqn:Eos.
  pose proof (Hos (pv_world (ms_pvm s2))) as Hr0. rewrite Eos in Hr0. simpl in Hr0.
  assert (finish_message a s1 = Done (- st, set_ms_pvm (set_pv_world w (ms_pvm s2))
            (set_ms_trace (ms_trace s2 ++ [FreedRequestReused]) s2))) as E3.
  { unfold finish_message. unfold bind at 1, get_ar. rewrite Hy1. cbn [obind].
    rewrite (bind_done _ _ _ _ _ E2), (bind_done _ _ _ _ _ (oscall_run _ _ _ _ Eos)).
    rewrite Hr0. cbn [truth Z.eqb negb]. change (ar_rr y1) with (ar_rr y). fold st. unfold ret.
    rewrite wraps_small; [done|lia|]. unfold in_s. lia. }
  exists (set_ms_pvm (set_pv_world w (ms_pvm s2)) (set_ms_trace (ms_trace s2 ++ [FreedRequestReused]) s2)), z2.
  split_and!.
  - change (bind (wait_arrived_interruptible_timeout a GENERAL_RESPONSE_TIMEOUT)
              (fun rc => alone (let! rc := (if rc =? 0 then PRet (- ETIME) else if rc <? 0 then PRet rc
                                            else lift (finish_message a)) in lift (finish_create h rc))) s
            = Done ((- st, -1), set_ms_pvm (set_pv_world w (ms_pvm s2))
                      (set_ms_trace (ms_trace s2 ++ [FreedRequestReused]) s2))).
    rewrite (bind_done _ _ _ _ _ E1). change (1 =? 0) with false. change (1 <? 0) with false.
    rewrite (bind_alone_lift _ _ _ _ _ E3). simpl. unfold bind, finish_create, truth.
    rewrite (proj2 (Z.eqb_neq _ _)) by lia. done.
  - lia.
  - change (mg_active_requests (ms_g s2) = delete a (mg_active_requests (ms_g s))).
    rewrite Hq2. unfold s1. simpl. by rewrite delete_insert_eq.
  - change (mg_sockinsts (ms_g s2) !! h = Some z2). rewrite Hs2, <- Hh. apply lookup_insert_eq.
  - by rewrite Hz2.
Qed.

(** ** Accepting *)

Lemma set_pollable_ok h b x s :
  mg_sockinsts (ms_g s) !! h = Some x -> exists s', mwsocket_set_pollable h b s = Done (tt, s').
Proof.
  intros Hx. unfold mwsocket_set_pollable, bind, get_si. rewrite Hx. cbn [obind].
  destruct (Bool.eqb _ _); [by eexists|]. unfold upd_mg, modify, upd_si.
  destruct b; cbn [obind ms_g set_ms_g mg_sockinsts set_mg_poll_sock_count]; rewrite Hx; by eexists.
Qed.

(** The last reference to a user socket is given up. *)
Lemma put_last_ok h x s :
  mg_sockinsts (ms_g s) !! h = Some x -> si_refct x = 1 -> si_usersock x = h ->
  exists s', mwsocket_put_sockinst (Some h) s = Done (tt, s') /\ mg_sockinsts (ms_g s') !! h = None.
Proof.
  intros Hx Hr Hu. unfold mwsocket_put_sockinst. unfold bind at 1, upd_si. rewrite Hx. cbn [obind].
  unfold bind at 1, get_si. cbn [ms_g set_ms_g mg_sockinsts set_mg_sockinsts]. rewrite lookup_insert_eq.
  cbn [obind si_refct set_si_refct]. rewrite Hr. change (truth (1 - 1)) with false. cbn iota.
  unfold del_sockinst, upd_mg. unfold bind at 1, modify. cbn [obind].
  unfold bind at 1, del_sibling. unfold bind at 1, get_si.
  cbn [ms_g set_ms_g mg_sockinsts set_mg_sockinsts set_mg_sockinst_count set_mg_sockinst_list].
  rewrite lookup_insert_eq. cbn [obind si_usersock set_si_refct]. rewrite Hu.
  unfold bind at 1, get_mg, gets. cbn [obind ms_g set_ms_g mg_sockinsts set_mg_sockinsts
    set_mg_sockinst_count set_mg_sockinst_list]. rewrite lookup_insert_eq, bool_decide_true by done.
  cbn [negb when obind ret].
  match goal with |- context [bind (mwsocket_set_pollable h false) ?k ?s1] =>
    destruct (set_pollable_ok h false (set_si_refct (1 - 1) x) s1) as (s2 & E2);
      [simpl; by rewrite lookup_insert_eq|];
    rewrite (bind_done _ _ _ _ _ E2) end.
  eexists. split; [done|]. simpl. apply lookup_delete_eq.
Qed.

Lemma replicate_step_skips u needed message x s :
  mg_sockinsts (ms_g s) !! u = Some x -> needed x x = false ->
  alone (replicate_step ring_fuel u u needed message) s = Done (0, s).
Proof.
  intros Hx Hn. unfold replicate_step.
  assert (get_si u s = Done (x, s)) as E by (unfold get_si; by rewrite Hx).
  rewrite !(bind_alone_lift _ _ _ _ _ E). by rewrite Hn.
Qed.


End Errors.

(** ** Witnesses *)

(** A kernel without memory. *)
Definition PoorMws : MwsOS Z := fun c w =>
  match c with
  | KmemCacheAlloc => ({| m_ret := 0; m_val := 0; m_time := timespec_zero |}, w)
  | _ => CalmMws c w
  end.

Lemma getting_an_option_returns_nothing_witness :
  returns_all (fun '(rc, out) => out = None)
    (mwsocket_ioctl (S := simple_ring) (W := Z) 3 3 true
       {| wa_modify := false; wa_name := sockfeat_code MtSockAttribNodelay; wa_val := replicate 16 0 |}).
Proof. apply getting_an_option_returns_nothing. reflexivity. Defined.

Lemma unexpected_read_releases_semaphore_witness :
  exists s', alone (mwsocket_read 3 64) (with_globals one_socket) = Done ((- EINVAL, None), s')
  /\ mg_sockinsts (ms_g s') !! 0%nat = Some (set_si_request_sem 2 user_sock).
Proof.
  destruct (unexpected_read_releases_semaphore 3 0 user_sock 64 (with_globals one_socket)
              eq_refl eq_refl eq_refl eq_refl eq_refl eq_refl) as (s' & E & Hx & _).
  exists s'. split; [exact E|exact Hx].
Defined.

(** The INS refused with 24 (EMFILE) what the request 9 asks. *)
Definition refused_request : mwsocket_active_request :=
  set_ar_arrived 1 (set_ar_rr (response_bytes (request_type_code MtRequestSocketCreate) 1
    MT_RESPONSE_BASE_SIZE 0 (- EMFILE) 0 []) waiting_request).
Definition refused_socket : mwsocket_globals :=
  set_mg_active_requests {[ 9%nat := refused_request ]} (set_mg_active_request_list [9%nat] waiting_socket).

Lemma refused_create_is_positive_witness :
  exists s', alone (let! rc := await_message 9 in lift (finish_create 0 rc)) (with_globals refused_socket)
    = Done ((EMFILE, -1), s').
Proof.
  destruct (refused_create_is_positive (with_globals refused_socket) 0 9 refused_request waiting_sock)
    as (s' & z' & E & _); [by vm_compute..|].
  exists s'. exact E.
Defined.

Definition one_user : mwsocket_globals :=
  set_mg_sockinsts {[ 0%nat := set_si_ins_alive true user_sock ]} one_socket.

