(* ===== verification/MwsDeath.v ===== *)
(** * MwsDeath: the sockets and requests of a dead INS *)

From stdpp Require Import base numbers list gmap.
From Stdlib Require Import ZArith Lia.
From S2P Require Import Prelude MwSocket MessageTypes XenRing PvmXen Threads MwsState MwsRequest MwsResponse MwsFile MwsTables MwsWalk MwsInvariant MwsSamples MwsRoundTrip.
Import LinuxErrno.

(** The failure that stands for a response, as its reader sees it. *)
Lemma get_dead_response b :
  in_u 32 (MT_RESPONSE (rq_type b)) ->
  let r := get_response_base (dead_response b) in
  rs_type r = MT_RESPONSE (rq_type b) /\ rs_size r = MT_RESPONSE_BASE_SIZE
  /\ rs_status r = - ENOENT /\ rs_flags r = 0.
Proof.
  intros Ht. unfold dead_response, put_response_base, get_response_base, fld. cbv zeta.
  rewrite read_write_fields by done. cbn [rs_sig rs_type rs_size rs_id rs_sockfd rs_status rs_flags rs_ts_ins].
  cbn [zip_with response_base_ws nth]. split_and!; [|by vm_compute..].
  by apply wrapu_small.
Qed.

Section Death.

Context {S W : Type} {R : XenRing S} {POS : PvmOS W} {OS : MwsOS W}.
Implicit Types s : mws_state S W.

Lemma waiting_books_get_base h a x y fs g s :
  waiting h a x y fs g s -> get_base a s = Done (get_request_base (ar_rr y), s).
Proof.
  intros Hw. unfold get_base. by rewrite (bind_done _ _ _ _ _ (get_ar_ok _ _ _ _ _ _ _ Hw)).
Qed.

Lemma fail_request_ok h a x y fs g s :
  waiting h a x y fs g s -> si_usersock x = h -> ar_sockinst y = h ->
  in_u 32 (MT_RESPONSE (rq_type (get_request_base (ar_rr y)))) ->
  is_response_type MtRequestSocketAccept (MT_RESPONSE (rq_type (get_request_base (ar_rr y)))) = false ->
  (forall w, m_ret (fst (mws_os_call KmallocGfp w)) <> 0) ->
  exists s', fail_request a s = Done (tt, s')
  /\ waiting h a x (answered (dead_response (get_request_base (ar_rr y))) y) fs g s'.
Proof.
  intros Hw Hu Hy Ht Hna Hos. set (b := get_request_base (ar_rr y)) in *.
  destruct (get_dead_response b Ht) as (Q1 & Q2 & Q3 & Q4). unfold fail_request.
  assert (exists mem s1, os_ret KmallocGfp s = Done (mem, s1) /\ mem <> 0 /\ waiting h a x y fs g s1)
    as (mem & s1 & E1 & Hmem & Hw1).
  { unfold os_ret, oscall, bind. specialize (Hos (pv_world (ms_pvm s))).
    destruct (mws_os_call KmallocGfp _) as [r w]. do 2 eexists. split; [done|]. split; [exact Hos|].
    destruct Hw as [? ? ? ?]. by split. }
  rewrite (bind_done _ _ _ _ _ E1), (proj2 (Z.eqb_neq _ _)) by done.
  rewrite (bind_done _ _ _ _ _ (waiting_books_get_base _ _ _ _ _ _ _ Hw1)). fold b.
  assert (ends_batch (dead_response b) = false) as Heb by (unfold ends_batch; rewrite Q4; apply andb_false_r).
  rewrite <- Q1 in Hna.
  assert (has_flag (rs_flags (get_response_base (dead_response b))) MT_FLAGS_REMOTE_CLOSED = false) as Hrc
    by (by rewrite Q4).
  destruct (waiting_postproc h a x y fs g Hu Hy (dead_response b) Heb Hna Hrc s1 Hw1)
    as (r & s2 & E2 & Hw2 & ->).
  rewrite (bind_done _ _ _ _ _ E2).
  destruct (waiting_emit_netflow h a x y fs g Hy (dead_response b) s2 Hw2) as ([] & s3 & E3 & Hw3 & _).
  rewrite (bind_done _ _ _ _ _ E3).
  destruct (memcpy_step _ _ _ _ _ _ _ MT_RESPONSE_BASE_SIZE (dead_response b) Hw3) as (s4 & E4 & Hw4); [by vm_compute|].
  destruct (waiting_step_request _ _ _ _ _ _ _ (set_ar_response_populated true) Hw4) as (s5 & E5 & Hw5).
  destruct (waiting_step_request _ _ _ _ _ _ _ (fun x => set_ar_arrived (ar_arrived x + 1) x) Hw5) as (s6 & E6 & Hw6).
  exists s6. rewrite (bind_done _ _ _ _ _ E4), (bind_done _ _ _ _ _ E5). split; [exact E6|].
  unfold answered. rewrite Q2. exact Hw6.
Qed.


End Death.

(** ** A listener takes over *)

Definition listening : Z :=
  Z.lor MWSOCKET_FLAG_POLLABLE (Z.lor MWSOCKET_FLAG_BOUND
    (Z.lor MWSOCKET_FLAG_LISTENING MWSOCKET_FLAG_ACCEPT)).

(** A user socket accepts on the INS 8, its sibling on the INS 7; both
    are pollable. Their accepts are the requests 5 and 6. *)
Definition accepting_sock : mwsocket_instance :=
  set_si_sibling_listeners [1%nat] (set_si_blockid 1 (set_si_refct 2
 (set_si_mwflags (Z.lor MWSOCKET_FLAG_USER listening) (set_si_remote_fd (MW_SOCKET_CREATE 8 1) user_sock)))).
Definition sibling_sock : mwsocket_instance :=
  set_si_usersock 0 (set_si_refct 2 (set_si_mwflags listening
 (set_si_remote_fd (MW_SOCKET_CREATE 7 2) (init_sockinst 1 1)))).
Definition accept_of (id : Z) (h : nat) : mwsocket_active_request :=
  set_ar_id id (set_ar_sockinst h (set_ar_deliver_response true
 (set_ar_rr (resize RR_SIZE 0 (accept_bytes (MW_SOCKET_CREATE 8 1) 0)) ar_zero))).
Definition two_listeners : mwsocket_globals :=
  set_mg_poll_sock_count 2 (set_mg_sockinst_count 2
 (set_mg_sockinsts {[ 0%nat := accepting_sock; 1%nat := sibling_sock ]} (set_mg_sockinst_list [1; 0]%nat
 (set_mg_active_requests {[ 5%nat := accept_of 1 0; 6%nat := accept_of 2 1 ]}
 (set_mg_active_request_list [6; 5]%nat one_socket))))).

(** The pollable sockets, counted. *)
Definition pollable_count (g : mwsocket_globals) : nat :=
  size (filter (fun p => has_flag (si_mwflags p.2) MWSOCKET_FLAG_POLLABLE = true) (mg_sockinsts g)).


