(* ===== verification/MwNetflow.v ===== *)
(** * MwNetflow: the network flow channel of the protected VM

    src/protvm/kernel/mwcomms/mwcomms-netflow.c with the formats of
    src/exports/imports/mw_netflow_iface.h: analysis programs connect to a
    TCP port of the driver, receive a record for every operation on a
    socket, and send requests to read or change the features of sockets.

    The state is part of the world of the multiplexer ([nf_world]), next
    to the kernel. The multiplexer reaches it by two calls of its class
    [MwsOS]; [LinkedMws] (MwNetflowServer.v) answers them with the
    functions of this file and passes all others on. A pointer to a channel is the address it has in
    the list of channels. The lock of that list is held for reading while
    requests are served ([nc_readers]); for writing it is held within a
    step only. The text of the peer's address, which only logs show, is
    left out. *)

From stdpp Require Import base numbers list gmap.
From Stdlib Require Import ZArith Lia.
From S2P Require Import Prelude Text MwSocket MessageTypes XenRing PvmXen Threads MwsState MwsRequest MwsResponse MwsFile.
Import LinuxErrno.

Definition SIGINT : Z := 2.
Definition EADDRINUSE : Z := 98.
Definition POLLHUP : Z := 0x0010.
Definition POLLRDHUP : Z := 0x2000.

(** ** Formats *)

(** The bytes of a number in the order of the network, and a number whose
    bytes are swapped. *)
Definition be_bytes (n : nat) (v : Z) : list Z := rev (le_bytes n v).
Definition be_value (bs : list Z) : Z := le_value (rev bs).
Definition swap_bytes (n : nat) (v : Z) : Z := le_value (be_bytes n v).

Definition MW_SIG (x : Z) : Z := Z.lor (Z.shiftl 0xd3 8) x.
Definition MW_MESSAGE_SIG_NETFLOW_INFO : Z := MW_SIG 0x10.
Definition MW_MESSAGE_SIG_FEATURE_REQUEST : Z := MW_SIG 0x20.
Definition MW_MESSAGE_SIG_FEATURE_RESPONSE : Z := MW_SIG 0x2f.

Definition NETFLOW_INFO_ADDR_LEN : nat := 16.

Definition put_endpoint (e : mw_endpoint) : list Z :=
  be_bytes 4 (ep_af e) ++ le_bytes NETFLOW_INFO_ADDR_LEN (ep_addr e) ++ le_bytes 2 (ep_port e).

Definition put_timestamp (t : timespec) : list Z := be_bytes 8 (tv_sec t) ++ be_bytes 8 (tv_nsec t).

(** The descriptor is swapped as a 32-bit number and stored in 64 bits;
    the identifier stays zero. *)
Definition put_netflow_info (nf : mw_netflow_info) : list Z :=
  be_bytes 2 MW_MESSAGE_SIG_NETFLOW_INFO ++ be_bytes 4 0 ++ be_bytes 2 (nf_obs nf)
  ++ put_timestamp (nf_session_start nf) ++ put_timestamp (nf_curr nf)
  ++ le_bytes 8 (swap_bytes 4 (nf_sockfd nf))
  ++ put_endpoint (nf_pvm nf) ++ put_endpoint (nf_remote nf)
  ++ be_bytes 8 (nf_bytes_in nf) ++ be_bytes 8 (nf_bytes_out nf) ++ be_bytes 8 (nf_extra nf).

Definition MW_FEATURE_FLAG_WRITE : Z := 0x1.
Definition MW_FEATURE_FLAG_BY_SOCK : Z := 0x2.

(** The value and the identifier are unions: their bytes. *)
Record mw_feature_request := {
  fq_sig : Z; fq_id : Z; fq_flags : Z; fq_name : Z; fq_val : list Z; fq_ident : list Z
}.
Definition FEATURE_REQUEST_SIZE : Z := 46.

Definition get_feature_request (bs : list Z) : mw_feature_request :=
  {| fq_sig := fld [2; 4; 2; 2]%nat 0 bs; fq_id := fld [2; 4; 2; 2]%nat 1 bs;
     fq_flags := fld [2; 4; 2; 2]%nat 2 bs; fq_name := fld [2; 4; 2; 2]%nat 3 bs;
     fq_val := take 16 (drop 10 bs); fq_ident := take 20 (drop 26 bs) |}.

(** The conversions of a request that was read. Its value is not
    converted; the two lines that should do it convert the response's. *)
Definition ntoh_feature_request (r : mw_feature_request) : mw_feature_request :=
  let flags := swap_bytes 2 (fq_flags r) in
  {| fq_sig := swap_bytes 2 (fq_sig r); fq_id := swap_bytes 4 (fq_id r); fq_flags := flags;
     fq_name := swap_bytes 2 (fq_name r); fq_val := fq_val r;
     fq_ident := if has_flag flags MW_FEATURE_FLAG_BY_SOCK
                 then rev (take 8 (fq_ident r)) ++ drop 8 (fq_ident r)
                 else rev (take 4 (fq_ident r)) ++ drop 4 (fq_ident r) |}.

Definition fq_sockfd (r : mw_feature_request) : Z := s64 (le_value (take 8 (fq_ident r))).
Definition fq_remote_a (r : mw_feature_request) : list Z := drop 4 (fq_ident r).

Record mw_feature_response := { fr_id : Z; fr_status : Z; fr_val : list Z }.
Definition feature_response_zero : mw_feature_response :=
  {| fr_id := 0; fr_status := 0; fr_val := replicate 16 0 |}.
Definition set_fr_v32 (v : Z) (r : mw_feature_response) : mw_feature_response :=
  {| fr_id := fr_id r; fr_status := fr_status r; fr_val := le_bytes 4 v ++ drop 4 (fr_val r) |}.
Definition set_fr_val (v : list Z) (r : mw_feature_response) : mw_feature_response :=
  {| fr_id := fr_id r; fr_status := fr_status r; fr_val := v |}.
Definition set_fr_status (v : Z) (r : mw_feature_response) : mw_feature_response :=
  {| fr_id := fr_id r; fr_status := v; fr_val := fr_val r |}.
Definition set_fr_id (v : Z) (r : mw_feature_response) : mw_feature_response :=
  {| fr_id := v; fr_status := fr_status r; fr_val := fr_val r |}.

(** As it is sent: the value as two 64-bit numbers. *)
Definition put_feature_response (r : mw_feature_response) : list Z :=
  be_bytes 2 MW_MESSAGE_SIG_FEATURE_RESPONSE ++ be_bytes 4 (fr_id r) ++ be_bytes 4 (fr_status r)
  ++ rev (take 8 (fr_val r)) ++ rev (take 8 (drop 8 (fr_val r))).

(** ** The kernel *)

(** A network device: its name and the addresses it has, if any. *)
Record net_device := { nd_name : list Z; nd_ip4 : option (list Z); nd_ip6 : option (list Z) }.

Inductive nf_call : Type :=
| ImportSingleRange (write : bool)
| SockRecvmsg (conn len : Z)
| SockSendmsg (conn : Z) (bytes : list Z)
| NfKmalloc
| NfGetname (sock : Z) (peer : bool)
| SockCreate
| GetPort (sock : Z)
| KernelListen (sock : Z)
| SockAllocFile (sock : Z)
| KernelAccept (sock : Z)
| SockPoll (conn : Z)
| KernelSockShutdown (conn : Z)
| SockRelease (sock : Z)
| NfSleep (jiffies : Z)
| NfWaitExpires (jiffies : Z)
| NfKallsyms
| NfKthreadRun
| RegisterChrdev
| UnregisterChrdev
| ClassCreate
| ClassDestroy
| ClassUnregister
| DeviceCreate
| DeviceDestroy
| NetDevices
| Fget (fd : Z)
| Fput (file : Z)
| NfCopyFromUser
| NfCopyToUser.

(** [n_ret] is the return code, or non-zero for an allocation that
    succeeded; [n_val] a new socket, a port or events; [n_bytes] what was
    received. *)
Record nf_res := { n_ret : Z; n_val : Z; n_bytes : list Z; n_devs : list net_device }.

(** [pISc] prints an address as the format %pISc does. *)
Class ModuleOS (V : Type) := {
  nf_os_call : nf_call -> V -> nf_res * V;
  pISc : sockaddr -> list Z
}.

(** ** State *)

Definition NETFLOW_CH_NONE : Z := 0.
Definition NETFLOW_CH_NO_MONITOR : Z := 1.

Record mwcomms_netflow_channel := { ch_active : bool; ch_id : Z; ch_flags : Z; ch_conn : Z }.
Definition set_ch_active (v : bool) (c : mwcomms_netflow_channel) : mwcomms_netflow_channel :=
  {| ch_active := v; ch_id := ch_id c; ch_flags := ch_flags c; ch_conn := ch_conn c |}.
Definition set_ch_flags (v : Z) (c : mwcomms_netflow_channel) : mwcomms_netflow_channel :=
  {| ch_active := ch_active c; ch_id := ch_id c; ch_flags := v; ch_conn := ch_conn c |}.

Record mwcomms_netflow_state := {
  nc_initialized : bool;
  nc_import_found : bool;
  nc_conn_list : list (nat * mwcomms_netflow_channel);
  nc_readers : Z;
  nc_active_conns : Z;
  nc_conn_ct : Z;
  nc_local_ip : sockaddr;
  nc_listen_port : Z;
  nc_listen_sock : option Z;
  nc_exit_pending : bool;
  nc_listen_thread : bool;
  nc_listen_thread_done : Z;
  nc_next_address : nat
}.

Definition eta_nc (x : mwcomms_netflow_state) : mwcomms_netflow_state :=
  {| nc_initialized := nc_initialized x; nc_import_found := nc_import_found x;
     nc_conn_list := nc_conn_list x; nc_readers := nc_readers x;
     nc_active_conns := nc_active_conns x; nc_conn_ct := nc_conn_ct x;
     nc_local_ip := nc_local_ip x; nc_listen_port := nc_listen_port x;
     nc_listen_sock := nc_listen_sock x; nc_exit_pending := nc_exit_pending x;
     nc_listen_thread := nc_listen_thread x; nc_listen_thread_done := nc_listen_thread_done x;
     nc_next_address := nc_next_address x |}.
Definition set_nc_initialized (v : bool) (x : mwcomms_netflow_state) : mwcomms_netflow_state :=
  ltac:(set_field (eta_nc) (nc_initialized) v x).
Definition set_nc_import_found (v : bool) (x : mwcomms_netflow_state) : mwcomms_netflow_state :=
  ltac:(set_field (eta_nc) (nc_import_found) v x).
Definition set_nc_conn_list (v : list (nat * mwcomms_netflow_channel)) (x : mwcomms_netflow_state) : mwcomms_netflow_state :=
  ltac:(set_field (eta_nc) (nc_conn_list) v x).
Definition set_nc_readers (v : Z) (x : mwcomms_netflow_state) : mwcomms_netflow_state :=
  ltac:(set_field (eta_nc) (nc_readers) v x).
Definition set_nc_active_conns (v : Z) (x : mwcomms_netflow_state) : mwcomms_netflow_state :=
  ltac:(set_field (eta_nc) (nc_active_conns) v x).
Definition set_nc_conn_ct (v : Z) (x : mwcomms_netflow_state) : mwcomms_netflow_state :=
  ltac:(set_field (eta_nc) (nc_conn_ct) v x).
Definition set_nc_local_ip (v : sockaddr) (x : mwcomms_netflow_state) : mwcomms_netflow_state :=
  ltac:(set_field (eta_nc) (nc_local_ip) v x).
Definition set_nc_listen_port (v : Z) (x : mwcomms_netflow_state) : mwcomms_netflow_state :=
  ltac:(set_field (eta_nc) (nc_listen_port) v x).
Definition set_nc_listen_sock (v : option Z) (x : mwcomms_netflow_state) : mwcomms_netflow_state :=
  ltac:(set_field (eta_nc) (nc_listen_sock) v x).
Definition set_nc_exit_pending (v : bool) (x : mwcomms_netflow_state) : mwcomms_netflow_state :=
  ltac:(set_field (eta_nc) (nc_exit_pending) v x).
Definition set_nc_listen_thread (v : bool) (x : mwcomms_netflow_state) : mwcomms_netflow_state :=
  ltac:(set_field (eta_nc) (nc_listen_thread) v x).
Definition set_nc_listen_thread_done (v : Z) (x : mwcomms_netflow_state) : mwcomms_netflow_state :=
  ltac:(set_field (eta_nc) (nc_listen_thread_done) v x).
Definition set_nc_next_address (v : nat) (x : mwcomms_netflow_state) : mwcomms_netflow_state :=
  ltac:(set_field (eta_nc) (nc_next_address) v x).

Definition nc_zero : mwcomms_netflow_state :=
  {| nc_initialized := false; nc_import_found := false; nc_conn_list := []; nc_readers := 0;
     nc_active_conns := 0; nc_conn_ct := 0; nc_local_ip := sockaddr_zero; nc_listen_port := 0;
     nc_listen_sock := None; nc_exit_pending := false; nc_listen_thread := false;
     nc_listen_thread_done := 0; nc_next_address := 0%nat |}.

(** The globals of mwcomms-base.c; [mb_sockets] tells whether
    mwsocket_init() was called. The two domain ids are not used. *)
Record mwcomms_base_globals := {
  mb_dev_major_num : Z;
  mb_dev_class : Z;
  mb_dev_device : Z;
  mb_local_ip : sockaddr;
  mb_user_ct : Z;
  mb_sockets : bool
}.

Definition eta_mb (x : mwcomms_base_globals) : mwcomms_base_globals :=
  {| mb_dev_major_num := mb_dev_major_num x; mb_dev_class := mb_dev_class x;
     mb_dev_device := mb_dev_device x; mb_local_ip := mb_local_ip x; mb_user_ct := mb_user_ct x;
     mb_sockets := mb_sockets x |}.
Definition set_mb_dev_major_num (v : Z) (x : mwcomms_base_globals) : mwcomms_base_globals :=
  ltac:(set_field (eta_mb) (mb_dev_major_num) v x).
Definition set_mb_dev_class (v : Z) (x : mwcomms_base_globals) : mwcomms_base_globals :=
  ltac:(set_field (eta_mb) (mb_dev_class) v x).
Definition set_mb_dev_device (v : Z) (x : mwcomms_base_globals) : mwcomms_base_globals :=
  ltac:(set_field (eta_mb) (mb_dev_device) v x).
Definition set_mb_local_ip (v : sockaddr) (x : mwcomms_base_globals) : mwcomms_base_globals :=
  ltac:(set_field (eta_mb) (mb_local_ip) v x).
Definition set_mb_user_ct (v : Z) (x : mwcomms_base_globals) : mwcomms_base_globals :=
  ltac:(set_field (eta_mb) (mb_user_ct) v x).
Definition set_mb_sockets (v : bool) (x : mwcomms_base_globals) : mwcomms_base_globals :=
  ltac:(set_field (eta_mb) (mb_sockets) v x).

Definition mb_zero : mwcomms_base_globals :=
  {| mb_dev_major_num := 0; mb_dev_class := 0; mb_dev_device := 0; mb_local_ip := sockaddr_zero;
     mb_user_ct := 0; mb_sockets := false |}.

(** The world of the multiplexer: the channel's state, the globals of the
    device, the calls made for both so far, and the kernel. *)
Record nf_world (V : Type) := {
  nw_state : mwcomms_netflow_state;
  nw_base : mwcomms_base_globals;
  nw_trace : list nf_call;
  nw_os : V
}.
Arguments nw_state {V}.
Arguments nw_base {V}.
Arguments nw_trace {V}.
Arguments nw_os {V}.

Definition set_nw_state {V} (v : mwcomms_netflow_state) (w : nf_world V) : nf_world V :=
  {| nw_state := v; nw_base := nw_base w; nw_trace := nw_trace w; nw_os := nw_os w |}.
Definition set_nw_base {V} (v : mwcomms_base_globals) (w : nf_world V) : nf_world V :=
  {| nw_state := nw_state w; nw_base := v; nw_trace := nw_trace w; nw_os := nw_os w |}.
Definition set_nw_os {V} (v : V) (w : nf_world V) : nf_world V :=
  {| nw_state := nw_state w; nw_base := nw_base w; nw_trace := nw_trace w; nw_os := v |}.

(** The entry of a channel. *)
Fixpoint channel_at (a : nat) (l : list (nat * mwcomms_netflow_channel))
    : option mwcomms_netflow_channel :=
  match l with
  | [] => None
  | (b, c) :: rest => if (b =? a)%nat then Some c else channel_at a rest
  end.
Definition change_channel (a : nat) (f : mwcomms_netflow_channel -> mwcomms_netflow_channel)
    (l : list (nat * mwcomms_netflow_channel)) : list (nat * mwcomms_netflow_channel) :=
  map (fun e => if (fst e =? a)%nat then (fst e, f (snd e)) else e) l.

Section Channels.

Context {V : Type} {OS : ModuleOS V}.

Definition nf_m (A : Type) : Type := M (nf_world V) A.

Definition nfcall (c : nf_call) : nf_m nf_res := fun w =>
  let '(r, v) := nf_os_call c (nw_os w) in
  Done (r, {| nw_state := nw_state w; nw_base := nw_base w; nw_trace := nw_trace w ++ [c]; nw_os := v |}).
Definition nf_ret (c : nf_call) : nf_m Z := let* r := nfcall c in ret (n_ret r).

Definition get_nc {A} (f : mwcomms_netflow_state -> A) : nf_m A := gets (fun w => f (nw_state w)).
Definition upd_nc (f : mwcomms_netflow_state -> mwcomms_netflow_state) : nf_m unit :=
  modify (fun w => set_nw_state (f (nw_state w)) w).

(** A channel on the list, or the access is undefined. *)
Definition get_ch (a : nat) : nf_m mwcomms_netflow_channel := fun w =>
  match channel_at a (nc_conn_list (nw_state w)) with Some c => Done (c, w) | None => Undef end.
Definition upd_ch (a : nat) (f : mwcomms_netflow_channel -> mwcomms_netflow_channel) : nf_m unit :=
  upd_nc (fun x => set_nc_conn_list (change_channel a f (nc_conn_list x)) x).

(** down_write() of the list's lock. *)
Definition down_write_conns : nf_m unit :=
  let* n := get_nc nc_readers in if 0 <? n then block else ret tt.
Definition down_read_conns : nf_m unit := upd_nc (fun x => set_nc_readers (nc_readers x + 1) x).
Definition up_read_conns : nf_m unit := upd_nc (fun x => set_nc_readers (nc_readers x - 1) x).

(** ** Reading and writing *)

(** The code, and the message with its length. *)
Definition mw_netflow_read (a : nat) (Len : Z) : nf_m (Z * list Z) :=
  let* rc := nf_ret (ImportSingleRange false) in
  if truth rc then ret (rc, [])
  else
    let* c := get_ch a in
    let* r := nfcall (SockRecvmsg (ch_conn c) Len) in
    let rc := n_ret r in
    if rc =? 0 then upd_ch a (set_ch_active false) ;;; ret (- EPIPE, [])
    else if rc =? - EAGAIN then ret (rc, [])
    else if rc <? 0 then upd_ch a (set_ch_active false) ;;; ret (rc, [])
    else ret (0, take (Z.to_nat rc) (n_bytes r)).

(** A send that took nothing returns 0. *)
Definition mw_netflow_write_one (a : nat) (Message : list Z) : nf_m Z :=
  let* rc := nf_ret (ImportSingleRange true) in
  if truth rc then ret rc
  else
    let* c := get_ch a in
    let* rc := nf_ret (SockSendmsg (ch_conn c) Message) in
    if rc =? Z.of_nat (length Message) then ret 0
    else if 0 <? rc then ret (- EAGAIN)
    else upd_ch a (set_ch_active false) ;;; ret rc.

Fixpoint write_each (l : list nat) (Message : list Z) (rc : Z) : nf_m Z :=
  match l with
  | [] => ret rc
  | a :: rest =>
      let* c := get_ch a in
      if has_flag (ch_flags c) NETFLOW_CH_NO_MONITOR then write_each rest Message rc
      else
        let* rc2 := mw_netflow_write_one a Message in
        write_each rest Message (if truth rc2 then rc2 else rc)
  end.

Definition mw_netflow_write_all (Message : list Z) : nf_m Z :=
  let* l := get_nc nc_conn_list in write_each (map fst l) Message 0.

(** [formatted] is the text without bound, whose length vsnprintf() returns
    and which is the length that is sent from the buffer of 128 bytes. *)
Definition mw_netflow_write_msg (formatted : list Z) : nf_m Z :=
  let buf := snprintf 128 formatted in
  if 128 <? Z.of_nat (length formatted) then undef
  else mw_netflow_write_all (take (length formatted) (buf ++ replicate (128 - length buf) 0)).

Definition mw_netflow_consumer_exists : nf_m bool :=
  let* n := get_nc nc_active_conns in ret (0 <? n).

(** ** Connections *)

(** A channel that fails on the way stays counted. *)
Definition mw_netflow_add_conn (AcceptedSock : Z) : nf_m Z :=
  let* mem := nf_ret NfKmalloc in
  if mem =? 0 then ret (- ENOMEM)
  else
    upd_nc (fun x => set_nc_active_conns (s32 (nc_active_conns x + 1))
                       (set_nc_conn_ct (s32 (nc_conn_ct x + 1)) x)) ;;;
    let* id := get_nc nc_conn_ct in
    let* rc := nf_ret (NfGetname AcceptedSock true) in
    if truth rc then ret rc
    else
      down_write_conns ;;;
      upd_nc (fun x =>
        let c := {| ch_active := true; ch_id := id; ch_flags := NETFLOW_CH_NONE;
                    ch_conn := AcceptedSock |} in
        set_nc_conn_list ((nc_next_address x, c) :: nc_conn_list x)
          (set_nc_next_address (S (nc_next_address x)) x)) ;;;
      ret 0.

(** Both ends of the sockets of dead channels are closed. *)
Fixpoint drop_dead (l : list (nat * mwcomms_netflow_channel)) : nf_m unit :=
  match l with
  | [] => ret tt
  | (a, c) :: rest =>
      when (negb (ch_active c))
        (nfcall (KernelSockShutdown (ch_conn c)) ;;; nfcall (SockRelease (ch_conn c)) ;;;
         upd_nc (fun x => set_nc_active_conns (s32 (nc_active_conns x - 1))
                            (set_nc_conn_list (filter (fun e => fst e <> a) (nc_conn_list x)) x))) ;;;
      drop_dead rest
  end.

Definition purge_conns : nf_m unit :=
  down_write_conns ;;; let* l := get_nc nc_conn_list in drop_dead l.

Definition LISTENER_KILL_TIMEOUT (hz : Z) : Z := hz * 2.
Definition LISTENER_MONITOR_INTERVAL (hz : Z) : Z := hz / 2.

(** kernel_accept(): the code and the new socket. *)
Definition accept_conn : nf_m (Z * Z) :=
  let* sock := get_nc nc_listen_sock in
  match sock with
  | None => undef
  | Some sock => let* r := nfcall (KernelAccept sock) in ret (n_ret r, n_val r)
  end.

(** What the poll of one channel shows: is there a request to read? *)
Definition poll_conn (a : nat) : nf_m bool :=
  let* c := get_ch a in
  let* r := nfcall (SockPoll (ch_conn c)) in
  if has_flag (n_val r) (Z.lor POLLHUP POLLRDHUP) then upd_ch a (set_ch_active false) ;;; ret false
  else ret (has_flag (n_val r) POLLIN).

(** ** End *)

Fixpoint release_conns (l : list (nat * mwcomms_netflow_channel)) : nf_m unit :=
  match l with
  | [] => ret tt
  | (_, c) :: rest =>
      when (ch_active c) (nfcall (SockRelease (ch_conn c)) ;;; ret tt) ;;; release_conns rest
  end.

(** wait_for_completion_timeout() *)
Definition wait_listener (jiffies : Z) : nf_m unit :=
  let* n := get_nc nc_listen_thread_done in
  if 0 <? n then upd_nc (set_nc_listen_thread_done (n - 1))
  else
    let* r := nf_ret (NfWaitExpires jiffies) in
    if truth r then ret tt else block.

(** The port is still set after the socket was released and forgotten. *)
Definition release_all_conns : nf_m unit :=
  down_write_conns ;;;
  let* l := get_nc nc_conn_list in
  release_conns l ;;;
  upd_nc (set_nc_conn_list []) ;;;
  let* port := get_nc nc_listen_port in
  let* sock := get_nc nc_listen_sock in
  when (truth port)
    (match sock with
     | None => undef
     | Some sock => nfcall (SockRelease sock) ;;; upd_nc (set_nc_listen_sock None)
     end).

End Channels.
