(* ===== verification/MwNetflowServer.v ===== *)
(** * MwNetflowServer: the listener of the network flow channel, linked

    mwcomms-netflow.c: feature requests, the listening thread, start and
    end. They call the multiplexer and the Xen interface, and so run on
    the state of the multiplexer, whose world is an [nf_world]: the two
    components are linked in both directions. The thread is given the
    number of its passes and of the requests it reads in one. *)

From stdpp Require Import base numbers list gmap strings.
From Stdlib Require Import ZArith Lia.
From S2P Require Import Prelude Text MwSocket MessageTypes XenRing PvmXen Threads MwsState MwsRequest MwsResponse MwsFile MwNetflow.
Import LinuxErrno.

Section Server.

Context {S V : Type} {R : XenRing S} {POS : PvmOS V} {OS : MwsOS V} {MOS : ModuleOS V}.
Context (ring_fuel : nat).

(** ** The linked system *)

Definition LinkedPvm : PvmOS (nf_world V) := {|
  pvm_os_call := fun c w => let '(r, v) := pvm_os_call c (nw_os w) in (r, set_nw_os v w);
  kstrtoint := kstrtoint (W := V);
  simple_strtol := simple_strtol (W := V);
  HZ := HZ (W := V);
  DOMID_INVALID := DOMID_INVALID (W := V);
  EVTCHNSTAT_closed := EVTCHNSTAT_closed (W := V)
|}.

(** The result of a function of the channel, as the multiplexer sees it. *)
Definition answer (o : outcome (Z * nf_world V)) (w : nf_world V) : mws_res * nf_world V :=
  match o with
  | Done (rc, w') => ({| m_ret := rc; m_val := 0; m_time := timespec_zero |}, w')
  | _ => ({| m_ret := 0; m_val := 0; m_time := timespec_zero |}, w)
  end.

Definition LinkedMws : MwsOS (nf_world V) := fun c w =>
  match c with
  | MwNetflowConsumerExists =>
      answer ((let* b := mw_netflow_consumer_exists in ret (Z.b2z b)) w) w
  | MwNetflowWriteAll info => answer (mw_netflow_write_all (put_netflow_info info) w) w
  | _ => let '(r, v) := mws_os_call c (nw_os w) in (r, set_nw_os v w)
  end.

#[local] Existing Instance LinkedPvm.
#[local] Existing Instance LinkedMws.

#[local] Abbreviation mws_m := (mws_m (S := S) (W := nf_world V)).
#[local] Abbreviation mws_p := (mws_p (S := S) (W := nf_world V)).

(** A function of the channel. *)
Definition nf {A} (m : nf_m (V := V) A) : mws_m A := fun s =>
  obind (m (pv_world (ms_pvm s))) (fun '(a, w) =>
    Done (a, set_ms_pvm (set_pv_world w (ms_pvm s)) s)).

(** ** Feature requests *)

Definition v32_true : mw_feature_response := set_fr_v32 1 feature_response_zero.

(** The exit: the code, and in the response the code it leaves there. *)
Definition feat_exit (rc : Z) (Response : mw_feature_response) : Z * mw_feature_response :=
  (rc, if truth rc && (fr_status Response =? 0) then set_fr_status (u32 rc) Response else Response).

(** A request that the INS answers. *)
Definition send_feat_req (Request : mw_feature_request) (modify : bool)
    : mws_p (Z * mw_feature_response) :=
  let! (rc, mtres) := mwsocket_send_bare_request ring_fuel
    (attrib_bytes (fq_sockfd Request) modify (fq_name Request) (fq_val Request))
    MT_RESPONSE_SOCKET_ATTRIB_SIZE in
  let Response := feature_response_zero in
  PRet (feat_exit rc
    match mtres with
    | Some bs =>
        if negb modify && (rc =? 0)
        then set_fr_val (rsp_attrib_val
               (bs ++ replicate (Z.to_nat MT_RESPONSE_SOCKET_ATTRIB_SIZE - length bs) 0)) Response
        else Response
    | None => Response
    end).

Definition mw_netflow_process_feat_req (Request : mw_feature_request) (Channel : nat)
    : mws_p (Z * mw_feature_response) :=
  let modify := has_flag (fq_flags Request) MW_FEATURE_FLAG_WRITE in
  match sockfeat_of (fq_name Request) with
  | Some MtChannelTrafficMonitorOn =>
      lift (nf (upd_ch Channel (fun c => set_ch_flags (clear_flag NETFLOW_CH_NO_MONITOR (ch_flags c)) c))) ;!;
      PRet (feat_exit 0 v32_true)
  | Some MtChannelTrafficMonitorOff =>
      lift (nf (upd_ch Channel (fun c => set_ch_flags (set_flag NETFLOW_CH_NO_MONITOR (ch_flags c)) c))) ;!;
      PRet (feat_exit 0 v32_true)
  | Some MtSockAttribOwnerRunning =>
      let! rc := (if modify
                  then lift (mwsocket_signal_owner_by_remote_fd (fq_sockfd Request) SIGINT)
                  else PRet 0) in
      PRet (feat_exit rc v32_true)
  | Some MtSockAttribIsOpen =>
      let! rc := (if modify then mwsocket_close_by_remote_fd ring_fuel (fq_sockfd Request) true
                  else PRet 0) in
      PRet (feat_exit rc v32_true)
  | Some MtSockAttribSndTimeo | Some MtSockAttribRcvTimeo | Some MtSockAttribSndBuf
  | Some MtSockAttribRcvBuf | Some MtSockAttribSndLoWat | Some MtSockAttribRcvLoWat
  | Some MtSockAttribGlobalCongctl | Some MtSockAttribGlobalDelackTicks =>
      send_feat_req Request modify
  | Some MtSockAttribAddrBlock =>
      let v64 := be_value (take 8 (fq_val Request)) in
      let! rc := for_each_live_ins (fun Domid =>
        mwsocket_block_ip_mitigation ring_fuel Domid (u32 v64) (fq_remote_a Request)) in
      PRet (feat_exit rc feature_response_zero)
  | _ => PRet (feat_exit (- EINVAL) feature_response_zero)
  end.

(** At most [n] requests; a channel with more of them stops here. *)
Fixpoint mw_netflow_handle_feat_req (n : nat) (Channel : nat) : mws_p Z :=
  match n with
  | O => lift out_of_fuel
  | Datatypes.S n' =>
      let! (rc, bytes) := lift (nf (mw_netflow_read Channel FEATURE_REQUEST_SIZE)) in
      if truth rc || negb (Z.of_nat (length bytes) =? FEATURE_REQUEST_SIZE) then PRet rc
      else
        let req := ntoh_feature_request (get_feature_request bytes) in
        let! (rc, res) := mw_netflow_process_feat_req req Channel in
        let! rc := lift (nf (mw_netflow_write_one Channel
                               (put_feature_response (set_fr_id (fq_id req) res)))) in
        if truth rc then PRet rc else mw_netflow_handle_feat_req n' Channel
  end.

(** ** The listening thread *)

(** Up to the poll of the connections: does the thread go on? *)
Definition monitor_accept : nf_m (V := V) bool :=
  let* exiting := get_nc nc_exit_pending in
  if exiting then ret false
  else
    let* (rc, newsock) := accept_conn in
    if rc =? 0 then let* rc := mw_netflow_add_conn newsock in ret (rc =? 0)
    else ret (rc =? - EAGAIN).

Fixpoint serve_each (n : nat) (l : list nat) : mws_p unit :=
  match l with
  | [] => PRet tt
  | a :: rest =>
      let! readable := lift (nf (poll_conn a)) in
      pwhen readable (mw_netflow_handle_feat_req n a ;!; PRet tt) ;!;
      serve_each n rest
  end.

Fixpoint mw_netflow_monitor (n : nat) : mws_p unit :=
  match n with
  | O => lift out_of_fuel
  | Datatypes.S n' =>
      let! go_on := lift (nf monitor_accept) in
      if negb go_on then
        lift (nf (upd_nc (fun x => set_nc_listen_thread_done (nc_listen_thread_done x + 1) x)))
      else
        let! l := lift (nf (down_read_conns ;;; let* l := get_nc nc_conn_list in ret (map fst l))) in
        serve_each n l ;!;
        lift (nf up_read_conns) ;!;
        lift (nf purge_conns) ;!;
        lift (nf (nf_ret (NfSleep (LISTENER_MONITOR_INTERVAL (HZ (W := V)))) ;;; ret tt)) ;!;
        mw_netflow_monitor n'
  end.

(** ** Start and end *)

Definition mw_netflow_fini : mws_p unit :=
  let! initialized := lift (nf (get_nc nc_initialized)) in
  if negb initialized then PRet tt
  else
    let! thread := lift (nf (upd_nc (set_nc_exit_pending true) ;;; get_nc nc_listen_thread)) in
    pwhen thread (lift (nf (wait_listener (LISTENER_KILL_TIMEOUT (HZ (W := V)))))) ;!;
    lift (nf release_all_conns).

(** What is published: at most 31 characters. *)
Definition listen_text (local_ip : sockaddr) (port : Z) : list Z :=
  snprintf 32
    (if negb (sa_family local_ip =? AF_INET) && negb (sa_family local_ip =? AF_INET6)
     then text "PVM's IP not found!"%string
     else pISc local_ip ++ [58] ++ dec_text (u16 port)).

Definition SERVER_NETFLOW_PORT_KEY : list Z := text "netflow"%string.

(** One call after the other, up to the first that fails. *)
Definition or_fail {A} (rc : Z) (k : nf_m (V := V) (Z + A)) : nf_m (Z + A) :=
  if truth rc then ret (inl rc) else k.

(** The listening socket, up to the text to publish. *)
Definition open_listen_sock : nf_m (V := V) (Z + list Z) :=
  let* r := nfcall SockCreate in
  or_fail (n_ret r)
    (upd_nc (set_nc_listen_sock (Some (n_val r))) ;;;
     let sock := n_val r in
     let* p := nfcall (GetPort sock) in
     if truth (n_ret p) then ret (inl (- EAGAIN))
     else
       let port := u16 (n_val p) in
       upd_nc (set_nc_listen_port port) ;;;
       let* rc := nf_ret (KernelListen sock) in
       or_fail rc
         (let* rc := nf_ret (NfGetname sock false) in
          or_fail rc
            (let* local_ip := get_nc nc_local_ip in
             let* file := nf_ret (SockAllocFile sock) in
             if file =? 0 then ret (inl (- ENOMEM)) else ret (inr (listen_text local_ip port))))).

Definition mw_netflow_init_listen_port : mws_m Z :=
  let* r := nf open_listen_sock in
  match r with
  | inl rc => ret rc
  | inr listenstr => xen (mw_xen_write_to_key XENEVENT_XENSTORE_PVM SERVER_NETFLOW_PORT_KEY listenstr)
  end.

(** bzero() and the fields set first; addresses go on where they were. *)
Definition nc_reset (LocalIp : sockaddr) (x : mwcomms_netflow_state) : mwcomms_netflow_state :=
  set_nc_initialized true (set_nc_local_ip LocalIp (set_nc_next_address (nc_next_address x) nc_zero)).

(** The thread runs [mw_netflow_monitor]. An error pointer from
    kthread_run() is not null. *)
Definition netflow_start (LocalIp : sockaddr) : mws_m Z :=
  nf (upd_nc (nc_reset LocalIp)) ;;;
  let* found := nf (nf_ret NfKallsyms) in
  nf (upd_nc (set_nc_import_found (truth found))) ;;;
  if found =? 0 then ret (- ENXIO)
  else
    let* rc := mw_netflow_init_listen_port in
    if truth rc then ret rc
    else
      let* thread := nf (nf_ret NfKthreadRun) in
      nf (upd_nc (set_nc_listen_thread (truth thread))) ;;;
      ret (if thread =? 0 then - ESRCH else 0).

Definition mw_netflow_init (LocalIp : sockaddr) : mws_p Z :=
  let! rc := lift (netflow_start LocalIp) in
  pwhen (truth rc) mw_netflow_fini ;!;
  PRet rc.

End Server.
