(* ===== verification/MwNetflowSamples.v ===== *)
(** * MwNetflowSamples: a concrete kernel and channels for the witnesses *)

From stdpp Require Import base numbers list gmap strings.
From Stdlib Require Import ZArith Lia.
From S2P Require Import Prelude Text MwSocket MessageTypes XenRing PvmXen Threads MwsState MwsRequest MwsResponse MwsFile MwsSamples MwNetflow MwNetflowServer.
Import LinuxErrno.

(** Every call succeeds, sends take everything, no connection and no
    request comes, and eth0 has one address. The world is the clock. *)
#[export] Instance CalmModule : ModuleOS Z := {|
  nf_os_call := fun c w =>
    let ok r v := {| n_ret := r; n_val := v; n_bytes := []; n_devs := [] |} in
    match c with
    | SockSendmsg _ bytes => (ok (Z.of_nat (length bytes)) 0, w)
    | SockRecvmsg _ _ | KernelAccept _ => (ok (- EAGAIN) 0, w)
    | NfKmalloc | SockAllocFile _ | NfKallsyms | NfKthreadRun | ClassCreate | DeviceCreate => (ok 1 0, w)
    | SockCreate => (ok 0 50, w)
    | GetPort _ => (ok 0 4000, w)
    | RegisterChrdev => (ok 240 0, w)
    | Fget _ => (ok 1 3, w)
    | NfSleep j => (ok 0 0, w + j)
    | NetDevices =>
        ({| n_ret := 0; n_val := 0; n_bytes := [];
            n_devs := [{| nd_name := text "lo"%string; nd_ip4 := Some [0x0100007f]; nd_ip6 := None |};
                       {| nd_name := text "eth0"%string; nd_ip4 := Some [0x0100000a]; nd_ip6 := None |}] |}, w)
    | _ => (ok 0 0, w)
    end;
  pISc := fun _ => text "10.0.0.1"%string
|}.

(** Two programs are connected, at the sockets 70 and 71; the second one
    turned the records off. *)
Definition first_channel : mwcomms_netflow_channel :=
  {| ch_active := true; ch_id := 1; ch_flags := NETFLOW_CH_NONE; ch_conn := 70 |}.
Definition second_channel : mwcomms_netflow_channel :=
  {| ch_active := true; ch_id := 2; ch_flags := NETFLOW_CH_NO_MONITOR; ch_conn := 71 |}.
Definition two_channels : mwcomms_netflow_state :=
  set_nc_conn_list [(1%nat, second_channel); (0%nat, first_channel)]
 (set_nc_next_address 2 (set_nc_active_conns 2 (set_nc_conn_ct 2
 (set_nc_listen_sock (Some 50) (set_nc_listen_port 4000 (set_nc_initialized true nc_zero)))))).

Definition module_world (x : mwcomms_netflow_state) : nf_world Z :=
  {| nw_state := x; nw_base := mb_zero; nw_trace := []; nw_os := 1000 |}.
Definition module_state (x : mwcomms_netflow_state) (g : mwsocket_globals)
    : mws_state simple_ring (nf_world Z) :=
  {| ms_pvm := {| pv_g := pv_g ready_pvm; pv_world := module_world x; pv_trace := [] |};
     ms_g := g; ms_trace := [] |}.

(** A program asks to close the socket that a record names. *)
Definition sample_record : mw_netflow_info :=
  {| nf_obs := 1; nf_session_start := timespec_zero; nf_curr := timespec_zero;
     nf_sockfd := u32 (MW_SOCKET_CREATE 7 1);
     nf_pvm := {| ep_af := 4; ep_port := 80; ep_addr := 1 |};
     nf_remote := {| ep_af := 4; ep_port := 81; ep_addr := 2 |};
     nf_bytes_in := 3; nf_bytes_out := 4; nf_extra := 0 |}.
Definition feature_request_bytes (flags name : Z) (val ident : list Z) : list Z :=
  be_bytes 2 MW_MESSAGE_SIG_FEATURE_REQUEST ++ be_bytes 4 1 ++ be_bytes 2 flags ++ be_bytes 2 name
  ++ val ++ ident.
Definition close_recorded : list Z :=
  feature_request_bytes (Z.lor MW_FEATURE_FLAG_WRITE MW_FEATURE_FLAG_BY_SOCK)
    (sockfeat_code MtSockAttribIsOpen) (replicate 16 0)
    (take 8 (drop 40 (put_netflow_info sample_record)) ++ replicate 12 0).
