(* ===== verification/MwNetflowFacts.v ===== *)
(** * MwNetflowFacts: the records of the network flow channel

    What an analysis program reads in a record, who receives the record,
    and what becomes of a request that names a socket the way the record
    does. *)

From stdpp Require Import base numbers list gmap.
From Stdlib Require Import ZArith Lia.
From S2P Require Import Prelude MwSocket MessageTypes XenRing PvmXen Threads MwsState MwsRequest MwsResponse MwsFile MwsTables MwsSamples MwNetflow MwNetflowServer MwNetflowSamples.
Import LinuxErrno.

(** ** Numbers in the order of the network *)

Lemma length_be_bytes n v : length (be_bytes n v) = n.
Proof. unfold be_bytes. by rewrite length_rev, length_le_bytes. Qed.

Lemma be_value_bytes n v : be_value (be_bytes n v) = wrapu (8 * Z.of_nat n) v.
Proof. unfold be_value, be_bytes. by rewrite rev_involutive, le_value_bytes. Qed.

Lemma le_bytes_are_bytes n v : Forall (in_u 8) (le_bytes n v).
Proof.
  revert v. induction n; intros v; cbn [le_bytes]; constructor; [|done].
  unfold in_u. change (2 ^ 8) with 256. apply Z.mod_pos_bound. lia.
Qed.

Lemma le_bytes_value bs n :
  Forall (in_u 8) bs -> le_bytes (length bs + n) (le_value bs) = bs ++ replicate n 0.
Proof.
  induction 1 as [|b bs Hb Hbs IH].
  - simpl. induction n as [|n IHn]; [done|]. cbn [le_bytes replicate]. change (0 / 256) with 0.
    by rewrite IHn.
  - cbn [length le_value Nat.add le_bytes app]. rewrite (wrapu_small 8 b Hb).
    unfold in_u in Hb. rewrite Z.mul_comm, Z.mod_add, Z.div_add by lia.
    rewrite Z.mod_small, Z.div_small by (change (2 ^ 8) with 256 in *; lia).
    by rewrite Z.add_0_l, IH.
Qed.

Lemma le_value_app xs ys : le_value (xs ++ ys) = le_value xs + 256 ^ Z.of_nat (length xs) * le_value ys.
Proof.
  induction xs as [|x xs IH]; [change (256 ^ Z.of_nat (length [])) with 1; simpl; lia|].
  cbn [app le_value length]. rewrite IH, Nat2Z.inj_succ, Z.pow_succ_r by lia. lia.
Qed.

(** A 32-bit number that was swapped into 64 bits reads as its 2^32-fold. *)
Lemma swapped_descriptor v : be_value (le_bytes 8 (swap_bytes 4 v)) = u32 v * 2 ^ 32.
Proof.
  unfold swap_bytes, be_value.
  replace 8%nat with (length (be_bytes 4 v) + 4)%nat by (by rewrite length_be_bytes).
  rewrite le_bytes_value by (apply Forall_rev, le_bytes_are_bytes).
  unfold be_bytes. rewrite rev_app_distr, rev_involutive. change (rev (replicate 4 0)) with [0; 0; 0; 0].
  rewrite le_value_app, le_value_bytes. change (le_value [0; 0; 0; 0]) with 0.
  change (8 * Z.of_nat 4) with 32. change (256 ^ Z.of_nat (length [0; 0; 0; 0])) with (2 ^ 32). lia.
Qed.

(** ** The record, as it is read *)

(** The bytes of consecutive fields. *)
Fixpoint chunks (ws : list nat) (bs : list Z) : list (list Z) :=
  match ws with
  | [] => []
  | w :: rest => take w bs :: chunks rest (drop w bs)
  end.

Lemma chunks_concat ps tail : chunks (map length ps) (concat ps ++ tail) = ps.
Proof.
  induction ps as [|p ps IH]; [done|]. cbn [map concat chunks].
  rewrite <- app_assoc, take_app_length, drop_app_length. by f_equal.
Qed.

(** The widths of a record, from its signature on. *)
Definition netflow_info_ws : list nat := [2; 4; 2; 8; 8; 8; 8; 8; 4; 16; 2; 4; 16; 2; 8; 8; 8]%nat.
Definition netflow_info_size : nat := sum_list netflow_info_ws.

(** All numbers are read in the order of the network, the addresses as
    they are. *)
Definition get_netflow_info (bs : list Z) : Z * mw_netflow_info :=
  let c := chunks netflow_info_ws bs in
  let be i := be_value (nth i c []) in
  let raw i := le_value (nth i c []) in
  (be 0%nat,
   {| nf_obs := be 2%nat;
      nf_session_start := {| tv_sec := be 3%nat; tv_nsec := be 4%nat |};
      nf_curr := {| tv_sec := be 5%nat; tv_nsec := be 6%nat |};
      nf_sockfd := be 7%nat;
      nf_pvm := {| ep_af := be 8%nat; ep_port := raw 10%nat; ep_addr := raw 9%nat |};
      nf_remote := {| ep_af := be 11%nat; ep_port := raw 13%nat; ep_addr := raw 12%nat |};
      nf_bytes_in := be 14%nat; nf_bytes_out := be 15%nat; nf_extra := be 16%nat |}).

Definition netflow_pieces (nf : mw_netflow_info) : list (list Z) :=
  [be_bytes 2 MW_MESSAGE_SIG_NETFLOW_INFO; be_bytes 4 0; be_bytes 2 (nf_obs nf);
   be_bytes 8 (tv_sec (nf_session_start nf)); be_bytes 8 (tv_nsec (nf_session_start nf));
   be_bytes 8 (tv_sec (nf_curr nf)); be_bytes 8 (tv_nsec (nf_curr nf));
   le_bytes 8 (swap_bytes 4 (nf_sockfd nf));
   be_bytes 4 (ep_af (nf_pvm nf)); le_bytes 16 (ep_addr (nf_pvm nf)); le_bytes 2 (ep_port (nf_pvm nf));
   be_bytes 4 (ep_af (nf_remote nf)); le_bytes 16 (ep_addr (nf_remote nf));
   le_bytes 2 (ep_port (nf_remote nf));
   be_bytes 8 (nf_bytes_in nf); be_bytes 8 (nf_bytes_out nf); be_bytes 8 (nf_extra nf)].

Lemma put_netflow_pieces nf : put_netflow_info nf = concat (netflow_pieces nf).
Proof.
  unfold put_netflow_info, netflow_pieces, put_timestamp, put_endpoint, NETFLOW_INFO_ADDR_LEN.
  cbn [concat]. by rewrite <- !app_assoc, app_nil_r.
Qed.

Lemma netflow_piece_lengths nf : map length (netflow_pieces nf) = netflow_info_ws.
Proof. cbn [netflow_pieces map]. by rewrite !length_be_bytes, !length_le_bytes. Qed.

Definition endpoint_ok (e : mw_endpoint) : Prop :=
  in_u 32 (ep_af e) /\ in_u 128 (ep_addr e) /\ in_u 16 (ep_port e).
Definition timestamp_ok (t : timespec) : Prop := in_u 64 (tv_sec t) /\ in_u 64 (tv_nsec t).

(** The fields have their widths; the descriptor may have any. *)
Definition netflow_ok (nf : mw_netflow_info) : Prop :=
  in_u 16 (nf_obs nf) /\ timestamp_ok (nf_session_start nf) /\ timestamp_ok (nf_curr nf)
  /\ endpoint_ok (nf_pvm nf) /\ endpoint_ok (nf_remote nf)
  /\ in_u 64 (nf_bytes_in nf) /\ in_u 64 (nf_bytes_out nf) /\ in_u 64 (nf_extra nf).

Definition with_sockfd (fd : Z) (nf : mw_netflow_info) : mw_netflow_info :=
  {| nf_obs := nf_obs nf; nf_session_start := nf_session_start nf; nf_curr := nf_curr nf;
     nf_sockfd := fd; nf_pvm := nf_pvm nf; nf_remote := nf_remote nf;
     nf_bytes_in := nf_bytes_in nf; nf_bytes_out := nf_bytes_out nf; nf_extra := nf_extra nf |}.

(** A record has 116 bytes, and an analysis program that reads it in the
    order of the network finds every field as it was, except the
    descriptor: of its 64 bits only the low 32 are there, in the upper
    half of the field. *)
Theorem netflow_record_roundtrip nf tail :
  netflow_ok nf ->
  length (put_netflow_info nf) = 116%nat
  /\ get_netflow_info (put_netflow_info nf ++ tail)
     = (MW_MESSAGE_SIG_NETFLOW_INFO, with_sockfd (u32 (nf_sockfd nf) * 2 ^ 32) nf).
Proof.
  intros (Ho & [Hs1 Hs2] & [Hc1 Hc2] & (Hp1 & Hp2 & Hp3) & (Hr1 & Hr2 & Hr3) & Hi & Hout & He).
  rewrite put_netflow_pieces. split.
  - by rewrite length_concat, netflow_piece_lengths.
  - unfold get_netflow_info. rewrite <- (netflow_piece_lengths nf), chunks_concat.
    cbn [netflow_pieces nth]. rewrite !be_value_bytes, !le_value_bytes, swapped_descriptor.
    destruct nf as [o [s1 s2] [c1 c2] fd [p1 p2 p3] [r1 r2 r3] i out e]. simpl in *.
    generalize (u32 fd) as low. intros low. by rewrite !wrapu_small by first [assumption|done].
Qed.

(** ** Sockets named as the record names them *)

(** The requests about one socket. *)
Definition about_socket (n : mt_sockfeat_name) : Prop :=
  n ∈ [MtSockAttribIsOpen; MtSockAttribOwnerRunning; MtSockAttribSndBuf; MtSockAttribRcvBuf;
       MtSockAttribSndTimeo; MtSockAttribRcvTimeo; MtSockAttribSndLoWat; MtSockAttribRcvLoWat].

Definition proper_fd (fd : Z) : Prop := fd = MT_INVALID_SOCKET_FD \/ MW_SOCKET_IS_FD fd = true.

Lemma not_proper v : 0 <= v < 2 ^ 56 -> forall fd, proper_fd fd -> fd <> v.
Proof.
  intros Hv fd [->|Hfd] E; [unfold MT_INVALID_SOCKET_FD in E; lia|].
  subst fd. unfold MW_SOCKET_IS_FD in Hfd. apply Z.eqb_eq in Hfd.
  rewrite Z.shiftr_div_pow2, (wrapu_small 64) in Hfd by (unfold MW_SOCKET_PREFIX_SHIFT, in_u; lia).
  unfold MW_SOCKET_PREFIX_SHIFT, MW_SOCKET_PREFIX in Hfd. rewrite Z.div_small in Hfd by lia. lia.
Qed.

(** The descriptor in a request whose bytes are those of a record. *)
Lemma requested_descriptor bytes nf :
  let req := ntoh_feature_request (get_feature_request bytes) in
  take 8 (drop 26 bytes) = take 8 (drop 40 (put_netflow_info nf)) ->
  has_flag (fq_flags req) MW_FEATURE_FLAG_BY_SOCK = true ->
  fq_sockfd req = s64 (u32 (nf_sockfd nf) * 2 ^ 32).
Proof.
  intros req Hb Hf. unfold fq_sockfd, req, ntoh_feature_request in *.
  cbn [fq_ident fq_flags get_feature_request] in *. rewrite Hf, !take_take. change (8 `min` 20)%nat with 8%nat.
  assert (take 8 (drop 40 (put_netflow_info nf)) = le_bytes 8 (swap_bytes 4 (nf_sockfd nf))) as E.
  { pose proof (f_equal (fun c => nth 7 c []) (chunks_concat (netflow_pieces nf) [])) as E.
    rewrite netflow_piece_lengths, app_nil_r, <- put_netflow_pieces in E.
    cbn [chunks netflow_info_ws nth netflow_pieces] in E. by rewrite !drop_drop in E. }
  rewrite Hb, E, take_app_length' by (by rewrite length_rev, length_le_bytes).
  f_equal. apply swapped_descriptor.
Qed.

Section Refused.

Context {S V : Type} {R : XenRing S} {POS : PvmOS V} {OS : MwsOS V} {MOS : ModuleOS V}.
Context (ring_fuel : nat).
Implicit Types s : mws_state S (nf_world V).

#[local] Existing Instance LinkedPvm.
#[local] Existing Instance LinkedMws.

Definition proper_sockets s : Prop :=
  Forall (fun h => exists x, mg_sockinsts (ms_g s) !! h = Some x /\ proper_fd (si_remote_fd x))
         (mg_sockinst_list (ms_g s)).

Lemma find_none (fd : Z) s l :
  0 <= fd < 2 ^ 56 ->
  Forall (fun h => exists x, mg_sockinsts (ms_g s) !! h = Some x /\ proper_fd (si_remote_fd x)) l ->
  find_remote_fd l fd s = Done (None, s).
Proof.
  intros Hfd. induction 1 as [|h l (x & Hx & Hp) Hl IH]; [done|]. cbn [find_remote_fd].
  unfold bind, get_si. rewrite Hx. cbn [obind].
  by rewrite (proj2 (Z.eqb_neq _ _) (not_proper fd Hfd _ Hp)).
Qed.

Lemma lookup_none (fd : Z) s :
  0 <= fd < 2 ^ 56 -> proper_sockets s ->
  mwsocket_find_sockinst_by_remote_fd fd s = Done ((- EBADF, None), s).
Proof.
  intros Hfd Hs. unfold mwsocket_find_sockinst_by_remote_fd, bind, get_mg, gets. cbn [obind].
  by rewrite (find_none fd s _ Hfd Hs).
Qed.

Lemma alone_lookup_none (fd : Z) s :
  0 <= fd < 2 ^ 56 -> proper_sockets s ->
  alone (lift (mwsocket_find_sockinst_by_remote_fd fd)) s = Done ((- EBADF, None), s).
Proof. rewrite alone_lift. apply lookup_none. Qed.

Lemma bare_request_refused (fd : Z) modify name val s :
  0 <= fd < 2 ^ 56 -> in_u 16 name -> proper_sockets s ->
  alone (mwsocket_send_bare_request ring_fuel (attrib_bytes fd modify name val)
           MT_RESPONSE_SOCKET_ATTRIB_SIZE) s = Done ((- EBADF, None), s).
Proof.
  intros Hfd Hn Hs. unfold mwsocket_send_bare_request, attrib_bytes, request_bytes.
  rewrite <- app_assoc, get_put_request_base by
    (split_and!; cbn; [by vm_compute|by vm_compute|by vm_compute|by vm_compute| |by vm_compute];
     unfold in_s; lia).
  cbn [rq_size rq_sockfd].
  change (ONE_REQUEST_REGION_SIZE <? MT_REQUEST_SOCKET_ATTRIB_SIZE) with false. cbn iota.
  by rewrite (alone_run _ _ _ _ _ (alone_lookup_none fd s Hfd Hs)).
Qed.

Lemma sockfeat_of_range n name : sockfeat_of name = Some n -> in_u 16 name.
Proof.
  unfold sockfeat_of. intros E. apply head_Some_elem_of in E.
  apply list_elem_of_filter in E as [<- _]. destruct n; vm_compute; split; congruence.
Qed.


End Refused.

(** ** Who receives a record *)

Definition sends (calls : list nf_call) : list (Z * list Z) :=
  omap (fun c => match c with SockSendmsg conn bytes => Some (conn, bytes) | _ => None end) calls.

(** What a send leaves of the channels: they may become inactive only. *)
Definition routes (l : list (nat * mwcomms_netflow_channel)) : list (nat * (Z * Z)) :=
  map (fun e => (fst e, (ch_flags (snd e), ch_conn (snd e)))) l.

Definition monitors (x : mwcomms_netflow_state) : list mwcomms_netflow_channel :=
  filter (fun c => has_flag (ch_flags c) NETFLOW_CH_NO_MONITOR = false) (map snd (nc_conn_list x)).

Lemma routes_inactive a l : routes (change_channel a (set_ch_active false) l) = routes l.
Proof.
  unfold routes, change_channel. rewrite map_map. apply map_ext. intros [b c]. simpl.
  by destruct (b =? a)%nat.
Qed.

(** The channel at an address is the one whose route is listed there. *)
Lemma channel_at_routes l l' a f k :
  routes l' = routes l -> NoDup (map fst l) -> (a, (f, k)) ∈ routes l ->
  exists c, channel_at a l' = Some c /\ ch_flags c = f /\ ch_conn c = k.
Proof.
  revert l'. induction l as [|[b c] l IH]; intros [|[b' c'] l'] E Hnd Hin; try discriminate.
  - by apply elem_of_nil in Hin.
  - cbn [routes map fst snd] in E. injection E as -> Ef Ek E. cbn [map fst] in Hnd.
    apply NoDup_cons in Hnd as [Hb Hnd]. cbn [channel_at].
    apply elem_of_cons in Hin as [[= -> -> ->]|Hin]; [rewrite Nat.eqb_refl; eauto|].
    destruct (Nat.eqb_spec b a) as [->|Hne]; [|by apply IH].
    destruct Hb. unfold routes in Hin. apply list_elem_of_fmap in Hin as ([a' c2] & [= -> _ _] & Hin).
    by apply (list_elem_of_fmap_2 fst l (a', c2)).
Qed.

Section Traffic.

Context {S V : Type} {R : XenRing S} {POS : PvmOS V} {OS : MwsOS V} {MOS : ModuleOS V}.
Implicit Types s : mws_state S (nf_world V).

(** import_single_range() accepts the buffers of the driver. *)
Hypothesis import_ok : forall v : V, n_ret (fst (nf_os_call (ImportSingleRange true) v)) = 0.

#[local] Existing Instance LinkedPvm.
#[local] Existing Instance LinkedMws.

(** One send: the channel may become inactive. *)
Lemma write_one_sends a c msg (w : nf_world V) :
  channel_at a (nc_conn_list (nw_state w)) = Some c ->
  exists rc w', mw_netflow_write_one a msg w = Done (rc, w')
  /\ routes (nc_conn_list (nw_state w')) = routes (nc_conn_list (nw_state w))
  /\ sends (nw_trace w') = sends (nw_trace w) ++ [(ch_conn c, msg)].
Proof.
  intros Hc. unfold mw_netflow_write_one, nf_ret, nfcall, bind at 1 2.
  pose proof (import_ok (nw_os w)) as Hi. destruct (nf_os_call _ (nw_os w)) as [r v]. simpl in Hi.
  cbn [obind ret nw_state]. rewrite Hi. cbn [truth Z.eqb negb]. unfold bind at 1, get_ch. cbn [nw_state].
  rewrite Hc. cbn [obind]. unfold bind at 1 2. cbn [nw_os].
  destruct (nf_os_call (SockSendmsg (ch_conn c) msg) v) as [r2 v2]. cbn [obind ret].
  assert (sends ((nw_trace w ++ [ImportSingleRange true]) ++ [SockSendmsg (ch_conn c) msg])
          = sends (nw_trace w) ++ [(ch_conn c, msg)]) as Ht.
  { unfold sends. rewrite !omap_app. simpl. by rewrite app_nil_r. }
  destruct (n_ret r2 =? Z.of_nat (length msg)); [by do 2 eexists|].
  destruct (0 <? n_ret r2); [by do 2 eexists|]. do 2 eexists. split; [done|]. split; [|done].
  apply routes_inactive.
Qed.

Definition route_sends (msg : list Z) (l : list (nat * (Z * Z))) : list (Z * list Z) :=
  map (fun e => (snd (snd e), msg))
      (filter (fun e => has_flag (fst (snd e)) NETFLOW_CH_NO_MONITOR = false) l).

Lemma write_each_sends l0 msg l rc (w : nf_world V) :
  NoDup (map fst l0) -> routes (nc_conn_list (nw_state w)) = routes l0 ->
  (forall e, e ∈ l -> e ∈ routes l0) ->
  exists rc' w', write_each (map fst l) msg rc w = Done (rc', w')
  /\ sends (nw_trace w') = sends (nw_trace w) ++ route_sends msg l.
Proof.
  intros Hnd. revert rc w. induction l as [|[a [f k]] l IH]; intros rc w Hr Hl.
  - do 2 eexists. split; [done|]. by rewrite app_nil_r.
  - destruct (channel_at_routes l0 _ a f k Hr Hnd (Hl _ (list_elem_of_here _ _))) as (c & Hc & Hf & Hk).
    cbn [map write_each fst]. unfold bind at 1, get_ch. rewrite Hc. cbn [obind]. rewrite Hf.
    unfold route_sends. rewrite filter_cons. cbn [fst snd].
    assert (forall e, e ∈ l -> e ∈ routes l0) as Hl' by (intros e He; apply Hl; by right).
    destruct (has_flag f NETFLOW_CH_NO_MONITOR); [by apply IH|].
    destruct (write_one_sends a c msg w Hc) as (rc2 & w1 & E & Hr1 & Ht1).
    rewrite (bind_done _ _ _ _ _ E).
    destruct (IH (if truth rc2 then rc2 else rc) w1) as (rc' & w2 & E2 & Ht2); [by rewrite Hr1|done|].
    exists rc', w2. split; [done|]. rewrite Ht2, Ht1, <- app_assoc, decide_True by done.
    cbn [map snd]. by rewrite Hk.
Qed.

Lemma route_sends_monitors msg x :
  route_sends msg (routes (nc_conn_list x)) = map (fun c => (ch_conn c, msg)) (monitors x).
Proof.
  unfold route_sends, monitors. generalize (nc_conn_list x) as l.
  induction l as [|[a c] l IH]; [done|]. cbn [routes map fst snd]. rewrite !filter_cons. cbn [fst snd].
  destruct (decide (has_flag (ch_flags c) NETFLOW_CH_NO_MONITOR = false)); cbn [map snd]; [f_equal|]; exact IH.
Qed.

Lemma write_all_sends msg (w : nf_world V) :
  NoDup (map fst (nc_conn_list (nw_state w))) ->
  exists rc w', mw_netflow_write_all msg w = Done (rc, w')
  /\ sends (nw_trace w')
     = sends (nw_trace w) ++ map (fun c => (ch_conn c, msg)) (monitors (nw_state w)).
Proof.
  intros Hnd. unfold mw_netflow_write_all, bind, get_nc, gets. cbn [obind].
  destruct (write_each_sends (nc_conn_list (nw_state w)) msg (routes (nc_conn_list (nw_state w))) 0 w
              Hnd eq_refl) as (rc & w' & E & Ht); [done|].
  exists rc, w'. rewrite <- route_sends_monitors. split; [|done].
  rewrite <- E. f_equal. unfold routes. by rewrite map_map.
Qed.

(** The other calls into the kernel leave the module's state alone. *)
Definition module_same s s' : Prop :=
  ms_g s' = ms_g s
  /\ nw_state (pv_world (ms_pvm s')) = nw_state (pv_world (ms_pvm s))
  /\ nw_trace (pv_world (ms_pvm s')) = nw_trace (pv_world (ms_pvm s)).

Lemma module_same_trans s1 s2 s3 : module_same s1 s2 -> module_same s2 s3 -> module_same s1 s3.
Proof. intros (?&?&?) (?&?&?). split_and!; congruence. Qed.

Lemma kernel_call c s :
  match c with MwNetflowConsumerExists | MwNetflowWriteAll _ => False | _ => True end ->
  exists r s', oscall c s = Done (r, s') /\ module_same s s'.
Proof.
  intros Hc. unfold oscall, mws_os_call, LinkedMws.
  destruct c; try contradiction;
    (destruct (mws_os_call _ (nw_os (pv_world (ms_pvm s)))) as [r v]; by do 2 eexists).
Qed.

Lemma consumer_call s :
  exists s', os_ret MwNetflowConsumerExists s
             = Done (Z.b2z (0 <? nc_active_conns (nw_state (pv_world (ms_pvm s)))), s')
  /\ module_same s s'.
Proof. by eexists. Qed.

Lemma write_all_call info s :
  NoDup (map fst (nc_conn_list (nw_state (pv_world (ms_pvm s))))) ->
  exists r s', os_ret (MwNetflowWriteAll info) s = Done (r, s') /\ ms_g s' = ms_g s
  /\ sends (nw_trace (pv_world (ms_pvm s')))
     = sends (nw_trace (pv_world (ms_pvm s)))
       ++ map (fun c => (ch_conn c, put_netflow_info info)) (monitors (nw_state (pv_world (ms_pvm s)))).
Proof.
  intros Hnd. destruct (write_all_sends (put_netflow_info info) _ Hnd) as (rc & w & Ew & Hw).
  unfold os_ret, bind, oscall. unfold mws_os_call at 1, LinkedMws at 1. rewrite Ew. cbn [answer obind].
  by do 2 eexists.
Qed.

Lemma populate_ip addr s :
  exists e s', mwsocket_populate_netflow_ip addr s = Done (e, s') /\ module_same s s'.
Proof.
  unfold mwsocket_populate_netflow_ip.
  destruct (sa_family addr =? AF_INET); [by do 2 eexists|].
  destruct (sa_family addr =? AF_INET6); [|by do 2 eexists].
  destruct (kernel_call ReadPastSockaddr s I) as (r & s' & E & H).
  rewrite (bind_done _ _ _ _ _ E). by do 2 eexists.
Qed.

(** The fields of the record of an observation of the socket [y]. *)
Definition record_of (y : mwsocket_instance) (obs extra : Z) (nf : mw_netflow_info) : Prop :=
  nf_obs nf = obs /\ nf_extra nf = extra /\ nf_session_start nf = si_est_time y
  /\ nf_sockfd nf = u32 (si_remote_fd y)
  /\ nf_bytes_in nf = si_tot_recv y /\ nf_bytes_out nf = si_tot_sent y.

Lemma populate_record a obs extra x y s :
  mg_active_requests (ms_g s) !! a = Some x -> mg_sockinsts (ms_g s) !! ar_sockinst x = Some y ->
  exists nf s', mwsocket_populate_netflow a obs extra s = Done (nf, s')
  /\ module_same s s' /\ record_of y obs extra nf.
Proof.
  intros Hx Hy. unfold mwsocket_populate_netflow, bind at 1 2, get_ar, get_si.
  rewrite Hx. cbn [obind]. rewrite Hy. cbn [obind].
  destruct (kernel_call GetNsTimeOfDay s I) as (now & s1 & E1 & H1).
  destruct (populate_ip (si_local_bind y) s1) as (e & s2 & E2 & H2).
  destruct (populate_ip (si_peer y) s2) as (e' & s3 & E3 & H3).
  rewrite (bind_done _ _ _ _ _ E1), (bind_done _ _ _ _ _ E2), (bind_done _ _ _ _ _ E3).
  do 2 eexists. split; [done|]. split; [|done].
  eapply module_same_trans; [exact H1|]. by eapply module_same_trans.
Qed.

(** (C30) An operation on a socket that is worth a record: every connected
    analysis program that did not turn records off is sent the same
    record of it, once, in the order of the connections, and no other. *)
Theorem traffic_reaches_monitors a Response obs x y s :
  let st := nw_state (pv_world (ms_pvm s)) in
  0 < nc_active_conns st -> NoDup (map fst (nc_conn_list st)) ->
  netflow_observation (rs_type (get_response_base Response)) = Some obs ->
  mg_active_requests (ms_g s) !! a = Some x -> mg_sockinsts (ms_g s) !! ar_sockinst x = Some y ->
  exists nf s', mwsocket_postproc_emit_netflow a Response s = Done (tt, s')
  /\ record_of y obs (u64 (rs_sockfd (get_response_base Response))) nf
  /\ sends (nw_trace (pv_world (ms_pvm s')))
     = sends (nw_trace (pv_world (ms_pvm s)))
       ++ map (fun c => (ch_conn c, put_netflow_info nf)) (monitors st)
  /\ ms_g s' = ms_g s.
Proof.
  intros st Hact Hnd Hobs Hx Hy. unfold mwsocket_postproc_emit_netflow, os_ret.
  destruct (consumer_call s) as (s1 & E1 & H1). fold st in E1.
  rewrite (proj2 (Z.ltb_lt _ _) Hact) in E1. unfold os_ret in E1.
  rewrite (bind_done _ _ _ _ _ E1). cbn [Z.b2z Z.eqb]. rewrite Hobs.
  destruct (populate_record a obs (u64 (rs_sockfd (get_response_base Response))) x y s1)
    as (nf & s2 & E2 & H2 & Hrec); [by rewrite (proj1 H1)..|].
  rewrite (bind_done _ _ _ _ _ E2).
  pose proof (module_same_trans _ _ _ H1 H2) as (Hg & Hst & Htr).
  set (nf' := if is_response_type _ _ then _ else _).
  assert (record_of y obs (u64 (rs_sockfd (get_response_base Response))) nf') as Hrec'
    by (unfold nf'; by destruct (is_response_type _ _)).
  destruct (write_all_call nf' s2) as (r & s3 & E3 & Hg3 & Ht3); [by rewrite Hst|].
  exists nf', s3. rewrite (bind_done _ _ _ _ _ E3). split; [done|]. split; [done|].
  by rewrite Ht3, Htr, Hst, Hg3.
Qed.

End Traffic.

(** ** Concrete instances *)

Section Instances.

#[local] Existing Instance LinkedPvm.
#[local] Existing Instance LinkedMws.

Lemma netflow_record_roundtrip_witness :
  nf_sockfd sample_record = 1
  /\ get_netflow_info (put_netflow_info sample_record ++ [])
     = (MW_MESSAGE_SIG_NETFLOW_INFO, with_sockfd (2 ^ 32) sample_record).
Proof.
  split; [by vm_compute|].
  refine (proj2 (netflow_record_roundtrip sample_record [] _)). by vm_compute.
Defined.


(** A bind: the first program gets the record, the second one does not. *)
Lemma traffic_reaches_monitors_witness :
  let s := module_state two_channels waiting_socket in
  exists nf s',
    mwsocket_postproc_emit_netflow 9
      (response_bytes (request_type_code MtRequestSocketBind) 1 MT_RESPONSE_BASE_SIZE (MW_SOCKET_CREATE 7 1) 0 0 []) s
    = Done (tt, s')
  /\ nf_obs nf = 2 /\ sends (nw_trace (pv_world (ms_pvm s'))) = [(70, put_netflow_info nf)].
Proof.
  destruct (traffic_reaches_monitors (S := simple_ring) (V := Z) (MOS := CalmModule) (fun _ => eq_refl) 9
              (response_bytes (request_type_code MtRequestSocketBind) 1 MT_RESPONSE_BASE_SIZE (MW_SOCKET_CREATE 7 1) 0 0 [])
              2 waiting_request waiting_sock (module_state two_channels waiting_socket))
    as (nf & s' & E & Hrec & Ht & _);
    [by vm_compute|by apply (bool_decide_unpack _); vm_compute|by vm_compute..|].
  exists nf, s'. split; [exact E|]. split; [exact (proj1 Hrec)|]. exact Ht.
Defined.

End Instances.
