(* ===== verification/MwNetflowThreads.v ===== *)
(** * MwNetflowThreads: the listener of the channel among the other threads

    The multiplexer's calls and threads (MwsThreads), the listening thread
    of the network flow channel, its start and its end interleave. What
    each of their steps does to the channels is shown once, for any
    relation between the states before and after it ([NetflowSteps]). *)

From stdpp Require Import base numbers list gmap relations.
From Stdlib Require Import ZArith Lia.
From S2P Require Import Prelude MwSocket MessageTypes XenRing PvmXen Threads PvmCalls MwsState MwsRequest MwsResponse MwsFile MwsTables MwsWalk MwsWorld MwsInvariant MwsThreads MwsSamples MwNetflow MwNetflowServer MwNetflowSamples.
Import LinuxErrno.

(** ** Steps as relations *)

Definition always {S X} (Rel : S -> S -> Prop) (m : M S X) : Prop :=
  forall s x s', m s = Done (x, s') -> Rel s s'.

Fixpoint prog_always {S A} (Rel : S -> S -> Prop) (p : prog S A) : Prop :=
  match p with
  | PRet _ => True
  | PStep m k => always Rel m /\ forall x, prog_always Rel (k x)
  end.

Lemma prog_always_bind {S A B} (Rel : S -> S -> Prop) (p : prog S A) (f : A -> prog S B) :
  prog_always Rel p -> (forall a, prog_always Rel (f a)) -> prog_always Rel (pbind p f).
Proof.
  intros Hp Hf. induction p as [a|X m k IH]; [apply Hf|]. destruct Hp as [Hm Hk].
  split; [done|]. intros x. apply IH, Hk.
Qed.

Lemma prog_always_lift {S A} (Rel : S -> S -> Prop) (m : M S A) :
  always Rel m -> prog_always Rel (lift m).
Proof. intros H. by split. Qed.

(** Invariants of a family are kept together. *)
Lemma prog_keeps_family {S A J} (I : J -> S -> Prop) (p : prog S A) :
  (forall j, prog_keeps (I j) p) -> prog_always (fun s s' => forall j, I j s -> I j s') p.
Proof.
  induction p as [a|X m k IH]; intros Hp; [done|]. split.
  - intros s x s' E j Hj. exact (proj1 (Hp j) s x s' Hj E).
  - intros x. apply IH. intros j. apply (Hp j).
Qed.

Lemma prog_always_mono {S A} (R1 R2 : S -> S -> Prop) (p : prog S A) :
  (forall s s', R1 s s' -> R2 s s') -> prog_always R1 p -> prog_always R2 p.
Proof.
  intros HR. induction p as [a|X m k IH]; intros Hp; [done|]. destruct Hp as [Hm Hk].
  split; [|auto]. intros s x s' E. eapply HR, Hm, E.
Qed.

(** Every step that a pool takes is related. *)
Lemma pool_always {S A} (env Rel : S -> S -> Prop) (c c1 c2 : pool S A) :
  (forall s s', env s s' -> Rel s s') ->
  Forall (prog_always Rel) (po_threads c) ->
  rtc (pool_step env) c c1 -> pool_step env c1 c2 -> Rel (po_state c1) (po_state c2).
Proof.
  intros Henv Hts Hrun Hstep.
  assert (Forall (prog_always Rel) (po_threads c1)) as Hts1.
  { clear Hstep. induction Hrun as [c|c c' c1 Hs Hrun IH]; [done|]. apply IH.
    destruct Hs as [ts i X m k s x s' Hi E|ts s s' He]; simpl in *; [|done].
    apply Forall_insert; [done|]. apply (Forall_lookup_1 _ _ _ _ Hts Hi). }
  destruct Hstep as [ts i X m k s x s' Hi E|ts s s' He]; simpl in *; [|auto].
  destruct (Forall_lookup_1 _ _ _ _ Hts1 Hi) as [Hm _]. by eapply Hm.
Qed.

Section Linked.

Context {S V : Type} {R : XenRing S} {POS : PvmOS V} {OS : MwsOS V} {MOS : ModuleOS V}.
Context (ring_fuel : nat).

#[local] Existing Instance LinkedPvm.
#[local] Existing Instance LinkedMws.

#[local] Abbreviation state := (mws_state S (nf_world V)).
#[local] Abbreviation mws_p := (mws_p (S := S) (W := nf_world V)).

(** ** What the channel's functions keep

    A property of the channel is [NfStable] when calls, changes of the
    fields but the list, its lock and its addresses, changes of a channel,
    and the three functions that lock the list for writing keep it. *)

Class NfStable (Wp : nf_world V -> Prop) : Prop := {
  ns_os v w : Wp w -> Wp (set_nw_os v w);
  ns_call c : keeps Wp (nfcall c);
  ns_field f :
    (forall x, nc_conn_list (f x) = nc_conn_list x /\ nc_readers (f x) = nc_readers x
               /\ nc_next_address (f x) = nc_next_address x) ->
    keeps Wp (upd_nc f);
  ns_ch a f : keeps Wp (upd_ch a f);
  ns_add sock : keeps Wp (mw_netflow_add_conn sock);
  ns_purge : keeps Wp purge_conns;
  ns_release : keeps Wp release_all_conns
}.

Lemma keeps_get_nc (Wp : nf_world V -> Prop) {A} (f : mwcomms_netflow_state -> A) : keeps Wp (get_nc f).
Proof. apply m_keeps_gets. Qed.
Lemma keeps_get_ch (Wp : nf_world V -> Prop) a : keeps Wp (get_ch a).
Proof. intros w x w' Hw E. unfold get_ch in E. destruct (channel_at _ _); by simplify_eq. Qed.

#[local] Hint Resolve keeps_get_nc keeps_get_ch ns_call ns_ch ns_add ns_purge ns_release : keeps.
#[local] Hint Extern 2 (keeps _ (upd_nc _)) => apply ns_field; intros ?; split_and!; reflexivity : keeps.

Section Functions.

Context (Wp : nf_world V -> Prop) {HW : NfStable Wp}.

Lemma keeps_nf_ret c : keeps Wp (nf_ret c).
Proof. unfold nf_ret. keeps_solve. Qed.
#[local] Hint Resolve keeps_nf_ret : keeps.

Lemma keeps_read a n : keeps Wp (mw_netflow_read a n).
Proof. unfold mw_netflow_read. keeps_solve. Qed.

Lemma keeps_write_one a msg : keeps Wp (mw_netflow_write_one a msg).
Proof. unfold mw_netflow_write_one. keeps_solve. Qed.
#[local] Hint Resolve keeps_write_one : keeps.

Lemma keeps_write_each l msg rc : keeps Wp (write_each l msg rc).
Proof. revert rc. induction l; intros rc; cbn [write_each]; keeps_solve. Qed.
#[local] Hint Resolve keeps_write_each : keeps.

Lemma keeps_write_all msg : keeps Wp (mw_netflow_write_all msg).
Proof. unfold mw_netflow_write_all. keeps_solve. Qed.

Lemma keeps_poll_conn a : keeps Wp (poll_conn a).
Proof. unfold poll_conn. keeps_solve. Qed.

Lemma keeps_accept_conn : keeps Wp accept_conn.
Proof. unfold accept_conn. keeps_solve. Qed.
#[local] Hint Resolve keeps_accept_conn : keeps.

Lemma keeps_monitor_accept : keeps Wp monitor_accept.
Proof. unfold monitor_accept. keeps_solve. Qed.

Lemma keeps_wait_listener j : keeps Wp (wait_listener j).
Proof. unfold wait_listener. keeps_solve. Qed.

Lemma keeps_open_listen_sock : keeps Wp open_listen_sock.
Proof. unfold open_listen_sock, or_fail. keeps_solve. Qed.

(** So do the calls that the multiplexer makes. *)
#[export] Instance world_stable_linked : WorldStable (POS := LinkedPvm) (OS := LinkedMws) Wp.
Proof.
  split; intros c w Hw.
  - unfold mws_os_call, LinkedMws.
    destruct c; try (destruct (mws_os_call _ (nw_os w)); by apply ns_os); [done|].
    pose proof (keeps_write_all (put_netflow_info nf) w) as Hk. unfold answer.
    destruct (mw_netflow_write_all _ w) as [[rc w']| | |]; [|done..]. by eapply Hk.
  - cbn. destruct (pvm_os_call c (nw_os w)). by apply ns_os.
Qed.

End Functions.

(** ** What the listener's threads do *)

Class NetflowSteps (Rel : state -> state -> Prop) : Prop := {
  sn_op {A} (p : mws_p A) : (forall I, FullWalks I -> prog_keeps I p) -> prog_always Rel p;
  sn_nf {A} (m : nf_m (V := V) A) : (forall Wp, NfStable Wp -> keeps Wp m) -> always Rel (nf m);
  sn_down {A} (f : mwcomms_netflow_state -> A) :
    always Rel (nf (down_read_conns ;;; get_nc f));
  sn_up : always Rel (nf up_read_conns)
}.

Section Listener.

Context (Rel : state -> state -> Prop) {HR : NetflowSteps Rel}.

Lemma runs_op {A} (p : mws_p A) : (forall I, FullWalks I -> prog_keeps I p) -> prog_always Rel p.
Proof. apply sn_op. Qed.

Lemma runs_nf {A} (m : nf_m (V := V) A) :
  (forall Wp, NfStable Wp -> keeps Wp m) -> prog_always Rel (lift (nf m)).
Proof. intros H. apply prog_always_lift. by apply sn_nf. Qed.

Lemma runs_ret {A} (a : A) : prog_always Rel (PRet a : mws_p A).
Proof. exact I. Qed.

#[local] Hint Resolve keeps_read keeps_write_one keeps_poll_conn keeps_monitor_accept
  keeps_wait_listener keeps_open_listen_sock keeps_nf_ret : keeps.
#[local] Hint Resolve runs_ret : runs.

Ltac runs_step :=
  lazymatch goal with
  | |- prog_always _ (pbind _ _) => apply prog_always_bind; [|intros ?]
  | |- prog_always _ (pwhen ?b _) => destruct b; cbn [pwhen]
  | |- prog_always _ (lift (nf _)) => first [solve [eauto with runs] | apply runs_nf; intros ? ?; solve [keeps_solve]]
  | |- prog_always _ (match ?x with _ => _ end) => destruct x
  | |- prog_always _ _ => first [solve [eauto with runs] | apply runs_op; intros ? ?; solve [walk]]
  end.
Ltac runs := repeat runs_step.

Lemma runs_send_feat_req req b : prog_always Rel (send_feat_req ring_fuel req b).
Proof. unfold send_feat_req. runs. Qed.
#[local] Hint Resolve runs_send_feat_req : runs.

Lemma runs_process_feat_req req a : prog_always Rel (mw_netflow_process_feat_req ring_fuel req a).
Proof.
  unfold mw_netflow_process_feat_req. runs.
  apply runs_op. intros J ?. apply on_each_live_ins; [done|]. walk.
Qed.
#[local] Hint Resolve runs_process_feat_req : runs.

Lemma runs_handle_feat_req n a : prog_always Rel (mw_netflow_handle_feat_req ring_fuel n a).
Proof. induction n; cbn [mw_netflow_handle_feat_req]; runs. Qed.
#[local] Hint Resolve runs_handle_feat_req : runs.

Lemma runs_serve_each n l : prog_always Rel (serve_each ring_fuel n l).
Proof. induction l; cbn [serve_each]; runs. Qed.
#[local] Hint Resolve runs_serve_each : runs.

Lemma runs_down : prog_always Rel
  (lift (nf (down_read_conns ;;; let* l := get_nc nc_conn_list in ret (map fst l)))).
Proof. apply prog_always_lift. exact (sn_down (fun x => map fst (nc_conn_list x))). Qed.
Lemma runs_up : prog_always Rel (lift (nf up_read_conns)).
Proof. apply prog_always_lift, sn_up. Qed.
#[local] Hint Resolve runs_down runs_up : runs.

Lemma runs_monitor n : prog_always Rel (mw_netflow_monitor ring_fuel n).
Proof. induction n; cbn [mw_netflow_monitor]; runs. Qed.

Lemma runs_fini : prog_always Rel (mw_netflow_fini (S := S)).
Proof. unfold mw_netflow_fini. runs. Qed.

End Listener.

(** ** The threads of the module *)

Inductive module_op : Type :=
| Multiplexer (op : mws_op)
| NetflowInit (LocalIp : sockaddr)
| NetflowListener (n : nat)
| NetflowFini.

Definition run_module_op (op : module_op) : mws_p unit :=
  match op with
  | Multiplexer op => run_op ring_fuel op
  | NetflowInit ip => done_p (mw_netflow_init ip)
  | NetflowListener n => mw_netflow_monitor ring_fuel n
  | NetflowFini => mw_netflow_fini
  end.

Definition module_pool (ops : list module_op) (s : state) : pool state unit :=
  {| po_threads := map run_module_op ops; po_state := s |}.

Definition nc_of (s : state) : mwcomms_netflow_state := nw_state (pv_world (ms_pvm s)).

(** The rings and the kernel change from outside, the module's state does
    not. *)
Definition outside_module (s s' : state) : Prop := ms_g s' = ms_g s /\ nc_of s' = nc_of s.

Lemma op_runs (Rel : state -> state -> Prop) {HR : NetflowSteps Rel} op :
  match op with NetflowInit _ => False | _ => True end -> prog_always Rel (run_module_op op).
Proof.
  destruct op as [op| | |]; intros Hop; cbn [run_module_op]; [|done|apply runs_monitor, HR|apply runs_fini, HR].
  apply sn_op. intros I HI. exact (run_op_keeps ring_fuel I op).
Qed.

(** ** The list of channels is well-formed *)

Definition channels_ok (x : mwcomms_netflow_state) : Prop :=
  NoDup (map fst (nc_conn_list x))
  /\ Forall (fun a => (a < nc_next_address x)%nat) (map fst (nc_conn_list x)).
Definition channels_in (w : nf_world V) : Prop := channels_ok (nw_state w).

Lemma channels_upd f :
  (forall x, channels_ok x -> channels_ok (f x)) -> keeps channels_in (upd_nc f).
Proof. intros Hf. apply m_keeps_modify. intros w Hw. by apply Hf. Qed.

Lemma channels_call c : keeps channels_in (nfcall c).
Proof. intros w x w' Hw E. unfold nfcall in E. destruct (nf_os_call c _). by simplify_eq. Qed.

Lemma channels_field f :
  (forall x, nc_conn_list (f x) = nc_conn_list x /\ nc_next_address (f x) = nc_next_address x) ->
  keeps channels_in (upd_nc f).
Proof.
  intros Hf. apply channels_upd. intros x [H1 H2]. destruct (Hf x) as [El En].
  split; by rewrite El, ?En.
Qed.

#[local] Hint Resolve channels_call : keeps.
#[local] Hint Extern 3 (keeps _ (upd_nc _)) => apply channels_field; intros ?; split; reflexivity : keeps.

Lemma addresses_change a f l : map fst (change_channel a f l) = map fst l.
Proof.
  unfold change_channel. rewrite map_map. apply map_ext. intros [b c]. simpl. by destruct (b =? a)%nat.
Qed.

Lemma channels_new c : keeps channels_in (upd_nc (fun x =>
  set_nc_conn_list ((nc_next_address x, c x) :: nc_conn_list x)
    (set_nc_next_address (Datatypes.S (nc_next_address x)) x))).
Proof.
  apply channels_upd. intros x [H1 H2]. split; cbn [nc_conn_list nc_next_address set_nc_conn_list set_nc_next_address map fst].
  - apply NoDup_cons. split; [|done]. intros He. rewrite Forall_forall in H2. apply H2 in He. lia.
  - constructor; [lia|]. eapply Forall_impl; [exact H2|]. simpl. lia.
Qed.

Lemma channels_fewer (P : nat * mwcomms_netflow_channel -> Prop) {HP : forall e, Decision (P e)} x :
  channels_ok x -> channels_ok (set_nc_conn_list (filter P (nc_conn_list x)) x).
Proof.
  intros [H1 H2]. split; cbn [nc_conn_list nc_next_address set_nc_conn_list].
  - eapply sublist_NoDup; [exact H1|]. apply fmap_sublist, sublist_filter.
  - rewrite Forall_forall in *. intros a (e & -> & [_ He]%list_elem_of_filter)%list_elem_of_fmap.
    apply H2. by apply list_elem_of_fmap_2.
Qed.

Lemma keeps_down_write (Wp : nf_world V -> Prop) : keeps Wp down_write_conns.
Proof. unfold down_write_conns. keeps_solve. Qed.
#[local] Hint Resolve keeps_down_write : keeps.

Lemma channels_drop_dead l : keeps channels_in (drop_dead l).
Proof.
  induction l as [|[a c] l IH]; cbn [drop_dead]; keeps_solve.
  apply channels_upd. intros st Hx.
  exact (channels_fewer (fun e => fst e <> a) (set_nc_active_conns (s32 (nc_active_conns st - 1)) st) Hx).
Qed.
#[local] Hint Resolve channels_drop_dead : keeps.

Lemma channels_release_conns l : keeps channels_in (release_conns l).
Proof. induction l as [|[a c] l IH]; cbn [release_conns]; keeps_solve. Qed.
#[local] Hint Resolve channels_release_conns : keeps.

#[export] Instance channels_stable : NfStable channels_in.
Proof.
  split.
  - done.
  - apply channels_call.
  - intros f Hf. apply channels_field. intros x. split; apply (Hf x).
  - intros a f. apply channels_upd. intros x [H1 H2]. split; cbn [nc_conn_list nc_next_address set_nc_conn_list].
    all: by rewrite addresses_change.
  - intros sock. unfold mw_netflow_add_conn, nf_ret. keeps_solve.
    exact (channels_new (fun _ => _)).
  - unfold purge_conns. keeps_solve.
  - unfold release_all_conns. keeps_solve. apply channels_upd. intros st _. split; constructor.
Qed.

(** ** While the list is read *)

(** The list is locked for reading and has these addresses. *)
Definition frozen (A : list nat) (r : Z) (w : nf_world V) : Prop :=
  0 < r /\ nc_readers (nw_state w) = r /\ map fst (nc_conn_list (nw_state w)) = A.

(** Nobody gets the lock for writing. *)
Lemma frozen_write A r {X} (k : nf_m (V := V) X) : keeps (frozen A r) (down_write_conns ;;; k).
Proof.
  intros w x w' (Hr & Hn & _) (u & w1 & E & _)%bind_inv. unfold down_write_conns in E.
  apply bind_inv in E as (n & w2 & [= <- <-] & E). by rewrite Hn, (proj2 (Z.ltb_lt _ _) Hr) in E.
Qed.

#[export] Instance frozen_stable A r : NfStable (frozen A r).
Proof.
  assert (forall c, keeps (frozen A r) (nfcall c)) as Hcall.
  { intros c w x w' Hw E. unfold nfcall in E. destruct (nf_os_call c _). by simplify_eq. }
  assert (forall f, (forall x, nc_conn_list (f x) = nc_conn_list x /\ nc_readers (f x) = nc_readers x
                     /\ nc_next_address (f x) = nc_next_address x) ->
                    keeps (frozen A r) (upd_nc f)) as Hfield.
  { intros f Hf. apply m_keeps_modify. intros w Hw. destruct (Hf (nw_state w)) as (El & En & _).
    unfold frozen in *. cbn. by rewrite El, En. }
  split; [done|done|done| | |by apply frozen_write|by apply frozen_write].
  - intros a f. apply m_keeps_modify. intros w (H1 & H2 & H3). split_and!; [done..|]. cbn.
    by rewrite addresses_change.
  - intros sock. unfold mw_netflow_add_conn, nf_ret.
    repeat first [apply frozen_write | keeps_step
                 | apply Hfield; intros ?; split_and!; reflexivity | apply Hcall].
Qed.

Lemma world_nf (Wp : nf_world V -> Prop) {A} (m : nf_m (V := V) A) :
  keeps Wp m -> keeps (world_is Wp) (nf (S := S) m).
Proof.
  intros Hm s x s' Hs E. unfold nf, obind in E.
  destruct (m (pv_world (ms_pvm s))) as [[y w]| | |] eqn:Em; try discriminate.
  injection E as _ <-. exact (Hm _ _ _ Hs Em).
Qed.

Lemma tables_nf P {A} (m : nf_m (V := V) A) : keeps (on P) (nf (S := S) m).
Proof.
  intros s x s' Hs E. unfold nf, obind in E.
  destruct (m (pv_world (ms_pvm s))) as [[y w]| | |]; try discriminate. by injection E as _ <-.
Qed.

Definition while_read (s s' : state) : Prop :=
  0 < nc_readers (nc_of s) -> map fst (nc_conn_list (nc_of s')) = map fst (nc_conn_list (nc_of s)).

Lemma frozen_while_read (s s' : state) :
  (forall j : list nat * Z, world_is (frozen j.1 j.2) s -> world_is (frozen j.1 j.2) s') -> while_read s s'.
Proof.
  intros H Hr. destruct (H (map fst (nc_conn_list (nc_of s)), nc_readers (nc_of s))) as (_ & _ & E);
    [by split_and!|exact E].
Qed.

#[export] Instance steps_while_read : NetflowSteps while_read.
Proof.
  split.
  - intros A p Hp. eapply prog_always_mono; [exact frozen_while_read|].
    apply prog_keeps_family. intros j. apply Hp, full_world. apply world_stable_linked, frozen_stable.
  - intros A m Hm s x s' E. apply frozen_while_read. intros j Hj.
    refine (world_nf (frozen j.1 j.2) m _ s x s' Hj E). apply Hm, frozen_stable.
  - intros A f s x s' [= <- <-] _. done.
  - intros s x s' [= <- <-] _. done.
Qed.


(** ** Both components *)

Definition module_ok (s : state) : Prop := both (on books) (world_is channels_in) s.
Definition keeps_module (s s' : state) : Prop := module_ok s -> module_ok s'.

Lemma module_nf {A} (m : nf_m (V := V) A) : keeps channels_in m -> keeps module_ok (nf m).
Proof. intros Hm. apply keeps_both; [apply tables_nf|by apply world_nf]. Qed.

#[export] Instance full_module : FullWalks module_ok.
Proof.
  apply full_both; [typeclasses eauto|]. apply full_world, world_stable_linked, channels_stable.
Qed.

Lemma always_keeps {A} (m : mws_m (S := S) (W := nf_world V) A) :
  keeps module_ok m -> always keeps_module m.
Proof. intros Hm s x s' E Hs. by eapply Hm. Qed.

#[export] Instance steps_module : NetflowSteps keeps_module.
Proof.
  split.
  - intros A p Hp. pose proof (prog_keeps_family (fun _ : unit => module_ok) p (fun _ => Hp _ full_module)) as H.
    eapply prog_always_mono; [|exact H]. intros s s' Hs. exact (Hs tt).
  - intros A m Hm. apply always_keeps, module_nf, Hm, channels_stable.
  - intros A f. apply always_keeps, module_nf. unfold down_read_conns. keeps_solve.
  - apply always_keeps, module_nf. unfold up_read_conns. keeps_solve.
Qed.

Lemma channels_reset ip : keeps channels_in (upd_nc (nc_reset ip)).
Proof. apply channels_upd. intros x _. split; constructor. Qed.

Lemma module_netflow_start ip : keeps module_ok (netflow_start ip).
Proof.
  assert (forall A (m : nf_m (V := V) A), (forall Wp, NfStable Wp -> keeps Wp m) -> keeps module_ok (nf m)) as Hnf.
  { intros A m Hm. apply module_nf, Hm, channels_stable. }
  pose proof (module_nf _ (channels_reset ip)).
  unfold netflow_start, mw_netflow_init_listen_port.
  repeat first [ done | apply Hnf; intros ? ?; solve [eauto using keeps_nf_ret, keeps_open_listen_sock | keeps_solve]
               | keeps_step ].
Qed.

Lemma module_op_runs op : prog_always keeps_module (run_module_op op).
Proof.
  destruct op as [op|ip|n|]; [by apply (op_runs keeps_module (Multiplexer op))| |
                              by apply (op_runs keeps_module (NetflowListener n))|
                              by apply (op_runs keeps_module NetflowFini)].
  unfold run_module_op, done_p, mw_netflow_init. apply prog_always_bind; [|done].
  apply prog_always_bind; [apply prog_always_lift, always_keeps, module_netflow_start|]. intros rc.
  apply prog_always_bind; [|done]. destruct (truth rc); [|done]. apply runs_fini, steps_module.
Qed.

Lemma init_module_ok s0 rc s :
  nc_of s0 = nc_zero -> mwsocket_init s0 = Done (rc, s) -> module_ok s.
Proof.
  intros H0 Hinit. split; [by eapply init_books|]. red.
  assert (keeps (world_is channels_in) (mwsocket_init (S := S) (W := nf_world V))) as Hk.
  { pose proof (full_world (S := S) channels_in (HW := world_stable_linked _ (HW := channels_stable))).
    unfold mwsocket_init, mwsocket_fs_init, create_or. walk. intros s1 u s2 H1 [= <- <-]. exact H1. }
  refine (Hk _ _ _ _ Hinit). red. unfold channels_in. fold (nc_of s0). rewrite H0. split; constructor.
Qed.

(** Every thread whose steps keep both components, in any pool. *)
Lemma module_ok_reached {A} (ts : list (prog state A)) s c :
  Forall (prog_always keeps_module) ts -> module_ok s ->
  rtc (pool_step outside_module) {| po_threads := ts; po_state := s |} c -> module_ok (po_state c).
Proof.
  intros Hts Hs Hrun.
  refine (rtc_ind_r (fun c => module_ok (po_state c)) {| po_threads := ts; po_state := s |} Hs _ c Hrun).
  intros c1 c2 Hr Hstep H1. refine (pool_always _ keeps_module {| po_threads := ts; po_state := s |} c1 c2 _ Hts Hr Hstep H1).
  intros s1 s2 [Eg En] [Ha Hb]. split; red; unfold on, channels_in in *; [by rewrite Eg|].
  red in Hb. fold (nc_of s1) in Hb. fold (nc_of s2). by rewrite En.
Qed.


End Linked.

(** ** Concrete runs *)

Section Runs.

#[local] Existing Instance LinkedPvm.
#[local] Existing Instance LinkedMws.

Definition module_end (ops : list module_op) (sched : list nat) (s : mws_state simple_ring (nf_world Z))
    : mws_state simple_ring (nf_world Z) :=
  out_state (run_schedule sched (map (run_module_op 3) ops) s) s.

Lemma module_runs ops sched s :
  returns (run_schedule sched (map (run_module_op 3) ops) s) (fun _ => true) = true ->
  exists ts, rtc (pool_step outside_module) (module_pool 3 ops s)
               {| po_threads := ts; po_state := module_end ops sched s |}.
Proof.
  intros H. destruct (returns_done _ _ s H) as (ts & E & _). exists ts.
  by eapply run_schedule_pool.
Qed.


(** The module starts; the channel starts to listen and polls once. *)
Definition module_started : mws_state simple_ring (nf_world Z) :=
  out_state (mwsocket_init (module_state nc_zero mg_zero)) (module_state nc_zero mg_zero).


End Runs.
