(* ===== verification/MwBase.v ===== *)
(** * MwBase: the character device of the protected VM

    src/protvm/kernel/mwcomms/mwcomms-base.c: load and unload of the
    module, which start and stop the multiplexer, the Xen interface and
    the network flow channel; the search for the VM's address; and the
    device's ioctl, by which processes create sockets. The globals are
    [nw_base] of the world. *)

From stdpp Require Import base numbers list gmap strings.
From Stdlib Require Import ZArith Lia.
From S2P Require Import Prelude Text MwSocket MessageTypes XenRing PvmXen Threads MwsState MwsRequest MwsResponse MwsFile MwNetflow MwNetflowServer.
Import LinuxErrno.

Definition EXT_IFACE : list Z := text "eth0"%string.

(** ** The external address *)

Section ExternIp.

(** The addresses of one device; the flag tells that the search stopped. *)
Fixpoint scan_addresses {G} (store : Z -> G -> G) (l : list Z) (found : bool) (rc : Z) (g : G)
    : bool * bool * Z * G :=
  match l with
  | [] => (false, found, rc, g)
  | a :: rest =>
      if found then (true, true, - EADDRINUSE, g) else scan_addresses store rest true 0 (store a g)
  end.

Fixpoint scan_devices {G} (addresses : net_device -> option (list Z)) (store : Z -> G -> G)
    (devs : list net_device) (found : bool) (rc : Z) (g : G) : bool * bool * Z * G :=
  match devs with
  | [] => (false, found, rc, g)
  | dev :: rest =>
      match (if bool_decide (nd_name dev = EXT_IFACE) then addresses dev else None) with
      | None => scan_devices addresses store rest found rc g
      | Some l =>
          let '(stop, found, rc, g) := scan_addresses store l found rc g in
          if stop then (true, found, rc, g) else scan_devices addresses store rest found rc g
      end
  end.

End ExternIp.

Definition store_ip4 (a : Z) : mwcomms_base_globals -> mwcomms_base_globals :=
  set_mb_local_ip {| sa_family := AF_INET; sa_port := 0; sa_addr := a |}.

(** The 16 bytes of an IPv6 address run over the end of [local_ip], the
    last four of them into the user count. *)
Definition store_ip6 (a : Z) (g : mwcomms_base_globals) : mwcomms_base_globals :=
  set_mb_user_ct (s32 (a / 2 ^ 96))
    (set_mb_local_ip {| sa_family := AF_INET6; sa_port := 0; sa_addr := a |} g).

(** The code and the globals, for the devices there are. *)
Definition find_extern_ip (devs : list net_device) (g : mwcomms_base_globals)
    : Z * mwcomms_base_globals :=
  let g := set_mb_local_ip sockaddr_zero g in
  let '(stop, found, rc, g) := scan_devices nd_ip4 store_ip4 devs false (- ENOENT) g in
  if stop || found then (rc, g)
  else
    let '(_, _, rc, g) := scan_devices nd_ip6 store_ip6 devs false rc g in (rc, g).

(** What a process asks of the device; any other code is [MwIoctlOther]. *)
Inductive mw_ioctl : Type :=
| MW_IOCTL_CREATE_SOCKET (domain type protocol : Z)
| MW_IOCTL_IS_MWSOCKET (fd : Z)
| MwIoctlOther.

Section Device.

Context {S V : Type} {R : XenRing S} {POS : PvmOS V} {OS : MwsOS V} {MOS : ModuleOS V}.
Context (ring_fuel : nat).

#[local] Existing Instance LinkedPvm.
#[local] Existing Instance LinkedMws.

#[local] Abbreviation mws_m := (mws_m (S := S) (W := nf_world V)).
#[local] Abbreviation mws_p := (mws_p (S := S) (W := nf_world V)).

Definition get_mb {A} (f : mwcomms_base_globals -> A) : nf_m (V := V) A := gets (fun w => f (nw_base w)).
Definition upd_mb (f : mwcomms_base_globals -> mwcomms_base_globals) : nf_m (V := V) unit :=
  modify (fun w => set_nw_base (f (nw_base w)) w).

Definition mwbase_find_extern_ip : nf_m (V := V) Z :=
  let* r := nfcall NetDevices in
  let* g := get_mb (fun g => g) in
  let (rc, g) := find_extern_ip (n_devs r) g in
  upd_mb (fun _ => g) ;;; ret rc.

(** The callback of the handshake ([CompletionCb]). *)
Definition mwbase_client_ready_cb (Domid : Z) : mws_m Z := mwsocket_notify_ring_ready Domid ;;; ret 0.

(** ** Load and unload *)

(** Before the sockets were initialised their lists and completions are
    zero, and the first access to them is undefined. *)
Definition mwbase_dev_fini : mws_p unit :=
  let! sockets := lift (nf (get_mb mb_sockets)) in
  if negb sockets then lift undef
  else
    mwsocket_fini ;!;
    lift (xen mw_xen_fini) ;!;
    mw_netflow_fini ;!;
    lift (nf (
      let* g := get_mb (fun g => g) in
      when (0 <=? mb_dev_major_num g) (nfcall DeviceDestroy ;;; ret tt) ;;;
      when (truth (mb_dev_class g)) (nfcall ClassDestroy ;;; nfcall ClassUnregister ;;; ret tt) ;;;
      when (truth (mb_dev_device g)) (nfcall UnregisterChrdev ;;; ret tt))).

(** The device node, and the external address, whose absence is ignored. *)
Definition create_device : nf_m (V := V) Z :=
  upd_mb (fun _ => mb_zero) ;;;
  let* major := nf_ret RegisterChrdev in
  upd_mb (set_mb_dev_major_num major) ;;;
  if major <? 0 then ret major
  else
    let* class := nf_ret ClassCreate in
    upd_mb (set_mb_dev_class class) ;;;
    if class <? 0 then ret class
    else
      let* device := nf_ret DeviceCreate in
      upd_mb (set_mb_dev_device device) ;;;
      if device <? 0 then ret device
      else mwbase_find_extern_ip ;;; ret 0.

(** [memory] is what the pages of the rings hold. *)
Definition dev_start (memory : S) : mws_p Z :=
  let! rc := lift (nf create_device) in
  if truth rc then PRet rc
  else
    let! rc := lift (nf (upd_mb (set_mb_sockets true)) ;;; mwsocket_init) in
    if truth rc then PRet rc
    else
      let! rc := lift (xen (mw_xen_init memory)) in
      if truth rc then PRet rc
      else
        let! local_ip := lift (nf (get_mb mb_local_ip)) in
        mw_netflow_init local_ip.

Definition mwbase_dev_init (memory : S) : mws_p Z :=
  let! rc := dev_start memory in
  pwhen (truth rc) mwbase_dev_fini ;!;
  PRet rc.

(** ** The device *)

Definition mwbase_dev_open : mws_m Z :=
  nf (upd_mb (fun g => set_mb_user_ct (s32 (mb_user_ct g + 1)) g)) ;;; ret 0.
Definition mwbase_dev_release : mws_m Z :=
  nf (upd_mb (fun g => set_mb_user_ct (s32 (mb_user_ct g - 1)) g)) ;;; ret 0.

(** What is copied to the process, unless that fails: the code, and the
    value. *)
Definition copy_out (v : Z) : mws_m (Z * option Z) :=
  let* rc := nf (nf_ret NfCopyToUser) in
  ret (if truth rc then (- EFAULT, None) else (0, Some v)).

Definition mwbase_dev_ioctl (Cmd : mw_ioctl) : mws_p (Z * option Z) :=
  match Cmd with
  | MW_IOCTL_CREATE_SOCKET domain type protocol =>
      let! rc := lift (nf (nf_ret NfCopyFromUser)) in
      if truth rc then PRet (- EFAULT, None)
      else
        let! (rc, outfd) := mwsocket_create ring_fuel domain type protocol in
        if truth rc then PRet (rc, None) else lift (copy_out outfd)
  | MW_IOCTL_IS_MWSOCKET fd =>
      lift (
        let* rc := nf (nf_ret NfCopyFromUser) in
        if truth rc then ret (- EFAULT, None)
        else
          let* file := nf (nfcall (Fget fd)) in
          if n_ret file =? 0 then ret (- EBADFD, None)
          else
            let* is_mwsocket := mwsocket_verify (Z.to_nat (n_val file)) in
            nf (nfcall (Fput (n_val file))) ;;;
            copy_out (Z.b2z is_mwsocket))
  | MwIoctlOther => PRet (- EINVAL, None)
  end.

End Device.
