(* ===== verification/MwBaseFacts.v ===== *)
(** * MwBaseFacts: the module as a whole: its address, its listener, its end *)

From stdpp Require Import base numbers list gmap strings.
From Stdlib Require Import ZArith Lia.
From S2P Require Import Prelude Text MwSocket MessageTypes XenRing PvmXen Threads PvmCalls MwsState MwsRequest MwsResponse MwsFile MwsTables MwsSamples MwNetflow MwNetflowServer MwNetflowSamples MwNetflowThreads MwBase.
Import LinuxErrno.

(** ** The external address *)

(** All addresses of the external interface, in the order of the devices. *)
Definition external (addresses : net_device -> option (list Z)) (devs : list net_device) : list Z :=
  concat (map (fun dev => default [] (addresses dev))
            (filter (fun dev => nd_name dev = EXT_IFACE) devs)).

(** What a search ends with: it stops at a second address. *)
Definition search_end {G} (store : Z -> G -> G) (l : list Z) (rc : Z) (g : G) : bool * bool * Z * G :=
  match l with
  | [] => (false, false, rc, g)
  | [a] => (false, true, 0, store a g)
  | a :: _ => (true, true, - EADDRINUSE, store a g)
  end.

Lemma scan_found {G} addresses (store : Z -> G -> G) devs g :
  scan_devices addresses store devs true 0 g =
  match external addresses devs with [] => (false, true, 0, g) | _ => (true, true, - EADDRINUSE, g) end.
Proof.
  induction devs as [|dev devs IH]; [done|]. cbn [scan_devices]. unfold external. rewrite filter_cons.
  case_bool_decide as Hn; [rewrite decide_True by done|rewrite decide_False by done; apply IH].
  cbn [map concat]. destruct (addresses dev) as [[|a l]|]; [apply IH|done|apply IH].
Qed.

Lemma scan_not_found {G} addresses (store : Z -> G -> G) devs rc g :
  scan_devices addresses store devs false rc g = search_end store (external addresses devs) rc g.
Proof.
  induction devs as [|dev devs IH]; [done|]. cbn [scan_devices]. unfold external. rewrite filter_cons.
  case_bool_decide as Hn; [rewrite decide_True by done|rewrite decide_False by done; apply IH].
  cbn [map concat]. destruct (addresses dev) as [[|a [|b l]]|]; [apply IH| |done|apply IH].
  cbn [scan_addresses default app]. rewrite scan_found. fold (external addresses devs).
  cbn [search_end]. by destruct (external addresses devs).
Qed.

(** (C39) The search for the external address, device by device, has the result
    of a look at all addresses of eth0 at once: the only IPv4 address;
    without any, the only IPv6 address; the first one and an error when
    there are more; and an error when there is none. *)
Theorem external_address_matches_reference devs g :
  let v4 := external nd_ip4 devs in
  let v6 := external nd_ip6 devs in
  let g0 := set_mb_local_ip sockaddr_zero g in
  find_extern_ip devs g =
  match v4, v6 with
  | [a], _ => (0, store_ip4 a g0)
  | a :: _, _ => (- EADDRINUSE, store_ip4 a g0)
  | [], [a] => (0, store_ip6 a g0)
  | [], a :: _ => (- EADDRINUSE, store_ip6 a g0)
  | [], [] => (- ENOENT, g0)
  end.
Proof.
  unfold find_extern_ip. rewrite scan_not_found.
  destruct (external nd_ip4 devs) as [|a [|b l]]; [|done|done]. cbn [search_end orb].
  rewrite scan_not_found. by destruct (external nd_ip6 devs) as [|a [|b l]].
Qed.

Section Module.

Context {S V : Type} {R : XenRing S} {POS : PvmOS V} {OS : MwsOS V} {MOS : ModuleOS V}.
Context (ring_fuel : nat).
Implicit Types s : mws_state S (nf_world V).

#[local] Existing Instance LinkedPvm.
#[local] Existing Instance LinkedMws.

Definition set_nc (x : mwcomms_netflow_state) s : mws_state S (nf_world V) :=
  set_ms_pvm (set_pv_world (set_nw_state x (pv_world (ms_pvm s))) (ms_pvm s)) s.

(** ** The listening thread *)

(** A connection whose peer is gone before its name could be read ends the
    listening thread: the channel is counted, but not on the list, and no
    connection is accepted any more. *)
Theorem failed_getname_ends_listener n sock (v1 v2 v3 : V) r1 r2 r3 s :
  nc_exit_pending (nc_of s) = false -> nc_listen_sock (nc_of s) = Some sock ->
  nf_os_call (KernelAccept sock) (nw_os (pv_world (ms_pvm s))) = (r1, v1) -> n_ret r1 = 0 ->
  nf_os_call NfKmalloc v1 = (r2, v2) -> n_ret r2 <> 0 ->
  nf_os_call (NfGetname (n_val r1) true) v2 = (r3, v3) -> n_ret r3 <> 0 ->
  exists s', alone (mw_netflow_monitor ring_fuel (Datatypes.S n)) s = Done (tt, s')
  /\ nc_conn_list (nc_of s') = nc_conn_list (nc_of s)
  /\ nc_active_conns (nc_of s') = s32 (nc_active_conns (nc_of s) + 1)
  /\ nc_listen_thread_done (nc_of s') = nc_listen_thread_done (nc_of s) + 1.
Proof.
  intros Hex Hsock E1 Z1 E2 Z2 E3 Z3.
  assert (exists s1, nf monitor_accept s = Done (false, s1)
          /\ nc_of s1 = set_nc_active_conns (s32 (nc_active_conns (nc_of s) + 1))
                          (set_nc_conn_ct (s32 (nc_conn_ct (nc_of s) + 1)) (nc_of s))) as (s1 & Ea & Hs1).
  { unfold nf, monitor_accept, accept_conn, mw_netflow_add_conn, nf_ret, bind, get_nc, upd_nc, gets, modify, ret, nfcall, nc_of in *.
    cbn [obind]. rewrite Hex, Hsock. cbn [obind]. rewrite E1. cbn [obind n_ret n_val]. rewrite Z1. cbn [Z.eqb obind nw_os].
    rewrite E2. cbn [obind nw_os]. apply Z.eqb_neq in Z2. rewrite Z2. cbn [obind set_nw_state nw_os nw_state].
    rewrite E3. cbn [obind nw_os nw_state]. unfold truth. apply Z.eqb_neq in Z3. rewrite Z3. cbn [negb obind]. rewrite Z3. by eexists. }
  cbn [mw_netflow_monitor]. rewrite (alone_run _ _ s false s1) by (rewrite alone_lift; exact Ea).
  cbn [negb]. rewrite alone_lift. eexists. split; [reflexivity|].
  split_and!; [change (nc_conn_list (nc_of s1) = nc_conn_list (nc_of s))
              |change (nc_active_conns (nc_of s1) = s32 (nc_active_conns (nc_of s) + 1))
              |change (nc_listen_thread_done (nc_of s1) + 1 = nc_listen_thread_done (nc_of s) + 1)];
    by rewrite Hs1.
Qed.

(** ** The end *)

(** Started, without a thread, and the list is not locked; a port has its
    socket. *)
Definition half_started (w : nf_world V) : Prop :=
  nc_initialized (nw_state w) = true /\ nc_listen_thread (nw_state w) = false
  /\ nc_readers (nw_state w) = 0.

Definition half (s : mws_state S (nf_world V)) : Prop := half_started (pv_world (ms_pvm s)).

Lemma half_call c : keeps half_started (nfcall c).
Proof. intros w x w' Hw E. unfold nfcall in E. destruct (nf_os_call c _). by simplify_eq. Qed.

#[local] Hint Resolve half_call keeps_get_nc : keeps.
#[local] Hint Extern 2 (keeps half_started (upd_nc _)) => (apply m_keeps_modify; intros ? Hw; exact Hw) : keeps.

Lemma half_open : keeps half_started open_listen_sock.
Proof. unfold open_listen_sock, or_fail, nf_ret. keeps_solve. Qed.

Lemma half_nf {A} (m : nf_m (V := V) A) : keeps half_started m -> keeps half (nf m).
Proof. exact (world_nf half_started m). Qed.

Lemma half_xen {A} (m : pvm_m (S := S) (W := nf_world V) A) : by_calls m -> keeps half (xen m).
Proof.
  intros Hm s x s' Hs E. unfold xen, obind in E.
  destruct (m (ms_pvm s)) as [[y p]| | |] eqn:Em; try discriminate. injection E as _ <-.
  refine (Hm half_started _ (ms_pvm s) y p Hs Em). intros c w Hw. cbn.
  destruct (pvm_os_call c (nw_os w)). exact Hw.
Qed.

Lemma half_listen_port : keeps half mw_netflow_init_listen_port.
Proof.
  unfold mw_netflow_init_listen_port. keeps_solve; [apply half_nf, half_open|].
  apply half_xen, calls_write_to_key.
Qed.

Lemma failed_start_half ip s rc s' :
  netflow_start ip s = Done (rc, s') -> rc <> 0 -> half s'.
Proof.
  intros E Hrc. unfold netflow_start in E. run_step E u s1 E1. injection E1 as _ <-.
  run_step E found s2 E2. run_step E u2 s3 E3. injection E3 as _ <-.
  assert (half s2) as H2.
  { refine (half_nf (nf_ret NfKallsyms) _ _ _ _ _ E2); [unfold nf_ret; keeps_solve|done]. }
  destruct (found =? 0); [by injection E as <- <-|]. run_step E rc1 s4 E4.
  assert (half s4) as H4.
  { refine (half_listen_port _ _ _ _ E4). exact H2. }
  destruct (truth rc1); [by injection E as <- <-|]. run_step E th s5 E5. run_step E u3 s6 E6.
  injection E6 as _ <-. injection E as <- <-.
  assert (half s5) as (H5a & H5b & H5c).
  { refine (half_nf (nf_ret NfKthreadRun) _ _ _ _ _ E5); [unfold nf_ret; keeps_solve|done]. }
  destruct (Z.eqb_spec th 0) as [->|]; [|done]. by split_and!.
Qed.

Lemma release_conns_state l (w : nf_world V) :
  exists w', release_conns l w = Done (tt, w') /\ nw_state w' = nw_state w.
Proof.
  revert w. induction l as [|[a c] l IH]; intros w; [by eexists|]. cbn [release_conns].
  unfold bind at 1. destruct (ch_active c); cbn [when].
  - unfold bind, nfcall. destruct (nf_os_call _ (nw_os w)) as [r v]. cbn [obind ret].
    match goal with |- context [release_conns l ?w1] => destruct (IH w1) as (w' & E & Es) end.
    exists w'. split; [exact E|]. by rewrite Es.
  - cbn [obind ret]. apply IH.
Qed.

(** The listening socket is released when there is a port, whether or not
    it is still there. *)
Lemma release_all_state (w : nf_world V) :
  nc_readers (nw_state w) = 0 -> nc_listen_port (nw_state w) <> 0 ->
  match nc_listen_sock (nw_state w) with
  | None => release_all_conns w = Undef
  | Some _ =>
      exists w', release_all_conns w = Done (tt, w')
      /\ nw_state w' = set_nc_listen_sock None (set_nc_conn_list [] (nw_state w))
  end.
Proof.
  intros Hr Hp. unfold release_all_conns, down_write_conns, bind, get_nc, gets, upd_nc, modify.
  cbn [obind]. rewrite Hr. cbn [Z.ltb Z.compare obind ret].
  destruct (release_conns_state (nc_conn_list (nw_state w)) w) as (w1 & -> & E1). cbn [obind nw_state set_nw_state].
  rewrite E1. cbn [nc_listen_port nc_listen_sock set_nc_conn_list]. unfold truth.
  apply Z.eqb_neq in Hp. rewrite Hp. cbn [negb when].
  destruct (nc_listen_sock (nw_state w)) as [sock|]; [|done]. unfold nfcall.
  destruct (nf_os_call _ _) as [r v]. cbn [obind]. by eexists.
Qed.

Lemma fini_half s :
  half s ->
  alone mw_netflow_fini s = nf release_all_conns (set_nc (set_nc_exit_pending true (nc_of s)) s).
Proof.
  intros (Hi & Ht & _). unfold mw_netflow_fini.
  rewrite (alone_run _ _ s true s) by (rewrite alone_lift; unfold nf, get_nc, gets; cbn [obind]; rewrite Hi; by destruct s as [[] ? ?]).
  cbn [negb].
  rewrite (alone_run _ _ s false (set_nc (set_nc_exit_pending true (nc_of s)) s)) by
    (rewrite alone_lift; unfold nf, bind, upd_nc, get_nc, modify, gets; cbn [obind];
     unfold half_started in Ht; cbn; by rewrite Ht).
  cbn [pwhen]. rewrite (alone_run (PRet tt) _ _ tt (set_nc (set_nc_exit_pending true (nc_of s)) s)) by done. apply alone_lift.
Qed.

(** With a port: the shutdown forgets the listening socket, and is
    undefined without one. *)
Lemma fini_port s :
  half s -> nc_listen_port (nc_of s) <> 0 ->
  match nc_listen_sock (nc_of s) with
  | None => alone mw_netflow_fini s = Undef
  | Some _ =>
      exists s', alone mw_netflow_fini s = Done (tt, s')
      /\ nc_of s' = set_nc_listen_sock None (set_nc_conn_list [] (set_nc_exit_pending true (nc_of s)))
  end.
Proof.
  intros Hh Hp. rewrite (fini_half s Hh).
  pose proof (release_all_state (set_nw_state (set_nc_exit_pending true (nc_of s)) (pv_world (ms_pvm s)))
                (proj2 (proj2 Hh)) Hp) as H.
  cbn [nw_state set_nw_state nc_listen_sock set_nc_exit_pending] in H. unfold nf.
  change (pv_world (ms_pvm (set_nc (set_nc_exit_pending true (nc_of s)) s)))
    with (set_nw_state (set_nc_exit_pending true (nc_of s)) (pv_world (ms_pvm s))).
  destruct (nc_listen_sock (nc_of s)) as [sock|]; [|by rewrite H].
  destruct H as (w' & -> & E). eexists. split; [reflexivity|]. exact E.
Qed.

(** When the channel cannot be started, for example because its port could
    not be published, the start itself shuts it down; the unload of the
    module, which a failed start leads to, shuts it down again and
    accesses the listening socket that is gone. *)
Theorem failed_start_crashes_unload ip s rc s' :
  netflow_start ip s = Done (rc, s') -> rc <> 0 -> nc_listen_port (nc_of s') <> 0 ->
  alone (mw_netflow_init ip ;!; mw_netflow_fini) s = Undef.
Proof.
  intros E Hrc Hp. pose proof (failed_start_half ip s rc s' E Hrc) as Hh.
  unfold mw_netflow_init. rewrite alone_pbind. unfold bind.
  rewrite (alone_run _ _ s rc s') by (rewrite alone_lift; exact E).
  unfold truth. apply Z.eqb_neq in Hrc. rewrite Hrc. cbn [negb pwhen]. rewrite alone_pbind. unfold bind.
  pose proof (fini_port s' Hh Hp) as H1.
  destruct (nc_listen_sock (nc_of s')) as [sock|]; [|by rewrite H1].
  destruct H1 as (s1 & -> & E1). cbn [obind alone ret].
  assert (half s1) as Hh1
    by (destruct Hh as (?&?&?); unfold half, half_started; unfold nc_of in *; by rewrite E1).
  pose proof (fini_port s1 Hh1) as H2. rewrite E1 in H2. exact (H2 Hp).
Qed.

End Module.

(** ** Concrete runs *)

(** A kernel in which the socket cannot be made to listen. *)
Definition NoListen : ModuleOS Z := {|
  nf_os_call := fun c w =>
    match c with
    | KernelListen _ => ({| n_ret := - EADDRINUSE; n_val := 0; n_bytes := []; n_devs := [] |}, w)
    | _ => nf_os_call c w
    end;
  pISc := pISc (V := Z)
|}.

Lemma failed_start_crashes_unload_witness :
  let s := module_state nc_zero mg_zero in
  exists rc s', netflow_start (MOS := NoListen) sockaddr_zero s = Done (rc, s') /\ rc = - EADDRINUSE
  /\ alone (mw_netflow_init (MOS := NoListen) sockaddr_zero ;!; mw_netflow_fini (MOS := NoListen)) s = Undef.
Proof.
  intros s. do 2 eexists. split; [reflexivity|]. split; [reflexivity|].
  eapply (failed_start_crashes_unload (MOS := NoListen)); [reflexivity|discriminate|discriminate].
Defined.

(** A kernel in which a connection comes whose peer has no name. *)
Definition NoPeer : ModuleOS Z := {|
  nf_os_call := fun c w =>
    match c with
    | KernelAccept _ => ({| n_ret := 0; n_val := 72; n_bytes := []; n_devs := [] |}, w)
    | NfGetname _ _ => ({| n_ret := -107; n_val := 0; n_bytes := []; n_devs := [] |}, w)
    | _ => nf_os_call c w
    end;
  pISc := pISc (V := Z)
|}.

Lemma failed_getname_ends_listener_witness :
  let s := module_state two_channels one_socket in
  exists s', alone (mw_netflow_monitor (MOS := NoPeer) 3 5) s = Done (tt, s')
  /\ length (nc_conn_list (nc_of s')) = 2%nat /\ nc_active_conns (nc_of s') = 3.
Proof.
  intros s.
  destruct (failed_getname_ends_listener (MOS := NoPeer) 3 4 50 1000 1000 1000 _ _ _ s eq_refl eq_refl eq_refl eq_refl eq_refl
              ltac:(discriminate) eq_refl ltac:(discriminate)) as (s' & E & Hl & Ha & _).
  exists s'. split; [exact E|]. split; [by rewrite Hl|by rewrite Ha].
Defined.
