(* ===== verification/Shim.v ===== *)
(** * Shim: the socket calls of an application

    src/protvm/user/wrapper/tcp_ip_wrapper.c: a library loaded before
    libc, whose functions have the names of libc's socket calls. A call
    on an mwsocket becomes a request that is written to the socket's file
    and a response that is read from it; any other call goes to libc. The
    default build: with the driver, batched sends, no log and no trace.

    The calls to libc and to the kernel are the class [ShimSys], one
    program for each. errno belongs to the thread: it is passed along
    ([sh]). Pointers of the application are valid; those that may be NULL
    are options or flags. What a function stores through a pointer is part
    of its result ([sock_out]). *)

From stdpp Require Import base numbers list strings.
From Stdlib Require Import ZArith Lia.
From S2P Require Import Prelude Text MessageTypes PvmXen Threads MwsState MwsRequest MwsResponse MwsFile.
Import LinuxErrno.

(** ** Constants of Linux *)

Definition SOCK_STREAM : Z := 1.
Definition SOCK_NONBLOCK : Z := 2048.
Definition SOCK_CLOEXEC : Z := 524288.
Definition F_SETFD : Z := 2.
Definition F_GETFL : Z := 3.
Definition F_SETFL : Z := 4.
Definition FD_CLOEXEC : Z := 1.
Definition O_NONBLOCK : Z := 2048.
Definition SOL_SOCKET : Z := 1.
Definition SO_REUSEADDR : Z := 2.
Definition SO_ERROR : Z := 4.
Definition SO_KEEPALIVE : Z := 9.
Definition SO_REUSEPORT : Z := 15.
Definition SO_RCVLOWAT : Z := 18.
Definition SO_SNDLOWAT : Z := 19.
Definition SO_RCVTIMEO : Z := 20.
Definition SO_SNDTIMEO : Z := 21.
Definition SOL_TCP : Z := 6.
Definition TCP_NODELAY : Z := 1.
Definition TCP_DEFER_ACCEPT : Z := 9.
Definition sizeof_sockaddr : nat := 16.
Definition sizeof_timeval : nat := 16.

Definition MT_REQUEST_SOCKET_CONNECT_SIZE : Z := size_of ct_request_socket_connect.
Definition MT_REQUEST_SOCKET_RECV_SIZE : Z := size_of ct_request_socket_recv.
Definition MT_REQUEST_SOCKET_SHUTDOWN_SIZE : Z := size_of ct_request_socket_shutdown.
Definition MT_REQUEST_SOCKET_GETNAME_SIZE : Z := size_of ct_request_socket_getname.
Definition MT_REQUEST_SOCKET_GETPEER_SIZE : Z := size_of ct_request_socket_getname.

(** ** Calls to libc and to the kernel *)

(** [addr] tells whether there is room for an address, [len] is its size;
    the ioctls name their file first. *)
Inductive sys_call : Type :=
| LibcSocket (domain type protocol : Z)
| LibcClose (fd : Z)
| LibcBind (fd : Z) (addr : list Z) (addrlen : Z)
| LibcListen (fd backlog : Z)
| LibcAccept (fd : Z) (addr : bool) (len : option Z)
| LibcAccept4 (fd : Z) (addr : bool) (len : option Z) (flags : Z)
| LibcConnect (fd : Z) (addr : list Z) (addrlen : Z)
| LibcRecvfrom (fd len flags : Z) (addr addrlen : bool)
| LibcRead (fd len : Z)
| LibcReadv (fd : Z) (lens : list Z)
| LibcSend (fd : Z) (bytes : list Z) (flags : Z)
| LibcWrite (fd : Z) (bytes : list Z)
| LibcWritev (fd : Z) (bufs : list (list Z))
| LibcShutdown (fd how : Z)
| LibcGetsockopt (fd level optname optlen : Z)
| LibcSetsockopt (fd level optname : Z) (optval : list Z)
| LibcGetsockname (fd len : Z)
| LibcGetpeername (fd len : Z)
| LibcFcntl (fd cmd arg : Z)
| IoctlCreateSocket (devfd domain type protocol : Z)
| IoctlIsMwsocket (devfd fd : Z)
| IoctlSocketAttributes (fd : Z) (attr : mwsocket_attrib)
| Nanosleep
| PrintError
| OpenDevice
| Dlopen
| Dlsym (symbol : list Z)
| Dlclose.

(** The result, errno if the call sets it, and what the call stores: bytes
    into the caller's buffer, an address, and a number (a length, the new
    descriptor of a socket, the answer to a question). *)
Record sys_res := {
  sr_ret : Z; sr_errno : option Z;
  sr_buf : option (list Z); sr_addr : option (list Z); sr_val : option Z
}.

Class ShimSys (S : Type) := sys_prog : sys_call -> prog S sys_res.

(** What a socket call of the library returns, and what it stores. *)
Record sock_out := {
  so_ret : Z; so_buf : option (list Z); so_addr : option (list Z); so_val : option Z
}.
Definition out_rc (rc : Z) : sock_out :=
  {| so_ret := rc; so_buf := None; so_addr := None; so_val := None |}.
Definition out_addr (rc : Z) (addr : list Z) : sock_out :=
  {| so_ret := rc; so_buf := None; so_addr := Some addr; so_val := None |}.
Definition native_out (r : sys_res) : sock_out :=
  {| so_ret := sr_ret r; so_buf := sr_buf r; so_addr := sr_addr r; so_val := sr_val r |}.

(** ** Formats *)

(** translate.h on Linux, whose AF_INET6 is 10. *)
Definition linux_mt_protocol_family (Fam : Z) : Z :=
  if Fam =? AF_INET then MT_PF_INET else if Fam =? AF_INET6 then MT_PF_INET6 else u32 (-1).

(** populate_mt_sockaddr_in() from the bytes of a [struct sockaddr_in]. *)
Definition linux_populate_mt_sockaddr_in (addr : list Z) : mt_sockaddr_in :=
  {| mt_sin_family := linux_mt_protocol_family (fld [2; 2; 4]%nat 0 addr);
     mt_sin_port := fld [2; 2; 4]%nat 1 addr;
     mt_sin_addr := fld [2; 2; 4]%nat 2 addr;
     mt_sin_zero := take 8 (drop 8 addr) |}.

(** populate_sockaddr_in() to the bytes of a [struct sockaddr_in]. *)
Definition linux_populate_sockaddr_in (m : mt_sockaddr_in) : list Z :=
  le_bytes 2 (kernel_protocol_family (mt_sin_family m)) ++ le_bytes 2 (mt_sin_port m)
  ++ le_bytes 4 (mt_sin_addr m) ++ mt_sin_zero m.

(** Two bytes of padding precede the 64-bit address. *)
Definition put_mt_sockaddr_in (m : mt_sockaddr_in) : list Z :=
  le_bytes 4 (mt_sin_family m) ++ le_bytes 2 (mt_sin_port m) ++ [0; 0]
  ++ le_bytes 8 (mt_sin_addr m) ++ mt_sin_zero m.

(** A request: its preamble, and the bytes behind it. *)
Record mt_request_generic := { gq_base : mt_request_base; gq_body : list Z }.

Definition set_gq_body (v : list Z) (r : mt_request_generic) : mt_request_generic :=
  {| gq_base := gq_base r; gq_body := v |}.
Definition set_gq_type (v : Z) (r : mt_request_generic) : mt_request_generic :=
  let b := gq_base r in
  {| gq_base := {| rq_sig := rq_sig b; rq_type := v; rq_size := rq_size b; rq_id := rq_id b;
                   rq_sockfd := rq_sockfd b; rq_flags := rq_flags b |};
     gq_body := gq_body r |}.
Definition set_gq_size (v : Z) (r : mt_request_generic) : mt_request_generic :=
  let b := gq_base r in
  {| gq_base := {| rq_sig := rq_sig b; rq_type := rq_type b; rq_size := u16 v; rq_id := rq_id b;
                   rq_sockfd := rq_sockfd b; rq_flags := rq_flags b |};
     gq_body := gq_body r |}.
Definition set_gq_flags (v : Z) (r : mt_request_generic) : mt_request_generic :=
  let b := gq_base r in
  {| gq_base := {| rq_sig := rq_sig b; rq_type := rq_type b; rq_size := rq_size b; rq_id := rq_id b;
                   rq_sockfd := rq_sockfd b; rq_flags := u32 v |};
     gq_body := gq_body r |}.

(** [base.size] bytes of it. *)
Definition put_request (r : mt_request_generic) : list Z :=
  take (Z.to_nat (rq_size (gq_base r))) (put_request_base (gq_base r) ++ gq_body r).

Definition MT_REQUEST_SET_CALLER_WAITS (r : mt_request_generic) : mt_request_generic :=
  set_gq_flags (Z.lor (rq_flags (gq_base r)) MT_FLAGS_PVM_CALLER_AWAITS_RESPONSE) r.

Definition request_body_size : nat := Z.to_nat (ONE_REQUEST_REGION_SIZE - MT_REQUEST_BASE_SIZE).
Definition zero_body : list Z := replicate request_body_size 0.

(** Members behind the preamble, from its end on. *)
Definition fill_body (bytes : list Z) (r : mt_request_generic) : mt_request_generic :=
  set_gq_body (patch 0 bytes (gq_body r)) r.

Definition mwcomms_init_request (Type_ : mt_request_type) (Size MwSockFd : Z) : mt_request_generic :=
  {| gq_base := {| rq_sig := MT_SIGNATURE_REQUEST; rq_type := request_type_code Type_; rq_size := u16 Size;
                   rq_id := 0; rq_sockfd := MwSockFd; rq_flags := 0 |};
     gq_body := zero_body |}.

Definition zero_response : list Z := replicate (Z.to_nat RESPONSE_REGION_SIZE) 0.
Definition rsp_status (Response : list Z) : Z := rs_status (get_response_base Response).
Definition rsp_getname_sockaddr (Response : list Z) : mt_sockaddr_in :=
  get_sockaddr_in (drop (sizeof ct_response_base + 2) Response).

Definition zero_attrib (modify : bool) (name : Z) (val : list Z) : mwsocket_attrib :=
  {| wa_modify := modify; wa_name := name;
     wa_val := val ++ replicate (sizeof ct_sockfeat_arg - length val) 0 |}.

(** The options that are passed on: the code, and the name. A level that
    is not known is no error, and leaves the name as it is. *)
Definition mwcomms_set_sockattr (Level OptName name : Z) : Z * Z :=
  let to n := (0, sockfeat_code n) in
  if Level =? SOL_SOCKET then
    if OptName =? SO_REUSEADDR then to MtSockAttribReuseaddr
    else if OptName =? SO_KEEPALIVE then to MtSockAttribKeepalive
    else if OptName =? SO_REUSEPORT then to MtSockAttribReuseport
    else if OptName =? SO_RCVTIMEO then to MtSockAttribRcvTimeo
    else if OptName =? SO_SNDTIMEO then to MtSockAttribSndTimeo
    else if OptName =? SO_RCVLOWAT then to MtSockAttribRcvLoWat
    else if OptName =? SO_SNDLOWAT then to MtSockAttribSndLoWat
    else if OptName =? SO_ERROR then to MtSockAttribError
    else (EINVAL, name)
  else if Level =? SOL_TCP then
    if OptName =? TCP_DEFER_ACCEPT then to MtSockAttribDeferAccept
    else if OptName =? TCP_NODELAY then to MtSockAttribNodelay
    else (EINVAL, name)
  else (0, name).

Definition is_timeout (name : Z) : bool :=
  (sockfeat_code MtSockAttribSndTimeo =? name) || (sockfeat_code MtSockAttribRcvTimeo =? name).

(** ** Programs with errno *)

Definition sh (S A : Type) : Type := Z -> prog S (A * Z).
Definition sret {S A} (a : A) : sh S A := fun e => PRet (a, e).
Definition sbind {S A B} (m : sh S A) (k : A -> sh S B) : sh S B :=
  fun e => let! (a, e') := m e in k a e'.
Definition errno {S} : sh S Z := fun e => PRet (e, e).
Definition set_errno {S} (v : Z) : sh S unit := fun _ => PRet (tt, v).
Definition sundef {S A} : sh S A := fun _ => lift undef.
Definition sfuel {S A} : sh S A := fun _ => lift out_of_fuel.

Notation "'let#' x ':=' m 'in' k" := (sbind m (fun x => k))
  (at level 10, x pattern, m at level 100, k at level 200) : c_scope.
Notation "m ';#;' k" := (sbind m (fun _ => k))
  (at level 199, right associativity) : c_scope.

Section Shim.

Context {S : Type} {Sys : ShimSys S}.
Context (fuel : nat) (devfd : Z).

#[local] Abbreviation sh := (sh S).

Definition sys (c : sys_call) : sh sys_res :=
  fun e => let! r := sys_prog c in PRet (r, default e (sr_errno r)).

(** The result of a call whose type is [int]. *)
Definition sys_int (c : sys_call) : sh Z := let# r := sys c in sret (s32 (sr_ret r)).

(** A call handed to libc. *)
Definition native (c : sys_call) : sh sock_out := let# r := sys c in sret (native_out r).

Definition mwcomms_is_mwsocket (Fd : Z) : sh bool :=
  if Fd <? 0 then sret false
  else
    let# r := sys (IoctlIsMwsocket devfd Fd) in
    if s32 (sr_ret r) <? 0 then sret false else sret (truth (default 0 (sr_val r))).

(** ** Requests *)

(** write() again as long as it is interrupted or the ring is full. *)
Fixpoint write_retry (fuel : nat) (MwFd : Z) (bytes : list Z) : sh Z :=
  match fuel with
  | O => sfuel
  | Datatypes.S fuel' =>
      let# ct := sys_int (LibcWrite MwFd bytes) in
      let# err := errno in
      if negb ((ct <? 0) && ((EINTR =? err) || (EAGAIN =? err))) then sret ct
      else sys Nanosleep ;#; write_retry fuel' MwFd bytes
  end.

(** read() again as long as it is interrupted. *)
Fixpoint read_retry (fuel : nat) (MwFd : Z) (Response : list Z) : sh (Z * list Z) :=
  match fuel with
  | O => sfuel
  | Datatypes.S fuel' =>
      let# r := sys (LibcRead MwFd RESPONSE_REGION_SIZE) in
      let ct := s32 (sr_ret r) in
      let Response := match sr_buf r with Some bytes => patch 0 bytes Response | None => Response end in
      let# err := errno in
      if (ct <? 0) && (EINTR =? err) then read_retry fuel' MwFd Response else sret (ct, Response)
  end.

(** The second half of mwcomms_write_request(): the response, and what its
    status makes of the call. The size of a response is unsigned, so that a
    [ct] of -1 is not less. *)
Definition await_response (MwFd : Z) (Request : mt_request_generic) (Response : list Z) :
    sh (Z * mt_request_generic * list Z) :=
  let# (ct, Response) := read_retry fuel MwFd Response in
  if u64 ct <? MT_RESPONSE_BASE_SIZE then sret (-1, Request, Response)
  else if IS_CRITICAL_ERROR (rsp_status Response) then
    sret (-1, Request, patch 24 (le_bytes 4 EIO) Response)
  else if rsp_status Response <? 0 then
    set_errno (s32 (- rsp_status Response)) ;#; sret (-1, Request, Response)
  else sret (0, Request, Response).

(** The code, and the request and the response as changed. *)
Definition mwcomms_write_request (MwFd : Z) (ReadResponse : bool) (Request : mt_request_generic)
    (Response : list Z) : sh (Z * mt_request_generic * list Z) :=
  let Request := if ReadResponse then MT_REQUEST_SET_CALLER_WAITS Request else Request in
  let# ct := write_retry fuel MwFd (put_request Request) in
  if ct <? 0 then sret (-1, Request, Response)
  else if negb ReadResponse then sret (0, Request, Response)
  else await_response MwFd Request Response.

(** ** Flags of descriptors *)

Definition fcntl (Fd Cmd arg : Z) : sh Z :=
  let# mw := mwcomms_is_mwsocket Fd in
  if negb mw || negb (Cmd =? F_SETFL) then sys_int (LibcFcntl Fd Cmd arg)
  else
    let# oldflags := sys_int (LibcFcntl Fd F_GETFL 0) in
    let newflags := s32 arg in
    let# rc := sys_int (LibcFcntl Fd F_SETFL newflags) in
    if rc <? 0 then sret rc
    else if Z.land oldflags O_NONBLOCK =? Z.land newflags O_NONBLOCK then sret rc
    else
      let# rc := sys_int (IoctlSocketAttributes Fd
                   (zero_attrib true (sockfeat_code MtSockAttribNonblock)
                      (le_bytes 4 (Z.b2z (has_flag newflags O_NONBLOCK))))) in
      if rc <? 0 then set_errno 0 ;#; sret rc else sret rc.

(** ** Life of a socket *)

(** Every AF_INET type with the bit of SOCK_STREAM becomes a stream. *)
Definition socket (Domain Type_ Protocol : Z) : sh Z :=
  if negb (AF_INET =? Domain) || negb (has_flag SOCK_STREAM Type_) then
    sys_int (LibcSocket Domain Type_ Protocol)
  else
    let# r := sys (IoctlCreateSocket devfd (linux_mt_protocol_family Domain) MT_ST_STREAM Protocol) in
    let outfd := default (-1) (sr_val r) in
    if s32 (sr_ret r) <? 0 then sret (s32 (sr_ret r))
    else if has_flag Type_ SOCK_CLOEXEC then
      let# rc := fcntl outfd F_SETFD FD_CLOEXEC in
      if rc <? 0 then sret rc else set_errno 0 ;#; sret outfd
    else set_errno 0 ;#; sret outfd.

Definition close (Fd : Z) : sh Z := sys_int (LibcClose Fd).

Definition bind_ (SockFd : Z) (SockAddr : list Z) (AddrLen : Z) : sh Z :=
  let# mw := mwcomms_is_mwsocket SockFd in
  if negb mw then sys_int (LibcBind SockFd SockAddr AddrLen)
  else if negb (fld [2]%nat 0 SockAddr =? AF_INET) || negb (AddrLen =? Z.of_nat sizeof_sockaddr) then
    sys PrintError ;#; set_errno EINVAL ;#; sret (-1)
  else
    let request := fill_body (put_mt_sockaddr_in (linux_populate_mt_sockaddr_in SockAddr))
                     (mwcomms_init_request MtRequestSocketBind MT_REQUEST_SOCKET_BIND_SIZE SockFd) in
    let# (rc, _, response) := mwcomms_write_request SockFd true request zero_response in
    if truth rc then sret rc else sret (rsp_status response).

Definition listen (SockFd BackLog : Z) : sh Z :=
  let# mw := mwcomms_is_mwsocket SockFd in
  if negb mw then sys_int (LibcListen SockFd BackLog)
  else
    let request := fill_body (le_bytes 4 BackLog)
                     (mwcomms_init_request MtRequestSocketListen MT_REQUEST_SOCKET_LISTEN_SIZE SockFd) in
    let# (rc, _, response) := mwcomms_write_request SockFd true request zero_response in
    if truth rc then sret rc
    else if rsp_status response <? 0 then set_errno (s32 (- rsp_status response)) ;#; sret (-1)
    else sret (rsp_status response).

(** [SockAddr] and [SockLen] tell whether the pointers are not NULL, the
    latter with the length. The length is not updated. *)
Definition accept (SockFd : Z) (SockAddr : bool) (SockLen : option Z) : sh sock_out :=
  let# mw := mwcomms_is_mwsocket SockFd in
  if negb mw then
    let# r := sys (LibcAccept SockFd SockAddr SockLen) in
    sret {| so_ret := s32 (sr_ret r); so_buf := sr_buf r; so_addr := sr_addr r; so_val := sr_val r |}
  else
    let request := mwcomms_init_request MtRequestSocketAccept MT_REQUEST_SOCKET_ACCEPT_SIZE SockFd in
    let# (rc, _, response) := mwcomms_write_request SockFd true request zero_response in
    if truth rc then sret (out_rc rc)
    else if rsp_status response <? 0 then sret (out_rc rc)
    else
      let rc := s32 (rs_sockfd (get_response_base response)) in
      match SockLen with
      | Some _ =>
          if SockAddr then
            sret (out_addr rc (linux_populate_sockaddr_in (rsp_accept_sockaddr response)))
          else sret (out_rc rc)
      | None => sret (out_rc rc)
      end.

(** The end of accept4() after an error: the new socket is closed. *)
Definition accept4_fail (newfd err : Z) (o : sock_out) : sh sock_out :=
  (if 0 <? newfd then close newfd ;#; sret tt else sret tt) ;#;
  set_errno err ;#;
  sret {| so_ret := -1; so_buf := so_buf o; so_addr := so_addr o; so_val := so_val o |}.

Definition accept4 (SockFd : Z) (SockAddr : bool) (SockLen : option Z) (Flags : Z) : sh sock_out :=
  let# mw := mwcomms_is_mwsocket SockFd in
  if negb mw then
    let# r := sys (LibcAccept4 SockFd SockAddr SockLen Flags) in
    sret {| so_ret := s32 (sr_ret r); so_buf := sr_buf r; so_addr := sr_addr r; so_val := sr_val r |}
  else
    let# o := accept SockFd SockAddr SockLen in
    let newfd := so_ret o in
    let# err := errno in
    if newfd <? 0 then accept4_fail newfd err o
    else
      let# rc := (if has_flag Flags SOCK_NONBLOCK then fcntl newfd F_SETFL O_NONBLOCK else sret 0) in
      let# err := errno in
      if truth rc then accept4_fail newfd err o
      else
        let# rc := (if has_flag Flags SOCK_CLOEXEC then fcntl newfd F_SETFD FD_CLOEXEC else sret 0) in
        let# err := errno in
        if truth rc then accept4_fail newfd err o else set_errno 0 ;#; sret o.

(** The family of the address is not looked at. *)
Definition connect (SockFd : Z) (Addr : list Z) (AddrLen : Z) : sh Z :=
  let# mw := mwcomms_is_mwsocket SockFd in
  if negb mw then sys_int (LibcConnect SockFd Addr AddrLen)
  else
    let request := fill_body (put_mt_sockaddr_in (linux_populate_mt_sockaddr_in Addr))
                     (mwcomms_init_request MtRequestSocketConnect MT_REQUEST_SOCKET_CONNECT_SIZE SockFd) in
    let# (rc, _, response) := mwcomms_write_request SockFd true request zero_response in
    if truth rc then sret rc
    else if rsp_status response <? 0 then set_errno (s32 (- rsp_status response)) ;#; sret (-1)
    else sret (rsp_status response).

Definition shutdown (SockFd How : Z) : sh Z :=
  set_errno 0 ;#;
  let# mw := mwcomms_is_mwsocket SockFd in
  if negb mw then sys_int (LibcShutdown SockFd How)
  else
    let request := fill_body (le_bytes 4 How)
                     (mwcomms_init_request MtRequestSocketShutdown MT_REQUEST_SOCKET_SHUTDOWN_SIZE SockFd) in
    let# (rc, _, response) := mwcomms_write_request SockFd true request zero_response in
    if truth rc then sret rc
    else if rsp_status response <? 0 then set_errno (s32 (- rsp_status response)) ;#; sret (-1)
    else set_errno 0 ;#; sret rc.

(** ** Receiving *)

(** The request of recvfrom(). *)
Definition recvfrom_request (SockFd Len Flags : Z) (SrcAddr : bool) : mt_request_generic :=
  let request := fill_body (le_bytes 4 Flags ++ le_bytes 2 (Z.min MESSAGE_TYPE_MAX_PAYLOAD_LEN Len))
                   (mwcomms_init_request MtRequestSocketRecv MT_REQUEST_SOCKET_RECV_SIZE SockFd) in
  if SrcAddr then set_gq_type (request_type_code MtRequestSocketRecvFrom) request else request.

(** What a response stores: [received] bytes of the member [socket_recv]
    whichever the response is, and for a recvfrom response the first bytes
    of its address as they are. *)
Definition recv_stores (received : Z) (SrcAddr AddrLen : bool) (response : list Z) : sock_out :=
  let from := response_type_code MtRequestSocketRecvFrom =? rs_type (get_response_base response) in
  {| so_ret := received;
     so_buf := Some (take (Z.to_nat received) (drop (sizeof ct_response_base + 2) response));
     so_addr := if from && SrcAddr
                then Some (take sizeof_sockaddr (drop (sizeof ct_response_base) response)) else None;
     so_val := if from && AddrLen
               then Some (le_value (take 4 (drop (sizeof ct_response_base + sizeof ct_sockaddr_in) response)))
               else None |}.

(** What recvfrom() makes of the response. [Len] is the size of the buffer;
    a response with more is copied over its end. *)
Definition recv_finish (Len : Z) (SrcAddr AddrLen : bool) (rc : Z) (response : list Z) : sh sock_out :=
  let# err := errno in
  if truth rc then
    if MW_ERROR_REMOTE_SURPRISE_CLOSE =? err then set_errno 0 ;#; sret (out_rc 0)
    else sret (out_rc rc)
  else if rsp_status response <? 0 then
    set_errno (s32 (- rsp_status response)) ;#; sret (out_rc (-1))
  else
    let received := if SrcAddr then rsp_recvfrom_count response else rsp_recv_count response in
    if received =? 0 then set_errno 0 ;#; sret (out_rc 0)
    else if (Len <? received) || (RESPONSE_REGION_SIZE <? MT_RESPONSE_SOCKET_RECV_SIZE + received) then
      sundef
    else sret (recv_stores received SrcAddr AddrLen response).

Definition recvfrom (SockFd Len Flags : Z) (SrcAddr AddrLen : bool) : sh sock_out :=
  let# mw := mwcomms_is_mwsocket SockFd in
  if negb mw then native (LibcRecvfrom SockFd Len Flags SrcAddr AddrLen)
  else
    let# (rc, _, response) :=
      mwcomms_write_request SockFd true (recvfrom_request SockFd Len Flags SrcAddr) zero_response in
    recv_finish Len SrcAddr AddrLen rc response.

Definition recv (SockFd Len Flags : Z) : sh sock_out := recvfrom SockFd Len Flags false false.

(** errno is 0 after a success. *)
Definition read (Fd Count : Z) : sh sock_out :=
  let# mw := mwcomms_is_mwsocket Fd in
  let as_int o := {| so_ret := s32 (so_ret o); so_buf := so_buf o; so_addr := so_addr o; so_val := so_val o |} in
  if negb mw then
    let# r := sys (LibcRead Fd Count) in
    if s32 (sr_ret r) <? 0 then sret (as_int (native_out r)) else set_errno 0 ;#; sret (as_int (native_out r))
  else
    let# o := recvfrom Fd Count 0 false false in sret (as_int o).

(** The buffers one after the other; the total, and what each one gets. *)
Fixpoint readv_each (Fd : Z) (lens : list Z) (tot : Z) (got : list (list Z)) : sh (Z * list (list Z)) :=
  match lens with
  | [] => set_errno 0 ;#; sret (tot, got)
  | len :: rest =>
      let# o := recvfrom Fd len 0 false false in
      if so_ret o <? 0 then sret (tot, got)
      else readv_each Fd rest (tot + so_ret o) (got ++ [default [] (so_buf o)])
  end.

(** What libc's readv() does with the bytes. *)
Fixpoint scatter (lens : list Z) (bytes : list Z) : list (list Z) :=
  match lens with
  | [] => []
  | len :: rest => take (Z.to_nat len) bytes :: scatter rest (drop (Z.to_nat len) bytes)
  end.

(** The total is returned, also after libc's readv(), which does not count
    in it. *)
Definition readv (Fd : Z) (lens : list Z) : sh (Z * list (list Z)) :=
  let# mw := mwcomms_is_mwsocket Fd in
  if negb mw then
    let# r := sys (LibcReadv Fd lens) in sret (0, scatter lens (default [] (sr_buf r)))
  else readv_each Fd lens 0 [].

(** ** Sending *)

(** The request of the chunk at [tot_sent], from that of the last one. *)
Definition send_chunk (Buf : list Z) (tot_sent chunksz : Z) (request : mt_request_generic)
    : mt_request_generic :=
  let Len := Z.of_nat (length Buf) in
  let request := if 0 <? tot_sent
                 then set_gq_flags (Z.land (rq_flags (gq_base request)) (Z.lnot MT_FLAGS_BATCH_SEND_INIT)) request
                 else request in
  let request := if Len =? tot_sent + chunksz
                 then set_gq_flags (Z.lor (rq_flags (gq_base request)) MT_FLAGS_BATCH_SEND_FINI) request
                 else request in
  let request := set_gq_size (MT_REQUEST_SOCKET_SEND_SIZE + chunksz) request in
  set_gq_body (patch 4 (take (Z.to_nat chunksz) (drop (Z.to_nat tot_sent) Buf)) (gq_body request)) request.

(** The loop: the code and the error of the last request, and its
    response. After a chunk that failed every one waits for its response. *)
Fixpoint send_batch (n : nat) (SockFd : Z) (Buf : list Z) (tot_sent : Z) (final : bool) (rc err : Z)
    (request : mt_request_generic) (response : list Z) : sh (Z * Z * list Z) :=
  let Len := Z.of_nat (length Buf) in
  if negb (tot_sent <? Len) then sret (rc, err, response)
  else
    match n with
    | O => sfuel
    | Datatypes.S n' =>
        let chunksz := Z.min MESSAGE_TYPE_MAX_PAYLOAD_LEN (Len - tot_sent) in
        let final := final || (Len =? tot_sent + chunksz) in
        let# (rc, request, response) :=
          mwcomms_write_request SockFd final (send_chunk Buf tot_sent chunksz request) response in
        if truth rc then
          let# e := errno in
          let err := if MW_ERROR_REMOTE_SURPRISE_CLOSE =? e then EPIPE else e in
          if negb final then send_batch n' SockFd Buf tot_sent true rc err request response
          else sret (rc, err, response)
        else send_batch n' SockFd Buf (tot_sent + chunksz) final rc err request response
    end.

Definition batch_start_request (SockFd Flags : Z) : mt_request_generic :=
  set_gq_flags (Z.lor MT_FLAGS_BATCH_SEND_INIT MT_FLAGS_BATCH_SEND)
    (fill_body (le_bytes 4 Flags)
       (mwcomms_init_request MtRequestSocketSend MT_REQUEST_SOCKET_SEND_SIZE SockFd)).

(** One round per byte, and one for the first failure, is more than enough. *)
Definition send (SockFd : Z) (Buf : list Z) (Flags : Z) : sh Z :=
  let# mw := mwcomms_is_mwsocket SockFd in
  if negb mw then let# r := sys (LibcSend SockFd Buf Flags) in sret (sr_ret r)
  else
    let# (rc, err, response) :=
      send_batch (Datatypes.S (length Buf)) SockFd Buf 0 false 0 0 (batch_start_request SockFd Flags) zero_response in
    if 0 <? rsp_send_count response then set_errno 0 ;#; sret (rsp_send_count response)
    else if 0 =? rc then set_errno (s32 (- rsp_status response)) ;#; sret (-1)
    else set_errno err ;#; sret rc.

Definition write (Fd : Z) (Buf : list Z) : sh Z :=
  let# mw := mwcomms_is_mwsocket Fd in
  if negb mw then let# r := sys (LibcWrite Fd Buf) in sret (s32 (sr_ret r)) else send Fd Buf 0.

Fixpoint writev_each (Fd : Z) (bufs : list (list Z)) (tot : Z) : sh Z :=
  match bufs with
  | [] => set_errno 0 ;#; sret tot
  | buf :: rest =>
      let# rc := send Fd buf 0 in
      if rc <? 0 then sret rc else writev_each Fd rest (tot + rc)
  end.

Definition writev (Fd : Z) (bufs : list (list Z)) : sh Z :=
  let# mw := mwcomms_is_mwsocket Fd in
  if negb mw then let# r := sys (LibcWritev Fd bufs) in sret (sr_ret r)
  else writev_each Fd bufs 0.

(** ** Options *)

(** [OptLen] is the value behind the pointer, and the size of the buffer. *)
Definition getsockopt (Fd Level OptName OptLen : Z) : sh sock_out :=
  let# mw := mwcomms_is_mwsocket Fd in
  if negb mw then
    let# r := sys (LibcGetsockopt Fd Level OptName OptLen) in
    sret {| so_ret := s32 (sr_ret r); so_buf := sr_buf r; so_addr := sr_addr r; so_val := sr_val r |}
  else
    let (rc, name) := mwcomms_set_sockattr Level OptName 0 in
    if truth rc then set_errno rc ;#; sret (out_rc (-1))
    else
      let# r := sys (IoctlSocketAttributes Fd (zero_attrib false name [])) in
      let rc := s32 (sr_ret r) in
      let val := default (wa_val (zero_attrib false name [])) (sr_buf r) in
      if truth rc then sret (out_rc rc)
      else if is_timeout name then
        if OptLen <? Z.of_nat sizeof_timeval then sundef
        else set_errno 0 ;#;
             sret {| so_ret := 0; so_buf := Some (take sizeof_timeval val); so_addr := None;
                     so_val := Some (Z.of_nat sizeof_timeval) |}
      else
        set_errno 0 ;#;
        sret {| so_ret := 0;
                so_buf := if (0 <? OptLen) && (OptLen <=? size_of ct_sockfeat_arg)
                          then Some (take (Z.to_nat OptLen) val) else None;
                so_addr := None; so_val := None |}.

Definition setsockopt (Fd Level OptName : Z) (OptVal : list Z) : sh Z :=
  let OptLen := Z.of_nat (length OptVal) in
  let# mw := mwcomms_is_mwsocket Fd in
  if negb mw then sys_int (LibcSetsockopt Fd Level OptName OptVal)
  else
    let (rc, name) := mwcomms_set_sockattr Level OptName 0 in
    if truth rc then set_errno rc ;#; sret (-1)
    else
      let# val := (if is_timeout name then
                     if OptLen <? Z.of_nat sizeof_timeval then sundef else sret (take sizeof_timeval OptVal)
                   else if (0 <? OptLen) && (OptLen <=? size_of ct_sockfeat_arg) then sret OptVal
                   else sret []) in
      let# rc := sys_int (IoctlSocketAttributes Fd (zero_attrib true name val)) in
      if truth rc then sret rc else set_errno 0 ;#; sret rc.

(** ** Names *)

Definition getname_request (Type_ : mt_request_type) (Size SockFd AddrLen : Z) : mt_request_generic :=
  fill_body (le_bytes 2 AddrLen) (mwcomms_init_request Type_ Size SockFd).

(** The length is not updated. The error of libc's call is lost. *)
Definition getsockname (SockFd AddrLen : Z) : sh sock_out :=
  let# mw := mwcomms_is_mwsocket SockFd in
  if negb mw then
    let# r := sys (LibcGetsockname SockFd AddrLen) in
    set_errno 0 ;#;
    sret {| so_ret := s32 (sr_ret r); so_buf := sr_buf r; so_addr := sr_addr r; so_val := sr_val r |}
  else
    let# (rc, _, response) := mwcomms_write_request SockFd true
      (getname_request MtRequestSocketGetName MT_REQUEST_SOCKET_GETNAME_SIZE SockFd AddrLen) zero_response in
    if truth rc then sret (out_rc rc)
    else if rsp_status response <? 0 then
      set_errno (s32 (- rsp_status response)) ;#; sret (out_rc (-1))
    else set_errno 0 ;#; sret (out_addr rc (linux_populate_sockaddr_in (rsp_getname_sockaddr response))).

Definition getpeername (SockFd AddrLen : Z) : sh sock_out :=
  let# mw := mwcomms_is_mwsocket SockFd in
  if negb mw then
    let# r := sys (LibcGetpeername SockFd AddrLen) in
    sret {| so_ret := s32 (sr_ret r); so_buf := sr_buf r; so_addr := sr_addr r; so_val := sr_val r |}
  else
    let# (rc, _, response) := mwcomms_write_request SockFd true
      (getname_request MtRequestSocketGetPeer MT_REQUEST_SOCKET_GETPEER_SIZE SockFd AddrLen) zero_response in
    if truth rc then sret (out_rc rc)
    else if rsp_status response <? 0 then
      set_errno (s32 (- rsp_status response)) ;#; sret (out_rc (-1))
    else set_errno 0 ;#; sret (out_addr rc (linux_populate_sockaddr_in (rsp_getname_sockaddr response))).

End Shim.

(** ** Load and unload *)

Section Load.

Context {S : Type} {Sys : ShimSys S}.

(** The symbols of libc that are looked up, in this order. *)
Definition libc_symbols : list (list Z) :=
  map text ["write"; "read"; "readv"; "writev"; "close"; "shutdown"; "socket"; "bind"; "listen"; "accept";
            "accept4"; "connect"; "send"; "sendto"; "recv"; "recvfrom"; "getsockopt"; "setsockopt";
            "getsockname"; "getpeername"; "fcntl"]%string.

Fixpoint get_libc_symbols (l : list (list Z)) : sh S bool :=
  match l with
  | [] => sret true
  | symbol :: rest =>
      let# r := sys (Dlsym symbol) in
      if truth (sr_ret r) then get_libc_symbols rest else sret false
  end.

(** The device, and the handle of libc; [None] is exit(1). *)
Definition init_wrapper : sh S (option (Z * Z)) :=
  let# devfd := sys_int OpenDevice in
  if devfd <? 0 then sret None
  else
    let# r := sys Dlopen in
    if negb (truth (sr_ret r)) then sret None
    else
      let# found := get_libc_symbols libc_symbols in
      sret (if found then Some (devfd, sr_ret r) else None).

Definition fini_wrapper (devfd g_dlh_libc : Z) : sh S unit :=
  (if truth g_dlh_libc then sys Dlclose ;#; sret tt else sret tt) ;#;
  (if 0 <? devfd then sys_int (LibcClose devfd) ;#; sret tt else sret tt).

End Load.
