(* ===== verification/ShimCalls.v ===== *)
(** * ShimCalls: an application that uses the shim

    The socket calls an application can make, as data; the system below
    as a function with a trace of the calls it got; the rules by which a
    function of the shim is run. *)

From stdpp Require Import base numbers list.
From Stdlib Require Import ZArith Lia.
From S2P Require Import Prelude MessageTypes PvmXen Threads MwsState MwsRequest MwsResponse MwsFile Shim.
Import LinuxErrno.

(** ** The calls *)

Inductive sock_call : Type :=
| CallSocket (domain type protocol : Z)
| CallClose (fd : Z)
| CallBind (fd : Z) (addr : list Z) (addrlen : Z)
| CallListen (fd backlog : Z)
| CallAccept (fd : Z) (addr : bool) (len : option Z)
| CallAccept4 (fd : Z) (addr : bool) (len : option Z) (flags : Z)
| CallConnect (fd : Z) (addr : list Z) (addrlen : Z)
| CallRecvfrom (fd len flags : Z) (addr addrlen : bool)
| CallRecv (fd len flags : Z)
| CallRead (fd len : Z)
| CallReadv (fd : Z) (lens : list Z)
| CallSend (fd : Z) (bytes : list Z) (flags : Z)
| CallWrite (fd : Z) (bytes : list Z)
| CallWritev (fd : Z) (bufs : list (list Z))
| CallShutdown (fd how : Z)
| CallGetsockopt (fd level optname optlen : Z)
| CallSetsockopt (fd level optname : Z) (optval : list Z)
| CallGetsockname (fd len : Z)
| CallGetpeername (fd len : Z)
| CallFcntl (fd cmd arg : Z).

Definition rc_only {S} (m : sh S Z) : sh S sock_out := let# rc := m in sret (out_rc rc).

Section Calls.

Context {S : Type} {Sys : ShimSys S}.
Context (fuel : nat) (devfd : Z).

Definition run_call (c : sock_call) : sh S sock_out :=
  match c with
  | CallSocket d t p => rc_only (socket devfd d t p)
  | CallClose fd => rc_only (close fd)
  | CallBind fd a l => rc_only (bind_ fuel devfd fd a l)
  | CallListen fd b => rc_only (listen fuel devfd fd b)
  | CallAccept fd a l => accept fuel devfd fd a l
  | CallAccept4 fd a l f => accept4 fuel devfd fd a l f
  | CallConnect fd a l => rc_only (connect fuel devfd fd a l)
  | CallRecvfrom fd l f a al => recvfrom fuel devfd fd l f a al
  | CallRecv fd l f => recv fuel devfd fd l f
  | CallRead fd l => read fuel devfd fd l
  | CallReadv fd ls =>
      let# (tot, got) := readv fuel devfd fd ls in
      sret {| so_ret := tot; so_buf := Some (concat got); so_addr := None; so_val := None |}
  | CallSend fd bs f => rc_only (send fuel devfd fd bs f)
  | CallWrite fd bs => rc_only (write fuel devfd fd bs)
  | CallWritev fd bufs => rc_only (writev fuel devfd fd bufs)
  | CallShutdown fd h => rc_only (shutdown fuel devfd fd h)
  | CallGetsockopt fd l o n => getsockopt devfd fd l o n
  | CallSetsockopt fd l o v => rc_only (setsockopt devfd fd l o v)
  | CallGetsockname fd l => getsockname fuel devfd fd l
  | CallGetpeername fd l => getpeername fuel devfd fd l
  | CallFcntl fd c a => rc_only (fcntl devfd fd c a)
  end.

(** An application: one call after the other. *)
Fixpoint run_calls (cs : list sock_call) : sh S unit :=
  match cs with
  | [] => sret tt
  | c :: rest => run_call c ;#; run_calls rest
  end.

End Calls.

(** The file descriptor a call is about, and the same call to libc. *)
Definition on_file (c : sock_call) : option (Z * sys_call) :=
  match c with
  | CallSocket _ _ _ | CallClose _ => None
  | CallBind fd a l => Some (fd, LibcBind fd a l)
  | CallListen fd b => Some (fd, LibcListen fd b)
  | CallAccept fd a l => Some (fd, LibcAccept fd a l)
  | CallAccept4 fd a l f => Some (fd, LibcAccept4 fd a l f)
  | CallConnect fd a l => Some (fd, LibcConnect fd a l)
  | CallRecvfrom fd l f a al => Some (fd, LibcRecvfrom fd l f a al)
  | CallRecv fd l f => Some (fd, LibcRecvfrom fd l f false false)
  | CallRead fd l => Some (fd, LibcRead fd l)
  | CallReadv fd ls => Some (fd, LibcReadv fd ls)
  | CallSend fd bs f => Some (fd, LibcSend fd bs f)
  | CallWrite fd bs => Some (fd, LibcWrite fd bs)
  | CallWritev fd bufs => Some (fd, LibcWritev fd bufs)
  | CallShutdown fd h => Some (fd, LibcShutdown fd h)
  | CallGetsockopt fd l o n => Some (fd, LibcGetsockopt fd l o n)
  | CallSetsockopt fd l o v => Some (fd, LibcSetsockopt fd l o v)
  | CallGetsockname fd l => Some (fd, LibcGetsockname fd l)
  | CallGetpeername fd l => Some (fd, LibcGetpeername fd l)
  | CallFcntl fd c a => Some (fd, LibcFcntl fd c a)
  end.

(** ** A system that is a function *)

Class LibcOS (W : Type) := libc : sys_call -> W -> sys_res * W.

(** The calls so far with their results, and the system. *)
Record sys_world (W : Type) := { sw_trace : list (sys_call * sys_res); sw_os : W }.
Arguments sw_trace {W}.
Arguments sw_os {W}.

Section Traced.

Context {W : Type} {OS : LibcOS W}.

Definition after (c : sys_call) (s : sys_world W) : sys_world W :=
  let (r, w) := libc c (sw_os s) in {| sw_trace := sw_trace s ++ [(c, r)]; sw_os := w |}.
Definition answer (c : sys_call) (s : sys_world W) : sys_res := fst (libc c (sw_os s)).

#[export] Instance TracedSys : ShimSys (sys_world W) :=
  fun c => lift (fun s => Done (answer c s, after c s)).

Definition run {A} (m : sh (sys_world W) A) (e : Z) (s : sys_world W) : outcome (A * Z * sys_world W) :=
  alone (m e) s.

Lemma run_bind {A B} (m : sh (sys_world W) A) (k : A -> sh (sys_world W) B) e s :
  run (sbind m k) e s = obind (run m e s) (fun '(a, e', s') => run (k a) e' s').
Proof.
  unfold run, sbind. rewrite alone_pbind. unfold bind, obind.
  destruct (alone (m e) s) as [[[a e'] s']| | |]; reflexivity.
Qed.

Lemma run_ret {A} (a : A) e s : run (sret a) e s = Done (a, e, s).
Proof. reflexivity. Qed.
Lemma run_errno e s : run errno e s = Done (e, e, s).
Proof. reflexivity. Qed.
Lemma run_set_errno v e s : run (set_errno v) e s = Done (tt, v, s).
Proof. reflexivity. Qed.
Lemma run_sys c e s : run (sys c) e s = Done (answer c s, default e (sr_errno (answer c s)), after c s).
Proof. reflexivity. Qed.
Lemma run_sys_int c e s :
  run (sys_int c) e s = Done (s32 (sr_ret (answer c s)), default e (sr_errno (answer c s)), after c s).
Proof. reflexivity. Qed.

Lemma trace_after c s : sw_trace (after c s) = sw_trace s ++ [(c, answer c s)].
Proof. unfold after, answer. by destruct (libc c (sw_os s)). Qed.

End Traced.

#[export] Hint Rewrite @run_bind @run_ret @run_errno @run_set_errno @run_sys @run_sys_int : shim.

(** The steps of a run that are known. *)
Ltac shim := repeat (progress autorewrite with shim; cbn [obind]).
