(* ===== verification/ShimRequest.v ===== *)
(** * ShimRequest: the requests of the shim, as the INS reads them

    What the shim writes is read back by the functions of MessageTypes,
    by which the handlers of the INS read a request. *)

From stdpp Require Import base numbers list.
From Stdlib Require Import ZArith Lia.
From S2P Require Import Prelude MessageTypes PvmXen Threads MwsState MwsRequest MwsResponse MwsFile Shim.
Import LinuxErrno.

(** The size says that the preamble is there. *)
Definition has_base (r : mt_request_generic) : bool := MT_REQUEST_BASE_SIZE <=? rq_size (gq_base r).

(** The preamble at the width of its fields. *)
Definition stored_base (b : mt_request_base) : mt_request_base :=
  {| rq_sig := u16 (rq_sig b); rq_type := u32 (rq_type b); rq_size := u16 (rq_size b);
     rq_id := u64 (rq_id b); rq_sockfd := s64 (rq_sockfd b); rq_flags := u32 (rq_flags b) |}.

Lemma put_request_split r :
  has_base r = true ->
  put_request r = put_request_base (gq_base r) ++ take (Z.to_nat (rq_size (gq_base r)) - 28) (gq_body r).
Proof.
  unfold has_base. intros H%Z.leb_le. change MT_REQUEST_BASE_SIZE with 28 in H. unfold put_request.
  rewrite take_app, length_put_request_base, take_ge; [done|]. rewrite length_put_request_base. lia.
Qed.

Lemma stored_base_read b tail : get_request_base (put_request_base b ++ tail) = stored_base b.
Proof. unfold get_request_base, put_request_base. by read_back. Qed.

Lemma get_put_request r : has_base r = true -> get_request_base (put_request r) = stored_base (gq_base r).
Proof. intros H. by rewrite put_request_split, stored_base_read. Qed.

(** What follows the preamble. *)
Lemma body_put_request r :
  has_base r = true ->
  drop 28 (put_request r) = take (Z.to_nat (rq_size (gq_base r)) - 28) (gq_body r).
Proof.
  intros H. rewrite put_request_split by done. apply drop_app_length'. by rewrite length_put_request_base.
Qed.

Lemma take_patch (n : nat) bytes bs : length bytes = n -> take n (patch 0 bytes bs) = bytes.
Proof. intros H. unfold patch. rewrite take_0. cbn [app]. by apply take_app_length'. Qed.

Lemma take_take_patch (n m : nat) bytes bs :
  length bytes = n -> (n <= m)%nat -> exists rest, take m (patch 0 bytes bs) = bytes ++ rest.
Proof.
  intros <- H. exists (take (m - length bytes) (drop (0 + length bytes) bs)).
  unfold patch. rewrite take_0. cbn [app]. rewrite take_app, take_ge by lia. done.
Qed.

(** The body of a request of the shim's: [bytes], which its size covers. *)
Lemma filled_body type size fd bytes :
  28 <= size < 2 ^ 16 -> length bytes = (Z.to_nat size - 28)%nat ->
  drop 28 (put_request (fill_body bytes (mwcomms_init_request type size fd))) = bytes.
Proof.
  intros Hs Hl. assert (u16 size = size) as Hu by (apply wrapu_small; unfold in_u; lia).
  rewrite body_put_request.
  - cbn [fill_body set_gq_body mwcomms_init_request gq_base gq_body rq_size]. rewrite Hu. by apply take_patch.
  - unfold has_base. cbn [fill_body set_gq_body mwcomms_init_request gq_base rq_size]. rewrite Hu.
    apply Z.leb_le. change MT_REQUEST_BASE_SIZE with 28. lia.
Qed.

(** ** What the INS reads *)

(** The address an application passes, as the translation leaves it. *)
Lemma get_put_mt_sockaddr m :
  in_u 32 (mt_sin_family m) -> in_u 16 (mt_sin_port m) -> in_u 64 (mt_sin_addr m) ->
  length (mt_sin_zero m) = 8%nat ->
  get_sockaddr_in (put_mt_sockaddr_in m) = m.
Proof.
  intros Hf Hp Ha Hz. unfold get_sockaddr_in, put_mt_sockaddr_in.
  replace (le_bytes 4 (mt_sin_family m) ++ le_bytes 2 (mt_sin_port m) ++ [0; 0]
           ++ le_bytes 8 (mt_sin_addr m) ++ mt_sin_zero m)
    with (write_fields sockaddr_in_ws [mt_sin_family m; mt_sin_port m; 0; mt_sin_addr m] ++ mt_sin_zero m)
    by (cbn [write_fields sockaddr_in_ws]; rewrite <- !app_assoc; reflexivity).
  unfold fld. rewrite read_write_fields by done. cbn [zip_with nth sockaddr_in_ws].
  change (8 * Z.of_nat 4) with 32. change (8 * Z.of_nat 2) with 16. change (8 * Z.of_nat 8) with 64.
  rewrite !wrapu_small by done. rewrite drop_app_length' by (by rewrite length_write_fields).
  rewrite take_ge by lia. by destruct m.
Qed.

(** The preamble the INS reads: of this kind and size, for this
    descriptor, without flags. *)
Definition preamble (type : mt_request_type) (size fd : Z) (bytes : list Z) : Prop :=
  get_request_base bytes
  = {| rq_sig := MT_SIGNATURE_REQUEST; rq_type := request_type_code type; rq_size := size;
       rq_id := 0; rq_sockfd := fd; rq_flags := 0 |}
  /\ Z.of_nat (length bytes) = size.

Definition an_int (x : Z) : Prop := in_s 32 x.

Lemma filled_preamble type size fd bytes :
  28 <= size < 2 ^ 16 -> an_int fd -> length bytes = (Z.to_nat size - 28)%nat ->
  preamble type size fd (put_request (fill_body bytes (mwcomms_init_request type size fd))).
Proof.
  intros Hs Hfd Hl. assert (u16 size = size) as Hu by (apply wrapu_small; unfold in_u; lia).
  assert (has_base (fill_body bytes (mwcomms_init_request type size fd)) = true) as Hb.
  { unfold has_base. cbn [fill_body set_gq_body mwcomms_init_request gq_base rq_size]. rewrite Hu.
    apply Z.leb_le. change MT_REQUEST_BASE_SIZE with 28. lia. }
  split.
  - rewrite get_put_request by done. unfold stored_base.
    cbn [fill_body set_gq_body mwcomms_init_request gq_base rq_sig rq_type rq_size rq_id rq_sockfd rq_flags].
    rewrite !Hu. f_equal.
    + by destruct type.
    + apply wraps_small; [lia|]. unfold an_int, in_s in *. lia.
  - rewrite put_request_split by done. rewrite length_app, length_put_request_base.
    cbn [fill_body set_gq_body mwcomms_init_request gq_base gq_body rq_size]. rewrite Hu, take_patch; lia.
Qed.

Lemma body_fld_drop ws i bs : body_fld ws i bs = fld ws i (drop 28 bs).
Proof. reflexivity. Qed.

Lemma fld_write ws vs i tail :
  length ws = length vs ->
  fld ws i (write_fields ws vs ++ tail) = nth i (zip_with (fun w v => wrapu (8 * Z.of_nat w) v) ws vs) 0.
Proof. intros H. unfold fld. by rewrite read_write_fields. Qed.

Lemma le_bytes_field n v : le_bytes n v = write_fields [n] [v] ++ [].
Proof. cbn. by rewrite !app_nil_r. Qed.

(** The addresses of an application: 16 bytes. *)
Definition a_sockaddr (addr : list Z) : Prop := length addr = sizeof_sockaddr.

Lemma linux_family_range f : in_u 32 (linux_mt_protocol_family f).
Proof. unfold linux_mt_protocol_family. repeat case_match; by vm_compute. Qed.

Lemma sockaddr_read addr :
  a_sockaddr addr ->
  get_sockaddr_in (put_mt_sockaddr_in (linux_populate_mt_sockaddr_in addr)) = linux_populate_mt_sockaddr_in addr
  /\ length (put_mt_sockaddr_in (linux_populate_mt_sockaddr_in addr)) = 24%nat.
Proof.
  intros Ha. unfold a_sockaddr, sizeof_sockaddr in Ha.
  assert (length (mt_sin_zero (linux_populate_mt_sockaddr_in addr)) = 8%nat) as Hz
    by (cbn; rewrite length_take, length_drop; lia).
  split.
  - apply get_put_mt_sockaddr; [apply linux_family_range| | |done].
    + apply (read_fields_range [2; 2; 4]%nat addr 1 2). done.
    + pose proof (read_fields_range [2; 2; 4]%nat addr 2 4 eq_refl) as H.
      change (8 * Z.of_nat 4) with 32 in H. unfold in_u in *. cbn [mt_sin_addr linux_populate_mt_sockaddr_in].
      unfold fld. lia.
  - unfold put_mt_sockaddr_in. rewrite !length_app, !length_le_bytes, Hz. reflexivity.
Qed.


