(* ===== verification/ShimWalk.v ===== *)
(** * ShimWalk: what every call of the shim is made of

    A property of programs that is closed under the ways the shim builds
    them ([ShimWalk]) holds of every call ([walk_call], [walk_calls]). A
    read() or write() of libc's is made only for a descriptor the driver
    does not know; all others are those of mwcomms_write_request(), which
    waits for the response everywhere but in a batch. *)

From stdpp Require Import base numbers list.
From Stdlib Require Import ZArith Lia.
From S2P Require Import Prelude MessageTypes PvmXen Threads MwsState MwsRequest MwsResponse MwsFile Shim ShimCalls ShimRequest.
Import LinuxErrno.

(** The descriptor of a read() or write(). *)
Definition raw_io (c : sys_call) : option Z :=
  match c with LibcRead fd _ | LibcWrite fd _ => Some fd | _ => None end.

Section Walk.

Context {S : Type} {Sys : ShimSys S}.
Context (fuel : nat) (devfd : Z).

Class ShimWalk (P : forall A, sh S A -> Prop) := {
  w_ret : forall A (a : A), P A (sret a);
  w_bind : forall A B (m : sh S A) (k : A -> sh S B), P A m -> (forall a, P B (k a)) -> P B (sbind m k);
  w_errno : P Z errno;
  w_set_errno : forall v, P unit (set_errno v);
  w_undef : forall A, P A sundef;
  w_sys : forall c, raw_io c = None -> P sys_res (sys c);
  w_request : forall fd req resp, has_base req = true -> P _ (mwcomms_write_request fuel fd true req resp);
  w_raw : forall A fd c (k : sys_res -> sh S A) (m : sh S A),
    raw_io c = Some fd -> (forall r, P A (k r)) -> P A m ->
    P A (let# mw := mwcomms_is_mwsocket devfd fd in if negb mw then sbind (sys c) k else m);
  w_batch : forall fd Buf flags resp,
    P _ (send_batch fuel (Datatypes.S (length Buf)) fd Buf 0 false 0 0 (batch_start_request fd flags) resp)
}.

Context (P : forall A, sh S A -> Prop) {HP : ShimWalk P}.

Lemma w_sys_int c : raw_io c = None -> P Z (sys_int c).
Proof. intros H. apply w_bind; [by apply w_sys|]. intros r. apply w_ret. Qed.
Lemma w_native c : raw_io c = None -> P sock_out (native c).
Proof. intros H. apply w_bind; [by apply w_sys|]. intros r. apply w_ret. Qed.

Lemma w_is_mwsocket fd : P bool (mwcomms_is_mwsocket devfd fd).
Proof.
  unfold mwcomms_is_mwsocket. destruct (_ <? 0); [apply w_ret|].
  apply w_bind; [by apply w_sys|]. intros r. destruct (_ <? 0); apply w_ret.
Qed.

End Walk.

(** Goes through a function: the ways of building are in the class, a
    choice is taken apart. *)
Ltac shim_walk :=
  lazymatch goal with
  | |- ?P _ (sret _) => apply (@w_ret _ _ _ _ P _)
  | |- ?P _ errno => apply (@w_errno _ _ _ _ P _)
  | |- ?P _ (set_errno _) => apply (@w_set_errno _ _ _ _ P _)
  | |- ?P _ sundef => apply (@w_undef _ _ _ _ P _)
  | |- ?P _ (sys _) => apply (@w_sys _ _ _ _ P _); reflexivity
  | |- ?P _ (sys_int _) => apply (@w_sys_int _ _ _ _ P _); reflexivity
  | |- ?P _ (native _) => apply (@w_native _ _ _ _ P _); reflexivity
  | |- ?P _ (mwcomms_write_request _ _ _ _ _) => apply (@w_request _ _ _ _ P _); try reflexivity
  | |- ?P _ (mwcomms_is_mwsocket _ _) => apply (@w_is_mwsocket _ _ _ _ P _)
  | |- ?P _ (send_batch _ _ _ _ _ _ _ _ _ _) => apply (@w_batch _ _ _ _ P _)
  | |- ?P _ (sbind _ _) => apply (@w_bind _ _ _ _ P _); [shim_walk|intros ?; shim_walk]
  | |- ?P _ (let (_, _) := ?x in _) => destruct x; shim_walk
  | |- ?P _ (if ?b then _ else _) => destruct b; shim_walk
  | |- ?P _ (match ?x with _ => _ end) => destruct x; shim_walk
  | |- _ => idtac
  end.

Section Calls.

Context {S : Type} {Sys : ShimSys S}.
Context (fuel : nat) (devfd : Z).
Context (P : forall A, sh S A -> Prop) {HP : ShimWalk fuel devfd P}.

Lemma walk_fcntl fd cmd arg : P _ (fcntl devfd fd cmd arg).
Proof. unfold fcntl. shim_walk. Qed.

Lemma walk_accept fd a l : P _ (accept fuel devfd fd a l).
Proof. unfold accept. shim_walk. Qed.

Lemma walk_recvfrom fd len flags a al : P _ (recvfrom fuel devfd fd len flags a al).
Proof. unfold recvfrom, recv_finish. cbv zeta. shim_walk. by destruct a. Qed.

Lemma walk_send fd buf flags : P _ (send fuel devfd fd buf flags).
Proof. unfold send. shim_walk. Qed.

Lemma walk_accept4 fd a l f : P _ (accept4 fuel devfd fd a l f).
Proof.
  assert (forall n e o, P _ (accept4_fail n e o)) as Hf
    by (intros; unfold accept4_fail, close; shim_walk).
  unfold accept4. shim_walk; try apply Hf; try apply walk_fcntl; apply walk_accept.
Qed.

Lemma walk_readv_each fd lens tot got : P _ (readv_each fuel devfd fd lens tot got).
Proof.
  revert tot got. induction lens as [|len lens IH]; intros tot got; cbn [readv_each]; shim_walk;
    [apply walk_recvfrom|apply IH].
Qed.

Lemma walk_writev_each fd bufs tot : P _ (writev_each fuel devfd fd bufs tot).
Proof.
  revert tot. induction bufs as [|buf bufs IH]; intros tot; cbn [writev_each]; shim_walk;
    [apply walk_send|apply IH].
Qed.

Lemma walk_call c : P _ (run_call fuel devfd c).
Proof.
  destruct c; cbn [run_call]; unfold rc_only;
    try apply walk_accept; try apply walk_accept4; try apply walk_recvfrom.
  - unfold socket. shim_walk; apply walk_fcntl.
  - unfold close. shim_walk.
  - unfold bind_. cbv zeta. shim_walk.
  - unfold listen. shim_walk.
  - unfold connect. shim_walk.
  - unfold read. cbv zeta. apply (@w_raw _ _ _ _ P _); [done| |].
    + intros r. shim_walk.
    + shim_walk. apply walk_recvfrom.
  - unfold readv. shim_walk. apply walk_readv_each.
  - shim_walk. apply walk_send.
  - shim_walk. unfold write. apply (@w_raw _ _ _ _ P _); [done| |].
    + intros r. shim_walk.
    + apply walk_send.
  - unfold writev. shim_walk. apply walk_writev_each.
  - unfold shutdown. shim_walk.
  - unfold getsockopt. cbv zeta. shim_walk.
  - unfold setsockopt. cbv zeta. shim_walk.
  - unfold getsockname. shim_walk.
  - unfold getpeername. shim_walk.
  - shim_walk. apply walk_fcntl.
Qed.

Lemma walk_calls cs : P _ (run_calls fuel devfd cs).
Proof. induction cs as [|c cs IH]; cbn [run_calls]; shim_walk; [apply walk_call|apply IH]. Qed.

End Calls.
