(* ===== verification/ShimNative.v ===== *)
(** * ShimNative: calls on other files

    What the shim does to a call that is not for an mwsocket. *)

From stdpp Require Import base numbers list.
From Stdlib Require Import ZArith Lia.
From S2P Require Import Prelude MessageTypes PvmXen Threads MwsState MwsRequest MwsResponse MwsFile Shim ShimCalls.
Import LinuxErrno.

(** What the application would get from libc itself. *)
Definition int_out (r : sys_res) : sock_out :=
  {| so_ret := s32 (sr_ret r); so_buf := sr_buf r; so_addr := sr_addr r; so_val := sr_val r |}.
Definition libc_result (c : sock_call) (r : sys_res) : sock_out :=
  match c with
  | CallRecvfrom _ _ _ _ _ | CallRecv _ _ _ => native_out r
  | CallAccept _ _ _ | CallAccept4 _ _ _ _ | CallRead _ _ | CallGetsockopt _ _ _ _
  | CallGetsockname _ _ | CallGetpeername _ _ => int_out r
  | CallSend _ _ _ | CallWritev _ _ => out_rc (sr_ret r)
  | CallReadv _ lens =>
      {| so_ret := sr_ret r; so_buf := Some (concat (scatter lens (default [] (sr_buf r))));
         so_addr := None; so_val := None |}
  | _ => out_rc (s32 (sr_ret r))
  end.

Section Native.

Context {W : Type} {OS : LibcOS W}.
Context (fuel : nat) (devfd : Z).

(** The driver says that the descriptor is none of its own. *)
Definition not_mwsocket (fd : Z) (s : sys_world W) : Prop :=
  let r := answer (IoctlIsMwsocket devfd fd) s in
  fd < 0 \/ s32 (sr_ret r) < 0 \/ default 0 (sr_val r) = 0.

(** The system after the driver was asked, and errno. *)
Definition asked (fd : Z) (s : sys_world W) : sys_world W :=
  if fd <? 0 then s else after (IoctlIsMwsocket devfd fd) s.
Definition asked_errno (fd e : Z) (s : sys_world W) : Z :=
  if fd <? 0 then e else default e (sr_errno (answer (IoctlIsMwsocket devfd fd) s)).

Lemma run_not_mwsocket fd e s :
  not_mwsocket fd s ->
  run (mwcomms_is_mwsocket devfd fd) e s = Done (false, asked_errno fd e s, asked fd s).
Proof.
  intros H. unfold mwcomms_is_mwsocket, asked, asked_errno.
  destruct (Z.ltb_spec fd 0); [reflexivity|]. shim.
  destruct H as [H|[H|H]]; [lia| |].
  - by rewrite (proj2 (Z.ltb_lt _ _) H).
  - destruct (_ <? 0); [reflexivity|]. by rewrite H.
Qed.

(** (C20) The shim is transparent for every call on a descriptor that is
    not an mwsocket, readv() excepted: the driver is asked once, the same
    call goes to libc once, its result and everything it stores are what
    the application gets, and errno of a failed call is the one libc set,
    but for getsockname(), which loses it. *)
Theorem native_calls_pass_through c fd call e s :
  on_file c = Some (fd, call) -> (forall lens, c <> CallReadv fd lens) -> not_mwsocket fd s ->
  let r := answer call (asked fd s) in
  exists e', run (run_call fuel devfd c) e s = Done (libc_result c r, e', after call (asked fd s))
  /\ ((forall len, c <> CallGetsockname fd len) ->
      so_ret (libc_result c r) < 0 -> e' = default e' (sr_errno r)).
Proof.
  intros Hc Hr Hn r. subst r.
  assert (forall e, run (mwcomms_is_mwsocket devfd fd) e s = Done (false, asked_errno fd e s, asked fd s)) as E
    by (intros; by apply run_not_mwsocket).
  destruct c; simplify_eq/=;
    unfold rc_only, bind_, listen, accept, accept4, connect, shutdown, recv, recvfrom, recv_finish, read, send, write, writev,
      getsockopt, setsockopt, getsockname, getpeername, fcntl, native; shim; rewrite ?E; cbn [obind negb orb]; shim;
    try (eexists; split; [reflexivity|intros _ _; by destruct (sr_errno _)]).
  - (* read *)
    set (r := answer (LibcRead fd len) (asked fd s)).
    destruct (Z.ltb_spec (s32 (sr_ret r)) 0) as [H|H].
    + rewrite run_ret. eexists; split; [reflexivity|]. intros _ _; by destruct (sr_errno _).
    + shim. eexists; split; [reflexivity|]. intros _ Hr0. change (s32 (sr_ret r) < 0) in Hr0. lia.
  - by destruct (Hr lens).
  - eexists; split; [reflexivity|]. intros Hg. by destruct (Hg len).
Qed.

(** readv() on a descriptor that is not an mwsocket returns 0,
    whatever libc's readv() returned: the bytes it read are in the buffers
    of the application, which is told that the file has ended; an error is
    not reported either. *)
Theorem native_readv_returns_zero fd lens e s :
  not_mwsocket fd s ->
  let r := answer (LibcReadv fd lens) (asked fd s) in
  exists e', run (readv fuel devfd fd lens) e s
             = Done ((0, scatter lens (default [] (sr_buf r))), e', after (LibcReadv fd lens) (asked fd s)).
Proof.
  intros Hn r. unfold readv. shim. rewrite run_not_mwsocket by done. cbn [obind negb]. shim. by eexists.
Qed.

End Native.

(** ** A concrete run *)

Definition ok_res (ret : Z) : sys_res :=
  {| sr_ret := ret; sr_errno := None; sr_buf := None; sr_addr := None; sr_val := None |}.
Definition failed_res (err : Z) : sys_res :=
  {| sr_ret := -1; sr_errno := Some err; sr_buf := None; sr_addr := None; sr_val := None |}.

(** A system without mwsockets, whose files hold two bytes each. *)
#[local] Instance plain_files : LibcOS unit := fun c w =>
  (match c with
   | IoctlIsMwsocket _ _ => failed_res EBADFD
   | LibcRead _ _ | LibcReadv _ _ =>
       {| sr_ret := 2; sr_errno := None; sr_buf := Some [7; 8]; sr_addr := None; sr_val := None |}
   | LibcBind _ _ _ => failed_res EINVAL
   | _ => ok_res 0
   end, w).
Definition plain_start : sys_world unit := {| sw_trace := []; sw_os := tt |}.

Lemma native_calls_pass_through_witness :
  exists e', run (run_call 0 3 (CallBind 5 [] 0)) 0 plain_start
             = Done (out_rc (-1), e', after (LibcBind 5 [] 0) (after (IoctlIsMwsocket 3 5) plain_start))
  /\ e' = EINVAL.
Proof.
  destruct (native_calls_pass_through 0 3 (CallBind 5 [] 0) 5 (LibcBind 5 [] 0) 0 plain_start) as (e' & E & He).
  - reflexivity.
  - by intros lens.
  - right. left. by vm_compute.
  - exists e'. split; [exact E|]. apply He; [by intros len|by vm_compute].
Defined.

Lemma native_readv_returns_zero_witness :
  exists e' s', run (readv 0 3 5 [1; 4]) 0 plain_start = Done ((0, [[7]; [8]]), e', s').
Proof.
  destruct (native_readv_returns_zero 0 3 5 [1; 4] 0 plain_start) as (e' & E).
  - right. left. by vm_compute.
  - eexists e', _. exact E.
Defined.
