(* ===== verification/ShimSafety.v ===== *)
(** * ShimSafety: every application that uses the shim

    Three properties of all sequences of socket calls, each an instance of
    the walk through the shim: they end, they keep the protocol of the
    driver's files, and they keep what the calls below them keep. *)

From stdpp Require Import base numbers list.
From Stdlib Require Import ZArith Lia.
From S2P Require Import Prelude MessageTypes PvmXen Threads MwsState MwsRequest MwsResponse MwsFile Shim ShimCalls ShimRequest ShimWalk ShimNative.
Import LinuxErrno.

(** ** Termination *)

Section Termination.

Context {W : Type} {OS : LibcOS W}.
Context (fuel : nat) (devfd : Z).

(** The call failed in a way after which the shim tries again; a failure
    that sets no errno may look like one. *)
Definition again (r : sys_res) : Prop :=
  s32 (sr_ret r) < 0 /\ (sr_errno r = None \/ sr_errno r = Some EINTR \/ sr_errno r = Some EAGAIN).

(** How often it will still do so, at most. *)
Context (busy : W -> nat).
Hypothesis busy_le : forall c w, (busy (snd (libc c w)) <= busy w)%nat.
Hypothesis busy_lt : forall c w, again (fst (libc c w)) -> (busy (snd (libc c w)) < busy w)%nat.

Definition busy_in (s : sys_world W) : nat := busy (sw_os s).

Lemma busy_after c s : (busy_in (after c s) <= busy_in s)%nat.
Proof. unfold busy_in, after. pose proof (busy_le c (sw_os s)). by destruct (libc c (sw_os s)). Qed.
Lemma busy_again c s : again (answer c s) -> (busy_in (after c s) < busy_in s)%nat.
Proof.
  unfold busy_in, after, answer. intros H. pose proof (busy_lt c (sw_os s) H).
  by destruct (libc c (sw_os s)).
Qed.

(** It ends, unless C leaves undefined what it does. *)
Definition ends {A} (o : outcome (A * Z * sys_world W)) (s : sys_world W) : Prop :=
  match o with
  | Done (_, _, s') => (busy_in s' <= busy_in s)%nat
  | Undef => True
  | Block | Fuel => False
  end.
Definition terminates (n : nat) A (m : sh (sys_world W) A) : Prop :=
  forall e s, (busy_in s < n)%nat -> ends (run m e s) s.

Lemma terminates_bind n A B (m : sh (sys_world W) A) (k : A -> sh (sys_world W) B) :
  terminates n A m -> (forall a, terminates n B (k a)) -> terminates n B (sbind m k).
Proof.
  intros Hm Hk e s Hs. rewrite run_bind. specialize (Hm e s Hs).
  destruct (run m e s) as [[[a e'] s']| | |]; cbn [obind]; try done. cbn in Hm.
  specialize (Hk a e' s' ltac:(lia)). unfold ends in *.
  destruct (run (k a) e' s') as [[[b e''] s'']| | |]; try done. lia.
Qed.

Lemma terminates_sys n c : terminates n _ (sys c).
Proof. intros e s Hs. rewrite run_sys. apply busy_after. Qed.

Lemma again_answer c s e :
  s32 (sr_ret (answer c s)) < 0 ->
  default e (sr_errno (answer c s)) = EINTR \/ default e (sr_errno (answer c s)) = EAGAIN ->
  again (answer c s).
Proof. intros H1 H2. split; [done|]. destruct (sr_errno (answer c s)); cbn in H2; intuition congruence. Qed.

Lemma terminates_write n fd bytes : terminates n _ (write_retry n fd bytes).
Proof.
  induction n as [|n IH]; intros e s Hs; [lia|]. cbn [write_retry]. shim.
  set (c := LibcWrite fd bytes). pose proof (busy_after c s) as Hle.
  destruct (s32 (sr_ret (answer c s)) <? 0) eqn:Hn; [|exact Hle].
  destruct ((EINTR =? default e (sr_errno (answer c s))) || (EAGAIN =? default e (sr_errno (answer c s)))) eqn:He;
    [|exact Hle].
  cbn [andb negb]. shim. apply Z.ltb_lt in Hn.
  assert (busy_in (after c s) < busy_in s)%nat.
  { apply busy_again, (again_answer _ _ e); [done|]. apply orb_true_iff in He.
    destruct He as [He|He]; apply Z.eqb_eq in He; auto. }
  pose proof (busy_after Nanosleep (after c s)).
  match goal with |- ends (run ?m ?e1 ?s1) _ => specialize (IH e1 s1 ltac:(lia)); destruct (run m e1 s1) as [[[a e'] s']| | |] end;
    try done. unfold ends in *. lia.
Qed.

Lemma terminates_read n fd resp : terminates n _ (read_retry n fd resp).
Proof.
  revert resp. induction n as [|n IH]; intros resp e s Hs; [lia|]. cbn [read_retry]. shim.
  set (c := LibcRead fd RESPONSE_REGION_SIZE). pose proof (busy_after c s) as Hle.
  destruct ((s32 (sr_ret (answer c s)) <? 0) && (EINTR =? default e (sr_errno (answer c s)))) eqn:He; [|exact Hle].
  apply andb_true_iff in He as [Hn He]. apply Z.ltb_lt in Hn. apply Z.eqb_eq in He.
  assert (busy_in (after c s) < busy_in s)%nat by (apply busy_again, (again_answer _ _ e); auto).
  match goal with |- ends (run (read_retry _ _ ?r) ?e1 ?s1) _ =>
    specialize (IH r e1 s1 ltac:(lia)); destruct (run (read_retry n fd r) e1 s1) as [[[a e'] s']| | |] end;
    try done. unfold ends in *. lia.
Qed.

Lemma terminates_request fd wait req resp : terminates fuel _ (mwcomms_write_request fuel fd wait req resp).
Proof.
  assert (forall A (a : A), terminates fuel A (sret a)) as Hret by (intros A a e s Hs; exact (Nat.le_refl _)).
  unfold mwcomms_write_request, await_response. cbv zeta. generalize (if wait then MT_REQUEST_SET_CALLER_WAITS req else req). intros rq.
  apply terminates_bind; [apply terminates_write|]. intros ct.
  destruct (ct <? 0); [apply Hret|]. destruct (negb wait); [apply Hret|]. apply terminates_bind; [apply terminates_read|]. intros [ct' resp'].
  repeat case_match; try apply Hret.
  apply terminates_bind; [|intros; apply Hret]. intros e s Hs. exact (Nat.le_refl _).
Qed.

(** Each round sends bytes, or is the first to wait for its response. *)
Lemma terminates_batch n fd Buf tot final rc err req resp :
  Z.of_nat (length Buf) - tot + Z.b2z (negb final) <= Z.of_nat n ->
  terminates fuel _ (send_batch fuel n fd Buf tot final rc err req resp).
Proof.
  revert tot final rc err req resp. induction n as [|n IH]; intros tot final rc err req resp Hn; cbn [send_batch];
    destruct (Z.ltb_spec tot (Z.of_nat (length Buf))) as [Ht|Ht]; cbn [negb];
    try (intros e s Hs; exact (Nat.le_refl _)).
  - exfalso. destruct final; cbn [negb Z.b2z] in Hn; lia.
  - assert (1 <= Z.min MESSAGE_TYPE_MAX_PAYLOAD_LEN (Z.of_nat (length Buf) - tot))
      by (unfold MESSAGE_TYPE_MAX_PAYLOAD_LEN, MESSAGE_TARGET_MAX_SIZE; lia).
    cbv zeta. set (chunk := Z.min _ _) in *. set (f := final || _).
    assert (Z.b2z (negb f) <= Z.b2z (negb final)) by (unfold f; destruct final, (_ =? _); cbn; lia).
    apply terminates_bind; [apply terminates_request|]. intros [[rc' req'] resp'].
    destruct (truth rc'); [|apply IH; lia].
    apply terminates_bind; [intros e s Hs; exact (Nat.le_refl _)|]. intros e'.
    destruct f eqn:Hf; cbn [negb Z.b2z] in *; [intros e s Hs; exact (Nat.le_refl _)|].
    apply IH. cbn [negb Z.b2z]. destruct final; [discriminate Hf|]. cbn [negb Z.b2z] in Hn. lia.
Qed.

#[local] Instance walk_terminates : ShimWalk fuel devfd (terminates fuel).
Proof.
  split.
  - intros A a e s Hs. exact (Nat.le_refl _).
  - apply terminates_bind.
  - intros e s Hs. exact (Nat.le_refl _).
  - intros v e s Hs. exact (Nat.le_refl _).
  - intros A e s Hs. exact I.
  - intros c _. apply terminates_sys.
  - intros fd req resp _. apply terminates_request.
  - intros A fd c k m _ Hk Hm. apply terminates_bind.
    + unfold mwcomms_is_mwsocket. destruct (_ <? 0); [intros e s Hs; exact (Nat.le_refl _)|].
      apply terminates_bind; [apply terminates_sys|]. intros r.
      destruct (_ <? 0); intros e s Hs; exact (Nat.le_refl _).
    + intros []; cbn [negb]; [exact Hm|]. apply terminates_bind; [apply terminates_sys|exact Hk].
  - intros fd Buf flags resp. apply terminates_batch. cbn [negb Z.b2z]. lia.
Qed.

(** (C21) Every sequence of socket calls ends: when the system answers at
    most [busy] times that a call has to be repeated, that many rounds of
    the loops that repeat it are enough, and a send needs no more rounds
    than it has bytes, and one. *)
Theorem socket_calls_terminate cs e s :
  (busy_in s < fuel)%nat -> ends (run (run_calls fuel devfd cs) e s) s.
Proof. intros Hs. by apply (walk_calls fuel devfd (terminates fuel) cs). Qed.

End Termination.

(** ** The protocol of the driver's files *)

Section Protocol.

Context {W : Type} {OS : LibcOS W}.
Context (fuel : nat) (devfd : Z).

(** Which descriptors are mwsockets. *)
Context (mw : Z -> bool).

(** What a file of the driver expects: a request, or that the response to
    the request written last is read; [Broken] after anything else. A read
    that was interrupted is repeated. *)
Inductive phase : Type := Quiet | Awaiting (fd : Z) | Broken.

Definition interrupted (r : sys_res) : bool :=
  (s32 (sr_ret r) <? 0) && bool_decide (sr_errno r = Some EINTR).

Definition phase_step (p : phase) (cr : sys_call * sys_res) : phase :=
  let (c, r) := cr in
  match p with
  | Broken => Broken
  | Quiet =>
      match c with
      | LibcWrite fd bytes =>
          if mw fd && MT_REQUEST_CALLER_WAITS (get_request_base bytes) && (0 <=? s32 (sr_ret r))
          then Awaiting fd else Quiet
      | LibcRead fd _ => if mw fd then Broken else Quiet
      | _ => Quiet
      end
  | Awaiting fd =>
      match c with
      | LibcRead fd' _ =>
          if negb (fd' =? fd) then Broken else if interrupted r then Awaiting fd else Quiet
      | _ => Broken
      end
  end.

Definition phase_of (l : list (sys_call * sys_res)) : phase := fold_left phase_step l Quiet.
Definition phase_in (s : sys_world W) : phase := phase_of (sw_trace s).

Lemma phase_after c s : phase_in (after c s) = phase_step (phase_in s) (c, answer c s).
Proof. unfold phase_in, phase_of. by rewrite trace_after, fold_left_app. Qed.

(** The driver answers truly, and a call that fails sets errno. *)
Hypothesis says_truly : forall fd w, 0 <= fd ->
  let r := fst (libc (IoctlIsMwsocket devfd fd) w) in
  negb (s32 (sr_ret r) <? 0) && truth (default 0 (sr_val r)) = mw fd.
Hypothesis no_negative : forall fd, fd < 0 -> mw fd = false.
Hypothesis sets_errno : forall c w,
  s32 (sr_ret (fst (libc c w))) < 0 -> is_Some (sr_errno (fst (libc c w))).

Definition stays_quiet A (m : sh (sys_world W) A) : Prop :=
  forall e s, phase_in s = Quiet ->
  match run m e s with Done (_, _, s') => phase_in s' = Quiet | _ => True end.

Lemma quiet_bind A B (m : sh (sys_world W) A) (k : A -> sh (sys_world W) B) :
  stays_quiet A m -> (forall a, stays_quiet B (k a)) -> stays_quiet B (sbind m k).
Proof.
  intros Hm Hk e s Hs. rewrite run_bind. specialize (Hm e s Hs).
  destruct (run m e s) as [[[a e'] s']| | |]; cbn [obind]; [|done..]. by apply Hk.
Qed.

(** A read or write of another file. *)
Lemma quiet_sys c : (forall fd, raw_io c = Some fd -> mw fd = false) -> stays_quiet _ (sys c).
Proof.
  intros Hc e s Hs. rewrite run_sys, phase_after, Hs. destruct c; cbn; try done.
  - by rewrite (Hc fd eq_refl).
  - by rewrite (Hc fd eq_refl).
Qed.

Lemma run_asks fd e s :
  phase_in s = Quiet ->
  exists e' s', run (mwcomms_is_mwsocket devfd fd) e s = Done (mw fd, e', s') /\ phase_in s' = Quiet.
Proof.
  intros Hs. unfold mwcomms_is_mwsocket. destruct (Z.ltb_spec fd 0) as [Hn|Hn].
  - rewrite (no_negative fd Hn). by eexists _, _.
  - shim. pose proof (says_truly fd (sw_os s) Hn) as Hv. cbv zeta in Hv. fold (answer (IoctlIsMwsocket devfd fd) s) in Hv.
    destruct (s32 _ <? 0); cbn [negb andb] in Hv; rewrite run_ret; eexists _, _; (split; [by rewrite Hv|]);
      by rewrite phase_after, Hs.
Qed.

(** The phase after write_retry(): that of the last write. *)
Lemma run_write_retry n fd req e s :
  let bytes := put_request req in
  phase_in s = Quiet ->
  match run (write_retry n fd bytes) e s with
  | Done (ct, _, s') =>
      phase_in s' = if mw fd && MT_REQUEST_CALLER_WAITS (get_request_base bytes) && (0 <=? ct)
                    then Awaiting fd else Quiet
  | _ => True
  end.
Proof.
  intros bytes. revert e s. induction n as [|n IH]; intros e s Hs; [done|]. cbn [write_retry]. shim.
  set (c := LibcWrite fd bytes). set (ct := s32 (sr_ret (answer c s))).
  assert (phase_in (after c s) = if mw fd && MT_REQUEST_CALLER_WAITS (get_request_base bytes) && (0 <=? ct)
                                 then Awaiting fd else Quiet) as Hp
    by (rewrite phase_after, Hs; reflexivity).
  destruct (negb _) eqn:Hg; [exact Hp|]. shim. apply negb_false_iff, andb_true_iff in Hg as [Hn _].
  apply IH. rewrite phase_after, Hp. apply Z.ltb_lt in Hn.
  rewrite (proj2 (Z.leb_gt _ _) Hn), andb_false_r. reflexivity.
Qed.

Lemma run_read_retry n fd resp e s :
  phase_in s = Awaiting fd \/ phase_in s = Quiet /\ mw fd = false ->
  match run (read_retry n fd resp) e s with Done (_, _, s') => phase_in s' = Quiet | _ => True end.
Proof.
  revert resp e s. induction n as [|n IH]; intros resp e s Hs; [done|]. cbn [read_retry]. shim.
  set (c := LibcRead fd RESPONSE_REGION_SIZE). set (r := answer c s).
  assert (phase_in (after c s) = if interrupted r then phase_in s else Quiet) as Hp.
  { rewrite phase_after. destruct Hs as [Hs|[Hs Hm]]; rewrite Hs; cbn; fold r.
    - by rewrite Z.eqb_refl.
    - rewrite Hm. by destruct (interrupted r). }
  pose proof (sets_errno c (sw_os s)) as Herr. fold (answer c s) in Herr. fold r in Herr.
  destruct ((s32 (sr_ret r) <? 0) && (EINTR =? default e (sr_errno r))) eqn:Hg.
  - apply IH. apply andb_true_iff in Hg as [Hn He]. apply Z.ltb_lt in Hn. destruct (Herr Hn) as [x Hx].
    rewrite Hp. unfold interrupted. rewrite (proj2 (Z.ltb_lt _ _) Hn), Hx in *. change (default e (Some x)) with x in He.
    apply Z.eqb_eq in He as <-. by rewrite bool_decide_eq_true_2.
  - rewrite run_ret. rewrite Hp. unfold interrupted. destruct (Z.ltb_spec (s32 (sr_ret r)) 0) as [Hn|Hn]; [|done].
    destruct (Herr Hn) as [x Hx]. rewrite Hx in *. change (default e (Some x)) with x in Hg.
    rewrite bool_decide_eq_false_2; [done|]. intros [= ->]. by rewrite Z.eqb_refl in Hg.
Qed.

Lemma quiet_ret A (a : A) : stays_quiet A (sret a).
Proof. by intros e s Hs. Qed.

(** The flag that says that the caller reads the response. *)
Definition awaits (r : mt_request_generic) : bool :=
  has_flag (rq_flags (gq_base r)) MT_FLAGS_PVM_CALLER_AWAITS_RESPONSE.

Lemma awaits_bit x : has_flag x MT_FLAGS_PVM_CALLER_AWAITS_RESPONSE = Z.testbit x 0.
Proof.
  unfold has_flag. change MT_FLAGS_PVM_CALLER_AWAITS_RESPONSE with (Z.ones 1).
  rewrite Z.land_ones by lia. change (2 ^ 1) with 2. rewrite Zmod_odd, Z.bit0_odd. by destruct (Z.odd x).
Qed.

Lemma u32_bit0 x : Z.testbit (u32 x) 0 = Z.testbit x 0.
Proof. unfold wrapu. by rewrite Z.mod_pow2_bits_low by lia. Qed.

Lemma written_awaits r :
  has_base r = true -> MT_REQUEST_CALLER_WAITS (get_request_base (put_request r)) = awaits r.
Proof.
  intros H. rewrite get_put_request by done. unfold MT_REQUEST_CALLER_WAITS, awaits. cbn [stored_base rq_flags].
  by rewrite !awaits_bit, u32_bit0.
Qed.

Lemma awaits_set r : awaits (MT_REQUEST_SET_CALLER_WAITS r) = true.
Proof.
  unfold awaits. cbn [MT_REQUEST_SET_CALLER_WAITS set_gq_flags gq_base rq_flags].
  rewrite awaits_bit, u32_bit0, Z.lor_spec. by apply orb_true_r.
Qed.

Lemma awaits_chunk Buf tot n r : awaits (send_chunk Buf tot n r) = awaits r.
Proof.
  assert (forall v x, awaits (set_gq_flags v x) = Z.testbit v 0) as Hset
    by (intros; unfold awaits; cbn [set_gq_flags gq_base rq_flags]; by rewrite awaits_bit, u32_bit0).
  unfold send_chunk. cbv zeta. set (r1 := if 0 <? tot then _ else r).
  assert (awaits r1 = awaits r) as <-.
  { unfold r1. destruct (0 <? tot); [|done]. rewrite Hset, Z.land_spec, Z.lnot_spec by lia.
    unfold awaits. rewrite awaits_bit. cbn. apply andb_true_r. }
  set (r2 := if _ =? _ then _ else r1). transitivity (awaits r2); [reflexivity|].
  unfold r2. destruct (_ =? _); [|done]. rewrite Hset, Z.lor_spec. unfold awaits. rewrite awaits_bit.
  cbn. apply orb_false_r.
Qed.

Lemma quiet_request fd wait req resp e s :
  has_base req = true -> (wait = false -> awaits req = false) -> phase_in s = Quiet ->
  match run (mwcomms_write_request fuel fd wait req resp) e s with
  | Done (_, req', _, _, s') =>
      phase_in s' = Quiet /\ req' = (if wait then MT_REQUEST_SET_CALLER_WAITS req else req)
  | _ => True
  end.
Proof.
  intros Hb Hw Hs. unfold mwcomms_write_request, await_response. cbv zeta.
  set (rq := if wait then MT_REQUEST_SET_CALLER_WAITS req else req).
  assert (has_base rq = true) as Hb1 by (unfold rq; by destruct wait).
  assert (awaits rq = wait) as Ha by (unfold rq; destruct wait; [apply awaits_set|by apply Hw]).
  shim. pose proof (run_write_retry fuel fd rq e s Hs) as H1. rewrite written_awaits, Ha in H1 by done.
  destruct (run (write_retry fuel fd (put_request rq)) e s) as [[[ct e1] s1]| | |]; cbn [obind]; try done.
  destruct (Z.ltb_spec ct 0) as [Hct|Hct].
  { rewrite run_ret. rewrite (proj2 (Z.leb_gt _ _) Hct), andb_false_r in H1. done. }
  rewrite (proj2 (Z.leb_le _ _) Hct), andb_true_r in H1.
  destruct wait; cbn [negb]; [|rewrite run_ret, andb_false_r in *; done]. rewrite andb_true_r in H1.
  shim. pose proof (run_read_retry fuel fd resp e1 s1) as H2.
  destruct (run (read_retry fuel fd resp) e1 s1) as [[[[ct' resp'] e2] s2]| | |]; cbn [obind]; try done.
  specialize (H2 ltac:(destruct (mw fd); auto)). destruct (_ <? _); [shim; by split|].
  destruct (IS_CRITICAL_ERROR _); [shim; by split|]. destruct (_ <? _); shim; by split.
Qed.

Lemma quiet_batch n fd Buf tot final rc err req resp e s :
  (final = false -> awaits req = false) -> 0 <= tot -> phase_in s = Quiet ->
  match run (send_batch fuel n fd Buf tot final rc err req resp) e s with
  | Done (_, _, s') => phase_in s' = Quiet
  | _ => True
  end.
Proof.
  revert tot final rc err req resp e s.
  induction n as [|n IH]; intros tot final rc err req resp e s Hf Ht Hs; cbn [send_batch];
    destruct (tot <? Z.of_nat (length Buf)) eqn:Hlt; cbn [negb]; try (rewrite run_ret; exact Hs); [done|].
  cbv zeta. apply Z.ltb_lt in Hlt. set (chunk := Z.min MESSAGE_TYPE_MAX_PAYLOAD_LEN (Z.of_nat (length Buf) - tot)).
  assert (1 <= chunk <= MESSAGE_TYPE_MAX_PAYLOAD_LEN) as Hchunk
    by (unfold chunk, MESSAGE_TYPE_MAX_PAYLOAD_LEN, MESSAGE_TARGET_MAX_SIZE; lia).
  set (f := final || (Z.of_nat (length Buf) =? tot + chunk)). shim.
  assert (f = false -> final = false) as Hff by (unfold f; by destruct final).
  assert (has_base (send_chunk Buf tot chunk req) = true) as Hb.
  { unfold has_base. cbn [send_chunk set_gq_body set_gq_size gq_base rq_size].
    rewrite wrapu_small; [apply Z.leb_le; change MT_REQUEST_BASE_SIZE with 28|unfold in_u];
      change MT_REQUEST_SOCKET_SEND_SIZE with 32; change MESSAGE_TYPE_MAX_PAYLOAD_LEN with 1985 in Hchunk; lia. }
  pose proof (quiet_request fd f (send_chunk Buf tot chunk req) resp e s Hb) as H1.
  rewrite awaits_chunk in H1. specialize (H1 ltac:(auto) Hs).
  destruct (run (mwcomms_write_request fuel fd f _ resp) e s) as [[[[[rc1 req1] resp1] e1] s1]| | |]; cbn [obind]; try done.
  destruct H1 as [Hq ->]. destruct (truth rc1).
  - shim. destruct f eqn:Hfe; cbn [negb]; [by rewrite run_ret|]. by apply IH.
  - apply IH; [|lia|done]. intros Hfe. rewrite Hfe. rewrite awaits_chunk. auto.
Qed.

#[local] Instance walk_quiet : ShimWalk fuel devfd stays_quiet.
Proof.
  split.
  - by intros A a e s Hs.
  - apply quiet_bind.
  - by intros e s Hs.
  - by intros v e s Hs.
  - by intros A e s Hs.
  - intros c Hc. apply quiet_sys. intros fd H. congruence.
  - intros fd req resp Hb e s Hs. pose proof (quiet_request fd true req resp e s Hb ltac:(done) Hs) as H.
    destruct (run _ e s) as [[[[[rc req'] resp'] e'] s']| | |]; [by destruct H|done..].
  - intros A fd c k m Hc Hk Hm e s Hs. rewrite run_bind. destruct (run_asks fd e s Hs) as (e' & s' & -> & Hs').
    cbn [obind]. destruct (mw fd) eqn:Hfd; cbn [negb]; [by apply Hm|].
    apply quiet_bind; [|exact Hk|done]. apply quiet_sys. intros fd' H. congruence.
  - intros fd Buf flags resp e s Hs. by apply quiet_batch.
Qed.


End Protocol.

(** ** Concrete runs *)

(** A driver whose only mwsocket is the descriptor 4: it is busy for as
    many writes as the number says, and then takes every request and
    answers it with success. *)
Definition busy_driver : LibcOS nat := fun c n =>
  match c, n with
  | LibcWrite _ _, Datatypes.S n' => (failed_res EAGAIN, n')
  | LibcWrite _ _, O => (ok_res 28, n)
  | LibcRead _ _, _ =>
      ({| sr_ret := 64; sr_errno := None; sr_buf := None; sr_addr := None; sr_val := None |}, n)
  | IoctlIsMwsocket _ fd, _ =>
      ({| sr_ret := 0; sr_errno := None; sr_buf := None; sr_addr := None; sr_val := Some (Z.b2z (fd =? 4)) |}, n)
  | _, _ => (ok_res 0, n)
  end.

Lemma socket_calls_terminate_witness :
  let s := {| sw_trace := []; sw_os := 2%nat |} in
  let m := run_calls (Sys := TracedSys (OS := busy_driver)) 3 9 [CallListen 4 1; CallSend 4 [1; 2; 3] 0] in
  ends (fun n => n) (run m 0 s) s /\ exists r, run m 0 s = Done r.
Proof.
  split; [|eexists; vm_compute; reflexivity].
  apply (socket_calls_terminate (OS := busy_driver) 3 9 (fun n => n)).
  - intros c n. unfold libc, busy_driver. destruct c, n; simpl; lia.
  - intros c n [H _]. unfold libc, busy_driver in *. destruct c, n; vm_compute in H; try discriminate; simpl; lia.
  - cbn. lia.
Defined.

