(* ===== verification/ShimFacts.v ===== *)
(** * ShimFacts: single calls on an mwsocket

    What one call of the shim does when the driver takes its request: the
    requests of a send, the bytes of a receive, and what a read() that
    fails is taken for. *)

From stdpp Require Import base numbers list.
From Stdlib Require Import ZArith Lia.
From S2P Require Import Prelude MessageTypes PvmXen Threads MwsState MwsRequest MwsResponse MwsFile Shim ShimCalls ShimRequest ShimNative.
Import LinuxErrno.

(** ** The requests of a send *)

(** The request of one chunk as the ring carries it. *)
Definition chunk_base (fd : Z) (first last : bool) (chunk : list Z) : mt_request_base :=
  {| rq_sig := MT_SIGNATURE_REQUEST; rq_type := request_type_code MtRequestSocketSend;
     rq_size := MT_REQUEST_SOCKET_SEND_SIZE + Z.of_nat (length chunk); rq_id := 0; rq_sockfd := fd;
     rq_flags := Z.lor (Z.lor (if first then MT_FLAGS_BATCH_SEND_INIT else 0) MT_FLAGS_BATCH_SEND)
                   (if last then Z.lor MT_FLAGS_BATCH_SEND_FINI MT_FLAGS_PVM_CALLER_AWAITS_RESPONSE else 0) |}.
Definition chunk_request (fd flags : Z) (first last : bool) (chunk : list Z) : list Z :=
  put_request_base (chunk_base fd first last chunk) ++ le_bytes 4 flags ++ chunk.

(** The chunks of a buffer: full ones, and the rest. *)
Fixpoint chunks_of (n : nat) (Buf : list Z) : list (list Z) :=
  match n with
  | O => []
  | Datatypes.S n' =>
      if (length Buf <=? payload_len)%nat then [Buf]
      else take payload_len Buf :: chunks_of n' (drop payload_len Buf)
  end.

Fixpoint batch_requests (n : nat) (fd flags : Z) (first : bool) (Buf : list Z) : list (list Z) :=
  match n with
  | O => []
  | Datatypes.S n' =>
      if (length Buf <=? payload_len)%nat then [chunk_request fd flags first true Buf]
      else chunk_request fd flags first false (take payload_len Buf)
           :: batch_requests n' fd flags false (drop payload_len Buf)
  end.

Lemma payload_len_eq : payload_len = 1985%nat.
Proof. reflexivity. Qed.

Lemma concat_chunks n Buf : (length Buf < n)%nat -> concat (chunks_of n Buf) = Buf.
Proof.
  revert Buf. induction n as [|n IH]; intros Buf Hn; [lia|]. cbn [chunks_of].
  destruct (Nat.leb_spec (length Buf) payload_len) as [Hl|Hl]; cbn [concat]; [apply app_nil_r|].
  rewrite IH; [apply take_drop|]. rewrite length_drop, payload_len_eq in *. lia.
Qed.

Lemma chunk_sizes n Buf :
  (0 < length Buf < n)%nat -> Forall (fun c => (0 < length c <= payload_len)%nat) (chunks_of n Buf).
Proof.
  revert Buf. induction n as [|n IH]; intros Buf Hn; [lia|]. cbn [chunks_of].
  destruct (Nat.leb_spec (length Buf) payload_len) as [Hl|Hl]; [constructor; [lia|constructor]|].
  rewrite payload_len_eq in *. constructor; [rewrite length_take; lia|].
  apply IH. rewrite length_drop. lia.
Qed.

Lemma chunks_not_empty n Buf : (length Buf < n)%nat -> chunks_of n Buf <> [].
Proof. destruct n; [lia|]. intros _. cbn [chunks_of]. by destruct (_ <=? _)%nat. Qed.

(** The requests are those of the chunks: the first one opens the batch,
    the last one closes it and asks for the response. *)
Lemma batch_requests_chunks n fd flags first Buf :
  (length Buf < n)%nat ->
  batch_requests n fd flags first Buf
  = imap (fun i c => chunk_request fd flags (first && (i =? 0)%nat)
                       (i =? length (chunks_of n Buf) - 1)%nat c) (chunks_of n Buf).
Proof.
  revert first Buf. induction n as [|n IH]; intros first Buf Hn; [lia|]. cbn [batch_requests chunks_of].
  destruct (Nat.leb_spec (length Buf) payload_len) as [Hl|Hl]; [cbn; by rewrite andb_true_r|].
  assert (length (drop payload_len Buf) < n)%nat as Hd by (rewrite length_drop, payload_len_eq in *; lia).
  cbn [imap length]. pose proof (chunks_not_empty n _ Hd) as Hne. rewrite andb_true_r.
  f_equal.
  - f_equal. destruct (chunks_of n (drop payload_len Buf)); [done|]. reflexivity.
  - rewrite IH by done. apply imap_ext. intros i c Hi. cbn [compose]. rewrite andb_false_r. f_equal.
    destruct (chunks_of n (drop payload_len Buf)) as [|c0 l]; [done|]. cbn [length].
    destruct (Nat.eqb_spec i (Datatypes.S (length l) - 1)), (Nat.eqb_spec (Datatypes.S i) (Datatypes.S (Datatypes.S (length l)) - 1));
      auto; lia.
Qed.

(** What the INS reads of such a request. *)
Lemma chunk_request_read fd flags first last chunk :
  an_int fd -> an_int flags -> (length chunk <= payload_len)%nat ->
  let w := chunk_request fd flags first last chunk in
  get_request_base w = chunk_base fd first last chunk
  /\ Z.of_nat (length w) = rq_size (chunk_base fd first last chunk)
  /\ sn_flags (get_socket_send w) = u32 flags
  /\ take (length chunk) (sn_bytes (get_socket_send w)) = chunk.
Proof.
  intros Hfd Hfl Hl w. rewrite payload_len_eq in Hl. unfold w, chunk_request. split; [|split; [|split]].
  - apply get_put_request_base. unfold request_base_wf, chunk_base.
    cbn [rq_sig rq_type rq_size rq_id rq_sockfd rq_flags]. change MT_REQUEST_SOCKET_SEND_SIZE with 32.
    split; [by vm_compute|]. split; [by vm_compute|]. split; [unfold in_u; lia|]. split; [by vm_compute|].
    split; [unfold an_int, in_s in *; lia|]. by destruct first, last; vm_compute.
  - rewrite !length_app, length_put_request_base, length_le_bytes. cbn [chunk_base rq_size].
    change MT_REQUEST_SOCKET_SEND_SIZE with 32. lia.
  - cbn [get_socket_send sn_flags]. rewrite body_fld_drop.
    rewrite drop_app_length' by (by rewrite length_put_request_base).
    assert (le_bytes 4 flags ++ chunk = write_fields [4]%nat [flags] ++ chunk) as ->
      by (cbn [write_fields]; by rewrite app_nil_r).
    by rewrite fld_write.
  - cbn [get_socket_send sn_bytes]. rewrite app_assoc.
    rewrite drop_app_length' by (by rewrite length_app, length_put_request_base, length_le_bytes).
    rewrite take_take, payload_len_eq, Nat.min_l by lia. by apply take_ge.
Qed.

(** ** A driver that takes requests *)

Section Served.

Context {W : Type} {OS : LibcOS W}.
Context (fuel : nat) (devfd fd : Z).

Hypothesis enough : (0 < fuel)%nat.
Hypothesis is_fd : 0 <= fd /\ an_int fd.
Hypothesis is_mwsocket : forall w,
  let r := fst (libc (IoctlIsMwsocket devfd fd) w) in
  0 <= s32 (sr_ret r) /\ truth (default 0 (sr_val r)) = true.
Hypothesis takes_requests : forall bytes w, 0 <= s32 (sr_ret (fst (libc (LibcWrite fd bytes) w))).

Definition asked_driver (s : sys_world W) : sys_world W := after (IoctlIsMwsocket devfd fd) s.

Lemma run_is_mwsocket e s :
  exists e', run (mwcomms_is_mwsocket devfd fd) e s = Done (true, e', asked_driver s).
Proof.
  unfold mwcomms_is_mwsocket. rewrite (proj2 (Z.ltb_ge fd 0)) by apply is_fd. shim.
  destruct (is_mwsocket (sw_os s)) as [H1 H2]. fold (answer (IoctlIsMwsocket devfd fd) s) in H1, H2.
  rewrite (proj2 (Z.ltb_ge _ _) H1), H2. by eexists.
Qed.

Lemma run_written bytes e s :
  exists ct e', run (write_retry fuel fd bytes) e s = Done (ct, e', after (LibcWrite fd bytes) s) /\ 0 <= ct.
Proof.
  destruct fuel as [|n]; [lia|]. cbn [write_retry]. shim.
  pose proof (takes_requests bytes (sw_os s)) as H. fold (answer (LibcWrite fd bytes) s) in H.
  rewrite (proj2 (Z.ltb_ge _ _) H). cbn [andb negb]. shim. eexists _, _. by split.
Qed.

(** A request whose response nobody waits for. *)
Lemma run_unanswered req resp e s :
  exists e', run (mwcomms_write_request fuel fd false req resp) e s
             = Done ((0, req, resp), e', after (LibcWrite fd (put_request req)) s).
Proof.
  unfold mwcomms_write_request, await_response. cbv zeta iota. shim.
  destruct (run_written (put_request req) e s) as (ct & e' & -> & Hct). cbn [obind].
  rewrite (proj2 (Z.ltb_ge _ _) Hct). cbn [negb]. shim. by eexists.
Qed.

(** The state after a request and the read of its response. *)
Definition exchanged (bytes : list Z) (s : sys_world W) : sys_world W :=
  after (LibcRead fd RESPONSE_REGION_SIZE) (after (LibcWrite fd bytes) s).

(** *** A read() that fails *)

Section Failed.

Context (err : Z).
Hypothesis err_known : err <> EINTR.
Hypothesis read_fails : forall w,
  fst (libc (LibcRead fd RESPONSE_REGION_SIZE) w)
  = {| sr_ret := -1; sr_errno := Some err; sr_buf := None; sr_addr := None; sr_val := None |}.

(** The result -1 of read() is compared with an unsigned size. *)
Lemma run_read_failed req e s :
  run (mwcomms_write_request fuel fd true req zero_response) e s
  = Done ((0, MT_REQUEST_SET_CALLER_WAITS req, zero_response), err,
          exchanged (put_request (MT_REQUEST_SET_CALLER_WAITS req)) s).
Proof.
  unfold mwcomms_write_request, await_response. cbv zeta. shim.
  destruct (run_written (put_request (MT_REQUEST_SET_CALLER_WAITS req)) e s) as (ct & e' & -> & Hct). cbn [obind].
  rewrite (proj2 (Z.ltb_ge _ _) Hct). cbn [negb]. shim.
  set (s1 := after _ s). assert (answer (LibcRead fd RESPONSE_REGION_SIZE) s1 = failed_res err) as Ha
    by apply read_fails.
  destruct fuel as [|n]; [lia|]. cbn [read_retry]. shim. rewrite Ha. cbn [failed_res sr_ret sr_errno sr_buf].
  change (s32 (-1) <? 0) with true. change (default e' (Some err)) with err.
  rewrite (proj2 (Z.eqb_neq EINTR err)) by congruence. cbn [andb]. shim.
  change (u64 (s32 (-1)) <? MT_RESPONSE_BASE_SIZE) with false. cbn iota.
  replace (rsp_status zero_response) with 0 by (by vm_compute). change (IS_CRITICAL_ERROR 0) with false.
  change (0 <? 0) with false. cbn iota. rewrite run_ret. reflexivity.
Qed.

#[local] Ltac served :=
  repeat (shim; first
    [ rewrite run_read_failed
    | match goal with |- context [run (mwcomms_is_mwsocket devfd fd) ?e ?s] =>
        let E := fresh in destruct (run_is_mwsocket e s) as (? & E); rewrite E end ];
    cbn [obind negb]).

Lemma zero_status : rsp_status zero_response = 0.
Proof. by vm_compute. Qed.
Lemma zero_recv : rsp_recv_count zero_response = 0.
Proof. by vm_compute. Qed.
Lemma zero_recvfrom : rsp_recvfrom_count zero_response = 0.
Proof. by vm_compute. Qed.
Lemma zero_sockfd : rs_sockfd (get_response_base zero_response) = 0.
Proof. by vm_compute. Qed.
#[local] Ltac zeros :=
  change (truth 0) with false; cbn iota;
  rewrite ?zero_status, ?zero_sockfd; change (0 <? 0) with false; cbn iota; shim.

Lemma run_recvfrom_failed len flags a al e s :
  exists s', run (recvfrom fuel devfd fd len flags a al) e s = Done (out_rc 0, 0, s').
Proof.
  unfold recvfrom, recv_finish. served. zeros.
  destruct a; rewrite ?zero_recv, ?zero_recvfrom; by eexists.
Qed.

#[local] Ltac received :=
  try match goal with |- context [run (recvfrom fuel devfd fd ?l ?f ?a ?al) ?e ?s] =>
    let E := fresh in destruct (run_recvfrom_failed l f a al e s) as (? & E); rewrite E; cbn [obind]; shim end.

(** The calls that wait for a response, with arguments the shim takes. *)
Definition waits_on (c : sock_call) : Prop :=
  match c with
  | CallBind f a l => f = fd /\ fld [2]%nat 0 a = AF_INET /\ l = Z.of_nat sizeof_sockaddr
  | CallListen f _ | CallAccept f _ _ | CallConnect f _ _ | CallRecvfrom f _ _ _ _ | CallRecv f _ _
  | CallRead f _ | CallShutdown f _ | CallGetsockname f _ | CallGetpeername f _ => f = fd
  | _ => False
  end.


End Failed.

(** *** Responses that arrive *)

Section Answered.

Context (resp : list Z).

(** The response as it lies in the zeroed region of the shim. *)
Definition seen : list Z := patch 0 resp zero_response.

Hypothesis resp_fits : MT_RESPONSE_BASE_SIZE <= Z.of_nat (length resp) < 2 ^ 31.
Hypothesis resp_ok : 0 <= rsp_status seen.
Hypothesis read_works : forall w,
  let r := fst (libc (LibcRead fd RESPONSE_REGION_SIZE) w) in
  sr_ret r = Z.of_nat (length resp) /\ sr_buf r = Some resp.

Lemma not_critical : IS_CRITICAL_ERROR (rsp_status seen) = false.
Proof.
  apply is_critical_error_never. unfold rsp_status, get_response_base. cbn [rs_status].
  by apply wraps_range.
Qed.

Lemma run_answered req e s :
  exists e', run (mwcomms_write_request fuel fd true req zero_response) e s
  = Done ((0, MT_REQUEST_SET_CALLER_WAITS req, seen), e',
          exchanged (put_request (MT_REQUEST_SET_CALLER_WAITS req)) s).
Proof.
  unfold mwcomms_write_request, await_response. cbv zeta. shim.
  destruct (run_written (put_request (MT_REQUEST_SET_CALLER_WAITS req)) e s) as (ct & e' & -> & Hct). cbn [obind].
  rewrite (proj2 (Z.ltb_ge _ _) Hct). cbn [negb]. shim.
  set (s1 := after _ s). destruct (read_works (sw_os s1)) as [Hr Hb].
  fold (answer (LibcRead fd RESPONSE_REGION_SIZE) s1) in Hr, Hb.
  assert (s32 (Z.of_nat (length resp)) = Z.of_nat (length resp)) as H32
    by (apply wraps_small; unfold in_s; lia).
  destruct fuel as [|n]; [lia|]. cbn [read_retry]. shim. rewrite Hr, Hb, H32.
  rewrite (proj2 (Z.ltb_ge (Z.of_nat (length resp)) 0)) by lia. cbn [andb]. shim.
  assert (u64 (Z.of_nat (length resp)) = Z.of_nat (length resp)) as H64
    by (apply wrapu_small; unfold in_u; lia).
  rewrite H64, (proj2 (Z.ltb_ge _ _)) by apply resp_fits. fold seen.
  rewrite not_critical, (proj2 (Z.ltb_ge _ _) resp_ok). shim. eexists. reflexivity.
Qed.

(** **** Sending *)

(** The request of the loop before the chunk at the front of the rest. *)
Definition batch_request (flags : Z) (first : bool) (req : mt_request_generic) : Prop :=
  let b := gq_base req in
  rq_sig b = MT_SIGNATURE_REQUEST /\ rq_type b = request_type_code MtRequestSocketSend
  /\ rq_id b = 0 /\ rq_sockfd b = fd
  /\ (rq_flags b = Z.lor MT_FLAGS_BATCH_SEND_INIT MT_FLAGS_BATCH_SEND
      \/ first = false /\ rq_flags b = MT_FLAGS_BATCH_SEND)
  /\ take 4 (gq_body req) = le_bytes 4 flags.

Lemma batch_request_start flags : batch_request flags true (batch_start_request fd flags).
Proof.
  unfold batch_request. cbn [batch_start_request set_gq_flags fill_body set_gq_body mwcomms_init_request gq_base gq_body
    rq_sig rq_type rq_id rq_sockfd rq_flags].
  do 4 (split; [done|]). split; [by left|]. apply take_patch. apply length_le_bytes.
Qed.

Lemma patch_at (n : nat) bytes bs rest :
  take n bs = rest -> length rest = n ->
  take (n + length bytes) (patch n bytes bs) = rest ++ bytes.
Proof.
  intros <- Hl. unfold patch. rewrite app_assoc, take_app_length'; [done|]. rewrite length_app. lia.
Qed.

(** The request of a chunk, as it is written. *)
Lemma put_send_chunk flags Buf tot chunk req :
  let Len := Z.of_nat (length Buf) in
  let last := (Len =? tot + chunk) in
  let req' := send_chunk Buf tot chunk req in
  batch_request flags (negb (0 <? tot)) req -> 0 <= tot -> 0 < chunk <= MESSAGE_TYPE_MAX_PAYLOAD_LEN ->
  tot + chunk <= Len ->
  put_request (if last then MT_REQUEST_SET_CALLER_WAITS req' else req')
  = chunk_request fd flags (negb (0 <? tot)) last (take (Z.to_nat chunk) (drop (Z.to_nat tot) Buf))
  /\ (last = false -> batch_request flags false req').
Proof.
  intros Len last req' (Hs & Ht & Hi & Hfd & Hf & Hbody) Htot Hchunk Hle.
  assert (length (take (Z.to_nat chunk) (drop (Z.to_nat tot) Buf)) = Z.to_nat chunk) as Hl
    by (rewrite length_take, length_drop; unfold Len in Hle; lia).
  set (piece := take (Z.to_nat chunk) (drop (Z.to_nat tot) Buf)) in *.
  change MESSAGE_TYPE_MAX_PAYLOAD_LEN with 1985 in Hchunk.
  assert (u16 (MT_REQUEST_SOCKET_SEND_SIZE + chunk) = 32 + chunk) as Hu
    by (apply wrapu_small; change MT_REQUEST_SOCKET_SEND_SIZE with 32; unfold in_u; lia).
  assert (gq_body req' = patch 4 piece (gq_body req)) as Hb'
    by (unfold req', send_chunk; cbv zeta; fold Len; by destruct (0 <? tot), (Len =? tot + chunk)).
  assert (take (4 + Z.to_nat chunk) (gq_body req') = le_bytes 4 flags ++ piece) as Htake.
  { rewrite Hb', <- Hl. apply patch_at; [done|apply length_le_bytes]. }
  assert (gq_base (if last then MT_REQUEST_SET_CALLER_WAITS req' else req')
          = chunk_base fd (negb (0 <? tot)) last piece) as Hbase.
  { unfold req', send_chunk, chunk_base. cbv zeta. unfold last. fold Len. rewrite Hl, Z2Nat.id by lia.
    change MT_REQUEST_SOCKET_SEND_SIZE with 32 in *.
    destruct (0 <? tot), (Len =? tot + chunk);
      cbn [negb MT_REQUEST_SET_CALLER_WAITS set_gq_flags set_gq_size set_gq_body gq_base
           rq_sig rq_type rq_size rq_id rq_sockfd rq_flags];
      rewrite Hs, Ht, Hi, Hfd, Hu; f_equal; destruct Hf as [->|[Hff ->]]; try done. }
  split.
  - set (r := if last then _ else req') in *.
    assert (gq_body r = gq_body req') as Hbr by (unfold r, last; by destruct (Len =? tot + chunk)).
    assert (rq_size (gq_base r) = 32 + chunk) as Hsz
      by (rewrite Hbase; cbn [chunk_base rq_size]; rewrite Hl, Z2Nat.id by lia; done).
    rewrite put_request_split by (unfold has_base; rewrite Hsz; apply Z.leb_le; change MT_REQUEST_BASE_SIZE with 28; lia).
    rewrite Hsz, Hbr. replace (Z.to_nat (32 + chunk) - 28)%nat with (4 + Z.to_nat chunk)%nat by lia.
    rewrite Htake, Hbase. reflexivity.
  - intros Hlast. rewrite Hlast in Hbase. unfold batch_request. rewrite Hbase.
    cbn [chunk_base rq_sig rq_type rq_id rq_sockfd rq_flags].
    do 4 (split; [done|]). split.
    + destruct (0 <? tot); [right; by split|by left].
    + replace (take 4 (gq_body req')) with (take 4 (take (4 + Z.to_nat chunk) (gq_body req')))
        by (rewrite take_take; f_equal; lia).
      rewrite Htake. by apply take_app_length'.
Qed.

Lemma run_batch_over n Buf tot final rc err req rsp e s :
  Z.of_nat (length Buf) <= tot ->
  run (send_batch fuel n fd Buf tot final rc err req rsp) e s = Done ((rc, err, rsp), e, s).
Proof. intros H. destruct n; cbn [send_batch]; by rewrite (proj2 (Z.ltb_ge _ _) H). Qed.

Lemma trace_exchanged bytes s :
  exists l, sw_trace (exchanged bytes s) = sw_trace s ++ l
  /\ map fst l = [LibcWrite fd bytes; LibcRead fd RESPONSE_REGION_SIZE].
Proof. unfold exchanged. rewrite !trace_after, <- app_assoc. by eexists. Qed.

(** All chunks from [tot] on. *)
Lemma run_batch n flags Buf tot rc err req e s :
  0 <= tot < Z.of_nat (length Buf) -> (length (drop (Z.to_nat tot) Buf) < n)%nat ->
  batch_request flags (negb (0 <? tot)) req ->
  exists err' e' s' l,
    run (send_batch fuel n fd Buf tot false rc err req zero_response) e s = Done ((0, err', seen), e', s')
    /\ sw_trace s' = sw_trace s ++ l
    /\ map fst l = map (LibcWrite fd) (batch_requests n fd flags (negb (0 <? tot)) (drop (Z.to_nat tot) Buf))
                   ++ [LibcRead fd RESPONSE_REGION_SIZE].
Proof.
  revert tot rc err req e s. induction n as [|n IH]; intros tot rc err req e s Ht Hn Hreq; [lia|].
  cbn [send_batch batch_requests]. cbv zeta. rewrite (proj2 (Z.ltb_lt _ _)) by lia. cbn [negb orb].
  set (Len := Z.of_nat (length Buf)) in *. set (chunk := Z.min MESSAGE_TYPE_MAX_PAYLOAD_LEN (Len - tot)).
  assert (0 < chunk <= MESSAGE_TYPE_MAX_PAYLOAD_LEN /\ tot + chunk <= Len) as [Hc Hle]
    by (unfold chunk; change MESSAGE_TYPE_MAX_PAYLOAD_LEN with 1985; lia).
  destruct (put_send_chunk flags Buf tot chunk req Hreq ltac:(lia) Hc Hle) as [Hput Hnext]. fold Len in Hput, Hnext.
  rewrite length_drop in *. rewrite payload_len_eq.
  destruct (Nat.leb_spec (length Buf - Z.to_nat tot) 1985) as [Hlast|Hlast].
  - assert (chunk = Len - tot) as Hchunk by (unfold chunk; change MESSAGE_TYPE_MAX_PAYLOAD_LEN with 1985; lia).
    rewrite (proj2 (Z.eqb_eq Len (tot + chunk))) in * by lia. shim.
    destruct (run_answered (send_chunk Buf tot chunk req) e s) as (e1 & ->). rewrite Hput. cbn [obind].
    change (truth 0) with false. cbn iota. rewrite run_batch_over by (fold Len; lia).
    rewrite take_ge by (rewrite length_drop; lia).
    destruct (trace_exchanged (chunk_request fd flags (negb (0 <? tot)) true (drop (Z.to_nat tot) Buf)) s) as (l & Hl & Hm).
    eexists _, _, _, l. split; [reflexivity|]. by split.
  - assert (chunk = 1985) as Hchunk by (unfold chunk; change MESSAGE_TYPE_MAX_PAYLOAD_LEN with 1985; lia).
    rewrite (proj2 (Z.eqb_neq Len (tot + chunk))) in * by lia. shim.
    destruct (run_unanswered (send_chunk Buf tot chunk req) zero_response e s) as (e1 & ->). rewrite Hput. cbn [obind].
    change (truth 0) with false. cbn iota.
    set (w := chunk_request _ _ _ _ _). set (s1 := after _ s).
    destruct (IH (tot + chunk) 0 err (send_chunk Buf tot chunk req) e1 s1) as (err' & e' & s' & l & E & Hl & Hm).
    + lia.
    + rewrite length_drop. lia.
    + rewrite (proj2 (Z.ltb_lt 0 (tot + chunk))) by lia. by apply Hnext.
    + exists err', e', s', ((LibcWrite fd w, answer (LibcWrite fd w) s) :: l). split; [exact E|].
      rewrite Hl. unfold s1. rewrite trace_after, <- app_assoc. split; [done|]. cbn [map app fst].
      rewrite Hm, (proj2 (Z.ltb_lt 0 (tot + chunk))), drop_drop by lia. unfold w. rewrite Hchunk.
      replace (Z.to_nat tot + 1985)%nat with (Z.to_nat (tot + 1985)) by lia. reflexivity.
Qed.

(** The whole call: what it writes and what it returns. *)
Lemma run_send flags Buf e s :
  Buf <> [] ->
  exists e' s' l, run (send fuel devfd fd Buf flags) e s
    = Done (if 0 <? rsp_send_count seen then rsp_send_count seen else -1, e', s')
  /\ e' = (if 0 <? rsp_send_count seen then 0 else s32 (- rsp_status seen))
  /\ sw_trace s' = sw_trace (asked_driver s) ++ l
  /\ map fst l = map (LibcWrite fd) (batch_requests (Datatypes.S (length Buf)) fd flags true Buf)
                 ++ [LibcRead fd RESPONSE_REGION_SIZE].
Proof.
  intros Hne. assert (0 < length Buf)%nat as Hpos by (destruct Buf; [done|cbn; lia]).
  unfold send. shim. destruct (run_is_mwsocket e s) as (e1 & ->). cbn [obind negb]. shim.
  destruct (run_batch (Datatypes.S (length Buf)) flags Buf 0 0 0 (batch_start_request fd flags) e1 (asked_driver s))
    as (err' & e2 & s' & l & -> & Hl & Hm); [lia|rewrite length_drop; lia|apply batch_request_start|].
  cbn [obind]. rewrite drop_0 in Hm.
  destruct (0 <? rsp_send_count seen); shim; eexists _, s', l; (split; [reflexivity|]); by repeat split.
Qed.

(** (C8) A send on an mwsocket carries the buffer: it is cut into chunks
    of at most the payload of a request, which are written in order, one
    request for each; the first request opens the batch, the last one
    closes it and alone asks for a response, which is read once; the INS
    reads back the chunk and the flags of each. The call returns the count
    of that response. *)
Theorem send_carries_buffer flags Buf e s :
  Buf <> [] -> an_int flags ->
  let chunks := chunks_of (Datatypes.S (length Buf)) Buf in
  let requests := imap (fun i c => chunk_request fd flags (i =? 0)%nat (i =? length chunks - 1)%nat c) chunks in
  concat chunks = Buf
  /\ Forall (fun c => (0 < length c <= payload_len)%nat) chunks
  /\ (forall i c w, chunks !! i = Some c -> requests !! i = Some w ->
      get_request_base w = chunk_base fd (i =? 0)%nat (i =? length chunks - 1)%nat c
      /\ sn_flags (get_socket_send w) = u32 flags
      /\ take (length c) (sn_bytes (get_socket_send w)) = c)
  /\ exists e' s' l, run (send fuel devfd fd Buf flags) e s
        = Done (if 0 <? rsp_send_count seen then rsp_send_count seen else -1, e', s')
      /\ sw_trace s' = sw_trace (asked_driver s) ++ l
      /\ map fst l = map (LibcWrite fd) requests ++ [LibcRead fd RESPONSE_REGION_SIZE].
Proof.
  intros Hne Hfl chunks requests. assert (0 < length Buf)%nat as Hpos by (destruct Buf; [done|cbn; lia]).
  assert (Forall (fun c => (0 < length c <= payload_len)%nat) chunks) as Hsz by (apply chunk_sizes; lia).
  split; [apply concat_chunks; lia|]. split; [done|]. split.
  - intros i c w Hc Hw. unfold requests in Hw. rewrite list_lookup_imap, Hc in Hw. injection Hw as <-.
    assert (length c <= payload_len)%nat as Hlc by apply (Forall_lookup_1 _ _ _ _ Hsz Hc).
    destruct (chunk_request_read fd flags (i =? 0)%nat (i =? length chunks - 1)%nat c (proj2 is_fd) Hfl Hlc)
      as (H1 & _ & H3 & H4). done.
  - destruct (run_send flags Buf e s Hne) as (e' & s' & l & E & _ & Hl & Hm). exists e', s', l.
    split; [exact E|]. split; [exact Hl|]. rewrite Hm, batch_requests_chunks by lia. reflexivity.
Qed.

(** (C24) What send() returns when the driver reports the bytes of the
    batch in the 16 bits of its response: the length modulo 2^16; a buffer
    whose length is a multiple of 65536, all of which was sent, makes it
    return -1 with errno 0. *)
Theorem send_returns_length_mod flags Buf e s :
  Buf <> [] -> rsp_send_count seen = u16 (Z.of_nat (length Buf)) -> rsp_status seen = 0 ->
  exists s', run (send fuel devfd fd Buf flags) e s
    = Done (if Z.of_nat (length Buf) mod 2 ^ 16 =? 0 then -1 else Z.of_nat (length Buf) mod 2 ^ 16, 0, s').
Proof.
  intros Hne Hcount Hst. destruct (run_send flags Buf e s Hne) as (e' & s' & l & E & He & _).
  exists s'. rewrite E, He, Hcount, Hst. change (s32 (- 0)) with 0.
  unfold wrapu. pose proof (Z.mod_pos_bound (Z.of_nat (length Buf)) (2 ^ 16) ltac:(lia)).
  destruct (Z.ltb_spec 0 (Z.of_nat (length Buf) mod 2 ^ 16)), (Z.eqb_spec (Z.of_nat (length Buf) mod 2 ^ 16) 0);
    done || lia.
Qed.

(** **** Receiving *)

Lemma seen_app : seen = resp ++ drop (length resp) zero_response.
Proof. unfold seen, patch. by rewrite take_0. Qed.

Lemma run_recvfrom Len Flags (SrcAddr AddrLen : bool) e s :
  let received := if SrcAddr then rsp_recvfrom_count seen else rsp_recv_count seen in
  0 < received <= Len -> MT_RESPONSE_SOCKET_RECV_SIZE + received <= RESPONSE_REGION_SIZE ->
  exists e' s', run (recvfrom fuel devfd fd Len Flags SrcAddr AddrLen) e s
                = Done (recv_stores received SrcAddr AddrLen seen, e', s').
Proof.
  intros received Hr Hfit. unfold recvfrom, recv_finish. shim. destruct (run_is_mwsocket e s) as (e1 & ->). cbn [obind negb]. shim.
  destruct (run_answered (recvfrom_request fd Len Flags SrcAddr) e1 (asked_driver s)) as (e2 & ->). cbn [obind]. shim.
  change (truth 0) with false. cbn iota. rewrite (proj2 (Z.ltb_ge _ _) resp_ok). fold received. cbv zeta.
  rewrite (proj2 (Z.eqb_neq received 0)), (proj2 (Z.ltb_ge Len received)), (proj2 (Z.ltb_ge RESPONSE_REGION_SIZE _)) by lia.
  cbn [orb]. shim. by eexists _, _.
Qed.

Lemma region_size : RESPONSE_REGION_SIZE = 2055.
Proof. by vm_compute. Qed.

Lemma length_base rs : length (put_response_base rs) = 40%nat.
Proof. unfold put_response_base. by rewrite length_write_fields. Qed.

Lemma seen_after rs tail :
  resp = put_response_base rs ++ tail ->
  forall n, drop (40 + n) seen = drop n (tail ++ drop (length resp) zero_response).
Proof.
  intros Hr n. rewrite seen_app, <- drop_drop. f_equal. rewrite Hr at 1. rewrite <- app_assoc.
  apply drop_app_length'. by rewrite length_base.
Qed.

Lemma seen_base rs tail :
  response_base_wf rs -> resp = put_response_base rs ++ tail ->
  get_response_base seen = set_rs_body BodyUnset rs.
Proof.
  intros Hwf Hr. rewrite seen_app. rewrite Hr at 1. rewrite <- app_assoc. by apply get_put_response_base.
Qed.

(** The bytes behind the count. *)
Lemma counted_bytes n (data tail : list Z) :
  Z.of_nat (length data) = n -> 0 <= n < 2 ^ 16 ->
  le_value (take 2 (le_bytes 2 n ++ data ++ tail)) = n
  /\ take (length data) (drop 2 (le_bytes 2 n ++ data ++ tail)) = data.
Proof.
  intros Hl Hn. split.
  - rewrite take_app_length' by (by rewrite length_le_bytes). rewrite le_value_bytes. by apply wrapu_small.
  - rewrite drop_app_length' by (by rewrite length_le_bytes). by apply take_app_length'.
Qed.

Lemma fld_first w ws bs : fld (w :: ws) 0 bs = le_value (take w bs).
Proof. reflexivity. Qed.

(** The bytes an INS sends back for a receive are the bytes the
    application gets, all of them and in order, with their number. *)
Theorem recv_delivers_bytes rs data Len Flags e s :
  response_base_wf rs -> resp = put_response_base rs ++ le_bytes 2 (Z.of_nat (length data)) ++ data ->
  0 < Z.of_nat (length data) <= Z.min Len MESSAGE_TYPE_MAX_PAYLOAD_LEN ->
  rs_type rs <> response_type_code MtRequestSocketRecvFrom ->
  exists e' s', run (recv fuel devfd fd Len Flags) e s
    = Done ({| so_ret := Z.of_nat (length data); so_buf := Some data; so_addr := None; so_val := None |}, e', s').
Proof.
  intros Hwf Hresp Hlen Hty. change MESSAGE_TYPE_MAX_PAYLOAD_LEN with 1985 in Hlen.
  set (n := Z.of_nat (length data)) in *.
  destruct (counted_bytes n data (drop (length resp) zero_response) eq_refl ltac:(lia)) as [Hc Hd].
  pose proof (seen_after rs _ Hresp) as Hdrop. rewrite <- app_assoc in Hdrop.
  assert (rsp_recv_count seen = n) as Hcount.
  { unfold rsp_recv_count, rsp_fld. change (sizeof ct_response_base) with (40 + 0)%nat.
    rewrite Hdrop, fld_first. exact Hc. }
  destruct (run_recvfrom Len Flags false false e s) as (e' & s' & E); cbv iota; rewrite ?Hcount.
  - lia.
  - change MT_RESPONSE_SOCKET_RECV_SIZE with 42. rewrite region_size. lia.
  - exists e', s'. unfold recv. rewrite E. cbv iota. rewrite Hcount. unfold recv_stores. cbv zeta.
    rewrite (seen_base rs _ Hwf Hresp). cbn [set_rs_body rs_type]. rewrite !andb_false_r.
    change (sizeof ct_response_base + 2)%nat with (40 + 2)%nat. rewrite Hdrop.
    replace (Z.to_nat n) with (length data) by (unfold n; lia). by rewrite Hd.
Qed.

(** (C25) A receive that also asks for the address gets the wrong bytes:
    the buffer is filled from the start of the address in the response, so
    that the first 28 bytes are those of the address and of the two
    lengths; and the address stored is the protocol's structure, not the
    one of libc. *)
Theorem recvfrom_misplaces_bytes rs a alen data Len Flags AddrLen e s :
  let header := put_mt_sockaddr_in a ++ le_bytes 4 alen ++ le_bytes 2 (Z.of_nat (length data)) in
  response_base_wf rs -> length (mt_sin_zero a) = 8%nat ->
  resp = put_response_base rs ++ header ++ data ->
  0 < Z.of_nat (length data) <= Z.min Len MESSAGE_TYPE_MAX_PAYLOAD_LEN ->
  rs_type rs = response_type_code MtRequestSocketRecvFrom ->
  exists o e' s', run (recvfrom fuel devfd fd Len Flags true AddrLen) e s = Done (o, e', s')
  /\ so_ret o = Z.of_nat (length data)
  /\ so_buf o = Some (take (length data) (drop 2 header ++ data))
  /\ so_addr o = Some (take sizeof_sockaddr (put_mt_sockaddr_in a)).
Proof.
  intros header Hwf Hz Hresp Hlen Hty. change MESSAGE_TYPE_MAX_PAYLOAD_LEN with 1985 in Hlen.
  set (n := Z.of_nat (length data)) in *. set (rest := drop (length resp) zero_response).
  assert (length (put_mt_sockaddr_in a) = 24%nat) as Ha
    by (unfold put_mt_sockaddr_in; rewrite !length_app, !length_le_bytes, Hz; reflexivity).
  assert (length header = 30%nat) as Hh by (unfold header; rewrite !length_app, !length_le_bytes, Ha; reflexivity).
  pose proof (seen_after rs _ Hresp) as Hdrop. fold rest in Hdrop.
  assert (rsp_recvfrom_count seen = n) as Hcount.
  { unfold rsp_recvfrom_count. change (sizeof ct_response_base + sizeof ct_sockaddr_in)%nat with (40 + 24)%nat.
    rewrite Hdrop. unfold header. rewrite <- !app_assoc, drop_app_length' by done.
    assert (le_bytes 4 alen ++ le_bytes 2 n ++ data ++ rest = write_fields [4; 2]%nat [alen; n] ++ data ++ rest) as ->
      by (cbn [write_fields]; by rewrite app_nil_r, <- !app_assoc).
    rewrite fld_write by done. cbn [zip_with nth]. apply wrapu_small. change (8 * Z.of_nat 2) with 16. unfold in_u. lia. }
  destruct (run_recvfrom Len Flags true AddrLen e s) as (e' & s' & E); cbv iota; rewrite ?Hcount.
  - lia.
  - change MT_RESPONSE_SOCKET_RECV_SIZE with 42. rewrite region_size. lia.
  - eexists _, e', s'. split; [exact E|]. cbv iota. rewrite Hcount. unfold recv_stores. cbv zeta.
    rewrite (seen_base rs _ Hwf Hresp). cbn [set_rs_body rs_type so_ret so_buf so_addr].
    rewrite (proj2 (Z.eqb_eq _ _) (eq_sym Hty)). cbn [andb].
    split; [done|]. split; f_equal.
    + change (sizeof ct_response_base + 2)%nat with (40 + 2)%nat. rewrite Hdrop.
      replace (Z.to_nat n) with (length data) by (unfold n; lia).
      rewrite <- app_assoc, drop_app_le by lia. rewrite app_assoc, take_app_le; [done|].
      rewrite length_app. lia.
    + change (sizeof ct_response_base)%nat with (40 + 0)%nat. rewrite Hdrop, drop_0. unfold header.
      rewrite <- !app_assoc, take_app_le; [done|]. rewrite Ha. unfold sizeof_sockaddr. lia.
Qed.

End Answered.

End Served.

(** ** Concrete runs *)

(** A driver whose only mwsocket is the descriptor 4, that takes every
    request and answers a read with [r]. *)
Definition driver_of (r : sys_res) : LibcOS unit := fun c w =>
  (match c with
   | IoctlIsMwsocket _ fd =>
       {| sr_ret := 0; sr_errno := None; sr_buf := None; sr_addr := None; sr_val := Some (Z.b2z (fd =? 4)) |}
   | LibcWrite _ bytes => ok_res (s32 (Z.of_nat (length bytes)) mod 2 ^ 30)
   | LibcRead _ _ => r
   | _ => ok_res 0
   end, w).
Definition answers (resp : list Z) : LibcOS unit :=
  driver_of {| sr_ret := Z.of_nat (length resp); sr_errno := None; sr_buf := Some resp; sr_addr := None; sr_val := None |}.

Lemma driver_takes r bytes (w : unit) :
  0 <= s32 (sr_ret (fst (libc (LibcOS := driver_of r) (LibcWrite 4 bytes) w))).
Proof.
  cbn. pose proof (Z.mod_pos_bound (s32 (Z.of_nat (length bytes))) (2 ^ 30) ltac:(lia)).
  rewrite wraps_small; [lia|lia|]. unfold in_s. lia.
Qed.

Definition base_of (type : mt_request_type) : mt_response :=
  {| rs_sig := MT_SIGNATURE_RESPONSE; rs_type := response_type_code type; rs_size := 64; rs_id := 1;
     rs_sockfd := 0; rs_status := 0; rs_flags := 0; rs_ts_ins := 0; rs_body := BodyUnset |}.
Definition send_response (count : Z) : list Z :=
  put_response_base (base_of MtRequestSocketSend) ++ le_bytes 4 0 ++ le_bytes 2 count.
Definition data_response : list Z :=
  put_response_base (base_of MtRequestSocketRecv) ++ le_bytes 2 3 ++ [10; 20; 30].
Definition sample_address : mt_sockaddr_in :=
  {| mt_sin_family := MT_PF_INET; mt_sin_port := 80; mt_sin_addr := 1; mt_sin_zero := replicate 8 0 |}.
Definition address_response : list Z :=
  put_response_base (base_of MtRequestSocketRecvFrom)
  ++ (put_mt_sockaddr_in sample_address ++ le_bytes 4 16 ++ le_bytes 2 3) ++ [10; 20; 30].

#[local] Abbreviation start := {| sw_trace := []; sw_os := tt |}.


Lemma send_carries_buffer_witness :
  exists e' s' l, run (send (Sys := TracedSys (OS := answers (send_response 2000))) 3 9 4 (replicate 2000 7) 0) 0 start
    = Done (2000, e', s')
  /\ sw_trace s' = sw_trace (asked_driver (OS := answers (send_response 2000)) 9 4 start) ++ l
  /\ map (fun c => match c with LibcWrite _ b => length b | _ => 0%nat end) (map fst l) = [2017; 47; 0]%nat.
Proof.
  destruct (send_carries_buffer (OS := answers (send_response 2000)) 3 9 4 ltac:(lia) ltac:(by vm_compute)
              ltac:(by intros w; vm_compute) (driver_takes _) (send_response 2000) ltac:(by vm_compute)
              ltac:(by vm_compute) ltac:(by intros w) 0 (replicate 2000 7) 0 start ltac:(done) ltac:(by vm_compute))
    as (_ & _ & _ & e' & s' & l & E & Hl & Hm).
  exists e', s', l. split; [|split; [exact Hl|]].
  - assert (rsp_send_count (seen (send_response 2000)) = 2000) as Hc by (by vm_compute).
    rewrite Hc in E. exact E.
  - rewrite Hm. by vm_compute.
Defined.

(** 65536 bytes are sent, and the call fails. *)
Lemma send_returns_length_mod_witness :
  let Buf := replicate (Z.to_nat 65536) 7 in
  exists s', run (send (Sys := TracedSys (OS := answers (send_response 0))) 3 9 4 Buf 0) 0 start = Done (-1, 0, s').
Proof.
  intros Buf. assert (Z.of_nat (length Buf) = 65536) as Hl by (unfold Buf; by rewrite length_replicate, Z2Nat.id).
  clearbody Buf.
  destruct (send_returns_length_mod (OS := answers (send_response 0)) 3 9 4 ltac:(lia) ltac:(by vm_compute)
              ltac:(by intros w; vm_compute) (driver_takes _) (send_response 0) ltac:(by vm_compute)
              ltac:(by vm_compute) ltac:(by intros w) 0 Buf 0 start) as (s' & E).
  - intros H. by rewrite H in Hl.
  - rewrite Hl. by vm_compute.
  - by vm_compute.
  - exists s'. rewrite E, Hl. reflexivity.
Defined.

Lemma recv_delivers_bytes_witness :
  exists e' s', run (recv (Sys := TracedSys (OS := answers data_response)) 3 9 4 100 0) 0 start
    = Done ({| so_ret := 3; so_buf := Some [10; 20; 30]; so_addr := None; so_val := None |}, e', s').
Proof.
  apply (recv_delivers_bytes (OS := answers data_response) 3 9 4 ltac:(lia) ltac:(by vm_compute)
           ltac:(by intros w; vm_compute) (driver_takes _) data_response ltac:(by vm_compute)
           ltac:(by vm_compute) ltac:(by intros w) (base_of MtRequestSocketRecv) [10; 20; 30] 100 0 0 start);
    [by vm_compute|reflexivity|by vm_compute|by vm_compute].
Defined.

(** Three bytes arrive; the application gets three bytes of the address. *)
Lemma recvfrom_misplaces_bytes_witness :
  exists o e' s', run (recvfrom (Sys := TracedSys (OS := answers address_response)) 3 9 4 100 0 true true) 0 start
    = Done (o, e', s') /\ so_buf o = Some [0; 0; 80].
Proof.
  destruct (recvfrom_misplaces_bytes (OS := answers address_response) 3 9 4 ltac:(lia) ltac:(by vm_compute)
              ltac:(by intros w; vm_compute) (driver_takes _) address_response ltac:(by vm_compute)
              ltac:(by vm_compute) ltac:(by intros w) (base_of MtRequestSocketRecvFrom) sample_address 16 [10; 20; 30]
              100 0 true 0 start) as (o & e' & s' & E & _ & Hb & _);
    [by vm_compute|reflexivity|reflexivity|by vm_compute|reflexivity|].
  exists o, e', s'. split; [exact E|]. exact Hb.
Defined.
