(* ===== verification/ShimStack.v ===== *)
(** * ShimStack: applications, shim and driver together

    The calls of the shim that are for the driver run the driver's own
    file operations; all others are libc's. Applications are threads next
    to those of the kernel module, and their steps interleave. *)

From stdpp Require Import base numbers list gmap.
From Stdlib Require Import ZArith Lia.
From S2P Require Import Prelude MwSocket MessageTypes XenRing PvmXen Threads PvmCalls MwsState MwsRequest MwsResponse MwsFile MwsTables MwsWalk MwsWorld MwsInvariant MwsThreads MwsSamples MwsErrors MwNetflow MwNetflowServer MwNetflowSamples MwNetflowThreads MwBase Shim ShimCalls ShimRequest ShimWalk.
Import LinuxErrno.

(** ** What the calls keep, the applications keep *)

Section Keeps.

Context {S : Type} {Sys : ShimSys S}.
Context (fuel : nat) (devfd : Z) (I : S -> Prop).
Hypothesis sys_keeps : forall c, prog_keeps I (sys_prog c).

Definition sh_keeps A (m : sh S A) : Prop := forall e, prog_keeps I (m e).

Lemma sh_keeps_bind A B (m : sh S A) (k : A -> sh S B) :
  sh_keeps A m -> (forall a, sh_keeps B (k a)) -> sh_keeps B (sbind m k).
Proof. intros Hm Hk e. apply prog_keeps_bind; [apply Hm|]. intros [a e']. apply Hk. Qed.
Lemma sh_keeps_ret A (a : A) : sh_keeps A (sret a).
Proof. by intros e. Qed.
Lemma sh_keeps_errno : sh_keeps Z errno.
Proof. by intros e. Qed.
Lemma sh_keeps_set v : sh_keeps unit (set_errno v).
Proof. by intros e. Qed.
Lemma sh_keeps_fuel A : sh_keeps A sfuel.
Proof. intros e. apply prog_keeps_lift, m_keeps_fuel. Qed.
Lemma sh_keeps_sys c : sh_keeps _ (sys c).
Proof. intros e. apply prog_keeps_bind; [apply sys_keeps|]. done. Qed.

#[local] Hint Resolve sh_keeps_ret sh_keeps_errno sh_keeps_set sh_keeps_fuel sh_keeps_sys : sh.
#[local] Ltac sh_step :=
  lazymatch goal with
  | |- sh_keeps _ (sbind _ _) => apply sh_keeps_bind; [|intros ?]
  | |- sh_keeps _ (let (_, _) := ?x in _) => destruct x
  | |- sh_keeps _ (if ?b then _ else _) => destruct b
  | |- sh_keeps _ _ => solve [eauto with sh]
  end.

Lemma sh_keeps_write n fd bytes : sh_keeps _ (write_retry n fd bytes).
Proof. induction n; cbn [write_retry]; unfold sys_int; repeat sh_step. Qed.
Lemma sh_keeps_read n fd resp : sh_keeps _ (read_retry n fd resp).
Proof. revert resp. induction n; intros resp; cbn [read_retry]; cbv zeta; repeat sh_step. Qed.
#[local] Hint Resolve sh_keeps_write sh_keeps_read : sh.

Lemma sh_keeps_request fd wait req resp : sh_keeps _ (mwcomms_write_request fuel fd wait req resp).
Proof. unfold mwcomms_write_request, await_response. cbv zeta. repeat sh_step. Qed.
#[local] Hint Resolve sh_keeps_request : sh.

Lemma sh_keeps_batch n fd Buf tot final rc err req resp :
  sh_keeps _ (send_batch fuel n fd Buf tot final rc err req resp).
Proof. revert tot final rc err req resp. induction n; intros; cbn [send_batch]; cbv zeta; repeat sh_step. Qed.

#[export] Instance walk_keeps : ShimWalk fuel devfd sh_keeps.
Proof.
  split; auto using sh_keeps_ret, sh_keeps_bind, sh_keeps_errno, sh_keeps_set, sh_keeps_sys, sh_keeps_request, sh_keeps_batch.
  - intros A e. apply prog_keeps_lift, keeps_undef.
  - intros A fd c k m _ Hk Hm. unfold mwcomms_is_mwsocket. repeat sh_step; auto.
Qed.

Lemma applications_keep cs : sh_keeps _ (run_calls fuel devfd cs).
Proof. apply walk_calls, _. Qed.

End Keeps.

(** ** The driver behind the calls *)

Section Stack.

Context {S V : Type} {R : XenRing S} {POS : PvmOS V} {OS : MwsOS V} {MOS : ModuleOS V}.
Context (fuel ring_fuel : nat) (devfd : Z).

#[local] Existing Instance LinkedPvm.
#[local] Existing Instance LinkedMws.
#[local] Abbreviation state := (mws_state S (nf_world V)).

(** The descriptors of the applications: the driver's file behind one,
    and whether it is the last one for its file; and libc with all of the
    kernel but the driver. *)
Context (file_of : Z -> state -> option nat) (last_one : Z -> state -> bool).
Context (other : sys_call -> M state sys_res).

(** A code of the kernel as libc reports it. *)
Definition kernel_result (rc : Z) (buf : option (list Z)) (val : option Z) : sys_res :=
  if rc <? 0
  then {| sr_ret := -1; sr_errno := Some (- rc); sr_buf := None; sr_addr := None; sr_val := None |}
  else {| sr_ret := rc; sr_errno := None; sr_buf := buf; sr_addr := None; sr_val := val |}.

(** The call on a file of the driver, or libc's. *)
Definition with_file (fd : Z) (c : sys_call) (p : nat -> prog state sys_res) : prog state sys_res :=
  let! f := lift (gets (file_of fd)) in
  match f with Some f => p f | None => lift (other c) end.

#[local] Instance StackSys : ShimSys state := fun c =>
  match c with
  | LibcWrite fd bytes =>
      with_file fd c (fun f =>
        let! rc := mwsocket_write ring_fuel f bytes in PRet (kernel_result rc None None))
  | LibcRead fd len =>
      with_file fd c (fun f =>
        let! (rc, buf) := mwsocket_read f len in PRet (kernel_result rc buf None))
  | IoctlSocketAttributes fd attr =>
      with_file fd c (fun f =>
        let! (rc, val) := mwsocket_ioctl ring_fuel f true attr in PRet (kernel_result rc val None))
  | IoctlCreateSocket _ domain type protocol =>
      let! (rc, outfd) := mwbase_dev_ioctl ring_fuel (MW_IOCTL_CREATE_SOCKET domain type protocol) in
      PRet (kernel_result rc None outfd)
  | IoctlIsMwsocket _ fd =>
      let! (rc, answer) := mwbase_dev_ioctl ring_fuel (MW_IOCTL_IS_MWSOCKET fd) in
      PRet (kernel_result rc None answer)
  | LibcClose fd =>
      with_file fd c (fun f =>
        let! last := lift (gets (last_one fd)) in
        (if last : bool then mwsocket_release ring_fuel f ;!; PRet tt else PRet tt) ;!;
        lift (other c))
  | _ => lift (other c)
  end.

(** An application as a thread. *)
Definition application (cs : list sock_call) : prog state unit :=
  run_calls fuel devfd cs 0 ;!; PRet tt.

Definition stack_pool (apps : list (list sock_call)) (ops : list module_op) (s : state) : pool state unit :=
  {| po_threads := map application apps ++ map (run_module_op ring_fuel) ops; po_state := s |}.

Hypothesis other_outside : forall c s r s', other c s = Done (r, s') -> outside_module s s'.

Lemma outside_module_ok (s s' : state) : outside_module s s' -> module_ok s -> module_ok s'.
Proof.
  intros [Eg En] [Ha Hb]. split; red; unfold on, channels_in in *; [by rewrite Eg|].
  red in Hb. fold (nc_of s) in Hb. fold (nc_of s'). by rewrite En.
Qed.

Lemma other_keeps c : keeps module_ok (other c).
Proof. intros s r s' Hs E. eapply outside_module_ok; [by eapply other_outside|done]. Qed.

Lemma with_file_keeps fd c p :
  (forall f, prog_keeps module_ok (p f)) -> prog_keeps module_ok (with_file fd c p).
Proof.
  intros Hp. unfold with_file. apply prog_keeps_bind; [apply prog_keeps_lift, m_keeps_gets|].
  intros [f|]; [apply Hp|apply prog_keeps_lift, other_keeps].
Qed.

Lemma keeps_nfcall c : keeps module_ok (nf (S := S) (nfcall (V := V) c)).
Proof.
  apply module_nf. intros w x w' Hw E. unfold nfcall in E. destruct (nf_os_call c _). by simplify_eq.
Qed.

Lemma keeps_nf_ret_ok c : keeps module_ok (nf (S := S) (nf_ret (V := V) c)).
Proof.
  apply module_nf. unfold nf_ret. apply m_keeps_bind; [|intros; apply m_keeps_ret].
  intros w x w' Hw E. unfold nfcall in E. destruct (nf_os_call c _). by simplify_eq.
Qed.

Lemma device_keeps cmd : prog_keeps module_ok (mwbase_dev_ioctl (S := S) (V := V) ring_fuel cmd).
Proof.
  pose proof keeps_nfcall as Hc. pose proof keeps_nf_ret_ok as Hr.
  assert (forall v, keeps module_ok (copy_out (S := S) (V := V) v)) as Ho
    by (intros v; unfold copy_out; apply m_keeps_bind; [apply Hr|intros; apply m_keeps_ret]).
  destruct cmd as [d t p|fd|]; cbn [mwbase_dev_ioctl]; [| |done].
  - apply prog_keeps_bind; [apply prog_keeps_lift, Hr|]. intros rc. destruct (truth rc); [done|].
    apply prog_keeps_bind; [apply on_create, fw_walks|]. intros [rc1 outfd].
    destruct (truth rc1); [done|]. apply prog_keeps_lift, Ho.
  - apply prog_keeps_lift. apply m_keeps_bind; [apply Hr|]. intros rc. destruct (truth rc); [apply m_keeps_ret|].
    apply m_keeps_bind; [apply Hc|]. intros file. destruct (_ =? 0); [apply m_keeps_ret|].
    apply m_keeps_bind; [unfold mwsocket_verify, get_mg; keeps_solve|]. intros b.
    apply m_keeps_bind; [apply Hc|]. intros _. apply Ho.
Qed.

Lemma stack_keeps c : prog_keeps module_ok (sys_prog c).
Proof.
  assert (prog_keeps module_ok (lift (other c))) as Ho by apply prog_keeps_lift, other_keeps.
  destruct c; cbn [sys_prog StackSys]; unfold sys_prog, StackSys; try exact Ho;
    try (apply with_file_keeps; intros f; apply prog_keeps_bind;
         [first [apply on_write|apply on_read|apply on_ioctl|apply prog_keeps_lift, m_keeps_gets]; typeclasses eauto|]).
  - intros last. apply prog_keeps_bind; [|intros _; exact Ho]. destruct last; [|done].
    apply prog_keeps_bind; [apply on_release; typeclasses eauto|done].
  - by intros [rc buf].
  - done.
  - apply prog_keeps_bind; [apply device_keeps|]. by intros [rc outfd].
  - apply prog_keeps_bind; [apply device_keeps|]. by intros [rc outfd].
  - by intros [rc buf].
Qed.

Lemma always_module {A} (p : prog state A) : prog_keeps module_ok p -> prog_always keeps_module p.
Proof.
  induction p as [a|X m k IH]; [done|]. intros [Hm Hk]. split; [by apply always_keeps|]. intros x. by apply IH.
Qed.


(** ** What an option is *)

(** libc's getsockopt() on a file that is no socket of its own stores
    nothing. *)
Hypothesis not_libcs : forall fd l o n s r s',
  is_Some (file_of fd s) -> other (LibcGetsockopt fd l o n) s = Done (r, s') -> sr_buf r = None.


End Stack.

(** ** Concrete runs *)

Section Runs.

#[local] Existing Instance LinkedPvm.
#[local] Existing Instance LinkedMws.
#[local] Abbreviation state := (mws_state simple_ring (nf_world Z)).

(** The descriptor 4 is the file 0; libc does nothing. *)
Definition one_file (fd : Z) (s : state) : option nat := if fd =? 4 then Some 0%nat else None.
Definition idle_libc (c : sys_call) : M state sys_res :=
  ret {| sr_ret := 0; sr_errno := None; sr_buf := None; sr_addr := None; sr_val := None |}.

Lemma idle_outside c s r s' : idle_libc c s = Done (r, s') -> outside_module s s'.
Proof. intros [= <- <-]. by split. Qed.



End Runs.
