(* ===== verification/ShimEndToEnd.v ===== *)
(** * ShimEndToEnd: a response reaches the application

    From the ring of an INS through the driver and the shim to the
    application that waits in a socket call. *)

From stdpp Require Import base numbers list gmap.
From Stdlib Require Import ZArith Lia.
From S2P Require Import Prelude MwSocket MessageTypes XenRing PvmXen Threads PvmCalls MwsState MwsRequest MwsResponse MwsFile MwsTables MwsInvariant MwsWalk MwsSamples MwsRoundTrip MwsWrite MwNetflow MwNetflowServer MwNetflowSamples MwBase Shim ShimCalls ShimStack.
Import LinuxErrno.

Section EndToEnd.

Context {S V : Type} {R : XenRing S} {POS : PvmOS V} {OS : MwsOS V} {MOS : ModuleOS V}.
Context (fuel ring_fuel : nat).

#[local] Existing Instance LinkedPvm.
#[local] Existing Instance LinkedMws.
#[local] Abbreviation state := (mws_state S (nf_world V)).

Context (file_of : Z -> state -> option nat) (last_one : Z -> state -> bool).
Context (other : sys_call -> M state sys_res).
#[local] Existing Instance StackSys.
#[local] Abbreviation stack := (StackSys ring_fuel file_of last_one other).

(** A read of the shim is one of the driver. *)
Lemma stack_read fd f e n buf s s' :
  (forall s, file_of fd s = Some f) -> 0 <= n ->
  alone (mwsocket_read f RESPONSE_REGION_SIZE) s = Done ((n, buf), s') ->
  alone (sys (Sys := stack) (LibcRead fd RESPONSE_REGION_SIZE) e) s
  = Done ({| sr_ret := n; sr_errno := None; sr_buf := buf; sr_addr := None; sr_val := None |}, e, s').
Proof.
  intros Hf Hn E. unfold sys, sys_prog, StackSys, with_file.
  rewrite (alone_run _ _ s {| sr_ret := n; sr_errno := None; sr_buf := buf; sr_addr := None; sr_val := None |} s').
  2:{ rewrite (alone_run (lift (gets (file_of fd))) _ s (Some f) s)
        by (rewrite alone_lift; unfold gets; by rewrite Hf).
      rewrite (alone_run _ _ _ _ _ E). unfold kernel_result.
      rewrite (proj2 (Z.ltb_ge _ _) Hn). reflexivity. }
  reflexivity.
Qed.

(** What the status [status] of a response makes of the call. *)
Definition call_result (status : Z) : Z := if status <? 0 then -1 else 0.
Definition call_errno (status e : Z) : Z := if status <? 0 then s32 (- status) else e.

Lemma await_run fd f req Response e bs s s' :
  (forall s, file_of fd s = Some f) -> (0 < fuel)%nat ->
  let n := rs_size (get_response_base bs) in
  MT_RESPONSE_BASE_SIZE <= n < 2 ^ 31 -> (Z.to_nat n <= length bs)%nat ->
  alone (mwsocket_read f RESPONSE_REGION_SIZE) s = Done ((n, Some (take (Z.to_nat n) bs)), s') ->
  alone (await_response (Sys := stack) fuel fd req Response e) s
  = Done (call_result (rs_status (get_response_base bs)), req, patch 0 (take (Z.to_nat n) bs) Response,
          call_errno (rs_status (get_response_base bs)) e, s').
Proof.
  intros Hf Hfuel n Hn Hl E. assert (0 <= MT_RESPONSE_BASE_SIZE) by (by vm_compute). assert (0 <= n) as H0 by lia.
  destruct fuel as [|m]; [lia|]. unfold await_response. cbn [read_retry].
  assert (s32 n = n) as H32 by (apply wraps_small; unfold in_s; lia).
  assert (u64 n = n) as H64 by (apply wrapu_small; unfold in_u; lia).
  unfold sbind at 1. unfold sbind at 1. rewrite (alone_run _ _ s (n, patch 0 (take (Z.to_nat n) bs) Response, e) s').
  2:{ rewrite (alone_run _ _ _ _ _ (stack_read fd f e n _ s s' Hf H0 E)).
      cbn [sr_ret sr_buf sr_errno]. rewrite H32. cbv zeta. rewrite (proj2 (Z.ltb_ge _ _) H0). reflexivity. }
  cbn beta iota. rewrite H64, (proj2 (Z.ltb_ge _ _)) by apply Hn.
  assert (rsp_status (patch 0 (take (Z.to_nat n) bs) Response) = rs_status (get_response_base bs)) as Hst.
  { unfold rsp_status, patch. rewrite take_0. cbn [app].
    rewrite get_response_base_app; [done| |done].
    assert (Z.of_nat (sizeof ct_response_base) <= n) by apply Hn. lia. }
  assert (in_s 32 (rs_status (get_response_base bs))) as H32s
    by (unfold get_response_base; cbn [rs_status]; by apply wraps_range).
  rewrite Hst, (proj1 (is_critical_error_never _ H32s)).
  unfold call_result, call_errno. destruct (_ <? 0); reflexivity.
Qed.

(** The response [bs] to the request [id] comes first, on the ring [hd] of
    the state [p] that the search for it leaves: of any type but an
    accept's, not the end of a batch, with the size of a response and room
    for it on both sides. *)
Record answered_on (hd : nat) (i : mwcomms_ins_data S) (p : pvm_state S (nf_world V)) (id : Z) (bs : list Z)
    (s : state) : Prop := {
  an_found : mw_xen_response_available (ms_pvm s) = Done (Some hd, p);
  an_ins : mx_ins (pv_g p) !! hd = Some i;
  an_entry : ring_entry (id_sring i) (rsp_cons (id_front_ring i)) = bs;
  an_response : MT_IS_RESPONSE (get_response_base bs) = true;
  an_id : rs_id (get_response_base bs) = id;
  an_accept : is_response_type MtRequestSocketAccept (rs_type (get_response_base bs)) = false;
  an_batch : ends_batch bs = false;
  an_closed : has_flag (rs_flags (get_response_base bs)) MT_FLAGS_REMOTE_CLOSED = false;
  an_size : rs_size (get_response_base bs) <= Z.min RESPONSE_REGION_SIZE (Z.of_nat RR_SIZE);
  an_length : (Z.to_nat (rs_size (get_response_base bs)) <= length bs)%nat;
  an_running : mg_pending_exit (ms_g s) = false
}.

(** A kernel that serves the calls of a write and a read, in any state. *)
Record serves : Prop := {
  sv_alloc : forall v, m_ret (fst (mws_os_call (W := V) KmemCacheAlloc v)) <> 0;
  sv_from : forall v, m_ret (fst (mws_os_call (W := V) CopyFromUser v)) = 0;
  sv_to : forall v, m_ret (fst (mws_os_call (W := V) CopyToUser v)) = 0;
  sv_alive : forall proc v, m_ret (fst (mws_os_call (W := V) (ProcessDying proc) v)) = 0;
  sv_event : forall port v, p_ret (fst (pvm_os_call (W := V) (EvtchnSend port) v)) = 0
}.

(** A call that is not about the channel is the kernel's. *)
Lemma linked_ret c w :
  match c with MwNetflowConsumerExists | MwNetflowWriteAll _ => False | _ => True end ->
  m_ret (fst (mws_os_call (W := nf_world V) c w)) = m_ret (fst (mws_os_call (W := V) c (nw_os w))).
Proof.
  intros Hc. unfold mws_os_call at 1, LinkedMws. destruct c; try done; by destruct (mws_os_call (W := V) _ _).
Qed.

Lemma linked_event port w :
  p_ret (fst (pvm_os_call (W := nf_world V) (EvtchnSend port) w))
  = p_ret (fst (pvm_os_call (W := V) (EvtchnSend port) (nw_os w))).
Proof. cbn [pvm_os_call LinkedPvm]. by destruct (pvm_os_call (W := V) _ _). Qed.

(** One pass of the response thread, and the waiting call returns. *)
Lemma response_reaches_application s h a f x y hd i p bs fd req Response e :
  let base := get_response_base bs in
  awaiting (ms_g s) h a f x y -> answered_on hd i p (ar_id y) bs s -> serves ->
  (forall s, file_of fd s = Some f) -> (0 < fuel)%nat ->
  exists s' z,
    (let* _ := consume_response in alone (await_response (Sys := stack) fuel fd req Response e)) s
    = Done (call_result (rs_status base), req, patch 0 (take (Z.to_nat (rs_size base)) bs) Response,
            call_errno (rs_status base) e, s')
  /\ mx_ins (pv_g (ms_pvm s'))
     = <[hd := set_id_front_ring (advance_rsp_cons (id_front_ring i)) i]> (mx_ins (pv_g p))
  /\ mg_active_requests (ms_g s') !! a = None
  /\ idle_socket (ms_g s') h f z /\ si_refct z = si_refct x - 1.
Proof.
  intros base [Hb Hf Hx Hy [= X1 X2 X3 X4 X5] Hsem Hacc Hsc Hr Hy4] [N1 N2 N3 N4 N5 N6 N7 N8 N9 N10 N11] Hsv Hfd Hfuel.
  assert ((si_file x, si_usersock x, si_blockid x, si_read_expected x) = (Some f, h, ar_id y, true)) as Hx4
    by congruence.
  destruct (response_reaches_reader s h a f x y hd i p bs RESPONSE_REGION_SIZE Hb Hf Hx Hy Hx4 Hacc Hsc Hr Hy4
    N11 N1 N2 N3 N4 N5 N6 N7 N8 N9 N10) as (s' & z & E & H1 & H2 & H3 & H4 & H5 & H6 & H7 & H8).
  { intros proc w. rewrite linked_ret by done. apply (sv_alive Hsv). }
  { intros w. rewrite linked_ret by done. apply (sv_to Hsv). }
  assert (keeps (on (S := S) (W := nf_world V) books)
            (let* _ := consume_response in alone (mwsocket_read f RESPONSE_REGION_SIZE))) as Hk.
  { apply m_keeps_bind; [eapply on_consume_response; typeclasses eauto|]. intros _.
    apply alone_keeps, on_read. typeclasses eauto. }
  pose proof (Hk _ _ _ Hb E) as Hb'. unfold kept_view in H7. injection H7 as K1 K2 K3 K4 K5.
  exists s', z. split; [|split; [done|split; [done|split; [|done]]]].
  - unfold bind in *. destruct (consume_response s) as [[o s1]| | |]; cbn [obind] in *; try done.
    apply (await_run fd f); try done. unfold MT_IS_RESPONSE in N4. apply andb_true_iff in N4 as [_ N4%Z.leb_le].
    assert (RESPONSE_REGION_SIZE < 2 ^ 31) by (by vm_compute). lia.
  - split; [done|congruence|done|congruence|congruence|congruence|lia].
Qed.

(** The request of an application comes to the ring. *)
Lemma request_reaches_ring {Laws : XenRingLaws S} i ins h f x fd req e s :
  let bytes := put_request req in
  idle_socket (ms_g s) h f x -> to_send x bytes -> room i ins x bytes s -> (0 < ring_fuel)%nat ->
  Z.of_nat (length (mg_active_request_list (ms_g s))) < 2 ^ 62 -> serves ->
  (forall s, file_of fd s = Some f) -> (0 < fuel)%nat ->
  exists a y z s', alone (write_retry (Sys := stack) fuel fd bytes e) s = Done (0, e, s')
  /\ awaiting (ms_g s') h a f z y
  /\ si_refct z = si_refct x + 1 /\ si_request_sem z = si_request_sem x - 1
  /\ 0 < ar_id y < 2 ^ 64
  /\ (forall b w, mg_active_requests (ms_g s) !! b = Some w -> ar_id w <> ar_id y)
  /\ mg_active_requests (ms_g s) !! a = None
  /\ mg_active_requests (ms_g s') = <[a := y]> (mg_active_requests (ms_g s))
  /\ mx_ins (pv_g (ms_pvm s'))
     = <[i := pushed (sent_message (ar_id y) (si_remote_fd x) bytes) ins]> (mx_ins (pv_g (ms_pvm s))).
Proof.
  intros bytes Hi Ht Hr Hrf Hlen Hsv Hfd Hfuel.
  destruct (write_sends i ins ring_fuel h f x s bytes Hi Ht Hr Hrf Hlen) as (a & y & z & s' & E & Hrest).
  { intros w. rewrite linked_ret by done. apply (sv_alloc Hsv). }
  { intros w. rewrite linked_ret by done. apply (sv_from Hsv). }
  { intros port w. rewrite linked_event. apply (sv_event Hsv). }
  exists a, y, z, s'. split; [|exact Hrest]. destruct fuel as [|n]; [lia|]. cbn [write_retry].
  unfold sbind at 1. unfold sys_int. unfold sbind at 1.
  rewrite (alone_run _ _ s (0, e) s'); [reflexivity|].
  rewrite (alone_run _ _ s ({| sr_ret := 0; sr_errno := None; sr_buf := None; sr_addr := None; sr_val := None |}, e) s');
    [reflexivity|].
  unfold sys, sys_prog, StackSys, with_file.
  rewrite (alone_run _ _ s {| sr_ret := 0; sr_errno := None; sr_buf := None; sr_addr := None; sr_val := None |} s');
    [reflexivity|].
  rewrite (alone_run (lift (gets (file_of fd))) _ s (Some f) s) by (rewrite alone_lift; unfold gets; by rewrite Hfd).
  by rewrite (alone_run _ _ _ _ _ E).
Qed.


End EndToEnd.

(** ** A concrete run *)

Section Runs.

#[local] Existing Instance LinkedPvm.
#[local] Existing Instance LinkedMws.
#[local] Abbreviation state := (mws_state simple_ring (nf_world Z)).

(** The socket behind the file 3 is on the INS 7, whose ring is empty. *)
Definition ready_sock : mwsocket_instance := set_si_remote_fd (s64 (MW_SOCKET_CREATE 7 1)) user_sock.
Definition ready_socket : mwsocket_globals := set_mg_sockinsts {[ 0%nat := ready_sock ]} one_socket.
Definition ready_module : state := module_state nc_zero ready_socket.

(** The application asks to listen; the INS refuses. *)
Definition listen_message : mt_request_generic :=
  MT_REQUEST_SET_CALLER_WAITS
    (fill_body (le_bytes 4 8) (mwcomms_init_request MtRequestSocketListen MT_REQUEST_SOCKET_LISTEN_SIZE 5)).
Definition refused_response : list Z :=
  response_bytes (request_type_code MtRequestSocketListen) 1 MT_RESPONSE_BASE_SIZE (MW_SOCKET_CREATE 7 1) (-98) 0 [].
Definition refused_entry : list Z := ring_entry (response_ring refused_response) 0.
Definition refused_pvm : pvm_state simple_ring (nf_world Z) :=
  {| pv_g := pv_g (ms_pvm (with_response refused_response one_socket)); pv_world := module_world nc_zero;
     pv_trace := [] |}.

Lemma ready_socket_books : books (tables_of ready_socket).
Proof.
  split; try done.
  - split; [apply NoDup_nil_2| |intros a Ha; by apply elem_of_nil in Ha].
    intros a. simpl. rewrite lookup_empty, elem_of_nil. split; [done|by intros [? ?]].
  - split.
    + apply NoDup_singleton.
    + intros a. simpl. by rewrite list_elem_of_singleton, lookup_singleton_is_Some.
    + intros a Ha. simpl in *. rewrite list_elem_of_singleton in Ha. lia.
  - intros a x. simpl. rewrite lookup_singleton_Some. intros [_ <-]. by split_and!.
Qed.

#[local] Abbreviation listen_sys := (StackSys (V := Z) 3 (fun _ _ => Some 3%nat) (fun _ _ => true) idle_libc).


End Runs.
