(* ===== verification/InsLink.v ===== *)
(** * InsLink: the INS application on its own driver

    The application's calls on the ring device are the driver's entry
    points; all others are those of the network stack underneath. So the
    application's world is the state of the driver and the stack. *)

From stdpp Require Import base numbers list.
From Stdlib Require Import ZArith Lia.
From S2P Require Import Prelude MessageTypes MwErrno Translate XenRing InsState Networking Dispatcher InsDriver PvmXen RingChannel MwsResponse.

(** ** A response in memory

    The structure on the stack of process_buffer_item(): the members a
    handler has written, over what the stack held. *)

Definition put_sockaddr (a : option mt_sockaddr_in) : list Z :=
  match a with
  | Some m => le_bytes 4 (mt_sin_family m) ++ le_bytes 2 (mt_sin_port m)
  | None => []
  end.
(** The two bytes of padding are not written. *)
Definition put_sockaddr_rest (a : option mt_sockaddr_in) : list Z :=
  match a with
  | Some m => le_bytes 8 (mt_sin_addr m) ++ mt_sin_zero m
  | None => []
  end.
Definition patch_sockaddr (off : nat) (a : option mt_sockaddr_in) (mem : list Z) : list Z :=
  patch (off + 8) (put_sockaddr_rest a) (patch off (put_sockaddr a) mem).

Definition put_item (q : mt_pollset_query_item) : list Z :=
  le_bytes 8 (qi_sockfd q) ++ le_bytes 4 (qi_events q).

Definition response_image (stack : list Z) (r : mt_response) : list Z :=
  let b := sizeof ct_response_base in
  let a := sizeof ct_sockaddr_in in
  let mem := patch 0 (put_response_base r) stack in
  match rs_body r with
  | BodyUnset => mem
  | BodyAccept flags sa => patch_sockaddr (b + 4) sa (patch b (le_bytes 4 flags) mem)
  | BodyRecv count bytes => patch (b + 2) bytes (patch b (le_bytes 2 count) mem)
  | BodyRecvFrom sa alen count bytes =>
      patch (b + a + 6) bytes (patch (b + a) (le_bytes 4 alen ++ le_bytes 2 count) (patch_sockaddr b sa mem))
  | BodySend flags count => patch b (le_bytes 4 flags ++ le_bytes 2 count) mem
  | BodyGetName reslen sa => patch_sockaddr (b + 2) sa (patch b (le_bytes 2 reslen) mem)
  | BodyAttrib (ValV32 v) => patch (b + 2) (le_bytes 4 v) mem
  | BodyAttrib (ValTime s us) => patch (b + 2) (le_bytes 8 s ++ le_bytes 8 us) mem
  | BodyPollset count items => patch b (le_bytes 4 count ++ concat (map put_item items)) mem
  end.

(** ** The linked system *)

Record ins_world (S X V : Type) := { iw_xe : xe_state S X; iw_net : V }.
Arguments iw_xe {S X V}.
Arguments iw_net {S X V}.

Section Link.

Context {S X V : Type} {R : XenRing S} {XOS : XenOS X} {NOS : NetOS V}.
Context (stack : list Z) (open_fuel : nat) (dev_fd : Z).

#[local] Abbreviation world := (ins_world S X V).

Definition with_xe (x : xe_state S X) (w : world) : world := {| iw_xe := x; iw_net := iw_net w |}.

Definition sys_result (ret err : Z) (bytes : list Z) : sysres :=
  {| r_ret := ret; r_err := err; r_bytes := bytes; r_addr := sockaddr_in_zero; r_alen := 0; r_revents := [] |}.

(** What a call sees of an entry point of the driver. *)
Definition device {A} (o : outcome (A * xe_state S X)) (f : A -> sysres) (w : world) : sysres * world :=
  match o with
  | Done (a, x) => (f a, with_xe x w)
  | _ => (sys_result 0 0 [], w)
  end.

(** A transfer of at most [len] bytes: the bytes done, or the error. *)
Definition transferred (len : Z) (a : Z * uio) : sysres :=
  let (rc, u) := a in
  if truth rc then sys_result (-1) rc []
  else sys_result (len - uio_resid u) 0 (concat (map iov_base (uio_iov u))).

Definition one_buffer (base : list Z) (len : Z) : uio :=
  {| uio_iov := [{| iov_base := base; iov_len := len |}]; uio_offset := 0; uio_resid := len |}.

(** The kernel turns a positive code of an ioctl into errno. *)
Definition controlled (a : Z * ioctl_data) : sysres :=
  let (rc, data) := a in
  let bytes := match data with NoData => [] | DataText t => t | DataDomid d => le_bytes 2 d end in
  if truth rc then sys_result (-1) rc [] else sys_result 0 0 bytes.

#[local] Instance LinkedNet : NetOS world := fun c w =>
  match c with
  | SysRead _ len => device (xe_dev_read (one_buffer [] len) (iw_xe w)) (transferred len) w
  | SysWrite _ response len =>
      device (xe_dev_write (one_buffer (take (Z.to_nat len) (response_image stack response)) len) (iw_xe w))
        (transferred len) w
  | SysIoctlPublishListeners _ t => device (xe_dev_ioctl (INS_PUBLISH_LISTENERS_IOCTL t) (iw_xe w)) controlled w
  | SysIoctlHeartbeat _ t => device (xe_dev_ioctl (INS_HEARTBEAT_IOCTL t) (iw_xe w)) controlled w
  | SysIoctlDomid _ => device (xe_dev_ioctl INS_DOMID_IOCTL (iw_xe w)) controlled w
  | SysOpenDevice =>
      device (xe_dev_open open_fuel (iw_xe w))
        (fun rc => if truth rc then sys_result (-1) rc [] else sys_result dev_fd 0 []) w
  | _ => let '(r, v) := os_call c (iw_net w) in (r, {| iw_xe := iw_xe w; iw_net := v |})
  end.

(** ** The calls on the device, on a ring that is in order *)

Context {Laws : XenRingLaws S}.

(** The driver after a request was taken, and after a response was put. *)
Definition taken (x : xe_state S X) : xe_state S X :=
  set_xs_comm (set_cs_back_ring (advance_req_cons (cs_back_ring (xs_comm x))) (xs_comm x)) x.

Lemma read_item_run (x : xe_state S X) f c pos m rest :
  ring_repr (xs_ring x) f (cs_back_ring (xs_comm x)) c pos -> ch_requests c = m :: rest -> valid_request m ->
  xe_comms_read_item ONE_REQUEST_REGION_SIZE x = Done ((0, m), taken x).
Proof.
  intros Hr Ec Hm. destruct (repr_take _ _ _ _ _ _ _ Hr Ec) as [Hh _].
  unfold xe_comms_read_item, get_comm. rewrite (bind_done _ _ _ _ _ eq_refl).
  rewrite (bind_done _ _ x tt x).
  2:{ destruct (pending_signals (xs_comm x)); cbn [wait_for_request];
        by rewrite (bind_done _ _ _ _ _ eq_refl), (repr_has_requests _ _ _ _ _ Hr), Ec. }
  rewrite (bind_done _ _ _ _ _ eq_refl), (slot_request _ _ Hh Hm), (vr_is m Hm), (vr_size m Hm). cbn [negb orb].
  rewrite (proj2 (Z.ltb_ge _ _)) by apply (vr_fits m Hm).
  rewrite (proj2 (Z.ltb_ge _ _)) by apply (request_fits m Hm).
  by rewrite (bind_done _ _ _ _ _ eq_refl), Nat2Z.id, Hh.
Qed.

Lemma dev_read_run (x : xe_state S X) f c pos m rest :
  ds_read_lock (xs_dev x) = Some false ->
  ring_repr (xs_ring x) f (cs_back_ring (xs_comm x)) c pos -> ch_requests c = m :: rest -> valid_request m ->
  exists u, xe_dev_read (one_buffer [] ONE_REQUEST_REGION_SIZE) x = Done ((0, u), taken x)
  /\ transferred ONE_REQUEST_REGION_SIZE (0, u) = sys_result (Z.of_nat (length m)) 0 m.
Proof.
  intros Hl Hr Ec Hm. unfold xe_dev_read, xenevent_mutex_wait, get_dev, upd_dev.
  set (x1 := set_xs_dev (set_ds_read_lock (Some true) (xs_dev x)) x).
  rewrite (bind_done _ _ x tt x1) by (rewrite (bind_done _ _ _ _ _ eq_refl), Hl; done).
  cbn [one_buffer uio_iov read_iovs iov_len].
  pose proof (read_item_run x1 f c pos m rest Hr Ec Hm) as E.
  rewrite (bind_done _ _ x1 (0, {| uio_iov := [{| iov_base := m; iov_len := ONE_REQUEST_REGION_SIZE - Z.of_nat (length m) |}];
             uio_offset := Z.of_nat (length m); uio_resid := ONE_REQUEST_REGION_SIZE - Z.of_nat (length m) |}) (taken x1))
    by (by rewrite (bind_done _ _ _ _ _ E)).
  eexists. split.
  - unfold xenevent_mutex_release, get_dev, upd_dev. rewrite (bind_done _ _ (taken x1) tt (taken x)); [done|].
    rewrite (bind_done _ _ _ _ _ eq_refl). cbn. unfold modify. f_equal. f_equal.
    destruct x as [cm dv st rg wd tr]. destruct dv as [rl wl oc ip]. simpl in *. by rewrite Hl.
  - unfold transferred. change (truth 0) with false. cbn [uio_resid uio_iov map iov_base concat].
    rewrite app_nil_r. f_equal. lia.
Qed.

(** The driver after the response [m], when its event was sent with the
    result [r] and the world [w]. *)
Lemma write_item_run (x : xe_state S X) m k :
  valid_response m ->
  exists x', xe_comms_write_item m k x = Done ((0, Z.of_nat (length m)), x')
  /\ cs_back_ring (xs_comm x') = advance_rsp_prod_pvt (cs_back_ring (xs_comm x))
  /\ xs_ring x' = RING_PUSH_RESPONSES (ring_write (xs_ring x) (rsp_prod_pvt (cs_back_ring (xs_comm x))) m)
                    (advance_rsp_prod_pvt (cs_back_ring (xs_comm x)))
  /\ xs_dev x' = xs_dev x.
Proof.
  intros Hm. unfold xe_comms_write_item. rewrite (bind_done _ _ _ _ _ eq_refl).
  rewrite (vp_size m Hm), Z.ltb_irrefl. cbn [orb]. rewrite (proj2 (Z.ltb_ge _ _)) by apply (response_fits m Hm).
  rewrite Nat2Z.id, firstn_all. rewrite (bind_done _ _ _ _ _ eq_refl).
  unfold upd_comm, get_comm. rewrite !(bind_done _ _ _ _ _ eq_refl).
  unfold send_event, xcall, bind. destruct (xen_os_call _ _) as [r0 w0]. cbn [obind ret].
  eexists. split; [reflexivity|]. by split_and!.
Qed.

Lemma dev_write_run (x : xe_state S X) m :
  ds_write_lock (xs_dev x) = Some false -> valid_response m ->
  exists u x', xe_dev_write (one_buffer m (Z.of_nat (length m))) x = Done ((0, u), x')
  /\ transferred (Z.of_nat (length m)) (0, u) = sys_result (Z.of_nat (length m)) 0 []
  /\ cs_back_ring (xs_comm x') = advance_rsp_prod_pvt (cs_back_ring (xs_comm x))
  /\ xs_ring x' = RING_PUSH_RESPONSES (ring_write (xs_ring x) (rsp_prod_pvt (cs_back_ring (xs_comm x))) m)
                    (advance_rsp_prod_pvt (cs_back_ring (xs_comm x)))
  /\ xs_dev x' = xs_dev x.
Proof.
  intros Hl Hm. unfold xe_dev_write, xenevent_mutex_wait, get_dev, upd_dev.
  set (x1 := set_xs_dev (set_ds_write_lock (Some true) (xs_dev x)) x).
  rewrite (bind_done _ _ x tt x1) by (rewrite (bind_done _ _ _ _ _ eq_refl), Hl; done).
  cbn [one_buffer uio_iov write_iovs iov_len iov_base].
  destruct (write_item_run x1 m (Z.of_nat (length m)) Hm) as (x2 & E & H1 & H2 & H3).
  rewrite (bind_done _ _ x1 (0, {| uio_iov := [{| iov_base := drop (Z.to_nat (Z.of_nat (length m))) m; iov_len := Z.of_nat (length m) - Z.of_nat (length m) |}];
             uio_offset := Z.of_nat (length m); uio_resid := Z.of_nat (length m) - Z.of_nat (length m) |}) x2)
    by (by rewrite (bind_done _ _ _ _ _ E)).
  eexists _, (set_xs_dev (xs_dev x) x2). split.
  - unfold xenevent_mutex_release, get_dev, upd_dev. rewrite (bind_done _ _ x2 tt (set_xs_dev (xs_dev x) x2)); [done|].
    rewrite (bind_done _ _ _ _ _ eq_refl). rewrite H3. cbn. unfold modify. f_equal. f_equal.
    rewrite H3. destruct x as [cm dv st rg wd tr]. destruct dv as [rl wl oc ip]. simpl in *. by rewrite Hl.
  - split; [|by split_and!]. unfold transferred. change (truth 0) with false. cbn [uio_resid uio_iov map iov_base concat].
    rewrite Nat2Z.id, drop_all. f_equal. lia.
Qed.

End Link.
