(* ===== verification/InsServe.v ===== *)
(** * InsServe: one pass of the dispatcher, from the ring back to the ring

    A request to listen, on the socket of a worker thread, is taken off
    the ring, carried out by the dispatcher and answered on the ring. *)

From stdpp Require Import base numbers list.
From Stdlib Require Import ZArith Lia.
From S2P Require Import Prelude MwSocket MessageTypes MwErrno Translate XenRing WorkQueue InsState InsFacts Pollset Networking Dispatcher InsDriver PvmXen RingChannel MwsResponse InsLink.

Section Serve.

Context {S X V : Type} {R : XenRing S} {Laws : XenRingLaws S} {XOS : XenOS X} {NOS : NetOS V}.
Context (stack : list Z) (open_fuel : nat) (dev_fd : Z).
(** The descriptors of the device. *)
Context (in_fd out_fd : Z).

#[local] Abbreviation world := (ins_world S X V).
#[local] Instance Net : NetOS world := LinkedNet stack open_fuel dev_fd.
Implicit Types s : ins_state world.

(** ** Steps of the dispatcher *)

(** The buffer item [j], the worker thread [k], no port to report, the
    world, and the calls so far. *)
Record serving (j k : nat) (b : buffer_item) (t : thread_item) (x : xe_state S X) (v : V)
    (tr : list syscall) s : Prop := {
  sg_buffer : g_buffer_items (st_g s) !! j = Some b;
  sg_thread : g_worker_threads (st_g s) !! k = Some t;
  sg_ports : g_pending_port_change (st_g s) = false;
  sg_world : st_world s = {| iw_xe := x; iw_net := v |};
  sg_trace : st_trace s = tr;
  sg_input : g_input_fd (st_g s) = in_fd;
  sg_output : g_output_fd (st_g s) = out_fd
}.

Lemma serve_get_bi j k b t x v tr s : serving j k b t x v tr s -> get_bi j s = Done (b, s).
Proof. intros H. unfold get_bi. by rewrite (sg_buffer _ _ _ _ _ _ _ _ H). Qed.
Lemma serve_get_ti j k b t x v tr s : serving j k b t x v tr s -> get_ti k s = Done (t, s).
Proof. intros H. unfold get_ti. by rewrite (sg_thread _ _ _ _ _ _ _ _ H). Qed.

Lemma serve_upd_bi j k b t x v tr s f :
  serving j k b t x v tr s -> exists s', upd_bi j f s = Done (tt, s') /\ serving j k (f b) t x v tr s'.
Proof.
  intros [H1 H2 H3 H4 H5 H6 H7]. unfold upd_bi. rewrite H1. eexists. split; [done|]. split; try done. simpl.
  apply list_lookup_insert_eq. by eapply lookup_lt_Some.
Qed.

(** A call, by what the world makes of it. *)
Lemma serve_sys j k b t x v tr s c r x' v' :
  serving j k b t x v tr s ->
  os_call c {| iw_xe := x; iw_net := v |} = (r, {| iw_xe := x'; iw_net := v' |}) ->
  exists s', sys c s = Done (r, s') /\ serving j k b t x' v' (tr ++ [c]) s'
  /\ st_errno s' = (if r_ret r <? 0 then r_err r else st_errno s).
Proof.
  intros [H1 H2 H3 H4 H5 H6 H7] E. unfold sys. rewrite H4, E. eexists. split; [done|]. split; [|done].
  split; try done. simpl. by rewrite H5.
Qed.

Lemma serve_cas j k b t x v tr s old new :
  serving j k b t x v tr s ->
  exists s', cas_buffer_in_use j old new s = Done (bi_in_use b, s')
  /\ serving j k (if bi_in_use b =? old then set_bi_in_use new b else b) t x v tr s'.
Proof.
  intros H. unfold cas_buffer_in_use. rewrite (bind_done _ _ _ _ _ (serve_get_bi _ _ _ _ _ _ _ _ H)).
  destruct (Z.eqb_spec (bi_in_use b) old) as [->|]; [|by exists s].
  destruct (serve_upd_bi _ _ _ _ _ _ _ _ (set_bi_in_use new) H) as (s' & E & H').
  exists s'. by rewrite (bind_done _ _ _ _ _ E).
Qed.

(** The item is given back, and a second time without effect. *)
Lemma serve_release j k b t x v tr s :
  serving j k b t x v tr s -> bi_in_use b = 0 \/ bi_in_use b = 1 ->
  exists s' b', release_buffer_item j s = Done (tt, s') /\ serving j k b' t x v tr s' /\ bi_in_use b' = 0.
Proof.
  intros H Hb. unfold release_buffer_item.
  destruct (serve_cas _ _ _ _ _ _ _ _ 1 0 H) as (s1 & E1 & H1). rewrite (bind_done _ _ _ _ _ E1).
  destruct Hb as [Hb|Hb]; rewrite Hb in *.
  - exists s1, b. by split_and!.
  - destruct (serve_upd_bi _ _ _ _ _ _ _ _ (set_bi_assigned_thread None) H1) as (s2 & E2 & H2).
    exists s2, (set_bi_assigned_thread None (set_bi_in_use 0 b)). by split_and!.
Qed.

(** The first free item is taken. *)
Lemma serve_reserve n i j k b t x v tr s :
  serving j k b t x v tr s -> bi_in_use b = 0 -> (i <= j < i + n)%nat ->
  (forall j', (i <= j' < j)%nat -> exists b', g_buffer_items (st_g s) !! j' = Some b' /\ bi_in_use b' <> 0) ->
  exists s', reserve_scan n i s = Done ((0, Some j), s') /\ serving j k (set_bi_in_use 1 b) t x v tr s'.
Proof.
  intros H Hb. revert i. induction n as [|n IH]; intros i Hi Hbusy; [lia|]. cbn [reserve_scan].
  destruct (decide (i = j)) as [->|Hne].
  - destruct (serve_cas _ _ _ _ _ _ _ _ 0 1 H) as (s1 & E1 & H1). rewrite Hb in *.
    exists s1. rewrite (bind_done _ _ _ _ _ E1). by split.
  - destruct (Hbusy i ltac:(lia)) as (b' & Hb' & Hin).
    assert (cas_buffer_in_use i 0 1 s = Done (bi_in_use b', s)) as E.
    { unfold cas_buffer_in_use, get_bi, bind. rewrite Hb'. cbn [obind].
      by rewrite (proj2 (Z.eqb_neq _ _) Hin). }
    rewrite (bind_done _ _ _ _ _ E), (proj2 (Z.eqb_neq _ _) Hin). apply IH; [lia|].
    intros j' Hj. apply Hbusy. lia.
Qed.

(** The thread of a descriptor. *)
Record thread_of (fd : Z) (k : nat) (t : thread_item) : Prop := {
  to_fd : fd <> MT_INVALID_SOCKET_FD;
  to_index : s32 (MW_SOCKET_GET_ID fd) = Z.of_nat k;
  to_bound : (k < MAX_THREAD_COUNT)%nat;
  to_used : ti_in_use t <> 0;
  to_public : ti_public_fd t = fd
}.

Lemma serve_thread fd j k b t x v tr s :
  serving j k b t x v tr s -> thread_of fd k t -> get_worker_thread_for_fd fd s = Done ((0, Some k), s).
Proof.
  intros H [H1 H2 H3 H4 H5]. unfold get_worker_thread_for_fd.
  rewrite (proj2 (Z.eqb_neq _ _)) by congruence. rewrite H2.
  rewrite (proj2 (Z.leb_gt _ _)) by lia. rewrite (proj2 (Z.ltb_ge _ _)) by lia. rewrite Nat2Z.id.
  rewrite (bind_done _ _ _ _ _ (serve_get_ti _ _ _ _ _ _ _ _ H)), (proj2 (Z.eqb_neq _ _) H4), H5.
  by rewrite Z.eqb_refl.
Qed.

(** ** The response *)

Definition is_type_accept (base : mt_request_base) : bool := request_type_code MtRequestSocketAccept =? rq_type base.

(** The status listen() gives. *)
Definition listen_status (r : sysres) : Z :=
  if r_ret r <? 0 then XE_GET_NEG_ERRNO_VAL (r_err r) else r_ret r.

Definition listen_reply (base : mt_request_base) (t : thread_item) (r : sysres) : mt_response :=
  {| rs_sig := MT_SIGNATURE_RESPONSE; rs_type := u32 (MT_RESPONSE (rq_type base));
     rs_size := u16 MT_RESPONSE_BASE_SIZE; rs_id := rq_id base; rs_sockfd := rq_sockfd base;
     rs_status := listen_status r; rs_flags := u32 (Z.lor (u32 (rq_flags base)) (ti_state_flags t));
     rs_ts_ins := 0; rs_body := BodyUnset |}.

Lemma serve_listen j k b t x v tr s region r v' :
  serving j k b t x v tr s -> in_s 32 (r_ret r) ->
  os_call (SysListen (ti_local_fd t) (get_listen_backlog region)) v = (r, v') ->
  exists s', xe_net_listen_socket region response_zero k s
    = Done ((0, xe_net_set_base_response (get_request_base region) MT_RESPONSE_BASE_SIZE
                  (set_rs_status (listen_status r) response_zero)), s')
  /\ serving j k b t x v' (tr ++ [SysListen (ti_local_fd t) (get_listen_backlog region)]) s'.
Proof.
  intros H Hr Hc. unfold xe_net_listen_socket.
  rewrite (bind_done _ _ _ _ _ (serve_get_ti _ _ _ _ _ _ _ _ H)).
  destruct (serve_sys _ _ _ _ _ _ _ _ (SysListen (ti_local_fd t) (get_listen_backlog region)) r x v' H)
    as (s1 & E1 & H1 & Herr).
  { unfold os_call at 1, Net, LinkedNet. cbn [iw_net iw_xe]. by rewrite Hc. }
  rewrite (bind_done _ _ _ _ _ E1). cbn [rs_status set_rs_status]. rewrite (wraps_small 32) by done.
  unfold listen_status. destruct (r_ret r <? 0) eqn:En.
  - unfold XE_GET_NEG_ERRNO. rewrite (bind_done _ _ s1 (set_rs_status (XE_GET_NEG_ERRNO_VAL (r_err r))
      (set_rs_status (r_ret r) response_zero)) s1) by (unfold gets, bind; cbn [obind]; by rewrite Herr).
    by exists s1.
  - rewrite (bind_done _ _ _ _ _ eq_refl). by exists s1.
Qed.

(** The flags post_process_response() adds to a response. *)
Definition with_post_flags (base : mt_request_base) (t : thread_item) (resp : mt_response) : mt_response :=
  set_rs_flags (Z.lor (u32 (Z.lor (rs_flags resp) (rq_flags base))) (ti_state_flags t))
    (set_rs_flags (Z.lor (rs_flags resp) (rq_flags base)) resp).

Lemma serve_post_process j k b t x v tr s base resp :
  serving j k b t x v tr s -> is_type_accept base = false ->
  post_process_response base resp (Some k) s = Done ((0, with_post_flags base t resp), s).
Proof.
  intros H Ha. unfold post_process_response.
  rewrite (bind_done _ _ s (with_post_flags base t resp) s).
  2:{ by rewrite (bind_done _ _ _ _ _ (serve_get_ti _ _ _ _ _ _ _ _ H)). }
  unfold is_type_accept in Ha. rewrite Ha. cbn [andb]. rewrite (bind_done _ _ _ _ _ eq_refl).
  unfold update_listening_ports, get_g, gets, bind. cbn [obind]. by rewrite (sg_ports _ _ _ _ _ _ _ _ H).
Qed.

(** ** Putting the response on the ring *)

(** The bytes of a response without a body. *)
Lemma image_of_base r :
  response_base_wf r -> rs_body r = BodyUnset -> MT_IS_RESPONSE r = true -> rs_size r = MT_RESPONSE_BASE_SIZE ->
  take (Z.to_nat (rs_size r)) (response_image stack r) = put_response_base r
  /\ valid_response (put_response_base r) /\ get_response_base (put_response_base r) = r.
Proof.
  intros Hwf Hb Hi Hz. pose proof (length_put_response_base r) as Hl.
  assert (get_response_base (put_response_base r) = r) as Hg.
  { rewrite <- (app_nil_r (put_response_base r)), get_put_response_base by done. destruct r. simpl in *. by subst. }
  split; [|split; [split|done]].
  - unfold response_image. rewrite Hb, Hz. unfold patch. rewrite take_0. cbn [app].
    rewrite take_app_le by lia. apply take_ge. lia.
  - by rewrite Hg.
  - by rewrite Hg, Hz.
  - rewrite Hl. by vm_compute.
Qed.

(** The response is of the length its size says, and the driver can take it. *)
Record writes (r : mt_response) (msg : list Z) : Prop := {
  wr_valid : valid_response msg;
  wr_image : take (Z.to_nat (rs_size r)) (response_image stack r) = msg;
  wr_size : rs_size r = Z.of_nat (length msg)
}.

(** The driver before and after a response was put on the ring. *)
Definition response_put (msg : list Z) (x x' : xe_state S X) : Prop :=
  cs_back_ring (xs_comm x') = advance_rsp_prod_pvt (cs_back_ring (xs_comm x))
  /\ xs_ring x' = RING_PUSH_RESPONSES (ring_write (xs_ring x) (rsp_prod_pvt (cs_back_ring (xs_comm x))) msg)
                    (advance_rsp_prod_pvt (cs_back_ring (xs_comm x)))
  /\ xs_dev x' = xs_dev x.

Lemma serve_write j k b t x v tr s r msg :
  serving j k b t x v tr s -> ds_write_lock (xs_dev x) = Some false -> writes r msg ->
  exists s' x', write_response r s = Done (0, s')
  /\ serving j k b t x' v (tr ++ [SysWrite out_fd r (rs_size r)]) s' /\ response_put msg x x'.
Proof.
  intros H Hl [Hv Ht Hz]. unfold write_response, get_g, gets.
  rewrite (bind_done _ _ _ _ _ eq_refl), (sg_output _ _ _ _ _ _ _ _ H).
  destruct (dev_write_run x _ Hl Hv) as (u & x' & E & Hres & Hput). rewrite <- Hz in E, Hres.
  destruct (serve_sys _ _ _ _ _ _ _ _ (SysWrite out_fd r (rs_size r)) (sys_result (rs_size r) 0 []) x' v H)
    as (s1 & E1 & Hs1 & _).
  { unfold os_call at 1, Net, LinkedNet. cbn [iw_xe]. rewrite Ht, E. unfold device, with_xe. cbn [iw_net]. by rewrite Hres. }
  rewrite (bind_done _ _ _ _ _ E1). cbn [r_ret sys_result]. rewrite Z.eqb_refl. cbn [negb].
  by exists s1, x'.
Qed.

(** ** The request *)

Definition listens (base : mt_request_base) : Prop := rq_type base = request_type_code MtRequestSocketListen.

(** The region of a buffer item with the request [m] at its start. *)
Lemma region_base m tail : valid_request m -> get_request_base (m ++ tail) = get_request_base m.
Proof.
  intros Hm. pose proof (valid_request_length m Hm). unfold get_request_base, fld.
  by rewrite read_fields_prefix by (simpl; lia).
Qed.

Lemma region_backlog m tail :
  MT_REQUEST_BASE_SIZE + 4 <= Z.of_nat (length m) -> get_listen_backlog (m ++ tail) = get_listen_backlog m.
Proof.
  intros Hm. change MT_REQUEST_BASE_SIZE with 28 in Hm. unfold get_listen_backlog, body_fld, fld.
  change (sizeof ct_request_base) with 28%nat. rewrite drop_app_le by lia.
  rewrite read_fields_prefix; [done|]. rewrite length_drop. simpl. lia.
Qed.

(** ** The pass *)

Lemma listen_reply_ok base t r :
  request_base_wf base -> listens base -> -133 <= listen_status r < 2 ^ 31 -> response_base_wf (listen_reply base t r)
  /\ MT_IS_RESPONSE (listen_reply base t r) = true.
Proof.
  intros (H1 & H2 & H3 & H4 & H5 & H6) Hl Hs. split.
  - unfold response_base_wf, listen_reply. cbn [rs_sig rs_type rs_size rs_id rs_sockfd rs_status rs_flags rs_ts_ins].
    split; [by vm_compute|]. split; [by apply wrapu_range|]. split; [by vm_compute|]. split; [exact H4|].
    split; [exact H5|]. split; [unfold in_s; simpl in *; lia|]. split; [by apply wrapu_range|]. by vm_compute.
  - unfold MT_IS_RESPONSE, listen_reply. cbn [rs_sig rs_type rs_size]. rewrite Hl. by vm_compute.
Qed.

Lemma listen_status_range r : in_s 32 (r_ret r) -> -133 <= listen_status r < 2 ^ 31.
Proof.
  intros Hr. unfold in_s in Hr. unfold listen_status. pose proof (neg_errno_range (r_err r)).
  destruct (Z.ltb_spec (r_ret r) 0); simpl in *; lia.
Qed.

Lemma is_type_listen base : listens base -> is_type_accept base = false.
Proof. intros H. unfold is_type_accept. by rewrite H. Qed.

(** The response of the handler, after post_process_response(). *)
Lemma listen_reply_post base t r :
  in_s 32 (r_ret r) ->
  let resp := xe_net_set_base_response base MT_RESPONSE_BASE_SIZE (set_rs_status (listen_status r) response_zero) in
  set_rs_flags (Z.lor (u32 (Z.lor (rs_flags resp) (rq_flags base))) (ti_state_flags t))
    (set_rs_flags (Z.lor (rs_flags resp) (rq_flags base)) resp) = listen_reply base t r.
Proof.
  intros Hr. pose proof (listen_status_range r Hr).
  assert (s32 (listen_status r) = listen_status r) as Hs by (apply wraps_small; [lia|unfold in_s; simpl; lia]).
  unfold listen_reply, xe_net_set_base_response. cbn. by rewrite Hs.
Qed.

(** What the pass starts from: a free item, and the worker of the socket
    [fd] that the request names. *)
Record serving_ready (j k : nat) (b : buffer_item) (t : thread_item) (x : xe_state S X) (v : V)
    (fd : Z) s : Prop := {
  lr_serving : serving j k b t x v (st_trace s) s;
  lr_free : bi_in_use b = 0;
  lr_index : (j < BUFFER_ITEM_COUNT)%nat;
  lr_first : forall j', (j' < j)%nat -> exists b', g_buffer_items (st_g s) !! j' = Some b' /\ bi_in_use b' <> 0;
  lr_thread : thread_of fd k t;
  lr_oplock : ti_oplock_acquired t = false;
  lr_read_lock : ds_read_lock (xs_dev x) = Some false;
  lr_write_lock : ds_write_lock (xs_dev x) = Some false
}.

(** A request to listen. *)
Record asks_to_listen (m : list Z) : Prop := {
  lq_valid : valid_request m;
  lq_wf : request_base_wf (get_request_base m);
  lq_listens : listens (get_request_base m);
  lq_length : MT_REQUEST_BASE_SIZE + 4 <= Z.of_nat (length m)
}.

(** A request whose handler returned the response [resp]: it is completed
    and written, and the item is given back. *)
Lemma process_answered fuel j k b t t1 x v v' tr calls s s1 resp msg :
  serving j k b t x v tr s -> bi_assigned_thread b = Some k -> bi_in_use b = 1 ->
  run_handler fuel (bi_region b) (Some k) response_zero s = Done ((0, resp), s1) ->
  serving j k b t1 x v' (tr ++ calls) s1 -> ti_oplock_acquired t1 = false -> ds_write_lock (xs_dev x) = Some false ->
  let base := get_request_base (bi_region b) in
  let reply := with_post_flags base t1 resp in
  is_type_accept base = false -> releases_worker (rq_type base) (rs_status reply) = false -> writes reply msg ->
  exists s' b' x', process_buffer_item fuel j s = Done (0, s') /\ bi_in_use b' = 0
  /\ serving j k b' t1 x' v' (tr ++ calls ++ [SysWrite out_fd reply (rs_size reply)]) s' /\ response_put msg x x'.
Proof.
  intros H Hat Hin E H1 Hop Hl base reply Ha Hrel Hw. unfold process_buffer_item.
  rewrite (bind_done _ _ _ _ _ (serve_get_bi _ _ _ _ _ _ _ _ H)). cbv zeta. fold base. rewrite Hat.
  rewrite (bind_done _ _ _ _ _ E). rewrite (bind_done _ _ s1 tt s1).
  2:{ unfold release_oplock. rewrite (bind_done _ _ _ _ _ (serve_get_ti _ _ _ _ _ _ _ _ H1)). by rewrite Hop. }
  rewrite (bind_done _ _ _ _ _ (serve_post_process _ _ _ _ _ _ _ s1 base resp H1 Ha)). fold reply.
  destruct (serve_write _ _ _ _ _ _ _ s1 reply msg H1 Hl Hw) as (s2 & x' & E2 & H2 & Hput).
  rewrite (bind_done _ _ _ _ _ E2).
  destruct (serve_release _ _ _ _ _ _ _ s2 H2 (or_intror Hin)) as (s3 & b' & E3 & H3 & Hb').
  rewrite (bind_done _ _ _ _ _ E3), Hrel. exists s3, b', x'. split; [done|]. split; [done|]. split; [|done].
  by rewrite <- app_assoc in H3.
Qed.

(** The dispatcher reads the request into the free item and assigns it. *)
Lemma dispatch_reads fuel j k b t x v m rest f c pos s :
  serving_ready j k b t x v (rq_sockfd (get_request_base m)) s ->
  ring_repr (xs_ring x) f (cs_back_ring (xs_comm x)) c pos -> ch_requests c = m :: rest -> valid_request m ->
  exists s1 b1 tail,
    dispatch_one fuel s
    = (let* (rc, thread, more) := assign_work_to_thread fuel j in
       if truth rc then ret None
       else
         when more (with_worker thread (fun k =>
           upd_ti k (fun t => set_ti_awaiting_work_sem (ti_awaiting_work_sem t + 1) t))) ;;;
         ret None) s1
  /\ serving j k b1 t (taken x) v (st_trace s ++ [SysRead in_fd ONE_REQUEST_REGION_SIZE]) s1
  /\ bi_region b1 = m ++ tail /\ bi_in_use b1 = 1 /\ bi_idx b1 = bi_idx b.
Proof.
  intros [H Hfree Hj Hbusy Ht Hop Hrl Hwl] Hrep Ec Hm. unfold dispatch_one.
  destruct (serve_reserve BUFFER_ITEM_COUNT 0 _ _ _ _ _ _ _ s H Hfree) as (s1 & E1 & H1).
  { lia. } { intros j' Hj'. apply Hbusy. lia. }
  unfold reserve_available_buffer_item. rewrite (bind_done _ _ _ _ _ E1).
  rewrite (bind_done _ _ s1 in_fd s1) by (unfold get_g, gets; by rewrite (sg_input _ _ _ _ _ _ _ _ H1)).
  destruct (dev_read_run x f c pos m rest Hrl Hrep Ec Hm) as (u & Er & Hres).
  destruct (serve_sys _ _ _ _ _ _ _ s1 (SysRead in_fd ONE_REQUEST_REGION_SIZE)
    (sys_result (Z.of_nat (length m)) 0 m) (taken x) v H1) as (s2 & E2 & H2 & _).
  { unfold os_call at 1, Net, LinkedNet. cbn [iw_xe]. rewrite Er. unfold device, with_xe. cbn [iw_net]. by rewrite Hres. }
  rewrite (bind_done _ _ _ _ _ E2). cbn [r_bytes r_ret sys_result].
  destruct (serve_upd_bi _ _ _ _ _ _ _ s2 (fun b => set_bi_region (m ++ drop (length m) (bi_region b)) b) H2)
    as (s3 & E3 & H3).
  rewrite (bind_done _ _ _ _ _ E3), (bind_done _ _ _ _ _ (serve_get_bi _ _ _ _ _ _ _ _ H3)).
  cbn [bi_region set_bi_region]. rewrite (region_base _ _ Hm).
  pose proof (valid_request_length m Hm) as Hlen.
  rewrite (proj2 (Z.ltb_ge _ _)) by (change MT_REQUEST_BASE_SIZE with 28; lia).
  rewrite (vr_size m Hm), (proj2 (Z.ltb_ge _ _)) by apply (vr_fits m Hm). cbn [orb].
  eexists s3, _, _. split; [reflexivity|]. split; [exact H3|]. by split_and!.
Qed.

(** ** listen() *)

(** The response to a request to listen, as bytes. *)
Lemma listen_writes base t r :
  request_base_wf base -> listens base -> in_s 32 (r_ret r) ->
  writes (listen_reply base t r) (put_response_base (listen_reply base t r)).
Proof.
  intros Hwf Hli Hr. destruct (listen_reply_ok base t r Hwf Hli) as [Hw Hi]; [by apply listen_status_range|].
  destruct (image_of_base _ Hw eq_refl Hi eq_refl) as (Him & Hv & _).
  split; [done|done|]. by rewrite length_put_response_base.
Qed.

Lemma process_listen fuel j k b t x v tr s m tail r v' :
  serving j k b t x v tr s -> bi_region b = m ++ tail -> bi_assigned_thread b = Some k -> bi_in_use b = 1 ->
  ti_oplock_acquired t = false -> ds_write_lock (xs_dev x) = Some false -> asks_to_listen m ->
  os_call (SysListen (ti_local_fd t) (get_listen_backlog m)) v = (r, v') -> in_s 32 (r_ret r) ->
  let reply := listen_reply (get_request_base m) t r in
  exists s' b' x', process_buffer_item fuel j s = Done (0, s') /\ bi_in_use b' = 0
  /\ serving j k b' t x' v'
       (tr ++ [SysListen (ti_local_fd t) (get_listen_backlog m); SysWrite out_fd reply (rs_size reply)]) s'
  /\ response_put (put_response_base reply) x x'.
Proof.
  intros H Hreg Hat Hin Hop Hl [Hm Hwf Hli Hlen] Hc Hr reply.
  destruct (serve_listen _ _ _ _ _ _ _ s (m ++ tail) r v' H Hr) as (s1 & E1 & H1); [by rewrite region_backlog|].
  rewrite (region_base _ _ Hm) in E1. rewrite (region_backlog _ _ Hlen) in H1.
  pose proof (listen_reply_post (get_request_base m) t r Hr) as Hpost.
  apply (process_answered fuel j k b t t x v v' tr [SysListen (ti_local_fd t) (get_listen_backlog m)] s s1
    (xe_net_set_base_response (get_request_base m) MT_RESPONSE_BASE_SIZE (set_rs_status (listen_status r) response_zero))
    (put_response_base reply)) in H; rewrite ?Hreg, ?(region_base _ _ Hm) in *; try done.
  - unfold with_post_flags in H. by rewrite Hpost in H.
  - unfold run_handler. by rewrite (region_base _ _ Hm), Hli, request_type_of_code.
  - by apply is_type_listen.
  - unfold releases_worker. by rewrite Hli.
  - unfold with_post_flags. rewrite Hpost. by apply listen_writes.
Qed.

Lemma assign_listen fuel j k b t x v tr s m tail r v' :
  serving j k b t x v tr s -> bi_region b = m ++ tail -> bi_in_use b = 1 ->
  thread_of (rq_sockfd (get_request_base m)) k t ->
  ti_oplock_acquired t = false -> ds_write_lock (xs_dev x) = Some false -> asks_to_listen m ->
  os_call (SysListen (ti_local_fd t) (get_listen_backlog m)) v = (r, v') -> in_s 32 (r_ret r) ->
  let reply := listen_reply (get_request_base m) t r in
  exists s' b' x', assign_work_to_thread fuel j s = Done ((0, Some k, false), s') /\ bi_in_use b' = 0
  /\ serving j k b' t x' v'
       (tr ++ [SysListen (ti_local_fd t) (get_listen_backlog m); SysWrite out_fd reply (rs_size reply)]) s'
  /\ response_put (put_response_base reply) x x'.
Proof.
  intros H Hreg Hin Ht Hop Hl Hq Hc Hr reply. pose proof Hq as [Hm Hwf Hli Hlen]. unfold assign_work_to_thread.
  rewrite (bind_done _ _ _ _ _ (serve_get_bi _ _ _ _ _ _ _ _ H)). cbv zeta. rewrite Hreg, (region_base _ _ Hm).
  rewrite (bind_done _ _ s ((0, Some k), true) s).
  2:{ unfold select_thread. rewrite Hli, request_type_of_code.
      by rewrite (bind_done _ _ _ _ _ (serve_thread _ _ _ _ _ _ _ _ _ H Ht)). }
  change (truth 0) with false. cbn beta iota.
  destruct (serve_upd_bi _ _ _ _ _ _ _ s (set_bi_assigned_thread (Some k)) H) as (s1 & E1 & H1).
  destruct (process_listen fuel j k _ t x v tr s1 m tail r v' H1 Hreg eq_refl Hin Hop Hl Hq Hc Hr)
    as (s2 & b2 & x' & E2 & Hb2 & H2 & Hrest).
  rewrite (bind_done _ _ s (0, false) s2).
  2:{ unfold start_work. rewrite (bind_done _ _ _ _ _ E1), Hli.
      rewrite (bind_done _ _ s1 tt s1) by done. by rewrite (bind_done _ _ _ _ _ E2). }
  change (truth 0) with false. cbn beta iota. rewrite (bind_done _ _ _ _ _ eq_refl).
  destruct (serve_release _ _ _ _ _ _ _ s2 H2 (or_introl Hb2)) as (s3 & b3 & E3 & H3 & Hb3).
  rewrite (bind_done _ _ s2 tt s3) by done.
  exists s3, b3, x'. split; [done|]. split; [done|]. split; [done|]. exact Hrest.
Qed.

(** What the pass leaves: the response on the ring, the item free. *)
Definition listen_served (j k : nat) (t : thread_item) (x : xe_state S X) (v' : V) (m : list Z)
    (r : sysres) (tr : list syscall) s' : Prop :=
  let reply := listen_reply (get_request_base m) t r in
  exists b' x', bi_in_use b' = 0
  /\ serving j k b' t x' v'
       (tr ++ [SysRead in_fd ONE_REQUEST_REGION_SIZE; SysListen (ti_local_fd t) (get_listen_backlog m);
               SysWrite out_fd reply (rs_size reply)]) s'
  /\ response_put (put_response_base reply) (taken x) x'.

Theorem dispatch_listen fuel j k b t x v m rest f c pos r v' s :
  serving_ready j k b t x v (rq_sockfd (get_request_base m)) s -> asks_to_listen m ->
  ring_repr (xs_ring x) f (cs_back_ring (xs_comm x)) c pos -> ch_requests c = m :: rest ->
  os_call (SysListen (ti_local_fd t) (get_listen_backlog m)) v = (r, v') -> in_s 32 (r_ret r) ->
  exists s', dispatch_one fuel s = Done (None, s') /\ listen_served j k t x v' m r (st_trace s) s'.
Proof.
  intros Hrdy Hq Hrep Ec Hc Hr.
  destruct (dispatch_reads fuel j k b t x v m rest f c pos s Hrdy Hrep Ec (lq_valid _ Hq))
    as (s1 & b1 & tail & -> & H1 & Hreg & Hin & _).
  destruct (assign_listen fuel j k b1 t (taken x) v _ s1 m tail r v' H1 Hreg Hin (lr_thread _ _ _ _ _ _ _ _ Hrdy)
    (lr_oplock _ _ _ _ _ _ _ _ Hrdy) (lr_write_lock _ _ _ _ _ _ _ _ Hrdy) Hq Hc Hr) as (s4 & b4 & x' & E4 & Hb4 & H4 & Hput).
  rewrite (bind_done _ _ _ _ _ E4). change (truth 0) with false. cbn beta iota.
  exists s4. split; [done|]. exists b4, x'. split; [done|]. split; [|done].
  by rewrite <- app_assoc in H4.
Qed.

End Serve.
