(* ===== verification/InsRecv.v ===== *)
(** * InsRecv: a receive, from the ring over a worker thread back to the ring

    The dispatcher queues the request for the thread of its socket; the
    worker takes it, asks the network stack and writes the response. *)

From stdpp Require Import base numbers list.
From Stdlib Require Import ZArith Lia.
From S2P Require Import Prelude MwSocket MessageTypes MwErrno Translate XenRing WorkQueue InsState InsFacts Pollset Networking Dispatcher InsDriver PvmXen RingChannel MwsResponse InsLink InsServe.

Section Recv.

Context {S X V : Type} {R : XenRing S} {Laws : XenRingLaws S} {XOS : XenOS X} {NOS : NetOS V}.
Context (stack : list Z) (open_fuel : nat) (dev_fd in_fd out_fd : Z).

#[local] Abbreviation world := (ins_world S X V).
#[local] Hint Extern 0 (NetOS (ins_world _ _ _)) => exact (Net stack open_fuel dev_fd) : typeclass_instances.
#[local] Abbreviation serving := (serving in_fd out_fd).
Implicit Types s : ins_state world.

(** ** More steps *)

Lemma serve_upd_ti j k b t x v tr s f :
  serving j k b t x v tr s -> exists s', upd_ti k f s = Done (tt, s') /\ serving j k b (f t) x v tr s'.
Proof.
  intros [H1 H2 H3 H4 H5 H6 H7]. unfold upd_ti. rewrite H2. eexists. split; [done|]. split; try done. simpl.
  apply list_lookup_insert_eq. by eapply lookup_lt_Some.
Qed.

Lemma serve_stats j k b t x v tr s f :
  serving j k b t x v tr s ->
  exists s', upd_g (fun g => set_g_stats_bytes_recv (f g) g) s = Done (tt, s') /\ serving j k b t x v tr s'.
Proof. intros [H1 H2 H3 H4 H5 H6 H7]. eexists. split; [reflexivity|]. by split. Qed.

Lemma serve_set_errno j k b t x v tr s e :
  serving j k b t x v tr s -> exists s', set_errno e s = Done (tt, s') /\ serving j k b t x v tr s' /\ st_errno s' = e.
Proof. intros [H1 H2 H3 H4 H5 H6 H7]. eexists. split; [reflexivity|]. by split. Qed.

(** ** The answer of the stack *)

(** Bytes, or an error other than an interruption. *)
Definition recv_answers (r : sysres) : Prop :=
  (0 < r_ret r <= MESSAGE_TYPE_MAX_PAYLOAD_LEN /\ Z.of_nat (length (r_bytes r)) = r_ret r)
  \/ (r_ret r < 0 /\ r_err r <> EINTR).

Definition recv_status (r : sysres) : Z := if r_ret r <? 0 then XE_GET_NEG_ERRNO_VAL (r_err r) else 0.
Definition recv_bytes (r : sysres) : list Z := if r_ret r <? 0 then [] else r_bytes r.
Definition recv_count (r : sysres) : Z := Z.of_nat (length (recv_bytes r)).

Definition recv_reply (base : mt_request_base) (t : thread_item) (r : sysres) : mt_response :=
  {| rs_sig := MT_SIGNATURE_RESPONSE; rs_type := u32 (MT_RESPONSE (rq_type base));
     rs_size := u16 (MT_RESPONSE_SOCKET_RECV_SIZE + recv_count r); rs_id := rq_id base; rs_sockfd := rq_sockfd base;
     rs_status := recv_status r; rs_flags := u32 (Z.lor (u32 (rq_flags base)) (ti_state_flags t));
     rs_ts_ins := 0; rs_body := BodyRecv (recv_count r) (recv_bytes r) |}.

Definition recv_message (base : mt_request_base) (t : thread_item) (r : sysres) : list Z :=
  put_response_base (recv_reply base t r) ++ le_bytes 2 (recv_count r) ++ recv_bytes r.

Definition recv_call (t : thread_item) (bytes : list Z) : syscall :=
  SysRecv (ti_local_fd t) (rv_requested (get_socket_recv bytes))
    (xe_net_translate_msg_flags (rv_flags (get_socket_recv bytes))).

Lemma recv_count_bounds r : recv_answers r -> 0 <= recv_count r <= MESSAGE_TYPE_MAX_PAYLOAD_LEN.
Proof.
  change MESSAGE_TYPE_MAX_PAYLOAD_LEN with 1985. unfold recv_answers, recv_count, recv_bytes.
  change MESSAGE_TYPE_MAX_PAYLOAD_LEN with 1985. destruct (Z.ltb_spec (r_ret r) 0); simpl; lia.
Qed.

Lemma recv_status_range r : -133 <= recv_status r <= 0.
Proof. unfold recv_status. pose proof (neg_errno_range (r_err r)). destruct (r_ret r <? 0); lia. Qed.

(** The loop over recv() ends in its first round. *)
Lemma serve_recv_loop fuel j k b t x v tr s fd len flags r v' resp :
  serving j k b t x v tr s -> recv_answers r -> os_call (SysRecv fd len flags) v = (r, v') ->
  exists s', recv_loop 2 (Datatypes.S fuel) k fd len flags false 0 resp s
    = Done ((None, set_rs_body (BodyRecv (recv_count r) (recv_bytes r)) (set_rs_status (recv_status r) resp)), s')
  /\ serving j k b t x v' (tr ++ [SysRecv fd len flags]) s'.
Proof.
  intros H Hr Hc. pose proof (recv_count_bounds r Hr) as Hcount. cbn [recv_loop recv_retry].
  destruct (serve_set_errno _ _ _ _ _ _ _ s 0 H) as (s0 & E0 & H0 & He0).
  destruct (serve_sys stack open_fuel dev_fd in_fd out_fd _ _ _ _ _ _ _ s0 (SysRecv fd len flags) r x v' H0)
    as (s1 & E1 & H1 & He1).
  { unfold os_call at 1, Net, LinkedNet. cbn [iw_net iw_xe]. by rewrite Hc. }
  rewrite (bind_done _ _ s r s1).
  2:{ rewrite (bind_done _ _ _ _ _ E0), (bind_done _ _ _ _ _ E1). rewrite (bind_done _ _ s1 (st_errno s1) s1) by done.
      rewrite He1. destruct Hr as [[Hr _]|[Hr Hne]].
      - by rewrite (proj2 (Z.ltb_ge _ _)) by lia.
      - rewrite (proj2 (Z.ltb_lt _ _)) by lia. by rewrite (proj2 (Z.eqb_neq _ _)) by congruence. }
  unfold recv_answers, recv_count, recv_bytes, recv_status in *.
  rewrite (proj2 (Z.ltb_ge MESSAGE_TYPE_MAX_PAYLOAD_LEN _)) by (change MESSAGE_TYPE_MAX_PAYLOAD_LEN with 1985 in *; lia).
  destruct (Z.ltb_spec (r_ret r) 0) as [Hn|Hn].
  - unfold XE_GET_NEG_ERRNO, gets. rewrite (bind_done _ _ _ _ _ eq_refl), He1. exists s1. by split.
  - destruct Hr as [[Hr Hl]|[Hr _]]; [|lia]. change MESSAGE_TYPE_MAX_PAYLOAD_LEN with 1985 in *.
    assert (u16 (r_ret r) = r_ret r) as Hu by (apply wrapu_small; unfold in_u; lia).
    rewrite Hu, (proj2 (Z.ltb_lt 0 _)) by lia. exists s1. rewrite Hl. by split.
Qed.

(** The handler. *)
Definition recv_response (base : mt_request_base) (r : sysres) : mt_response :=
  xe_net_set_base_response base (MT_RESPONSE_SOCKET_RECV_SIZE + recv_count r)
    (set_rs_body (BodyRecv (recv_count r) (recv_bytes r))
       (set_rs_status (recv_status r) (set_rs_status 0 (set_rs_body (BodyRecv 0 []) response_zero)))).

Lemma serve_recv fuel j k b t x v tr s region r v' :
  serving j k b t x v tr s -> recv_answers r -> os_call (recv_call t region) v = (r, v') ->
  exists s', xe_net_recv_socket (Datatypes.S fuel) region response_zero k s
    = Done ((0, recv_response (get_request_base region) r), s')
  /\ serving j k b t x v' (tr ++ [recv_call t region]) s'.
Proof.
  intros H Hr Hc. unfold xe_net_recv_socket. cbv zeta.
  rewrite (bind_done _ _ _ _ _ (serve_get_ti _ _ _ _ _ _ _ _ _ _ H)).
  destruct (serve_recv_loop fuel j k b t x v tr s _ _ _ r v'
    (set_rs_status 0 (set_rs_body (BodyRecv 0 []) response_zero)) H Hr Hc) as (s1 & E1 & H1).
  rewrite (bind_done _ _ _ _ _ E1). cbn beta iota.
  destruct (serve_stats _ _ _ _ _ _ _ s1 (fun g => u64 (g_stats_bytes_recv g + recv_count r)) H1) as (s2 & E2 & H2).
  exists s2. split; [|exact H2]. by rewrite (bind_done _ _ _ _ _ E2).
Qed.

Lemma recv_response_post base t r :
  recv_answers r -> with_post_flags base t (recv_response base r) = recv_reply base t r.
Proof.
  intros Hr. pose proof (recv_status_range r).
  assert (s32 (recv_status r) = recv_status r) as Hs by (apply wraps_small; [lia|unfold in_s; simpl; lia]).
  unfold recv_reply, with_post_flags, recv_response, xe_net_set_base_response. cbn. by rewrite Hs.
Qed.

(** ** The response as bytes *)

Definition receives (base : mt_request_base) : Prop := rq_type base = request_type_code MtRequestSocketRecv.


Lemma recv_size base t r : recv_answers r -> rs_size (recv_reply base t r) = 42 + recv_count r.
Proof.
  intros Hr. pose proof (recv_count_bounds r Hr) as H. change MESSAGE_TYPE_MAX_PAYLOAD_LEN with 1985 in H.
  cbn [recv_reply rs_size]. change MT_RESPONSE_SOCKET_RECV_SIZE with 42. apply wrapu_small. unfold in_u. lia.
Qed.

Lemma response_base_bytes r : length (put_response_base r) = 40%nat.
Proof. unfold put_response_base. by rewrite length_write_fields. Qed.

Lemma length_recv_message base t r : recv_answers r -> Z.of_nat (length (recv_message base t r)) = 42 + recv_count r.
Proof.
  intros Hr. unfold recv_message. rewrite !length_app, response_base_bytes, length_le_bytes. unfold recv_count. lia.
Qed.

Lemma recv_reply_wf base t r :
  request_base_wf base -> recv_answers r -> response_base_wf (recv_reply base t r).
Proof.
  intros (H1 & H2 & H3 & H4 & H5 & H6) Hr. pose proof (recv_status_range r). unfold response_base_wf.
  cbn [recv_reply rs_sig rs_type rs_size rs_id rs_sockfd rs_status rs_flags rs_ts_ins].
  split; [by vm_compute|]. split; [by apply wrapu_range|]. split; [by apply wrapu_range|]. split; [exact H4|].
  split; [exact H5|]. split; [unfold in_s; simpl; lia|]. split; [by apply wrapu_range|]. by vm_compute.
Qed.

Lemma get_recv_message base t r tail :
  request_base_wf base -> recv_answers r ->
  get_response_base (recv_message base t r ++ tail) = set_rs_body BodyUnset (recv_reply base t r).
Proof.
  intros Hwf Hr. unfold recv_message. rewrite <- app_assoc. apply get_put_response_base. by apply recv_reply_wf.
Qed.

(** The image of the response in memory starts with the message. *)
Lemma recv_image base t r :
  take (42 + length (recv_bytes r)) (response_image stack (recv_reply base t r)) = recv_message base t r.
Proof.
  unfold response_image, recv_message. cbn [rs_body recv_reply]. change (sizeof ct_response_base) with 40%nat.
  set (h := put_response_base _). assert (length h = 40%nat) as Hh by apply response_base_bytes.
  set (c := le_bytes 2 (recv_count r)). assert (length c = 2%nat) as Hc by apply length_le_bytes.
  unfold patch. rewrite take_0. cbn [app]. rewrite Hc, Hh.
  rewrite (take_app_length' h (drop (0 + 40) stack) 40) by done. rewrite (app_assoc h c).
  rewrite (take_app_length' (h ++ c) _ (40 + 2)) by (rewrite length_app; lia).
  rewrite app_assoc. rewrite take_app_length'; [by rewrite <- app_assoc|]. rewrite !length_app. lia.
Qed.

Lemma recv_writes base t r :
  request_base_wf base -> receives base -> recv_answers r ->
  writes stack (recv_reply base t r) (recv_message base t r).
Proof.
  intros Hwf Hli Hr. pose proof (recv_count_bounds r Hr) as Hc. change MESSAGE_TYPE_MAX_PAYLOAD_LEN with 1985 in Hc.
  pose proof (get_recv_message base t r [] Hwf Hr) as Hg. rewrite app_nil_r in Hg.
  split; [split; rewrite ?Hg| |].
  - unfold MT_IS_RESPONSE. cbn [set_rs_body rs_sig rs_type rs_size recv_reply].
    apply andb_true_iff. split; [rewrite Hli; by vm_compute|].
    apply Z.leb_le. pose proof (recv_size base t r Hr) as Hz. cbn [recv_reply rs_size] in Hz. rewrite Hz.
    change MT_RESPONSE_BASE_SIZE with 40. lia.
  - rewrite length_recv_message by done. by rewrite <- (recv_size base t).
  - rewrite length_recv_message by done. change RESPONSE_REGION_SIZE with 2055. lia.
  - rewrite recv_size by done. replace (Z.to_nat (42 + recv_count r)) with (42 + length (recv_bytes r))%nat
      by (unfold recv_count; lia). apply recv_image.
  - by rewrite recv_size, length_recv_message.
Qed.

(** ** The request *)

Record asks_to_receive (m : list Z) : Prop := {
  rq_valid : valid_request m;
  rq_wf : request_base_wf (get_request_base m);
  rq_receives : receives (get_request_base m);
  rq_length : MT_REQUEST_BASE_SIZE + 6 <= Z.of_nat (length m)
}.

Lemma region_recv m tail :
  MT_REQUEST_BASE_SIZE + 6 <= Z.of_nat (length m) -> get_socket_recv (m ++ tail) = get_socket_recv m.
Proof.
  intros Hm. change MT_REQUEST_BASE_SIZE with 28 in Hm. unfold get_socket_recv, body_fld, fld.
  change (sizeof ct_request_base) with 28%nat. rewrite drop_app_le by lia.
  by rewrite !read_fields_prefix by (rewrite length_drop; simpl; lia).
Qed.

(** ** The dispatcher queues it *)

(** The thread with the item in its queue and its semaphore raised. *)
Definition woken (wq : workqueue) (t : thread_item) : thread_item :=
  set_ti_awaiting_work_sem (ti_awaiting_work_sem t + 1) (set_ti_work_queue wq t).

Record queued (j k : nat) (t : thread_item) (m : list Z) (b1 : buffer_item) (t1 : thread_item) : Prop := {
  qd_region : exists tail, bi_region b1 = m ++ tail;
  qd_thread : bi_assigned_thread b1 = Some k;
  qd_in_use : bi_in_use b1 = 1;
  qd_woken : exists wq, t1 = woken wq t /\ wq_inv wq /\ wq_abs wq = [Z.of_nat j]
}.

Lemma assign_recv fuel j k b t x v tr s m tail :
  serving j k b t x v tr s -> bi_region b = m ++ tail -> bi_in_use b = 1 -> bi_idx b = Z.of_nat j ->
  (j < BUFFER_ITEM_COUNT)%nat -> thread_of (rq_sockfd (get_request_base m)) k t -> asks_to_receive m ->
  wq_inv (ti_work_queue t) -> wq_abs (ti_work_queue t) = [] ->
  exists s1 b1 wq, assign_work_to_thread fuel j s = Done ((0, Some k, true), s1)
  /\ serving j k b1 (set_ti_work_queue wq t) x v tr s1
  /\ bi_region b1 = m ++ tail /\ bi_assigned_thread b1 = Some k /\ bi_in_use b1 = 1
  /\ wq_inv wq /\ wq_abs wq = [Z.of_nat j].
Proof.
  intros H Hreg Hin Hidx Hj Ht [Hm Hwf Hre Hlen] Hq Hempty. unfold assign_work_to_thread.
  rewrite (bind_done _ _ _ _ _ (serve_get_bi _ _ _ _ _ _ _ _ _ _ H)). cbv zeta. rewrite Hreg, (region_base _ _ Hm).
  rewrite (bind_done _ _ s ((0, Some k), false) s).
  2:{ unfold select_thread. rewrite Hre, request_type_of_code.
      by rewrite (bind_done _ _ _ _ _ (serve_thread _ _ _ _ _ _ _ _ _ _ _ H Ht)). }
  change (truth 0) with false. cbn beta iota.
  destruct (serve_upd_bi _ _ _ _ _ _ _ _ _ s (set_bi_assigned_thread (Some k)) H) as (s1 & E1 & H1).
  destruct (wq_enqueue_space (ti_work_queue t) (Z.of_nat j) Hq) as (wq & Ew & Hwq & Habs & _).
  { pose proof (wqi_avail _ Hq). pose proof (wqi_ct _ Hq). apply (f_equal length) in Hempty.
    rewrite length_wq_abs in Hempty. unfold wq_count in Hempty. simpl in Hempty. lia. }
  destruct (serve_upd_ti _ _ _ _ _ _ _ s1 (set_ti_work_queue wq) H1) as (s2 & E2 & H2).
  assert (s16 (Z.of_nat j) = Z.of_nat j) as H16.
  { apply wraps_small; [lia|]. assert (BUFFER_ITEM_COUNT = 100%nat) by reflexivity. unfold in_s. simpl. lia. }
  rewrite (bind_done _ _ s (0, true) s2).
  2:{ unfold start_work. rewrite (bind_done _ _ _ _ _ E1), Hre.
      rewrite (bind_done _ _ s1 tt s1) by done. cbn [with_worker].
      rewrite (bind_done _ _ _ _ _ (serve_get_bi _ _ _ _ _ _ _ _ _ _ H1)). cbn [bi_idx set_bi_assigned_thread]. rewrite Hidx.
      rewrite (bind_done _ _ s1 0 s2); [done|]. unfold thread_enqueue.
      rewrite (bind_done _ _ _ _ _ (serve_get_ti _ _ _ _ _ _ _ _ _ _ H1)), Ew. by rewrite (bind_done _ _ _ _ _ E2). }
  change (truth 0) with false. cbn beta iota. rewrite (bind_done _ _ _ _ _ eq_refl).
  rewrite (bind_done _ _ s2 tt s2) by done.
  exists s2, (set_bi_assigned_thread (Some k) b), wq. split; [done|]. split; [exact H2|].
  rewrite Habs, Hempty, H16. by split_and!.
Qed.

Lemma dispatch_recv fuel j k b t x v m rest f c pos s :
  serving_ready in_fd out_fd j k b t x v (rq_sockfd (get_request_base m)) s -> bi_idx b = Z.of_nat j ->
  asks_to_receive m -> wq_inv (ti_work_queue t) -> wq_abs (ti_work_queue t) = [] ->
  ring_repr (xs_ring x) f (cs_back_ring (xs_comm x)) c pos -> ch_requests c = m :: rest ->
  exists s1 b1 t1, dispatch_one fuel s = Done (None, s1)
  /\ serving j k b1 t1 (taken x) v (st_trace s ++ [SysRead in_fd ONE_REQUEST_REGION_SIZE]) s1
  /\ queued j k t m b1 t1.
Proof.
  intros Hrdy Hidx Hm Hq Hempty Hrep Ec.
  destruct (dispatch_reads stack open_fuel dev_fd in_fd out_fd fuel j k b t x v m rest f c pos s Hrdy Hrep Ec (rq_valid _ Hm))
    as (s1 & b1 & tail & -> & H1 & Hreg & Hin & Hidx1).
  destruct (assign_recv fuel j k b1 t (taken x) v _ s1 m tail H1 Hreg Hin ltac:(congruence)
    (lr_index _ _ _ _ _ _ _ _ _ _ Hrdy) (lr_thread _ _ _ _ _ _ _ _ _ _ Hrdy) Hm Hq Hempty)
    as (s2 & b2 & wq & E2 & H2 & Hreg2 & Hat2 & Hin2 & Hwq & Habs).
  rewrite (bind_done _ _ _ _ _ E2). change (truth 0) with false. cbn beta iota. cbn [when with_worker].
  destruct (serve_upd_ti _ _ _ _ _ _ _ s2
    (fun t => set_ti_awaiting_work_sem (ti_awaiting_work_sem t + 1) t) H2) as (s3 & E3 & H3).
  rewrite (bind_done _ _ _ _ _ E3). exists s3, b2, (woken wq t). split; [done|]. split; [exact H3|].
  split; [by exists tail|done|done|by exists wq].
Qed.

(** ** The worker serves it *)

(** The worker takes the index out of its queue. *)
Lemma take_queued j k b t x v tr s wq :
  serving j k b (woken wq t) x v tr s -> 0 <= ti_awaiting_work_sem t -> wq_inv wq -> wq_abs wq = [Z.of_nat j] ->
  exists s1 wq1, worker_take k s = Done (Z.of_nat j, s1)
  /\ serving j k b (set_ti_work_queue wq1 (set_ti_awaiting_work_sem (ti_awaiting_work_sem t) (woken wq t))) x v tr s1
  /\ wq_inv wq1 /\ wq_abs wq1 = [].
Proof.
  intros H Hsem Hq Habs. unfold worker_take. rewrite (bind_done _ _ _ _ _ (serve_get_ti _ _ _ _ _ _ _ _ _ _ H)).
  cbn [woken ti_awaiting_work_sem set_ti_awaiting_work_sem ti_work_queue set_ti_work_queue].
  rewrite (proj2 (Z.leb_gt _ _)) by lia. replace (ti_awaiting_work_sem t + 1 - 1) with (ti_awaiting_work_sem t) by lia.
  destruct (serve_upd_ti _ _ _ _ _ _ _ s (set_ti_awaiting_work_sem (ti_awaiting_work_sem t)) H) as (s1 & E1 & H1).
  rewrite (bind_done _ _ _ _ _ E1).
  destruct (wq_dequeue_item wq _ _ Hq Habs) as (wq1 & -> & Hq1 & Habs1 & _).
  destruct (serve_upd_ti _ _ _ _ _ _ _ s1 (set_ti_work_queue wq1) H1) as (s2 & E2 & H2).
  rewrite (bind_done _ _ _ _ _ E2). by exists s2, wq1.
Qed.

(** One round of the worker: the stack is asked once, the response is on
    the ring, the item is free. *)
Lemma work_recv fuel j k b t t1 x v m s r v' :
  serving j k b t1 x v (st_trace s) s -> queued j k t m b t1 -> 0 <= ti_awaiting_work_sem t ->
  ti_oplock_acquired t = false -> ds_write_lock (xs_dev x) = Some false -> asks_to_receive m ->
  recv_answers r -> os_call (recv_call t m) v = (r, v') ->
  let base := get_request_base m in
  let reply := recv_reply base t r in
  exists s' b' t' x', worker_iteration (Datatypes.S fuel) k s = Done (false, s') /\ bi_in_use b' = 0
  /\ serving j k b' t' x' v' (st_trace s ++ [recv_call t m; SysWrite out_fd reply (rs_size reply)]) s'
  /\ response_put (recv_message base t r) x x'
  /\ ti_awaiting_work_sem t' = ti_awaiting_work_sem t /\ wq_abs (ti_work_queue t') = [].
Proof.
  intros H [[tail Hreg] Hat Hin (wq & -> & Hq & Habs)] Hsem Hop Hl [Hm Hwf Hre Hlen] Hr Hc base reply.
  unfold worker_iteration.
  destruct (take_queued j k b t x v (st_trace s) s wq H Hsem Hq Habs) as (s1 & wq1 & E1 & H1 & Hq1 & Habs1).
  rewrite (bind_done _ _ _ _ _ E1). cbv zeta. change WORK_QUEUE_UNASSIGNED_IDX with (-1).
  rewrite (proj2 (Z.eqb_neq _ _)), (proj2 (Z.ltb_ge _ _)), Nat2Z.id by lia.
  set (t2 := set_ti_work_queue wq1 _) in H1.
  destruct (serve_recv fuel j k b t2 x v (st_trace s) s1 (m ++ tail) r v' H1 Hr) as (s2 & E2 & H2).
  { unfold recv_call. by rewrite (region_recv m tail Hlen). }
  assert (recv_call t2 (m ++ tail) = recv_call t m) as Hcall by (unfold recv_call; by rewrite (region_recv m tail Hlen)).
  rewrite Hcall in H2. rewrite (region_base _ _ Hm) in E2.
  pose proof (recv_response_post base t2 r Hr) as Hpost.
  destruct (process_answered stack open_fuel dev_fd in_fd out_fd (Datatypes.S fuel) j k b t2 t2 x v v' (st_trace s)
    [recv_call t m] s1 s2 (recv_response base r) (recv_message base t2 r) H1 Hat Hin) as (s3 & b3 & x3 & E3 & Hb3 & H3 & Hput);
    rewrite ?Hreg, ?(region_base _ _ Hm); fold base; rewrite ?Hpost; try done.
  - unfold run_handler. rewrite (region_base _ _ Hm), Hre, request_type_of_code. exact E2.
  - unfold is_type_accept, base. by rewrite Hre.
  - unfold releases_worker, base. by rewrite Hre.
  - by apply recv_writes.
  - rewrite Hreg, (region_base _ _ Hm) in H3. fold base in H3. rewrite Hpost in H3.
    destruct (serve_release _ _ _ _ _ _ _ _ _ s3 H3 (or_introl Hb3)) as (s4 & b4 & E4 & H4 & Hb4).
    rewrite (bind_done _ _ s1 tt s4) by (rewrite (bind_done _ _ _ _ _ E3); exact E4).
    unfold get_g, gets. rewrite (bind_done _ _ _ _ _ eq_refl), andb_false_r.
    exists s4, b4, t2, x3. split; [done|]. split; [done|]. split; [exact H4|]. split; [exact Hput|]. by split.
Qed.

End Recv.
