(* ===== verification/WholeCall.v ===== *)
(** * WholeCall: a call from the application to the network stack and back

    The shim, the driver and the Xen interface of the protected VM at one
    end of a ring, the ring driver and the dispatcher of the INS at the
    other: the application listens, and the stack's answer is the result
    of its call. *)

From stdpp Require Import base numbers list gmap.
From Stdlib Require Import ZArith Lia.
From S2P Require Import Prelude MwSocket MessageTypes MwErrno Translate XenRing WorkQueue InsState InsFacts Networking Dispatcher Samples InsDriver InsLink InsServe PvmXen RingChannel InsTable Threads PvmCalls MwsState MwsRequest MwsResponse MwsFile MwsTables MwsInvariant MwsWalk MwsSamples MwsRoundTrip MwsWrite MwNetflow MwNetflowServer MwNetflowSamples MwBase Shim ShimCalls ShimStack ShimEndToEnd.

Section Whole.

Context {S V X U : Type} {R : XenRing S} {Laws : XenRingLaws S}.
(** The protected VM, and the INS with its network stack. *)
Context {POS : PvmOS V} {OS : MwsOS V} {MOS : ModuleOS V} {XOS : XenOS X} {NOS : NetOS U}.
Context (fuel ring_fuel : nat).
Context (file_of : Z -> mws_state S (nf_world V) -> option nat) (last_one : Z -> mws_state S (nf_world V) -> bool).
Context (other : sys_call -> M (mws_state S (nf_world V)) sys_res).
Context (ins_stack : list Z) (open_fuel : nat) (dev_fd in_fd out_fd : Z).

#[local] Existing Instance LinkedPvm.
#[local] Existing Instance LinkedMws.
#[local] Abbreviation state := (mws_state S (nf_world V)).
#[local] Abbreviation stack := (StackSys ring_fuel file_of last_one other).
#[local] Instance InsNet : NetOS (ins_world S X U) := LinkedNet ins_stack open_fuel dev_fd.

(** ** The request on the ring is one the dispatcher serves *)

(** A request to listen, as the shim writes it. *)
Record sends_listen (bytes : list Z) : Prop := {
  lb_listens : listens (get_request_base bytes);
  lb_length : MT_REQUEST_BASE_SIZE + 4 <= Z.of_nat (length bytes)
}.

Lemma sent_listen id fd bytes :
  in_u 64 id -> in_s 64 fd -> user_message bytes -> sends_listen bytes -> asks_to_listen (sent_message id fd bytes).
Proof.
  intros Hi Hf Hu [Hl Hn]. destruct (sent_message_valid id fd bytes Hi Hf Hu) as (Hv & Hb & Hlen).
  split; [done| | |by rewrite Hlen].
  - rewrite Hb. by apply base_to_send_wf.
  - by rewrite Hb.
Qed.

Lemma sent_backlog id fd bytes : get_listen_backlog (sent_message id fd bytes) = get_listen_backlog bytes.
Proof.
  unfold get_listen_backlog, body_fld, sent_message. by f_equal.
Qed.

(** ** The response on the ring is one the application waits for *)

Lemma reply_arrives i ins mem bk c pos (m : list Z) rest (s : state) :
  ring_repr mem (id_front_ring ins) bk c pos -> ch_responses c = m :: rest ->
  valid_response m -> id_is_ring_ready ins = true ->
  mx_ins (pv_g (ms_pvm s)) !! i = Some (set_id_sring mem ins) ->
  length (mx_ins (pv_g (ms_pvm s))) = MAX_INS_COUNT ->
  (forall j, j <> i -> has_response (ms_pvm s) j = false) ->
  let bs := ring_entry mem (rsp_cons (id_front_ring ins)) in
  is_response_type MtRequestSocketAccept (rs_type (get_response_base m)) = false ->
  is_response_type MtRequestSocketSend (rs_type (get_response_base m)) = false ->
  has_flag (rs_flags (get_response_base m)) MT_FLAGS_REMOTE_CLOSED = false ->
  Z.of_nat (length m) <= Z.min RESPONSE_REGION_SIZE (Z.of_nat RR_SIZE) ->
  mg_pending_exit (ms_g s) = false ->
  take (length m) bs = m /\ get_response_base bs = get_response_base m
  /\ exists p, answered_on i (set_id_sring mem ins) p (rs_id (get_response_base m)) bs s.
Proof.
  intros Hr Ec Hm Hrdy Hi Hlen Hoth bs Ha Hse Hfl Hsz Hex.
  destruct (repr_collect _ _ _ _ _ _ _ Hr Ec) as [Hh _]. fold bs in Hh.
  assert (get_response_base bs = get_response_base m) as Hb.
  { pose proof (valid_response_length m Hm). unfold get_response_base.
    by rewrite !(slot_fields response_base_ws _ bs m Hh) by (simpl; lia). }
  split; [exact Hh|]. split; [done|].
  assert (has_response (ms_pvm s) i = true) as Hhas.
  { unfold has_response. rewrite Hi. cbn [id_is_ring_ready id_sring id_front_ring set_id_sring]. rewrite Hrdy.
    by rewrite (repr_has_responses _ _ _ _ _ Hr), Ec. }
  assert (i < MAX_INS_COUNT)%nat as Hlt by (rewrite <- Hlen; by eapply lookup_lt_Some).
  destruct (response_scan_finds MAX_INS_COUNT i (ms_pvm s) Hlen Hlt Hhas) as (j & p & E & Hj & Hins & _).
  { unfold distance. pose proof (Z.mod_pos_bound (Z.of_nat i - next_start (ms_pvm s)) 3).
    unfold MAX_INS_COUNT. lia. }
  assert (j = i) as ->.
  { destruct (decide (j = i)) as [|Hne]; [done|]. by rewrite (Hoth j Hne) in Hj. }
  exists p. pose proof (vp_size m Hm) as Hz.
  split; rewrite ?Hb; try done.
  - by rewrite Hins.
  - apply (vp_is m Hm).
  - unfold ends_batch. by rewrite Hb, Hse.
  - by rewrite Hz.
  - rewrite Hz, Nat2Z.id. pose proof (f_equal length Hh) as Hl. rewrite length_take in Hl. lia.
Qed.

(** ** The pass of the dispatcher on the ring *)

Lemma flag_kept a b :
  has_flag (u32 (Z.lor (u32 a) b)) MT_FLAGS_REMOTE_CLOSED = has_flag (Z.lor a b) MT_FLAGS_REMOTE_CLOSED.
Proof.
  unfold has_flag, wrapu. rewrite <- !Z.land_ones by lia. rewrite !Z.land_lor_distr_l, <- !Z.land_assoc.
  by change (Z.land (Z.ones 32) MT_FLAGS_REMOTE_CLOSED) with MT_FLAGS_REMOTE_CLOSED.
Qed.

(** The calls of the dispatcher: the request is read, the stack is asked
    once, and the response is written. *)
Definition served_calls (base : mt_request_base) (bytes : list Z) (t : thread_item) (r : sysres) : list syscall :=
  [SysRead in_fd ONE_REQUEST_REGION_SIZE; SysListen (ti_local_fd t) (get_listen_backlog bytes);
   SysWrite out_fd (listen_reply base t r) (rs_size (listen_reply base t r))].

(** The only request on the ring is served; the only response on it is
    the answer. *)
Lemma ins_answers n j k b t (d : xe_state S X) v si r v' msg f c pos :
  asks_to_listen msg -> ring_repr (xs_ring d) f (cs_back_ring (xs_comm d)) c pos ->
  ch_requests c = [msg] -> ch_responses c = [] ->
  serving_ready in_fd out_fd j k b t d v (rq_sockfd (get_request_base msg)) si ->
  os_call (SysListen (ti_local_fd t) (get_listen_backlog msg)) v = (r, v') -> in_s 32 (r_ret r) ->
  exists si' bk c', dispatch_one n si = Done (None, si') /\ iw_net (st_world si') = v'
  /\ ring_repr (xs_ring (iw_xe (st_world si'))) f bk c' pos
  /\ ch_responses c' = [put_response_base (listen_reply (get_request_base msg) t r)]
  /\ st_trace si' = st_trace si ++ served_calls (get_request_base msg) msg t r.
Proof.
  intros Hm Hrep Ec Hr0 Hrdy Hc Hret.
  destruct (dispatch_listen ins_stack open_fuel dev_fd in_fd out_fd n j k b t d v msg [] f c pos r v' si Hrdy Hm Hrep
    Ec Hc Hret) as (si' & E & b' & x' & _ & Hs & Hbk & Hring & _). cbn [taken xs_comm set_xs_comm set_cs_back_ring cs_back_ring xs_ring] in Hbk, Hring.
  destruct (listen_reply_ok (get_request_base msg) t r) as [Hwf His]; [apply Hm..|by apply listen_status_range|].
  destruct (image_of_base ins_stack _ Hwf eq_refl His eq_refl) as (_ & Hv & _).
  destruct (repr_take _ _ _ _ _ _ _ Hrep Ec) as [_ Htake].
  pose proof (repr_answer _ _ _ _ _ (put_response_base (listen_reply (get_request_base msg) t r)) Htake
    ltac:(simpl; lia) (response_fits _ Hv)) as Hans.
  exists si', (advance_rsp_prod_pvt (advance_req_cons (cs_back_ring (xs_comm d)))). eexists. split; [exact E|].
  rewrite (sg_world _ _ _ _ _ _ _ _ _ _ Hs). cbn [iw_net iw_xe]. split; [done|].
  split; [rewrite Hring; exact Hans|]. split; [cbn [chan_answer chan_take ch_responses]; by rewrite Hr0|].
  exact (sg_trace _ _ _ _ _ _ _ _ _ _ Hs).
Qed.

Lemma room_left i ins x bytes (s : state) bk c pos :
  room i ins x bytes s -> ring_repr (id_sring ins) (id_front_ring ins) bk c pos ->
  Z.of_nat (chan_used c) < RING_SIZE.
Proof.
  intros Hr Hrep. pose proof (rm_free _ _ _ _ _ Hr) as Hf. rewrite (repr_full _ _ _ _ _ Hrep) in Hf.
  apply Z.eqb_neq in Hf. pose proof (rr_used _ _ _ _ _ Hrep). lia.
Qed.

(** ** The whole call *)

(** (C6) An application that listens gets the answer of the network stack.
    The application asks to listen on a socket that can take a request,
    and the ring of its INS holds no other request or response (any number
    of earlier requests may be without an answer). Then its request is put
    on the ring. When the dispatcher of the INS next runs on this memory,
    with a free buffer item, and the worker thread of the socket in use,
    one pass takes the request, calls the stack exactly once, with the
    descriptor of the thread and the backlog the application gave, writes
    one response to the ring and waits for the next request. When the
    protected VM then sees this memory, and no other INS has a response,
    one pass of the response thread ends the call of the application: it
    returns 0 when the stack's listen() did not fail, and -1 when it did,
    with errno the Linux number of the stack's error. The request is gone,
    all references are given back and the socket takes the next request. *)
Theorem listen_reaches_the_stack i ins h f x fd req Response e s bk c pos :
  let bytes := put_request req in
  (* the socket, the ring and the request *)
  idle_socket (ms_g s) h f x -> to_send x bytes -> sends_listen bytes -> room i ins x bytes s ->
  ring_repr (id_sring ins) (id_front_ring ins) bk c pos -> ch_requests c = [] -> ch_responses c = [] ->
  Z.of_nat (length (mg_active_request_list (ms_g s))) < 2 ^ 62 ->
  serves (V := V) -> (forall s, file_of fd s = Some f) -> (0 < ring_fuel)%nat -> (0 < fuel)%nat ->
  exists a y z ins1 s1,
    alone (write_retry (Sys := stack) fuel fd bytes e) s = Done (0, e, s1)
  /\ awaiting (ms_g s1) h a f z y
  /\ mx_ins (pv_g (ms_pvm s1)) = <[i := ins1]> (mx_ins (pv_g (ms_pvm s)))
  /\ forall j k b t d v n si r v',
     (* the dispatcher of the INS, on the same memory *)
     let base := base_to_send (ar_id y) (si_remote_fd x) (get_request_base bytes) in
     xs_ring d = id_sring ins1 -> cs_back_ring (xs_comm d) = bk ->
     serving_ready in_fd out_fd j k b t d v (rq_sockfd base) si ->
     os_call (SysListen (ti_local_fd t) (get_listen_backlog bytes)) v = (r, v') -> in_s 32 (r_ret r) ->
     exists si' mem,
       dispatch_one n si = Done (None, si')
     /\ st_trace si' = st_trace si ++ served_calls base bytes t r
     /\ iw_net (st_world si') = v' /\ xs_ring (iw_xe (st_world si')) = mem
     /\ forall s2,
        (* the protected VM, on the memory as the INS left it *)
        awaiting (ms_g s2) h a f z y -> mg_pending_exit (ms_g s2) = false ->
        mx_ins (pv_g (ms_pvm s2)) !! i = Some (set_id_sring mem ins1) ->
        length (mx_ins (pv_g (ms_pvm s2))) = MAX_INS_COUNT ->
        (forall l, l <> i -> has_response (ms_pvm s2) l = false) ->
        has_flag (Z.lor (rq_flags (get_request_base bytes)) (ti_state_flags t)) MT_FLAGS_REMOTE_CLOSED = false ->
        exists resp s3 z3,
          (let* _ := consume_response in alone (await_response (Sys := stack) fuel fd req Response e)) s2
          = Done (call_result (listen_status r), req, resp, call_errno (listen_status r) e, s3)
        /\ mg_active_requests (ms_g s3) !! a = None
        /\ idle_socket (ms_g s3) h f z3 /\ si_refct z3 = si_refct x.
Proof.
  intros bytes Hi Ht Hb Hr Hrep Hq0 Hr0 Hlen Hsv Hfd Hrf Hfuel.
  destruct (request_reaches_ring fuel ring_fuel file_of last_one other i ins h f x fd req e s Hi Ht Hr Hrf Hlen Hsv Hfd Hfuel)
    as (a & y & z & s1 & E & Haw & Hrefs & _ & Hid & _ & _ & _ & Hring).
  set (msg := sent_message (ar_id y) (si_remote_fd x) bytes) in *.
  exists a, y, z, (pushed msg ins), s1. do 3 (split; [done|]).
  intros j k b t d v n si r v' base Hd Hbk Hrdy Hc Hret.
  assert (asks_to_listen msg) as Hmsg.
  { apply sent_listen; [unfold in_u; lia|apply (ts_fd _ _ Ht)|apply (ts_message _ _ Ht)|done]. }
  destruct (sent_message_valid (ar_id y) (si_remote_fd x) bytes) as (_ & Hbase & _);
    [unfold in_u; lia|apply (ts_fd _ _ Ht)|apply (ts_message _ _ Ht)|]. fold msg in Hbase.
  pose proof (repr_send _ _ _ _ _ msg Hrep (room_left _ _ _ _ _ _ _ _ Hr Hrep) (request_fits _ (lq_valid _ Hmsg))) as Hsent.
  destruct (ins_answers n j k b t d v si r v' msg (id_front_ring (pushed msg ins)) (chan_send msg c) pos Hmsg)
    as (si' & bk' & c' & E2 & Hv & Hrep2 & Hresp & Htr).
  { rewrite Hd, Hbk. exact Hsent. }
  { cbn [chan_send ch_requests]. by rewrite Hq0. }
  { done. } { by rewrite Hbase. } { unfold msg. by rewrite sent_backlog. } { done. }
  exists si', (xs_ring (iw_xe (st_world si'))). split; [done|].
  split; [rewrite Htr, Hbase; unfold served_calls, msg; by rewrite sent_backlog|]. do 2 (split; [done|]).
  intros s2 Haw2 Hex Hi2 Hlen2 Hoth Hfl.
  set (reply := listen_reply (get_request_base msg) t r) in *.
  destruct (listen_reply_ok (get_request_base msg) t r) as [Hwf His]; [apply Hmsg..|by apply listen_status_range|].
  destruct (image_of_base ins_stack reply Hwf eq_refl His eq_refl) as (_ & Hvr & Hget).
  destruct (reply_arrives i (pushed msg ins) _ bk' c' pos _ [] s2 Hrep2 Hresp Hvr) as (_ & Hbs & p & Han);
    rewrite ?Hget; cbn [reply listen_reply rs_type rs_flags]; rewrite ?(lq_listens _ Hmsg).
  { apply (sd_ready _ _ _ _ (rm_entry _ _ _ _ _ Hr)). } { exact Hi2. } { exact Hlen2. } { exact Hoth. }
  { by vm_compute. } { by vm_compute. } { by rewrite flag_kept, Hbase. }
  { rewrite length_put_response_base. by vm_compute. } { exact Hex. }
  rewrite Hget in Han, Hbs. change (rs_id reply) with (rq_id (get_request_base msg)) in Han. rewrite Hbase in Han.
  destruct (response_reaches_application fuel ring_fuel file_of last_one other s2 h a f z y i _ p _ fd req Response e
    Haw2 Han Hsv Hfd Hfuel) as (s3 & z3 & E3 & _ & Hgone & Hidle & Hrefs3).
  rewrite Hbs in E3. eexists _, s3, z3. split; [exact E3|]. split; [done|]. split; [done|]. lia.
Qed.


End Whole.

(** ** A concrete run *)

Section Runs.

#[local] Existing Instance LinkedPvm.
#[local] Existing Instance LinkedMws.
#[local] Abbreviation state := (mws_state simple_ring (nf_world Z)).
#[local] Abbreviation ins := (ins_world simple_ring (list (list Z * list Z)) (list sysres)).
#[local] Abbreviation listen_sys := (StackSys (V := Z) 3 (fun _ _ => Some 3%nat) (fun _ _ => true) idle_libc).

(** The INS 7, booted, with the application's socket at its thread 1. *)
Definition serving_globals : xenevent_globals :=
  let booted := out_state (init_state memory0 (fun _ => true) (before_boot
    ([res_ok 3; {| r_ret := 0; r_err := 0; r_bytes := [7; 0]; r_addr := sockaddr_in_zero; r_alen := 0; r_revents := [] |}]
     ++ replicate (MAX_THREAD_COUNT + 1) (res_ok 0)))) (before_boot []) in
  set_g_worker_threads (alter (fun t => set_ti_in_use 1 (set_ti_local_fd 12
    (set_ti_public_fd (s64 (MW_SOCKET_CREATE 7 1)) t))) 1%nat (g_worker_threads (st_g booted))) (st_g booted).

Definition serving_driver (ring : simple_ring) : xe_state simple_ring (list (list Z * list Z)) :=
  let x := xe_boot ring [] in set_xs_dev (set_ds_read_lock (Some false) (set_ds_write_lock (Some false) (xs_dev x))) x.

(** The stack answers from [script]. *)
Definition serving_ins (ring : simple_ring) (script : list sysres) : ins_state ins :=
  {| st_g := serving_globals; st_ps := st_ps (before_boot []); st_errno := 0;
     st_world := {| iw_xe := serving_driver ring; iw_net := script |}; st_trace := [] |}.

#[local] Instance RunNet : NetOS ins := LinkedNet [] 0 3.

Lemma run_ready ring script :
  exists b t, serving_ready 3 3 0 1 b t (serving_driver ring) script (s64 (MW_SOCKET_CREATE 7 1)) (serving_ins ring script)
  /\ ti_local_fd t = 12 /\ ti_state_flags t = 0 /\ bi_idx b = 0 /\ ti_awaiting_work_sem t = 0
  /\ wq_inv (ti_work_queue t) /\ wq_abs (ti_work_queue t) = [].
Proof.
  assert ((fun b => (bi_in_use b, bi_idx b)) <$> g_buffer_items serving_globals !! 0%nat = Some (0, 0)) as Hb by (vm_compute; reflexivity).
  assert ((fun t => (ti_in_use t, ti_public_fd t, ti_local_fd t, ti_state_flags t, ti_oplock_acquired t,
                       ti_awaiting_work_sem t))
          <$> g_worker_threads serving_globals !! 1%nat
          = Some (1, s64 (MW_SOCKET_CREATE 7 1), 12, 0, false, 0)) as Ht by (vm_compute; reflexivity).
  assert ((fun t => let q := ti_work_queue t in (wq_item_ct q, wq_available_slots q, wq_read_idx q, wq_write_idx q, length (wq_items q)))
          <$> g_worker_threads serving_globals !! 1%nat
          = Some (BUFFER_ITEM_COUNT, BUFFER_ITEM_COUNT, 0%nat, 0%nat, Datatypes.S BUFFER_ITEM_COUNT)) as Hwq by (vm_compute; reflexivity).
  apply fmap_Some in Hb as (b & Eb & Hb). apply fmap_Some in Ht as (t & Et & Ht).
  rewrite Et in Hwq. cbn [fmap option_fmap option_map] in Hwq. injection Hwq as Q1 Q2 Q3 Q4 Q5.
  assert (BUFFER_ITEM_COUNT = 100%nat) as HB by reflexivity.
  assert (wq_count (ti_work_queue t) = 0%nat) as Q6 by (unfold wq_count; rewrite Q1, Q2; lia).
  injection Ht as H1 H2 H3 H4 H5 H6. injection Hb as Hb Hidx. exists b, t.
  split; [|split; [done|split; [done|split; [done|split; [done|split]]]]].
  - split; [split; [exact Eb|exact Et|vm_compute; reflexivity|exact eq_refl|exact eq_refl|vm_compute; reflexivity|vm_compute; reflexivity]|..].
    + by rewrite <- Hb.
    + apply Nat.ltb_lt. by vm_compute.
    + intros j Hj. lia.
    + split; [by vm_compute|by vm_compute|apply Nat.ltb_lt; by vm_compute|by rewrite <- H1|by rewrite <- H2].
    + by rewrite <- H5.
    + reflexivity.
    + reflexivity.
  - split; rewrite ?Q1, ?Q2, ?Q3, ?Q4, ?Q5, ?Q6; try lia. reflexivity.
  - unfold wq_abs. by rewrite Q6.
Qed.

(** The empty ring of the ready INS. *)
Lemma ready_ring_repr :
  ring_repr (id_sring ready_ins) (id_front_ring ready_ins) {| rsp_prod_pvt := 0; req_cons := 0 |} chan_empty 0.
Proof. split; first [done|by vm_compute|intros k m Hk; simpl in Hk; by rewrite lookup_nil in Hk]. Qed.

(** The ring of the INS as the dispatcher left it, mapped by the
    protected VM; nothing else has happened there. *)
Definition mapped_back (mem : simple_ring) (e : mwcomms_ins_data simple_ring) (s : state) : state :=
  let p := ms_pvm s in
  {| ms_pvm := set_pv_g (set_mx_ins (<[0%nat := set_id_sring mem e]> (mx_ins (pv_g p))) (pv_g p)) p;
     ms_g := ms_g s; ms_trace := ms_trace s |}.

Lemma mapped_back_others mem e s e1 l :
  mx_ins (pv_g (ms_pvm s)) = <[0%nat := e1]> (mx_ins (pv_g (ms_pvm ready_module))) -> l <> 0%nat ->
  has_response (ms_pvm (mapped_back mem e s)) l = false.
Proof.
  intros E Hl. unfold has_response, mapped_back. cbn [ms_pvm pv_g set_pv_g mx_ins set_mx_ins]. rewrite E.
  rewrite !list_lookup_insert_ne by done. destruct l as [|[|[|l]]]; [done|by vm_compute..|done].
Qed.

(** The port is in use: the stack refuses with its number for it, 48. *)
Lemma listen_reaches_the_stack_witness :
  exists s1 si si' s2 resp s3,
    alone (write_retry (Sys := listen_sys) 1 5 (put_request listen_message) 0) ready_module = Done (0, 0, s1)
  /\ dispatch_one 0 si = Done (None, si')
  /\ (let* _ := consume_response in
      alone (await_response (Sys := listen_sys) 1 5 listen_message zero_response 0)) s2
     = Done (-1, listen_message, resp, 98, s3).
Proof.
  destruct (listen_reaches_the_stack (U := list sysres) (X := list (list Z * list Z)) 1 3 (fun _ _ => Some 3%nat)
    (fun _ _ => true) idle_libc [] 0 3 3 3 0 ready_ins 0 3 ready_sock 5 listen_message zero_response 0 ready_module
    {| rsp_prod_pvt := 0; req_cons := 0 |} chan_empty 0) as (a & y & z & e1 & s1 & E & Haw & Htab & Hnext).
  - split; [exact ready_socket_books|by vm_compute..].
  - split; [split|..]; first [by vm_compute|apply Nat.leb_le; by vm_compute|split; by vm_compute].
  - split; by vm_compute.
  - split; [split; [done|apply Nat.ltb_lt; by vm_compute|by vm_compute|split; by vm_compute|done|done|intros j e' Hj; lia]|done|by vm_compute].
  - exact ready_ring_repr.
  - done.
  - done.
  - by vm_compute.
  - split; by intros.
  - done.
  - lia.
  - lia.
  - assert (match alone (write_retry (Sys := listen_sys) 1 5 (put_request listen_message) 0) ready_module with
            | Done (_, _, s) => mg_pending_exit (ms_g s) | _ => true end = false) as Hrun by (vm_compute; reflexivity).
    rewrite E in Hrun.
    destruct (run_ready (id_sring e1) [res_err 48]) as (b & t & Hrdy & _ & Hfl & _).
    destruct (Hnext 0%nat 1%nat b t (serving_driver (id_sring e1)) [res_err 48] 0%nat (serving_ins (id_sring e1) [res_err 48])
      (res_err 48) []) as (si' & mem & E2 & _ & _ & _ & Hback); [reflexivity|reflexivity|exact Hrdy|reflexivity|split; by vm_compute|].
    destruct (Hback (mapped_back mem e1 s1)) as (resp & s3 & z3 & E3 & _).
    + exact Haw.
    + exact Hrun.
    + cbn [mapped_back ms_pvm pv_g set_pv_g mx_ins set_mx_ins]. rewrite Htab. reflexivity.
    + cbn [mapped_back ms_pvm pv_g set_pv_g mx_ins set_mx_ins]. rewrite Htab. reflexivity.
    + intros l Hl. exact (mapped_back_others mem e1 s1 e1 l Htab Hl).
    + rewrite Hfl. by vm_compute.
    + exists s1, (serving_ins (id_sring e1) [res_err 48]), si', (mapped_back mem e1 s1), resp, s3.
      split; [exact E|]. split; [exact E2|]. exact E3.
Defined.

End Runs.
