(* ===== verification/WholeRecv.v ===== *)
(** * WholeRecv: bytes from the network stack to the application

    A receive goes from the shim over the ring and the queue of a worker
    thread of the INS to the network stack, and the bytes come back. *)

From stdpp Require Import base numbers list gmap.
From Stdlib Require Import ZArith Lia.
From S2P Require Import Prelude MwSocket MessageTypes MwErrno Translate XenRing WorkQueue InsState InsFacts Networking Dispatcher Samples InsDriver InsLink InsServe InsRecv PvmXen RingChannel InsTable Threads PvmCalls MwsState MwsRequest MwsResponse MwsFile MwsTables MwsInvariant MwsWalk MwsSamples MwsRoundTrip MwsWrite MwNetflow MwNetflowServer MwNetflowSamples MwBase Shim ShimCalls ShimRequest ShimFacts ShimStack ShimEndToEnd WholeCall.

(** ** The request, as the INS reads it *)

(** The request recv() writes. *)
Definition recv_request (fd Len Flags : Z) : mt_request_generic :=
  MT_REQUEST_SET_CALLER_WAITS (recvfrom_request fd Len Flags false).

Lemma recv_request_read fd Len Flags :
  0 <= Len ->
  let bytes := put_request (recv_request fd Len Flags) in
  receives (get_request_base bytes) /\ Z.of_nat (length bytes) = MT_REQUEST_BASE_SIZE + 6
  /\ get_socket_recv bytes
     = {| rv_flags := u32 Flags; rv_requested := Z.min MESSAGE_TYPE_MAX_PAYLOAD_LEN Len |}.
Proof.
  intros HL. cbv zeta.
  assert (has_base (recv_request fd Len Flags) = true) as Hb by (by vm_compute).
  split; [|split].
  - unfold receives. rewrite get_put_request by done. by vm_compute.
  - rewrite put_request_split by done. rewrite length_app, length_put_request_base, length_take.
    by vm_compute.
  - unfold get_socket_recv. rewrite !body_fld_drop, body_put_request by done.
    set (flags := le_bytes 4 Flags). set (len := le_bytes 2 (Z.min MESSAGE_TYPE_MAX_PAYLOAD_LEN Len)).
    assert (take (Z.to_nat (rq_size (gq_base (recv_request fd Len Flags))) - 28) (gq_body (recv_request fd Len Flags))
            = flags ++ len) as -> by (by apply take_patch).
    assert (flags ++ len = write_fields [4; 2]%nat [Flags; Z.min MESSAGE_TYPE_MAX_PAYLOAD_LEN Len] ++ []) as ->
      by (unfold flags, len; cbn [write_fields]; by rewrite !app_nil_r).
    rewrite !fld_write by done. cbn [zip_with nth]. f_equal. change (8 * Z.of_nat 2) with 16.
    apply wrapu_small. unfold in_u, MESSAGE_TYPE_MAX_PAYLOAD_LEN, MESSAGE_TARGET_MAX_SIZE. lia.
Qed.

(** ** The response, as the application reads it *)

(** What recv() gives for the answer [r] of the stack: its bytes, or -1
    with the translated error; the error of a connection the INS lost is
    the end of the stream. *)
Definition stack_errno (r : sysres) : Z := s32 (- XE_GET_NEG_ERRNO_VAL (r_err r)).
Definition recv_given (r : sysres) (e : Z) : sock_out * Z :=
  if r_ret r <? 0 then
    if MW_ERROR_REMOTE_SURPRISE_CLOSE =? stack_errno r then (out_rc 0, 0) else (out_rc (-1), stack_errno r)
  else ({| so_ret := Z.of_nat (length (r_bytes r)); so_buf := Some (r_bytes r); so_addr := None; so_val := None |}, e).

Lemma seen_message base t r tail :
  request_base_wf base -> receives base -> recv_answers r -> 0 <= r_ret r ->
  let resp := recv_message base t r ++ tail in
  rsp_status resp = 0 /\ rsp_recv_count resp = recv_count r
  /\ recv_stores (recv_count r) false false resp
     = {| so_ret := recv_count r; so_buf := Some (recv_bytes r); so_addr := None; so_val := None |}.
Proof.
  intros Hwf Hre Hr Hpos resp. pose proof (get_recv_message base t r tail Hwf Hr) as Hg. fold resp in Hg.
  pose proof (recv_count_bounds r Hr) as Hc. change MESSAGE_TYPE_MAX_PAYLOAD_LEN with 1985 in Hc.
  destruct (counted_bytes (recv_count r) (recv_bytes r) tail eq_refl ltac:(lia)) as [Hn Hd].
  assert (forall n, drop (40 + n) resp = drop n (le_bytes 2 (recv_count r) ++ recv_bytes r ++ tail)) as Hdrop.
  { intros n. unfold resp, recv_message. rewrite <- drop_drop, <- !app_assoc. by f_equal. }
  split; [|split].
  - unfold rsp_status. rewrite Hg. cbn [set_rs_body rs_status recv_reply]. unfold recv_status.
    by rewrite (proj2 (Z.ltb_ge _ _)) by lia.
  - unfold rsp_recv_count, rsp_fld. change (sizeof ct_response_base) with (40 + 0)%nat. rewrite Hdrop, fld_first. exact Hn.
  - unfold recv_stores. cbv zeta. rewrite Hg. cbn [set_rs_body rs_type recv_reply]. rewrite !andb_false_r.
    change (sizeof ct_response_base + 2)%nat with (40 + 2)%nat. rewrite Hdrop.
    replace (Z.to_nat (recv_count r)) with (length (recv_bytes r)) by (unfold recv_count; lia). by rewrite Hd.
Qed.

Section Whole.

Context {S V X U : Type} {R : XenRing S} {Laws : XenRingLaws S}.
Context {POS : PvmOS V} {OS : MwsOS V} {MOS : ModuleOS V} {XOS : XenOS X} {NOS : NetOS U}.
Context (fuel ring_fuel : nat).
Context (file_of : Z -> mws_state S (nf_world V) -> option nat) (last_one : Z -> mws_state S (nf_world V) -> bool).
Context (other : sys_call -> M (mws_state S (nf_world V)) sys_res).
Context (ins_stack : list Z) (open_fuel : nat) (dev_fd in_fd out_fd : Z).

#[local] Existing Instance LinkedPvm.
#[local] Existing Instance LinkedMws.
#[local] Abbreviation state := (mws_state S (nf_world V)).
#[local] Abbreviation stack := (StackSys ring_fuel file_of last_one other).
#[local] Hint Extern 0 (NetOS (InsLink.ins_world _ _ _)) =>
  exact (InsServe.Net ins_stack open_fuel dev_fd) : typeclass_instances.

(** What recv() does with the response the driver gave it. *)
Lemma finish_run base t r Len e (s : state) :
  request_base_wf base -> receives base -> recv_answers r -> r_ret r <= Len ->
  let m := recv_message base t r in
  alone (recv_finish Len false false (call_result (recv_status r)) (patch 0 m zero_response)
    (call_errno (recv_status r) e)) s
  = Done (recv_given r e, s).
Proof.
  intros Hwf Hre Hr HLen m. pose proof Hr as Hr2.
  destruct Hr2 as [[Hpos Hl]|[Hneg _]].
  - assert (recv_status r = 0) as Hst by (unfold recv_status; by rewrite (proj2 (Z.ltb_ge _ _)) by lia).
    assert (recv_bytes r = r_bytes r) as Hby by (unfold recv_bytes; by rewrite (proj2 (Z.ltb_ge _ _)) by lia).
    destruct (seen_message base t r (drop (0 + length m) zero_response) Hwf Hre Hr ltac:(lia)) as (H1 & H2 & H3).
    assert (patch 0 m zero_response = recv_message base t r ++ drop (0 + length m) zero_response) as -> by done.
    rewrite Hst. unfold recv_finish. unfold sbind at 1, errno. cbn beta iota. change (truth (call_result 0)) with false.
    cbn iota. cbn [pbind]. rewrite H1, H2. change (0 <? 0) with false. cbv zeta iota.
    pose proof (recv_count_bounds r Hr) as Hc. change MESSAGE_TYPE_MAX_PAYLOAD_LEN with 1985 in *.
    assert (recv_count r = r_ret r) as Hcr by (unfold recv_count; by rewrite Hby).
    rewrite (proj2 (Z.eqb_neq _ _)), (proj2 (Z.ltb_ge Len _)) by lia.
    change MT_RESPONSE_SOCKET_RECV_SIZE with 42. rewrite (proj2 (Z.ltb_ge RESPONSE_REGION_SIZE _)) by (rewrite region_size; lia).
    cbn [orb]. rewrite H3. unfold recv_given. rewrite (proj2 (Z.ltb_ge _ 0)) by lia. unfold recv_count. rewrite Hby. reflexivity.
  - unfold recv_given, recv_status, stack_errno. rewrite (proj2 (Z.ltb_lt _ _)) by lia.
    pose proof (neg_errno_range (r_err r)). unfold call_result, call_errno. rewrite (proj2 (Z.ltb_lt _ _)) by lia.
    unfold recv_finish. unfold sbind at 1, errno. cbn [pbind]. change (truth (-1)) with true. cbn iota.
    by destruct (MW_ERROR_REMOTE_SURPRISE_CLOSE =? _).
Qed.

(** What follows a call that was answered. *)
Lemma await_then {A B C} (m : M state A) (p : A -> sh state B) (q : B -> sh state C) (k : A -> Z) s b e1 s1 out :
  (let* a := m in alone (p a (k a))) s = Done (b, e1, s1) -> alone (q b e1) s1 = out ->
  (let* a := m in alone ((let# x := p a in q x) (k a))) s = out.
Proof.
  intros E Hq. unfold bind in *. destruct (m s) as [[a s']| | |]; cbn [obind] in *; try done.
  unfold sbind. rewrite (alone_run _ _ _ _ _ E). exact Hq.
Qed.

(** ** The way through the INS *)

Lemma sent_receive id fd bytes :
  in_u 64 id -> in_s 64 fd -> user_message bytes -> receives (get_request_base bytes) ->
  MT_REQUEST_BASE_SIZE + 6 <= Z.of_nat (length bytes) -> asks_to_receive (sent_message id fd bytes).
Proof.
  intros Hi Hf Hu Hre Hn. destruct (sent_message_valid id fd bytes Hi Hf Hu) as (Hv & Hb & Hlen).
  split; [done| | |by rewrite Hlen].
  - rewrite Hb. by apply base_to_send_wf.
  - by rewrite Hb.
Qed.

Lemma sent_recv_call t id fd bytes : recv_call t (sent_message id fd bytes) = recv_call t bytes.
Proof. unfold recv_call. by repeat f_equal. Qed.

(** The calls of the INS: the request is read, the stack is asked once,
    and the response is written. *)
Definition received_calls (base : mt_request_base) (call : syscall) (t : thread_item) (r : sysres) : list syscall :=
  [SysRead in_fd ONE_REQUEST_REGION_SIZE; call; SysWrite out_fd (recv_reply base t r) (rs_size (recv_reply base t r))].

(** The only request on the ring is queued and served; the only response
    on it is the answer. *)
Lemma ins_receives n n' j k b t (d : xe_state S X) v si r v' msg f c pos :
  asks_to_receive msg -> ring_repr (xs_ring d) f (cs_back_ring (xs_comm d)) c pos ->
  ch_requests c = [msg] -> ch_responses c = [] ->
  serving_ready in_fd out_fd j k b t d v (rq_sockfd (get_request_base msg)) si -> bi_idx b = Z.of_nat j ->
  wq_inv (ti_work_queue t) -> wq_abs (ti_work_queue t) = [] -> 0 <= ti_awaiting_work_sem t ->
  os_call (recv_call t msg) v = (r, v') -> recv_answers r ->
  exists si1 si2 bk c', dispatch_one n si = Done (None, si1)
  /\ worker_iteration (Datatypes.S n') k si1 = Done (false, si2) /\ iw_net (st_world si2) = v'
  /\ ring_repr (xs_ring (iw_xe (st_world si2))) f bk c' pos
  /\ ch_responses c' = [recv_message (get_request_base msg) t r]
  /\ st_trace si2 = st_trace si ++ received_calls (get_request_base msg) (recv_call t msg) t r.
Proof.
  intros Hm Hrep Ec Hr0 Hrdy Hidx Hq Hempty Hsem Hc Hret.
  destruct (dispatch_recv ins_stack open_fuel dev_fd in_fd out_fd n j k b t d v msg [] f c pos si Hrdy Hidx Hm Hq Hempty Hrep Ec)
    as (si1 & b1 & t1 & E1 & H1 & Hqd).
  pose proof (sg_trace _ _ _ _ _ _ _ _ _ _ H1) as Htr1.
  destruct (work_recv ins_stack open_fuel dev_fd in_fd out_fd n' j k b1 t t1 (taken d) v msg si1 r v')
    as (si2 & b2 & t2 & x2 & E2 & _ & H2 & (Hbk & Hring & _) & _); try done.
  { by rewrite Htr1. } { apply (lr_oplock _ _ _ _ _ _ _ _ _ _ Hrdy). } { apply (lr_write_lock _ _ _ _ _ _ _ _ _ _ Hrdy). }
  cbn [taken xs_comm set_xs_comm set_cs_back_ring cs_back_ring xs_ring] in Hring.
  pose proof (recv_writes ins_stack (get_request_base msg) t r (rq_wf _ Hm) (rq_receives _ Hm) Hret) as Hw.
  destruct (repr_take _ _ _ _ _ _ _ Hrep Ec) as [_ Htake].
  pose proof (repr_answer _ _ _ _ _ (recv_message (get_request_base msg) t r) Htake
    ltac:(simpl; lia) (response_fits _ (wr_valid _ _ _ Hw))) as Hans.
  exists si1, si2, (advance_rsp_prod_pvt (advance_req_cons (cs_back_ring (xs_comm d)))). eexists.
  split; [exact E1|]. split; [exact E2|]. rewrite (sg_world _ _ _ _ _ _ _ _ _ _ H2). cbn [iw_net iw_xe].
  split; [done|]. split; [rewrite Hring; exact Hans|].
  split; [cbn [chan_answer chan_take ch_responses]; by rewrite Hr0|].
  rewrite (sg_trace _ _ _ _ _ _ _ _ _ _ H2), Htr1, <- app_assoc. reflexivity.
Qed.

(** ** The response at the protected VM *)

Lemma answer_of_recv i ins mem bk c pos base t r (s : state) :
  ring_repr mem (id_front_ring ins) bk c pos -> ch_responses c = [recv_message base t r] ->
  request_base_wf base -> receives base -> recv_answers r -> id_is_ring_ready ins = true ->
  mx_ins (pv_g (ms_pvm s)) !! i = Some (set_id_sring mem ins) ->
  length (mx_ins (pv_g (ms_pvm s))) = MAX_INS_COUNT ->
  (forall j, j <> i -> has_response (ms_pvm s) j = false) ->
  has_flag (Z.lor (rq_flags base) (ti_state_flags t)) MT_FLAGS_REMOTE_CLOSED = false ->
  mg_pending_exit (ms_g s) = false ->
  exists bs p, take (Z.to_nat (rs_size (get_response_base bs))) bs = recv_message base t r
  /\ rs_status (get_response_base bs) = recv_status r
  /\ answered_on i (set_id_sring mem ins) p (rq_id base) bs s.
Proof.
  intros Hrep Ec Hwf Hre Hr Hrdy Hi Hlen Hoth Hfl Hex.
  pose proof (get_recv_message base t r [] Hwf Hr) as Hg. rewrite app_nil_r in Hg.
  pose proof (recv_count_bounds r Hr) as Hc. change MESSAGE_TYPE_MAX_PAYLOAD_LEN with 1985 in Hc.
  destruct (reply_arrives i ins mem bk c pos _ [] s Hrep Ec (wr_valid _ _ _ (recv_writes [] base t r Hwf Hre Hr)) Hrdy Hi Hlen Hoth)
    as (Htake & Hbs & p & Han); rewrite ?Hg; cbn [set_rs_body recv_reply rs_type rs_flags]; rewrite ?Hre.
  { by vm_compute. } { by vm_compute. } { by rewrite flag_kept. }
  { rewrite length_recv_message by done. change RESPONSE_REGION_SIZE with 2055. change (Z.of_nat RR_SIZE) with 2055. lia. }
  { exact Hex. }
  rewrite Hg in Hbs, Han. exists (ring_entry mem (rsp_cons (id_front_ring ins))), p. rewrite Hbs.
  cbn [set_rs_body rs_size rs_status rs_id]. split; [|split; [done|exact Han]].
  replace (Z.to_nat (rs_size (recv_reply base t r))) with (length (recv_message base t r)); [exact Htake|].
  pose proof (recv_size base t r Hr). pose proof (length_recv_message base t r Hr). lia.
Qed.

(** ** The whole call *)

(** (C5) The bytes of the network stack reach the application. The
    application receives on a socket that can take a request, and the
    ring of its INS holds no other request or response. Then its request
    is put on the ring. When the dispatcher of the INS next runs on this
    memory, with a free buffer item, and the worker thread of the socket
    in use and idle, one pass queues the request for the worker, and one
    round of the worker calls the stack's recv() exactly once, with the
    descriptor of the thread, the length the application gave but at most
    the payload of a message, and its flags in the numbers of the stack.
    When the protected VM then sees the memory and no other INS has a
    response, one pass of the response thread ends the call of the
    application: recv() returns the number of bytes the stack gave and has
    stored exactly these bytes, or it returns -1 with the Linux number of
    the stack's error in errno (and the end of the stream when that is the
    number for a lost connection). The request is gone, all references are
    given back and the socket takes the next request. *)
Theorem recv_reaches_the_stack i ins h f x fd Len Flags e s bk c pos :
  let req := recv_request fd Len Flags in
  let bytes := put_request req in
  idle_socket (ms_g s) h f x -> to_send x bytes -> room i ins x bytes s -> 0 <= Len ->
  ring_repr (id_sring ins) (id_front_ring ins) bk c pos -> ch_requests c = [] -> ch_responses c = [] ->
  Z.of_nat (length (mg_active_request_list (ms_g s))) < 2 ^ 62 ->
  serves (V := V) -> (forall s, file_of fd s = Some f) -> (0 < ring_fuel)%nat -> (0 < fuel)%nat ->
  exists a y z ins1 s1,
    alone (write_retry (Sys := stack) fuel fd bytes e) s = Done (0, e, s1)
  /\ awaiting (ms_g s1) h a f z y
  /\ mx_ins (pv_g (ms_pvm s1)) = <[i := ins1]> (mx_ins (pv_g (ms_pvm s)))
  /\ forall j k b t d v n n' si r v',
     (* the dispatcher and the worker of the INS, on the same memory *)
     let base := base_to_send (ar_id y) (si_remote_fd x) (get_request_base bytes) in
     let call := SysRecv (ti_local_fd t) (Z.min MESSAGE_TYPE_MAX_PAYLOAD_LEN Len) (xe_net_translate_msg_flags (u32 Flags)) in
     xs_ring d = id_sring ins1 -> cs_back_ring (xs_comm d) = bk ->
     serving_ready in_fd out_fd j k b t d v (rq_sockfd base) si -> bi_idx b = Z.of_nat j ->
     wq_inv (ti_work_queue t) -> wq_abs (ti_work_queue t) = [] -> 0 <= ti_awaiting_work_sem t ->
     os_call call v = (r, v') -> recv_answers r -> r_ret r <= Len ->
     exists si1 si2 mem,
       dispatch_one n si = Done (None, si1) /\ worker_iteration (Datatypes.S n') k si1 = Done (false, si2)
     /\ st_trace si2 = st_trace si ++ received_calls base call t r
     /\ iw_net (st_world si2) = v' /\ xs_ring (iw_xe (st_world si2)) = mem
     /\ forall s2,
        (* the protected VM, on the memory as the INS left it *)
        awaiting (ms_g s2) h a f z y -> mg_pending_exit (ms_g s2) = false ->
        mx_ins (pv_g (ms_pvm s2)) !! i = Some (set_id_sring mem ins1) ->
        length (mx_ins (pv_g (ms_pvm s2))) = MAX_INS_COUNT ->
        (forall l, l <> i -> has_response (ms_pvm s2) l = false) ->
        has_flag (Z.lor (rq_flags (get_request_base bytes)) (ti_state_flags t)) MT_FLAGS_REMOTE_CLOSED = false ->
        exists s3 z3,
          (let* _ := consume_response in
           alone ((let# (rc, _, resp) := await_response (Sys := stack) fuel fd req zero_response in
                   recv_finish Len false false rc resp) e)) s2
          = Done (recv_given r e, s3)
        /\ mg_active_requests (ms_g s3) !! a = None
        /\ idle_socket (ms_g s3) h f z3 /\ si_refct z3 = si_refct x.
Proof.
  intros req bytes Hi Ht Hr HLen Hrep Hq0 Hr0 Hlen Hsv Hfd Hrf Hfuel.
  destruct (request_reaches_ring fuel ring_fuel file_of last_one other i ins h f x fd req e s Hi Ht Hr Hrf Hlen Hsv Hfd Hfuel)
    as (a & y & z & s1 & E & Haw & Hrefs & _ & Hid & _ & _ & _ & Hring).
  set (msg := sent_message (ar_id y) (si_remote_fd x) bytes) in *.
  exists a, y, z, (pushed msg ins), s1. do 3 (split; [done|]).
  intros j k b t d v n n' si r v' base call Hd Hbk Hrdy Hidx Hq Hempty Hsem Hc Hret HrLen.
  destruct (recv_request_read fd Len Flags HLen) as (Hre & Hsize & Hread). fold req in Hre, Hsize, Hread. fold bytes in Hre, Hsize, Hread.
  assert (asks_to_receive msg) as Hmsg.
  { apply sent_receive; [unfold in_u; lia|apply (ts_fd _ _ Ht)|apply (ts_message _ _ Ht)|done|lia]. }
  destruct (sent_message_valid (ar_id y) (si_remote_fd x) bytes) as (_ & Hbase & _);
    [unfold in_u; lia|apply (ts_fd _ _ Ht)|apply (ts_message _ _ Ht)|]. fold msg in Hbase. fold base in Hbase.
  assert (recv_call t msg = call) as Hcall by (unfold msg; rewrite sent_recv_call; unfold recv_call; by rewrite Hread).
  pose proof (repr_send _ _ _ _ _ msg Hrep (room_left _ _ _ _ _ _ _ _ Hr Hrep) (request_fits _ (rq_valid _ Hmsg))) as Hsent.
  destruct (ins_receives n n' j k b t d v si r v' msg (id_front_ring (pushed msg ins)) (chan_send msg c) pos Hmsg)
    as (si1 & si2 & bk' & c' & E1 & E2 & Hv & Hrep2 & Hresp & Htr); rewrite ?Hbase; try done.
  { rewrite Hd, Hbk. exact Hsent. }
  { cbn [chan_send ch_requests]. by rewrite Hq0. }
  { by rewrite Hcall. }
  exists si1, si2, (xs_ring (iw_xe (st_world si2))). rewrite Hbase, Hcall in Htr. do 5 (split; [done|]).
  intros s2 Haw2 Hex Hi2 Hlen2 Hoth Hfl. rewrite Hbase in Hresp.
  assert (request_base_wf base /\ receives base) as [Hwf Hrb] by (rewrite <- Hbase; split; apply Hmsg).
  destruct (answer_of_recv i (pushed msg ins) _ bk' c' pos base t r s2 Hrep2 Hresp Hwf Hrb Hret
    (sd_ready _ _ _ _ (rm_entry _ _ _ _ _ Hr)) Hi2 Hlen2 Hoth Hfl Hex) as (bs & p & Htake & Hst & Han).
  destruct (response_reaches_application fuel ring_fuel file_of last_one other s2 h a f z y i _ p bs fd req zero_response e
    Haw2 Han Hsv Hfd Hfuel) as (s3 & z3 & E3 & _ & Hgone & Hidle & Hrefs3).
  rewrite Htake, Hst in E3. exists s3, z3. split; [|split; [done|split; [done|lia]]].
  apply (await_then _ _ _ _ _ _ _ _ _ E3), finish_run; done.
Qed.

End Whole.

(** ** A concrete run *)

Section Runs.

#[local] Existing Instance LinkedPvm.
#[local] Existing Instance LinkedMws.
#[local] Abbreviation state := (mws_state simple_ring (nf_world Z)).
#[local] Abbreviation ins := (InsLink.ins_world simple_ring (list (list Z * list Z)) (list sysres)).
#[local] Abbreviation recv_sys := (StackSys (V := Z) 3 (fun _ _ => Some 3%nat) (fun _ _ => true) idle_libc).
#[local] Hint Extern 0 (NetOS (InsLink.ins_world _ _ _)) => exact (InsServe.Net [] 0 3) : typeclass_instances.

(** The application asks for at most 100 bytes; the stack has two. *)
Lemma recv_reaches_the_stack_witness :
  exists s1 (si si1 si2 : ins_state ins) s2 s3,
    alone (write_retry (Sys := recv_sys) 1 5 (put_request (recv_request 5 100 0)) 0) ready_module = Done (0, 0, s1)
  /\ dispatch_one 0 si = Done (None, si1) /\ worker_iteration 1 1 si1 = Done (false, si2)
  /\ (let* _ := consume_response in
      alone ((let# (rc, _, resp) := await_response (Sys := recv_sys) 1 5 (recv_request 5 100 0) zero_response in
              recv_finish 100 false false rc resp) 0)) s2
     = Done ({| so_ret := 2; so_buf := Some [72; 105]; so_addr := None; so_val := None |}, 0, s3).
Proof.
  destruct (recv_reaches_the_stack (U := list sysres) (X := list (list Z * list Z)) 1 3 (fun _ _ => Some 3%nat)
    (fun _ _ => true) idle_libc [] 0 3 3 3 0 ready_ins 0 3 ready_sock 5 100 0 0 ready_module
    {| rsp_prod_pvt := 0; req_cons := 0 |} chan_empty 0) as (a & y & z & e1 & s1 & E & Haw & Htab & Hnext).
  - split; [exact ready_socket_books|by vm_compute..].
  - split; [split|..]; first [by vm_compute|apply Nat.leb_le; by vm_compute|split; by vm_compute].
  - split; [split; [done|apply Nat.ltb_lt; by vm_compute|by vm_compute|split; by vm_compute|done|done|intros j e' Hj; lia]|done|by vm_compute].
  - lia.
  - exact ready_ring_repr.
  - done.
  - done.
  - by vm_compute.
  - split; by intros.
  - done.
  - lia.
  - lia.
  - assert (match alone (write_retry (Sys := recv_sys) 1 5 (put_request (recv_request 5 100 0)) 0) ready_module with
            | Done (_, _, s) => mg_pending_exit (ms_g s) | _ => true end = false) as Hrun by (vm_compute; reflexivity).
    rewrite E in Hrun. set (script := [res_bytes [72; 105]]).
    destruct (run_ready (id_sring e1) script) as (b & t & Hrdy & Hfd & Hfl & Hidx & Hsem & Hq & Hempty).
    destruct (Hnext 0%nat 1%nat b t (serving_driver (id_sring e1)) script 0%nat 0%nat (serving_ins (id_sring e1) script)
      (res_bytes [72; 105]) []) as (si1 & si2 & mem & E1 & E2 & _ & _ & _ & Hback).
    + reflexivity.
    + reflexivity.
    + exact Hrdy.
    + exact Hidx.
    + exact Hq.
    + exact Hempty.
    + by rewrite Hsem.
    + reflexivity.
    + left. split; [split; by vm_compute|by vm_compute].
    + by vm_compute.
    + destruct (Hback (mapped_back mem e1 s1)) as (s3 & z3 & E3 & _).
      * exact Haw.
      * exact Hrun.
      * cbn [mapped_back ms_pvm pv_g set_pv_g mx_ins set_mx_ins]. rewrite Htab. reflexivity.
      * cbn [mapped_back ms_pvm pv_g set_pv_g mx_ins set_mx_ins]. rewrite Htab. reflexivity.
      * intros l Hl. exact (mapped_back_others mem e1 s1 e1 l Htab Hl).
      * rewrite Hfl. by vm_compute.
      * exists s1, (serving_ins (id_sring e1) script), si1, si2, (mapped_back mem e1 s1), s3.
        split; [exact E|]. split; [exact E1|]. split; [exact E2|]. exact E3.
Defined.

End Runs.
